(* ===== verification/_CoqProject ===== *)
-Q . S2P
Prelude.v
Utils.v
Threads.v
Telecom.v
Headers.v
Packet.v
Network.v
Transport.v
Pool.v
PacketTypes.v
Security.v
Sink.v
Messages.v
Ausf.v
Upf.v
UpfTypes.v
Datagrams.v
UpfThreads.v
Smf.v
SmfTypes.v
SmfThreads.v
Amf.v
Ran.v
Core.v
Startup.v
Attach.v
AmfThreads.v
AmfApart.v
AmfTypes.v
Handover.v
UserPlane.v
System.v
