(* ===== verification/Prelude.v ===== *)
(** * SBA-gRPC-5G: a 5G core over gRPC (root of the development)

    The program is a 5G core in C++: an AMF, an SMF, an AUSF and a UPF, a
    simulated base station with its UEs, and a sink that plays the data
    network.  Each is a process of its own.  The base stations speak S1AP/NAS
    to the AMF over TCP; the AMF calls the AUSF and the SMF over gRPC; the SMF
    sends N4 requests to the UPF over UDP; IP packets of the UEs travel in GTP
    over UDP, from the station's tun device through the UPF to the sink's and
    back; a registry (Consul) tells the functions where they find each other.

    The definitions follow the C++ method by method and keep its names.
    File names below are under src/src unless another directory is given.

    ** Conventions

    - A C++ integer is a [Z]; [u8], [u16], [u32], [u64] and [s32] wrap where
      the code stores into a variable of that width ([is_u8] and so on say
      that a value is in range).  A byte string is a list of [Z].
    - [result A] is a computation that may end the process: [Fault (Exit _)] is
      [exit], [Fault (Throw _)] an exception nobody catches, [Fault (UB _)]
      undefined behaviour (an access outside a buffer, a [bool] that is neither
      0 nor 1, a returned value that is missing, a data race); or that never
      leaves a call ([Fault (Waits _)]).
    - [prog S A] is a computation over the state [S] of a process:
      [S -> result A * S].  [satisfies] and [triple] state what a program
      does from every state of a kind; [triple_tac] applies the rules of the
      [triple] hint database.
    - What the environment does is an argument: the kernel's answers, call
      after call, the clock, the memory that a constructor leaves unset
      ([garbage], [m], [h0]).  An answer that never comes is [None].
    - A library behind the code is a class of operations with a class of laws
      that state its documentation: [CryptoLib]/[CryptoLaws] (OpenSSL),
      [MySqlLib]/[MySqlLaws], [Consul]/[ConsulLaws].  The services behind a
      client are classes too: [N4]/[N4Contract] (the UPF as the SMF sees it),
      [AusfStub]/[AusfContract], [SmfStub]/[SmfContract], [Handover].  The
      client's theorems are proved against the class; Core.v shows that the
      functions of this development satisfy it.

    ** Files

    - Prelude: the monads, the integer widths, tactics and shared lemmas.
    - Threads: programs cut into accesses to shared objects, under a mutex or
      not; pools of threads, schedules, data races.
    - Utils (utils, sync), Telecom (telecom: PLMN, GUMMEI, IMSI, GUTI and the
      S11 TEID as concatenated numerals), Headers (gtp, s1ap, diameter at their
      object layout), Packet (packet: the heap buffer with its cursor),
      Network (network: partial reads and writes, length-prefixed packets).
    - Transport (sctp_client, sctp_server, udp_client, udp_server, tun): one
      definition per method, the accepting thread and the workers turn by turn;
      Pool: the same turns interleaved, as a step relation.
    - Security (security: encryption and HMAC around NAS messages).
    - Messages (src/protos/ngcode.proto): the gRPC messages and stubs.
    - Ausf (ausf, ausf_server, mysql), Upf (upf, upf_server), Smf (smf,
      smf_server), Amf (amf, amf_server), Ran (ran, ran_simulator), Sink (sink,
      sink_server): state as a record, one definition per handler, and the
      dispatcher as one turn of the receiving loop.  PacketTypes, UpfTypes,
      SmfTypes and AmfTypes consider the packet methods and the three network
      functions on arbitrary bytes.
    - UpfThreads, SmfThreads, AmfThreads: the handlers once more with their
      critical sections, and the proof that alone they are those of Upf, Smf
      and Amf; AmfApart: what a message of an attached UE touches in the AMF;
      Datagrams: a datagram that a thread sends.
    - Core: the AUSF and the SMF with its UPF as the world behind the AMF.
    - Startup: the mains of the six programs, the registration at Consul.
    - Attach: the AMF's procedures message by message; Handover: its handover
      messages, with and without a UPF and base stations; UserPlane: IP packets between a UE
      and the sink; System: a UE, the AMF and the core, end to end.

    ** What the theorems show

    - Control plane, end to end: [System.attach_end_to_end],
      [System.detach_end_to_end], and message by message in Attach
      ([attach_request_challenged], [session_created_for_hmac_bytes],
      [attach_completed_without_downlink], [detach_removes_everything],
      [one_bad_message_stops_the_amf], [identities_are_fresh]).
    - Authentication does not authenticate: [Attach.any_response_is_accepted],
      [System.any_ue_gives_the_expected_response].
    - Refinement: the UPF's five tables represent a set of sessions and each N4
      request changes exactly that set ([Upf.n4_refinement],
      [Upf.n4_sequence]); the SMF carries a gRPC request out at the UPF
      ([Smf.smf_refinement]).
    - User plane: [UserPlane.user_plane_transparent],
      [UserPlane.downlink_end_to_end], [UserPlane.oversized_packets_overflow],
      [Sink.sink_forwards_in_order].
    - Handover: [Handover.handover_messages], the AMF's four messages whether
      or not the UPF is where the AMF looks for it (port 7300, while upf.cpp
      binds 7000) and the base stations accept connections (no program of the
      source does); [Upf.indirect_tunnel_collision].
    - Types, memory and bounds: [UpfTypes.n4_memory_safe] for any datagram at
      the UPF ([UpfTypes.serve_typed] for its three interfaces);
      [SmfTypes.smf_memory_safe] for any answer of the UPF at the SMF;
      [AmfTypes.amf_memory_safe] for any message at the AMF, and
      [AmfTypes.short_message_overruns] for the one exception it names;
      [Packet.packet_memory_invariant], [Packet.append_bounds_exact],
      [Upf.address_pool_correct].
    - Round trips: [Packet.message_roundtrip], [Network.sctp_packet_roundtrip],
      [Network.sctp_stream_in_order], [Security.nas_protection_roundtrip],
      [Security.hmac_check_exact].
    - Concurrency of the threads of a network function: for every schedule,
      requests for different subscribers do not disturb each other in the UPF
      ([UpfThreads.threads_do_not_interfere]), in the AMF
      ([AmfApart.amf_messages_do_not_interfere]) and, modify requests apart, in
      the SMF ([SmfThreads.smf_requests_do_not_interfere]), the last two unless
      they race; the AMF gives every UE a number of its own
      ([AmfThreads.identities_are_fresh_in_threads]).  And for one schedule
      each: two create requests race in the SMF and in the AMF
      ([SmfThreads.create_requests_race], [AmfThreads.session_requests_race]);
      two modify requests mix their base stations
      ([SmfThreads.modify_requests_mix]); a subscriber who attaches again at
      once loses its entries, in the UPF and in the AMF
      ([UpfThreads.detach_answers_too_early],
      [AmfThreads.amf_detach_answers_too_early]).
    - Concurrency of the worker pool: for every interleaving no client is lost
      and a worker watches exactly those whose handler has not ended them
      ([Pool.pool_keeps_clients]), and the workers can always drain the pipes
      ([Pool.pool_drains]); [Transport.worker_round_correct].
    - Databases and errors: [Ausf.autn_vector_correct],
      [Ausf.location_update_correct], [Smf.smf_timeout_is_success],
      [Smf.smf_contexts_only_grow].
    - Start-up and end: [Startup.discovery], [Startup.upf_startup_wiring];
      [Ran.missed_second_never_ends], [Startup.totals_any_order].

    ** Loops, fuel and bounds

    A loop over the kernel's answers recurses on the list of answers, a loop
    over a table or an argument on that, a counting loop on the number of its
    turns (10000 for the address pool, as in upf.cpp); none has fuel of its
    own.  A turn of a loop of the UPF takes at most seven turns of its thread
    ([UpfThreads.job_budget]), a request at the SMF at most thirteen
    (an access without the mutex is two of them).  [Ran.simulate_loop] takes the readings of the clock, and
    [Ran.missed_second_never_ends] holds for every list of them.
    The receiving loops of the servers are modelled by one turn; sequences of
    turns are lists of messages or steps.  No theorem says only what holds if
    a definition returns: that it returns is part of the statement, or the
    statement names the fault.  [BUF_SIZE] is 1024 as in packet.h; the
    [malloc]s of 1 KiB are assumed to succeed.

    ** Not modelled, and why

    - Data races are found when the accesses overlap: two accesses of two
      threads to one object, one of them a write and one without the mutex,
      the second of which begins before the first has ended, are [UB].  Two
      such accesses that do not overlap are taken in their order, although
      C++ calls them a race too.  What is only written before the threads
      start is one cell, read in one turn.  In AmfThreads and SmfThreads what
      the peers answer is an argument; the threads of two network functions
      are not interleaved with each other.
    - Two functions of the AUSF end without their return statement.  Ausf.v has
      every outcome of that; in the core behind the AMF, and so in the
      end-to-end theorems, it is the one that works ([Same_pointer]).
    - Traces, log files, how a stream formats a number; waiting for threads;
      signal dispositions; the destructors that free memory.
    - The gRPC and HTTP machinery: stubs are calls, a server is an address.
    - Vendored or third-party code: ppconsul and its copies at the top level
      (agent, catalog, consul, health, helpers, kv, status), json11, catch with
      main.cpp, grpclb; the gRPC samples (server, client, greeter_server,
      greeter_client, grpc.classes); poisson.cpp, a stand-alone experiment.

    ** Plan

    Done: everything listed above.  What could follow: the traffic monitor of
    the simulator interleaved with its UE threads; the threads of two network
    functions interleaved with each other. *)

From Stdlib Require Import ZArith Lia.
From stdpp Require Export base option list strings numbers gmap fin_maps pretty.
From coqutil.Datatypes Require Export RecordSetters.
From coqutil.Z Require PushPullMod.

(** ** Notations *)

Declare Scope c_scope.
Delimit Scope c_scope with c.
Open Scope c_scope.
#[export] Set Default Goal Selector "!".

(** Functional update of one field of a C++ object, as in [obj.f = v;]. *)
Notation "x <| proj := v |>" := (apply_update (mk_update proj (constant v)) x)
  (at level 1, left associativity, proj at next level, v at level 200,
   format "x <| proj  :=  v |>") : c_scope.

Arguments constant {E} newValue _ /.

(** ** Outcomes of a piece of code

    [Ret a]: it returned [a].  [Fault]: it did not.  The process stopped, by
    [exit(EXIT_FAILURE)] (with the message handed to [perror]), by an
    exception nobody catches, or by undefined behaviour (an access outside
    a buffer, a negative size given to [memmove], ...); or the thread never
    leaves the named call. *)

Inductive fault :=
  | Exit (msg : string)
  | Throw (what : string)
  | UB (why : string)
  | Waits (call : string).

Inductive result (A : Type) :=
  | Ret (a : A)
  | Fault (f : fault).
Arguments Ret {A} a.
Arguments Fault {A} f.

#[export] Instance fault_eq_dec : EqDecision fault.
Proof. solve_decision. Defined.

#[export] Instance result_ret : MRet result := @Ret.
#[export] Instance result_bind : MBind result :=
  fun A B k c => match c with Ret a => k a | Fault f => Fault f end.

Lemma result_bind_assoc {A B C} (c : result A) (k : A -> result B) (g : B -> result C) :
  (y ← (x ← c; k x); g y) = (x ← c; y ← k x; g y).
Proof. by destruct c. Qed.

(** Code with a state: an object's methods, or a whole process. The state
    survives a fault, so a theorem can say what was already done. *)
Definition prog (S A : Type) : Type := S -> result A * S.

#[export] Instance prog_ret S : MRet (prog S) := fun A a s => (Ret a, s).
#[export] Instance prog_bind S : MBind (prog S) :=
  fun A B k c s =>
    match c s with
    | (Ret a, s') => k a s'
    | (Fault f, s') => (Fault f, s')
    end.

Definition fail {S A} (f : fault) : prog S A := fun s => (Fault f, s).
Definition lift {S A} (r : result A) : prog S A := fun s => (r, s).
Definition gets {S A} (f : S -> A) : prog S A := fun s => (Ret (f s), s).
Definition modify {S} (f : S -> S) : prog S unit := fun s => (Ret tt, f s).

(** Reduces the monad's plumbing and field updates, and nothing else. *)
Ltac res := cbn [mbind result_bind mret result_ret apply_update constant] in *.

Section ProgLaws.
Context {S : Type}.

Lemma run_bind {A B} (c : prog S A) (k : A -> prog S B) s a s' :
  c s = (Ret a, s') -> (x ← c; k x) s = k a s'.
Proof. intros H. unfold mbind, prog_bind. by rewrite H. Qed.

Lemma run_bind_fault {A B} (c : prog S A) (k : A -> prog S B) s f s' :
  c s = (Fault f, s') -> (x ← c; k x) s = (Fault f, s').
Proof. intros H. unfold mbind, prog_bind. by rewrite H. Qed.

Lemma run_lift {A B} (r : result A) (k : A -> prog S B) s a :
  r = Ret a -> (x ← lift r; k x) s = k a s.
Proof. by intros ->. Qed.

Lemma run_lift_fault {A B} (r : result A) (k : A -> prog S B) s f :
  r = Fault f -> (x ← lift r; k x) s = (Fault f, s).
Proof. by intros ->. Qed.

Lemma run_gets {A B} (g : S -> A) (k : A -> prog S B) s :
  (x ← gets g; k x) s = k (g s) s.
Proof. done. Qed.

Lemma run_modify {B} (g : S -> S) (k : unit -> prog S B) s :
  (x ← modify g; k x) s = k tt (g s).
Proof. done. Qed.

Lemma run_ret {A B} (a : A) (k : A -> prog S B) s : (x ← mret a; k x) s = k a s.
Proof. done. Qed.

Lemma run_end {A} (c : prog S A) s : c s = (x ← c; mret x) s.
Proof. unfold mbind, prog_bind. by destruct (c s) as [[] ?]. Qed.

Lemma run_assoc {A B C} (c : prog S A) (k : A -> prog S B) (h : B -> prog S C) s :
  (y ← (x ← c; k x); h y) s = (x ← c; y ← k x; h y) s.
Proof. unfold mbind, prog_bind. by destruct (c s) as [[] ?]. Qed.
End ProgLaws.

(** *** What a piece of code always does to the state, faults included *)

Definition always {S A} (R : S -> S -> Prop) (c : prog S A) : Prop :=
  forall s, R s (c s).2.

Section Always.
Context {S : Type} (R : S -> S -> Prop) `{!PreOrder R}.

Lemma always_bind {A B} (c : prog S A) (k : A -> prog S B) :
  always R c -> (forall a, always R (k a)) -> always R (x ← c; k x).
Proof.
  intros Hc Hk s. specialize (Hc s). unfold mbind, prog_bind.
  destruct (c s) as [[a|f] s']; [|done]. etrans; [exact Hc | apply Hk].
Qed.

Lemma always_ret {A} (a : A) : always R (mret a).
Proof. intros s. simpl. reflexivity. Qed.
Lemma always_lift {A} (r : result A) : always R (lift r).
Proof. intros s. simpl. reflexivity. Qed.
Lemma always_gets {A} (f : S -> A) : always R (gets f).
Proof. intros s. simpl. reflexivity. Qed.
Lemma always_modify (f : S -> S) : (forall s, R s (f s)) -> always R (modify f).
Proof. intros H s. apply H. Qed.
Lemma always_if {A} (b : bool) (c d : prog S A) :
  always R c -> always R d -> always R (if b then c else d).
Proof. by destruct b. Qed.
End Always.

Create HintDb always.

(** Two pieces with relations of their own. *)
Lemma always_seq {S A B} (R1 R2 R3 : S -> S -> Prop) (c : prog S A) (k : A -> prog S B) :
  always R1 c -> (forall a, always R2 (k a)) ->
  (forall x y, R1 x y -> R3 x y) -> (forall x y z, R1 x y -> R2 y z -> R3 x z) ->
  always R3 (x ← c; k x).
Proof.
  intros Hc Hk H1 H2 s. specialize (Hc s). unfold mbind, prog_bind.
  destruct (c s) as [[a|f] s']; [|by apply H1]. eapply H2; [exact Hc | apply Hk].
Qed.

Lemma always_mono {S A} (R R' : S -> S -> Prop) (c : prog S A) :
  always R c -> (forall x y, R x y -> R' x y) -> always R' c.
Proof. intros Hc H s. apply H, Hc. Qed.

(** Statement by statement; the operations of a component are in the hint
    database. *)
Ltac always_step :=
  lazymatch goal with
  | |- always _ (mbind _ _) => apply always_bind; [apply _ | | intros ?]
  | |- always _ (mret _) => apply always_ret; apply _
  | |- always _ (lift _) => apply always_lift; apply _
  | |- always _ (gets _) => apply always_gets; apply _
  | |- always _ (match ?x with _ => _ end) => destruct x
  | |- always _ (let _ := _ in _) => cbv zeta
  | |- always _ _ => solve [eauto 3 with always nocore]
  end.
Ltac always_tac := repeat always_step.

(** *** What holds whenever a piece of code runs, and of how it ends

    [F] says which ways to stop are possible. *)
Definition satisfies {A} (F : fault -> Prop) (Q : A -> Prop) (r : result A) : Prop :=
  match r with Ret a => Q a | Fault f => F f end.

(** Every way for the process to stop but undefined behaviour. *)
Definition stops (f : fault) : Prop := match f with Exit _ | Throw _ => True | UB _ | Waits _ => False end.

Definition triple {S A} (I : S -> Prop) (F : fault -> Prop) (c : prog S A) (Q : A -> Prop) : Prop :=
  forall s, I s -> satisfies F Q (c s).1 /\ I (c s).2.

Lemma satisfies_bind {A B} F (Q : A -> Prop) (R : B -> Prop) (c : result A) (k : A -> result B) :
  satisfies F Q c -> (forall a, Q a -> satisfies F R (k a)) -> satisfies F R (x ← c; k x).
Proof. destruct c as [a|f]; cbn; auto. Qed.

Lemma satisfies_mono {A} (F F' : fault -> Prop) (Q Q' : A -> Prop) r :
  satisfies F Q r -> (forall f, F f -> F' f) -> (forall a, Q a -> Q' a) -> satisfies F' Q' r.
Proof. destruct r; cbn; auto. Qed.

Section Triple.
Context {S : Type} (I : S -> Prop) (F : fault -> Prop).

Lemma triple_bind {A B} (Q : A -> Prop) (R : B -> Prop) (c : prog S A) (k : A -> prog S B) :
  triple I F c Q -> (forall a, Q a -> triple I F (k a) R) -> triple I F (x ← c; k x) R.
Proof.
  intros Hc Hk s Hs. destruct (Hc s Hs) as [H1 H2]. unfold mbind, prog_bind.
  destruct (c s) as [[a|f] s']; [by apply Hk | by split].
Qed.
Lemma triple_ret {A} (Q : A -> Prop) a : Q a -> triple I F (mret a) Q.
Proof. intros H s Hs. by split. Qed.
Lemma triple_lift {A} (Q : A -> Prop) (r : result A) : satisfies F Q r -> triple I F (lift r) Q.
Proof. intros H s Hs. by split. Qed.
Lemma triple_gets {A} (Q : A -> Prop) (f : S -> A) : (forall s, I s -> Q (f s)) -> triple I F (gets f) Q.
Proof. intros H s Hs. split; [by apply H | done]. Qed.
Lemma triple_modify (f : S -> S) : (forall s, I s -> I (f s)) -> triple I F (modify f) (fun _ => True).
Proof. intros H s Hs. split; [done | by apply H]. Qed.
Lemma triple_mono {A} (Q Q' : A -> Prop) (c : prog S A) :
  triple I F c Q -> (forall a, Q a -> Q' a) -> triple I F c Q'.
Proof. intros H HQ s Hs. destruct (H s Hs) as [H1 H2]. split; [by eapply satisfies_mono | done]. Qed.
End Triple.

(** Statement by statement: what a library call or an operation of the
    component satisfies is in the hint database. *)
Create HintDb triple.
Ltac triple_step :=
  lazymatch goal with
  | |- triple _ _ (mbind _ _) _ =>
      eapply triple_bind; [solve [eauto 4 with triple] | cbv beta; intros]
  | |- triple _ _ (mret _) _ => apply triple_ret
  | |- triple _ _ (let _ := _ in _) _ => cbv zeta
  | |- triple _ _ (let '(_, _) := ?x in _) _ => destruct x; cbn [fst snd] in *
  | |- triple _ _ (if ?b then _ else _) _ => destruct b
  | |- triple _ _ _ _ => solve [eauto 4 with triple]
  end.
Ltac triple_tac :=
  repeat (triple_step; repeat match goal with
    | H : _ /\ _ |- _ => destruct H
    | H : exists _, _ |- _ => destruct H
    end).

(** One statement of a program: [run] reduces the ones that cannot fault,
    [run with tac] a call whose result [tac] computes. *)
Ltac run1 :=
  first [ rewrite run_ret | rewrite run_gets | rewrite run_modify | rewrite run_assoc ];
  cbv beta iota zeta.
Ltac run := cbv beta iota zeta; repeat run1.
Tactic Notation "run" "with" tactic3(tac) :=
  erewrite run_lift; [|solve [tac]]; cbv beta iota zeta; repeat run1.

(** ** Machine integers: wrap-around written out *)

Open Scope Z_scope.

Definition u8 (z : Z) : Z := z mod 2 ^ 8.
Definition u16 (z : Z) : Z := z mod 2 ^ 16.
Definition u32 (z : Z) : Z := z mod 2 ^ 32.
Definition u64 (z : Z) : Z := z mod 2 ^ 64.
Definition s32 (z : Z) : Z := (z + 2 ^ 31) mod 2 ^ 32 - 2 ^ 31.
Definition s64 (z : Z) : Z := (z + 2 ^ 63) mod 2 ^ 64 - 2 ^ 63.

Arguments u8 : simpl never.
Arguments u16 : simpl never.
Arguments u32 : simpl never.
Arguments u64 : simpl never.
Arguments s32 : simpl never.
Arguments s64 : simpl never.

(** The values of a type. *)
Definition is_u8 (z : Z) : Prop := 0 <= z < 2 ^ 8.
Definition is_u16 (z : Z) : Prop := 0 <= z < 2 ^ 16.
Definition is_u32 (z : Z) : Prop := 0 <= z < 2 ^ 32.
Definition is_u64 (z : Z) : Prop := 0 <= z < 2 ^ 64.
Definition is_s32 (z : Z) : Prop := - 2 ^ 31 <= z < 2 ^ 31.

Lemma u8_id z : 0 <= z < 2 ^ 8 -> u8 z = z.
Proof. apply Z.mod_small. Qed.
Lemma u16_id z : 0 <= z < 2 ^ 16 -> u16 z = z.
Proof. apply Z.mod_small. Qed.
Lemma u32_id z : 0 <= z < 2 ^ 32 -> u32 z = z.
Proof. apply Z.mod_small. Qed.
Lemma u64_id z : 0 <= z < 2 ^ 64 -> u64 z = z.
Proof. apply Z.mod_small. Qed.
Lemma s32_id z : - 2 ^ 31 <= z < 2 ^ 31 -> s32 z = z.
Proof. intros H. unfold s32. rewrite Z.mod_small; lia. Qed.
Lemma s64_id z : - 2 ^ 63 <= z < 2 ^ 63 -> s64 z = z.
Proof. intros H. unfold s64. rewrite Z.mod_small; lia. Qed.

Lemma u8_range z : 0 <= u8 z < 2 ^ 8.
Proof. apply Z.mod_pos_bound; lia. Qed.
Lemma u16_range z : 0 <= u16 z < 2 ^ 16.
Proof. apply Z.mod_pos_bound; lia. Qed.
Lemma u32_range z : 0 <= u32 z < 2 ^ 32.
Proof. apply Z.mod_pos_bound; lia. Qed.
Lemma u64_range z : 0 <= u64 z < 2 ^ 64.
Proof. apply Z.mod_pos_bound; lia. Qed.
Lemma s32_range z : - 2 ^ 31 <= s32 z < 2 ^ 31.
Proof. unfold s32. pose proof (Z.mod_pos_bound (z + 2 ^ 31) (2 ^ 32)). lia. Qed.

(** A 64-bit identifier that crosses an [int64] protobuf field comes back. *)
Lemma u64_s64 z : u64 (s64 z) = u64 z.
Proof.
  unfold u64, s64. rewrite Zminus_mod_idemp_l.
  by replace (z + 2 ^ 63 - 2 ^ 63) with z by lia.
Qed.

(** And a 32-bit one that crosses an [int32] field. *)
Lemma u32_s32 z : u32 (s32 z) = u32 z.
Proof.
  unfold u32, s32. rewrite Zminus_mod_idemp_l.
  by replace (z + 2 ^ 31 - 2 ^ 31) with z by lia.
Qed.

Lemma s32_u32 z : s32 (u32 z) = s32 z.
Proof. unfold u32, s32. by rewrite Zplus_mod_idemp_l. Qed.

(** Narrowing after a wider narrowing. *)
Lemma u16_u64 z : u16 (u64 z) = u16 z.
Proof. apply Z.mod_mod_divide. exists (2 ^ 48). lia. Qed.
Lemma u32_u64 z : u32 (u64 z) = u32 z.
Proof. apply Z.mod_mod_divide. exists (2 ^ 32). lia. Qed.
Lemma u8_u64 z : u8 (u64 z) = u8 z.
Proof. apply Z.mod_mod_divide. exists (2 ^ 56). lia. Qed.

Lemma s32_idem z : s32 (s32 z) = s32 z.
Proof.
  apply s32_id. unfold s32. pose proof (Z.mod_pos_bound (z + 2 ^ 31) (2 ^ 32) ltac:(lia)). lia.
Qed.

Lemma u8_s32 z : u8 (s32 z) = u8 z.
Proof.
  transitivity (u8 (u32 (s32 z))).
  - symmetry. apply Z.mod_mod_divide. exists (2 ^ 24). lia.
  - rewrite u32_s32. apply Z.mod_mod_divide. exists (2 ^ 24). lia.
Qed.

Create Rewrite HintDb word.
#[export] Hint Rewrite u8_s32 u64_s64 u32_s32 s32_u32 u16_u64 u32_u64 u8_u64 : word.

(** Equality of two words: the inner wrap-arounds can be dropped. *)
Ltac wrap :=
  unfold u8, u16, u32, u64;
  repeat match goal with |- context [2 ^ ?n] =>
    let m := eval vm_compute in (2 ^ n) in change (2 ^ n) with m end;
  PushPullMod.Z.push_pull_mod; f_equal; lia.

(** ** [std::unordered_map] *)

Section Maps.
Context {K A : Type} `{Countable K}.

(** The value of [m[k]]; [d] is a value-initialised element. *)
Definition at_or (d : A) (m : gmap K A) (k : K) : A := default d (m !! k).

(** The map after [m[k]] was evaluated: [operator[]] inserts. *)
Definition touch (d : A) (k : K) (m : gmap K A) : gmap K A := <[k := at_or d m k]> m.

(** The map after a member of [m[k]] was assigned to. *)
Definition upd (d : A) (f : A -> A) (k : K) (m : gmap K A) : gmap K A :=
  <[k := f (at_or d m k)]> m.

Lemma at_or_Some d m k v : m !! k = Some v -> at_or d m k = v.
Proof. unfold at_or. by intros ->. Qed.

Lemma at_or_insert d m k v : at_or d (<[k := v]> m) k = v.
Proof. unfold at_or. by rewrite lookup_insert_eq. Qed.

Lemma touch_id d k m v : m !! k = Some v -> touch d k m = m.
Proof. intros E. unfold touch. rewrite (at_or_Some _ _ _ _ E). by apply insert_id. Qed.

Lemma at_or_touch d k m : at_or d (touch d k m) k = at_or d m k.
Proof. apply at_or_insert. Qed.

Lemma touch_upd d f k m : touch d k (upd d f k m) = upd d f k m.
Proof. unfold upd. apply (touch_id _ _ _ _ (lookup_insert_eq _ _ _)). Qed.

Lemma at_or_upd d f k m : at_or d (upd d f k m) k = f (at_or d m k).
Proof. apply at_or_insert. Qed.

Lemma upd_upd d f g k m : upd d g k (upd d f k m) = upd d (fun x => g (f x)) k m.
Proof. unfold upd. by rewrite at_or_insert, insert_insert_eq. Qed.

Lemma upd_touch d f k m : upd d f k (touch d k m) = upd d f k m.
Proof. unfold upd, touch. by rewrite at_or_insert, insert_insert_eq. Qed.

Lemma touch_touch d k m : touch d k (touch d k m) = touch d k m.
Proof. unfold touch. by rewrite at_or_insert, insert_insert_eq. Qed.
End Maps.

Create Rewrite HintDb omap.
#[export] Hint Rewrite @at_or_insert @at_or_touch @touch_upd @at_or_upd @upd_upd @upd_touch
  @touch_touch : omap.

(** ** Bytes, little endian *)

Definition is_byte (b : Z) : Prop := 0 <= b < 256.
Definition bytes (bs : list Z) : Prop := Forall is_byte bs.

Fixpoint le_bytes (n : nat) (z : Z) : list Z :=
  match n with
  | O => []
  | S n => z mod 256 :: le_bytes n (z / 256)
  end.

Fixpoint le_val (bs : list Z) : Z :=
  match bs with
  | [] => 0
  | b :: bs => b + 256 * le_val bs
  end.

Lemma length_le_bytes n z : length (le_bytes n z) = n.
Proof. revert z; induction n; intros z; simpl; [done | by rewrite IHn]. Qed.

Lemma bytes_le_bytes n z : bytes (le_bytes n z).
Proof.
  revert z; induction n; intros z; simpl; [constructor|].
  constructor; [apply Z.mod_pos_bound; lia | apply IHn].
Qed.

Lemma le_val_le_bytes n z : le_val (le_bytes n z) = z mod 256 ^ Z.of_nat n.
Proof.
  revert z; induction n as [|n IH]; intros z.
  - by rewrite Z.mod_1_r.
  - cbn [le_bytes le_val]. rewrite IH, Nat2Z.inj_succ, Z.pow_succ_r by lia.
    by rewrite Z.rem_mul_r by lia.
Qed.

Lemma le_val_range bs : bytes bs -> 0 <= le_val bs < 256 ^ Z.of_nat (length bs).
Proof.
  induction 1 as [|b bs Hb _ IH].
  - simpl; lia.
  - cbn [le_val length]. rewrite Nat2Z.inj_succ, Z.pow_succ_r by lia.
    unfold is_byte in Hb. nia.
Qed.

Lemma le_bytes_le_val bs : bytes bs -> le_bytes (length bs) (le_val bs) = bs.
Proof.
  induction 1 as [|b bs Hb _ IH]; [done|].
  cbn [length le_bytes le_val]. unfold is_byte in Hb. f_equal.
  - rewrite Z.mul_comm, Z_mod_plus_full. by apply Z.mod_small.
  - rewrite Z.mul_comm, Z.div_add, Z.div_small by lia. exact IH.
Qed.

Lemma bytes_app l k : bytes (l ++ k) <-> bytes l /\ bytes k.
Proof. apply Forall_app. Qed.

(** ** Accesses to a buffer, with the bounds the allocation gives *)

Definition len (bs : list Z) : Z := Z.of_nat (length bs).

Definition in_bounds (buf : list Z) (off n : Z) : bool :=
  (0 <=? off) && (0 <=? n) && (off + n <=? len buf).

(** The [n] bytes at [buf + off]. *)
Definition mem_read (buf : list Z) (off n : Z) : result (list Z) :=
  if in_bounds buf off n
  then Ret (take (Z.to_nat n) (drop (Z.to_nat off) buf))
  else Fault (UB "read outside the buffer").

(** The buffer after [bs] was stored at [buf + off]. *)
Definition mem_write (buf : list Z) (off : Z) (bs : list Z) : result (list Z) :=
  if in_bounds buf off (len bs)
  then Ret (take (Z.to_nat off) buf ++ bs ++ drop (Z.to_nat off + length bs) buf)
  else Fault (UB "write outside the buffer").

(** [memmove(dst + d, src + s, n)]; a negative [n] becomes a huge
    [size_t], so it is out of bounds. *)
Definition memmove (dst : list Z) (d : Z) (src : list Z) (s n : Z) : result (list Z) :=
  bs ← mem_read src s n; mem_write dst d bs.

Arguments len : simpl never.
Arguments mem_read : simpl never.
Arguments mem_write : simpl never.
Arguments memmove : simpl never.

Lemma len_app l k : len (l ++ k) = len l + len k.
Proof. unfold len. rewrite length_app. lia. Qed.
Lemma len_nil : len [] = 0.
Proof. done. Qed.
Lemma len_cons b l : len (b :: l) = 1 + len l.
Proof. unfold len. simpl length. lia. Qed.
Lemma len_nonneg l : 0 <= len l.
Proof. unfold len. lia. Qed.
Lemma len_le_bytes n z : len (le_bytes n z) = Z.of_nat n.
Proof. unfold len. by rewrite length_le_bytes. Qed.
Lemma len_replicate n b : len (replicate n b) = Z.of_nat n.
Proof. unfold len. by rewrite length_replicate. Qed.

Create Rewrite HintDb len.
#[export] Hint Rewrite len_app len_nil len_cons len_le_bytes len_replicate
  Z2Nat.id Nat2Z.id : len.

(** Arithmetic on buffer lengths. *)
Ltac len_pose :=
  repeat match goal with
  | |- context [len ?l] =>
      lazymatch goal with
      | _ : 0 <= len l |- _ => fail
      | _ => pose proof (len_nonneg l)
      end
  | H : context [len ?l] |- _ =>
      lazymatch goal with
      | _ : 0 <= len l |- _ => fail
      | _ => pose proof (len_nonneg l)
      end
  end.
Ltac len_lia := autorewrite with len in *; len_pose; lia.

Lemma in_bounds_spec buf off n :
  in_bounds buf off n = true <-> 0 <= off /\ 0 <= n /\ off + n <= len buf.
Proof. unfold in_bounds. rewrite !andb_true_iff, !Z.leb_le. tauto. Qed.

Lemma mem_read_mid pre bs post off n :
  off = len pre -> n = len bs -> mem_read (pre ++ bs ++ post) off n = Ret bs.
Proof.
  intros -> ->. unfold mem_read.
  rewrite (proj2 (in_bounds_spec _ _ _)) by len_lia.
  unfold len. rewrite !Nat2Z.id, drop_app_length, take_app_length. done.
Qed.

Lemma mem_write_mid pre old post off bs :
  off = len pre -> length old = length bs ->
  mem_write (pre ++ old ++ post) off bs = Ret (pre ++ bs ++ post).
Proof.
  intros -> Hl. unfold mem_write.
  assert (len old = len bs) by (unfold len; lia).
  rewrite (proj2 (in_bounds_spec _ _ _)) by len_lia.
  unfold len. rewrite Nat2Z.id, take_app_length, <- Hl.
  by rewrite drop_app_add, drop_app_length.
Qed.

Lemma mem_read_oob buf off n :
  ~ (0 <= off /\ 0 <= n /\ off + n <= len buf) ->
  mem_read buf off n = Fault (UB "read outside the buffer").
Proof.
  intros H. unfold mem_read.
  destruct (in_bounds buf off n) eqn:E; [|done].
  by apply in_bounds_spec in E.
Qed.

Lemma mem_write_oob buf off bs :
  ~ (0 <= off /\ off + len bs <= len buf) ->
  mem_write buf off bs = Fault (UB "write outside the buffer").
Proof.
  intros H. unfold mem_write.
  destruct (in_bounds buf off (len bs)) eqn:E; [|done].
  apply in_bounds_spec in E. tauto.
Qed.
