(* ===== verification/Utils.v ===== *)
(** * Utils and Sync: error handling, allocation, timing (src/utils.cpp,
    src/sync.cpp)

    [handle_type1_error] ends the process; [handle_type2_error] only prints.
    The errno that [perror] prefixes to the message is left out.  The
    pthread wrappers of Sync take the status the library call returned. *)

From Stdlib Require Import ZArith Lia.
From S2P Require Import Prelude.

Module Utils.

(** [Utils::handle_type1_error]: a negative status exits the program. *)
Definition handle_type1_error (arg : Z) (msg : string) : result unit :=
  if arg <? 0 then Fault (Exit msg) else Ret tt.

(** [Utils::handle_type2_error]: what is printed, the program goes on. *)
Definition handle_type2_error (arg : Z) (msg : string) : option string :=
  if arg <? 0 then Some msg else None.

(** [Utils::allocate_uint8_mem]: [malloc_ok] says whether [malloc] gave
    memory; the block is zeroed. *)
Definition allocate_uint8_mem (malloc_ok : bool) (n : Z) : result (list Z) :=
  if n <=? 0 then
    Fault (Exit "Memory length error: utils_allocateuint8mem")
  else if malloc_ok then Ret (replicate (Z.to_nat n) 0)
  else Fault (Exit "Memory allocation error: utils_allocateuint8mem").

(** [Utils::allocate_str_mem] *)
Definition allocate_str_mem (malloc_ok : bool) (n : Z) : result (list Z) :=
  if n <=? 0 then
    Fault (Exit "Memory length error: utils_allocatestrmem")
  else if malloc_ok then Ret (replicate (Z.to_nat n) 0)
  else Fault (Exit "Memory allocation error: utils_allocatestrmem").

(** [Utils::time_check]: [now] is [time(0)]; the flag is only ever raised. *)
Definition time_check (now start_time dur_time : Z) (time_exceeded : bool) : bool :=
  if dur_time <? now - start_time then true else time_exceeded.

(** [Utils::max_ele]: the loop of the source, from [ans = 0]. *)
Definition max_ele (inp : list Z) : Z :=
  fold_left (fun ans x => Z.max ans x) inp 0.

#[global] Arguments handle_type1_error : simpl never.
#[global] Arguments allocate_uint8_mem : simpl never.
#[global] Arguments allocate_str_mem : simpl never.

Lemma handle_type1_error_ok arg msg :
  0 <= arg -> handle_type1_error arg msg = Ret tt.
Proof. intros H. unfold handle_type1_error. by rewrite (proj2 (Z.ltb_ge _ _)). Qed.

Lemma handle_type1_error_neg arg msg :
  arg < 0 -> handle_type1_error arg msg = Fault (Exit msg).
Proof. intros H. unfold handle_type1_error. by rewrite (proj2 (Z.ltb_lt _ _)). Qed.

Lemma allocate_uint8_mem_ok n :
  0 < n -> allocate_uint8_mem true n = Ret (replicate (Z.to_nat n) 0).
Proof. intros H. unfold allocate_uint8_mem. by rewrite (proj2 (Z.leb_gt _ _)). Qed.

Lemma allocate_str_mem_ok n :
  0 < n -> allocate_str_mem true n = Ret (replicate (Z.to_nat n) 0).
Proof. intros H. unfold allocate_str_mem. by rewrite (proj2 (Z.leb_gt _ _)). Qed.

Lemma max_fold_spec inp a :
  a <= fold_left (fun ans x => Z.max ans x) inp a /\
  Forall (fun x => x <= fold_left (fun ans x => Z.max ans x) inp a) inp /\
  (fold_left (fun ans x => Z.max ans x) inp a = a \/
   In (fold_left (fun ans x => Z.max ans x) inp a) inp).
Proof.
  revert a; induction inp as [|x inp IH]; intros a; simpl.
  - repeat split; [lia | constructor | by left].
  - destruct (IH (Z.max a x)) as (Hle & Hall & Hin). repeat split.
    + lia.
    + constructor; [lia | done].
    + destruct Hin as [->|]; [|tauto].
      destruct (Z.max_spec a x) as [[_ ->]|[_ ->]]; tauto.
Qed.

(** The result bounds every element (a descriptor set stays covered). *)
Lemma max_ele_ge inp x : In x inp -> x <= max_ele inp.
Proof.
  intros Hx. destruct (max_fold_spec inp 0) as (_ & Hall & _).
  rewrite Forall_forall in Hall. apply Hall. by apply list_elem_of_In.
Qed.

Lemma max_ele_nonneg inp : 0 <= max_ele inp.
Proof. apply (max_fold_spec inp 0). Qed.

Lemma max_ele_in inp : max_ele inp = 0 \/ In (max_ele inp) inp.
Proof. apply (max_fold_spec inp 0). Qed.

End Utils.

Module Sync.

(** [Sync::mlock] .. [Sync::cndsignal]: [status] is what the pthread
    function returned: 0, or an error number, which POSIX makes positive. *)
Definition mlock (status : Z) : result unit :=
  Utils.handle_type1_error status "Lock error: sync_mlock".
Definition munlock (status : Z) : result unit :=
  Utils.handle_type1_error status "Unlock error: sync_munlock".
Definition cndwait (status : Z) : result unit :=
  Utils.handle_type1_error status "Condition wait error: sync_cndwait".
Definition cndsignal (status : Z) : result unit :=
  Utils.handle_type1_error status "Condition signal error: sync_cndsignal".

End Sync.
