(* ===== verification/Threads.v ===== *)
(** * Threads: programs cut into critical sections, and their interleavings

    The network functions run their handlers in several threads over shared
    tables and variables; most accesses are made under a mutex, some are not.
    A [code] is a handler as the other threads see it: a tree of accesses to
    one cell of the shared state each, and of events (datagrams that leave).
    The content of a cell that is an entry of a table is an option.  [exec] runs
    it alone; [run_pool] runs a pool of them, one turn of one thread at a time,
    in the order of a schedule.

    An access under a mutex takes one turn.  One without takes two, as in
    languages with non-atomic accesses: it begins and it ends, and when
    another thread's access to the same object begins in between, and one of
    the two writes, the process has a data race, which is undefined behaviour:
    [Fault data_race].  A table is one object when an entry is inserted or
    erased; otherwise its entries are separate.

    The theorem at the end: threads of which none writes what another one
    uses do not notice each other, whatever the schedule, unless they race;
    and they can race only where the footprint of one has an access without
    the mutex to an object that the other one uses. *)

From Stdlib Require Import ZArith Lia.
From S2P Require Import Prelude.

(** ** Shared state as cells *)

(** [object c] is the object of the program that the cell is in, a table or a
    variable, and [reshapes c v v'] if an entry of it comes or goes when the
    content of the cell changes from [v] to [v']. *)
Class Store (T : Type) := {
  cell : Type;
  cell_eq_dec :: EqDecision cell;
  val : cell -> Type;
  get : forall c : cell, T -> val c;
  put : forall c : cell, val c -> T -> T;
  object : cell -> nat;
  reshapes : forall c : cell, val c -> val c -> bool
}.

Class StoreLaws (T : Type) `{!Store T} := {
  get_put c v s : get c (put c v s) = v;
  get_put_ne c c' v s : c <> c' -> get c' (put c v s) = get c' s;
  store_ext s s' : (forall c, get c s = get c s') -> s = s';
  reshapes_id c v : reshapes c v v = false
}.

(** An entry of a table comes or goes. *)
Definition comes_or_goes {A} (v v' : option A) : bool :=
  match v, v' with
  | Some _, Some _ | None, None => false
  | _, _ => true
  end.
Lemma comes_or_goes_id {A} (v : option A) : comes_or_goes v v = false.
Proof. by destruct v. Qed.

(** How the code accesses a cell: with its mutex held or without, and whether
    it writes; an access without the mutex is under way when it has [begun]. *)
Inductive mode := Locked (wr : bool) | Bare (wr begun : bool).
Definition writing (m : mode) : bool := match m with Locked wr | Bare wr _ => wr end.
(** Its turns. *)
Definition cost (m : mode) : nat := match m with Bare _ false => 2 | _ => 1 end.

Definition data_race : fault := UB "data race".

(** ** Code *)

Section Code.
Context {T : Type} `{ST : Store T} {E : Type}.

(** [At m c w k]: the content [v] of the cell becomes [w v]; then [k v] goes
    on. *)
Inductive code (A : Type) :=
  | Finish (r : result A)
  | At (m : mode) (c : cell) (w : val c -> val c) (k : val c -> code A)
  | Emit (e : E) (k : code A).
Arguments Finish {A} r.
Arguments At {A} m c w k.
Arguments Emit {A} e k.

#[export] Instance code_ret : MRet code := fun A a => Finish (Ret a).
#[export] Instance code_bind : MBind code :=
  fun A B k =>
    fix go c :=
      match c with
      | Finish (Ret a) => k a
      | Finish (Fault f) => Finish (Fault f)
      | At m c w g => At m c w (fun v => go (g v))
      | Emit e g => Emit e (go g)
      end.

(** An access that computes a result, or stops the process: a critical section
    that writes, one that only reads, and the same without the mutex. *)
Definition access {B} (m : mode) (c : cell) (f : val c -> result B * val c) : code B :=
  At m c (fun v => (f v).2) (fun v => Finish (f v).1).
Definition section {B} (c : cell) (f : val c -> result B * val c) : code B := access (Locked true) c f.
Definition reading {B} (c : cell) (f : val c -> result B * val c) : code B := access (Locked false) c f.
Definition bare_read {B} (c : cell) (f : val c -> result B * val c) : code B := access (Bare false false) c f.
Definition bare_write {B} (c : cell) (f : val c -> result B * val c) : code B := access (Bare true false) c f.

(** *** Alone *)

Fixpoint exec {A} (c : code A) (s : T) : result A * T * list E :=
  match c with
  | Finish r => (r, s, [])
  | At _ c w k => exec (k (get c s)) (put c (w (get c s)) s)
  | Emit e k => let '(r, s, es) := exec k s in (r, s, e :: es)
  end.
Definition result_of {A} (c : code A) (s : T) : result A := (exec c s).1.1.
Definition final {A} (c : code A) (s : T) : T := (exec c s).1.2.
Definition events {A} (c : code A) (s : T) : list E := (exec c s).2.

(** The turns it takes. *)
Fixpoint turns {A} (c : code A) (s : T) : nat :=
  match c with
  | Finish _ => 0
  | At m c w k => cost m + turns (k (get c s)) (put c (w (get c s)) s)
  | Emit _ k => S (turns k s)
  end.

(** *** Together *)

(** The shared state, who sent what, and the threads. *)
Record pool A := mk_pool { shared : T; sent_log : list (nat * E); threads : list (code A) }.
Arguments mk_pool {A}.
Arguments shared {A}.
Arguments sent_log {A}.
Arguments threads {A}.

(** The access does not go together with the one that the thread [t] is in the
    middle of: one of the two writes the cell, or changes the shape of the
    object. *)
Definition reshaping (s : T) (c : cell) (w : val c -> val c) : bool := reshapes c (get c s) (w (get c s)).
Definition clashes {A} (s : T) (m : mode) (c : cell) (w : val c -> val c) (t : code A) : bool :=
  match t with
  | At (Bare wr true) c' w' _ =>
      (bool_decide (c = c') && (writing m || wr)) ||
      (bool_decide (object c = object c') && (reshaping s c w || reshaping s c' w'))
  | _ => false
  end.

(** One turn of thread [i]; a fault stops the process. *)
Definition turn {A} (i : nat) (p : pool A) : result (pool A) :=
  match threads p !! i with
  | Some (At m c w k) =>
      if existsb (clashes (shared p) m c w) (delete i (threads p)) then Fault data_race
      else match m with
           | Bare wr false => Ret (mk_pool (shared p) (sent_log p) (<[i := At (Bare wr true) c w k]> (threads p)))
           | _ => Ret (mk_pool (put c (w (get c (shared p))) (shared p)) (sent_log p) (<[i := k (get c (shared p))]> (threads p)))
           end
  | Some (Emit e k) => Ret (mk_pool (shared p) (sent_log p ++ [(i, e)]) (<[i := k]> (threads p)))
  | Some (Finish (Fault f)) => Fault f
  | Some (Finish (Ret _)) | None => Ret p
  end.

(** No other thread is in the middle of an access. *)
Definition in_flight {A} (t : code A) : bool := match t with At (Bare _ true) _ _ _ => true | _ => false end.
Definition quiet {A} (i : nat) (ts : list (code A)) : bool := negb (existsb in_flight (delete i ts)).

(** A schedule names the thread of every turn. *)
Fixpoint run_pool {A} (sched : list nat) (p : pool A) : result (pool A) :=
  match sched with
  | [] => Ret p
  | i :: sched => p ← turn i p; run_pool sched p
  end.

Definition start_pool {A} (s : T) (cs : list (code A)) : pool A := mk_pool s [] cs.

(** What thread [i] sent. *)
Definition sent {A} (i : nat) (p : pool A) : list E :=
  omap (fun ie => if decide (ie.1 = i) then Some ie.2 else None) (sent_log p).

(** One after the other. *)
Fixpoint serial {A} (cs : list (code A)) (s : T) : T :=
  match cs with
  | [] => s
  | c :: cs => serial cs (final c s)
  end.

(** ** Footprints

    The cells that a thread reads and those that it changes, and the objects
    that it reads and writes without a mutex. *)
Record footprint := mk_footprint {
  reads : list cell; writes : list cell; bare_reads : list nat; bare_writes : list nat
}.

Definition allowed (ft : footprint) (m : mode) (c : cell) (v v' : val c) : Prop :=
  (c ∈ writes ft \/ c ∈ reads ft /\ v' = v) /\
  match m with
  | Locked wr => wr = true -> c ∈ writes ft
  | Bare wr _ => if wr || reshapes c v v' then object c ∈ bare_writes ft else object c ∈ bare_reads ft
  end.

(** Alone from [s], [c] does not fault and keeps to its footprint. *)
Fixpoint uses (ft : footprint) {A} (c : code A) (s : T) : Prop :=
  match c with
  | Finish (Ret _) => True
  | Finish (Fault _) => False
  | At m c w k => allowed ft m c (get c s) (w (get c s)) /\ uses ft (k (get c s)) (put c (w (get c s)) s)
  | Emit _ k => uses ft k s
  end.

(** The same without the claim that nothing faults. *)
Fixpoint within (ft : footprint) {A} (c : code A) (s : T) : Prop :=
  match c with
  | Finish _ => True
  | At m c w k => allowed ft m c (get c s) (w (get c s)) /\ within ft (k (get c s)) (put c (w (get c s)) s)
  | Emit _ k => within ft k s
  end.

(** At most [n] turns, whatever the other threads do. *)
Fixpoint budget {A} (c : code A) (n : nat) : Prop :=
  match c with
  | Finish _ => True
  | At m _ _ k => (cost m <= n)%nat /\ forall v, budget (k v) (n - cost m)
  | Emit _ k => (1 <= n)%nat /\ budget k (n - 1)
  end.

(** Threads of which none writes what the other one uses; and a thread that
    may begin an access while [ft'] is in the middle of one without the
    mutex that does not go together with it. *)
Definition disjoint_from (ft ft' : footprint) : Prop :=
  forall c, c ∈ writes ft -> (c ∉ reads ft') /\ (c ∉ writes ft').
Definition hazard (ft ft' : footprint) : Prop :=
  exists o, o ∈ bare_reads ft' /\ (o ∈ map object (writes ft) \/ o ∈ bare_writes ft) \/
            o ∈ bare_writes ft' /\ (o ∈ map object (reads ft) \/ o ∈ map object (writes ft)).
End Code.
Arguments code {T ST} E A.
Arguments Finish {T ST E A} r.
Arguments At {T ST E A} m c w k.
Arguments Emit {T ST E A} e k.
Arguments pool {T ST} E A.
Arguments mk_pool {T ST E A}.
Arguments shared {T ST E A}.
Arguments sent_log {T ST E A}.
Arguments threads {T ST E A}.
Arguments footprint T {ST}.
Arguments mk_footprint {T ST}.

(** A thread with its footprint, and when threads leave each other alone. *)
Record tagged {T} `{ST : Store T} (E A : Type) := mk_tagged { foot : footprint T; code_of : code E A }.
Arguments mk_tagged {T ST E A}.
Arguments foot {T ST E A}.
Arguments code_of {T ST E A}.

Definition independent {T} `{ST : Store T} {E A} (ts : list (tagged E A)) : Prop :=
  forall i j t t', ts !! i = Some t -> ts !! j = Some t' -> i <> j -> disjoint_from (foot t) (foot t').

(** Two of the threads may race. *)
Definition may_race {T} `{ST : Store T} {E A} (ts : list (tagged E A)) : Prop :=
  exists i j t t', ts !! i = Some t /\ ts !! j = Some t' /\ i <> j /\ hazard (foot t) (foot t').

(** The turns a schedule gives to thread [i]. *)
Definition given (i : nat) (sched : list nat) : nat := length (filter (fun j => j = i) sched).

(** ** Laws *)

Section Laws.
Context {T : Type} `{SL : StoreLaws T} {E : Type}.
Implicit Types (s : T) (es : list E) (ft : footprint T).

Lemma put_get c s : put c (get c s) s = s.
Proof.
  apply store_ext. intros c'. destruct (decide (c = c')) as [<-|N]; [by rewrite get_put | by rewrite get_put_ne].
Qed.

Lemma exec_at {A} m c w (k : val c -> code E A) s :
  exec (At m c w k) s = exec (k (get c s)) (put c (w (get c s)) s).
Proof. done. Qed.

Lemma exec_bind {A B} (c : code E A) (k : A -> code E B) s :
  exec (x ← c; k x) s =
    match exec c s with
    | (Ret a, s', es) => let '(r, s'', es') := exec (k a) s' in (r, s'', es ++ es')
    | (Fault f, s', es) => (Fault f, s', es)
    end.
Proof.
  revert s. induction c as [[a|f]|m c w g IH|e g IH]; intros s.
  - cbn. by destruct (exec (k a) s) as [[r s'] es].
  - done.
  - apply (IH (get c s)).
  - change (exec (x ← Emit e g; k x) s) with (exec (Emit e (x ← g; k x)) s). cbn [exec]. rewrite IH.
    destruct (exec g s) as [[[a|f] s'] es]; [|done]. by destruct (exec (k a) s') as [[r s''] es'].
Qed.

(** *** Footprints *)

Lemma uses_ret ft {A} (c : code E A) s : uses ft c s -> exists a, result_of c s = Ret a.
Proof.
  revert s. induction c as [[a|f]|m c w g IH|e g IH]; intros s H; [by exists a | done | by apply IH, H |].
  destruct (IH s H) as [a Ha]. exists a. unfold result_of in *. cbn. by destruct (exec g s) as [[r s'] es].
Qed.

Lemma within_uses ft {A} (c : code E A) s a : within ft c s -> result_of c s = Ret a -> uses ft c s.
Proof.
  revert s. induction c as [[b|f]|m c w g IH|e g IH]; intros s Hw Hr; [done | done | |].
  - destruct Hw as [H1 H2]. split; [done | by apply IH].
  - apply IH; [done|]. unfold result_of in *. cbn in Hr. by destruct (exec g s) as [[r s'] es].
Qed.

Lemma within_finish ft {A B} (r : result A) (k : A -> code E B) s :
  (forall a, r = Ret a -> within ft (k a) s) -> within ft (x ← Finish r; k x) s.
Proof. destruct r as [a|f]; [intros H; by apply H | done]. Qed.

Lemma within_access ft {A B} m c (f : val c -> result B * val c) (k : B -> code E A) s :
  allowed ft m c (get c s) (f (get c s)).2 ->
  (forall b, (f (get c s)).1 = Ret b -> within ft (k b) (put c (f (get c s)).2 s)) ->
  within ft (x ← access m c f; k x) s.
Proof. intros H1 H2. split; [done|]. by apply (within_finish ft (f (get c s)).1). Qed.

Lemma within_bind ft {A B} (c : code E A) (k : A -> code E B) s :
  within ft c s -> (forall a, result_of c s = Ret a -> within ft (k a) (final c s)) ->
  within ft (x ← c; k x) s.
Proof.
  revert s. induction c as [[a|f]|m c w g IH|e g IH]; intros s Hc Hk.
  - by apply Hk.
  - done.
  - destruct Hc as [Hc1 Hc2]. split; [done|]. by apply (IH (get c s)).
  - apply IH; [done|]. intros a Ha. unfold result_of, final in *. cbn in Hk.
    destruct (exec g s) as [[r s'] es]. by apply Hk.
Qed.

(** An access that the footprint names. *)
Lemma allowed_writes ft wr c v v' : c ∈ writes ft -> allowed ft (Locked wr) c v v'.
Proof. intros H. split; [by left | by intros _]. Qed.
Lemma allowed_reads ft c v : c ∈ reads ft -> allowed ft (Locked false) c v v.
Proof. intros H. split; [by right | by intros [=]]. Qed.
Lemma allowed_bare_read ft c v : c ∈ reads ft -> object c ∈ bare_reads ft -> allowed ft (Bare false false) c v v.
Proof. intros H1 H2. split; [by right | by rewrite reshapes_id]. Qed.
Lemma allowed_bare_write ft c v v' : c ∈ writes ft -> object c ∈ bare_writes ft -> allowed ft (Bare true false) c v v'.
Proof. intros H1 H2. split; [by left | done]. Qed.

Lemma turns_budget {A} (c : code E A) n s : budget c n -> (turns c s <= n)%nat.
Proof.
  revert n s. induction c as [r|m c w g IH|e g IH]; intros n s H; cbn in *; [lia | |].
  - destruct H as [H1 H2]. specialize (IH (get c s) _ (put c (w (get c s)) s) (H2 _)). lia.
  - destruct H as [H1 H2]. specialize (IH _ s H2). lia.
Qed.

Lemma budget_mono {A} (c : code E A) n m : budget c n -> (n <= m)%nat -> budget c m.
Proof.
  revert n m. induction c as [r|md c w g IH|e g IH]; intros n m H L; cbn in *; [done | |].
  - destruct H as [H1 H2]. split; [lia|]. intros v. apply (IH v (n - cost md)%nat); [apply H2 | lia].
  - destruct H as [H1 H2]. split; [lia|]. apply (IH (n - 1)%nat); [done | lia].
Qed.

Lemma budget_bind {A B} (c : code E A) (k : A -> code E B) n m :
  budget c n -> (forall a, budget (k a) m) -> budget (x ← c; k x) (n + m).
Proof.
  intros Hc Hk. revert n Hc. induction c as [[a|f]|md c w g IH|e g IH]; intros n Hc.
  - apply (budget_mono _ m); [apply Hk | lia].
  - done.
  - destruct Hc as [H1 H2]. split; [lia|]. intros v. replace (n + m - cost md)%nat with (n - cost md + m)%nat by lia. by apply IH.
  - destruct Hc as [H1 H2]. split; [lia|]. replace (n + m - 1)%nat with (n - 1 + m)%nat by lia. by apply IH.
Qed.

Lemma budget_finish {A B} (r : result A) (k : A -> code E B) n :
  (forall a, budget (k a) n) -> budget (x ← Finish r; k x) n.
Proof. intros H. destruct r as [a|f]; [apply H | done]. Qed.

Lemma budget_access {A B} m c (f : val c -> result B * val c) (k : B -> code E A) n :
  (cost m <= n)%nat -> (forall b, budget (k b) (n - cost m)) -> budget (x ← access m c f; k x) n.
Proof. intros H0 H. split; [done|]. intros v. by apply budget_finish. Qed.

Lemma within_emit ft {A} e (k : code E A) s : within ft k s -> within ft (Emit e k) s.
Proof. done. Qed.

Lemma finish_bind {A B} (r : result A) (k : A -> code E B) a : r = Ret a -> (x ← Finish r; k x) = k a.
Proof. by intros ->. Qed.

Lemma code_assoc {A B C} (c : code E A) (k : A -> code E B) (h : B -> code E C) s :
  exec (y ← (x ← c; k x); h y) s = exec (x ← c; y ← k x; h y) s.
Proof.
  rewrite !exec_bind. destruct (exec c s) as [[[a|f] s'] es]; [|done].
  rewrite !exec_bind. destruct (exec (k a) s') as [[[b|f] s''] es']; [|done].
  destruct (exec (h b) s'') as [[r s3] es3]. by rewrite app_assoc.
Qed.

(** Nothing else changes. *)
Lemma uses_frame ft {A} (c : code E A) s x :
  uses ft c s -> x ∉ writes ft -> get x (final c s) = get x s.
Proof.
  intros H Hx. revert s H. induction c as [[a|f]|m c w g IH|e g IH]; intros s H; [done | done | |].
  - destruct H as [[H1 _] H2]. unfold final in *. rewrite exec_at, (IH _ _ H2).
    destruct (decide (c = x)) as [<-|N]; [|by rewrite get_put_ne].
    rewrite get_put. by destruct H1 as [?|[_ ?]].
  - rewrite <- (IH s H). unfold final. cbn. by destruct (exec g s) as [[r s'] es].
Qed.

(** What others do to other cells makes no difference. *)
Lemma uses_agree ft {A} (c : code E A) s s' :
  (forall x, x ∈ reads ft \/ x ∈ writes ft -> get x s' = get x s) -> uses ft c s ->
  uses ft c s' /\ result_of c s' = result_of c s /\ events c s' = events c s /\
  turns c s' = turns c s /\
  forall x, x ∈ reads ft \/ x ∈ writes ft -> get x (final c s') = get x (final c s).
Proof.
  revert s s'. induction c as [[a|f]|m c w g IH|e g IH]; intros s s' Ha H; [done | done | |].
  - destruct H as [H1 H2]. assert (get c s' = get c s) as Ec by (apply Ha; destruct H1 as [[|[]] _]; auto).
    destruct (IH (get c s) (put c (w (get c s)) s) (put c (w (get c s)) s')) as (I1 & I2 & I3 & I4 & I5).
    { intros x Hx. destruct (decide (c = x)) as [<-|N]; [by rewrite !get_put | by rewrite !get_put_ne by done; auto]. }
    { done. }
    unfold result_of, events, final in *. cbn [uses turns]. rewrite !exec_at, Ec.
    repeat split; try done; [apply H1 | apply H1 | by rewrite I4].
  - destruct (IH s s' Ha H) as (I1 & I2 & I3 & I4 & I5).
    unfold result_of, events, final in *. cbn.
    destruct (exec g s) as [[r1 s1] es1], (exec g s') as [[r2 s2] es2]. cbn in *. subst. repeat split; auto.
Qed.

(** An access that clashes with another thread's is a hazard of the two
    footprints. *)
Lemma clash_hazard ft ft' {A} s m c w (t : code E A) :
  allowed ft m c (get c s) (w (get c s)) -> uses ft' t s -> clashes s m c w t = true -> hazard ft ft'.
Proof.
  intros [Hc Hm] Ht Hcl. destruct t as [r|[wr'|wr' [|]] c' w' k|e k]; try discriminate Hcl.
  destruct Ht as [[Hc' Hm'] _]. cbn [clashes] in Hcl. exists (object c').
  assert (object c = object c' -> object c' ∈ map object (reads ft) \/ object c' ∈ map object (writes ft)) as Hin.
  { intros <-. destruct Hc as [Hc|[Hc _]]; [right | left]; by apply list_elem_of_fmap_2. }
  assert (object c' ∈ bare_writes ft' -> object c = object c' -> 
    object c' ∈ bare_reads ft' /\ (object c' ∈ map object (writes ft) \/ object c' ∈ bare_writes ft) \/
    object c' ∈ bare_writes ft' /\ (object c' ∈ map object (reads ft) \/ object c' ∈ map object (writes ft))) as Hbw
    by (intros ? ?; right; auto).
  assert (object c = object c' -> object c' ∈ map object (writes ft) \/ object c' ∈ bare_writes ft ->
    object c' ∈ bare_reads ft' /\ (object c' ∈ map object (writes ft) \/ object c' ∈ bare_writes ft) \/
    object c' ∈ bare_writes ft' /\ (object c' ∈ map object (reads ft) \/ object c' ∈ map object (writes ft))) as Hbr.
  { intros Eo Hw. destruct (wr' || reshapes c' (get c' s) (w' (get c' s))); [by apply Hbw | by left]. }
  apply orb_true_iff in Hcl as [[Ec Hw]%andb_true_iff | [Eo Hs]%andb_true_iff].
  - apply bool_decide_eq_true_1 in Ec. subst c'. apply orb_true_iff in Hw as [Hw| ->]; [|by apply Hbw].
    apply Hbr; [done|]. destruct m as [wr|wr b]; cbn in Hw; subst wr.
    + left. apply list_elem_of_fmap_2. by apply Hm.
    + by right.
  - apply bool_decide_eq_true_1 in Eo. apply orb_true_iff in Hs as [Hs|Hs]; unfold reshaping in Hs.
    + apply Hbr; [done|]. left. rewrite <- Eo. apply list_elem_of_fmap_2. destruct Hc as [Hc|[_ Ev]]; [done|].
      by rewrite Ev, reshapes_id in Hs.
    + apply Hbw; [|done]. rewrite Hs, orb_true_r in Hm'. exact Hm'.
Qed.

(** Nobody clashes with a thread that is in the middle of nothing. *)
Lemma quiet_clash {A} i (ts : list (code E A)) s m c w :
  quiet i ts = true -> existsb (clashes s m c w) (delete i ts) = false.
Proof.
  unfold quiet. intros H%negb_true_iff. induction (delete i ts) as [|t l IH]; [done|].
  cbn [existsb] in *. apply orb_false_iff in H as [H1 H2]. rewrite (IH H2), orb_false_r.
  by destruct t as [r|[wr|wr [|]] c' w' k|e k].
Qed.
Lemma quiet_insert {A} i (ts : list (code E A)) t : quiet i (<[i := t]> ts) = quiet i ts.
Proof. unfold quiet. by rewrite !delete_take_drop, take_insert_ge, drop_insert_lt by lia. Qed.
End Laws.

(** The footprint with one more cell to change. *)
Definition also_writes {T} `{ST : Store T} (c : cell) (ft : footprint T) : footprint T :=
  mk_footprint (reads ft) (c :: writes ft) (bare_reads ft) (bare_writes ft).

(** ** Footprints without the content of one cell

    Like [within], whatever is in the cell [own], which has a mutex, and
    whatever the thread makes of it. *)
Section KeepsTo.
Context {T : Type} `{ST : Store T} `{SL : !StoreLaws T} {E : Type}.
Context (own : cell) (rd : list cell) (br bw : list nat).

Fixpoint keeps_to (wr : list cell) {A} (c : code E A) (s : T) : Prop :=
  match c with
  | Finish _ => True
  | At m c w k =>
      if decide (c = own) then (exists b, m = Locked b) /\ forall v, keeps_to wr (k v) s
      else allowed (mk_footprint rd wr br bw) m c (get c s) (w (get c s)) /\
           keeps_to wr (k (get c s)) (put c (w (get c s)) s)
  | Emit _ k => keeps_to wr k s
  end.

Lemma keeps_to_within wr {A} (c : code E A) (s s0 : T) :
  (forall x, x <> own -> get x s = get x s0) -> keeps_to wr c s0 -> within (also_writes own (mk_footprint rd wr br bw)) c s.
Proof.
  revert s s0. induction c as [r|m x w k IH|e k IH]; intros s s0 Hs H; [done | | by eapply IH].
  cbn [keeps_to within] in *. destruct (decide (x = own)) as [->|N].
  - destruct H as [[b ->] H]. split; [apply allowed_writes; by left|]. eapply IH; [|apply H].
    intros y Ny. rewrite get_put_ne by done. by apply Hs.
  - rewrite !(Hs x N). destruct H as [[H1 H1'] H2]. split.
    + split; [destruct H1; [left; by right | by right]|]. destruct m as [b|b b']; [|done]. intros Eb. right. by apply H1'.
    + eapply IH; [|exact H2].
      intros y Ny. destruct (decide (x = y)) as [<-|Nx]; [by rewrite !get_put | by rewrite !get_put_ne, Hs].
Qed.

Lemma keeps_to_bind wr {A B} (c : code E A) (k : A -> code E B) s :
  keeps_to [] c s -> (forall a, keeps_to wr (k a) s) -> keeps_to wr (x ← c; k x) s.
Proof.
  intros Hc Hk. induction c as [[a|f]|m x w g IH|e g IH]; [apply Hk | done | | by apply IH].
  cbn [keeps_to mbind code_bind] in *. destruct (decide (x = own)) as [->|N].
  - destruct Hc as [Hb Hc]. split; [done|]. intros v. by apply IH.
  - destruct Hc as [[Hx Hm] Hc]. destruct Hx as [Hx|[Hx Ew]]; [set_solver|]. cbn [reads writes bare_reads bare_writes] in *.
    rewrite Ew, put_get in Hc |- *. split; [|by apply IH].
    split; [right; by split|]. destruct m as [b|b b'].
    + intros Eb. specialize (Hm Eb). set_solver.
    + by rewrite Ew in Hm.
Qed.
Lemma keeps_to_ret wr {A B} (c : code E A) (f : A -> B) s : keeps_to wr (x ← c; mret (f x)) s <-> keeps_to wr c s.
Proof.
  revert s. induction c as [[a|e]|m x w k IH|e k IH]; intros s; [done | done | | apply IH].
  cbn [keeps_to mbind code_bind]. destruct (decide (x = own)); [|by rewrite (IH (get x s))].
  split; intros [Hb H]; (split; [done|]); intros v; by apply IH.
Qed.
Lemma keeps_to_finish wr {A B} (r : result A) (k : A -> code E B) s :
  (forall a, r = Ret a -> keeps_to wr (k a) s) -> keeps_to wr (x ← Finish r; k x) s.
Proof. destruct r as [a|f]; [intros H; by apply H | done]. Qed.
Lemma keeps_to_own wr {A B} b (f : val own -> result A * val own) (k : A -> code E B) s :
  (forall a, keeps_to wr (k a) s) -> keeps_to wr (x ← access (Locked b) own f; k x) s.
Proof. intros H. apply keeps_to_bind; [|exact H]. cbn. rewrite decide_True by done. split; [by exists b | done]. Qed.
Lemma keeps_to_same wr {A B} m c (f : val c -> result A * val c) (k : A -> code E B) s :
  c <> own -> allowed (mk_footprint rd wr br bw) m c (get c s) (get c s) -> (f (get c s)).2 = get c s ->
  (forall a, (f (get c s)).1 = Ret a -> keeps_to wr (k a) s) -> keeps_to wr (x ← access m c f; k x) s.
Proof.
  intros N Hc Hf Hk. cbn [keeps_to mbind code_bind access]. rewrite decide_False by done. rewrite Hf, put_get.
  split; [done | by apply keeps_to_finish].
Qed.
End KeepsTo.

(** ** Code against a program of the sequential model

    [P] is the process of the sequential model: the shared state and what was
    sent. *)

Class Process (T E P : Type) := {
  view : P -> T;
  advance : T -> list E -> P -> P
}.
Class ProcessLaws (T E P : Type) `{!Process T E P} := {
  view_advance (t : T) (es : list E) (p : P) : view (advance t es p) = t;
  advance_advance (t t' : T) (es es' : list E) (p : P) :
    advance t' es' (advance t es p) = advance t' (es ++ es') p;
  advance_id (p : P) : advance (view p) ([] : list E) p = p
}.

Section Alike.
Context {T E P : Type} `{SL : StoreLaws T} `{PL : ProcessLaws T E P}.

Definition as_prog {A} (c : code E A) : prog P A := fun s =>
  let '(r, t, es) := exec c (view s) in (r, advance t es s).

(** Alone, [c] does what [p] does. *)
Definition alike {A} (c : code E A) (p : prog P A) : Prop := forall s, as_prog c s = p s.

Lemma alike_bind {A B} (c : code E A) (p : prog P A) (k : A -> code E B) (k' : A -> prog P B) :
  alike c p -> (forall a, alike (k a) (k' a)) -> alike (x ← c; k x) (x ← p; k' x).
Proof.
  intros Hc Hk s. unfold mbind at 2, prog_bind. rewrite <- Hc. unfold as_prog. rewrite exec_bind.
  destruct (exec c (view s)) as [[[a|f] t] es]; [|done]. rewrite <- Hk. unfold as_prog. rewrite view_advance.
  destruct (exec (k a) t) as [[r t'] es']. by rewrite advance_advance.
Qed.

Lemma alike_finish {A} (r : result A) : alike (Finish r) (lift r).
Proof. intros s. unfold as_prog. cbn. by rewrite advance_id. Qed.

Lemma alike_ret {A} (a : A) : alike (mret a) (mret a).
Proof. apply (alike_finish (Ret a)). Qed.

Lemma alike_check {b : bool} {f : result unit} :
  alike (Finish (if b then f else mret tt)) (if b then lift f else mret tt).
Proof. destruct b; [apply alike_finish | apply alike_ret]. Qed.
Lemma alike_check' {b : bool} {f : result unit} :
  alike (Finish (if b then f else mret tt)) (lift (if b then f else mret tt)).
Proof. apply alike_finish. Qed.

(** Two statements of [p] in one section. *)
Lemma alike_bind2 {A B C} (c : code E B) (p : prog P A) (q : A -> prog P B) (k : B -> code E C) (k' : B -> prog P C) :
  alike c (x ← p; q x) -> (forall b, alike (k b) (k' b)) -> alike (b ← c; k b) (x ← p; b ← q x; k' b).
Proof. intros H Hk s. rewrite <- run_assoc. by apply alike_bind. Qed.

(** The same from the states [H] holds of: what a section has read is known
    to the statements of [p] that read it again. *)
Definition alike_when {A} (H : P -> Prop) (c : code E A) (p : prog P A) : Prop :=
  forall s, H s -> as_prog c s = p s.

Lemma alike_when_any {A} H (c : code E A) (p : prog P A) : alike c p -> alike_when H c p.
Proof. intros Hc s _. apply Hc. Qed.
Lemma alike_when_known {A B} (H : P -> Prop) (c : code E B) (q : prog P A) (p : A -> prog P B) a :
  (forall s, H s -> q s = (Ret a, s)) -> alike_when H c (p a) -> alike_when H c (x ← q; p x).
Proof. intros Hq Hc s Hs. rewrite (run_bind _ _ _ _ _ (Hq s Hs)). by apply Hc. Qed.
Lemma alike_then {A B C} (H : A -> P -> Prop) (c : code E A) (k : A -> code E C) (p : prog P B) (q : B -> prog P C) :
  (forall s a t es, exec c (view s) = (Ret a, t, es) ->
     exists b, p s = (Ret b, advance t es s) /\ H a (advance t es s) /\ alike_when (H a) (k a) (q b)) ->
  (forall s f t es, exec c (view s) = (Fault f, t, es) -> p s = (Fault f, advance t es s)) ->
  alike (x ← c; k x) (x ← p; q x).
Proof.
  intros Hr Hf s. unfold as_prog. rewrite exec_bind. destruct (exec c (view s)) as [[[a|f] t] es] eqn:X.
  - destruct (Hr s a t es X) as (b & Ep & Ha & Hq). rewrite (run_bind _ _ _ _ _ Ep), <- (Hq _ Ha).
    unfold as_prog. rewrite view_advance. destruct (exec (k a) t) as [[r t'] es']. by rewrite advance_advance.
  - by rewrite (run_bind_fault _ _ _ _ _ (Hf s f t es X)).
Qed.

(** Several statements of [p] in one section, and one of [p] in two. *)
Lemma alike_regroup {A B} (c : code E A) (p : prog P A) (k : A -> code E B) (k' : A -> prog P B) (q : prog P B) :
  alike c p -> (forall a, alike (k a) (k' a)) -> (forall s, q s = (x ← p; k' x) s) -> alike (x ← c; k x) q.
Proof. intros Hc Hk Hq s. rewrite Hq. by apply alike_bind. Qed.
Lemma alike_split {A B C} (c : code E A) (k : A -> code E B) (h : B -> code E C) (p : prog P B) (h' : B -> prog P C) :
  alike (x ← c; k x) p -> (forall b, alike (h b) (h' b)) -> alike (x ← c; y ← k x; h y) (y ← p; h' y).
Proof. intros Hc Hh s. rewrite <- (alike_bind _ _ h h' Hc Hh s). unfold as_prog. by rewrite code_assoc. Qed.

(** A record that is read member by member. *)
Lemma alike_member {A B C} (c : code E C) (g : C -> A) (k : C -> code E B) (p : prog P A) (k' : A -> prog P B) :
  alike (x ← c; mret (g x)) p -> (forall x, alike (k x) (k' (g x))) -> alike (x ← c; k x) (a ← p; k' a).
Proof.
  intros Hc Hk s. specialize (Hc s). unfold mbind at 2, prog_bind. rewrite <- Hc. unfold as_prog. rewrite !exec_bind.
  destruct (exec c (view s)) as [[[x|f] t] es]; [|done]. cbn. rewrite app_nil_r, <- Hk. unfold as_prog. rewrite view_advance.
  destruct (exec (k x) t) as [[r t'] es']. by rewrite advance_advance.
Qed.

Lemma alike_access {B} m (c : cell) (f : val c -> result B * val c) (p : prog P B) :
  (forall s, p s = ((f (get c (view s))).1, advance (put c (f (get c (view s))).2 (view s)) [] s)) ->
  alike (access m c f) p.
Proof. intros H s. by rewrite H. Qed.

(** One that only looks. *)
Lemma alike_look {B} m (c : cell) (g : val c -> result B) (p : prog P B) :
  (forall s, p s = (g (get c (view s)), s)) -> alike (access m c (fun v => (g v, v))) p.
Proof.
  intros H. apply alike_access. intros s. rewrite H. cbn [fst snd]. by rewrite put_get, advance_id.
Qed.

Lemma exec_of_prog {A} (c : code E A) (p : prog P A) s r s' :
  alike c p -> p s = (r, s') -> exists t es, exec c (view s) = (r, t, es) /\ s' = advance t es s.
Proof.
  intros H Ep. specialize (H s). rewrite Ep in H. unfold as_prog in H.
  destruct (exec c (view s)) as [[r1 t] es]. injection H as -> <-. by exists t, es.
Qed.
End Alike.

Create HintDb alike.
#[export] Hint Extern 1 (alike _ _) => first [apply alike_finish | apply alike_ret | apply alike_check] : alike.

Ltac alike_tac :=
  repeat first
    [ progress cbv zeta
    | solve [eauto with alike nocore]
    | match goal with
      | |- alike (match ?x with (_, _) => _ end) _ => destruct x
      | |- alike (if ?b then _ else _) _ => destruct b
      | |- alike (match ?x with Some _ => _ | None => _ end) _ => destruct x as [[[? ?] ?]|]
      end
    | apply alike_bind; [solve [eauto with alike nocore] | intros ?] ].

(** A turn of a thread that is in a handler called from its loop, while no
    other is in the middle of an access. *)
Section Turns.
Context {T : Type} `{SL : StoreLaws T} {E A : Type}.
Context (i : nat) (sched : list nat) (u : T) (l : list (nat * E)) (ts : list (code E A)).

Lemma turn_at m c w (k : val c -> code E A) :
  ts !! i = Some (At m c w k) -> quiet i ts = true ->
  run_pool (replicate (cost m) i ++ sched) (mk_pool u l ts) =
  run_pool sched (mk_pool (put c (w (get c u)) u) l (<[i := k (get c u)]> ts)).
Proof.
  intros Hi Hq. assert (i < length ts)%nat as Hlt by by eapply lookup_lt_Some.
  assert (forall wr', run_pool [i] (mk_pool u l (<[i := At (Bare wr' true) c w k]> ts)) =
    Ret (mk_pool (put c (w (get c u)) u) l (<[i := k (get c u)]> ts))) as Hend.
  { intros wr'. cbn [run_pool]. unfold turn. cbn [threads shared sent_log].
    rewrite list_lookup_insert_eq by done. cbv iota. rewrite quiet_clash by by rewrite quiet_insert.
    res. by rewrite list_insert_insert_eq. }
  destruct m as [wr|wr [|]]; cbn [cost replicate app].
  - cbn [run_pool]. unfold turn. cbn [threads shared sent_log]. rewrite Hi. cbv iota. by rewrite quiet_clash.
  - specialize (Hend wr). rewrite list_insert_id in Hend by done. cbn [run_pool] in Hend |- *.
    destruct (turn i _) as [q|f]; [|discriminate Hend]. res. by injection Hend as ->.
  - specialize (Hend wr). cbn [run_pool] in Hend |- *.
    assert (turn i (mk_pool u l ts) = Ret (mk_pool u l (<[i := At (Bare wr true) c w k]> ts))) as ->
      by (unfold turn; cbn [threads shared sent_log]; rewrite Hi; cbv iota; by rewrite quiet_clash).
    res. destruct (turn i _) as [q|f]; [|discriminate Hend]. res. by injection Hend as ->.
Qed.

Lemma turns_access {B C} m c f (k : B -> code E C) (h : C -> code E A) b :
  ts !! i = Some (z ← (x ← access m c f; k x); h z) -> quiet i ts = true -> (f (get c u)).1 = Ret b ->
  run_pool (replicate (cost m) i ++ sched) (mk_pool u l ts) =
  run_pool sched (mk_pool (put c (f (get c u)).2 u) l (<[i := z ← k b; h z]> ts)).
Proof.
  intros Hi Hq Eb.
  change (ts !! i = Some (At m c (fun v => (f v).2) (fun v => z ← (x ← Finish (f v).1; k x); h z))) in Hi.
  rewrite (turn_at _ _ _ _ Hi Hq). by rewrite Eb.
Qed.
Lemma turns_access_last {B} m c f (h : B -> code E A) b :
  ts !! i = Some (z ← access m c f; h z) -> quiet i ts = true -> (f (get c u)).1 = Ret b ->
  run_pool (replicate (cost m) i ++ sched) (mk_pool u l ts) =
  run_pool sched (mk_pool (put c (f (get c u)).2 u) l (<[i := h b]> ts)).
Proof.
  intros Hi Hq Eb.
  change (ts !! i = Some (At m c (fun v => (f v).2) (fun v => z ← Finish (f v).1; h z))) in Hi.
  rewrite (turn_at _ _ _ _ Hi Hq). by rewrite Eb.
Qed.
Lemma turn_emit {C} e (k : unit -> code E C) (h : C -> code E A) :
  ts !! i = Some (z ← (x ← Emit e (mret tt); k x); h z) ->
  run_pool (i :: sched) (mk_pool u l ts) =
  run_pool sched (mk_pool u (l ++ [(i, e)]) (<[i := z ← k tt; h z]> ts)).
Proof. intros Hi. cbn [run_pool]. unfold turn. cbn [threads]. by rewrite Hi. Qed.
Lemma turn_event e (k : code E A) :
  ts !! i = Some (Emit e k) ->
  run_pool (i :: sched) (mk_pool u l ts) = run_pool sched (mk_pool u (l ++ [(i, e)]) (<[i := k]> ts)).
Proof. intros Hi. cbn [run_pool]. unfold turn. cbn [threads]. by rewrite Hi. Qed.
Lemma turn_emit_last e (h : unit -> code E A) :
  ts !! i = Some (z ← Emit e (mret tt); h z) ->
  run_pool (i :: sched) (mk_pool u l ts) =
  run_pool sched (mk_pool u (l ++ [(i, e)]) (<[i := h tt]> ts)).
Proof. apply turn_event. Qed.

(** A turn that only looks. *)
Lemma turns_access_look {B} m c f (h : B -> code E A) b :
  ts !! i = Some (z ← access m c f; h z) -> quiet i ts = true -> f (get c u) = (Ret b, get c u) ->
  run_pool (replicate (cost m) i ++ sched) (mk_pool u l ts) = run_pool sched (mk_pool u l (<[i := h b]> ts)).
Proof. intros Hi Hq Hf. rewrite (turns_access_last m c f h b Hi Hq) by (by rewrite Hf). rewrite Hf. cbn [snd]. by rewrite put_get. Qed.

(** One turn with the mutex, two without. *)
Lemma turn_section {B C} wr c f (k : B -> code E C) (h : C -> code E A) b :
  ts !! i = Some (z ← (x ← access (Locked wr) c f; k x); h z) -> quiet i ts = true -> (f (get c u)).1 = Ret b ->
  run_pool (i :: sched) (mk_pool u l ts) = run_pool sched (mk_pool (put c (f (get c u)).2 u) l (<[i := z ← k b; h z]> ts)).
Proof. apply (turns_access (Locked wr)). Qed.
Lemma turns_bare {B C} wr c f (k : B -> code E C) (h : C -> code E A) b :
  ts !! i = Some (z ← (x ← access (Bare wr false) c f; k x); h z) -> quiet i ts = true -> (f (get c u)).1 = Ret b ->
  run_pool (i :: i :: sched) (mk_pool u l ts) = run_pool sched (mk_pool (put c (f (get c u)).2 u) l (<[i := z ← k b; h z]> ts)).
Proof. apply (turns_access (Bare wr false)). Qed.
Lemma turn_last {B} wr c f (h : B -> code E A) b :
  ts !! i = Some (z ← access (Locked wr) c f; h z) -> quiet i ts = true -> (f (get c u)).1 = Ret b ->
  run_pool (i :: sched) (mk_pool u l ts) = run_pool sched (mk_pool (put c (f (get c u)).2 u) l (<[i := h b]> ts)).
Proof. apply (turns_access_last (Locked wr)). Qed.
Lemma turns_last {B} wr c f (h : B -> code E A) b :
  ts !! i = Some (z ← access (Bare wr false) c f; h z) -> quiet i ts = true -> (f (get c u)).1 = Ret b ->
  run_pool (i :: i :: sched) (mk_pool u l ts) = run_pool sched (mk_pool (put c (f (get c u)).2 u) l (<[i := h b]> ts)).
Proof. apply (turns_access_last (Bare wr false)). Qed.
Lemma turn_look {B} wr c f (h : B -> code E A) b :
  ts !! i = Some (z ← access (Locked wr) c f; h z) -> quiet i ts = true -> f (get c u) = (Ret b, get c u) ->
  run_pool (i :: sched) (mk_pool u l ts) = run_pool sched (mk_pool u l (<[i := h b]> ts)).
Proof. apply (turns_access_look (Locked wr)). Qed.
Lemma turns_look {B} wr c f (h : B -> code E A) b :
  ts !! i = Some (z ← access (Bare wr false) c f; h z) -> quiet i ts = true -> f (get c u) = (Ret b, get c u) ->
  run_pool (i :: i :: sched) (mk_pool u l ts) = run_pool sched (mk_pool u l (<[i := h b]> ts)).
Proof. apply (turns_access_look (Bare wr false)). Qed.

(** A thread begins an access without the mutex. *)
Lemma turn_begin wr c w (k : val c -> code E A) :
  ts !! i = Some (At (Bare wr false) c w k) -> quiet i ts = true ->
  run_pool (i :: sched) (mk_pool u l ts) =
  run_pool sched (mk_pool u l (<[i := At (Bare wr true) c w k]> ts)).
Proof.
  intros Hi Hq. cbn [run_pool]. unfold turn. cbn [threads shared sent_log]. rewrite Hi. cbv iota. by rewrite quiet_clash.
Qed.

(** A race. *)
Lemma turn_race m c w (k : val c -> code E A) :
  ts !! i = Some (At m c w k) -> existsb (clashes u m c w) (delete i ts) = true ->
  run_pool (i :: sched) (mk_pool u l ts) = Fault data_race.
Proof. intros Hi Hc. cbn [run_pool]. unfold turn. cbn [threads shared]. by rewrite Hi, Hc. Qed.
End Turns.

(** A thread that goes on alone to its end. *)
Lemma run_alone {T} `{SL : StoreLaws T} {E A} i (c : code E A) : forall (u : T) l ts sched,
  ts !! i = Some c -> quiet i ts = true ->
  run_pool (replicate (turns c u) i ++ sched) (mk_pool u l ts) =
  run_pool sched (mk_pool (final c u) (l ++ map (pair i) (events c u)) (<[i := Finish (result_of c u)]> ts)).
Proof.
  induction c as [r|m c w k IH|e k IH]; intros u l ts sched Hi Hq; cbn [turns].
  - unfold final, events, result_of. cbn. rewrite app_nil_r. by rewrite list_insert_id.
  - rewrite replicate_add, <- app_assoc, (turn_at _ _ _ _ _ _ _ _ _ Hi Hq).
    rewrite IH by (rewrite ?quiet_insert; try done; apply list_lookup_insert_eq; by eapply lookup_lt_Some).
    by rewrite list_insert_insert_eq.
  - cbn [replicate app]. rewrite (turn_event _ _ _ _ _ _ _ Hi).
    rewrite IH by (rewrite ?quiet_insert; try done; apply list_lookup_insert_eq; by eapply lookup_lt_Some).
    unfold final, events, result_of. cbn. destruct (exec k u) as [[r u'] es]. cbn.
    by rewrite list_insert_insert_eq, <- app_assoc.
Qed.

(** A thread that goes on alone to the end of one of its statements. *)
Lemma run_statement {T} `{SL : StoreLaws T} {E A B} i (c : code E A) (k : A -> code E B) a : forall (u : T) l ts sched,
  ts !! i = Some (x ← c; k x) -> quiet i ts = true -> result_of c u = Ret a ->
  run_pool (replicate (turns c u) i ++ sched) (mk_pool u l ts) =
  run_pool sched (mk_pool (final c u) (l ++ map (pair i) (events c u)) (<[i := k a]> ts)).
Proof.
  induction c as [r|m c w g IH|e g IH]; intros u l ts sched Hi Hq Ha; cbn [turns].
  - unfold final, events, result_of in *. cbn in *. subst r. rewrite app_nil_r. by rewrite list_insert_id.
  - change (ts !! i = Some (At m c w (fun v => x ← g v; k x))) in Hi.
    rewrite replicate_add, <- app_assoc, (turn_at _ _ _ _ _ _ _ _ _ Hi Hq).
    rewrite IH by (rewrite ?quiet_insert; try done; apply list_lookup_insert_eq; by eapply lookup_lt_Some).
    by rewrite list_insert_insert_eq.
  - change (ts !! i = Some (Emit e (x ← g; k x))) in Hi. cbn [replicate app]. rewrite (turn_event _ _ _ _ _ _ _ Hi).
    assert (result_of g u = Ret a) as Hg by (unfold result_of in *; cbn in Ha; by destruct (exec g u) as [[? ?] ?]).
    rewrite (IH _ _ _ _ (list_lookup_insert_eq _ _ _ (lookup_lt_Some _ _ _ Hi)) ltac:(by rewrite quiet_insert) Hg).
    unfold final, events. cbn. destruct (exec g u) as [[r u'] es]. cbn.
    by rewrite list_insert_insert_eq, <- app_assoc.
Qed.

(** Taking turns in a proof: [cells] looks up what is known of the cells. *)
Ltac cells :=
  cbv beta; rewrite ?get_put_ne, ?get_put by first [discriminate | assumption];
  repeat match goal with H : get _ _ = _ |- _ => progress rewrite H end.
Ltac others :=
  first [ reflexivity
        | unfold quiet; cbn [delete list_delete existsb insert list_insert];
          repeat match goal with H : in_flight _ = false |- _ => rewrite H end; reflexivity ].
Ltac after_turn := cbv beta iota; cbn [insert list_insert from_option id fst snd].
Ltac take_turn :=
  first [ erewrite turn_section; [|reflexivity|others|cells; reflexivity]
        | erewrite turns_bare; [|reflexivity|others|cells; reflexivity] ]; after_turn.
Ltac last_turn :=
  first [ erewrite turn_last; [|reflexivity|others|cells; cbn [default from_option]; reflexivity]
        | erewrite turns_last; [|reflexivity|others|cells; cbn [default from_option]; reflexivity] ]; after_turn.
Ltac look_turn :=
  first [ erewrite turn_look; [|reflexivity|others|cells; cbn [default from_option]; reflexivity]
        | erewrite turns_look; [|reflexivity|others|cells; cbn [default from_option]; reflexivity] ]; after_turn.

(** One statement of a handler whose value is known. *)
Ltac known tac := erewrite finish_bind; [|solve [tac]]; cbv beta iota zeta.

(** ** Independent threads *)

Section Independent.
Context {T : Type} `{SL : StoreLaws T} {E A : Type}.
Context (ts : list (tagged E A)) (s0 : T).
Hypothesis Huses : forall i t, ts !! i = Some t -> uses (foot t) (code_of t) s0.
Hypothesis Hind : independent ts.

(** Where thread [i] is when it had [n] turns. *)
Record on_course (n : nat) (t : tagged E A) (c : code E A) (s : T) (es : list E) : Prop := {
  oc_uses : uses (foot t) c s;
  oc_result : result_of c s = result_of (code_of t) s0;
  oc_events : es ++ events c s = events (code_of t) s0;
  oc_turns : turns c s = (turns (code_of t) s0 - n)%nat;
  oc_final : forall x, x ∈ writes (foot t) -> get x (final c s) = get x (final (code_of t) s0)
}.

Record in_step (sched : list nat) (p : pool E A) : Prop := {
  is_length : length (threads p) = length ts;
  is_threads : forall i t c, ts !! i = Some t -> threads p !! i = Some c ->
    on_course (given i sched) t c (shared p) (sent i p);
  is_frame : forall x, (forall i t, ts !! i = Some t -> x ∉ writes (foot t)) -> get x (shared p) = get x s0
}.

Lemma given_snoc i j sched : given i (sched ++ [j]) = (given i sched + if decide (j = i) then 1 else 0)%nat.
Proof. unfold given. rewrite filter_app, length_app. cbn. by destruct (decide (j = i)). Qed.

(** A thread does not notice a change of other cells. *)
Lemma on_course_agree n t c s s' es :
  (forall x, x ∈ reads (foot t) \/ x ∈ writes (foot t) -> get x s' = get x s) ->
  on_course n t c s es -> on_course n t c s' es.
Proof.
  intros Ha [H1 H2 H3 H4 H5]. destruct (uses_agree _ _ _ _ Ha H1) as (I1 & I2 & I3 & I4 & I5).
  split; [done | congruence | congruence | congruence |].
  intros x Hx. rewrite I5 by auto. auto.
Qed.

(** Thread [i] goes on to [c'], having changed at most the cells that it
    may write. *)
Lemma in_step_turn sched (p : pool E A) i t c c' s' es :
  in_step sched p -> ts !! i = Some t -> threads p !! i = Some c ->
  (forall x, x ∉ writes (foot t) -> get x s' = get x (shared p)) ->
  on_course (S (given i sched)) t c' s' (sent i p ++ es) ->
  in_step (sched ++ [i]) (mk_pool s' (sent_log p ++ map (pair i) es) (<[i := c']> (threads p))).
Proof.
  intros [L HT HF] Ht Hc Hw Hoc.
  assert (forall j, sent j (mk_pool s' (sent_log p ++ map (pair i) es) (<[i := c']> (threads p))) =
                    sent j p ++ (if decide (i = j) then es else [])) as Hs.
  { intros j. unfold sent. cbn [sent_log]. rewrite omap_app. f_equal. clear. induction es as [|e es IH]; cbn.
    - by destruct (decide (i = j)).
    - rewrite IH. by destruct (decide (i = j)). }
  split; cbn [threads shared].
  - by rewrite length_insert.
  - intros j t' c'' Hj Hcj. rewrite given_snoc, Hs. destruct (decide (i = j)) as [<-|N].
    + rewrite list_lookup_insert_eq in Hcj by (by eapply lookup_lt_Some). simplify_eq.
      by rewrite Nat.add_1_r.
    + rewrite list_lookup_insert_ne in Hcj by done. rewrite Nat.add_0_r, app_nil_r.
      apply (on_course_agree _ _ _ (shared p)); [|by apply HT].
      intros x Hx. apply Hw. intros Hxt. destruct (Hind i j t t' Ht Hj N x Hxt). tauto.
  - intros x Hx. rewrite Hw by (by eapply Hx). by apply HF.
Qed.

(** A race is one of two threads that may race. *)
Lemma clash_may_race sched p i t m c w k :
  in_step sched p -> ts !! i = Some t -> threads p !! i = Some (At m c w k) ->
  existsb (clashes (shared p) m c w) (delete i (threads p)) = true -> may_race ts.
Proof.
  intros I Ht Hc (c' & Hin & Hcl)%existsb_exists. apply list_elem_of_In, list_elem_of_lookup in Hin as [k' Hk'].
  assert (exists j, j <> i /\ threads p !! j = Some c') as (j & N & Hj).
  { destruct (decide (k' < i)%nat).
    - exists k'. rewrite list_lookup_delete_lt in Hk' by done. split; [lia | done].
    - exists (S k'). rewrite list_lookup_delete_ge in Hk' by lia. split; [lia | done]. }
  destruct (lookup_lt_is_Some_2 ts j) as [t' Ht']; [rewrite <- (is_length _ _ I); by eapply lookup_lt_Some|].
  exists i, j, t, t'. do 2 (split; [done|]). split; [congruence|].
  eapply clash_hazard; [|exact (oc_uses _ _ _ _ _ (is_threads _ _ I j t' c' Ht' Hj))|exact Hcl].
  apply (oc_uses _ _ _ _ _ (is_threads _ _ I i t _ Ht Hc)).
Qed.

Lemma turn_in_step sched p i :
  in_step sched p ->
  may_race ts /\ turn i p = Fault data_race \/ exists p', turn i p = Ret p' /\ in_step (sched ++ [i]) p'.
Proof.
  intros I. unfold turn. destruct (threads p !! i) as [c|] eqn:Hc.
  2: { right. exists p. split; [done|]. destruct I as [L HT HF]. split; [done | | done].
       intros j t c Hj Hcj. rewrite given_snoc. rewrite decide_False by congruence.
       rewrite Nat.add_0_r. by apply HT. }
  destruct (lookup_lt_is_Some_2 ts i) as [t Ht]; [rewrite <- (is_length _ _ I); by eapply lookup_lt_Some|].
  pose proof (is_threads _ _ I i t c Ht Hc) as [U R V N F].
  destruct c as [[a|f]|m x w k|e k].
  - right. exists p. split; [done|].
    pose proof (in_step_turn sched p i t (Finish (Ret a)) (Finish (Ret a)) (shared p) [] I Ht Hc) as X.
    cbn [map] in X. rewrite app_nil_r, app_nil_r, list_insert_id in X by done. destruct p. apply X; [done|].
    split; [done | done | done | cbn in *; lia | done].
  - done.
  - destruct (existsb _ _) eqn:Hcl; [left; split; [by eapply clash_may_race | done]|right].
    assert (cost m = 1%nat -> in_step (sched ++ [i]) (mk_pool (put x (w (get x (shared p))) (shared p)) (sent_log p)
              (<[i := k (get x (shared p))]> (threads p)))) as Hdo.
    { intros Em. destruct U as [[U1 _] U2].
      pose proof (in_step_turn sched p i t _ (k (get x (shared p))) (put x (w (get x (shared p))) (shared p)) [] I Ht Hc) as X.
      cbn [map] in X. rewrite !app_nil_r in X. apply X.
      - intros y Hy. destruct (decide (x = y)) as [<-|Ne]; [|by rewrite get_put_ne].
        rewrite get_put. by destruct U1 as [|[_ ?]].
      - split; [done | exact R | exact V | cbn in N; lia | exact F]. }
    destruct m as [wr|wr [|]]; [eexists; split; [done | by apply Hdo] | eexists; split; [done | by apply Hdo] |].
    eexists. split; [done|].
    pose proof (in_step_turn sched p i t _ (At (Bare wr true) x w k) (shared p) [] I Ht Hc) as X.
    cbn [map] in X. rewrite !app_nil_r in X. apply X; [done|].
    split; [exact U | exact R | exact V | cbn in *; lia | exact F].
  - right. eexists. split; [reflexivity|].
    apply (in_step_turn sched p i t _ k (shared p) [e] I Ht Hc); [done|].
    unfold result_of, events, final in *. cbn in *.
    destruct (exec k (shared p)) as [[r s'] es] eqn:Ek.
    split; unfold result_of, events, final; rewrite ?Ek; cbn in *;
      [done | done | by rewrite <- app_assoc | lia | done].
Qed.

(** Whatever the schedule, no thread faults, unless there is a race, and all
    are on course. *)
Lemma run_in_step sched :
  may_race ts /\ run_pool sched (start_pool s0 (map code_of ts)) = Fault data_race \/
  exists p, run_pool sched (start_pool s0 (map code_of ts)) = Ret p /\ in_step sched p.
Proof.
  assert (forall sched p done, in_step done p ->
    may_race ts /\ run_pool sched p = Fault data_race \/
    exists p', run_pool sched p = Ret p' /\ in_step (done ++ sched) p') as H.
  { clear sched. intros sched. induction sched as [|i sched IH]; intros p d I.
    - right. exists p. by rewrite app_nil_r.
    - cbn [run_pool]. destruct (turn_in_step d p i I) as [[M ->]|(p' & -> & I1)]; [by left|]. res.
      destruct (IH p' _ I1) as [[M E2]|(p'' & E2 & I2)]; [by left | right].
      exists p''. split; [done|]. by rewrite <- app_assoc in I2. }
  apply (H _ _ []). split; cbn.
  - by rewrite length_map.
  - intros i t c Ht. rewrite list_lookup_fmap, Ht. cbn. intros [= <-].
    split; [by eapply Huses | done | done | cbn; lia | done].
  - done.
Qed.
End Independent.

(** The threads one after the other write the same. *)
Lemma serial_cells {T} `{SL : StoreLaws T} {E A} (ts : list (tagged E A)) (s : T) :
  (forall i t, ts !! i = Some t -> uses (foot t) (code_of t) s) -> independent ts ->
  (forall i t x, ts !! i = Some t -> x ∈ writes (foot t) ->
     get x (serial (map code_of ts) s) = get x (final (code_of t) s)) /\
  (forall x, (forall i t, ts !! i = Some t -> x ∉ writes (foot t)) -> get x (serial (map code_of ts) s) = get x s).
Proof.
  revert s. induction ts as [|t0 ts IH]; intros s Hu Hi; [by split|]. cbn [map serial].
  pose proof (Hu 0%nat t0 eq_refl) as U0. set (s1 := final (code_of t0) s).
  assert (forall i t x, ts !! i = Some t -> x ∈ reads (foot t) \/ x ∈ writes (foot t) -> get x s1 = get x s) as Ha.
  { intros i t x Ht Hx. apply (uses_frame _ _ _ _ U0). intros Hx0.
    destruct (Hi 0%nat (S i) t0 t eq_refl Ht ltac:(done) x Hx0). tauto. }
  assert (forall i t, ts !! i = Some t -> uses (foot t) (code_of t) s1 /\
    forall x, x ∈ writes (foot t) -> get x (final (code_of t) s1) = get x (final (code_of t) s)) as Hs1.
  { intros i t Ht. destruct (uses_agree _ (code_of t) s s1 (fun x => Ha i t x Ht) (Hu (S i) t Ht)) as (I1 & _ & _ & _ & I5).
    split; [done|]. intros x Hx. by apply I5; right. }
  destruct (IH s1 (fun i t Ht => proj1 (Hs1 i t Ht))) as [J1 J2].
  { intros i j t t' Ht Ht' N. by apply (Hi (S i) (S j)); auto. }
  split.
  - intros [|i] t x Ht Hx.
    + injection Ht as <-. rewrite J2; [done|]. intros j t' Ht'.
      by apply (Hi 0%nat (S j) t0 t' eq_refl Ht' ltac:(done) x Hx).
    + rewrite (J1 i t x Ht Hx). by apply (Hs1 i t Ht).
  - intros x Hx. rewrite J2 by (intros i t Ht; by apply (Hx (S i) t)).
    apply (uses_frame _ _ _ _ U0). by apply (Hx 0%nat t0).
Qed.

Section Together.
Context {T : Type} `{SL : StoreLaws T} {E A : Type}.
Context (ts : list (tagged E A)) (s0 : T).
Hypothesis Huses : forall i t, ts !! i = Some t -> uses (foot t) (code_of t) s0.
Hypothesis Hind : independent ts.

(** Independent threads, whatever the schedule: the process has a data race,
    which only threads whose footprints allow it can have; or nothing faults,
    what a thread has sent is the beginning of what it sends when it runs alone,
    and once each had the turns it takes alone, each is done with the result it
    has alone, has sent just that, and the shared state is what the threads make
    of it one after the other. *)
Lemma independent_threads sched :
  may_race ts /\ run_pool sched (start_pool s0 (map code_of ts)) = Fault data_race \/
  exists p,
    run_pool sched (start_pool s0 (map code_of ts)) = Ret p /\
    (forall i t, ts !! i = Some t -> sent i p `prefix_of` events (code_of t) s0) /\
    ((forall i t, ts !! i = Some t -> (turns (code_of t) s0 <= given i sched)%nat) ->
     (forall i t, ts !! i = Some t ->
        threads p !! i = Some (Finish (result_of (code_of t) s0)) /\ sent i p = events (code_of t) s0) /\
     shared p = serial (map code_of ts) s0).
Proof.
  destruct (run_in_step ts s0 Huses Hind sched) as [R|(p & Ep & [L HT HF])]; [by left | right].
  assert (forall i t, ts !! i = Some t -> exists c, threads p !! i = Some c) as Hex.
  { intros i t Ht. apply lookup_lt_is_Some_2. rewrite L. by eapply lookup_lt_Some. }
  exists p. split; [done|]. split.
  { intros i t Ht. destruct (Hex i t Ht) as [c Hc]. eexists. symmetry. apply (oc_events _ _ _ _ _ _ (HT i t c Ht Hc)). }
  intros Hn.
  assert (forall i t, ts !! i = Some t -> exists r, threads p !! i = Some (Finish r) /\
            on_course s0 (given i sched) t (Finish r) (shared p) (sent i p)) as Hdone.
  { intros i t Ht. destruct (Hex i t Ht) as [c Hc]. pose proof (HT i t c Ht Hc) as O.
    pose proof (oc_turns _ _ _ _ _ _ O) as N. specialize (Hn i t Ht).
    destruct c as [r|m x w k|e k]; [by exists r | | cbn in N; lia].
    cbn [turns] in N. destruct m as [wr|wr [|]]; cbn [cost] in N; lia. }
  split.
  - intros i t Ht. destruct (Hdone i t Ht) as (r & -> & [_ R V _ _]). cbn in V. rewrite app_nil_r in V.
    split; [|done]. by rewrite <- R.
  - destruct (serial_cells ts s0 Huses Hind) as [J1 J2]. apply store_ext. intros x.
    destruct (decide (Exists (fun t => x ∈ writes (foot t)) ts)) as [H|H].
    + apply Exists_exists in H as (t & [i Ht]%list_elem_of_lookup & Hx).
      rewrite (J1 i t x Ht Hx). destruct (Hdone i t Ht) as (r & _ & [_ _ _ _ F]). by apply F.
    + assert (forall i t, ts !! i = Some t -> x ∉ writes (foot t)) as Hx.
      { intros i t Ht Hx. apply H, Exists_exists. exists t. split; [by eapply list_elem_of_lookup_2 | done]. }
      rewrite J2, HF by done. done.
Qed.
End Together.
