(* ===== verification/Telecom.v ===== *)
(** * Telecom: subscriber and network identifiers (src/telecom.cpp)

    The identifiers are built by gluing decimal numerals: [to_string] is the
    C++ one (the decimal numeral, stdpp's [pretty]) and [stoull] the
    standard library's parser with its two exceptions. *)

From Stdlib Require Import ZArith Lia Ascii String.
From S2P Require Import Prelude.

(** ** [std::to_string] of an unsigned number and [std::stoull] *)

Definition to_string (z : Z) : string := pretty (Z.to_N z).

Definition is_digit (c : ascii) : bool :=
  (48 <=? N_of_ascii c)%N && (N_of_ascii c <=? 57)%N.
Definition digit_val (c : ascii) : Z := Z.of_N (N_of_ascii c) - 48.
Definition is_space (c : ascii) : bool :=
  (N_of_ascii c =? 32)%N || ((9 <=? N_of_ascii c)%N && (N_of_ascii c <=? 13)%N).

Fixpoint skip_spaces (s : string) : string :=
  match s with
  | String c s' => if is_space c then skip_spaces s' else s
  | EmptyString => s
  end.

(** The value of the longest prefix of digits, after [acc]. *)
Fixpoint digits_val (acc : Z) (s : string) : Z :=
  match s with
  | String c s' => if is_digit c then digits_val (acc * 10 + digit_val c) s' else acc
  | EmptyString => acc
  end.

Definition ULLONG_MAX : Z := 2 ^ 64 - 1.

Definition stoull_digits (neg : bool) (s : string) : result Z :=
  match s with
  | String c _ =>
      if is_digit c then
        let v := digits_val 0 s in
        if v <=? ULLONG_MAX then Ret (u64 (if neg then - v else v))
        else Fault (Throw "std::out_of_range: stoull")
      else Fault (Throw "std::invalid_argument: stoull")
  | EmptyString => Fault (Throw "std::invalid_argument: stoull")
  end.

Definition stoull (s : string) : result Z :=
  match skip_spaces s with
  | String "+" s' => stoull_digits false s'
  | String "-" s' => stoull_digits true s'
  | s' => stoull_digits false s'
  end.

(** [s.substr(pos, npos)]: throws when [pos] is past the end. *)
Definition substr_from (pos : nat) (s : string) : result string :=
  if (String.length s <? pos)%nat then Fault (Throw "std::out_of_range: basic_string::substr")
  else Ret (String.substring pos (String.length s - pos) s).

(** ** The identifiers *)

Module Telecom.

(** [return stoull(to_string(a) + to_string(b))] with the width of the
    return type applied by the caller below. *)
Definition concat_ids (a b : Z) : result Z := stoull (to_string a +:+ to_string b).

Definition get_plmn_id (mcc mnc : Z) : result Z := x ← concat_ids mcc mnc; mret (u16 x).
Definition get_mmei (mmegi mmec : Z) : result Z := x ← concat_ids mmegi mmec; mret (u32 x).
Definition get_gummei (plmn_id mmei : Z) : result Z := concat_ids plmn_id mmei.
Definition get_imsi (plmn_id msisdn : Z) : result Z := concat_ids plmn_id msisdn.
Definition get_guti (gummei m_tmsi : Z) : result Z := concat_ids gummei m_tmsi.

End Telecom.

(** The S11 control TEID both the AMF and the SMF derive from a GUTI
    ([Amf::get_s11cteidamf], [Smf::get_s11cteidmme]). *)
Definition get_s11cteid (guti : Z) : result Z :=
  tem ← substr_from 7 (to_string guti);
  x ← stoull tem;
  mret (u32 x).

(** ** Decimal numerals *)

Definition ndigits (z : Z) : nat := String.length (to_string z).

Lemma string_app_cons c (a b : string) : String c a +:+ b = String c (a +:+ b).
Proof. reflexivity. Qed.

Lemma string_app_assoc (a b c : string) : (a +:+ b) +:+ c = a +:+ (b +:+ c).
Proof. induction a; [done|]. rewrite !string_app_cons. by f_equal. Qed.

Lemma string_app_nil (a : string) : a +:+ "" = a.
Proof. induction a; [done|]. rewrite string_app_cons. by f_equal. Qed.

Lemma string_length_app (a b : string) :
  String.length (a +:+ b) = (String.length a + String.length b)%nat.
Proof. induction a; [done|]. rewrite string_app_cons. simpl. by f_equal. Qed.

Lemma pretty_go_app x s : pretty_N_go x s = pretty_N_go x "" +:+ s.
Proof.
  revert s. induction (N.lt_wf_0 x) as [x _ IH]; intros s.
  destruct (decide (x = 0)%N) as [->|Hx]; [by rewrite !pretty_N_go_0|].
  rewrite !(pretty_N_go_step x) by lia.
  rewrite (IH (x `div` 10)%N) by (apply N.div_lt; lia).
  rewrite (IH (x `div` 10)%N) with (s := String _ "") by (apply N.div_lt; lia).
  by rewrite string_app_assoc.
Qed.

Lemma pretty_N_char_digit d :
  (d < 10)%N ->
  is_digit (pretty_N_char d) = true /\ digit_val (pretty_N_char d) = Z.of_N d.
Proof.
  intros H.
  assert (d = 0 \/ d = 1 \/ d = 2 \/ d = 3 \/ d = 4 \/ d = 5 \/ d = 6 \/ d = 7 \/
          d = 8 \/ d = 9)%N as Hd by lia.
  by repeat (destruct Hd as [->|Hd]); [..|subst d].
Qed.

Lemma digits_val_cons acc c s :
  is_digit c = true -> digits_val acc (String c s) = digits_val (acc * 10 + digit_val c) s.
Proof. intros H. simpl. by rewrite H. Qed.

(** Reading back the numeral of [x] after [acc]. *)
Lemma digits_val_go x acc s :
  digits_val acc (pretty_N_go x "" +:+ s) =
  digits_val (acc * 10 ^ Z.of_nat (String.length (pretty_N_go x "")) + Z.of_N x) s.
Proof.
  revert acc s. induction (N.lt_wf_0 x) as [x _ IH]; intros acc s.
  destruct (decide (x = 0)%N) as [->|Hx].
  { rewrite pretty_N_go_0. simpl. f_equal. lia. }
  rewrite (pretty_N_go_step x) by lia.
  rewrite pretty_go_app, string_app_assoc, IH by (apply N.div_lt; lia).
  destruct (pretty_N_char_digit (x `mod` 10)%N) as [Hd Hv]; [apply N.mod_lt; lia|].
  rewrite string_app_cons, digits_val_cons by done. f_equal.
  rewrite string_length_app. cbn [String.length].
  rewrite Hv, Nat.add_1_r, Nat2Z.inj_succ, Z.pow_succ_r by lia.
  assert (Z.of_N x = 10 * Z.of_N (x `div` 10) + Z.of_N (x `mod` 10)) as E.
  { pose proof (N.div_mod x 10 ltac:(lia)). lia. }
  nia.
Qed.

Lemma go_length_bounds x :
  let k := Z.of_nat (String.length (pretty_N_go x "")) in
  Z.of_N x < 10 ^ k /\ (x <> 0%N -> 1 <= k /\ 10 ^ (k - 1) <= Z.of_N x).
Proof.
  induction (N.lt_wf_0 x) as [x _ IH]; cbv zeta.
  destruct (decide (x = 0)%N) as [->|Hx].
  { rewrite pretty_N_go_0. simpl. split; [lia | done]. }
  rewrite (pretty_N_go_step x), pretty_go_app, string_length_app by lia.
  cbn [String.length].
  destruct (IH (x `div` 10)%N) as [IH1 IH2]; [apply N.div_lt; lia|].
  rewrite Nat.add_1_r, Nat2Z.inj_succ, Z.pow_succ_r by lia.
  pose proof (N.div_mod x 10 ltac:(lia)). pose proof (N.mod_lt x 10 ltac:(lia)).
  split; [lia|]. intros _.
  set (k := Z.of_nat _) in *. replace (Z.succ k - 1) with k by lia.
  split; [lia|].
  destruct (decide (x `div` 10 = 0)%N) as [E|E].
  - assert (k = 0) as ->; [|simpl; lia].
    subst k. by rewrite E, pretty_N_go_0.
  - destruct (IH2 E) as [Hk Hb].
    replace k with (Z.succ (k - 1)) by lia. rewrite Z.pow_succ_r by lia.
    trans (10 * Z.of_N (x `div` 10)%N); [by apply Z.mul_le_mono_nonneg_l|].
    pose proof (N.Div0.mul_div_le x 10) as Hd. generalize dependent (x `div` 10)%N.
    clear. intros. lia.
Qed.

Lemma to_string_go z : z <> 0 -> to_string z = pretty_N_go (Z.to_N z) "" \/ z < 0.
Proof.
  intros H. destruct (decide (z < 0)); [by right|]. left.
  unfold to_string, pretty, pretty_N. rewrite decide_False by lia. done.
Qed.

(** The number of digits: [10^(n-1) <= z < 10^n] for a positive [z]. *)
Lemma ndigits_spec z n : 0 < z -> 10 ^ (Z.of_nat n - 1) <= z < 10 ^ Z.of_nat n ->
  (1 <= n)%nat -> ndigits z = n.
Proof.
  intros Hz Hb Hn. unfold ndigits.
  destruct (to_string_go z) as [->|]; [lia| |lia].
  destruct (go_length_bounds (Z.to_N z)) as [H1 H2]. specialize (H2 ltac:(lia)).
  rewrite Z2N.id in H1, H2 by lia. set (m := String.length _) in *.
  destruct (Nat.lt_trichotomy m n) as [L|[->|L]]; [|done|].
  - assert (10 ^ Z.of_nat m <= 10 ^ (Z.of_nat n - 1)) by (apply Z.pow_le_mono_r; lia). lia.
  - assert (10 ^ Z.of_nat n <= 10 ^ (Z.of_nat m - 1)) by (apply Z.pow_le_mono_r; lia). lia.
Qed.

Lemma digits_val_to_string z acc s :
  0 <= z ->
  digits_val acc (to_string z +:+ s) =
  digits_val (acc * 10 ^ Z.of_nat (ndigits z) + z) s.
Proof.
  intros Hz. unfold ndigits. destruct (decide (z = 0)) as [->|Hz0].
  - change (to_string 0) with "0". rewrite string_app_cons, digits_val_cons by done.
    change (digit_val "0") with 0. done.
  - destruct (to_string_go z Hz0) as [->|]; [|lia].
    rewrite digits_val_go, Z2N.id by lia. done.
Qed.

Lemma digits_val_to_string_nil z acc :
  0 <= z -> digits_val acc (to_string z) = acc * 10 ^ Z.of_nat (ndigits z) + z.
Proof.
  intros Hz. by rewrite <- (string_app_nil (to_string z)), digits_val_to_string.
Qed.

Lemma to_string_head z : 0 <= z -> exists c s, to_string z = String c s /\ is_digit c = true.
Proof.
  intros Hz. destruct (decide (z = 0)) as [->|Hz0]; [by exists "0"%char, ""|].
  destruct (to_string_go z Hz0) as [->|]; [|lia].
  assert (Z.to_N z <> 0)%N as Hx by lia. revert Hx. generalize (Z.to_N z) as x.
  clear. intros x. induction (N.lt_wf_0 x) as [x _ IH]; intros Hx.
  rewrite (pretty_N_go_step x), pretty_go_app by lia.
  destruct (decide (x `div` 10 = 0)%N) as [->|E].
  - rewrite pretty_N_go_0. eexists _, _; split; [reflexivity|].
    apply pretty_N_char_digit, N.mod_lt. lia.
  - destruct (IH (x `div` 10)%N) as (c & s & -> & Hc); [apply N.div_lt; lia | done |].
    eexists c, _; split; [reflexivity | done].
Qed.

Lemma digit_plain c : is_digit c = true -> is_space c = false /\ c <> "+"%char /\ c <> "-"%char.
Proof.
  intros H. unfold is_digit in H. rewrite andb_true_iff, !N.leb_le in H.
  repeat split.
  - unfold is_space. apply orb_false_iff. rewrite andb_false_iff, N.eqb_neq, !N.leb_gt. lia.
  - intros ->. vm_compute in H. by destruct H.
  - intros ->. vm_compute in H. by destruct H.
Qed.

(** On a text that starts with a digit, [stoull] is the value of its digits. *)
Lemma stoull_digit_head c s :
  is_digit c = true ->
  stoull (String c s) =
  (let v := digits_val 0 (String c s) in
   if v <=? ULLONG_MAX then Ret (u64 v) else Fault (Throw "std::out_of_range: stoull")).
Proof.
  intros Hc. destruct (digit_plain c Hc) as (Hs & Hp & Hm).
  unfold stoull. cbn [skip_spaces]. rewrite Hs.
  assert (stoull (String c s) = stoull_digits false (String c s)) as E.
  { unfold stoull. cbn [skip_spaces]. rewrite Hs.
    destruct c as [[] [] [] [] [] [] [] []]; try done; vm_compute in Hc; done. }
  unfold stoull in E. cbn [skip_spaces] in E. rewrite Hs in E. rewrite E.
  cbn [stoull_digits]. by rewrite Hc.
Qed.

(** Parsing back a printed number. *)
Lemma stoull_to_string z : 0 <= z <= ULLONG_MAX -> stoull (to_string z) = Ret z.
Proof.
  intros Hz. destruct (to_string_head z) as (c & s & E & Hc); [lia|].
  rewrite E, stoull_digit_head by done. rewrite <- E. cbv zeta.
  rewrite digits_val_to_string_nil by lia. simpl (0 * _ + z).
  rewrite (proj2 (Z.leb_le _ _)) by lia. f_equal. apply u64_id. unfold ULLONG_MAX in *. lia.
Qed.

(** Gluing two numerals: the value, or [out_of_range] past 64 bits. *)
Lemma concat_ids_spec a b :
  0 <= a -> 0 <= b ->
  Telecom.concat_ids a b =
  (let v := a * 10 ^ Z.of_nat (ndigits b) + b in
   if v <=? ULLONG_MAX then Ret v else Fault (Throw "std::out_of_range: stoull")).
Proof.
  intros Ha Hb. unfold Telecom.concat_ids.
  destruct (to_string_head a) as (c & s & E & Hc); [lia|].
  rewrite E, string_app_cons, stoull_digit_head by done.
  change (String c (s +:+ to_string b)) with (String c s +:+ to_string b).
  rewrite <- E. cbv zeta.
  rewrite digits_val_to_string, digits_val_to_string_nil by lia.
  rewrite Z.mul_0_l, Z.add_0_l. case_match eqn:L; [|done].
  f_equal. apply u64_id. apply Z.leb_le in L. unfold ULLONG_MAX in *.
  assert (0 <= a * 10 ^ Z.of_nat (ndigits b)) by (apply Z.mul_nonneg_nonneg; lia). lia.
Qed.

(** ** Suffixes of a numeral: what [substr(7)] keeps *)

Fixpoint all_digits (s : string) : bool :=
  match s with
  | String c s' => is_digit c && all_digits s'
  | EmptyString => true
  end.

Lemma all_digits_app a b : all_digits (a +:+ b) = all_digits a && all_digits b.
Proof.
  induction a; [done|]. rewrite string_app_cons. simpl. rewrite IHa. by rewrite andb_assoc.
Qed.

Lemma all_digits_to_string z : 0 <= z -> all_digits (to_string z) = true.
Proof.
  intros Hz. destruct (decide (z = 0)) as [->|Hz0]; [done|].
  destruct (to_string_go z Hz0) as [->|]; [|lia].
  generalize (Z.to_N z) as x. clear. intros x.
  induction (N.lt_wf_0 x) as [x _ IH].
  destruct (decide (x = 0)%N) as [->|Hx]; [by rewrite pretty_N_go_0|].
  rewrite (pretty_N_go_step x), pretty_go_app, all_digits_app by lia.
  rewrite IH by (apply N.div_lt; lia). simpl.
  by rewrite (proj1 (pretty_N_char_digit _ (N.mod_lt x 10 ltac:(lia)))).
Qed.

Lemma digit_val_range c : is_digit c = true -> 0 <= digit_val c <= 9.
Proof.
  unfold is_digit, digit_val. rewrite andb_true_iff, !N.leb_le. lia.
Qed.

Lemma digits_val_acc q acc :
  all_digits q = true ->
  digits_val acc q = acc * 10 ^ Z.of_nat (String.length q) + digits_val 0 q /\
  0 <= digits_val 0 q < 10 ^ Z.of_nat (String.length q).
Proof.
  revert acc; induction q as [|c q IH]; intros acc H.
  - simpl. lia.
  - simpl in H. apply andb_true_iff in H as [Hc Hq].
    pose proof (digit_val_range c Hc).
    cbn [digits_val String.length]. rewrite Hc, Nat2Z.inj_succ, Z.pow_succ_r by lia.
    destruct (IH (acc * 10 + digit_val c) Hq) as [E _].
    destruct (IH (0 * 10 + digit_val c) Hq) as [E0 B].
    rewrite E, E0. split; [ring | nia].
Qed.

Lemma digits_val_app p q acc :
  all_digits p = true -> digits_val acc (p +:+ q) = digits_val (digits_val acc p) q.
Proof.
  revert acc; induction p as [|c p IH]; intros acc H; [done|].
  simpl in H. apply andb_true_iff in H as [Hc Hp].
  rewrite string_app_cons, digits_val_cons, IH by done. simpl. by rewrite Hc.
Qed.

(** The last [k] digits of a numeral are its value modulo [10^k]. *)
Lemma digits_suffix z p q :
  0 <= z -> to_string z = p +:+ q ->
  digits_val 0 q = z mod 10 ^ Z.of_nat (String.length q).
Proof.
  intros Hz E. pose proof (all_digits_to_string z Hz) as Hd.
  rewrite E, all_digits_app in Hd. apply andb_true_iff in Hd as [Hp Hq].
  pose proof (digits_val_to_string_nil z 0 Hz) as V.
  rewrite E, digits_val_app in V by done.
  destruct (digits_val_acc q (digits_val 0 p) Hq) as [Ha Hb].
  rewrite Z.mul_0_l, Z.add_0_l in V. rewrite Ha in V. rewrite <- V.
  rewrite Z.add_comm, Z_mod_plus_full. symmetry. by apply Z.mod_small.
Qed.

Lemma substring_all s : String.substring 0 (String.length s) s = s.
Proof. induction s as [|c s IH]; [done|]. simpl. by rewrite IH. Qed.

Lemma substring_split n s :
  (n <= String.length s)%nat ->
  s = String.substring 0 n s +:+ String.substring n (String.length s - n) s /\
  String.length (String.substring n (String.length s - n) s) = (String.length s - n)%nat.
Proof.
  revert s; induction n as [|n IH]; intros s H.
  - rewrite Nat.sub_0_r, substring_all. split; [by destruct s | done].
  - destruct s as [|c s]; [simpl in H; lia|]. simpl in *.
    destruct (IH s ltac:(lia)) as [E1 E2]. split; [|done].
    change (String c s = String c (String.substring 0 n s +:+
                            String.substring n (String.length s - n) s)).
    by f_equal.
Qed.

Lemma stoull_digits_text q :
  all_digits q = true -> (String.length q <= 19)%nat -> q <> "" ->
  stoull q = Ret (digits_val 0 q).
Proof.
  intros Hq Hl Hne. destruct (digits_val_acc q 0 Hq) as [_ Hb].
  assert (10 ^ Z.of_nat (String.length q) <= 10 ^ 19) by (apply Z.pow_le_mono_r; lia).
  destruct q as [|c s]; [done|].
  rewrite stoull_digit_head by (simpl in Hq; by apply andb_true_iff in Hq as [? _]).
  cbv zeta. unfold ULLONG_MAX. rewrite (proj2 (Z.leb_le _ _)) by lia.
  f_equal. apply u64_id. lia.
Qed.

(** What [get_s11cteid] computes on every branch of the library calls. *)
Lemma get_s11cteid_spec guti :
  0 <= guti <= ULLONG_MAX ->
  get_s11cteid guti =
    (if (ndigits guti <? 7)%nat then Fault (Throw "std::out_of_range: basic_string::substr")
     else if (ndigits guti =? 7)%nat then Fault (Throw "std::invalid_argument: stoull")
     else Ret (u32 (guti mod 10 ^ Z.of_nat (ndigits guti - 7)))).
Proof.
  intros Hg. unfold get_s11cteid, substr_from, ndigits.
  destruct (String.length (to_string guti) <? 7)%nat eqn:L; [done|].
  apply Nat.ltb_ge in L. destruct (substring_split 7 _ L) as [E1 E2].
  set (q := String.substring 7 _ _) in *. cbn [mbind result_bind].
  pose proof (digits_suffix guti _ _ (proj1 Hg) E1) as Hv.
  pose proof (all_digits_to_string guti (proj1 Hg)) as Hd.
  rewrite E1, all_digits_app in Hd. apply andb_true_iff in Hd as [_ Hd].
  destruct (String.length (to_string guti) =? 7)%nat eqn:L7.
  - apply Nat.eqb_eq in L7. rewrite L7 in E2. clearbody q.
    destruct q; [done | simpl in E2; lia].
  - apply Nat.eqb_neq in L7. clearbody q.
    rewrite stoull_digits_text; [cbn; by rewrite Hv, E2 | exact Hd | |].
    + rewrite E2. destruct (decide (guti = 0)) as [->|Hne]; [simpl; lia|].
      destruct (to_string_go guti Hne) as [Eg|]; [|lia].
      destruct (go_length_bounds (Z.to_N guti)) as [_ B]. rewrite <- Eg in B.
      destruct (B ltac:(lia)) as [_ B2]. rewrite Z2N.id in B2 by lia.
      destruct (decide (String.length (to_string guti) <= 26)%nat); [lia|].
      assert (10 ^ 26 <= 10 ^ (Z.of_nat (String.length (to_string guti)) - 1))
        by (apply Z.pow_le_mono_r; lia).
      unfold ULLONG_MAX in Hg. lia.
    + intros ->. simpl in E2. lia.
Qed.

(** ** The identifiers of the deployment (MCC = MNC = 1, MSISDN 9000000000+n) *)

Definition deployed_imsi (n : Z) : Z := 119000000000 + n.
Definition deployed_guti (n : Z) : Z := 1111119000000000 + n.

Lemma get_imsi_deployed n :
  0 <= n < 10 ^ 9 -> Telecom.get_imsi 11 (9000000000 + n) = Ret (deployed_imsi n).
Proof.
  intros Hn. unfold Telecom.get_imsi. rewrite concat_ids_spec by lia.
  rewrite (ndigits_spec _ 10) by (simpl; lia). cbv zeta.
  rewrite (proj2 (Z.leb_le _ _)) by (unfold ULLONG_MAX; simpl; lia).
  f_equal. unfold deployed_imsi. simpl. lia.
Qed.

Lemma get_guti_deployed n :
  0 <= n < 10 ^ 9 -> Telecom.get_guti 1111 (deployed_imsi n) = Ret (deployed_guti n).
Proof.
  intros Hn. unfold Telecom.get_guti, deployed_imsi. rewrite concat_ids_spec by lia.
  rewrite (ndigits_spec _ 12) by (simpl; lia). cbv zeta.
  rewrite (proj2 (Z.leb_le _ _)) by (unfold ULLONG_MAX; simpl; lia).
  f_equal. unfold deployed_guti. simpl. lia.
Qed.

Lemma get_s11cteid_deployed n :
  0 <= n < 10 ^ 9 -> get_s11cteid (deployed_guti n) = Ret n.
Proof.
  intros Hn. rewrite get_s11cteid_spec by (unfold deployed_guti, ULLONG_MAX; lia).
  rewrite (ndigits_spec _ 16) by (unfold deployed_guti; simpl; lia). simpl Nat.ltb.
  simpl Nat.eqb. cbn iota. f_equal. unfold deployed_guti.
  change (Z.of_nat (16 - 7)) with 9.
  replace (1111119000000000 + n) with (n + 1111119 * 10 ^ 9) by lia.
  rewrite Z_mod_plus_full, Z.mod_small by lia. apply u32_id. lia.
Qed.

(** ** Properties *)

Section Properties.

(** The identifiers glued from decimal numerals are unambiguous
    when the second parts have the same number of digits (as the MSISDNs
    and IMSIs of the deployment do). *)
Theorem concat_ids_inj a b a' b' v :
  0 <= a -> 0 <= a' -> 0 < b -> 0 < b' -> ndigits b = ndigits b' ->
  Telecom.concat_ids a b = Ret v -> Telecom.concat_ids a' b' = Ret v ->
  a = a' /\ b = b'.
Proof.
  intros Ha Ha' Hb Hb' Hd. rewrite !concat_ids_spec by lia. cbv zeta. rewrite Hd.
  destruct (to_string_go b) as [Eb|]; [lia| |lia].
  destruct (to_string_go b') as [Eb'|]; [lia| |lia].
  destruct (go_length_bounds (Z.to_N b)) as [B _].
  destruct (go_length_bounds (Z.to_N b')) as [B' _].
  rewrite <- Eb, Z2N.id in B by lia. rewrite <- Eb', Z2N.id in B' by lia.
  unfold ndigits in *. rewrite Hd in B. set (P := 10 ^ _) in *.
  repeat case_match; intros H1 H2; simplify_eq.
  assert (a = a') as -> by nia. lia.
Qed.

Lemma concat_ids_inj_witness :
  Telecom.concat_ids 11 9000000003 = Ret 119000000003 /\ (11 = 11 /\ 9000000003 = 9000000003).
Proof.
  split; [reflexivity|].
  apply (concat_ids_inj 11 9000000003 11 9000000003 119000000003);
    solve [lia | reflexivity].
Defined.

End Properties.
