(* ===== verification/Headers.v ===== *)
(** * Protocol headers: GTP, S1AP, Diameter (src/gtp.h, src/gtp.cpp,
    src/s1ap.h, src/s1ap.cpp, src/diameter.h, src/diameter.cpp)

    The code moves the header objects to and from packets with [memmove], so
    the wire format is the object layout: little endian, natural alignment
    (the x86-64 System V ABI the Makefile builds for).  Padding bytes travel
    with the object, so they are fields here. *)

From Stdlib Require Import ZArith Lia.
From S2P Require Import Prelude Utils.

(** Reading consecutive fields off a byte string. *)
Definition field (bs : list Z) (off n : nat) : Z := le_val (take n (drop off bs)).

Module Gtp.

(** [class Gtp]; [pad1] and [pad2] are the padding after [flags] and
    after [msg_type]. *)
Record t := mk {
  flags : Z;      (* uint8_t,  offset 0 *)
  pad1 : Z;       (*           offset 1 *)
  msg_len : Z;    (* uint16_t, offset 2 *)
  field_1 : Z;    (* uint16_t, offset 4 *)
  field_2 : Z;    (* uint16_t, offset 6 *)
  field_3 : Z;    (* uint8_t,  offset 8 *)
  msg_type : Z;   (* uint8_t,  offset 9 *)
  pad2 : Z;       (*           offset 10, two bytes *)
  teid : Z        (* uint32_t, offset 12 *)
}.

(** [GTP_HDR_LEN = sizeof(Gtp)] *)
Definition GTP_HDR_LEN : Z := 16.

(** [Gtp::Gtp()]: only the protocol dependent fields are set, the others
    keep what the memory [g] held. *)
Definition construct (g : t) : t :=
  g <| field_1 := 0 |> <| field_2 := 0 |> <| field_3 := 0 |>.

(** [Gtp::init]; the arguments are narrowed to their C types. *)
Definition init (g : t) (protocol arg_msg_type arg_msg_len arg_teid : Z) : result t :=
  let g := g <| msg_type := u8 arg_msg_type |> <| msg_len := u16 arg_msg_len |>
             <| teid := u32 arg_teid |> in
  match u8 protocol with
  | 1 => Ret (g <| flags := 48 |>)
  | 2 => Ret (g <| flags := if 0 <? u32 arg_teid then 72 else 64 |>)
  | _ => Fault (Exit "gtp protocol error: gtp_init")
  end.

Definition to_bytes (g : t) : list Z :=
  le_bytes 1 (flags g) ++ le_bytes 1 (pad1 g) ++ le_bytes 2 (msg_len g) ++
  le_bytes 2 (field_1 g) ++ le_bytes 2 (field_2 g) ++ le_bytes 1 (field_3 g) ++
  le_bytes 1 (msg_type g) ++ le_bytes 2 (pad2 g) ++ le_bytes 4 (teid g).

Definition of_bytes (bs : list Z) : t :=
  mk (field bs 0 1) (field bs 1 1) (field bs 2 2) (field bs 4 2) (field bs 6 2)
     (field bs 8 1) (field bs 9 1) (field bs 10 2) (field bs 12 4).

Definition wf (g : t) : Prop :=
  u8 (flags g) = flags g /\ u8 (pad1 g) = pad1 g /\ u16 (msg_len g) = msg_len g /\
  u16 (field_1 g) = field_1 g /\ u16 (field_2 g) = field_2 g /\
  u8 (field_3 g) = field_3 g /\ u8 (msg_type g) = msg_type g /\
  u16 (pad2 g) = pad2 g /\ u32 (teid g) = teid g.

End Gtp.

Module S1ap.

(** [class S1ap]; one padding byte after [msg_type]. *)
Record t := mk {
  msg_len : Z;             (* uint16_t, offset 0 *)
  msg_type : Z;            (* uint8_t,  offset 2 *)
  pad1 : Z;                (*           offset 3 *)
  enodeb_s1ap_ue_id : Z;   (* uint32_t, offset 4 *)
  mme_s1ap_ue_id : Z       (* uint32_t, offset 8 *)
}.

Definition S1AP_HDR_LEN : Z := 12.

(** [S1ap::init] *)
Definition init (s : t) (arg_msg_type arg_msg_len arg_enb arg_mme : Z) : t :=
  s <| msg_type := u8 arg_msg_type |> <| msg_len := u16 arg_msg_len |>
    <| enodeb_s1ap_ue_id := u32 arg_enb |> <| mme_s1ap_ue_id := u32 arg_mme |>.

Definition to_bytes (s : t) : list Z :=
  le_bytes 2 (msg_len s) ++ le_bytes 1 (msg_type s) ++ le_bytes 1 (pad1 s) ++
  le_bytes 4 (enodeb_s1ap_ue_id s) ++ le_bytes 4 (mme_s1ap_ue_id s).

Definition of_bytes (bs : list Z) : t :=
  mk (field bs 0 2) (field bs 2 1) (field bs 3 1) (field bs 4 4) (field bs 8 4).

Definition wf (s : t) : Prop :=
  u16 (msg_len s) = msg_len s /\ u8 (msg_type s) = msg_type s /\ u8 (pad1 s) = pad1 s /\
  u32 (enodeb_s1ap_ue_id s) = enodeb_s1ap_ue_id s /\
  u32 (mme_s1ap_ue_id s) = mme_s1ap_ue_id s.

End S1ap.

Module Diameter.

(** [class Diameter]; one padding byte at the end. *)
Record t := mk {
  msg_len : Z;    (* uint16_t, offset 0 *)
  msg_type : Z;   (* uint8_t,  offset 2 *)
  pad1 : Z        (*           offset 3 *)
}.

Definition DIAMETER_HDR_LEN : Z := 4.

(** [Diameter::init] *)
Definition init (d : t) (arg_msg_type arg_msg_len : Z) : t :=
  d <| msg_type := u8 arg_msg_type |> <| msg_len := u16 arg_msg_len |>.

Definition to_bytes (d : t) : list Z :=
  le_bytes 2 (msg_len d) ++ le_bytes 1 (msg_type d) ++ le_bytes 1 (pad1 d).

Definition of_bytes (bs : list Z) : t :=
  mk (field bs 0 2) (field bs 2 1) (field bs 3 1).

Definition wf (d : t) : Prop :=
  u16 (msg_len d) = msg_len d /\ u8 (msg_type d) = msg_type d /\ u8 (pad1 d) = pad1 d.

End Diameter.

(** ** Lengths and round trips *)

Lemma len_gtp g : len (Gtp.to_bytes g) = 16.
Proof. reflexivity. Qed.
Lemma len_s1ap s : len (S1ap.to_bytes s) = 12.
Proof. reflexivity. Qed.
Lemma len_diameter d : len (Diameter.to_bytes d) = 4.
Proof. reflexivity. Qed.
#[export] Hint Rewrite len_gtp len_s1ap len_diameter : len.

Lemma bytes_gtp g : bytes (Gtp.to_bytes g).
Proof. unfold Gtp.to_bytes. rewrite !bytes_app. repeat split; apply bytes_le_bytes. Qed.
Lemma bytes_s1ap s : bytes (S1ap.to_bytes s).
Proof. unfold S1ap.to_bytes. rewrite !bytes_app. repeat split; apply bytes_le_bytes. Qed.

Lemma bytes_diameter d : bytes (Diameter.to_bytes d).
Proof. unfold Diameter.to_bytes. rewrite !bytes_app. repeat split; apply bytes_le_bytes. Qed.

(** A field of a fixed header: the two sides compute to the same bytes. *)
Lemma field_is bs off n z m :
  take n (drop off bs) = le_bytes n z -> 256 ^ Z.of_nat n = m -> z mod m = z ->
  field bs off n = z.
Proof. intros E <- Hz. unfold field. by rewrite E, le_val_le_bytes. Qed.

Ltac field_tac := eapply field_is; [reflexivity | reflexivity | assumption].

Lemma gtp_bytes_roundtrip g : Gtp.wf g -> Gtp.of_bytes (Gtp.to_bytes g) = g.
Proof.
  destruct g. intros (H1 & H2 & H3 & H4 & H5 & H6 & H7 & H8 & H9).
  unfold Gtp.of_bytes, u8, u16, u32 in *. f_equal; field_tac.
Qed.

Lemma s1ap_bytes_roundtrip s : S1ap.wf s -> S1ap.of_bytes (S1ap.to_bytes s) = s.
Proof.
  destruct s. intros (H1 & H2 & H3 & H4 & H5).
  unfold S1ap.of_bytes, u8, u16, u32 in *. f_equal; field_tac.
Qed.

Lemma diameter_bytes_roundtrip d :
  Diameter.wf d -> Diameter.of_bytes (Diameter.to_bytes d) = d.
Proof.
  destruct d. intros (H1 & H2 & H3).
  unfold Diameter.of_bytes, u8, u16 in *. f_equal; field_tac.
Qed.

(** Any received bytes decode to a well-formed header. *)
Lemma field_range bs off n :
  bytes bs -> 0 <= field bs off n < 256 ^ Z.of_nat n.
Proof.
  intros H. unfold field.
  assert (bytes (take n (drop off bs))) as Hb by (by apply Forall_take, Forall_drop).
  apply le_val_range in Hb. pose proof (length_take_le (drop off bs) n).
  assert (length (take n (drop off bs)) <= n)%nat by (rewrite length_take; lia).
  assert (256 ^ Z.of_nat (length (take n (drop off bs))) <= 256 ^ Z.of_nat n)
    by (apply Z.pow_le_mono_r; lia). lia.
Qed.

Ltac field_wf Hb :=
  unfold u8, u16, u32; apply Z.mod_small;
  match goal with |- context [field ?bs ?off ?n] => apply (field_range bs off n Hb) end.

Lemma s1ap_of_bytes_wf bs : bytes bs -> S1ap.wf (S1ap.of_bytes bs).
Proof. intros Hb. repeat split; cbn [S1ap.of_bytes S1ap.msg_len S1ap.msg_type S1ap.pad1
  S1ap.enodeb_s1ap_ue_id S1ap.mme_s1ap_ue_id]; field_wf Hb. Qed.

Lemma gtp_of_bytes_wf bs : bytes bs -> Gtp.wf (Gtp.of_bytes bs).
Proof. intros Hb. repeat split; cbn [Gtp.of_bytes Gtp.flags Gtp.pad1 Gtp.msg_len
  Gtp.field_1 Gtp.field_2 Gtp.field_3 Gtp.msg_type Gtp.pad2 Gtp.teid]; field_wf Hb. Qed.

(** [init] makes the header well formed: the arguments are narrowed. *)
Lemma u8_idem z : u8 (u8 z) = u8 z.
Proof. apply u8_id, u8_range. Qed.
Lemma u16_idem z : u16 (u16 z) = u16 z.
Proof. apply u16_id, u16_range. Qed.
Lemma u32_idem z : u32 (u32 z) = u32 z.
Proof. apply u32_id, u32_range. Qed.
Lemma u64_idem z : u64 (u64 z) = u64 z.
Proof. apply u64_id, u64_range. Qed.
#[export] Hint Rewrite u8_idem u16_idem u32_idem u64_idem : word.

Lemma s1ap_init_wf s ty ml enb mme : S1ap.wf s -> S1ap.wf (S1ap.init s ty ml enb mme).
Proof.
  intros (_ & _ & H & _). unfold S1ap.wf, S1ap.init. cbn.
  by rewrite !u8_idem, !u16_idem, !u32_idem.
Qed.
