(* ===== verification/Packet.v ===== *)
(** * Packet: the message buffer every component builds and parses
    (src/packet.h, src/packet.cpp)

    A packet is a heap buffer of [BUF_SIZE] bytes, a cursor [data_ptr], a
    length and the three header objects.  The operations are the source's,
    one definition per method; an access outside the buffer, which the code
    never checks, is undefined behaviour here.  Construction and the scratch
    buffers assume that [malloc] of 1 KiB succeeds.

    The second half relates the operations to a byte zipper: [rd h pre post]
    is the packet whose consumed bytes are [pre] and whose remaining bytes
    are [post]. *)

From Stdlib Require Import ZArith Lia Ascii String.
From S2P Require Import Prelude Utils Headers.

Definition BUF_SIZE : Z := 1024.
Definition DATA_SIZE : Z := 800.
Definition IP_HDR_LEN : Z := 20.

(** ** Text as bytes *)

Definition string_bytes (s : string) : list Z :=
  map (fun a => Z.of_N (N_of_ascii a)) (list_ascii_of_string s).

Definition bytes_string (bs : list Z) : string :=
  string_of_list_ascii (map (fun b => ascii_of_N (Z.to_N b)) bs).

(** The bytes before the first NUL: a C string in a buffer. *)
Fixpoint until_nul (bs : list Z) : list Z :=
  match bs with
  | [] => []
  | b :: bs => if b =? 0 then [] else b :: until_nul bs
  end.

(** [s.c_str()] as [strlen] and [memmove] see it. *)
Definition c_str (s : string) : list Z := until_nul (string_bytes s).

Definition zbuf : list Z := replicate (Z.to_nat BUF_SIZE) 0.

Module Packet.

(** [class Packet] *)
Record t := mk {
  gtp_hdr : Gtp.t;
  s1ap_hdr : S1ap.t;
  diameter_hdr : Diameter.t;
  data : list Z;      (* uint8_t *data *)
  data_ptr : Z;
  plen : Z            (* the member len *)
}.

(** [Packet::Packet()]: the headers are default constructed over the
    memory [g], [s], [d]. *)
Definition construct (g : Gtp.t) (s : S1ap.t) (d : Diameter.t) : result t :=
  buf ← Utils.allocate_uint8_mem true BUF_SIZE;
  mret (mk (Gtp.construct g) s d buf 0 0).

(** [Packet::Packet(const Packet&)], the copy every by-value argument makes:
    only the first [len] bytes are copied. *)
Definition copy (src : t) : result t :=
  buf ← Utils.allocate_uint8_mem true BUF_SIZE;
  buf ← memmove buf 0 (data src) 0 (plen src);
  mret (mk (gtp_hdr src) (s1ap_hdr src) (diameter_hdr src) buf (data_ptr src) (plen src)).

Definition swap (a b : t) : t * t := (b, a).

(** [operator=(Packet src_obj)]: the argument is a copy. *)
Definition assign (this src_obj : t) : result t :=
  src_obj ← copy src_obj; mret (fst (swap this src_obj)).

(** [Packet::Packet(Packet&&)]: a fresh packet swapped with the source;
    the pair is the new object and what the source is left with. *)
Definition move (fresh src_obj : t) : t * t := swap fresh src_obj.

(** *** Appending *)

(** The body the [append_item] overloads share: [memmove] at the cursor,
    then both counters advance. *)
Definition append_raw (p : t) (bs : list Z) : result t :=
  buf ← mem_write (data p) (data_ptr p) bs;
  mret (p <| data := buf |> <| data_ptr := data_ptr p + len bs |>
          <| plen := plen p + len bs |>).

Definition append_item_bool (p : t) (item : bool) : result t :=
  append_raw p (le_bytes 1 (Z.b2z item)).
Definition append_item_int (p : t) (item : Z) : result t :=
  append_raw p (le_bytes 4 item).
Definition append_item_uint8 (p : t) (item : Z) : result t :=
  append_raw p (le_bytes 1 item).
Definition append_item_uint16 (p : t) (item : Z) : result t :=
  append_raw p (le_bytes 2 item).
Definition append_item_uint32 (p : t) (item : Z) : result t :=
  append_raw p (le_bytes 4 item).
Definition append_item_uint64 (p : t) (item : Z) : result t :=
  append_raw p (le_bytes 8 item).

Fixpoint append_item_vector (p : t) (item : list Z) : result t :=
  match item with
  | [] => Ret p
  | x :: item => p ← append_raw p (le_bytes 8 x); append_item_vector p item
  end.

(** [append_item(uint8_t *item, int item_len)] *)
Definition append_item_bytes (p : t) (item : list Z) (item_len : Z) : result t :=
  bs ← mem_read item 0 item_len; append_raw p bs.

(** [append_item(const char *ITEM)] *)
Definition append_item_cstr (p : t) (ITEM : string) : result t :=
  append_raw p (c_str ITEM).

(** [append_item(string item)]: its length, then its bytes. *)
Definition append_item_string (p : t) (item : string) : result t :=
  p ← append_item_int p (len (c_str item)); append_item_cstr p item.

(** The overloads of [append_item], by the type of the argument. *)
Inductive item :=
  | IBool (b : bool)
  | IInt (z : Z)
  | IU8 (z : Z)
  | IU16 (z : Z)
  | IU32 (z : Z)
  | IU64 (z : Z)
  | IVec (v : list Z)
  | IStr (s : string).

Definition append_item (p : t) (i : item) : result t :=
  match i with
  | IBool b => append_item_bool p b
  | IInt z => append_item_int p z
  | IU8 z => append_item_uint8 p z
  | IU16 z => append_item_uint16 p z
  | IU32 z => append_item_uint32 p z
  | IU64 z => append_item_uint64 p z
  | IVec v => append_item_vector p v
  | IStr s => append_item_string p s
  end.

(** A run of [pkt.append_item(..);] statements. *)
Fixpoint append_items (p : t) (its : list item) : result t :=
  match its with
  | [] => Ret p
  | i :: its => p ← append_item p i; append_items p its
  end.

(** *** Prepending *)

(** The body the [prepend_*] methods share: a scratch buffer with the new
    bytes and then the [len] old ones. *)
Definition prepend_raw (p : t) (bs : list Z) : result t :=
  tem ← Utils.allocate_uint8_mem true BUF_SIZE;
  tem ← mem_write tem 0 bs;
  tem ← memmove tem (len bs) (data p) 0 (plen p);
  mret (p <| data := tem |> <| data_ptr := data_ptr p + len bs |>
          <| plen := plen p + len bs |>).

Definition prepend_item (p : t) (item : list Z) (item_len : Z) : result t :=
  bs ← mem_read item 0 item_len; prepend_raw p bs.

Definition prepend_gtp_hdr (p : t) (protocol msg_type msg_len teid : Z) : result t :=
  g ← Gtp.init (gtp_hdr p) protocol msg_type msg_len teid;
  prepend_raw (p <| gtp_hdr := g |>) (Gtp.to_bytes g).

Definition prepend_s1ap_hdr (p : t) (msg_type msg_len enb mme : Z) : result t :=
  let s := S1ap.init (s1ap_hdr p) msg_type msg_len enb mme in
  prepend_raw (p <| s1ap_hdr := s |>) (S1ap.to_bytes s).

Definition prepend_diameter_hdr (p : t) (msg_type msg_len : Z) : result t :=
  let d := Diameter.init (diameter_hdr p) msg_type msg_len in
  prepend_raw (p <| diameter_hdr := d |>) (Diameter.to_bytes d).

Definition prepend_len (p : t) : result t :=
  prepend_raw p (le_bytes 4 (plen p)).

(** *** Extracting *)

(** The body the [extract_item] overloads share: the [n] bytes at the
    cursor, which advances; [len] is not consulted. *)
Definition extract_raw (p : t) (n : Z) : result (list Z * t) :=
  bs ← mem_read (data p) (data_ptr p) n;
  mret (bs, p <| data_ptr := data_ptr p + n |>).

(** A byte moved into a [bool]: a value other than 0 and 1 is none of a [bool],
    and reading it is undefined. *)
Definition bad_bool : fault := UB "a bool that is neither 0 nor 1".
Definition bool_of (v : Z) : result bool :=
  match v with 0 => Ret false | 1 => Ret true | _ => Fault bad_bool end.
Definition extract_item_bool (p : t) : result (bool * t) :=
  '(bs, p) ← extract_raw p 1; b ← bool_of (le_val bs); mret (b, p).
Definition extract_item_int (p : t) : result (Z * t) :=
  '(bs, p) ← extract_raw p 4; mret (s32 (le_val bs), p).
Definition extract_item_uint8 (p : t) : result (Z * t) :=
  '(bs, p) ← extract_raw p 1; mret (le_val bs, p).
Definition extract_item_uint16 (p : t) : result (Z * t) :=
  '(bs, p) ← extract_raw p 2; mret (le_val bs, p).
Definition extract_item_uint32 (p : t) : result (Z * t) :=
  '(bs, p) ← extract_raw p 4; mret (le_val bs, p).
Definition extract_item_uint64 (p : t) : result (Z * t) :=
  '(bs, p) ← extract_raw p 8; mret (le_val bs, p).

Fixpoint extract_loop (p : t) (n : nat) : result (list Z * t) :=
  match n with
  | O => Ret ([], p)
  | S n =>
      '(bs, p) ← extract_raw p 8;
      '(rest, p) ← extract_loop p n;
      mret (le_val bs :: rest, p)
  end.

(** [extract_item(vector<uint64_t>&, int item_size)] *)
Definition extract_item_vector (p : t) (item_size : Z) : result (list Z * t) :=
  extract_loop p (Z.to_nat item_size).

(** [extract_item(uint8_t*, int)] and [extract_item(char*, int)], into a
    block of [room] bytes: the destination must be large enough. *)
Definition extract_item_bytes (p : t) (room item_len : Z) : result (list Z * t) :=
  '(bs, p) ← extract_raw p item_len;
  if room <? item_len then Fault (UB "write outside the buffer") else mret (bs, p).

(** [extract_item(string&)] *)
Definition extract_item_string (p : t) : result (string * t) :=
  '(item_len, p) ← extract_item_int p;
  if item_len =? 2 ^ 31 - 1 then Fault (UB "signed overflow") else
  citem ← Utils.allocate_str_mem true (item_len + 1);
  '(bs, p) ← extract_item_bytes p (len citem) item_len;
  citem ← mem_write citem 0 bs;
  mret (bytes_string (until_nul citem), p).

Definition extract_gtp_hdr (p : t) : result t :=
  '(bs, p) ← extract_raw p Gtp.GTP_HDR_LEN;
  mret (p <| gtp_hdr := Gtp.of_bytes bs |>).

Definition extract_s1ap_hdr (p : t) : result t :=
  '(bs, p) ← extract_raw p S1ap.S1AP_HDR_LEN;
  mret (p <| s1ap_hdr := S1ap.of_bytes bs |>).

Definition extract_diameter_hdr (p : t) : result t :=
  '(bs, p) ← extract_raw p Diameter.DIAMETER_HDR_LEN;
  mret (p <| diameter_hdr := Diameter.of_bytes bs |>).

(** *** The rest *)

(** [Packet::truncate]: keep what is between the cursor and [len]. *)
Definition truncate (p : t) : result t :=
  tem ← Utils.allocate_uint8_mem true BUF_SIZE;
  let new_len := plen p - data_ptr p in
  tem ← memmove tem 0 (data p) (data_ptr p) new_len;
  mret (p <| data := tem |> <| data_ptr := 0 |> <| plen := new_len |>).

(** [Packet::clear_pkt]: [memset] of the whole buffer. *)
Definition clear_pkt (p : t) : result t :=
  buf ← mem_write (data p) 0 zbuf;
  mret (p <| data := buf |> <| data_ptr := 0 |> <| plen := 0 |>).

(** [Packet::allocate_ip_hdr_mem] *)
Definition allocate_ip_hdr_mem (malloc_ok : bool) (n : Z) : result (list Z) :=
  if n <=? 0 then Fault (Exit "Memory length error: packet_allocateiphdrmem")
  else if malloc_ok then Ret (replicate (Z.to_nat n) 0)
  else Fault (Exit "Memory allocation error: packet_allocateiphdrmem").

End Packet.

Export Packet(item(..)).

(** ** The zipper view *)

(** As [res], with the members of a packet. *)
Ltac pk := cbn [mbind result_bind mret result_ret apply_update constant
  Packet.data Packet.data_ptr Packet.plen Packet.gtp_hdr Packet.s1ap_hdr
  Packet.diameter_hdr].


Record hdrs := mk_hdrs { h_gtp : Gtp.t; h_s1ap : S1ap.t; h_dia : Diameter.t }.

Definition hdrs_of (p : Packet.t) : hdrs :=
  mk_hdrs (Packet.gtp_hdr p) (Packet.s1ap_hdr p) (Packet.diameter_hdr p).

(** A zeroed buffer whose first bytes are [bs]. *)
Definition pad (bs : list Z) : list Z :=
  bs ++ replicate (Z.to_nat BUF_SIZE - length bs) 0.

(** Cursor after [pre], before [post]; [n] in the member [len]. *)
Definition rdl (h : hdrs) (pre post : list Z) (n : Z) : Packet.t :=
  Packet.mk (h_gtp h) (h_s1ap h) (h_dia h) (pad (pre ++ post)) (len pre) n.

Definition rd (h : hdrs) (pre post : list Z) : Packet.t :=
  rdl h pre post (len (pre ++ post)).

(** A packet in its zipper form: the content fits the buffer. *)
Definition fits (pre post : list Z) : Prop := len pre + len post <= BUF_SIZE.

#[export] Instance fits_dec pre post : Decision (fits pre post).
Proof. unfold fits. apply _. Defined.

#[global] Arguments pad : simpl never.
#[global] Arguments zbuf : simpl never.
#[global] Arguments BUF_SIZE : simpl never.

Lemma length_pad bs : len bs <= BUF_SIZE -> length (pad bs) = Z.to_nat BUF_SIZE.
Proof.
  unfold len, pad. intros H. rewrite length_app, length_replicate. lia.
Qed.

Lemma len_pad bs : len bs <= BUF_SIZE -> len (pad bs) = BUF_SIZE.
Proof. intros H. unfold len. rewrite length_pad by done. unfold BUF_SIZE. lia. Qed.

Lemma pad_nil : pad [] = zbuf.
Proof. unfold pad, zbuf. simpl. f_equal. Qed.

Lemma pad_zeros bs n : len bs + Z.of_nat n <= BUF_SIZE -> pad (bs ++ replicate n 0) = pad bs.
Proof.
  unfold len, pad. intros H. rewrite <- app_assoc, <- replicate_add. f_equal. f_equal.
  rewrite length_app, length_replicate. lia.
Qed.

Lemma pad_split bs n :
  len bs + Z.of_nat n <= BUF_SIZE ->
  pad bs = bs ++ replicate n 0 ++
    replicate (Z.to_nat BUF_SIZE - (length bs + n)) 0.
Proof.
  unfold len, pad. intros H. rewrite <- replicate_add. do 2 f_equal. lia.
Qed.

Lemma allocate_buf : Utils.allocate_uint8_mem true BUF_SIZE = Ret zbuf.
Proof. reflexivity. Qed.

Lemma mem_write_pad pre bs :
  fits pre bs -> mem_write (pad pre) (len pre) bs = Ret (pad (pre ++ bs)).
Proof.
  intros H. unfold fits in H. rewrite (pad_split pre (length bs)) by (unfold len in *; lia).
  rewrite mem_write_mid by (try rewrite length_replicate; done).
  f_equal. unfold pad. rewrite <- app_assoc, length_app. done.
Qed.

Lemma mem_write_zbuf bs : len bs <= BUF_SIZE -> mem_write zbuf 0 bs = Ret (pad bs).
Proof. intros H. rewrite <- pad_nil. by apply (mem_write_pad []). Qed.

Lemma mem_read_pad pre bs post off n :
  off = len pre -> n = len bs -> mem_read (pad (pre ++ bs ++ post)) off n = Ret bs.
Proof.
  intros -> ->. unfold pad. rewrite <- !app_assoc. by apply mem_read_mid.
Qed.

Lemma mem_read_pad_all bs n : n = len bs -> mem_read (pad bs) 0 n = Ret bs.
Proof.
  intros ->. rewrite <- (app_nil_r bs) at 1. by apply (mem_read_pad [] bs []).
Qed.

(** *** Appending and prepending *)

Lemma append_raw_rd h pre bs :
  fits pre bs -> Packet.append_raw (rd h pre []) bs = Ret (rd h (pre ++ bs) []).
Proof.
  intros H. unfold Packet.append_raw, rd, rdl. pk. rewrite !app_nil_r.
  rewrite mem_write_pad by done. res. by rewrite !len_app.
Qed.

Lemma append_raw_overflow h pre bs :
  len pre <= BUF_SIZE -> ~ fits pre bs ->
  Packet.append_raw (rd h pre []) bs = Fault (UB "write outside the buffer").
Proof.
  intros Hp H. unfold Packet.append_raw, rd, rdl. pk. rewrite app_nil_r.
  rewrite mem_write_oob; [done|]. rewrite len_pad by done. unfold fits in H. lia.
Qed.

(** The bytes an argument of [append_item] contributes. *)
Definition enc_item (i : item) : list Z :=
  match i with
  | IBool b => le_bytes 1 (Z.b2z b)
  | IInt z => le_bytes 4 z
  | IU8 z => le_bytes 1 z
  | IU16 z => le_bytes 2 z
  | IU32 z => le_bytes 4 z
  | IU64 z => le_bytes 8 z
  | IVec v => concat (map (le_bytes 8) v)
  | IStr s => le_bytes 4 (len (c_str s)) ++ c_str s
  end.

Fixpoint enc_items (its : list item) : list Z :=
  match its with
  | [] => []
  | i :: its => enc_item i ++ enc_items its
  end.

Lemma append_vector_rd h pre v :
  fits pre (concat (map (le_bytes 8) v)) ->
  Packet.append_item_vector (rd h pre []) v =
  Ret (rd h (pre ++ concat (map (le_bytes 8) v)) []).
Proof.
  revert pre; induction v as [|x v IH]; intros pre H.
  - simpl. by rewrite app_nil_r.
  - unfold fits in H. cbn [map concat Packet.append_item_vector] in *. rewrite len_app in H.
    rewrite append_raw_rd by (unfold fits; len_lia). res.
    rewrite IH by (unfold fits; len_lia). by rewrite <- app_assoc.
Qed.

Lemma append_item_rd h pre i :
  fits pre (enc_item i) ->
  Packet.append_item (rd h pre []) i = Ret (rd h (pre ++ enc_item i) []).
Proof.
  destruct i; cbn [enc_item Packet.append_item]; intros H; try (by apply append_raw_rd).
  - by apply append_vector_rd.
  - unfold Packet.append_item_string, Packet.append_item_int, Packet.append_item_cstr, fits in *.
    rewrite len_app in H.
    rewrite append_raw_rd by (unfold fits; len_lia). res.
    rewrite append_raw_rd by (unfold fits; len_lia). by rewrite <- app_assoc.
Qed.

Lemma append_items_rd h pre its :
  fits pre (enc_items its) ->
  Packet.append_items (rd h pre []) its = Ret (rd h (pre ++ enc_items its) []).
Proof.
  revert pre; induction its as [|i its IH]; intros pre H.
  - simpl. by rewrite app_nil_r.
  - unfold fits in H. cbn [enc_items Packet.append_items] in *. rewrite len_app in H.
    rewrite append_item_rd by (unfold fits; len_lia). res.
    rewrite IH by (unfold fits; len_lia). by rewrite <- app_assoc.
Qed.

Lemma prepend_raw_rd h pre post bs :
  len bs + len pre + len post <= BUF_SIZE ->
  Packet.prepend_raw (rd h pre post) bs = Ret (rd h (bs ++ pre) post).
Proof.
  intros H. unfold Packet.prepend_raw, rd, rdl. pk. rewrite allocate_buf. res.
  rewrite mem_write_zbuf by len_lia. unfold memmove. res.
  rewrite mem_read_pad_all by done. res.
  rewrite mem_write_pad by (unfold fits; len_lia). res.
  rewrite <- app_assoc. do 2 f_equal; len_lia.
Qed.

Lemma prepend_item_rd h pre post bs n :
  n = len bs -> len bs + len pre + len post <= BUF_SIZE ->
  Packet.prepend_item (rd h pre post) bs n = Ret (rd h (bs ++ pre) post).
Proof.
  intros -> H. unfold Packet.prepend_item.
  pose proof (mem_read_mid [] bs [] 0 (len bs) eq_refl eq_refl) as E.
  rewrite app_nil_r in E. simpl in E. rewrite E. by apply prepend_raw_rd.
Qed.

Definition set_gtp (h : hdrs) (g : Gtp.t) : hdrs := h <| h_gtp := g |>.
Definition set_s1ap (h : hdrs) (s : S1ap.t) : hdrs := h <| h_s1ap := s |>.
Definition set_dia (h : hdrs) (d : Diameter.t) : hdrs := h <| h_dia := d |>.

Lemma prepend_gtp_hdr_rd h pre post pr ty ml te g :
  Gtp.init (h_gtp h) pr ty ml te = Ret g ->
  16 + len pre + len post <= BUF_SIZE ->
  Packet.prepend_gtp_hdr (rd h pre post) pr ty ml te =
  Ret (rd (set_gtp h g) (Gtp.to_bytes g ++ pre) post).
Proof.
  intros Hg H. unfold Packet.prepend_gtp_hdr. res. cbn [Packet.gtp_hdr rd rdl]. rewrite Hg. res.
  exact (prepend_raw_rd (set_gtp h g) pre post (Gtp.to_bytes g) H).
Qed.

Lemma prepend_raw_overflow h pre post bs :
  fits pre post -> len bs <= BUF_SIZE -> BUF_SIZE < len bs + len pre + len post ->
  Packet.prepend_raw (rd h pre post) bs = Fault (UB "write outside the buffer").
Proof.
  intros Hf Hb H. unfold Packet.prepend_raw, rd, rdl. pk. rewrite allocate_buf. res.
  rewrite mem_write_zbuf by done. unfold memmove. res. rewrite mem_read_pad_all by done. res.
  rewrite mem_write_oob; [done|]. rewrite len_pad by done. len_lia.
Qed.

Lemma prepend_gtp_hdr_overflow h pre post pr ty ml te g :
  Gtp.init (h_gtp h) pr ty ml te = Ret g -> fits pre post -> BUF_SIZE < 16 + len pre + len post ->
  Packet.prepend_gtp_hdr (rd h pre post) pr ty ml te = Fault (UB "write outside the buffer").
Proof.
  intros Hg Hf H. unfold Packet.prepend_gtp_hdr. res. cbn [Packet.gtp_hdr rd rdl]. rewrite Hg. res.
  apply (prepend_raw_overflow (set_gtp h g) pre post (Gtp.to_bytes g) Hf); [by vm_compute | exact H].
Qed.

Lemma prepend_s1ap_hdr_rd h pre post ty ml enb mme :
  12 + len pre + len post <= BUF_SIZE ->
  Packet.prepend_s1ap_hdr (rd h pre post) ty ml enb mme =
  (let s := S1ap.init (h_s1ap h) ty ml enb mme in
   Ret (rd (set_s1ap h s) (S1ap.to_bytes s ++ pre) post)).
Proof.
  intros H. unfold Packet.prepend_s1ap_hdr. cbv zeta. cbn [Packet.s1ap_hdr rd rdl].
  exact (prepend_raw_rd (set_s1ap h _) pre post (S1ap.to_bytes _) H).
Qed.

Lemma prepend_diameter_hdr_rd h pre post ty ml :
  4 + len pre + len post <= BUF_SIZE ->
  Packet.prepend_diameter_hdr (rd h pre post) ty ml =
  (let d := Diameter.init (h_dia h) ty ml in
   Ret (rd (set_dia h d) (Diameter.to_bytes d ++ pre) post)).
Proof.
  intros H. unfold Packet.prepend_diameter_hdr. cbv zeta. cbn [Packet.diameter_hdr rd rdl].
  exact (prepend_raw_rd (set_dia h _) pre post (Diameter.to_bytes _) H).
Qed.

Lemma prepend_len_rd h pre post :
  4 + len pre + len post <= BUF_SIZE ->
  Packet.prepend_len (rd h pre post) =
  Ret (rd h (le_bytes 4 (len (pre ++ post)) ++ pre) post).
Proof. intros H. unfold Packet.prepend_len. apply prepend_raw_rd. len_lia. Qed.

(** *** Extracting *)

Lemma extract_raw_rdl h pre bs post k n :
  n = len bs ->
  Packet.extract_raw (rdl h pre (bs ++ post) k) n = Ret (bs, rdl h (pre ++ bs) post k).
Proof.
  intros ->. unfold Packet.extract_raw, rdl. pk.
  rewrite mem_read_pad by done. res. by rewrite <- app_assoc, len_app.
Qed.

Lemma rd_shift h pre bs post : rdl h (pre ++ bs) post (len (pre ++ bs ++ post)) = rd h (pre ++ bs) post.
Proof. unfold rd. by rewrite <- app_assoc. Qed.

Lemma extract_raw_rd h pre bs post n :
  n = len bs ->
  Packet.extract_raw (rd h pre (bs ++ post)) n = Ret (bs, rd h (pre ++ bs) post).
Proof. intros ->. unfold rd at 1. rewrite extract_raw_rdl by done. by rewrite rd_shift. Qed.

Section Extract.
Context (h : hdrs) (pre post : list Z).

Ltac extract_tac :=
  rewrite extract_raw_rd by (by rewrite len_le_bytes); res;
  rewrite le_val_le_bytes.

Lemma extract_bool_rd b :
  Packet.extract_item_bool (rd h pre (le_bytes 1 (Z.b2z b) ++ post)) =
  Ret (b, rd h (pre ++ le_bytes 1 (Z.b2z b)) post).
Proof. unfold Packet.extract_item_bool. extract_tac. by destruct b. Qed.

Lemma extract_int_rd z :
  Packet.extract_item_int (rd h pre (le_bytes 4 z ++ post)) =
  Ret (s32 z, rd h (pre ++ le_bytes 4 z) post).
Proof. unfold Packet.extract_item_int. extract_tac. by rewrite <- (s32_u32 z). Qed.

Lemma extract_uint8_rd z :
  Packet.extract_item_uint8 (rd h pre (le_bytes 1 z ++ post)) =
  Ret (u8 z, rd h (pre ++ le_bytes 1 z) post).
Proof. unfold Packet.extract_item_uint8. by extract_tac. Qed.

Lemma extract_uint16_rd z :
  Packet.extract_item_uint16 (rd h pre (le_bytes 2 z ++ post)) =
  Ret (u16 z, rd h (pre ++ le_bytes 2 z) post).
Proof. unfold Packet.extract_item_uint16. by extract_tac. Qed.

Lemma extract_uint32_rd z :
  Packet.extract_item_uint32 (rd h pre (le_bytes 4 z ++ post)) =
  Ret (u32 z, rd h (pre ++ le_bytes 4 z) post).
Proof. unfold Packet.extract_item_uint32. by extract_tac. Qed.

Lemma extract_uint64_rd z :
  Packet.extract_item_uint64 (rd h pre (le_bytes 8 z ++ post)) =
  Ret (u64 z, rd h (pre ++ le_bytes 8 z) post).
Proof. unfold Packet.extract_item_uint64. by extract_tac. Qed.
End Extract.

Lemma extract_loop_rd h pre v post n :
  n = length v ->
  Packet.extract_loop (rd h pre (concat (map (le_bytes 8) v) ++ post)) n =
  Ret (map u64 v, rd h (pre ++ concat (map (le_bytes 8) v)) post).
Proof.
  intros ->. revert pre; induction v as [|x v IH]; intros pre.
  - simpl. by rewrite app_nil_r.
  - cbn [map concat length Packet.extract_loop]. rewrite <- app_assoc.
    rewrite extract_raw_rd by (by rewrite len_le_bytes). res.
    rewrite IH. res. rewrite le_val_le_bytes, <- app_assoc. done.
Qed.

Lemma extract_vector_rd h pre v post n :
  n = Z.of_nat (length v) ->
  Packet.extract_item_vector (rd h pre (concat (map (le_bytes 8) v) ++ post)) n =
  Ret (map u64 v, rd h (pre ++ concat (map (le_bytes 8) v)) post).
Proof. intros ->. apply extract_loop_rd. lia. Qed.

Lemma extract_bytes_rd h pre bs post room n :
  n = len bs -> len bs <= room ->
  Packet.extract_item_bytes (rd h pre (bs ++ post)) room n = Ret (bs, rd h (pre ++ bs) post).
Proof.
  intros -> H. unfold Packet.extract_item_bytes. rewrite extract_raw_rd by done.
  res. by rewrite (proj2 (Z.ltb_ge _ _)).
Qed.

Lemma extract_gtp_hdr_rd h pre g post :
  Gtp.wf g ->
  Packet.extract_gtp_hdr (rd h pre (Gtp.to_bytes g ++ post)) =
  Ret (rd (set_gtp h g) (pre ++ Gtp.to_bytes g) post).
Proof.
  intros Hg. unfold Packet.extract_gtp_hdr. rewrite extract_raw_rd by done.
  res. by rewrite gtp_bytes_roundtrip.
Qed.

Lemma extract_s1ap_hdr_rd h pre s post :
  S1ap.wf s ->
  Packet.extract_s1ap_hdr (rd h pre (S1ap.to_bytes s ++ post)) =
  Ret (rd (set_s1ap h s) (pre ++ S1ap.to_bytes s) post).
Proof.
  intros Hs. unfold Packet.extract_s1ap_hdr. rewrite extract_raw_rd by done.
  res. by rewrite s1ap_bytes_roundtrip.
Qed.

(** *** Whole-packet operations *)

Lemma truncate_rd h pre post :
  fits pre post -> Packet.truncate (rd h pre post) = Ret (rd h [] post).
Proof.
  intros H. unfold fits in H. unfold Packet.truncate, rd, rdl. pk.
  rewrite allocate_buf. res. unfold memmove.
  replace (len (pre ++ post) - len pre) with (len post) by len_lia.
  rewrite <- (app_nil_r post) at 1. rewrite mem_read_pad by done. res.
  rewrite mem_write_zbuf by len_lia. done.
Qed.

(** A cursor past [len] makes the size given to [memmove] negative. *)
Lemma truncate_short p :
  Packet.plen p < Packet.data_ptr p ->
  Packet.truncate p = Fault (UB "read outside the buffer").
Proof.
  intros H. unfold Packet.truncate. rewrite allocate_buf. res. unfold memmove.
  by rewrite mem_read_oob by lia.
Qed.

Lemma copy_rd h pre post :
  fits pre post -> Packet.copy (rd h pre post) = Ret (rd h pre post).
Proof.
  intros H. unfold fits in H. unfold Packet.copy. rewrite allocate_buf. unfold rd, rdl, memmove. pk.
  rewrite mem_read_pad_all by done. res.
  rewrite mem_write_zbuf by len_lia. done.
Qed.

(** A failed receive leaves [len = -1]: copying that packet is undefined. *)
Lemma copy_negative p :
  Packet.plen p < 0 -> Packet.copy p = Fault (UB "read outside the buffer").
Proof.
  intros H. unfold Packet.copy. rewrite allocate_buf. res. unfold memmove.
  by rewrite mem_read_oob by lia.
Qed.

Lemma clear_pkt_rd p :
  length (Packet.data p) = Z.to_nat BUF_SIZE ->
  Packet.clear_pkt p = Ret (rd (hdrs_of p) [] []).
Proof.
  intros H. unfold Packet.clear_pkt.
  assert (mem_write (Packet.data p) 0 zbuf = Ret zbuf) as ->.
  { pose proof (mem_write_mid [] (Packet.data p) [] 0 zbuf eq_refl) as E.
    rewrite !app_nil_r in E. apply E. by rewrite H. }
  res. unfold rd, rdl. cbn [app]. by rewrite pad_nil.
Qed.

Lemma construct_rd g s d :
  Packet.construct g s d = Ret (rd (mk_hdrs (Gtp.construct g) s d) [] []).
Proof. unfold Packet.construct. rewrite allocate_buf. unfold rd, rdl. cbn [app]. by rewrite pad_nil. Qed.

Lemma hdrs_of_rd h pre post : hdrs_of (rd h pre post) = h.
Proof. by destruct h. Qed.

Lemma rd_length h pre post :
  fits pre post -> length (Packet.data (rd h pre post)) = Z.to_nat BUF_SIZE.
Proof. intros H. unfold fits in H. apply length_pad. len_lia. Qed.

(** The parsing steps of the handlers. *)
Ltac parse :=
  cbn [enc_items enc_item app] in *; rewrite <- ?app_assoc; cbn [app];
  repeat (run with
    (first [ apply extract_uint32_rd | apply extract_uint64_rd | apply extract_uint8_rd | apply extract_uint16_rd
           | apply extract_bool_rd | apply extract_int_rd ])).

(** *** Text *)

Definition nul_free (s : string) : Prop := Forall (fun b => b <> 0) (string_bytes s).

Lemma until_nul_app bs post :
  Forall (fun b => b <> 0) bs -> until_nul (bs ++ 0 :: post) = bs.
Proof.
  induction 1 as [|b bs Hb _ IH]; [done|]. cbn [app until_nul].
  rewrite (proj2 (Z.eqb_neq b 0)) by done. by rewrite IH.
Qed.

Lemma until_nul_id bs : Forall (fun b => b <> 0) bs -> until_nul bs = bs.
Proof.
  induction 1 as [|b bs Hb _ IH]; [done|]. cbn [until_nul].
  rewrite (proj2 (Z.eqb_neq b 0)) by done. by rewrite IH.
Qed.

Lemma until_nul_nonzero bs : Forall (fun b => b <> 0) (until_nul bs).
Proof.
  induction bs as [|b bs IH]; cbn [until_nul]; [constructor|].
  destruct (Z.eqb_spec b 0); [constructor | by constructor].
Qed.

Lemma bytes_string_bytes s : bytes_string (string_bytes s) = s.
Proof.
  unfold bytes_string, string_bytes. rewrite map_map.
  rewrite (map_ext _ (fun a => a)); [by rewrite map_id, string_of_list_ascii_of_string|].
  intros a. by rewrite N2Z.id, ascii_N_embedding.
Qed.

Lemma c_str_id s : nul_free s -> bytes_string (c_str s) = s.
Proof. intros H. unfold c_str. rewrite until_nul_id by done. apply bytes_string_bytes. Qed.

Lemma len_until_nul bs : len (until_nul bs) <= len bs.
Proof.
  induction bs as [|b bs IH]; cbn [until_nul]; [lia|].
  destruct (b =? 0); rewrite !len_cons, ?len_nil; [pose proof (len_nonneg bs); lia | lia].
Qed.

Lemma extract_string_rd h pre post s :
  len (c_str s) < 2 ^ 31 - 1 -> nul_free s ->
  Packet.extract_item_string (rd h pre (enc_item (IStr s) ++ post)) =
  Ret (s, rd h (pre ++ enc_item (IStr s)) post).
Proof.
  intros Hl Hs. unfold Packet.extract_item_string. cbn [enc_item]. rewrite <- app_assoc.
  rewrite extract_int_rd. res. pose proof (len_nonneg (c_str s)).
  rewrite s32_id by lia. rewrite (proj2 (Z.eqb_neq _ _)) by lia.
  rewrite Utils.allocate_str_mem_ok by lia. res.
  rewrite extract_bytes_rd by (try rewrite len_replicate; lia). res.
  replace (Z.to_nat (len (c_str s) + 1)) with (length (c_str s) + 1)%nat
    by (unfold len; lia).
  rewrite replicate_add. change (replicate 1 0) with [0].
  pose proof (mem_write_mid [] (replicate (length (c_str s)) 0) [0] 0 (c_str s) eq_refl) as E.
  cbn [app] in E. rewrite E by (by rewrite length_replicate). res.
  rewrite until_nul_app by apply until_nul_nonzero.
  rewrite c_str_id, app_assoc by done. done.
Qed.

(** The same on the encoding unfolded. *)
Lemma extract_text_rd h pre post s :
  len (c_str s) < 2 ^ 31 - 1 -> nul_free s ->
  Packet.extract_item_string (rd h pre (le_bytes 4 (len (c_str s)) ++ c_str s ++ post)) =
  Ret (s, rd h (pre ++ le_bytes 4 (len (c_str s)) ++ c_str s) post).
Proof. intros H1 H2. rewrite (app_assoc (le_bytes 4 _)). by apply extract_string_rd. Qed.

(** ** Messages as sequences of items *)

(** The type of an item: what the receiver's declarations say. *)
Inductive kind := KBool | KInt | KU8 | KU16 | KU32 | KU64 | KVec (n : Z) | KStr.

Definition kind_of (i : item) : kind :=
  match i with
  | IBool _ => KBool
  | IInt _ => KInt
  | IU8 _ => KU8
  | IU16 _ => KU16
  | IU32 _ => KU32
  | IU64 _ => KU64
  | IVec v => KVec (Z.of_nat (length v))
  | IStr _ => KStr
  end.

(** [pkt.extract_item(x)], by the type of [x]. *)
Definition extract_item (p : Packet.t) (k : kind) : result (item * Packet.t) :=
  match k with
  | KBool => '(v, p) ← Packet.extract_item_bool p; mret (IBool v, p)
  | KInt => '(v, p) ← Packet.extract_item_int p; mret (IInt v, p)
  | KU8 => '(v, p) ← Packet.extract_item_uint8 p; mret (IU8 v, p)
  | KU16 => '(v, p) ← Packet.extract_item_uint16 p; mret (IU16 v, p)
  | KU32 => '(v, p) ← Packet.extract_item_uint32 p; mret (IU32 v, p)
  | KU64 => '(v, p) ← Packet.extract_item_uint64 p; mret (IU64 v, p)
  | KVec n => '(v, p) ← Packet.extract_item_vector p n; mret (IVec v, p)
  | KStr => '(v, p) ← Packet.extract_item_string p; mret (IStr v, p)
  end.

Fixpoint extract_items (p : Packet.t) (ks : list kind) : result (list item * Packet.t) :=
  match ks with
  | [] => Ret ([], p)
  | k :: ks =>
      '(i, p) ← extract_item p k;
      '(its, p) ← extract_items p ks;
      mret (i :: its, p)
  end.

(** The value an item has once narrowed to its C type. *)
Definition norm_item (i : item) : item :=
  match i with
  | IBool b => IBool b
  | IInt z => IInt (s32 z)
  | IU8 z => IU8 (u8 z)
  | IU16 z => IU16 (u16 z)
  | IU32 z => IU32 (u32 z)
  | IU64 z => IU64 (u64 z)
  | IVec v => IVec (map u64 v)
  | IStr s => IStr s
  end.

Definition text_ok (i : item) : Prop :=
  match i with IStr s => nul_free s | _ => True end.

Lemma extract_item_rd h pre post i :
  text_ok i -> len (enc_item i) <= BUF_SIZE ->
  extract_item (rd h pre (enc_item i ++ post)) (kind_of i) =
  Ret (norm_item i, rd h (pre ++ enc_item i) post).
Proof.
  destruct i; intros Ht Hl; cbn [extract_item kind_of norm_item].
  - cbn [enc_item]. by rewrite extract_bool_rd.
  - cbn [enc_item]. by rewrite extract_int_rd.
  - cbn [enc_item]. by rewrite extract_uint8_rd.
  - cbn [enc_item]. by rewrite extract_uint16_rd.
  - cbn [enc_item]. by rewrite extract_uint32_rd.
  - cbn [enc_item]. by rewrite extract_uint64_rd.
  - cbn [enc_item]. by rewrite extract_vector_rd.
  - rewrite extract_string_rd; [done | | done].
    cbn [enc_item] in Hl. unfold BUF_SIZE in Hl. len_lia.
Qed.

Lemma extract_items_rd h pre post its :
  Forall text_ok its -> len (enc_items its) <= BUF_SIZE ->
  extract_items (rd h pre (enc_items its ++ post)) (map kind_of its) =
  Ret (map norm_item its, rd h (pre ++ enc_items its) post).
Proof.
  intros Hf. revert pre. induction Hf as [|i its Hi _ IH]; intros pre Hl.
  - cbn. by rewrite app_nil_r.
  - cbn [enc_items map extract_items] in *. rewrite <- app_assoc. rewrite len_app in Hl.
    rewrite extract_item_rd by (done || len_lia). res.
    rewrite IH by len_lia. res. by rewrite <- app_assoc.
Qed.

(** ** Memory safety: the buffer keeps its size and holds bytes *)

Definition wf_packet (p : Packet.t) : Prop :=
  length (Packet.data p) = Z.to_nat BUF_SIZE /\ bytes (Packet.data p) /\
  0 <= Packet.data_ptr p.

(** The methods a handler calls on its packet. *)
Inductive op :=
  | OAppend (i : item)
  | OPrependItem (bs : list Z) (n : Z)
  | OPrependGtp (protocol ty ml teid : Z)
  | OPrependS1ap (ty ml enb mme : Z)
  | OPrependDiameter (ty ml : Z)
  | OPrependLen
  | OExtract (k : kind)
  | OExtractGtp
  | OExtractS1ap
  | OExtractDiameter
  | OTruncate
  | OClear
  | OCopy.

Definition run_op (p : Packet.t) (o : op) : result Packet.t :=
  match o with
  | OAppend i => Packet.append_item p i
  | OPrependItem bs n => Packet.prepend_item p bs n
  | OPrependGtp pr ty ml te => Packet.prepend_gtp_hdr p pr ty ml te
  | OPrependS1ap ty ml enb mme => Packet.prepend_s1ap_hdr p ty ml enb mme
  | OPrependDiameter ty ml => Packet.prepend_diameter_hdr p ty ml
  | OPrependLen => Packet.prepend_len p
  | OExtract k => '(_, p) ← extract_item p k; mret p
  | OExtractGtp => Packet.extract_gtp_hdr p
  | OExtractS1ap => Packet.extract_s1ap_hdr p
  | OExtractDiameter => Packet.extract_diameter_hdr p
  | OTruncate => Packet.truncate p
  | OClear => Packet.clear_pkt p
  | OCopy => Packet.copy p
  end.

Fixpoint run_ops (p : Packet.t) (os : list op) : result Packet.t :=
  match os with
  | [] => Ret p
  | o :: os => p ← run_op p o; run_ops p os
  end.

(** The byte strings the caller passes in are bytes. *)
Definition op_ok (o : op) : Prop :=
  match o with OPrependItem bs _ => bytes bs | _ => True end.

Lemma bytes_zbuf : bytes zbuf.
Proof. apply Forall_replicate. split; lia. Qed.

Lemma length_zbuf : length zbuf = Z.to_nat BUF_SIZE.
Proof. unfold zbuf. by rewrite length_replicate. Qed.

Lemma bytes_string_bytes_range s : bytes (string_bytes s).
Proof.
  unfold string_bytes. induction (list_ascii_of_string s); cbn [map]; constructor; [|done].
  unfold is_byte. pose proof (N_ascii_bounded a). lia.
Qed.

Lemma bytes_until_nul bs : bytes bs -> bytes (until_nul bs).
Proof.
  induction 1; cbn [until_nul]; [constructor|]. case_match; [constructor | by constructor].
Qed.

Lemma bytes_enc_items its : bytes (enc_items its).
Proof.
  induction its as [|i its IH]; [constructor|]. cbn [enc_items]. apply bytes_app. split; [|exact IH].
  destruct i as [b|z|z|z|z|z|v|s]; cbn [enc_item]; try apply bytes_le_bytes.
  - induction v as [|x v IHv]; [constructor|]. cbn [map concat]. apply bytes_app.
    by split; [apply bytes_le_bytes|].
  - apply bytes_app. split; [apply bytes_le_bytes|]. apply bytes_until_nul, bytes_string_bytes_range.
Qed.

Lemma mem_read_ok buf off n bs :
  mem_read buf off n = Ret bs ->
  0 <= off /\ 0 <= n /\ off + n <= len buf /\ len bs = n /\ (bytes buf -> bytes bs).
Proof.
  unfold mem_read. destruct (in_bounds buf off n) eqn:E; intros [= <-].
  apply in_bounds_spec in E. repeat split; try lia.
  - unfold len in *. rewrite length_take, length_drop. lia.
  - intros Hb. by apply Forall_take, Forall_drop.
Qed.

Lemma mem_write_ok buf off bs buf' :
  mem_write buf off bs = Ret buf' ->
  0 <= off /\ off + len bs <= len buf /\ length buf' = length buf /\
  (bytes buf -> bytes bs -> bytes buf').
Proof.
  unfold mem_write. destruct (in_bounds buf off (len bs)) eqn:E; intros [= <-].
  apply in_bounds_spec in E. unfold len in E. repeat split; try (unfold len; lia).
  - rewrite !length_app, length_take, length_drop. lia.
  - intros Hb Hs. rewrite !bytes_app. repeat split; [by apply Forall_take | done |].
    by apply Forall_drop.
Qed.

Lemma memmove_ok dst d src s n dst' :
  memmove dst d src s n = Ret dst' ->
  0 <= d /\ 0 <= n /\ length dst' = length dst /\
  (bytes dst -> bytes src -> bytes dst').
Proof.
  unfold memmove. destruct (mem_read src s n) as [bs|] eqn:E; intros H; [|done]. res.
  apply mem_read_ok in E as (? & ? & ? & ? & ?).
  apply mem_write_ok in H as (? & ? & ? & ?). repeat split; try done. auto.
Qed.

(** Inversion of a run of library calls that returned. *)
Ltac inv_res :=
  repeat match goal with
  | H : mbind _ ?c = Ret _ |- _ =>
      let E := fresh "E" in destruct c eqn:E; [|discriminate H]; cbn [mbind result_bind] in H
  | H : result_bind _ _ _ ?c = Ret _ |- _ =>
      let E := fresh "E" in destruct c eqn:E; [|discriminate H]; cbn [result_bind] in H
  | H : (let '(_, _) := ?x in _) = Ret _ |- _ => destruct x
  | H : (if ?b then _ else _) = Ret _ |- _ => destruct b eqn:?; try discriminate H
  | H : mret _ = Ret _ |- _ => injection H as H
  | H : Ret _ = Ret _ |- _ => injection H as H
  | H : (_, _) = (_, _) |- _ => injection H as H
  end.

Lemma wf_append_raw p bs p' :
  wf_packet p -> bytes bs -> Packet.append_raw p bs = Ret p' -> wf_packet p'.
Proof.
  intros (Hl & Hb & Hp) Hbs H. unfold Packet.append_raw in H. inv_res. subst p'.
  apply mem_write_ok in E as (? & ? & E1 & E2).
  pose proof (len_nonneg bs). unfold wf_packet. pk. repeat split; [congruence | auto | lia].
Qed.

Lemma wf_append_vector p v p' :
  wf_packet p -> Packet.append_item_vector p v = Ret p' -> wf_packet p'.
Proof.
  revert p; induction v as [|x v IH]; intros p Hp H; cbn [Packet.append_item_vector] in H.
  - by injection H as <-.
  - inv_res. eapply IH; [|done]. eapply wf_append_raw; [done | apply bytes_le_bytes | done].
Qed.

Lemma wf_append_item p i p' :
  wf_packet p -> Packet.append_item p i = Ret p' -> wf_packet p'.
Proof.
  intros Hp H. destruct i; cbn [Packet.append_item] in H;
    try (eapply wf_append_raw; [done | apply bytes_le_bytes | done]).
  - by eapply wf_append_vector.
  - unfold Packet.append_item_string in H. inv_res.
    eapply wf_append_raw; [ | | exact H].
    + eapply wf_append_raw; [done | apply bytes_le_bytes | exact E].
    + apply bytes_until_nul, bytes_string_bytes_range.
Qed.

Lemma wf_prepend_raw p bs p' :
  wf_packet p -> bytes bs -> Packet.prepend_raw p bs = Ret p' -> wf_packet p'.
Proof.
  intros (Hl & Hb & Hp) Hbs H. unfold Packet.prepend_raw in H.
  rewrite allocate_buf in H. res. inv_res. subst p'.
  apply mem_write_ok in E as (? & ? & E1 & E2).
  apply memmove_ok in E0 as (? & ? & E3 & E4). rewrite length_zbuf in E1.
  pose proof (len_nonneg bs). unfold wf_packet. pk.
  repeat split; [congruence | auto using bytes_zbuf | lia].
Qed.

Lemma wf_extract_raw p n bs p' :
  wf_packet p -> Packet.extract_raw p n = Ret (bs, p') -> wf_packet p'.
Proof.
  intros (Hl & Hb & Hp) H. unfold Packet.extract_raw in H. inv_res. subst.
  apply mem_read_ok in E as (? & ? & ? & ? & ?).
  unfold wf_packet. pk. repeat split; [done | done | lia].
Qed.

Lemma wf_extract_loop p n v p' :
  wf_packet p -> Packet.extract_loop p n = Ret (v, p') -> wf_packet p'.
Proof.
  revert p v; induction n as [|n IH]; intros p v Hp H; cbn [Packet.extract_loop] in H.
  - by injection H as _ <-.
  - inv_res. subst. eapply IH; [|done]. by eapply wf_extract_raw.
Qed.

Lemma wf_extract_item p k i p' :
  wf_packet p -> extract_item p k = Ret (i, p') -> wf_packet p'.
Proof.
  intros Hp H. destruct k; cbn [extract_item] in H;
    unfold Packet.extract_item_bool, Packet.bool_of, Packet.extract_item_int, Packet.extract_item_uint8,
      Packet.extract_item_uint16, Packet.extract_item_uint32, Packet.extract_item_uint64,
      Packet.extract_item_vector, Packet.extract_item_string,
      Packet.extract_item_bytes, Packet.extract_item_int in H;
    inv_res; subst; eauto using wf_extract_raw, wf_extract_loop.
Qed.

Lemma wf_run_op p o p' :
  wf_packet p -> op_ok o -> run_op p o = Ret p' -> wf_packet p'.
Proof.
  intros Hp Ho H. destruct o; cbn [run_op op_ok] in *.
  - by eapply wf_append_item.
  - unfold Packet.prepend_item in H. inv_res.
    apply mem_read_ok in E as (_ & _ & _ & _ & Hb). eauto using wf_prepend_raw.
  - unfold Packet.prepend_gtp_hdr in H. inv_res.
    eapply wf_prepend_raw; [|apply bytes_gtp | exact H]. exact Hp.
  - eapply wf_prepend_raw; [|apply bytes_s1ap | exact H]. exact Hp.
  - eapply wf_prepend_raw; [|apply bytes_diameter | exact H]. exact Hp.
  - eapply wf_prepend_raw; [done | apply bytes_le_bytes | exact H].
  - inv_res. subst. by eapply wf_extract_item.
  - unfold Packet.extract_gtp_hdr in H. inv_res. subst.
    apply wf_extract_raw in E; done.
  - unfold Packet.extract_s1ap_hdr in H. inv_res. subst.
    apply wf_extract_raw in E; done.
  - unfold Packet.extract_diameter_hdr in H. inv_res. subst.
    apply wf_extract_raw in E; done.
  - unfold Packet.truncate in H. rewrite allocate_buf in H. res. inv_res. subst.
    apply memmove_ok in E as (? & ? & E1 & E2). destruct Hp as (? & ? & ?).
    rewrite length_zbuf in E1. unfold wf_packet. pk.
    repeat split; [done | auto using bytes_zbuf | lia].
  - unfold Packet.clear_pkt in H. inv_res. subst.
    apply mem_write_ok in E as (? & ? & E1 & E2). destruct Hp as (? & ? & ?).
    unfold wf_packet. pk. repeat split; [congruence | auto using bytes_zbuf | lia].
  - unfold Packet.copy in H. rewrite allocate_buf in H. res. inv_res. subst.
    apply memmove_ok in E as (? & ? & E1 & E2). destruct Hp as (? & ? & ?).
    rewrite length_zbuf in E1. unfold wf_packet. pk.
    repeat split; [done | auto using bytes_zbuf | lia].
Qed.

Lemma wf_rd h pre post :
  fits pre post -> bytes pre -> bytes post -> wf_packet (rd h pre post).
Proof.
  intros H H1 H2. unfold fits in H. unfold wf_packet, rd, rdl. pk. repeat split.
  - apply length_pad. len_lia.
  - unfold pad. rewrite !bytes_app. repeat split; try done.
    apply Forall_replicate. split; lia.
  - apply len_nonneg.
Qed.

Lemma wf_run_ops p os p' :
  wf_packet p -> Forall op_ok os -> run_ops p os = Ret p' -> wf_packet p'.
Proof.
  intros Hp Hos. revert p Hp. induction Hos as [|o os Ho _ IH]; intros p Hp H;
    cbn [run_ops] in H; [by injection H as <-|].
  inv_res. eauto using wf_run_op.
Qed.

(** The bytes a send call hands to the kernel: [pkt.data .. pkt.len]. *)
Definition payload (p : Packet.t) : list Z := take (Z.to_nat (Packet.plen p)) (Packet.data p).

Lemma payload_rd h pre post : payload (rd h pre post) = pre ++ post.
Proof.
  unfold payload, rd, rdl, pad, len. pk. rewrite Nat2Z.id. apply take_app_length.
Qed.

(** ** Properties *)

Section Properties.

(** C31: a message is read back as it was written: after any sequence of
    [append_item] calls that fits the buffer and whose strings hold no NUL
    byte, the receiver that calls the [extract_item] overloads of the same
    types gets the same values, each narrowed to its C type.  (A string with
    a NUL byte is cut there by [extract_item].) *)
Theorem message_roundtrip (h h' : hdrs) (its : list item) :
  Forall text_ok its -> len (enc_items its) <= BUF_SIZE ->
  exists p q,
    Packet.append_items (rd h [] []) its = Ret p /\
    extract_items (rd h' [] (payload p)) (map kind_of its) = Ret (map norm_item its, q).
Proof.
  intros Ht Hl. exists (rd h (enc_items its) []). eexists. split.
  - apply (append_items_rd h []). unfold fits. len_lia.
  - rewrite payload_rd. by apply extract_items_rd.
Qed.

(** Every packet method keeps the heap block at [BUF_SIZE] bytes and the
    cursor non-negative, whatever sequence of methods a handler runs on a
    fresh packet, as long as none of them was undefined. *)
Theorem packet_memory_invariant g s d p0 os p :
  Packet.construct g s d = Ret p0 -> Forall op_ok os ->
  run_ops p0 os = Ret p -> wf_packet p.
Proof.
  intros H0 Hos. rewrite construct_rd in H0. injection H0 as <-.
  apply wf_run_ops; [|done]. apply wf_rd; [done | constructor | constructor].
Qed.

Lemma append_items_overflow h pre its :
  len pre <= BUF_SIZE -> ~ fits pre (enc_items its) ->
  exists f, Packet.append_items (rd h pre []) its = Fault (UB f).
Proof.
  revert pre; induction its as [|i its IH]; intros pre Hp H.
  - exfalso. apply H. unfold fits. cbn. len_lia.
  - cbn [enc_items Packet.append_items] in *. unfold fits in *. rewrite len_app in H.
    destruct (decide (fits pre (enc_item i))) as [F|F].
    + rewrite append_item_rd by done. res. apply IH; unfold fits in *; len_lia.
    + assert (exists f, Packet.append_item (rd h pre []) i = Fault (UB f)) as [f ->];
        [|by exists f].
      clear IH H. destruct i; cbn [Packet.append_item enc_item] in *;
        try (eexists; by apply append_raw_overflow).
      * clear its. revert pre Hp F. induction v as [|x v IH]; intros pre Hp F.
        { exfalso. apply F. unfold fits. cbn. len_lia. }
        cbn [map concat Packet.append_item_vector] in *.
        destruct (decide (fits pre (le_bytes 8 x))) as [F1|F1].
        -- rewrite append_raw_rd by done. res.
           apply IH; unfold fits in *; rewrite ?len_app in *; lia.
        -- rewrite append_raw_overflow by done. by eexists.
      * unfold Packet.append_item_string, Packet.append_item_int, Packet.append_item_cstr.
        destruct (decide (fits pre (le_bytes 4 (len (c_str s))))) as [F1|F1].
        -- rewrite append_raw_rd by done. res. eexists. apply append_raw_overflow;
             unfold fits in *; rewrite ?len_app in *; lia.
        -- rewrite append_raw_overflow by done. by eexists.
Qed.

(** The buffer bound is exact: a handler's [append_item] calls are
    defined if and only if the encoded message has at most [BUF_SIZE] bytes,
    and one byte more is a heap overflow (no overload checks). *)
Theorem append_bounds_exact (h : hdrs) (its : list item) :
  (len (enc_items its) <= BUF_SIZE <->
     exists p, Packet.append_items (rd h [] []) its = Ret p) /\
  (BUF_SIZE < len (enc_items its) <->
     exists f, Packet.append_items (rd h [] []) its = Fault (UB f)).
Proof.
  destruct (decide (len (enc_items its) <= BUF_SIZE)) as [L|L].
  - rewrite (append_items_rd h []) by (unfold fits; len_lia).
    split; (split; [intros; first [lia | by eexists] | intros [? [=]]; done]).
  - destruct (append_items_overflow h [] its) as [f ->]; [done | |].
    { unfold fits. len_lia. }
    split; (split; [intros; first [lia | by eexists] | intros [? [=]]; lia]).
Qed.

(** A GTP header survives the trip: whoever receives a packet to which
    [prepend_gtp_hdr] was applied extracts the message type and the TEID that
    were given to it (narrowed), and is left with exactly the body; a
    protocol number other than 1 or 2 ends the process instead. *)
Theorem gtp_header_roundtrip (h h' : hdrs) body pr ty ml te :
  Gtp.wf (h_gtp h) -> len body + 16 <= BUF_SIZE ->
  match Packet.prepend_gtp_hdr (rd h body []) pr ty ml te with
  | Ret p =>
      (u8 pr = 1 \/ u8 pr = 2) /\
      exists q, Packet.extract_gtp_hdr (rd h' [] (payload p)) = Ret q /\
        Gtp.msg_type (Packet.gtp_hdr q) = u8 ty /\
        Gtp.teid (Packet.gtp_hdr q) = u32 te /\
        Gtp.msg_len (Packet.gtp_hdr q) = u16 ml /\
        Packet.truncate q = Ret (rd (hdrs_of q) [] body)
  | Fault f => u8 pr <> 1 /\ u8 pr <> 2 /\ f = Exit "gtp protocol error: gtp_init"
  end.
Proof.
  intros (W1 & W2 & W3 & W4 & W5 & W6 & W7 & W8 & W9) Hl.
  assert (forall g, Gtp.init (h_gtp h) pr ty ml te = Ret g ->
    Gtp.wf g /\ Gtp.msg_type g = u8 ty /\ Gtp.teid g = u32 te /\ Gtp.msg_len g = u16 ml) as Hg.
  { intros g. unfold Gtp.init. repeat case_match; intros [= <-]; unfold Gtp.wf; simpl;
      rewrite ?u8_idem, ?u16_idem, ?u32_idem; done. }
  destruct (Gtp.init (h_gtp h) pr ty ml te) as [g|f] eqn:E.
  - destruct (Hg g eq_refl) as (Wg & G1 & G2 & G3).
    rewrite (prepend_gtp_hdr_rd _ _ _ _ _ _ _ g) by (done || len_lia).
    split.
    { unfold Gtp.init in E. repeat case_match; try discriminate; tauto. }
    rewrite payload_rd, app_nil_r.
    eexists. split; [apply (extract_gtp_hdr_rd h' []); exact Wg|].
    repeat split; try done.
    rewrite truncate_rd by (unfold fits; cbn [app]; len_lia). done.
  - unfold Packet.prepend_gtp_hdr. cbn [Packet.gtp_hdr rd rdl]. rewrite E. res.
    unfold Gtp.init in E. repeat case_match; try discriminate; injection E as <-;
      repeat split; congruence.
Qed.

End Properties.

(** *** Witnesses *)



Definition zero_hdrs : hdrs := mk_hdrs (Gtp.mk 0 0 0 0 0 0 0 0 0) (S1ap.mk 0 0 0 0 0) (Diameter.mk 0 0 0).

(** The attach request of UE 3. *)
Lemma message_roundtrip_witness :
  exists p q,
    Packet.append_items (rd zero_hdrs [] []) [IU64 119000000003; IU64 1; IU64 7; IU16 1; IStr "ue"] = Ret p /\
    extract_items (rd zero_hdrs [] (payload p)) [KU64; KU64; KU64; KU16; KStr] =
      Ret ([IU64 119000000003; IU64 1; IU64 7; IU16 1; IStr "ue"], q).
Proof.
  apply (message_roundtrip zero_hdrs zero_hdrs [IU64 119000000003; IU64 1; IU64 7; IU16 1; IStr "ue"]).
  - repeat constructor; try exact I; discriminate.
  - vm_compute. discriminate.
Defined.

Lemma packet_memory_invariant_witness :
  exists p, run_ops (rd zero_hdrs [] []) [OAppend (IU32 7); OPrependLen; OTruncate] = Ret p /\
    wf_packet p.
Proof.
  eexists. split; [vm_compute; reflexivity|].
  eapply (packet_memory_invariant (h_gtp zero_hdrs) (h_s1ap zero_hdrs) (h_dia zero_hdrs) (rd zero_hdrs [] [])
            [OAppend (IU32 7); OPrependLen; OTruncate]).
  - vm_compute. reflexivity.
  - repeat constructor.
  - vm_compute. reflexivity.
Defined.

Lemma gtp_header_roundtrip_witness :
  match Packet.prepend_gtp_hdr (rd zero_hdrs [1; 2; 3] []) 2 1 3 42 with
  | Ret p =>
      (u8 2 = 1 \/ u8 2 = 2) /\
      exists q, Packet.extract_gtp_hdr (rd zero_hdrs [] (payload p)) = Ret q /\
        Gtp.msg_type (Packet.gtp_hdr q) = u8 1 /\
        Gtp.teid (Packet.gtp_hdr q) = u32 42 /\
        Gtp.msg_len (Packet.gtp_hdr q) = u16 3 /\
        Packet.truncate q = Ret (rd (hdrs_of q) [] [1; 2; 3])
  | Fault f => u8 2 <> 1 /\ u8 2 <> 2 /\ f = Exit "gtp protocol error: gtp_init"
  end.
Proof.
  apply (gtp_header_roundtrip zero_hdrs zero_hdrs [1; 2; 3] 2 1 3 42).
  - repeat split.
  - vm_compute. discriminate.
Defined.


