(* ===== verification/Network.v ===== *)
(** * Network: framed packets over a byte stream (src/network.cpp)

    A descriptor's input is the list of segments the kernel will deliver; a
    [read] returns at most what was asked for and leaves the rest.  An empty
    list means the call blocks, which is [None] in the results.  [Fault] is
    kept for the undefined behaviour of a [read] past the packet's buffer. *)

From Stdlib Require Import ZArith Lia.
From S2P Require Import Prelude Utils Telecom Headers Packet.

(** ** Sockets, addresses, interfaces *)

(** [struct sockaddr_in]: port (host order) and address. *)
Record sockaddr_in := mk_sockaddr { sin_port : Z; sin_addr : Z }.

#[export] Instance sockaddr_in_eq_dec : EqDecision sockaddr_in.
Proof. solve_decision. Defined.

Module Network.

Section Addresses.

(** [inet_aton] of the C library: [None] when it does not accept the text. *)
Context (inet_aton : string -> option Z).

(** [Network::set_inet_sock_addr] *)
Definition set_inet_sock_addr (ip_addr : string) (port : Z) : result sockaddr_in :=
  match inet_aton ip_addr with
  | Some a => Ret (mk_sockaddr (u16 port) a)
  | None => Fault (Exit "inet_aton error: network_setinetsockaddr")
  end.

End Addresses.

(** [Network::bind_sock], [get_sock_addr], [set_sock_reuse]: [status] is
    what the system call returned. *)
Definition bind_sock (status : Z) : result unit :=
  Utils.handle_type1_error status "Bind error: network_bindsock".
Definition get_sock_addr (status : Z) : result unit :=
  Utils.handle_type1_error status "Getsockname error: network_getsockaddr".
Definition set_sock_reuse (status : Z) : result unit :=
  Utils.handle_type1_error status "Setsockopt reuse error: network_setsockreuse".

(** [Network::set_rcv_timeout]: the timeout, in seconds, handed to
    [setsockopt], which returns [call]; in the default branch the code
    tests the uninitialised [status0]. *)
Definition set_rcv_timeout (status0 call : Z) (level : Z) : result (option Z) :=
  let '(status, secs) :=
    match level with
    | 1 => (call, Some 5)
    | 2 => (call, Some 30)
    | 3 => (call, Some 60)
    | _ => (status0, None)
    end in
  match secs with
  | Some _ => Ret tt
  | None => Utils.handle_type1_error status "Incorrect timeout level: network_setrcvtimeout"
  end ≫= fun _ =>
  Utils.handle_type1_error status "Setsockopt rcv timeout error: network_setrcvtimeout" ≫= fun _ =>
  Ret secs.

(** [inet_ntop(AF_INET, ..)]: dotted decimal. *)
Definition inet_ntop (a : list Z) : string :=
  match a with
  | [b0; b1; b2; b3] =>
      to_string b0 +:+ "." +:+ to_string b1 +:+ "." +:+ to_string b2 +:+ "." +:+ to_string b3
  | _ => ""
  end.

(** The IP header at the start of the packet, copied to a fresh block. *)
Definition ip_field (pkt : Packet.t) (off : nat) : result string :=
  pkt ← Packet.copy pkt;
  ip_hdr ← Packet.allocate_ip_hdr_mem true IP_HDR_LEN;
  ip_hdr ← memmove ip_hdr 0 (Packet.data pkt) 0 IP_HDR_LEN;
  mret (inet_ntop (take 4 (drop off ip_hdr))).

(** [ip_src] is at offset 12 of [struct ip], [ip_dst] at offset 16. *)
Definition get_src_ip_addr (pkt : Packet.t) : result string := ip_field pkt 12.
Definition get_dst_ip_addr (pkt : Packet.t) : result string := ip_field pkt 16.

(** [Network::add_itf], [Network::rem_itf]: the command given to [system]. *)
Definition add_itf (itf_no : Z) (ip_addr_sp : string) : string :=
  "sudo ifconfig eth0:" +:+ pretty itf_no +:+ " " +:+ ip_addr_sp.
Definition rem_itf (itf_no : Z) : string :=
  "sudo ifconfig eth0:" +:+ pretty itf_no +:+ " down".

(** ** Streams *)

(** What the kernel has for a descriptor: a non-empty segment, end of file,
    or an error. *)
Inductive event :=
  | Data (b : Z) (bs : list Z)
  | Closed
  | Error.

Definition requeue (bs : list Z) (evs : list event) : list event :=
  match bs with
  | [] => evs
  | b :: bs => Data b bs :: evs
  end.

(** The loop of [Network::read_stream]: [n] is the length asked for. *)
Fixpoint read_loop (n : Z) (buf : list Z) (ptr remaining : Z) (evs : list event)
  : result (option (Z * list Z * list event)) :=
  match evs with
  | [] => Ret None
  | Closed :: _ => Ret (Some (0, buf, evs))
  | Error :: evs' => Ret (Some (-1, buf, evs'))
  | Data b bs :: evs' =>
      let got := take (Z.to_nat remaining) (b :: bs) in
      let read_bytes := len got in
      buf ← mem_write buf ptr got;
      if remaining - read_bytes =? 0
      then Ret (Some (n, buf, requeue (drop (Z.to_nat remaining) (b :: bs)) evs'))
      else read_loop n buf (ptr + read_bytes) (remaining - read_bytes) evs'
  end.

(** [Network::read_stream] *)
Definition read_stream (conn_fd : Z) (buf : list Z) (n : Z) (evs : list event)
  : result (option (Z * list Z * list event)) :=
  if (conn_fd <? 0) || (n <=? 0) then Ret (Some (-1, buf, evs))
  else read_loop n buf 0 n evs.

(** The loop of [Network::write_stream]: [ws] are the sizes the kernel
    accepts call after call (a non-positive one is the error return); the
    result carries the bytes that went out. *)
Fixpoint write_loop (n : Z) (buf : list Z) (ptr remaining : Z) (ws : list Z) (sent : list Z)
  : result (option (Z * list Z)) :=
  match ws with
  | [] => Ret None
  | w :: ws =>
      let written_bytes := Z.min w remaining in
      if written_bytes <=? 0 then Ret (Some (written_bytes, sent))
      else
        bs ← mem_read buf ptr written_bytes;
        if remaining - written_bytes =? 0 then Ret (Some (n, sent ++ bs))
        else write_loop n buf (ptr + written_bytes) (remaining - written_bytes) ws (sent ++ bs)
  end.

(** [Network::write_stream] *)
Definition write_stream (conn_fd : Z) (buf : list Z) (n : Z) (ws : list Z)
  : result (option (Z * list Z)) :=
  if (conn_fd <? 0) || (n <=? 0) then Ret (Some (-1, []))
  else write_loop n buf 0 n ws [].

(** [Network::read_sctp_pkt]: the four-byte length, then that many bytes
    into the packet's buffer, whatever the length says. *)
Definition read_sctp_pkt (conn_fd : Z) (pkt : Packet.t) (evs : list event)
  : result (option (Z * Packet.t * list event)) :=
  pkt ← Packet.clear_pkt pkt;
  r ← read_stream conn_fd (Packet.data pkt) 4 evs;
  match r with
  | None => mret None
  | Some (retval, buf, evs) =>
      let pkt := pkt <| Packet.data := buf |> in
      if 0 <? retval then
        lenb ← mem_read (Packet.data pkt) 0 4;
        let pkt_len := s32 (le_val lenb) in
        pkt ← Packet.clear_pkt pkt;
        r ← read_stream conn_fd (Packet.data pkt) pkt_len evs;
        match r with
        | None => mret None
        | Some (retval, buf, evs) =>
            mret (Some (retval,
              pkt <| Packet.data := buf |> <| Packet.data_ptr := 0 |> <| Packet.plen := retval |>,
              evs))
        end
      else mret (Some (retval, pkt, evs))
  end.

(** [Network::write_sctp_pkt]: the packet comes by value. *)
Definition write_sctp_pkt (conn_fd : Z) (pkt : Packet.t) (ws : list Z)
  : result (option (Z * list Z)) :=
  pkt ← Packet.copy pkt;
  pkt ← Packet.prepend_len pkt;
  write_stream conn_fd (Packet.data pkt) (Packet.plen pkt) ws.

End Network.

(** ** Lemmas *)

(** The bytes a list of events delivers before end of file or an error. *)
Fixpoint delivered (evs : list Network.event) : list Z :=
  match evs with
  | Network.Data b bs :: evs => (b :: bs) ++ delivered evs
  | _ => []
  end.

Lemma delivered_requeue bs evs :
  delivered (Network.requeue bs evs) = bs ++ delivered evs.
Proof. by destruct bs. Qed.

Lemma len_take k bs : 0 <= k -> len (take (Z.to_nat k) bs) = Z.min k (len bs).
Proof. intros H. unfold len. rewrite length_take. lia. Qed.

(** Reading does not depend on how the bytes were segmented. *)
Lemma read_loop_spec n evs pre old post bs rest :
  delivered evs = bs ++ rest -> 0 < len bs -> length old = length bs ->
  exists evs',
    Network.read_loop n (pre ++ old ++ post) (len pre) (len bs) evs =
      Ret (Some (n, pre ++ bs ++ post, evs')) /\
    delivered evs' = rest.
Proof.
  revert pre old bs. induction evs as [|[b cs| |] evs IH]; intros pre old bs Hd Hb Ho;
    cbn [delivered] in Hd; try (destruct bs; [done | discriminate Hd]).
  cbn [Network.read_loop]. cbv zeta. set (ch := b :: cs) in *.
  assert (0 < len ch) as Hch by (subst ch; rewrite len_cons; pose proof (len_nonneg cs); lia).
  clearbody ch.
  destruct (decide (len bs <= len ch)) as [L|L].
  - (* the segment covers what remains *)
    assert (ch = bs ++ drop (length bs) ch /\ drop (length bs) ch ++ delivered evs = rest)
      as [E1 E2].
    { assert (take (length bs) ch = bs) as E.
      { rewrite <- (take_app_le ch (delivered evs)) by (unfold len in L; lia).
        by rewrite Hd, take_app_length. }
      split; [by rewrite <- E at 1; rewrite take_drop|].
      apply (app_inv_head bs). rewrite <- Hd, app_assoc. f_equal.
      by rewrite <- E at 1; rewrite take_drop. }
    assert (take (Z.to_nat (len bs)) ch = bs) as ->.
    { unfold len. rewrite Nat2Z.id, E1. apply take_app_length. }
    rewrite mem_write_mid by done. res.
    rewrite (proj2 (Z.eqb_eq _ _)) by lia.
    eexists. split; [done|]. rewrite delivered_requeue. unfold len. by rewrite Nat2Z.id.
  - (* the whole segment is consumed *)
    assert (exists bs2, bs = ch ++ bs2 /\ delivered evs = bs2 ++ rest) as (bs2 & -> & Hd2).
    { exists (drop (length ch) bs).
      assert (take (length ch) bs = ch) as E.
      { rewrite <- (take_app_le bs rest) by (unfold len in L; lia).
        by rewrite <- Hd, take_app_length. }
      split; [by rewrite <- E at 1; rewrite take_drop|].
      apply (app_inv_head ch). rewrite Hd, app_assoc. f_equal.
      by rewrite <- E at 1; rewrite take_drop. }
    rewrite take_ge by (unfold len in *; lia).
    rewrite length_app in Ho.
    rewrite <- (take_drop (length ch) old), <- !app_assoc.
    rewrite mem_write_mid by (try done; rewrite length_take; lia). res.
    rewrite (proj2 (Z.eqb_neq _ _)) by len_lia.
    replace (len (ch ++ bs2) - len ch) with (len bs2) by len_lia.
    replace (len pre + len ch) with (len (pre ++ ch)) by len_lia.
    destruct (IH (pre ++ ch) (drop (length ch) old) bs2) as (evs' & E & Hr); [done| | |].
    + len_lia.
    + rewrite length_drop. lia.
    + exists evs'. rewrite <- app_assoc in E. rewrite E. by rewrite <- !app_assoc.
Qed.

Lemma read_stream_spec fd n evs old post bs rest :
  0 <= fd -> delivered evs = bs ++ rest -> n = len bs -> 0 < n -> length old = length bs ->
  exists evs',
    Network.read_stream fd (old ++ post) n evs = Ret (Some (n, bs ++ post, evs')) /\
    delivered evs' = rest.
Proof.
  intros Hf Hd -> Hn Ho. unfold Network.read_stream.
  rewrite (proj2 (Z.ltb_ge _ _)), (proj2 (Z.leb_gt _ _)) by lia. cbn [orb].
  exact (read_loop_spec (len bs) evs [] old post bs rest Hd Hn Ho).
Qed.

Lemma write_loop_spec n ws pre bs post sent :
  0 < len bs -> Forall (fun w => 0 < w) ws -> len bs <= foldr Z.add 0 ws ->
  Network.write_loop n (pre ++ bs ++ post) (len pre) (len bs) ws sent =
  Ret (Some (n, sent ++ bs)).
Proof.
  intros Hb Hw. revert pre bs sent Hb. induction Hw as [|w ws Hw _ IH]; intros pre bs sent Hb Hs.
  - simpl in Hs. lia.
  - cbn [Network.write_loop foldr] in *. cbv zeta.
    rewrite (proj2 (Z.leb_gt _ _)) by lia.
    set (k := Z.min w (len bs)) in *.
    assert (bs = take (Z.to_nat k) bs ++ drop (Z.to_nat k) bs) as E by (by rewrite take_drop).
    assert (len (take (Z.to_nat k) bs) = k) as Ek by (rewrite len_take; lia).
    assert (len (drop (Z.to_nat k) bs) = len bs - k) as Ed by (unfold len in *; rewrite length_drop; lia).
    rewrite E at 1. rewrite <- app_assoc, mem_read_mid by done. res.
    destruct (Z.eqb_spec (len bs - k) 0) as [D|D].
    + assert (drop (Z.to_nat k) bs = []) as En.
      { apply length_zero_iff_nil. unfold len in *. lia. }
      rewrite En, app_nil_r in E. by rewrite <- E.
    + replace (len bs - k) with (len (drop (Z.to_nat k) bs)) by lia.
      replace (len pre + k) with (len (pre ++ take (Z.to_nat k) bs)) by (rewrite len_app; lia).
      rewrite E at 1. rewrite <- app_assoc, (app_assoc pre).
      rewrite IH by lia. by rewrite <- app_assoc, take_drop.
Qed.

(** The frame on the wire: the length, then the bytes. *)
Definition frame (bs : list Z) : list Z := le_bytes 4 (len bs) ++ bs.

Lemma write_sctp_pkt_spec fd h pre post ws :
  0 <= fd -> 4 + len pre + len post <= BUF_SIZE ->
  Forall (fun w => 0 < w) ws -> 4 + len pre + len post <= foldr Z.add 0 ws ->
  Network.write_sctp_pkt fd (rd h pre post) ws =
  Ret (Some (len (frame (pre ++ post)), frame (pre ++ post))).
Proof.
  intros Hf Hl Hw Hs. unfold Network.write_sctp_pkt.
  rewrite copy_rd by (unfold fits; lia). res.
  rewrite prepend_len_rd by done. res. unfold rd, rdl. pk.
  unfold Network.write_stream, frame. rewrite <- app_assoc. set (bs := le_bytes _ _ ++ _).
  assert (len bs = 4 + len pre + len post) as Hbs by (subst bs; len_lia).
  pose proof (len_nonneg pre). pose proof (len_nonneg post).
  rewrite (proj2 (Z.ltb_ge _ _)), (proj2 (Z.leb_gt _ _)) by lia. cbn [orb].
  exact (write_loop_spec (len bs) ws [] bs _ [] ltac:(lia) Hw ltac:(lia)).
Qed.

Lemma data_rd_nil h : Packet.data (rd h [] []) = zbuf.
Proof. unfold rd, rdl. pk. cbn [app]. apply pad_nil. Qed.

Lemma zbuf_split n : Z.of_nat n <= BUF_SIZE ->
  zbuf = replicate n 0 ++ replicate (Z.to_nat BUF_SIZE - n) 0.
Proof. intros H. unfold zbuf. rewrite <- replicate_add. f_equal. lia. Qed.

Lemma read_zbuf fd n evs bs rest :
  0 <= fd -> delivered evs = bs ++ rest -> n = len bs -> 0 < n <= BUF_SIZE ->
  exists evs',
    Network.read_stream fd zbuf n evs = Ret (Some (n, pad bs, evs')) /\ delivered evs' = rest.
Proof.
  intros Hf Hd Hn Hb. rewrite (zbuf_split (length bs)) by (unfold len in *; lia).
  eapply read_stream_spec; try done; [lia|]. by rewrite length_replicate.
Qed.

Lemma read_sctp_pkt_spec fd p evs bs rest :
  0 <= fd -> length (Packet.data p) = Z.to_nat BUF_SIZE ->
  delivered evs = frame bs ++ rest -> 0 < len bs <= BUF_SIZE ->
  exists evs',
    Network.read_sctp_pkt fd p evs = Ret (Some (len bs, rd (hdrs_of p) [] bs, evs')) /\
    delivered evs' = rest.
Proof.
  intros Hf Hp Hd Hl. unfold Network.read_sctp_pkt.
  rewrite clear_pkt_rd by done. res. rewrite data_rd_nil.
  unfold frame in Hd. rewrite <- app_assoc in Hd.
  destruct (read_zbuf fd 4 evs _ _ Hf Hd) as (evs1 & -> & Hd1); [done | by unfold BUF_SIZE|].
  res. cbn [Z.ltb Z.compare]. pk.
  rewrite mem_read_pad_all by done. res. rewrite le_val_le_bytes.
  change (256 ^ Z.of_nat 4) with (2 ^ 32).
  assert (s32 (len bs mod 2 ^ 32) = len bs) as ->.
  { unfold BUF_SIZE in Hl. rewrite Z.mod_small by lia. apply s32_id. lia. }
  rewrite clear_pkt_rd by (pk; apply length_pad; by unfold BUF_SIZE). res.
  rewrite data_rd_nil.
  destruct (read_zbuf fd (len bs) evs1 bs rest Hf Hd1) as (evs2 & -> & Hd2); [done | done|].
  exists evs2. split; [|done]. res. done.
Qed.

(** A buffer smaller than the announced length is overrun as soon as the
    bytes arrive. *)
Lemma read_loop_overrun n evs buf ptr remaining :
  0 <= ptr -> 0 < remaining -> len buf < ptr + remaining ->
  remaining <= len (delivered evs) ->
  Network.read_loop n buf ptr remaining evs = Fault (UB "write outside the buffer").
Proof.
  revert buf ptr remaining. induction evs as [|[b cs| |] evs IH];
    intros buf ptr remaining Hp Hr Hb Hd; cbn [delivered] in Hd; rewrite ?len_nil in Hd; try lia.
  cbn [Network.read_loop]. cbv zeta. rewrite len_app in Hd. set (ch := b :: cs) in *.
  pose proof (len_take remaining ch ltac:(lia)) as Ht.
  assert (0 < len ch) by (subst ch; rewrite len_cons; pose proof (len_nonneg cs); lia).
  destruct (decide (ptr + len (take (Z.to_nat remaining) ch) <= len buf)) as [L|L].
  - destruct (mem_write buf ptr (take (Z.to_nat remaining) ch)) as [buf'|f] eqn:E.
    + apply mem_write_ok in E as (_ & _ & El & _). res.
      rewrite (proj2 (Z.eqb_neq _ _)) by lia.
      apply IH; try lia. unfold len in *. lia.
    + unfold mem_write in E. rewrite (proj2 (in_bounds_spec _ _ _)) in E; [discriminate E|].
      pose proof (len_nonneg (take (Z.to_nat remaining) ch)). lia.
  - rewrite mem_write_oob by lia. done.
Qed.

(** *** Connections that stay open *)

(** The events are data, and these bytes. *)
Definition is_data (e : Network.event) : Prop :=
  match e with Network.Data _ _ => True | _ => False end.
Definition holds (evs : list Network.event) (bs : list Z) : Prop :=
  Forall is_data evs /\ delivered evs = bs.

Lemma holds_nil evs : holds evs [] -> evs = [].
Proof. intros [H E]. destruct evs as [|[b bs| |] evs]; [done | discriminate E | |]; by inversion H. Qed.

Lemma holds_app evs evs' bs bs' : holds evs bs -> holds evs' bs' -> holds (evs ++ evs') (bs ++ bs').
Proof.
  intros [H <-] [H' <-]. split; [by apply Forall_app|].
  induction H as [|[b cs| |] evs He _ IH]; [done | | done | done].
  cbn [app delivered]. by rewrite IH, <- app_assoc.
Qed.

Lemma holds_requeue bs evs rest : holds evs rest -> holds (Network.requeue bs evs) (bs ++ rest).
Proof.
  intros [H <-]. split; [|apply delivered_requeue]. destruct bs; [done|]. by constructor.
Qed.

Lemma read_loop_data n evs buf ptr remaining r buf' evs' :
  Forall is_data evs ->
  Network.read_loop n buf ptr remaining evs = Ret (Some (r, buf', evs')) -> Forall is_data evs'.
Proof.
  intros H. revert buf ptr remaining. induction H as [|[b cs| |] evs He H IH];
    intros buf ptr remaining E; cbn [Network.read_loop] in E; [discriminate E | | done | done].
  destruct (mem_write _ _ _); [|discriminate E]. cbn [mbind result_bind] in E.
  destruct (_ =? 0); [|by eapply IH]. injection E as <- <- <-.
  destruct (drop _ _); [done|]. by constructor.
Qed.

Lemma read_sctp_pkt_data fd p evs r p' evs' :
  Forall is_data evs ->
  Network.read_sctp_pkt fd p evs = Ret (Some (r, p', evs')) -> Forall is_data evs'.
Proof.
  assert (forall buf n evs r buf' evs', Forall is_data evs ->
    Network.read_stream fd buf n evs = Ret (Some (r, buf', evs')) -> Forall is_data evs') as Hs.
  { intros buf n es r' b' es' H E. unfold Network.read_stream in E.
    destruct (_ || _); [by injection E as <- <- <- | by eapply read_loop_data]. }
  intros H E. unfold Network.read_sctp_pkt in E.
  destruct (Packet.clear_pkt p) as [q|]; [|discriminate E]. cbn [mbind result_bind] in E.
  destruct (Network.read_stream fd (Packet.data q) 4 evs) as [[[[r1 b1] evs1]|]|] eqn:E1;
    try discriminate E. apply Hs in E1; [|done]. cbn [mbind result_bind] in E.
  destruct (0 <? r1); [|by injection E as <- <- <-].
  destruct (mem_read _ 0 4); [|discriminate E]. cbn [mbind result_bind] in E.
  destruct (Packet.clear_pkt _) as [q'|]; [|discriminate E]. cbn [mbind result_bind] in E.
  destruct (Network.read_stream fd (Packet.data q') _ evs1) as [[[[r2 b2] evs2]|]|] eqn:E2;
    try discriminate E. apply Hs in E2; [|done]. by injection E as <- <- <-.
Qed.

(** *** Messages of the S1 interface *)

(** The S1AP header of an answer to [h]. *)
Definition answer_hdr (h : hdrs) (ty n enb mme : Z) : S1ap.t := S1ap.init (h_s1ap h) ty n enb mme.
Definition h_enb (h : hdrs) : Z := S1ap.enodeb_s1ap_ue_id (h_s1ap h).
Definition h_mme (h : hdrs) : Z := S1ap.mme_s1ap_ue_id (h_s1ap h).

(** A message of the S1 interface: a frame with a header and a body. *)
Definition s1ap_frame (hd : S1ap.t) (body : list Z) : list Z := frame (S1ap.to_bytes hd ++ body).
Definition s1ap_msg (ty enb mme : Z) (body fr : list Z) : Prop :=
  exists hd, S1ap.wf hd /\ S1ap.msg_type hd = ty /\ S1ap.enodeb_s1ap_ue_id hd = enb /\
    S1ap.mme_s1ap_ue_id hd = mme /\ fr = s1ap_frame hd body.

Lemma answer_msg h ty n enb mme body :
  S1ap.wf (h_s1ap h) ->
  s1ap_msg (u8 ty) (u32 enb) (u32 mme) body
    (frame (S1ap.to_bytes (answer_hdr h ty n enb mme) ++ body)).
Proof. intros Hw. eexists. split; [by apply s1ap_init_wf|]. by repeat split. Qed.

(** Reading [k] packets in a row from one connection. *)
Fixpoint read_packets (fd : Z) (k : nat) (pkt : Packet.t) (evs : list Network.event)
  : result (option (list (list Z) * list Network.event)) :=
  match k with
  | O => Ret (Some ([], evs))
  | S k =>
      r ← Network.read_sctp_pkt fd pkt evs;
      match r with
      | None => Ret None
      | Some (_, pkt, evs) =>
          r ← read_packets fd k pkt evs;
          match r with
          | None => Ret None
          | Some (bodies, evs) => Ret (Some (payload pkt :: bodies, evs))
          end
      end
  end.

(** ** Properties *)

Section Properties.

(** C32: the framing delivers a packet whole, if it is not empty and holds at
    most 1,020 bytes, so that the length fits in front of it: whatever partial
    writes the sender's kernel makes, as long as each makes progress, and
    however the bytes are cut into segments, the receiver's [read_sctp_pkt]
    returns the packet that [write_sctp_pkt] was given, cursor at the start,
    and leaves the bytes behind it unread. *)
Theorem sctp_packet_roundtrip fd fd' h pre post ws evs rest (q : Packet.t) :
  0 <= fd -> 0 <= fd' -> 0 < len pre + len post -> 4 + len pre + len post <= BUF_SIZE ->
  Forall (fun w => 0 < w) ws -> 4 + len pre + len post <= foldr Z.add 0 ws ->
  length (Packet.data q) = Z.to_nat BUF_SIZE ->
  exists sent n,
    Network.write_sctp_pkt fd (rd h pre post) ws = Ret (Some (n, sent)) /\ n = len sent /\
    (delivered evs = sent ++ rest ->
     exists evs',
       Network.read_sctp_pkt fd' q evs =
         Ret (Some (len (pre ++ post), rd (hdrs_of q) [] (pre ++ post), evs')) /\
       delivered evs' = rest).
Proof.
  intros Hf Hf' Hne Hl Hw Hs Hq. eexists _, _. split; [by apply write_sctp_pkt_spec|].
  split; [done|]. intros Hd. apply read_sctp_pkt_spec; try done. len_lia.
Qed.

(** Packets sent one after another on a connection are received one by
    one, in order and unmixed, for every segmentation of the stream. *)
Theorem sctp_stream_in_order fd bodies evs (q : Packet.t) :
  0 <= fd -> length (Packet.data q) = Z.to_nat BUF_SIZE ->
  Forall (fun bs => 0 < len bs <= BUF_SIZE) bodies ->
  delivered evs = concat (map frame bodies) ->
  exists evs', read_packets fd (length bodies) q evs = Ret (Some (bodies, evs')).
Proof.
  intros Hf Hq Hb. revert q evs Hq. induction Hb as [|bs bodies Hbs _ IH];
    intros q evs Hq Hd; [by eexists|].
  cbn [map concat] in Hd. cbn [length read_packets].
  destruct (read_sctp_pkt_spec fd q evs bs _ Hf Hq Hd Hbs) as (evs1 & -> & Hd1). res.
  destruct (IH (rd (hdrs_of q) [] bs) evs1) as (evs2 & ->); [|done|].
  - apply length_pad. cbn [app]. lia.
  - exists evs2. res. by rewrite payload_rd.
Qed.

(** The announced length is not checked: a peer that announces more than
    [BUF_SIZE] bytes and sends them makes [read_sctp_pkt] write past the
    packet's heap block. *)
Theorem sctp_length_unchecked fd (q : Packet.t) evs n body rest :
  0 <= fd -> length (Packet.data q) = Z.to_nat BUF_SIZE ->
  BUF_SIZE < n < 2 ^ 31 -> len body = n ->
  delivered evs = le_bytes 4 n ++ body ++ rest ->
  Network.read_sctp_pkt fd q evs = Fault (UB "write outside the buffer").
Proof.
  intros Hf Hq Hn Hbody Hd. unfold Network.read_sctp_pkt. unfold BUF_SIZE in Hn.
  rewrite clear_pkt_rd by done. res. rewrite data_rd_nil.
  destruct (read_zbuf fd 4 evs _ _ Hf Hd) as (evs1 & -> & Hd1); [done | by unfold BUF_SIZE|].
  res. cbn [Z.ltb Z.compare]. pk.
  rewrite mem_read_pad_all by done. res. rewrite le_val_le_bytes.
  change (256 ^ Z.of_nat 4) with (2 ^ 32).
  rewrite Z.mod_small, s32_id by lia.
  rewrite clear_pkt_rd by (pk; apply length_pad; by unfold BUF_SIZE). res.
  rewrite data_rd_nil. unfold Network.read_stream.
  rewrite (proj2 (Z.ltb_ge _ _)), (proj2 (Z.leb_gt _ _)) by lia. cbn [orb].
  rewrite read_loop_overrun; [done | lia | lia | |].
  - unfold len. rewrite length_zbuf. unfold BUF_SIZE. lia.
  - rewrite Hd1, len_app. pose proof (len_nonneg rest). lia.
Qed.

End Properties.

(** *** Witnesses *)

Lemma sctp_packet_roundtrip_witness :
  exists sent n,
    Network.write_sctp_pkt 3 (rd zero_hdrs [1; 2] [7]) [5; 1; 9] = Ret (Some (n, sent)) /\
    n = len sent /\
    (delivered [Network.Data 3 [0; 0]; Network.Data 0 [1]; Network.Data 2 [7; 8]] = sent ++ [8] ->
     exists evs',
       Network.read_sctp_pkt 4 (rd zero_hdrs [] [])
         [Network.Data 3 [0; 0]; Network.Data 0 [1]; Network.Data 2 [7; 8]] =
         Ret (Some (3, rd zero_hdrs [] ([1; 2] ++ [7]), evs')) /\
       delivered evs' = [8]).
Proof.
  apply (sctp_packet_roundtrip 3 4 zero_hdrs [1; 2] [7] [5; 1; 9] _ [8] (rd zero_hdrs [] []));
    try (vm_compute; done).
  repeat constructor.
Defined.

Lemma sctp_stream_in_order_witness :
  exists evs',
    read_packets 3 2 (rd zero_hdrs [] [])
      [Network.Data 1 [0; 0; 0; 9; 2; 0]; Network.Data 0 [0; 5; 6]] =
    Ret (Some ([[9]; [5; 6]], evs')).
Proof.
  apply (sctp_stream_in_order 3 [[9]; [5; 6]]); try (vm_compute; done).
  repeat constructor; vm_compute; done.
Defined.

Lemma sctp_length_unchecked_witness :
  Network.read_sctp_pkt 3 (rd zero_hdrs [] [])
    [Network.Data 1 [4; 0; 0]; Network.Data 65 (replicate 1024 65)] =
  Fault (UB "write outside the buffer").
Proof.
  apply (sctp_length_unchecked 3 (rd zero_hdrs [] []) _ 1025 (replicate 1025 65) []);
    vm_compute; try done; split; done.
Defined.
