(* ===== verification/Transport.v ===== *)
(** * Transport: TCP and UDP endpoints, the worker pool, the tun device
    (src/sctp_client.cpp, src/sctp_server.cpp, src/udp_client.cpp,
    src/udp_server.cpp, src/tun.cpp)

    What the kernel answers is given, call after call, as a list of outcomes;
    an exhausted list is a call that does not return ([None]).  [errno] is a
    variable of the thread: a successful call leaves it as it was. *)

From Stdlib Require Import ZArith Lia.
From S2P Require Import Prelude Utils Telecom Headers Packet Network.

(** A system call that returned: a value, or -1 and an [errno]. *)
Inductive outcome :=
  | Done (v : Z)
  | Failed (e : Z).

Definition status_of (o : outcome) : Z :=
  match o with Done v => v | Failed _ => -1 end.
Definition errno_after (errno : Z) (o : outcome) : Z :=
  match o with Done _ => errno | Failed e => e end.

Definition EPERM : Z := 1.
Definition ECONNREFUSED : Z := 111.
Definition ETIMEDOUT : Z := 110.
Definition FD_SETSIZE : Z := 1024.

Module SctpClient.

(** [class SctpClient] *)
Record t := mk {
  conn_fd : Z;
  server_port : Z;
  server_ip_addr : string;
  server_sock_addr : sockaddr_in
}.

(** [SctpClient::SctpClient]: [sock] is what [socket] returned; the other
    members keep what the memory [m] held. *)
Definition construct (m : t) (sock : Z) : result t :=
  _ ← Utils.handle_type1_error sock "Socket error: sctpclient_sctpclient";
  mret (m <| conn_fd := sock |>).

(** [SctpClient::init] *)
Definition init (inet_aton : string -> option Z) (c : t) (ip : string) (port : Z) : result t :=
  let c := c <| server_port := port |> <| server_ip_addr := ip |> in
  a ← Network.set_inet_sock_addr inet_aton (server_ip_addr c) (server_port c);
  mret (c <| server_sock_addr := a |>).

(** The loop of [SctpClient::connect_with_server]: it looks at [errno],
    not at the status. *)
Fixpoint connect_loop (errno : Z) (outs : list outcome) : option (Z * Z) :=
  match outs with
  | [] => None
  | o :: outs =>
      let errno := errno_after errno o in
      if (errno =? ECONNREFUSED) || (errno =? ETIMEDOUT) then connect_loop 0 outs
      else Some (status_of o, errno)
  end.

(** [SctpClient::connect_with_server]: the [errno] it leaves. *)
Definition connect_with_server (errno : Z) (outs : list outcome) : result (option Z) :=
  match connect_loop errno outs with
  | None => Ret None
  | Some (status, errno) =>
      _ ← Utils.handle_type1_error status "Connect error: sctpclient_connectwithserver";
      mret (Some errno)
  end.

(** [SctpClient::conn] *)
Definition conn (inet_aton : string -> option Z) (c : t) (ip : string) (port : Z)
    (errno : Z) (outs : list outcome) : result (option (t * Z)) :=
  c ← init inet_aton c ip port;
  r ← connect_with_server errno outs;
  mret (option_map (fun errno => (c, errno)) r).

(** The loop of [SctpClient::snd] (and [SctpServer::snd]): an attempt is
    the sizes its [write]s accept and the [errno] a failing one sets.  The
    bytes that went out on all the attempts are collected. *)
Fixpoint snd_loop (fd : Z) (pkt : Packet.t) (errno : Z) (attempts : list (list Z * option Z))
    (sent : list Z) : result (option (Z * list Z * Z)) :=
  match attempts with
  | [] => Ret None
  | (ws, e) :: attempts =>
      r ← Network.write_sctp_pkt fd pkt ws;
      match r with
      | None => Ret None
      | Some (status, bs) =>
          let errno := default errno e in
          if errno =? EPERM then snd_loop fd pkt 0 attempts (sent ++ bs)
          else Ret (Some (status, sent ++ bs, errno))
      end
  end.

(** [SctpClient::snd]: what went out, the message printed if any, and the
    [errno] left. *)
Definition snd (c : t) (pkt : Packet.t) (errno : Z) (attempts : list (list Z * option Z))
  : result (option (list Z * option string * Z)) :=
  pkt ← Packet.copy pkt;
  r ← snd_loop (conn_fd c) pkt errno attempts [];
  mret (option_map (fun '(status, sent, errno) =>
    (sent, Utils.handle_type2_error status "Write error: sctpclient_snd", errno)) r).

(** [SctpClient::rcv]: a failed read is only printed. *)
Definition rcv (c : t) (pkt : Packet.t) (evs : list Network.event)
  : result (option (Packet.t * option string * list Network.event)) :=
  r ← Network.read_sctp_pkt (conn_fd c) pkt evs;
  mret (option_map (fun '(status, pkt, evs) =>
    (pkt, Utils.handle_type2_error status "Read error: sctpclient_rcv", evs)) r).

End SctpClient.

Module UdpClient.

(** [class UdpClient] *)
Record t := mk {
  conn_fd : Z;
  port : Z;
  ip_addr : string;
  sock_addr : sockaddr_in;
  server_port : Z;
  server_ip_addr : string;
  server_sock_addr : sockaddr_in
}.

Definition g_freeport : Z := 0.

(** [UdpClient::UdpClient] *)
Definition construct (m : t) (sock : Z) : result t :=
  let c := m <| conn_fd := sock |> in
  _ ← Utils.handle_type1_error sock "Socket error: udpclient_udpclient";
  mret (c <| port := g_freeport |>).

(** What the kernel answers to [bind], [getsockname] and [setsockopt]. *)
Record os := mk_os {
  bind_status : Z;
  getsockname_status : Z;
  bound_addr : sockaddr_in;
  setsockopt_status : Z
}.

Section Ops.
Context (inet_aton : string -> option Z) (k : os).

(** [UdpClient::init] *)
Definition init (c : t) (arg_ip_addr arg_server_ip_addr : string) (arg_server_port : Z)
  : result t :=
  let c := c <| ip_addr := arg_ip_addr |> in
  a ← Network.set_inet_sock_addr inet_aton (ip_addr c) (port c);
  let c := c <| sock_addr := a |> <| server_port := arg_server_port |>
             <| server_ip_addr := arg_server_ip_addr |> in
  a ← Network.set_inet_sock_addr inet_aton (server_ip_addr c) (server_port c);
  mret (c <| server_sock_addr := a |>).

(** [UdpClient::set_port] *)
Definition set_port (c : t) : result t :=
  _ ← Network.get_sock_addr (getsockname_status k);
  let c := c <| sock_addr := bound_addr k |> in
  mret (c <| port := sin_port (sock_addr c) |>).

(** [UdpClient::conn]; the timeout level 1 is five seconds. *)
Definition conn (c : t) (ip server_ip : string) (sport : Z) : result t :=
  c ← init c ip server_ip sport;
  _ ← Network.bind_sock (bind_status k);
  c ← set_port c;
  _ ← Network.set_rcv_timeout 0 (setsockopt_status k) 1;
  mret c.

(** [UdpClient::set_client] *)
Definition set_client (c : t) (arg_ip_addr : string) : result t :=
  let c := c <| ip_addr := arg_ip_addr |> in
  a ← Network.set_inet_sock_addr inet_aton (ip_addr c) (port c);
  let c := c <| sock_addr := a |> in
  _ ← Network.bind_sock (bind_status k);
  c ← set_port c;
  _ ← Network.set_rcv_timeout 0 (setsockopt_status k) 1;
  mret c.

(** [UdpClient::set_server] *)
Definition set_server (c : t) (ip : string) (sport : Z) : result t :=
  let c := c <| server_port := sport |> <| server_ip_addr := ip |> in
  a ← Network.set_inet_sock_addr inet_aton (server_ip_addr c) (server_port c);
  mret (c <| server_sock_addr := a |>).

End Ops.

(** The loop of [UdpClient::snd] and [UdpServer::snd]: the datagrams that
    left, the last status and [errno]. *)
Fixpoint snd_loop (dgram : list Z) (errno : Z) (outs : list outcome) (sent : list (list Z))
  : option (Z * list (list Z) * Z) :=
  match outs with
  | [] => None
  | o :: outs =>
      let sent := match o with Done _ => sent ++ [dgram] | Failed _ => sent end in
      let errno := errno_after errno o in
      if errno =? EPERM then snd_loop dgram 0 outs sent
      else Some (status_of o, sent, errno)
  end.

(** [UdpClient::snd] *)
Definition snd (pkt : Packet.t) (errno : Z) (outs : list outcome)
  : result (option (list (list Z) * option string * Z)) :=
  pkt ← Packet.copy pkt;
  dgram ← mem_read (Packet.data pkt) 0 (Packet.plen pkt);
  mret (option_map (fun '(status, sent, errno) =>
    (sent, Utils.handle_type2_error status "Sendto error: udpclient_snd", errno))
    (snd_loop dgram errno outs [])).

(** The reply of [recvfrom]: a datagram and its sender, or -1 (the receive
    timeout is one of the ways to fail). *)
Inductive datagram :=
  | Got (from : sockaddr_in) (bs : list Z)
  | Timeout.

(** [recvfrom(fd, pkt.data, BUF_SIZE, ..)]: what does not fit is dropped. *)
Definition recvfrom (buf : list Z) (addr : sockaddr_in) (d : datagram)
  : result (Z * list Z * sockaddr_in) :=
  match d with
  | Got from bs =>
      let got := take (Z.to_nat BUF_SIZE) bs in
      buf ← mem_write buf 0 got; mret (len got, buf, from)
  | Timeout => mret (-1, buf, addr)
  end.

(** [UdpClient::rcv]: a failure is printed and the length becomes -1; the
    peer's address is overwritten by the datagram's. *)
Definition rcv (c : t) (pkt : Packet.t) (d : datagram) : result (t * Packet.t * option string) :=
  pkt ← Packet.clear_pkt pkt;
  '(status, buf, addr) ← recvfrom (Packet.data pkt) (server_sock_addr c) d;
  mret (c <| server_sock_addr := addr |>,
        pkt <| Packet.data := buf |> <| Packet.data_ptr := 0 |> <| Packet.plen := status |>,
        Utils.handle_type2_error status "Recvfrom error: udpclient_rcv").

End UdpClient.

Module UdpServer.

(** [class UdpServer] *)
Record t := mk {
  conn_fd : Z;
  port : Z;
  ip_addr : string;
  sock_addr : sockaddr_in
}.

(** [UdpServer::UdpServer] *)
Definition construct (m : t) (sock : Z) : result t :=
  _ ← Utils.handle_type1_error sock "Socket error: udpserver_udpserver";
  mret (m <| conn_fd := sock |>).

(** [UdpServer::init] *)
Definition init (inet_aton : string -> option Z) (s : t) (ip : string) (p : Z) : result t :=
  let s := s <| port := p |> <| ip_addr := ip |> in
  a ← Network.set_inet_sock_addr inet_aton (ip_addr s) (port s);
  mret (s <| sock_addr := a |>).

(** [UdpServer::run] *)
Definition run (inet_aton : string -> option Z) (s : t) (ip : string) (p : Z)
    (reuse_status bind_status : Z) : result t :=
  s ← init inet_aton s ip p;
  _ ← Network.set_sock_reuse reuse_status;
  _ ← Network.bind_sock bind_status;
  mret s.

(** [UdpServer::snd]: a failure ends the process. *)
Definition snd (pkt : Packet.t) (errno : Z) (outs : list outcome)
  : result (option (list (list Z) * Z)) :=
  pkt ← Packet.copy pkt;
  dgram ← mem_read (Packet.data pkt) 0 (Packet.plen pkt);
  match UdpClient.snd_loop dgram errno outs [] with
  | None => Ret None
  | Some (status, sent, errno) =>
      _ ← Utils.handle_type1_error status "Sendto error: udpserver_snd";
      mret (Some (sent, errno))
  end.

(** [UdpServer::rcv] *)
Definition rcv (src_sock_addr : sockaddr_in) (pkt : Packet.t) (d : UdpClient.datagram)
  : result (sockaddr_in * Packet.t) :=
  pkt ← Packet.clear_pkt pkt;
  '(status, buf, addr) ← UdpClient.recvfrom (Packet.data pkt) src_sock_addr d;
  _ ← Utils.handle_type1_error status "Recvfrom error: udpserver_rcv";
  mret (addr, pkt <| Packet.data := buf |> <| Packet.data_ptr := 0 |> <| Packet.plen := status |>).

End UdpServer.

Module SctpServer.

(** [class SctpServer] (the [thread] objects are detached at once). *)
Record t := mk {
  listen_fd : Z;
  port : Z;
  ip_addr : string;
  sock_addr : sockaddr_in;
  workers_count : Z;
  pipe_fds : list (Z * Z)
}.

(** [SctpServer::SctpServer] *)
Definition construct (m : t) (sock : Z) : result t :=
  _ ← Utils.handle_type1_error sock "Socket error: sctpserver_sctpserver";
  mret (m <| listen_fd := sock |>).

(** [new int[2, 0]] is an array of no elements: the comma operator. *)
Definition pipe_array_size : Z := 0.

(** The loop of [SctpServer::init_pipe_fds]: [pipe] stores its two
    descriptors into the array it is given ([None]: it failed). *)
Fixpoint init_pipe_loop (n : nat) (pipes : list (option (Z * Z))) (made : list (Z * Z))
  : result (option (list (Z * Z))) :=
  match n with
  | O => Ret (Some made)
  | S n =>
      match pipes with
      | [] => Ret None
      | None :: _ => Fault (Exit "Pipe error: sctpserver_initpipefds")
      | Some p :: pipes =>
          if pipe_array_size <? 2 then Fault (UB "write outside the buffer")
          else init_pipe_loop n pipes (made ++ [p])
      end
  end.

(** [SctpServer::init_pipe_fds] *)
Definition init_pipe_fds (s : t) (pipes : list (option (Z * Z))) : result (option t) :=
  fds ← init_pipe_loop (Z.to_nat (workers_count s)) pipes [];
  mret (option_map (fun fds => s <| pipe_fds := fds |>) fds).

(** [SctpServer::init] *)
Definition init (inet_aton : string -> option Z) (s : t) (ip : string) (p workers : Z)
    (pipes : list (option (Z * Z))) : result (option t) :=
  let s := s <| port := p |> <| ip_addr := ip |> in
  a ← Network.set_inet_sock_addr inet_aton (ip_addr s) (port s);
  init_pipe_fds (s <| sock_addr := a |> <| workers_count := workers |>) pipes.

(** [SctpServer::snd] and [rcv]: those of the client, on a given
    descriptor. *)
Definition snd (conn_fd : Z) (pkt : Packet.t) (errno : Z) (attempts : list (list Z * option Z))
  : result (option (list Z * option string * Z)) :=
  pkt ← Packet.copy pkt;
  r ← SctpClient.snd_loop conn_fd pkt errno attempts [];
  mret (option_map (fun '(status, sent, errno) =>
    (sent, Utils.handle_type2_error status "Write error: sctpserver_snd", errno)) r).

Definition rcv (conn_fd : Z) (pkt : Packet.t) (evs : list Network.event)
  : result (option (Packet.t * option string * list Network.event)) :=
  r ← Network.read_sctp_pkt conn_fd pkt evs;
  mret (option_map (fun '(status, pkt, evs) =>
    (pkt, Utils.handle_type2_error status "Read error: sctpserver_rcv", evs)) r).

(** *** The accepting thread *)

(** One turn of the loop of [SctpServer::accept_clients]: the descriptor
    [accept] gave goes down the pipe of worker [turn]. *)
Definition accept_step (s : t) (turn : Z) (pkt : Packet.t) (conn_fd : Z) (ws : list Z)
  : result (option (Z * list Z * Z * Packet.t)) :=
  _ ← Utils.handle_type1_error conn_fd "Accept error: sctpserver_acceptclients";
  pkt ← Packet.clear_pkt pkt;
  pkt ← Packet.append_item pkt (IInt conn_fd);
  match pipe_fds s !! Z.to_nat turn with
  | None => Fault (UB "read outside the buffer")
  | Some (_, wr) =>
      r ← Network.write_sctp_pkt wr pkt ws;
      match r with
      | None => Ret None
      | Some (status, sent) =>
          _ ← Utils.handle_type1_error status
                "Thread communication error: sctpserver_acceptclients";
          mret (Some (wr, sent, (turn + 1) mod workers_count s, pkt))
      end
  end.

(** The loop over the clients that arrive: what was written to which pipe. *)
Fixpoint accept_clients (s : t) (turn : Z) (pkt : Packet.t) (clients : list (Z * list Z))
  : result (option (list (Z * list Z))) :=
  match clients with
  | [] => Ret (Some [])
  | (conn_fd, ws) :: clients =>
      r ← accept_step s turn pkt conn_fd ws;
      match r with
      | None => Ret None
      | Some (wr, sent, turn, pkt) =>
          r ← accept_clients s turn pkt clients;
          mret (option_map (cons (wr, sent)) r)
      end
  end.

(** *** A worker *)

(** The locals of [SctpServer::worker_func]. *)
Record worker := mk_worker {
  pipe_fd : Z;
  conn_fds : list Z;
  max_fd : Z;
  w_pkt : Packet.t
}.

(** The state before the loop. *)
Definition worker_start (s : t) (worker_id : Z) (pkt : Packet.t) : result worker :=
  match pipe_fds s !! Z.to_nat worker_id with
  | None => Fault (UB "read outside the buffer")
  | Some (rd_end, _) => Ret (mk_worker rd_end [] rd_end pkt)
  end.

(** The loop of [SctpServer::create_workers]: worker [i] starts with a
    packet of its own. *)
Fixpoint create_workers (s : t) (i : Z) (pkts : list Packet.t) : result (list worker) :=
  match pkts with
  | [] => Ret []
  | pkt :: pkts =>
      w ← worker_start s i pkt;
      ws ← create_workers s (i + 1) pkts;
      mret (w :: ws)
  end.

(** [SctpServer::run]: the workers' starting states, and what the accepting
    thread writes into the pipes. *)
Definition run (inet_aton : string -> option Z) (s : t) (ip : string) (p workers : Z)
    (pipes : list (option (Z * Z))) (pkts : list Packet.t) (reuse_status bind_status : Z)
    (pkt : Packet.t) (clients : list (Z * list Z))
  : result (option (list worker * list (Z * list Z))) :=
  s ← init inet_aton s ip p workers pipes;
  match s with
  | None => Ret None
  | Some s =>
      ws ← create_workers s 0 (take (Z.to_nat (workers_count s)) pkts);
      _ ← Network.set_sock_reuse reuse_status;
      _ ← Network.bind_sock bind_status;
      dealt ← accept_clients s 0 pkt clients;
      mret (option_map (pair ws) dealt)
  end.

(** [FD_SET] on every descriptor of the list: an [fd_set] has
    [FD_SETSIZE] bits and the macro does not check. *)
Definition fd_set_all (fds : list Z) : result unit :=
  if forallb (fun fd => (0 <=? fd) && (fd <? FD_SETSIZE)) fds then Ret tt
  else Fault (UB "write outside the buffer").

Section Worker.
Context {E : Type}.
(** The handler of the server, and [close]. *)
Context (serve_client : Z -> prog E Z).

(** The second loop of [worker_func], with [n = conn_fds_size - i]. *)
Fixpoint serve_loop (isset : Z -> bool) (pipe_fd : Z) (n i : nat) (conn_fds : list Z) (max_fd : Z)
  : prog E (list Z * Z) :=
  match n with
  | O => mret (conn_fds, max_fd)
  | S n =>
      match conn_fds !! i with
      | None => fail (UB "read outside the buffer")
      | Some fd =>
          status ← (if isset fd then serve_client fd else mret 1);
          if status =? 0 then
            let conn_fds := delete i conn_fds in
            serve_loop isset pipe_fd n i conn_fds (Z.max pipe_fd (Utils.max_ele conn_fds))
          else serve_loop isset pipe_fd n (S i) conn_fds max_fd
      end
  end.

(** One turn of the loop of [worker_func]: [sel] is the status of
    [select], [ready] the readable descriptors, of which it reports those
    it was asked about below [max_fd + 1]; [evs] is the pipe's input. *)
Definition worker_round (w : worker) (sel : Z) (ready : list Z) (evs : list Network.event)
  : prog E (option (worker * list Network.event)) :=
  let conn_fds_size := length (conn_fds w) in
  _ ← lift (fd_set_all (pipe_fd w :: conn_fds w));
  let isset fd := bool_decide (fd ∈ ready) && (fd <? max_fd w + 1) in
  _ ← lift (Utils.handle_type1_error sel "Select error: sctpserver_workerfunc");
  r ← (if isset (pipe_fd w) then
         r ← lift (Network.read_sctp_pkt (pipe_fd w) (w_pkt w) evs);
         match r with
         | None => mret None
         | Some (status, pkt, evs) =>
             _ ← lift (Utils.handle_type1_error status
                         "Read connection fd error: sctpserver_workerfunc");
             '(new_conn_fd, pkt) ← lift (Packet.extract_item_int pkt);
             mret (Some (mk_worker (pipe_fd w) (conn_fds w ++ [new_conn_fd])
                           (Z.max (max_fd w) new_conn_fd) pkt, evs))
         end
       else mret (Some (w, evs)));
  match r with
  | None => mret None
  | Some (w, evs) =>
      '(fds, mx) ← serve_loop isset (pipe_fd w) conn_fds_size 0 (conn_fds w) (max_fd w);
      mret (Some (w <| conn_fds := fds |> <| max_fd := mx |>, evs))
  end.

End Worker.
End SctpServer.

Module Tun.

Record t := mk { conn_fd : Z; name : string }.

Definition IFNAMSIZ : Z := 16.

(** [Tun::attach]: [fd] is what [open] returned; [ioctl] answers for the
    sixteen bytes of [ifr_name] (zeroed, then [strncpy]) with a status and
    the name the kernel chose. *)
Definition attach (u : t) (fd : Z) (ioctl : list Z -> Z * list Z) : result t :=
  let u := u <| conn_fd := fd |> in
  _ ← Utils.handle_type1_error fd "tunopen error: tun_attach";
  let n := take (Z.to_nat IFNAMSIZ) (c_str (name u)) in
  let ifr_name := n ++ replicate (Z.to_nat IFNAMSIZ - length n) 0 in
  let '(status, ifr_name) := ioctl ifr_name in
  _ ← Utils.handle_type1_error status "ioctl_tunsetiff error: network_attachtotun";
  if bool_decide (0 ∈ ifr_name) then mret (u <| name := bytes_string (until_nul ifr_name) |>)
  else Fault (UB "read outside the buffer").

(** [Tun::conn]: [init] and [attach]. *)
Definition conn (u : t) (arg_name : string) (fd : Z) (ioctl : list Z -> Z * list Z) : result t :=
  attach (u <| name := arg_name |>) fd ioctl.

(** [Tun::snd]: what [write] was given, or the end of the process. *)
Definition snd (pkt : Packet.t) (o : outcome) : result (list Z) :=
  pkt ← Packet.copy pkt;
  bs ← mem_read (Packet.data pkt) 0 (Packet.plen pkt);
  _ ← Utils.handle_type1_error (status_of o) "tun write error: tun_snd";
  mret bs.

(** [Tun::rcv]: [None] is a failed [read]. *)
Definition rcv (pkt : Packet.t) (d : option (list Z)) : result Packet.t :=
  pkt ← Packet.clear_pkt pkt;
  match d with
  | None => _ ← Utils.handle_type1_error (-1) "tun read error: tun_rcv"; mret pkt
  | Some bs =>
      let got := take (Z.to_nat BUF_SIZE) bs in
      buf ← mem_write (Packet.data pkt) 0 got;
      _ ← Utils.handle_type1_error (len got) "tun read error: tun_rcv";
      mret (pkt <| Packet.data := buf |> <| Packet.data_ptr := 0 |> <| Packet.plen := len got |>)
  end.

(** [Tun::set_itf]: the commands given to [system], in order. *)
Definition set_itf (name ip_addr_sp : string) : list string :=
  [ "sudo openvpn --rmtun --dev " +:+ name;
    "sudo openvpn --mktun --dev " +:+ name;
    "sudo ip link set " +:+ name +:+ " up";
    "sudo ip addr add " +:+ ip_addr_sp +:+ " dev " +:+ name ].

End Tun.

(** ** What a send hands to the kernel

    The components log what they send rather than how the kernel takes it:
    the bytes of a datagram, and those of a packet on a stream (copied for
    [snd] and again for [write_sctp_pkt], which puts the length in front). *)

Definition bytes_of (pkt : Packet.t) : result (list Z) :=
  pkt ← Packet.copy pkt;
  mem_read (Packet.data pkt) 0 (Packet.plen pkt).

Definition framed_bytes_of (pkt : Packet.t) : result (list Z) :=
  pkt ← Packet.copy pkt;
  pkt ← Packet.copy pkt;
  pkt ← Packet.prepend_len pkt;
  mem_read (Packet.data pkt) 0 (Packet.plen pkt).

(** ** Lemmas *)

Lemma bytes_rd h pre post : fits pre post -> bytes_of (rd h pre post) = Ret (pre ++ post).
Proof.
  intros H. unfold bytes_of. rewrite copy_rd by done. res. unfold rd, rdl. pk.
  by apply mem_read_pad_all.
Qed.

Lemma framed_bytes_rd h pre post :
  4 + len pre + len post <= BUF_SIZE -> framed_bytes_of (rd h pre post) = Ret (frame (pre ++ post)).
Proof.
  intros H. assert (fits pre post) by (unfold fits; len_lia). unfold framed_bytes_of.
  rewrite copy_rd by done. res. rewrite copy_rd by done. res. rewrite prepend_len_rd by done. res.
  unfold rd, rdl, frame. pk. rewrite <- app_assoc. by apply mem_read_pad_all.
Qed.

(** A worker whose [select] covers every descriptor it serves. *)
Definition covers (w : SctpServer.worker) : Prop :=
  SctpServer.pipe_fd w <= SctpServer.max_fd w /\
  Forall (fun fd => fd <= SctpServer.max_fd w) (SctpServer.conn_fds w).

Section ServeLoop.
Context {E : Type} (serve_client : Z -> prog E Z).

(** What a round should do: hand each ready connection to the handler, in
    order, and keep those whose handler did not report the end. *)
Fixpoint serve_all (ready : list Z) (conn_fds : list Z) : prog E (list Z) :=
  match conn_fds with
  | [] => mret []
  | fd :: rest =>
      status ← (if bool_decide (fd ∈ ready) then serve_client fd else mret 1);
      kept ← serve_all ready rest;
      mret (if status =? 0 then kept else fd :: kept)
  end.

Lemma max_ele_covers pipe fds :
  pipe <= Z.max pipe (Utils.max_ele fds) /\
  Forall (fun fd => fd <= Z.max pipe (Utils.max_ele fds)) fds.
Proof.
  split; [lia|]. apply Forall_forall. intros fd Hfd.
  apply list_elem_of_In in Hfd. pose proof (Utils.max_ele_ge fds fd Hfd). lia.
Qed.

Lemma serve_loop_spec isset ready pipe pre l post mx s :
  (forall fd, fd ∈ l -> isset fd = bool_decide (fd ∈ ready)) ->
  pipe <= mx -> Forall (fun fd => fd <= mx) (pre ++ l ++ post) ->
  exists mx',
    SctpServer.serve_loop serve_client isset pipe (length l) (length pre) (pre ++ l ++ post) mx s =
    (kept ← serve_all ready l; mret (pre ++ kept ++ post, mx' kept)) s /\
    forall kept s', serve_all ready l s = (Ret kept, s') ->
      pipe <= mx' kept /\ Forall (fun fd => fd <= mx' kept) (pre ++ kept ++ post).
Proof.
  revert pre mx s. induction l as [|fd l IH]; intros pre mx s Hi Hp Hf.
  { exists (fun _ => mx). split; [done|]. by intros kept s' [= <- <-]. }
  cbn [length SctpServer.serve_loop serve_all app].
  rewrite list_lookup_middle by done. rewrite Hi by (left; done).
  assert (forall fd', fd' ∈ l -> isset fd' = bool_decide (fd' ∈ ready)) as Hi'
    by (intros; apply Hi; by right).
  destruct ((if bool_decide (fd ∈ ready) then serve_client fd else mret 1) s)
    as [[status|f] s1] eqn:Es.
  2: { exists (fun _ => mx). rewrite run_assoc, !(run_bind_fault _ _ _ _ _ Es). by split. }
  rewrite !(run_bind _ _ _ _ _ Es).
  destruct (status =? 0) eqn:E0.
  - rewrite delete_middle.
    set (mx1 := Z.max pipe (Utils.max_ele (pre ++ l ++ post))).
    destruct (max_ele_covers pipe (pre ++ l ++ post)) as [H1 H2].
    destruct (IH pre mx1 s1 Hi' H1 H2) as (mx' & E1 & E2).
    exists mx'. split.
    { rewrite E1, run_assoc, (run_bind _ _ _ _ _ Es), run_assoc, E0. done. }
    intros kept s'.
    unfold mbind, prog_bind. destruct (serve_all ready l s1) as [[k|] s2] eqn:Ea; [|done].
    intros [= <- <-]. by eapply E2.
  - replace (pre ++ fd :: l ++ post) with ((pre ++ [fd]) ++ l ++ post) in *
      by by rewrite <- app_assoc.
    replace (S (length pre)) with (length (pre ++ [fd])) by (rewrite length_app; simpl; lia).
    destruct (IH (pre ++ [fd]) mx s1 Hi' Hp) as (mx' & E1 & E2); [by rewrite <- app_assoc|].
    exists (fun k => mx' (tail k)). split.
    + rewrite E1, run_assoc, (run_bind _ _ _ _ _ Es), run_assoc, E0. unfold mbind, prog_bind.
      destruct (serve_all ready l s1) as [[k|] s2]; [|done]. by rewrite <- app_assoc.
    + intros kept s'.
      unfold mbind, prog_bind. destruct (serve_all ready l s1) as [[k|] s2] eqn:Ea; [|done].
      intros [= <- <-]. cbn [tail]. specialize (E2 k s2 eq_refl).
      by rewrite <- (app_assoc pre [fd]) in E2.
Qed.
End ServeLoop.

(** A datagram that fits is received whole, cursor at its start. *)
Lemma recvfrom_zbuf addr from bs :
  len bs <= BUF_SIZE ->
  UdpClient.recvfrom zbuf addr (UdpClient.Got from bs) = Ret (len bs, pad bs, from).
Proof.
  intros H. unfold UdpClient.recvfrom. rewrite take_ge by (unfold len in H; lia).
  by rewrite mem_write_zbuf.
Qed.

Lemma udp_server_rcv addr p from bs :
  length (Packet.data p) = Z.to_nat BUF_SIZE -> len bs <= BUF_SIZE ->
  UdpServer.rcv addr p (UdpClient.Got from bs) = Ret (from, rd (hdrs_of p) [] bs).
Proof.
  intros Hp Hb. unfold UdpServer.rcv. rewrite clear_pkt_rd by done. res.
  rewrite data_rd_nil, recvfrom_zbuf by done. res.
  by rewrite Utils.handle_type1_error_ok by apply len_nonneg.
Qed.

(** A datagram or a packet that does not fit is cut. *)
Lemma len_cut bs : len (take (Z.to_nat BUF_SIZE) bs) <= BUF_SIZE.
Proof. rewrite len_take by done. lia. Qed.
Lemma fits_cut bs : fits [] (take (Z.to_nat BUF_SIZE) bs).
Proof. unfold fits. rewrite len_nil. pose proof (len_cut bs). lia. Qed.

Lemma udp_server_rcv_cut addr p from bs :
  length (Packet.data p) = Z.to_nat BUF_SIZE ->
  UdpServer.rcv addr p (UdpClient.Got from bs) =
  Ret (from, rd (hdrs_of p) [] (take (Z.to_nat BUF_SIZE) bs)).
Proof.
  intros Hp. rewrite <- (udp_server_rcv addr) by (done || (rewrite len_take by done; lia)).
  unfold UdpServer.rcv, UdpClient.recvfrom. by rewrite take_take, Nat.min_id.
Qed.

(** The tun device. *)
Lemma tun_rcv_rd p bs :
  length (Packet.data p) = Z.to_nat BUF_SIZE -> len bs <= BUF_SIZE ->
  Tun.rcv p (Some bs) = Ret (rd (hdrs_of p) [] bs).
Proof.
  intros Hp Hb. unfold Tun.rcv. rewrite clear_pkt_rd by done. res.
  rewrite take_ge by (unfold len in Hb; lia). rewrite data_rd_nil, mem_write_zbuf by done. res.
  by rewrite Utils.handle_type1_error_ok by apply len_nonneg.
Qed.

Lemma tun_rcv_cut p bs :
  length (Packet.data p) = Z.to_nat BUF_SIZE ->
  Tun.rcv p (Some bs) = Ret (rd (hdrs_of p) [] (take (Z.to_nat BUF_SIZE) bs)).
Proof.
  intros Hp. rewrite <- tun_rcv_rd by (done || (rewrite len_take by done; lia)).
  unfold Tun.rcv. by rewrite take_take, Nat.min_id.
Qed.

Lemma tun_snd_rd h pre post w :
  fits pre post -> 0 <= w -> Tun.snd (rd h pre post) (Done w) = Ret (pre ++ post).
Proof.
  intros Hf Hw. unfold Tun.snd. rewrite copy_rd by done. res. unfold rd, rdl. pk.
  rewrite mem_read_pad_all by done. res. by rewrite Utils.handle_type1_error_ok.
Qed.

(** A pipe message carries one descriptor. *)
Definition fd_frame (fd : Z) : list Z := frame (le_bytes 4 fd).

Lemma accept_step_spec s turn pkt fd ws rd_end wr :
  length (Packet.data pkt) = Z.to_nat BUF_SIZE -> 0 <= fd -> 0 <= wr ->
  SctpServer.pipe_fds s !! Z.to_nat turn = Some (rd_end, wr) ->
  Forall (fun w => 0 < w) ws -> 8 <= foldr Z.add 0 ws ->
  exists pkt', length (Packet.data pkt') = Z.to_nat BUF_SIZE /\
    SctpServer.accept_step s turn pkt fd ws =
    Ret (Some (wr, fd_frame fd, (turn + 1) mod SctpServer.workers_count s, pkt')).
Proof.
  intros Hp Hf Hw Hl Hws Hs. unfold SctpServer.accept_step.
  rewrite Utils.handle_type1_error_ok by done. res.
  rewrite clear_pkt_rd by done. res.
  rewrite append_item_rd by (unfold fits; cbn [enc_item]; rewrite len_le_bytes; done). res.
  rewrite Hl. cbn [app enc_item].
  rewrite write_sctp_pkt_spec; [|done | rewrite len_le_bytes; done | done | rewrite len_le_bytes, len_nil; lia].
  res. rewrite Utils.handle_type1_error_ok by apply len_nonneg. res.
  eexists. split; [|by rewrite app_nil_r].
  apply length_pad. rewrite app_nil_r, len_le_bytes. done.
Qed.

(** Descriptors below [FD_SETSIZE] can be put in the set. *)
Lemma fd_set_all_ok fds :
  Forall (fun c => 0 <= c < FD_SETSIZE) fds -> SctpServer.fd_set_all fds = Ret tt.
Proof.
  intros H. unfold SctpServer.fd_set_all.
  assert (forallb (fun fd => (0 <=? fd) && (fd <? FD_SETSIZE)) fds = true) as ->; [|done].
  apply forallb_forall. intros x Hx%list_elem_of_In.
  destruct (proj1 (Forall_forall _ _) H x Hx) as [Ha Hb].
  apply andb_true_iff. by rewrite Z.leb_le, Z.ltb_lt.
Qed.

(** A round of a worker: what it does with its connections, and the
    descriptor it takes from the pipe if [select] reports it. *)
Lemma worker_round_run {E} (serve_client : Z -> prog E Z) w sel ready evs fd rest s :
  covers w -> 0 <= sel -> 0 <= SctpServer.pipe_fd w ->
  length (Packet.data (SctpServer.w_pkt w)) = Z.to_nat BUF_SIZE ->
  Forall (fun c => 0 <= c < FD_SETSIZE) (SctpServer.pipe_fd w :: SctpServer.conn_fds w) ->
  let reported := bool_decide (SctpServer.pipe_fd w ∈ ready) in
  (SctpServer.pipe_fd w ∈ ready -> delivered evs = fd_frame fd ++ rest /\ 0 <= fd < 2 ^ 31) ->
  exists (w' : list Z -> SctpServer.worker) evs',
    SctpServer.worker_round serve_client w sel ready evs s =
      (kept ← serve_all serve_client ready (SctpServer.conn_fds w); mret (Some (w' kept, evs'))) s /\
    (Forall is_data evs -> Forall is_data evs') /\
    (if reported then delivered evs' = rest else evs' = evs) /\
    (forall kept, SctpServer.pipe_fd (w' kept) = SctpServer.pipe_fd w /\
       length (Packet.data (SctpServer.w_pkt (w' kept))) = Z.to_nat BUF_SIZE /\
       SctpServer.conn_fds (w' kept) = kept ++ if reported then [fd] else []) /\
    forall kept s', serve_all serve_client ready (SctpServer.conn_fds w) s = (Ret kept, s') ->
      covers (w' kept).
Proof.
  intros [Hc1 Hc2] Hsel Hp0 Hpk Hfds reported Hev. unfold SctpServer.worker_round.
  rewrite (run_lift _ _ _ _ (fd_set_all_ok _ Hfds)), (run_lift _ _ _ tt)
    by by apply Utils.handle_type1_error_ok.
  set (isset := fun fd => bool_decide (fd ∈ ready) && (fd <? SctpServer.max_fd w + 1)).
  change (bool_decide (SctpServer.pipe_fd w ∈ ready) && _) with (isset (SctpServer.pipe_fd w)).
  assert (forall x, x <= SctpServer.max_fd w -> isset x = bool_decide (x ∈ ready)) as Hi.
  { intros x Hx. subst isset. cbn. rewrite (proj2 (Z.ltb_lt _ _)) by lia. apply andb_true_r. }
  rewrite (Hi _ Hc1).
  assert (forall x, x ∈ SctpServer.conn_fds w -> isset x = bool_decide (x ∈ ready)) as Hi'.
  { intros x Hx. apply Hi. exact (proj1 (Forall_forall _ _) Hc2 x Hx). }
  subst reported. destruct (bool_decide_reflect (SctpServer.pipe_fd w ∈ ready)) as [Hr|Hr].
  - destruct (Hev Hr) as [Hd Hfd].
    destruct (read_sctp_pkt_spec (SctpServer.pipe_fd w) (SctpServer.w_pkt w) evs (le_bytes 4 fd) rest)
      as (evs' & Er & Hrest); try done.
    rewrite run_assoc, (run_lift _ _ _ _ Er). cbv beta iota. rewrite run_assoc.
    rewrite (run_lift _ _ _ tt) by by apply Utils.handle_type1_error_ok.
    rewrite run_assoc.
    pose proof (extract_int_rd (hdrs_of (SctpServer.w_pkt w)) [] [] fd) as Ex.
    rewrite app_nil_r in Ex. rewrite (run_lift _ _ _ _ Ex). cbv beta iota.
    rewrite s32_id, run_ret by lia. cbv beta iota.
    destruct (serve_loop_spec serve_client isset ready (SctpServer.pipe_fd w) []
      (SctpServer.conn_fds w) [fd] (Z.max (SctpServer.max_fd w) fd) s Hi') as (mx & E1 & E2).
    + lia.
    + cbn [app]. apply Forall_app. split; [|constructor; [lia | constructor]].
      eapply Forall_impl; [exact Hc2|]. cbn. lia.
    + cbn [app length] in E1.
      match type of Ex with _ = Ret (_, ?q) => set (pkt' := q) in * end.
      exists (fun kept => SctpServer.mk_worker (SctpServer.pipe_fd w) (kept ++ [fd]) (mx kept) pkt'), evs'.
      split; [|split; [intros Hdat; by eapply read_sctp_pkt_data | split; [done | split; [done|]]]].
      * cbn [SctpServer.pipe_fd SctpServer.conn_fds SctpServer.max_fd]. unfold mbind, prog_bind in E1 |- *.
        rewrite E1. by destruct (serve_all serve_client ready (SctpServer.conn_fds w) s) as [[kept|] s'].
      * intros kept s' Hs. exact (E2 _ _ Hs).
  - rewrite run_ret. cbv beta iota.
    destruct (serve_loop_spec serve_client isset ready (SctpServer.pipe_fd w) []
      (SctpServer.conn_fds w) [] (SctpServer.max_fd w) s Hi' Hc1) as (mx & E1 & E2).
    + by rewrite app_nil_r.
    + rewrite app_nil_r in E1. cbn [app length] in E1.
      exists (fun kept => SctpServer.mk_worker (SctpServer.pipe_fd w) (kept ++ []) (mx kept) (SctpServer.w_pkt w)), evs.
      split; [|split; [done | split; [done | split; [done|]]]].
      * unfold mbind, prog_bind in E1 |- *. rewrite E1.
        by destruct (serve_all serve_client ready (SctpServer.conn_fds w) s) as [[kept|] s'].
      * intros kept s' Hs. exact (E2 _ _ Hs).
Qed.

(** ** Properties *)

Section Properties.

(** The accepting thread deals the clients out in turn: starting at
    worker [turn], the j-th client accepted goes down the pipe of worker
    [(turn + j) mod workers_count], whole and in order. *)
Theorem accept_round_robin (s : SctpServer.t) turn pkt clients :
  0 <= turn < SctpServer.workers_count s ->
  length (SctpServer.pipe_fds s) = Z.to_nat (SctpServer.workers_count s) ->
  Forall (fun p => 0 <= snd p) (SctpServer.pipe_fds s) ->
  length (Packet.data pkt) = Z.to_nat BUF_SIZE ->
  Forall (fun c => 0 <= fst c /\ Forall (fun w => 0 < w) (snd c) /\
                   8 <= foldr Z.add 0 (snd c)) clients ->
  SctpServer.accept_clients s turn pkt clients =
  Ret (Some (imap (fun j c =>
    (snd (nth (Z.to_nat ((turn + Z.of_nat j) mod SctpServer.workers_count s))
            (SctpServer.pipe_fds s) (0, 0)),
     fd_frame (fst c))) clients)).
Proof.
  intros Ht Hl Hp Hpk Hc. set (n := SctpServer.workers_count s) in *.
  revert turn pkt Ht Hpk. induction Hc as [|[fd ws] cs (H1 & H2 & H3) _ IH];
    intros turn pkt Ht Hpk; [done|].
  cbn [SctpServer.accept_clients fst snd] in *.
  destruct (lookup_lt_is_Some_2 (SctpServer.pipe_fds s) (Z.to_nat turn)) as [[r wr] Hlk]; [lia|].
  pose proof (proj1 (Forall_lookup _ _) Hp _ _ Hlk) as Hwr. cbn in Hwr.
  destruct (accept_step_spec s turn pkt fd ws r wr) as (pkt' & Hpk' & ->); try done.
  res. fold n. rewrite IH; [|apply Z.mod_pos_bound; lia | done]. res. cbn [option_map].
  do 2 f_equal. rewrite imap_cons. f_equal.
  - rewrite Z.add_0_r, Z.mod_small by lia.
    by rewrite (nth_lookup_Some _ _ _ _ Hlk).
  - apply imap_ext. intros j c _. cbn. rewrite Zplus_mod_idemp_l. do 5 f_equal. lia.
Qed.

(** One round of a worker: when [select] reports the pipe (which
    holds the next descriptor the accepting thread sent) and some of the
    connections, each reported connection is handed to the server's handler
    once, in order; the ones whose handler returned 0 are dropped, the others
    kept, the new one is added behind them and will be watched: the bound
    given to the next [select] still covers every descriptor. *)
Theorem worker_round_correct {E} (serve_client : Z -> prog E Z) w sel ready evs fd rest s kept s' :
  covers w -> 0 <= sel -> 0 <= SctpServer.pipe_fd w ->
  length (Packet.data (SctpServer.w_pkt w)) = Z.to_nat BUF_SIZE ->
  Forall (fun c => 0 <= c < FD_SETSIZE) (SctpServer.pipe_fd w :: SctpServer.conn_fds w) ->
  delivered evs = fd_frame fd ++ rest -> 0 <= fd < 2 ^ 31 ->
  serve_all serve_client ready (SctpServer.conn_fds w) s = (Ret kept, s') ->
  exists w' evs',
    SctpServer.worker_round serve_client w sel ready evs s = (Ret (Some (w', evs')), s') /\
    covers w' /\
    (if bool_decide (SctpServer.pipe_fd w ∈ ready)
     then SctpServer.conn_fds w' = kept ++ [fd] /\ delivered evs' = rest
     else SctpServer.conn_fds w' = kept /\ evs' = evs).
Proof.
  intros Hc Hsel Hp0 Hpk Hfds Hd Hfd Hs.
  destruct (worker_round_run serve_client w sel ready evs fd rest s Hc Hsel Hp0 Hpk Hfds ltac:(done))
    as (w' & evs' & E1 & _ & Hr & Hw & Hcov).
  exists (w' kept), evs'. rewrite E1, (run_bind _ _ _ _ _ Hs). split; [done|].
  split; [by eapply Hcov|]. destruct (Hw kept) as (_ & _ & ->).
  destruct (bool_decide _); [done | by rewrite app_nil_r].
Qed.

(** A TCP endpoint sends a packet once, unless the thread's [errno] was
    left at EPERM by something else: the loop tests it after a call that
    succeeded too, and the packet then goes out twice. *)
Theorem snd_duplicates (c : SctpClient.t) h pre post errno ws ws' more :
  0 <= SctpClient.conn_fd c -> 4 + len pre + len post <= BUF_SIZE ->
  Forall (fun w => 0 < w) ws -> 4 + len pre + len post <= foldr Z.add 0 ws ->
  Forall (fun w => 0 < w) ws' -> 4 + len pre + len post <= foldr Z.add 0 ws' ->
  SctpClient.snd c (rd h pre post) errno ((ws, None) :: (ws', None) :: more) =
  (if errno =? EPERM
   then Ret (Some (frame (pre ++ post) ++ frame (pre ++ post), None, 0))
   else Ret (Some (frame (pre ++ post), None, errno))).
Proof.
  intros Hc Hl H1 H2 H3 H4. unfold SctpClient.snd.
  rewrite copy_rd by (unfold fits; lia). res. cbn [SctpClient.snd_loop].
  rewrite !write_sctp_pkt_spec by done. res. cbn [default].
  assert (Utils.handle_type2_error (len (frame (pre ++ post))) "Write error: sctpclient_snd" = None) as E.
  { unfold Utils.handle_type2_error. by rewrite (proj2 (Z.ltb_ge _ _)) by apply len_nonneg. }
  change (0 =? EPERM) with false.
  destruct (errno =? EPERM); cbv iota; res; cbn [option_map app]; by rewrite E.
Qed.

(** The pipe arrays have no elements ([new int[2, 0]]), so starting
    the server with at least one worker writes outside the heap block as soon
    as [pipe] succeeds. *)
Theorem init_pipes_overflow inet_aton (s : SctpServer.t) ip p workers fds pipes a :
  0 < workers -> inet_aton ip = Some a ->
  SctpServer.init inet_aton s ip p workers (Some fds :: pipes) =
  Fault (UB "write outside the buffer").
Proof.
  intros Hw Ha. unfold SctpServer.init, Network.set_inet_sock_addr. res.
  cbn [SctpServer.ip_addr]. rewrite Ha. res.
  unfold SctpServer.init_pipe_fds. cbn [SctpServer.workers_count].
  destruct (Z.to_nat workers) eqn:E; [lia | done].
Qed.

End Properties.

(** *** Witnesses *)

Definition demo_server : SctpServer.t :=
  SctpServer.mk 3 5000 "10.0.0.1" (mk_sockaddr 5000 1) 2 [(4, 5); (6, 7)].

Lemma accept_round_robin_witness :
  SctpServer.accept_clients demo_server 1 (rd zero_hdrs [] []) [(8, [8]); (9, [3; 7]); (10, [20])] =
  Ret (Some [(7, fd_frame 8); (5, fd_frame 9); (7, fd_frame 10)]).
Proof.
  rewrite accept_round_robin; [reflexivity | split; vm_compute; done | reflexivity | | reflexivity |].
  - repeat constructor; discriminate.
  - repeat constructor; discriminate.
Defined.

(** A handler that ends connection 9 and keeps the others. *)
Definition demo_serve (fd : Z) : prog (list Z) Z :=
  fun log => (Ret (if fd =? 9 then 0 else 1), log ++ [fd]).

Lemma worker_round_correct_witness :
  exists w' evs',
    SctpServer.worker_round demo_serve
      (SctpServer.mk_worker 4 [8; 9; 11] 11 (rd zero_hdrs [] [])) 3 [4; 9; 8]
      [Network.Data 4 [0; 0; 0; 12]; Network.Data 0 [0; 0]] [] = (Ret (Some (w', evs')), [8; 9]) /\
    covers w' /\
    (if bool_decide (4 ∈ [4; 9; 8])
     then SctpServer.conn_fds w' = [8; 11] ++ [12] /\ delivered evs' = []
     else SctpServer.conn_fds w' = [8; 11] /\
          evs' = [Network.Data 4 [0; 0; 0; 12]; Network.Data 0 [0; 0]]).
Proof.
  apply (worker_round_correct demo_serve (SctpServer.mk_worker 4 [8; 9; 11] 11 (rd zero_hdrs [] []))
           3 [4; 9; 8] _ 12 [] [] [8; 11] [8; 9]).
  - split; [vm_compute; discriminate | repeat constructor; discriminate].
  - discriminate.
  - discriminate.
  - reflexivity.
  - repeat constructor; discriminate.
  - reflexivity.
  - split; [discriminate | reflexivity].
  - reflexivity.
Defined.

Lemma snd_duplicates_witness :
  SctpClient.snd (SctpClient.mk 3 0 "" (mk_sockaddr 0 0)) (rd zero_hdrs [7] []) 1
    [([9], None); ([9], None)] = Ret (Some (frame [7] ++ frame [7], None, 0)).
Proof.
  apply (snd_duplicates (SctpClient.mk 3 0 "" (mk_sockaddr 0 0)) zero_hdrs [7] [] 1 [9] [9] []);
    first [vm_compute; discriminate | repeat constructor].
Defined.

Lemma init_pipes_overflow_witness :
  SctpServer.init (fun _ => Some 1) demo_server "10.0.0.1" 5000 2 [Some (4, 5); Some (6, 7)] =
  Fault (UB "write outside the buffer").
Proof. apply (init_pipes_overflow (fun _ => Some 1) _ _ _ 2 (4, 5) _ 1); reflexivity. Defined.
