(* ===== verification/Pool.v ===== *)
(** * The worker pool: the accepting thread, the pipes and the workers
    (src/sctp_server.cpp)

    Transport.v has the turns of the two loops; here they are interleaved.
    A state of [pool] is what the threads share and own: the turn and the
    packet of the accepting thread, what is in each pipe, the locals of each
    worker, and the state the handlers work on.  A [step] is one turn of one
    thread. *)

From Stdlib Require Import ZArith Lia.
From S2P Require Import Prelude Utils Packet Network Transport.

Lemma sublist_Forall {A} (P : A -> Prop) l k : l `sublist_of` k -> Forall P k -> Forall P l.
Proof. intros H. rewrite !Forall_forall. intros Hk x Hx. eauto using elem_of_sublist. Qed.

Section Pool.
Context {Env : Type} (serve_client : Z -> prog Env Z) (s : SctpServer.t).

Record pool := mk_pool {
  turn : Z;
  acc_pkt : Packet.t;
  queues : list (list Network.event);
  workers : list SctpServer.worker;
  env : Env
}.

(** Who moves: the accepting thread, with a client; or worker [i], for whom
    [select] reported [ready], with the handlers it ran: their descriptors
    and what they returned. *)
Inductive move :=
  | Accepted (fd : Z)
  | Round (i : nat) (ready : list Z) (calls : list (Z * Z)).

(** The handler, with a list of the calls kept beside its state. *)
Definition logged (fd : Z) : prog (Env * list (Z * Z)) Z := fun '(e, log) =>
  let '(r, e') := serve_client fd e in
  (r, (e', match r with Ret status => log ++ [(fd, status)] | Fault _ => log end)).

Definition erases {A} (c : prog (Env * list (Z * Z)) A) (c' : prog Env A) : Prop :=
  forall e log, exists log', c (e, log) = ((c' e).1, ((c' e).2, log')).

Lemma erases_bind {A B} c c' (k : A -> prog (Env * list (Z * Z)) B) k' :
  erases c c' -> (forall a, erases (k a) (k' a)) -> erases (c ≫= k) (c' ≫= k').
Proof.
  intros Hc Hk e log. destruct (Hc e log) as [log1 E1]. unfold mbind, prog_bind. rewrite E1.
  destruct (c' e) as [[a|f] e1]; [exact (Hk a e1 log1) | by eexists].
Qed.

Lemma erases_lift {A} (r : result A) : erases (lift r) (lift r).
Proof. intros e log. by eexists. Qed.

Lemma erases_serve_loop isset pipe k i fds mx :
  erases (SctpServer.serve_loop logged isset pipe k i fds mx)
         (SctpServer.serve_loop serve_client isset pipe k i fds mx).
Proof.
  revert i fds mx. induction k as [|k IH]; intros i fds mx; cbn [SctpServer.serve_loop]; [apply erases_lift|].
  destruct (fds !! i) as [fd|]; [|apply erases_lift].
  apply erases_bind; [|intros st; by destruct (st =? 0)].
  destruct (isset fd); [|apply erases_lift].
  intros e log. unfold logged. destruct (serve_client fd e) as [r e']. by eexists.
Qed.

(** The list is an observer: the worker does the same without it. *)
Lemma logged_erases w sel ready evs :
  erases (SctpServer.worker_round logged w sel ready evs)
         (SctpServer.worker_round serve_client w sel ready evs).
Proof.
  unfold SctpServer.worker_round. do 2 (apply erases_bind; [apply erases_lift | intros _]).
  apply erases_bind.
  - destruct (_ && _); [|apply erases_lift]. apply erases_bind; [apply erases_lift|].
    intros [[[status pkt] evs']|]; [|apply erases_lift].
    apply erases_bind; [apply erases_lift | intros _].
    apply erases_bind; [apply erases_lift|]. intros [fd q]. apply erases_lift.
  - intros [[w' evs']|]; [|apply erases_lift].
    apply erases_bind; [apply erases_serve_loop|]. intros [fds mx]. apply erases_lift.
Qed.

(** What is written into the write end of a pipe arrives, in any pieces, at
    the worker who reads from the other end; [select] reports a pipe only if
    there is something in it. *)
Inductive step (p : pool) : move -> pool -> Prop :=
  | step_accept fd ws i r wr sent turn' pkt' evs pieces :
      0 <= fd < 2 ^ 31 -> Forall (fun w => 0 < w) ws -> 8 <= foldr Z.add 0 ws ->
      SctpServer.accept_step s (turn p) (acc_pkt p) fd ws = Ret (Some (wr, sent, turn', pkt')) ->
      SctpServer.pipe_fds s !! i = Some (r, wr) -> queues p !! i = Some evs -> holds pieces sent ->
      step p (Accepted fd)
        (mk_pool turn' pkt' (<[i := evs ++ pieces]> (queues p)) (workers p) (env p))
  | step_round i w evs sel ready w' evs' e' calls :
      workers p !! i = Some w -> queues p !! i = Some evs ->
      (SctpServer.pipe_fd w ∈ ready -> evs <> []) ->
      SctpServer.worker_round logged w sel ready evs (env p, []) = (Ret (Some (w', evs')), (e', calls)) ->
      step p (Round i ready calls)
        (mk_pool (turn p) (acc_pkt p) (<[i := evs']> (queues p)) (<[i := w']> (workers p)) e').

(** The executions of a server with [n] workers, with their moves. *)
Let n : nat := Z.to_nat (SctpServer.workers_count s).

Inductive runs : list move -> pool -> Prop :=
  | runs_start pkt pkts ws e :
      length pkts = n -> Forall (fun q => length (Packet.data q) = Z.to_nat BUF_SIZE) (pkt :: pkts) ->
      SctpServer.create_workers s 0 pkts = Ret ws ->
      runs [] (mk_pool 0 pkt (replicate n []) ws e)
  | runs_step tr p m p' : runs tr p -> step p m p' -> runs (tr ++ [m]) p'.

(** The clients accepted, those that were dealt to worker [i], and how often
    [select] reported the pipe of worker [i] to it. *)
Definition accepted (tr : list move) : list Z :=
  omap (fun m => match m with Accepted fd => Some fd | Round _ _ _ => None end) tr.
Definition dealt (i : nat) (tr : list move) : list Z :=
  omap (fun c : nat * Z => if bool_decide (c.1 mod n = i)%nat then Some c.2 else None)
    (imap pair (accepted tr)).
Definition reports (i : nat) (m : move) : bool :=
  match m, SctpServer.pipe_fds s !! i with
  | Round j ready _, Some (r, _) => bool_decide (j = i) && bool_decide (r ∈ ready)
  | _, _ => false
  end.
Fixpoint taken (i : nat) (tr : list move) : nat :=
  match tr with
  | [] => 0
  | m :: tr => (if reports i m then 1 else 0) + taken i tr
  end.

Lemma accepted_snoc tr m :
  accepted (tr ++ [m]) = accepted tr ++ match m with Accepted fd => [fd] | Round _ _ _ => [] end.
Proof. unfold accepted. rewrite omap_app. by destruct m. Qed.

Lemma dealt_snoc i tr m :
  dealt i (tr ++ [m]) = dealt i tr ++
    match m with
    | Accepted fd => if bool_decide (length (accepted tr) mod n = i)%nat then [fd] else []
    | Round _ _ _ => []
    end.
Proof.
  unfold dealt. rewrite accepted_snoc, imap_app, omap_app. f_equal.
  destruct m as [fd|]; [|done]. cbn. rewrite Nat.add_0_r. by destruct (bool_decide _).
Qed.

Lemma taken_app i tr tr' : (taken i (tr ++ tr') = taken i tr + taken i tr')%nat.
Proof. induction tr as [|m tr IH]; cbn; [done|]. rewrite IH. lia. Qed.

Lemma taken_snoc i tr m : (taken i (tr ++ [m]) = taken i tr + if reports i m then 1 else 0)%nat.
Proof. rewrite taken_app. cbn. lia. Qed.

(** ** The invariant *)

(** The descriptors [fds] less those whose handler returned 0, given what the
    handlers that ran for some of them, in order, returned. *)
Fixpoint remain (fds : list Z) (calls : list (Z * Z)) : list Z :=
  match fds with
  | [] => []
  | fd :: rest =>
      match calls with
      | (c, status) :: later =>
          if c =? fd then if status =? 0 then remain rest later else fd :: remain rest later
          else fd :: remain rest calls
      | [] => fds
      end
  end.

(** The connections worker [i] should be watching after the moves [tr]: in
    each of its rounds every watched connection that is reported has its
    handler run once, in order; those whose handler returned 0 are dropped,
    no others; the next client dealt to it is added if its pipe is reported. *)
Inductive watched (i : nat) : list move -> list Z -> Prop :=
  | watched_none : watched i [] []
  | watched_accept tr l fd : watched i tr l -> watched i (tr ++ [Accepted fd]) l
  | watched_other tr l j ready calls :
      j <> i -> watched i tr l -> watched i (tr ++ [Round j ready calls]) l
  | watched_round tr l ready calls :
      watched i tr l -> map fst calls = filter (.∈ ready) l ->
      watched i (tr ++ [Round i ready calls])
        (remain l calls ++
         if reports i (Round i ready calls) then option_list (dealt i tr !! taken i tr) else []).

(** Of the clients dealt to worker [i] the first ones are, or were, in its
    hands and the others in its pipe. *)
Definition worker_inv (i : nat) (tr : list move) (w : SctpServer.worker) (evs : list Network.event) : Prop :=
  let d := dealt i tr in let k := taken i tr in
  (k <= length d)%nat /\ holds evs (concat (map fd_frame (drop k d))) /\
  SctpServer.conn_fds w `sublist_of` take k d /\
  watched i tr (SctpServer.conn_fds w) /\
  covers w /\ (exists wr, SctpServer.pipe_fds s !! i = Some (SctpServer.pipe_fd w, wr)) /\
  length (Packet.data (SctpServer.w_pkt w)) = Z.to_nat BUF_SIZE.

Record inv (tr : list move) (p : pool) : Prop := mk_inv {
  i_turn : turn p = Z.of_nat (length (accepted tr) mod n);
  i_pkt : length (Packet.data (acc_pkt p)) = Z.to_nat BUF_SIZE;
  i_queues : length (queues p) = n;
  i_workers : length (workers p) = n;
  i_fds : Forall (fun fd => 0 <= fd < 2 ^ 31) (accepted tr);
  i_each i w evs : workers p !! i = Some w -> queues p !! i = Some evs -> worker_inv i tr w evs
}.

(** The pipes of the server. *)
Record server_ok : Prop := mk_server_ok {
  ok_workers : 0 < SctpServer.workers_count s;
  ok_pipes : length (SctpServer.pipe_fds s) = n;
  ok_writes : NoDup (map snd (SctpServer.pipe_fds s));
  ok_ends : Forall (fun p => 0 <= p.1 < FD_SETSIZE /\ 0 <= p.2) (SctpServer.pipe_fds s)
}.
Context (OK : server_ok).

Lemma dealt_to i tr : dealt i tr `sublist_of` accepted tr.
Proof.
  unfold dealt. generalize (accepted tr) as l. intros l.
  assert (forall f : nat -> nat, omap (fun c : nat * Z => if bool_decide (c.1 mod n = i)%nat then Some c.2 else None)
    (imap (fun j x => (f j, x)) l) `sublist_of` l) as H; [|exact (H id)].
  induction l as [|x l IH]; intros f; [constructor|]. rewrite imap_cons. cbn.
  destruct (bool_decide _); constructor; apply (IH (f ∘ S)).
Qed.

Lemma watched_snoc i tr m l :
  watched i (tr ++ [m]) l -> exists l0, watched i tr l0 /\
    match m with
    | Round j ready calls =>
        if bool_decide (j = i) then map fst calls = filter (.∈ ready) l0 /\
          l = remain l0 calls ++ if reports i m then option_list (dealt i tr !! taken i tr) else []
        else l = l0
    | Accepted _ => l = l0
    end.
Proof.
  intros H. inversion H as [E|tr' l' fd H' E|tr' l' j ready calls Hj H' E|tr' l' ready calls H' Hc E].
  - by destruct tr.
  - apply app_inj_tail in E as [-> <-]. by exists l.
  - apply app_inj_tail in E as [-> <-]. exists l. by rewrite bool_decide_false.
  - apply app_inj_tail in E as [-> <-]. exists l'. by rewrite bool_decide_true.
Qed.

Lemma watched_nil i l : watched i [] l -> l = [].
Proof. inversion 1 as [| ? ? ? ? E| ? ? ? ? ? ? ? E | ? ? ? ? ? ? E]; [done | by apply app_nil in E as [_ ?]..]. Qed.

Lemma remain_none fds : remain fds [] = fds.
Proof. by destruct fds. Qed.

Lemma remain_sublist fds calls : remain fds calls `sublist_of` fds.
Proof.
  revert calls. induction fds as [|fd fds IH]; intros [|[c st] calls]; cbn [remain]; try done.
  destruct (c =? fd), (st =? 0); by constructor.
Qed.

Lemma serve_all_kept ready fds e log kept e' log' :
  serve_all logged ready fds (e, log) = (Ret kept, (e', log')) ->
  exists calls, log' = log ++ calls /\ map fst calls = filter (.∈ ready) fds /\ kept = remain fds calls.
Proof.
  revert e log kept. induction fds as [|fd fds IH]; intros e log kept H; cbn [serve_all] in H.
  { injection H as <- <- <-. exists []. by rewrite app_nil_r. }
  unfold mbind, prog_bind in H. rewrite filter_cons. destruct (decide (fd ∈ ready)) as [Hr|Hr].
  - rewrite bool_decide_true in H by done. unfold logged in H at 1.
    destruct (serve_client fd e) as [[st|] e1]; [|discriminate H].
    destruct (serve_all logged ready fds _) as [[k|] [e2 log2]] eqn:E2; [|discriminate H].
    injection H as <- <- <-. destruct (IH _ _ _ E2) as (calls & -> & Hc & ->).
    exists ((fd, st) :: calls). cbn [map fst remain]. by rewrite Z.eqb_refl, Hc, <- app_assoc.
  - rewrite bool_decide_false in H by done. rewrite run_ret in H || cbn [mret prog_ret] in H.
    destruct (serve_all logged ready fds _) as [[k|] [e2 log2]] eqn:E2; [|discriminate H].
    injection H as <- <- <-. destruct (IH _ _ _ E2) as (calls & -> & Hc & ->).
    exists calls. do 2 (split; [done|]). destruct calls as [|[c st] calls]; [by rewrite remain_none|].
    cbn [remain]. destruct (Z.eqb_spec c fd) as [->|]; [exfalso | done].
    assert (fd ∈ filter (.∈ ready) fds) as [? _]%list_elem_of_filter; [|done].
    rewrite <- Hc. by left.
Qed.

Lemma worker_round_started w sel ready evs e r e' :
  SctpServer.worker_round logged w sel ready evs e = (Ret r, e') ->
  0 <= sel /\ Forall (fun c => 0 <= c < FD_SETSIZE) (SctpServer.pipe_fd w :: SctpServer.conn_fds w).
Proof.
  unfold SctpServer.worker_round, SctpServer.fd_set_all. intros H.
  destruct (forallb _ _) eqn:Ef; [|discriminate H].
  split.
  - destruct (Z.ltb_spec sel 0) as [L|L]; [|done]. cbn in H.
    unfold Utils.handle_type1_error in H. rewrite (proj2 (Z.ltb_lt _ _) L) in H. discriminate H.
  - apply Forall_forall. intros x Hx%list_elem_of_In. apply (proj1 (forallb_forall _ _) Ef) in Hx.
    apply andb_true_iff in Hx as [?%Z.leb_le ?%Z.ltb_lt]. lia.
Qed.

Lemma dealt_range i tr p : inv tr p -> Forall (fun fd => 0 <= fd < 2 ^ 31) (dealt i tr).
Proof. intros I. eapply sublist_Forall; [apply dealt_to | apply I]. Qed.

(** A round of worker [i]: if the pipe was reported, the first client waiting
    in it has changed hands. *)
Lemma worker_inv_round i tr w evs sel ready e w' evs' e' calls :
  Forall (fun fd => 0 <= fd < 2 ^ 31) (dealt i tr) ->
  worker_inv i tr w evs -> (SctpServer.pipe_fd w ∈ ready -> evs <> []) ->
  SctpServer.worker_round logged w sel ready evs (e, []) = (Ret (Some (w', evs')), (e', calls)) ->
  worker_inv i (tr ++ [Round i ready calls]) w' evs'.
Proof.
  intros Hd (Hk & [Hdat Hev] & Hsub & Hall & Hc & [wr Hp] & Hpk) Hr E1.
  destruct (worker_round_started _ _ _ _ _ _ _ E1) as [Hsel Hfds].
  pose proof (Forall_inv Hfds) as [Hp0 _].
  set (d := dealt i tr) in *. set (k := taken i tr) in *.
  assert (SctpServer.pipe_fd w ∈ ready -> exists fd rest, drop k d = fd :: rest /\
    delivered evs = fd_frame fd ++ concat (map fd_frame rest) /\ 0 <= fd < 2 ^ 31) as Hfirst.
  { intros Hin. destruct (drop k d) as [|fd rest] eqn:Ed.
    - exfalso. apply (Hr Hin), holds_nil. by split.
    - exists fd, rest. split; [done|]. split; [done|].
      apply (sublist_Forall _ _ _ (sublist_drop d k)) in Hd. rewrite Ed in Hd. by inversion Hd. }
  assert (reports i (Round i ready calls) = bool_decide (SctpServer.pipe_fd w ∈ ready)) as Hrep.
  { cbn [reports]. by rewrite Hp, bool_decide_true, andb_true_l. }
  assert (exists fd rest, (SctpServer.pipe_fd w ∈ ready -> drop k d = fd :: rest) /\
    (SctpServer.pipe_fd w ∈ ready -> delivered evs = fd_frame fd ++ concat (map fd_frame rest) /\ 0 <= fd < 2 ^ 31))
    as (fd & rest & Ed & Hev').
  { destruct (decide (SctpServer.pipe_fd w ∈ ready)) as [Hin|Hin]; [|by exists 0, []].
    destruct (Hfirst Hin) as (fd & rest & ? & ? & ?). by exists fd, rest. }
  destruct (worker_round_run logged w sel ready evs fd _ (e, []) Hc Hsel Hp0 Hpk Hfds Hev')
    as (w1 & evs1 & E2 & H1 & H2 & H3 & H4).
  rewrite E2 in E1. unfold mbind, prog_bind in E1.
  destruct (serve_all _ _ _ _) as [[kept|] [e1 log]] eqn:E3; [|discriminate E1]. injection E1 as <- <- <- <-.
  destruct (serve_all_kept _ _ _ _ _ _ _ E3) as (calls & -> & Hcalls & ->).
  destruct (H3 (remain (SctpServer.conn_fds w) calls)) as (Ep & H5 & Ef). cbn [app] in *.
  pose proof (watched_round i tr _ ready calls Hall Hcalls) as Hw.
  pose proof (remain_sublist (SctpServer.conn_fds w) calls) as Hrem. fold d k in Hw.
  unfold worker_inv. rewrite taken_snoc, dealt_snoc, app_nil_r, Ep, Ef, Hrep in *. fold d k.
  destruct (bool_decide_reflect (SctpServer.pipe_fd w ∈ ready)) as [Hin|Hin].
  - specialize (Ed Hin).
    assert (d !! k = Some fd) as Hlk by (rewrite <- (Nat.add_0_r k), <- lookup_drop, Ed; done).
    rewrite Hlk in Hw. rewrite Nat.add_1_r, (take_S_r _ _ _ Hlk), (drop_S _ _ _ Hlk) in *. injection Ed as <-.
    split; [by apply lookup_lt_Some in Hlk|]. split; [by split; [apply H1|]|].
    split; [apply sublist_app; [by etransitivity | done]|]. eauto 10.
  - subst evs1. rewrite Nat.add_0_r, app_nil_r in *. do 2 (split; [done|]). split; [by etransitivity|]. eauto 10.
Qed.

(** The moves of the others leave worker [i] alone. *)
Lemma worker_inv_other i j ready calls tr w evs :
  i <> j -> worker_inv i tr w evs -> worker_inv i (tr ++ [Round j ready calls]) w evs.
Proof.
  intros Hij (Hk & Hev & Hsub & Hall & Hrest). assert (reports i (Round j ready calls) = false) as Hr.
  { cbn. rewrite bool_decide_false by done. by destruct (SctpServer.pipe_fds s !! i) as [[? ?]|]. }
  unfold worker_inv. rewrite taken_snoc, dealt_snoc, app_nil_r, Hr, Nat.add_0_r.
  do 3 (split; [done|]). split; [by apply watched_other | done].
Qed.

(** A client is dealt: only the pipe of the worker whose turn it is changes. *)
Lemma worker_inv_accept i tr fd w evs pieces :
  worker_inv i tr w evs -> holds pieces (fd_frame fd) ->
  worker_inv i (tr ++ [Accepted fd]) w
    (if bool_decide (length (accepted tr) mod n = i)%nat then evs ++ pieces else evs).
Proof.
  intros (Hk & Hev & Hsub & Hall & Hrest) Hp.
  unfold worker_inv. rewrite taken_snoc, dealt_snoc. cbn [reports]. rewrite Nat.add_0_r.
  apply (watched_accept i _ _ fd) in Hall.
  destruct (bool_decide _); [|by rewrite app_nil_r].
  rewrite drop_app_le, take_app_le, length_app by done. split; [lia|].
  split; [|exact (conj Hsub (conj Hall Hrest))].
  rewrite map_app, concat_app. apply holds_app; [done|]. cbn [map concat]. by rewrite app_nil_r.
Qed.

Lemma create_workers_spec i pkts ws j :
  SctpServer.create_workers s i pkts = Ret ws -> 0 <= i ->
  length ws = length pkts /\
  forall w, ws !! j = Some w -> exists r wr pkt,
    SctpServer.pipe_fds s !! (Z.to_nat i + j)%nat = Some (r, wr) /\ pkts !! j = Some pkt /\
    w = SctpServer.mk_worker r [] r pkt.
Proof.
  revert i j ws. induction pkts as [|pkt pkts IH]; intros i j ws E Hi; cbn in E.
  { injection E as <-. split; [done|]. intros w Hw. by rewrite lookup_nil in Hw. }
  unfold SctpServer.worker_start in E. destruct (SctpServer.pipe_fds s !! Z.to_nat i) as [[r wr]|] eqn:Ep;
    [|discriminate E]. cbn [mbind result_bind] in E.
  destruct (SctpServer.create_workers s (i + 1) pkts) as [ws'|] eqn:E'; [|discriminate E].
  injection E as <-. split; [by cbn; rewrite (proj1 (IH _ 0%nat _ E' ltac:(lia)))|].
  intros w Hw. destruct j as [|j].
  - injection Hw as <-. rewrite Nat.add_0_r. by exists r, wr, pkt.
  - destruct (proj2 (IH _ j _ E' ltac:(lia)) w Hw) as (r' & wr' & q & H1 & H2 & H3).
    exists r', wr', q. split; [|done]. replace (Z.to_nat i + S j)%nat with (Z.to_nat (i + 1) + j)%nat by lia.
    done.
Qed.

Lemma inv_start pkt pkts ws e :
  length pkts = n -> Forall (fun q => length (Packet.data q) = Z.to_nat BUF_SIZE) (pkt :: pkts) ->
  SctpServer.create_workers s 0 pkts = Ret ws ->
  inv [] (mk_pool 0 pkt (replicate n []) ws e).
Proof.
  intros Hn Hp E. inversion Hp as [|? ? Hp1 Hp2]; subst.
  split; [|done | apply length_replicate | | constructor |]; cbn.
  - destruct n; [done | by rewrite Nat.mod_0_l].
  - by rewrite (proj1 (create_workers_spec 0 pkts ws 0 E ltac:(done))).
  - intros i w evs Hw [-> _]%lookup_replicate_1.
    destruct (proj2 (create_workers_spec 0 pkts ws i E ltac:(done)) w Hw) as (r & wr & q & H1 & H2 & ->).
    split; [done|]. split; [done|]. split; [constructor|]. split; [constructor|].
    split; [split; [cbn; lia | constructor]|]. split; [by exists wr|].
    exact (proj1 (Forall_lookup _ _) Hp2 _ _ H2).
Qed.

(** Whose turn it is, and the client goes to that worker. *)
Lemma accept_deals tr p fd ws wr sent turn' pkt' :
  inv tr p -> 0 <= fd -> Forall (fun w => 0 < w) ws -> 8 <= foldr Z.add 0 ws ->
  SctpServer.accept_step s (turn p) (acc_pkt p) fd ws = Ret (Some (wr, sent, turn', pkt')) ->
  sent = fd_frame fd /\ length (Packet.data pkt') = Z.to_nat BUF_SIZE /\
  turn' = Z.of_nat (S (length (accepted tr)) mod n) /\
  exists r, SctpServer.pipe_fds s !! (length (accepted tr) mod n)%nat = Some (r, wr).
Proof.
  intros I Hfd Hws Hsum E. pose proof (ok_workers OK) as Hn.
  assert (n <> 0%nat) as Hn0 by lia.
  pose proof (Nat.mod_upper_bound (length (accepted tr)) n Hn0) as Hlt.
  destruct (lookup_lt_is_Some_2 (SctpServer.pipe_fds s) (length (accepted tr) mod n)%nat) as [[r wr'] Hlk];
    [by rewrite (ok_pipes OK)|].
  pose proof (proj1 (Forall_lookup _ _) (ok_ends OK) _ _ Hlk) as [_ Hwr]. cbn in Hwr.
  destruct (accept_step_spec s (turn p) (acc_pkt p) fd ws r wr') as (q & Hq & E'); try done; [apply I | |].
  { by rewrite (i_turn _ _ I), Nat2Z.id. }
  rewrite E' in E. injection E as <- <- <- <-. do 2 (split; [done|]). split; [|by exists r].
  rewrite (i_turn _ _ I). replace (SctpServer.workers_count s) with (Z.of_nat n) by lia.
  rewrite <- (Nat2Z.inj_add _ 1), <- Nat2Z.inj_mod, Nat.add_1_r. f_equal.
  rewrite <- (Nat.add_1_r (_ mod n)), Nat.Div0.add_mod_idemp_l. by rewrite Nat.add_1_r.
Qed.

Lemma inv_step tr p m p' : inv tr p -> step p m p' -> inv (tr ++ [m]) p'.
Proof.
  intros I [fd ws i r wr sent turn' pkt' evs pieces Hfd Hws Hsum E Hp Hq Hh
           |i w evs sel ready w' evs' e' calls Hw Hq Hr E].
  - destruct (accept_deals tr p fd ws wr sent turn' pkt' I) as (-> & Hpk & -> & r' & Hlk); [lia | done..|].
    assert (i = length (accepted tr) mod n)%nat as ->.
    { apply (NoDup_lookup _ _ _ wr (ok_writes OK)); by rewrite list_lookup_fmap, ?Hp, ?Hlk. }
    set (i := (length (accepted tr) mod n)%nat) in *.
    split; cbn [turn acc_pkt queues workers]; rewrite ?accepted_snoc, ?length_app, ?length_insert.
    + by rewrite Nat.add_1_r.
    + done.
    + apply I.
    + apply I.
    + apply Forall_app. split; [apply I | by constructor; [|constructor]].
    + intros j w evs' Hw Hj. destruct (decide (i = j)) as [<-|Hij].
      * rewrite list_lookup_insert_eq in Hj by (by eapply lookup_lt_Some). injection Hj as <-.
        pose proof (worker_inv_accept i tr fd w evs pieces (i_each _ _ I _ _ _ Hw Hq) Hh) as H.
        by rewrite bool_decide_true in H.
      * rewrite list_lookup_insert_ne in Hj by done.
        pose proof (worker_inv_accept j tr fd w evs' pieces (i_each _ _ I _ _ _ Hw Hj) Hh) as H.
        by rewrite bool_decide_false in H.
  - split; cbn [turn acc_pkt queues workers]; rewrite ?accepted_snoc, ?app_nil_r, ?length_insert; try apply I.
    intros j w1 evs1 Hw1 Hq1. destruct (decide (i = j)) as [<-|Hij].
    + rewrite list_lookup_insert_eq in Hw1 by (by eapply lookup_lt_Some).
      rewrite list_lookup_insert_eq in Hq1 by (by eapply lookup_lt_Some).
      injection Hw1 as <-. injection Hq1 as <-.
      eapply worker_inv_round; [by eapply dealt_range | by apply I | exact Hr | exact E].
    + rewrite list_lookup_insert_ne in Hw1 by done. rewrite list_lookup_insert_ne in Hq1 by done.
      apply worker_inv_other; [done | by apply I].
Qed.

Lemma inv_runs tr p : runs tr p -> inv tr p.
Proof. induction 1; [eapply inv_start; eauto | eauto using inv_step]. Qed.

(** ** Progress *)

(** The descriptors of the clients: open at the same time as the pipes, and
    few enough for an [fd_set]. *)
Definition fds_ok (tr : list move) : Prop :=
  Forall (fun fd => fd < FD_SETSIZE /\ fd ∉ map fst (SctpServer.pipe_fds s)) (accepted tr).

Lemma serve_all_none r fds e : r ∉ fds -> serve_all logged [r] fds e = (Ret fds, e).
Proof.
  induction fds as [|fd fds IH]; [done|]. intros Hr. cbn [serve_all].
  rewrite bool_decide_false by set_solver. rewrite run_ret. unfold mbind, prog_bind.
  by rewrite IH by set_solver.
Qed.

(** A client that waits in the pipe of worker [i] can be taken out. *)
Lemma step_take tr p i w evs fd rest :
  runs tr p -> fds_ok tr -> workers p !! i = Some w -> queues p !! i = Some evs ->
  drop (taken i tr) (dealt i tr) = fd :: rest ->
  exists w' evs',
    step p (Round i [SctpServer.pipe_fd w] [])
      (mk_pool (turn p) (acc_pkt p) (<[i := evs']> (queues p)) (<[i := w']> (workers p)) (env p)) /\
    SctpServer.conn_fds w' = SctpServer.conn_fds w ++ [fd].
Proof.
  intros R Hok Hw Hq Hd. pose proof (inv_runs _ _ R) as I.
  destruct (i_each _ _ I _ _ _ Hw Hq) as (Hk & [Hdat Hev] & Hsub & _ & Hc & [wr Hp] & Hpk).
  rewrite Hd in Hev.
  destruct (proj1 (Forall_lookup _ _) (ok_ends OK) _ _ Hp) as [Hends _].
  assert (SctpServer.conn_fds w `sublist_of` accepted tr) as Hacc
    by (etransitivity; [exact Hsub|]; etransitivity; [apply sublist_take | apply dealt_to]).
  pose proof (sublist_Forall _ _ _ Hacc Hok) as Hfd1.
  pose proof (sublist_Forall _ _ _ Hacc (i_fds _ _ I)) as Hfd2.
  assert (0 <= fd < 2 ^ 31) as Hfd.
  { pose proof (dealt_range i _ _ I) as H. apply (sublist_Forall _ _ _ (sublist_drop _ (taken i tr))) in H.
    rewrite Hd in H. by inversion H. }
  destruct (worker_round_run logged w 1 [SctpServer.pipe_fd w] evs fd (concat (map fd_frame rest))
    (env p, []) Hc) as (w1 & evs1 & E1 & _ & _ & H3 & _);
    [done | apply Hends | done | | by intros _ | ].
  { constructor; [exact Hends|]. apply Forall_forall. intros x Hx.
    pose proof (proj1 (Forall_forall _ _) Hfd1 x Hx) as [? _].
    pose proof (proj1 (Forall_forall _ _) Hfd2 x Hx) as ?. cbn in *. lia. }
  assert (SctpServer.pipe_fd w ∉ SctpServer.conn_fds w) as Hno.
  { intros Hin. apply (proj1 (Forall_forall _ _) Hfd1) in Hin as [_ Hin]. apply Hin.
    apply list_elem_of_lookup. exists i. by rewrite list_lookup_fmap, Hp. }
  rewrite (run_bind _ _ _ _ _ (serve_all_none _ _ (env p, []) Hno)) in E1.
  rewrite bool_decide_true in H3 by by left.
  destruct (H3 (SctpServer.conn_fds w)) as (_ & _ & Hcf).
  exists (w1 (SctpServer.conn_fds w)), evs1. split; [|exact Hcf].
  eapply step_round; [exact Hw | exact Hq | | exact E1]. intros _ ->. discriminate Hev.
Qed.

(** The next client can be accepted. *)
Lemma step_deal tr p fd :
  runs tr p -> 0 <= fd < 2 ^ 31 -> exists p', step p (Accepted fd) p'.
Proof.
  intros R Hfd. pose proof (inv_runs _ _ R) as I. pose proof (ok_workers OK) as Hn.
  pose proof (Nat.mod_upper_bound (length (accepted tr)) n ltac:(lia)) as Hlt.
  set (i := (length (accepted tr) mod n)%nat) in *.
  destruct (lookup_lt_is_Some_2 (SctpServer.pipe_fds s) i) as [[r wr] Hlk]; [by rewrite (ok_pipes OK)|].
  destruct (lookup_lt_is_Some_2 (queues p) i) as [evs Hq]; [by rewrite (i_queues _ _ I)|].
  pose proof (proj1 (Forall_lookup _ _) (ok_ends OK) _ _ Hlk) as [_ Hwr]. cbn in Hwr.
  destruct (accept_step_spec s (turn p) (acc_pkt p) fd [8] r wr) as (q & _ & E); try done; [apply I | lia | | by repeat constructor |].
  { by rewrite (i_turn _ _ I), Nat2Z.id. }
  eexists. eapply (step_accept p fd [8] i r wr (fd_frame fd) _ _ evs (Network.requeue (fd_frame fd) []));
    [done | by repeat constructor | done | exact E | exact Hlk | exact Hq |].
  rewrite <- (app_nil_r (fd_frame fd)) at 2. apply holds_requeue. by split.
Qed.

Lemma fds_ok_snoc tr i ready calls : fds_ok tr -> fds_ok (tr ++ [Round i ready calls]).
Proof. unfold fds_ok. by rewrite accepted_snoc, app_nil_r. Qed.

(** The pipe of worker [i] is emptied. *)
Lemma drain_worker l : forall tr p i w evs,
  runs tr p -> fds_ok tr -> workers p !! i = Some w -> queues p !! i = Some evs ->
  drop (taken i tr) (dealt i tr) = l ->
  exists tr' w',
    runs (tr ++ tr') (mk_pool (turn p) (acc_pkt p) (<[i := []]> (queues p)) (<[i := w']> (workers p)) (env p)) /\
    fds_ok (tr ++ tr') /\ length tr' = length l /\ Forall (fun m => exists ready, m = Round i ready []) tr' /\
    SctpServer.conn_fds w' = SctpServer.conn_fds w ++ l.
Proof.
  induction l as [|fd l IH]; intros tr p i w evs R Hok Hw Hq Hd; pose proof (inv_runs _ _ R) as I.
  - exists [], w. rewrite !app_nil_r.
    destruct (i_each _ _ I _ _ _ Hw Hq) as (_ & Hh & _). rewrite Hd in Hh. apply holds_nil in Hh as ->.
    rewrite !list_insert_id by done. by destruct p.
  - destruct (step_take tr p i w evs fd l R Hok Hw Hq Hd) as (w1 & evs1 & S1 & Hc1).
    set (m := Round i [SctpServer.pipe_fd w] []) in *. pose proof (runs_step _ _ _ _ R S1) as R1.
    destruct (i_each _ _ I _ _ _ Hw Hq) as (_ & _ & _ & _ & _ & [wr Hp] & _).
    destruct (IH _ _ i w1 evs1 R1 (fds_ok_snoc _ _ _ _ Hok)) as (tr' & w' & R' & Hok' & Hlen & Hall & Hc').
    + apply list_lookup_insert_eq. by eapply lookup_lt_Some.
    + apply list_lookup_insert_eq. by eapply lookup_lt_Some.
    + rewrite taken_snoc, dealt_snoc, app_nil_r. cbn [reports m]. rewrite Hp.
      rewrite !bool_decide_true by (done || by left). cbn [andb].
      by rewrite <- drop_drop, Hd.
    + cbn [turn acc_pkt queues workers env] in R'. rewrite !list_insert_insert_eq in R'.
      rewrite <- app_assoc in R', Hok'. exists (m :: tr'), w'. split; [exact R'|]. split; [exact Hok'|].
      split; [cbn; by rewrite Hlen|]. split; [constructor; [by eexists | done]|].
      by rewrite Hc', Hc1, <- app_assoc.
Qed.

(** Rounds of other workers are none of worker [i]'s business. *)
Definition rounds_below (k : nat) (tr : list move) : Prop :=
  Forall (fun m => exists j ready, m = Round j ready [] /\ (j < k)%nat) tr.

Lemma rounds_below_app k tr1 tr2 : rounds_below k tr1 -> rounds_below k tr2 -> rounds_below k (tr1 ++ tr2).
Proof. intros. by apply Forall_app. Qed.

Lemma rounds_below_accepted k tr : rounds_below k tr -> accepted tr = [].
Proof. induction 1 as [|m tr (j & ready & -> & _) _ IH]; [done | exact IH]. Qed.

Lemma rounds_below_dealt k i tr tr' : rounds_below k tr' -> dealt i (tr ++ tr') = dealt i tr.
Proof.
  intros H. unfold dealt, accepted. rewrite omap_app. fold (accepted tr').
  by rewrite (rounds_below_accepted _ _ H), app_nil_r.
Qed.

Lemma rounds_below_taken k i tr tr' :
  (k <= i)%nat -> rounds_below k tr' -> taken i (tr ++ tr') = taken i tr.
Proof.
  intros Hi H. rewrite taken_app. replace (taken i tr') with 0%nat; [lia|].
  induction H as [|m tr' (j & ready & -> & Hj) _ IH]; [done|]. cbn [taken reports].
  rewrite <- IH, bool_decide_false by lia. by destruct (SctpServer.pipe_fds s !! i) as [[? ?]|].
Qed.

(** The pipes of the first [k] workers are emptied. *)
Lemma drain_first tr p k :
  runs tr p -> fds_ok tr -> (k <= n)%nat ->
  exists tr' p', runs (tr ++ tr') p' /\ fds_ok (tr ++ tr') /\ rounds_below k tr' /\ env p' = env p /\
    forall i, if bool_decide (i < k)%nat
      then queues p' !! i = Some [] /\
           forall w, workers p !! i = Some w -> exists w', workers p' !! i = Some w' /\
             SctpServer.conn_fds w' = SctpServer.conn_fds w ++ drop (taken i tr) (dealt i tr)
      else queues p' !! i = queues p !! i /\ workers p' !! i = workers p !! i.
Proof.
  intros R Hok. induction k as [|k IH]; intros Hk.
  { exists [], p. rewrite app_nil_r. do 2 (split; [done|]). split; [constructor|]. split; [done|].
    intros i. by rewrite bool_decide_false by lia. }
  destruct IH as (tr1 & p1 & R1 & Hok1 & Hb1 & He1 & H1); [lia|].
  pose proof (inv_runs _ _ R1) as I1.
  destruct (lookup_lt_is_Some_2 (workers p1) k) as [w Hw]; [rewrite (i_workers _ _ I1); lia|].
  destruct (lookup_lt_is_Some_2 (queues p1) k) as [evs Hq]; [rewrite (i_queues _ _ I1); lia|].
  destruct (drain_worker _ _ _ k w evs R1 Hok1 Hw Hq eq_refl) as (tr2 & w2 & R2 & Hok2 & _ & Hall & Hc2).
  rewrite (rounds_below_taken k), (rounds_below_dealt k) in Hc2 by done.
  rewrite <- app_assoc in R2, Hok2. eexists (tr1 ++ tr2), _. split; [exact R2|]. split; [exact Hok2|].
  split; [|split; [exact He1|]].
  - apply rounds_below_app.
    + eapply Forall_impl; [exact Hb1|]. intros m (j & r & -> & Hj). exists j, r. split; [done | lia].
    + eapply Forall_impl; [exact Hall|]. intros m [r ->]. exists k, r. split; [done | lia].
  - intros i. cbn [queues workers]. specialize (H1 i). destruct (decide (i = k)) as [->|Hik].
    + rewrite bool_decide_false in H1 by lia. rewrite bool_decide_true by lia. destruct H1 as [H1 H2].
      split; [apply list_lookup_insert_eq; by eapply lookup_lt_Some|]. intros w0 Hw0.
      exists w2. split; [apply list_lookup_insert_eq; by eapply lookup_lt_Some|].
      rewrite Hc2. congruence.
    + rewrite !list_lookup_insert_ne by done.
      rewrite (bool_decide_ext (i < S k)%nat (i < k)%nat) by lia. exact H1.
Qed.

(** ** Properties *)

(** C24: whatever the order in which the accepting thread and the workers get
    to run, however the bytes of the pipes are cut, and whatever the handlers
    do: no client is lost, duplicated or given to another worker.  Of the
    clients dealt to worker [i] (every [n]-th one accepted), the first ones,
    as many as it has answered reports of its pipe, came into its hands in
    order, and exactly the others are in its pipe.  It watches, all of them
    within the bound of its [select], exactly those of the clients it took
    whose handler has not ended them ([watched]): in each round the handler
    ran once for each of them that was reported, in order, and exactly those
    for which it returned 0 are gone. *)
Theorem pool_keeps_clients tr p i w evs :
  runs tr p -> workers p !! i = Some w -> queues p !! i = Some evs ->
  let d := dealt i tr in let k := taken i tr in
  (k <= length d)%nat /\ holds evs (concat (map fd_frame (drop k d))) /\
  SctpServer.conn_fds w `sublist_of` take k d /\
  watched i tr (SctpServer.conn_fds w) /\ covers w.
Proof. intros R Hw Hq d k. destruct (i_each _ _ (inv_runs _ _ R) _ _ _ Hw Hq) as (H1 & H2 & H3 & H4 & H5 & _). done. Qed.

(** C25: every client comes into the hands of its worker.  As long as the
    descriptors of the clients fit an [fd_set] (each below [FD_SETSIZE],
    which is 1,024) and none of them is the read end of one of the pipes,
    which are open: from any state the server can reach there are further
    turns of the workers, and of nobody else, that end with all the pipes
    empty and every client that was waiting among the connections its worker
    watches; no handler had to run. *)
Theorem pool_drains tr p :
  runs tr p -> fds_ok tr ->
  exists tr' p', runs (tr ++ tr') p' /\ accepted tr' = [] /\ env p' = env p /\
    forall i w, workers p !! i = Some w -> exists w',
      workers p' !! i = Some w' /\ queues p' !! i = Some [] /\
      SctpServer.conn_fds w' = SctpServer.conn_fds w ++ drop (taken i tr) (dealt i tr).
Proof.
  intros R Hok. destruct (drain_first tr p n R Hok ltac:(lia)) as (tr' & p' & R' & _ & Hb & He & H).
  exists tr', p'. split; [done|]. split; [by eapply rounds_below_accepted|]. split; [done|].
  intros i w Hw. specialize (H i). rewrite bool_decide_true in H.
  - destruct H as [H1 H2]. destruct (H2 w Hw) as (w' & ? & ?). by exists w'.
  - rewrite <- (i_workers _ _ (inv_runs _ _ R)). by eapply lookup_lt_Some.
Qed.
End Pool.

(** *** Witnesses: two workers, three clients *)

Definition keep (fd : Z) : prog (list Z) Z := fun log => (Ret 1, log ++ [fd]).

Lemma demo_server_ok : server_ok demo_server.
Proof.
  split; [done | done | |].
  - apply NoDup_cons. split; [by intros ?%list_elem_of_singleton | apply NoDup_singleton].
  - repeat constructor; done.
Qed.

Definition demo_moves : list move := [Accepted 8; Accepted 9; Accepted 10; Round 0 [4] []].

Lemma demo_fds_ok : fds_ok demo_server demo_moves.
Proof.
  repeat (constructor; [split; [done | rewrite list_elem_of_In; cbn; lia]|]). constructor.
Qed.

(** The three clients, and the first worker takes one. *)
Lemma demo_runs : exists p, runs keep demo_server demo_moves p.
Proof.
  pose proof demo_server_ok as OK. set (pkt := rd zero_hdrs [] []).
  pose proof (runs_start keep demo_server pkt [pkt; pkt]
    [SctpServer.mk_worker 4 [] 4 pkt; SctpServer.mk_worker 6 [] 6 pkt] []
    ltac:(reflexivity) ltac:(by repeat constructor) ltac:(reflexivity)) as R.
  destruct (step_deal keep demo_server OK _ _ 8 R ltac:(lia)) as [p1 S1]. eapply runs_step in S1 as R1; [|exact R].
  destruct (step_deal keep demo_server OK _ _ 9 R1 ltac:(lia)) as [p2 S2]. eapply runs_step in S2 as R2; [|exact R1].
  destruct (step_deal keep demo_server OK _ _ 10 R2 ltac:(lia)) as [p3 S3]. eapply runs_step in S3 as R3; [|exact R2].
  pose proof (inv_runs _ _ OK _ _ R3) as I.
  destruct (lookup_lt_is_Some_2 (workers p3) 0%nat) as [w Hw]; [rewrite (i_workers _ _ _ I); cbn; lia|].
  destruct (lookup_lt_is_Some_2 (queues p3) 0%nat) as [evs Hq]; [rewrite (i_queues _ _ _ I); cbn; lia|].
  destruct (i_each _ _ _ I _ _ _ Hw Hq) as (_ & _ & _ & _ & _ & [wr Hp] & _). injection Hp as Hp _.
  destruct (step_take keep demo_server OK _ _ 0 w evs 8 [10] R3) as (w' & evs' & S4 & _);
    [exact demo_fds_ok | exact Hw | exact Hq | reflexivity |].
  rewrite <- Hp in S4. eexists. exact (runs_step _ _ _ _ _ _ R3 S4).
Qed.

Lemma pool_keeps_clients_witness :
  exists p w evs, runs keep demo_server demo_moves p /\ workers p !! 0%nat = Some w /\
    queues p !! 0%nat = Some evs /\ SctpServer.conn_fds w = [8] /\ holds evs (fd_frame 10).
Proof.
  destruct demo_runs as (p & R). pose proof (inv_runs _ _ demo_server_ok _ _ R) as I.
  destruct (lookup_lt_is_Some_2 (workers p) 0%nat) as [w Hw]; [rewrite (i_workers _ _ _ I); cbn; lia|].
  destruct (lookup_lt_is_Some_2 (queues p) 0%nat) as [evs Hq]; [rewrite (i_queues _ _ _ I); cbn; lia|].
  destruct (pool_keeps_clients keep demo_server demo_server_ok demo_moves p 0%nat w evs R Hw Hq)
    as (_ & Hh & _ & Hall & _).
  exists p, w, evs. do 3 (split; [done|]). split; [|exact Hh].
  apply (watched_snoc demo_server 0 [Accepted 8; Accepted 9; Accepted 10]) in Hall as (l3 & H3 & _ & ->).
  apply (watched_snoc demo_server 0 [Accepted 8; Accepted 9]) in H3 as (l2 & H2 & ->).
  apply (watched_snoc demo_server 0 [Accepted 8]) in H2 as (l1 & H1 & ->).
  apply (watched_snoc demo_server 0 []) in H1 as (l0 & ->%watched_nil & ->). reflexivity.
Defined.

Lemma pool_drains_witness :
  exists p tr' p' w w', runs keep demo_server demo_moves p /\ runs keep demo_server (demo_moves ++ tr') p' /\
    workers p !! 0%nat = Some w /\ workers p' !! 0%nat = Some w' /\
    SctpServer.conn_fds w' = SctpServer.conn_fds w ++ [10] /\ queues p' !! 0%nat = Some [].
Proof.
  destruct demo_runs as (p & R). pose proof (inv_runs _ _ demo_server_ok _ _ R) as I.
  destruct (lookup_lt_is_Some_2 (workers p) 0%nat) as [w Hw]; [rewrite (i_workers _ _ _ I); cbn; lia|].
  destruct (pool_drains keep demo_server demo_server_ok demo_moves p R) as (tr' & p' & R' & _ & _ & H).
  - apply demo_fds_ok.
  - destruct (H 0%nat w Hw) as (w' & Hw' & Hq' & Hc). exists p, tr', p', w, w'. done.
Defined.
