(* ===== verification/PacketTypes.v ===== *)
(** * What the packet methods give back, whatever the packet holds

    Unlike the round trips of Packet.v nothing is assumed of the content:
    the packet came from the network.  [held L c p]: the heap block of [p]
    has its size and holds bytes, the cursor stands at [c], and the length and the
    S1AP header are as [L] says; [at_cursor c p]: the length is one a datagram
    can have.  [opened n] and [sized n]: packets that are built, with at most
    [n] bytes so far; [block_of d]: the block after a datagram was received. *)

From Stdlib Require Import ZArith Lia.
From S2P Require Import Prelude Utils Headers Packet Network Transport.

Record held (L : Z -> S1ap.t -> Prop) (c : Z) (p : Packet.t) : Prop := mk_held {
  ac_data : length (Packet.data p) = Z.to_nat BUF_SIZE;
  ac_bytes : bytes (Packet.data p);
  ac_ptr : Packet.data_ptr p = c;
  ac_rest : L (Packet.plen p) (Packet.s1ap_hdr p)
}.
Definition in_block (n : Z) (_ : S1ap.t) : Prop := 0 <= n <= BUF_SIZE.
Notation at_cursor := (held in_block).

Lemma held_mono (L L' : Z -> S1ap.t -> Prop) c p : (forall n s, L n s -> L' n s) -> held L c p -> held L' c p.
Proof. intros H [? ? ? Hn]. split; auto. Qed.

Lemma at_cursor_rd h pre post :
  fits pre post -> bytes pre -> bytes post -> at_cursor (len pre) (rd h pre post).
Proof.
  intros Hf H1 H2. destruct (wf_rd h pre post Hf H1 H2) as (Hl & Hb & _).
  split; [done | done | done |]. unfold fits, in_block in *. cbn [Packet.plen rd rdl]. len_lia.
Qed.

(** What a byte is as a [bool]. *)
Lemma bool_of_cases v :
  Packet.bool_of v = Ret false /\ v = 0 \/ Packet.bool_of v = Ret true /\ v = 1 \/
  Packet.bool_of v = Fault Packet.bad_bool /\ v <> 0 /\ v <> 1.
Proof. destruct v as [|[|[]|]|]; cbn; auto 10; right; right; (split; [done | lia]). Qed.

Section Methods.
Context (F : fault -> Prop) (L : Z -> S1ap.t -> Prop).

Lemma copy_held c p : (forall n s, L n s -> in_block n s) -> held L c p -> satisfies F (held L c) (Packet.copy p).
Proof.
  intros HL [Hl Hb Hc Hn]. pose proof (HL _ _ Hn) as Hin. unfold in_block in Hin. unfold Packet.copy. rewrite allocate_buf. res. unfold memmove, mem_read.
  rewrite (proj2 (in_bounds_spec _ _ _)) by (unfold len, BUF_SIZE in *; lia). res.
  set (bs := take _ _). assert (bytes bs) as Hbs by by apply Forall_take.
  assert (len bs <= BUF_SIZE) as Hlen by (unfold len, bs; rewrite length_take; unfold BUF_SIZE in *; lia).
  rewrite mem_write_zbuf by done. split; cbn [Packet.data Packet.data_ptr Packet.plen]; [|..].
  - by apply length_pad.
  - apply bytes_app. split; [done|]. apply Forall_replicate. split; lia.
  - done.
  - done.
Qed.

Lemma extract_raw_typed c n p :
  held L c p -> 0 <= c -> 0 <= n -> c + n <= BUF_SIZE ->
  satisfies F (fun x => (bytes x.1 /\ length x.1 = Z.to_nat n) /\ held L (c + n) x.2) (Packet.extract_raw p n).
Proof.
  intros [Hl Hb Hc Hn] H1 H2 H3. unfold Packet.extract_raw, mem_read.
  rewrite (proj2 (in_bounds_spec _ _ _)) by (unfold len, BUF_SIZE in *; lia). cbn.
  split; [split|split; cbn; try done; lia].
  - by apply Forall_take, Forall_drop.
  - rewrite length_take, length_drop. unfold BUF_SIZE in *. lia.
Qed.

(** The fixed-size overloads. *)
Lemma extract_typed {A} (Q : A -> Prop) n (f : list Z -> A) c p :
  (forall bs, bytes bs -> length bs = Z.to_nat n -> Q (f bs)) ->
  held L c p -> 0 <= c -> 0 <= n -> c + n <= BUF_SIZE ->
  satisfies F (fun x => Q x.1 /\ held L (c + n) x.2) ('(bs, p) ← Packet.extract_raw p n; mret (f bs, p)).
Proof.
  intros Hf Hp H1 H2 H3. eapply satisfies_bind; [by apply extract_raw_typed|].
  intros [bs q] [[Hb Hl] Hq]. by split; [apply Hf|].
Qed.

Lemma extract_bool_typed c p :
  F Packet.bad_bool -> held L c p -> 0 <= c -> c + 1 <= BUF_SIZE ->
  satisfies F (fun x => True /\ held L (c + 1) x.2) (Packet.extract_item_bool p).
Proof.
  intros HB ? ? ?. eapply satisfies_bind; [by apply (extract_raw_typed c 1)|]. intros [bs q] [_ Hq].
  destruct (bool_of_cases (le_val bs)) as [[-> _]|[[-> _]|[-> _]]]; [done | done | exact HB].
Qed.

Lemma extract_uint8_typed c p :
  held L c p -> 0 <= c -> c + 1 <= BUF_SIZE ->
  satisfies F (fun x => is_u8 x.1 /\ held L (c + 1) x.2) (Packet.extract_item_uint8 p).
Proof.
  intros. apply (extract_typed is_u8); try done.
  intros bs Hb Hl. pose proof (le_val_range bs Hb) as H'. by rewrite Hl in H'.
Qed.

Lemma extract_uint32_typed c p :
  held L c p -> 0 <= c -> c + 4 <= BUF_SIZE ->
  satisfies F (fun x => is_u32 x.1 /\ held L (c + 4) x.2) (Packet.extract_item_uint32 p).
Proof.
  intros. apply (extract_typed is_u32); try done.
  intros bs Hb Hl. pose proof (le_val_range bs Hb) as H'. by rewrite Hl in H'.
Qed.

Lemma extract_uint64_typed c p :
  held L c p -> 0 <= c -> c + 8 <= BUF_SIZE ->
  satisfies F (fun x => is_u64 x.1 /\ held L (c + 8) x.2) (Packet.extract_item_uint64 p).
Proof.
  intros. apply (extract_typed is_u64); try done.
  intros bs Hb Hl. pose proof (le_val_range bs Hb) as H'. by rewrite Hl in H'.
Qed.

Lemma extract_int_typed c p :
  held L c p -> 0 <= c -> c + 4 <= BUF_SIZE ->
  satisfies F (fun x => is_s32 x.1 /\ held L (c + 4) x.2) (Packet.extract_item_int p).
Proof.
  intros. apply (extract_typed is_s32 4 (fun bs => s32 (le_val bs))); try done.
  intros bs _ _. apply s32_range.
Qed.

Lemma extract_uint16_typed c p :
  held L c p -> 0 <= c -> c + 2 <= BUF_SIZE ->
  satisfies F (fun x => is_u16 x.1 /\ held L (c + 2) x.2) (Packet.extract_item_uint16 p).
Proof.
  intros. apply (extract_typed is_u16); try done.
  intros bs Hb Hl. pose proof (le_val_range bs Hb) as H'. by rewrite Hl in H'.
Qed.

Lemma extract_diameter_typed c p :
  held L c p -> 0 <= c -> c + 4 <= BUF_SIZE ->
  satisfies F (held L (c + 4)) (Packet.extract_diameter_hdr p).
Proof.
  intros Hp H1 H2. unfold Packet.extract_diameter_hdr. eapply satisfies_bind; [by apply (extract_raw_typed c 4)|].
  intros [bs q] [_ [Hl Hb Hc Hn]]. by split.
Qed.

Lemma extract_gtp_typed c p :
  held L c p -> 0 <= c -> c + 16 <= BUF_SIZE ->
  satisfies F (held L (c + 16)) (Packet.extract_gtp_hdr p).
Proof.
  intros Hp H1 H2. unfold Packet.extract_gtp_hdr. eapply satisfies_bind; [by apply (extract_raw_typed c 16)|].
  intros [bs q] [_ [Hl Hb Hc Hn]]. by split.
Qed.

Lemma gtp_typed g c p : held L c p -> held L c (p <| Packet.gtp_hdr := g |>).
Proof. intros [Hl Hb Hc Hn]. by split. Qed.
End Methods.

Lemma copy_typed F c p : at_cursor c p -> satisfies F (at_cursor c) (Packet.copy p).
Proof. by apply copy_held. Qed.

(** Wherever the cursor is: what an access inside the block gives. *)
Lemma extract_raw_anywhere L c n p :
  held L c p -> 0 <= c ->
  satisfies (fun _ => True)
    (fun x => 0 <= n /\ (bytes x.1 /\ length x.1 = Z.to_nat n) /\ held L (c + n) x.2) (Packet.extract_raw p n).
Proof.
  intros Hp Hc. destruct (decide (0 <= n /\ c + n <= BUF_SIZE)) as [[H1 H2]|H].
  - eapply satisfies_mono; [by apply (extract_raw_typed (fun _ => True) L c n) | done | done].
  - destruct (Packet.extract_raw p n) as [[bs q]|] eqn:E; [|done]. exfalso. apply H.
    unfold Packet.extract_raw in E. inv_res. destruct Hp as [Hl _ Hd _].
    match goal with E : mem_read _ _ _ = Ret _ |- _ => apply mem_read_ok in E as (? & ? & Hb & _) end.
    unfold len in Hb. rewrite Hl in Hb. unfold BUF_SIZE in *. lia.
Qed.

(** A string's announced length decides where the cursor ends up, if the
    access is defined at all. *)
Lemma extract_string_typed L c p :
  held L c p -> 0 <= c ->
  satisfies (fun _ => True) (fun x => exists c', 0 <= c' /\ held L c' x.2) (Packet.extract_item_string p).
Proof.
  intros Hp H. unfold Packet.extract_item_string, Packet.extract_item_int.
  eapply (satisfies_bind _ (fun x => held L (c + 4) x.2)).
  { eapply satisfies_bind; [by apply extract_raw_anywhere|]. by intros [bs q] (_ & _ & Hq). }
  intros [n q] Hq. destruct (_ =? _); [done|]. destruct (Utils.allocate_str_mem _ _); [|done]. res.
  unfold Packet.extract_item_bytes.
  eapply (satisfies_bind _ (fun x => exists c', 0 <= c' /\ held L c' x.2)).
  - eapply satisfies_bind; [by eapply (extract_raw_anywhere _ (c + 4)); [|lia]|].
    intros [bs q'] (? & _ & Hq'). destruct (_ <? _); [done|]. exists (c + 4 + n). split; [lia | done].
  - intros [bs q'] Hq'. by destruct (mem_write _ _ _).
Qed.

Lemma extract_uint32_anywhere L c p :
  held L c p -> 0 <= c ->
  satisfies (fun _ => True) (fun x => is_u32 x.1 /\ held L (c + 4) x.2) (Packet.extract_item_uint32 p).
Proof.
  intros Hp H. eapply satisfies_bind; [by apply (extract_raw_anywhere L c 4)|].
  intros [bs q] (_ & [Hb Hl] & Hq). cbn [fst snd] in *. split; [|done].
  pose proof (le_val_range bs Hb) as H'. by rewrite Hl in H'.
Qed.

Lemma extract_int_anywhere L c p :
  held L c p -> 0 <= c ->
  satisfies (fun _ => True) (fun x => is_s32 x.1 /\ held L (c + 4) x.2) (Packet.extract_item_int p).
Proof.
  intros Hp H. eapply satisfies_bind; [by apply (extract_raw_anywhere L c 4)|].
  intros [bs q] (_ & _ & Hq). split; [apply s32_range | done].
Qed.

(** Methods that move the content may run out of the block; otherwise the
    packet is still one that can be sent. *)
Lemma truncate_anywhere c p :
  at_cursor c p -> 0 <= c -> satisfies (fun _ => True) (at_cursor 0) (Packet.truncate p).
Proof.
  intros [Hl Hb Hc Hn] H. destruct (Packet.truncate p) as [q|] eqn:E; [|done].
  unfold Packet.truncate in E. rewrite allocate_buf in E. res. inv_res. subst.
  match goal with E : memmove _ _ _ _ _ = Ret _ |- _ => apply memmove_ok in E as (_ & Hn' & E1 & E2) end.
  cbn. split; cbn; [by rewrite E1 | auto using bytes_zbuf | done | unfold in_block in *; lia].
Qed.

Lemma prepend_raw_anywhere c p bs :
  at_cursor c p -> 0 <= c -> bytes bs ->
  satisfies (fun _ => True) (at_cursor (c + len bs)) (Packet.prepend_raw p bs).
Proof.
  destruct p as [g s1 d buf ptr pl]. intros [Hl Hb Hc Hn] H Hbs.
  cbn [Packet.data Packet.data_ptr Packet.plen] in *.
  unfold Packet.prepend_raw. pk. rewrite allocate_buf. pk. unfold memmove.
  destruct (mem_write zbuf 0 bs) as [tem|] eqn:E1; [|done]. pk.
  destruct (mem_read buf 0 pl) as [old|] eqn:E2; [|done]. pk.
  destruct (mem_write tem (len bs) old) as [tem'|] eqn:E3; [|done]. pk.
  apply mem_write_ok in E1 as (_ & _ & L1 & B1). apply mem_read_ok in E2 as (_ & _ & _ & L2 & B2).
  apply mem_write_ok in E3 as (_ & Hle & L3 & B3).
  split; cbn [Packet.data Packet.data_ptr Packet.plen].
  - by rewrite L3, L1, length_zbuf.
  - auto using bytes_zbuf.
  - lia.
  - unfold len in Hle at 3. rewrite L1, length_zbuf in Hle. pose proof (len_nonneg bs). unfold in_block, BUF_SIZE in *. lia.
Qed.

Lemma prepend_gtp_anywhere c p pr ty ml te :
  at_cursor c p -> 0 <= c ->
  satisfies (fun _ => True) (at_cursor (c + 16)) (Packet.prepend_gtp_hdr p pr ty ml te).
Proof.
  intros Hp H. unfold Packet.prepend_gtp_hdr. destruct (Gtp.init _ _ _ _ _) as [g|]; [|done]. res.
  apply (prepend_raw_anywhere c); [by apply gtp_typed | done | apply bytes_gtp].
Qed.

(** *** Packets on their way out *)

(** Behind the cursor there is nothing, or at most [n] bytes in all. *)
Definition opened (n : Z) (p : Packet.t) : Prop := exists h pre, p = rd h pre [] /\ len pre <= n.
Definition sized (n : Z) (p : Packet.t) : Prop := exists h pre post, p = rd h pre post /\ len pre + len post <= n.

Section Out.
Context (F : fault -> Prop).

Lemma clear_typed p : length (Packet.data p) = Z.to_nat BUF_SIZE -> satisfies F (opened 0) (Packet.clear_pkt p).
Proof. intros H. rewrite clear_pkt_rd by done. by eexists _, []. Qed.

Lemma append_typed n its p :
  opened n p -> n + len (enc_items its) <= BUF_SIZE ->
  satisfies F (opened (n + len (enc_items its))) (Packet.append_items p its).
Proof.
  intros (h & pre & -> & Hn) Hl. rewrite append_items_rd by (unfold fits; lia).
  eexists _, _. split; [reflexivity|]. rewrite len_app. lia.
Qed.

Lemma opened_sized n p : opened n p -> sized n p.
Proof. intros (h & pre & -> & H). exists h, pre, []. split; [done|]. rewrite len_nil. lia. Qed.

Lemma sized_block n p : sized n p -> n <= BUF_SIZE -> length (Packet.data p) = Z.to_nat BUF_SIZE.
Proof. intros (h & pre & post & -> & Hn) Hl. apply length_pad. rewrite len_app. lia. Qed.

Lemma gtp_out_typed n p ty ml te :
  opened n p -> 16 + n <= BUF_SIZE -> satisfies F (sized (16 + n)) (Packet.prepend_gtp_hdr p 2 ty ml te).
Proof.
  intros (h & pre & -> & Hn) Hl. erewrite prepend_gtp_hdr_rd; [|reflexivity | rewrite len_nil; lia].
  eexists _, _, _. split; [reflexivity|]. rewrite len_app, len_gtp, len_nil. lia.
Qed.

Lemma framed_typed n p : sized n p -> 4 + n <= BUF_SIZE -> satisfies F (fun _ => True) (framed_bytes_of p).
Proof. intros (h & pre & post & -> & Hn) Hl. by rewrite framed_bytes_rd by lia. Qed.
Lemma dgram_typed n p : sized n p -> n <= BUF_SIZE -> satisfies F (fun _ => True) (bytes_of p).
Proof. intros (h & pre & post & -> & Hn) Hl. by rewrite bytes_rd by (unfold fits; lia). Qed.
End Out.

Lemma len_vec v : len (concat (map (le_bytes 8) v)) = 8 * len v.
Proof.
  unfold len. induction v as [|x v IH]; [done|]. cbn [map concat]. rewrite length_app, length_le_bytes. cbn [length]. lia.
Qed.

(** *** Datagrams that come in *)

Definition bytes_in (d : UdpClient.datagram) : Prop :=
  match d with UdpClient.Got _ bs => bytes bs | UdpClient.Timeout => True end.

(** The cleared block after the [recvfrom]. *)
Definition block_of (d : UdpClient.datagram) : list Z :=
  match d with UdpClient.Got _ bs => pad (take (Z.to_nat BUF_SIZE) bs) | UdpClient.Timeout => zbuf end.

Lemma block_of_ok d : bytes_in d -> bytes (block_of d) /\ length (block_of d) = Z.to_nat BUF_SIZE.
Proof.
  destruct d as [from bs|]; intros Hb; cbn [block_of]; [|by split; [apply Forall_replicate|]].
  split; [|apply length_pad; unfold len; rewrite length_take; unfold BUF_SIZE; lia].
  apply bytes_app. split; [by apply Forall_take | apply Forall_replicate; by split].
Qed.

Lemma recvfrom_typed F addr d : satisfies F (fun x => x.1.2 = block_of d) (UdpClient.recvfrom zbuf addr d).
Proof.
  destruct d as [from bs|]; [|done]. unfold UdpClient.recvfrom.
  by rewrite mem_write_zbuf by (unfold len; rewrite length_take; unfold BUF_SIZE; lia).
Qed.

(** *** A string whose announced length is in the block *)

Lemma extract_string_bounded F L c p n :
  (forall msg, F (Exit msg)) -> held L c p -> 0 <= c -> c + 4 <= BUF_SIZE ->
  n = s32 (le_val (take 4 (drop (Z.to_nat c) (Packet.data p)))) -> c + 4 + n <= BUF_SIZE ->
  satisfies F (fun x => 0 <= n /\ held L (c + 4 + n) x.2) (Packet.extract_item_string p).
Proof.
  intros HF Hp H1 H2 Hn H3. unfold Packet.extract_item_string, Packet.extract_item_int.
  eapply (satisfies_bind _ (fun x => x.1 = n /\ held L (c + 4) x.2)).
  - pose proof (extract_raw_typed F L c 4 p Hp H1 ltac:(lia) H2) as H. unfold Packet.extract_raw in *.
    destruct Hp as [Hl Hb Hc _]. unfold mem_read in *. destruct (in_bounds _ _ _); [|exact H]. res.
    destruct H as [_ H]. split; [|exact H]. cbn [fst]. rewrite Hn, Hc. done.
  - intros [z q] [Ez Hq]. cbn [fst snd] in *. subst z. destruct (Z.eqb_spec n (2 ^ 31 - 1)); [unfold BUF_SIZE in *; lia|].
    unfold Utils.allocate_str_mem. destruct (Z.leb_spec (n + 1) 0); [apply HF|]. res.
    unfold Packet.extract_item_bytes.
    eapply (satisfies_bind _ (fun x => len x.1 = n /\ held L (c + 4 + n) x.2));
      [apply (satisfies_bind _ (fun x => len x.1 = n /\ held L (c + 4 + n) x.2))|].
    + eapply satisfies_mono; [apply (extract_raw_typed F L (c + 4) n q Hq); lia | done |].
      intros [bs q'] [[_ Hl] Hq']. split; [unfold len; cbn in *; lia | done].
    + intros [bs q'] [Hl Hq']. cbn [fst snd] in *.
      replace (len (replicate (Z.to_nat (n + 1)) 0)) with (n + 1) by (unfold len; rewrite length_replicate; lia).
      destruct (Z.ltb_spec (n + 1) n); [lia|]. exact (conj Hl Hq').
    + intros [bs q'] [Hl Hq']. cbn [fst snd] in *. unfold mem_write.
      rewrite (proj2 (in_bounds_spec _ _ _)) by (unfold len in *; rewrite length_replicate; lia). res. split; [lia | done].
Qed.
