(* ===== verification/Security.v ===== *)
(** * Security: NAS encryption and integrity (src/security.h,
    src/security.cpp)

    OpenSSL is the interface [CryptoLib]: what the EVP and HMAC calls return
    for a key, an initialisation vector and a text.  [CryptoLaws] is what
    their documentation promises.  The C++ code around them is here: which
    bytes are passed, which buffers are written, how a message is wrapped. *)

From Stdlib Require Import ZArith Lia Ascii String.
From S2P Require Import Prelude Utils Headers Packet.

(** The library calls.  [None] is a call that did not return 1. *)
Class CryptoLib := {
  (** EncryptInit(EVP_aes_256_cbc), EncryptUpdate, EncryptFinal *)
  aes_enc : list Z -> list Z -> list Z -> option (list Z);
  (** DecryptInit, DecryptUpdate, DecryptFinal *)
  aes_dec : list Z -> list Z -> list Z -> option (list Z);
  (** HMAC_Init(EVP_sha1), HMAC_Update, HMAC_Final *)
  hmac_sha1 : list Z -> list Z -> list Z
}.

(** CBC with PKCS padding: decryption undoes encryption, the text grows to
    the next multiple of 16 and does not grow when it is decrypted; SHA-1 gives
    20 bytes. *)
Class CryptoLaws `{CryptoLib} := {
  aes_enc_total k iv p : exists c, aes_enc k iv p = Some c;
  aes_enc_len k iv p c : aes_enc k iv p = Some c -> len c = 16 * (len p / 16 + 1);
  aes_dec_enc k iv p c : bytes p -> aes_enc k iv p = Some c -> aes_dec k iv c = Some p;
  aes_enc_bytes k iv p c : aes_enc k iv p = Some c -> bytes c;
  aes_dec_len k iv c p : aes_dec k iv c = Some p -> len p <= len c;
  aes_dec_bytes k iv c p : bytes c -> aes_dec k iv c = Some p -> bytes p;
  hmac_len k m : len (hmac_sha1 k m) = 20;
  hmac_bytes k m : bytes (hmac_sha1 k m)
}.

Definition HMAC_LEN : Z := 20.
Definition HMAC_ON : bool := true.
Definition ENC_ON : bool := true.

Module Crypt.

(** The key and the initialisation vector set by [Crypt::Crypt]; AES-256
    takes 32 bytes of the one, CBC 16 of the other. *)
Definition key : list Z := string_bytes "01234567890123456789012345678901".
Definition iv : list Z := take 16 (string_bytes "01234567890123456").

Definition handle_crypt_error {A} : result A :=
  Utils.handle_type1_error (-1) "Crypt error: security_handlecrypterror" ≫= fun _ =>
  Fault (UB "unreachable").

Section Crypt.
Context `{CL : CryptoLib}.

(** [Crypt::enc_data]: the cipher text in a block of its own and its
    length.  [k_nas_enc] is not used. *)
Definition enc_data (plain_text : list Z) (plain_text_len : Z) (cipher_text : list Z)
    (k_nas_enc : Z) : result (list Z * Z) :=
  bs ← mem_read plain_text 0 plain_text_len;
  match aes_enc key iv bs with
  | None => handle_crypt_error
  | Some c => cipher_text ← mem_write cipher_text 0 c; mret (cipher_text, len c)
  end.

(** [Crypt::dec_data] *)
Definition dec_data (cipher_text : list Z) (cipher_text_len : Z) (plain_text : list Z)
    (k_nas_enc : Z) : result (list Z * Z) :=
  bs ← mem_read cipher_text 0 cipher_text_len;
  match aes_dec key iv bs with
  | None => handle_crypt_error
  | Some p => plain_text ← mem_write plain_text 0 p; mret (plain_text, len p)
  end.

(** [Crypt::enc] *)
Definition enc (pkt : Packet.t) (k_nas_enc : Z) : result Packet.t :=
  tem_data ← Utils.allocate_uint8_mem true BUF_SIZE;
  '(tem_data, new_len) ← enc_data (Packet.data pkt) (Packet.plen pkt) tem_data k_nas_enc;
  mret (pkt <| Packet.data := tem_data |> <| Packet.data_ptr := 0 |>
            <| Packet.plen := new_len |>).

(** [Crypt::dec] *)
Definition dec (pkt : Packet.t) (k_nas_enc : Z) : result Packet.t :=
  tem_data ← Utils.allocate_uint8_mem true BUF_SIZE;
  pkt ← Packet.truncate pkt;
  '(tem_data, new_len) ← dec_data (Packet.data pkt) (Packet.plen pkt) tem_data k_nas_enc;
  mret (pkt <| Packet.data := tem_data |> <| Packet.data_ptr := 0 |>
            <| Packet.plen := new_len |>).

End Crypt.
End Crypt.

Module Integrity.

(** [Integrity::Integrity]; [strlen] of it is 9. *)
Definition key : list Z := string_bytes "012345678".

Section Integrity.
Context `{CL : CryptoLib}.

(** [Integrity::get_hmac]: the block [hmac] after the call; [k_nas_int] is
    not used. *)
Definition get_hmac (data : list Z) (data_len : Z) (hmac : list Z) (k_nas_int : Z)
  : result (list Z) :=
  bs ← mem_read data 0 data_len;
  mem_write hmac 0 (hmac_sha1 key bs).

(** [Integrity::add_hmac] *)
Definition add_hmac (pkt : Packet.t) (k_nas_int : Z) : result Packet.t :=
  hmac ← Utils.allocate_uint8_mem true HMAC_LEN;
  hmac ← get_hmac (Packet.data pkt) (Packet.plen pkt) hmac k_nas_int;
  Packet.prepend_item pkt hmac HMAC_LEN.

(** [Integrity::rem_hmac]: the HMAC that was in front, and the rest. *)
Definition rem_hmac (pkt : Packet.t) (hmac : list Z) : result (list Z * Packet.t) :=
  '(bs, pkt) ← Packet.extract_item_bytes pkt (len hmac) HMAC_LEN;
  hmac ← mem_write hmac 0 bs;
  pkt ← Packet.truncate pkt;
  mret (hmac, pkt).

(** The loop of [Integrity::cmp_hmacs], [n] positions from [i] on. *)
Fixpoint cmp_loop (n i : nat) (hmac1 hmac2 : list Z) : bool :=
  match n with
  | O => true
  | S n =>
      if nth i hmac1 0 =? nth i hmac2 0 then cmp_loop n (S i) hmac1 hmac2 else false
  end.

(** [Integrity::cmp_hmacs] *)
Definition cmp_hmacs (hmac1 hmac2 : list Z) : bool :=
  cmp_loop (Z.to_nat HMAC_LEN) 0 hmac1 hmac2.

(** [Integrity::hmac_check] *)
Definition hmac_check (pkt : Packet.t) (k_nas_int : Z) : result (bool * Packet.t) :=
  hmac_res ← Utils.allocate_uint8_mem true HMAC_LEN;
  hmac_xres ← Utils.allocate_uint8_mem true HMAC_LEN;
  '(hmac_xres, pkt) ← rem_hmac pkt hmac_xres;
  hmac_res ← get_hmac (Packet.data pkt) (Packet.plen pkt) hmac_res k_nas_int;
  mret (cmp_hmacs hmac_res hmac_xres, pkt).

End Integrity.
End Integrity.

(** ** What both ends of the NAS protection do with a message *)

Section Nas.
Context `{CL : CryptoLib}.

(** The check and the decryption of a protected message. *)
Definition unprotect (pkt : Packet.t) (k_enc k_int : Z) (msg : string) : result Packet.t :=
  pkt ← (if HMAC_ON then
           '(res, pkt) ← Integrity.hmac_check pkt k_int;
           _ ← (if (res : bool) then mret tt else Utils.handle_type1_error (-1) msg);
           mret pkt
         else mret pkt);
  if ENC_ON then Crypt.dec pkt k_enc else mret pkt.

(** The encryption and the HMAC of a message that is sent. *)
Definition protect (pkt : Packet.t) (k_enc k_int : Z) : result Packet.t :=
  pkt ← (if ENC_ON then Crypt.enc pkt k_enc else mret pkt);
  if HMAC_ON then Integrity.add_hmac pkt k_int else mret pkt.

End Nas.

(** ** Lemmas *)

Definition mac `{CryptoLib} (c : list Z) : list Z := hmac_sha1 Integrity.key c.

(** The length of the cipher text of [n] bytes. *)
Definition enc_size (n : Z) : Z := 16 * (n / 16 + 1).

Lemma enc_size_bounds n : n < enc_size n <= n + 16.
Proof.
  unfold enc_size. pose proof (Z.div_mod n 16 ltac:(lia)).
  pose proof (Z.mod_pos_bound n 16 ltac:(lia)). lia.
Qed.

Lemma cmp_loop_spec n i l k :
  Integrity.cmp_loop n i l k = true <->
  forall j, (i <= j < i + n)%nat -> nth j l 0 = nth j k 0.
Proof.
  revert i; induction n as [|n IH]; intros i; cbn [Integrity.cmp_loop].
  - split; [intros _ j Hj; lia | done].
  - destruct (Z.eqb_spec (nth i l 0) (nth i k 0)) as [E|E].
    + rewrite IH. split; intros H j Hj; [|apply H; lia].
      destruct (decide (j = i)) as [->|]; [done | apply H; lia].
    + split; [done|]. intros H. exfalso. apply E, H. lia.
Qed.

(** The comparison of the first 20 bytes is equality of the two blocks. *)
Lemma cmp_hmacs_spec l k :
  len l = HMAC_LEN -> len k = HMAC_LEN -> Integrity.cmp_hmacs l k = true <-> l = k.
Proof.
  unfold len, HMAC_LEN. intros Hl Hk. unfold Integrity.cmp_hmacs. rewrite cmp_loop_spec.
  split; [|by intros ->]. intros H. apply (nth_ext l k 0 0); [lia|].
  intros j Hj. apply H. change (Z.to_nat HMAC_LEN) with 20%nat. lia.
Qed.

Section Lemmas.
Context `{CL : CryptoLib, LAWS : !CryptoLaws}.

Lemma len_mac c : len (mac c) = 20.
Proof. apply hmac_len. Qed.

Lemma get_hmac_spec h pre post k :
  fits pre post ->
  Integrity.get_hmac (Packet.data (rd h pre post)) (Packet.plen (rd h pre post))
    (replicate 20 0) k = Ret (mac (pre ++ post)).
Proof.
  intros H. unfold Integrity.get_hmac, rd, rdl. pk. rewrite mem_read_pad_all by done. res.
  pose proof (mem_write_mid [] (replicate 20 0) [] 0 (mac (pre ++ post)) eq_refl) as E.
  pose proof (len_mac (pre ++ post)). rewrite !app_nil_r in E. apply E.
  unfold len in *. rewrite length_replicate. lia.
Qed.

Lemma add_hmac_rd h pre post k :
  20 + len pre + len post <= BUF_SIZE ->
  Integrity.add_hmac (rd h pre post) k = Ret (rd h (mac (pre ++ post) ++ pre) post).
Proof.
  intros H. unfold Integrity.add_hmac. rewrite Utils.allocate_uint8_mem_ok by done. res.
  change (replicate (Z.to_nat HMAC_LEN) 0) with (replicate 20 0).
  rewrite get_hmac_spec by (unfold fits; lia). res.
  rewrite prepend_item_rd; [done | by rewrite len_mac | rewrite len_mac; lia].
Qed.

Lemma rem_hmac_rd h pre m c :
  len m = 20 -> fits pre (m ++ c) ->
  Integrity.rem_hmac (rd h pre (m ++ c)) (replicate 20 0) = Ret (m, rd h [] c).
Proof.
  intros Hm H. unfold Integrity.rem_hmac.
  rewrite extract_bytes_rd by (rewrite ?len_replicate; unfold HMAC_LEN; lia). res.
  pose proof (mem_write_mid [] (replicate 20 0) [] 0 m eq_refl) as E.
  rewrite !app_nil_r in E. cbn [app] in E.
  rewrite E by (unfold len in Hm; rewrite length_replicate; lia). res.
  rewrite truncate_rd by (unfold fits in *; len_lia). done.
Qed.

(** [hmac_check] accepts exactly the messages whose first 20 bytes are the
    HMAC of the others, whatever the key argument. *)
Lemma hmac_check_rd h pre m c k :
  len m = 20 -> fits pre (m ++ c) ->
  Integrity.hmac_check (rd h pre (m ++ c)) k =
  Ret (bool_decide (m = mac c), rd h [] c).
Proof.
  intros Hm H. unfold Integrity.hmac_check.
  rewrite !Utils.allocate_uint8_mem_ok by done. res.
  change (replicate (Z.to_nat HMAC_LEN) 0) with (replicate 20 0).
  rewrite rem_hmac_rd by done. res.
  rewrite get_hmac_spec by (unfold fits in *; len_lia). res. cbn [app].
  do 2 f_equal. symmetry. apply eq_true_iff_eq. rewrite bool_decide_eq_true, cmp_hmacs_spec.
  - split; congruence.
  - apply len_mac.
  - done.
Qed.

(** Fewer than 20 bytes: the reader runs past the message and [truncate]
    is handed a negative length. *)
Lemma hmac_check_short h pre post k :
  fits pre post -> len pre + 20 <= BUF_SIZE -> len post < 20 ->
  exists why, Integrity.hmac_check (rd h pre post) k = Fault (UB why).
Proof.
  intros H Hb Hs. unfold Integrity.hmac_check.
  rewrite !Utils.allocate_uint8_mem_ok by done. res.
  change (replicate (Z.to_nat HMAC_LEN) 0) with (replicate 20 0).
  unfold Integrity.rem_hmac, Packet.extract_item_bytes, Packet.extract_raw.
  unfold fits in H. unfold rd, rdl. pk.
  unfold mem_read at 1. rewrite (proj2 (in_bounds_spec _ _ _)).
  2: { rewrite len_pad by len_lia. unfold HMAC_LEN. len_lia. }
  res. rewrite len_replicate. unfold HMAC_LEN. cbn [Z.ltb Z.compare Z.of_nat].
  change (Z.of_nat 20 <? 20) with false. res.
  set (bs := take _ _).
  assert (len bs = 20) as Eb.
  { subst bs. unfold len. rewrite length_take, length_drop, length_pad by len_lia.
    unfold BUF_SIZE in *. unfold len in *. lia. }
  pose proof (mem_write_mid [] (replicate 20 0) [] 0 bs eq_refl) as E.
  rewrite !app_nil_r in E. cbn [app] in E. rewrite E by (unfold len in Eb;
    rewrite length_replicate; lia). res.
  rewrite truncate_short by (pk; len_lia). by eexists.
Qed.

Lemma enc_rd h pre post c k :
  fits pre post -> aes_enc Crypt.key Crypt.iv (pre ++ post) = Some c -> len c <= BUF_SIZE ->
  Crypt.enc (rd h pre post) k = Ret (rd h [] c).
Proof.
  intros H He Hc. unfold Crypt.enc, Crypt.enc_data. rewrite allocate_buf. unfold rd, rdl. pk.
  rewrite mem_read_pad_all by done. res. rewrite He, mem_write_zbuf by done. by pk.
Qed.

Lemma dec_rd h pre c p k :
  fits pre c -> aes_dec Crypt.key Crypt.iv c = Some p -> len p <= BUF_SIZE ->
  Crypt.dec (rd h pre c) k = Ret (rd h [] p).
Proof.
  intros H He Hc. unfold Crypt.dec, Crypt.dec_data. rewrite allocate_buf. res.
  rewrite truncate_rd by done. unfold rd, rdl. pk.
  rewrite mem_read_pad_all by done. res. cbn [app].
  rewrite He, mem_write_zbuf by done. by pk.
Qed.

(** A cipher text that is not accepted ends the process. *)
Lemma dec_bad_rd h pre c k :
  fits pre c -> aes_dec Crypt.key Crypt.iv c = None ->
  Crypt.dec (rd h pre c) k = Fault (Exit "Crypt error: security_handlecrypterror").
Proof.
  intros H He. unfold Crypt.dec, Crypt.dec_data. rewrite allocate_buf. res.
  rewrite truncate_rd by done. unfold rd, rdl. pk.
  rewrite mem_read_pad_all by done. res. cbn [app]. by rewrite He.
Qed.

(** What travels for [body]: the cipher text behind its HMAC. *)
Definition sealed (body w : list Z) : Prop :=
  exists c, aes_enc Crypt.key Crypt.iv body = Some c /\ w = mac c ++ c.

Lemma sealed_exists body : exists w, sealed body w.
Proof. destruct (aes_enc_total Crypt.key Crypt.iv body) as [c Hc]. by exists (mac c ++ c), c. Qed.

Lemma len_sealed body w : sealed body w -> len w = 20 + enc_size (len body).
Proof.
  intros (c & Hc & ->). rewrite len_app, len_mac. unfold enc_size. by erewrite aes_enc_len.
Qed.

(** The sender's two steps. *)
Lemma seal_rd h body w k k' :
  sealed body w -> 20 + enc_size (len body) <= BUF_SIZE ->
  exists m c, w = m ++ c /\ len m = 20 /\
    (p ← Crypt.enc (rd h body []) k; Integrity.add_hmac p k') = Ret (rd h m c).
Proof.
  intros (c & Hc & ->) Hl. pose proof (enc_size_bounds (len body)).
  exists (mac c), c. repeat split; [apply len_mac|].
  assert (len c = enc_size (len body)) as Ec by (unfold enc_size; by erewrite aes_enc_len).
  rewrite (enc_rd h body [] c); [|unfold fits; rewrite len_nil; lia | by rewrite app_nil_r | lia].
  res. rewrite add_hmac_rd by (rewrite len_nil; lia). cbn [app]. by rewrite app_nil_r.
Qed.

(** The receiver's two steps. *)
Lemma unseal_rd h pre body w k k' :
  sealed body w -> bytes body -> fits pre w ->
  (r ← Integrity.hmac_check (rd h pre w) k;
   p ← Crypt.dec r.2 k'; mret (r.1, p)) = Ret (true, rd h [] body).
Proof.
  intros Hs Hb Hf. pose proof (len_sealed _ _ Hs) as Hw.
  destruct Hs as (c & Hc & ->). pose proof (enc_size_bounds (len body)).
  unfold fits in Hf. pose proof (len_nonneg pre).
  rewrite hmac_check_rd by (apply len_mac || done). res. cbn [fst snd].
  rewrite bool_decide_eq_true_2 by done.
  assert (len c = enc_size (len body)) as Ec by (unfold enc_size; by erewrite aes_enc_len).
  rewrite (dec_rd h [] c body); [done | unfold fits; rewrite len_nil; len_lia | by eapply aes_dec_enc | len_lia].
Qed.

Lemma protect_rd h body w k k' :
  sealed body w -> 20 + enc_size (len body) <= BUF_SIZE ->
  exists m c, w = m ++ c /\ len m = 20 /\ protect (rd h body []) k k' = Ret (rd h m c).
Proof. exact (seal_rd h body w k k'). Qed.

Lemma unprotect_rd h pre body w k k' msg :
  sealed body w -> bytes body -> fits pre w ->
  unprotect (rd h pre w) k k' msg = Ret (rd h [] body).
Proof.
  intros Hs Hb Hf. unfold unprotect. change HMAC_ON with true. change ENC_ON with true.
  cbv iota. pose proof (unseal_rd h pre body w k' k Hs Hb Hf) as E.
  destruct (Integrity.hmac_check (rd h pre w) k') as [[b q]|f]; [|discriminate E]. res.
  cbn [fst snd] in E. destruct (Crypt.dec q k) as [p|f] eqn:Ed; [|discriminate E]. res.
  injection E as -> ->. exact Ed.
Qed.

Lemma unprotect_bad h pre mac0 c k k' msg :
  len mac0 = 20 -> fits pre (mac0 ++ c) -> mac0 <> mac c ->
  unprotect (rd h pre (mac0 ++ c)) k k' msg = Fault (Exit msg).
Proof.
  intros Hm Hf Hne. unfold unprotect. change HMAC_ON with true. cbv iota.
  rewrite hmac_check_rd by done. res. by rewrite bool_decide_eq_false_2.
Qed.

End Lemmas.

(** ** Properties *)

Section Properties.
Context `{CL : CryptoLib, LAWS : !CryptoLaws}.

(** C29: a NAS message that the sender encrypts, authenticates and puts
    behind an S1AP header is authenticated and decrypted to exactly the same
    bytes by the receiver; the identifiers of the header arrive too.  The
    session keys handed to the four calls may all differ: the code never
    uses them. *)
Theorem nas_protection_roundtrip (h h' : hdrs) body ty ml enb mme ke ki ke' ki' :
  S1ap.wf (h_s1ap h) -> bytes body -> 32 + enc_size (len body) <= BUF_SIZE ->
  exists p, (p ← Crypt.enc (rd h body []) ke;
             p ← Integrity.add_hmac p ki;
             Packet.prepend_s1ap_hdr p ty ml enb mme) = Ret p /\
    exists q, Packet.extract_s1ap_hdr (rd h' [] (payload p)) = Ret q /\
      S1ap.msg_type (Packet.s1ap_hdr q) = u8 ty /\
      S1ap.enodeb_s1ap_ue_id (Packet.s1ap_hdr q) = u32 enb /\
      S1ap.mme_s1ap_ue_id (Packet.s1ap_hdr q) = u32 mme /\
      (r ← Integrity.hmac_check q ki';
       p ← Crypt.dec r.2 ke'; mret (r.1, p)) = Ret (true, rd (hdrs_of q) [] body).
Proof.
  intros Hh Hb Hl. destruct (sealed_exists body) as [w Hw].
  destruct (seal_rd h body w ke ki Hw ltac:(lia)) as (m & c & Ew & Hm & E).
  pose proof (len_sealed _ _ Hw) as Lw. rewrite Ew, len_app in Lw.
  rewrite <- (result_bind_assoc), E. res. rewrite prepend_s1ap_hdr_rd by lia. cbv zeta.
  eexists. split; [done|]. rewrite payload_rd, <- app_assoc.
  eexists. split; [apply (extract_s1ap_hdr_rd h' []), s1ap_init_wf, Hh|].
  repeat split; try done. rewrite <- Ew. apply unseal_rd; [done | done |].
  unfold fits. rewrite Ew. cbn [app]. rewrite len_s1ap, len_app. lia.
Qed.

(** C30: the integrity check is exact: a received NAS message of at least 20
    bytes passes if and only if its first 20 bytes are the HMAC-SHA1 of the
    rest (so any change the HMAC notices is refused), the reader is left at
    the rest either way; a shorter message is undefined behaviour, for its
    length is never checked. *)
Theorem hmac_check_exact (h : hdrs) pre post k :
  fits pre post -> len pre + 20 <= BUF_SIZE ->
  (20 <= len post ->
   Integrity.hmac_check (rd h pre post) k =
   Ret (bool_decide (take 20 post = mac (drop 20 post)), rd h [] (drop 20 post))) /\
  (len post < 20 ->
   exists why, Integrity.hmac_check (rd h pre post) k = Fault (UB why)).
Proof.
  intros Hf Hb. split.
  - intros Hl. rewrite <- (take_drop 20 post) at 1. apply hmac_check_rd.
    + unfold len in *. rewrite length_take. lia.
    + by rewrite take_drop.
  - by apply hmac_check_short.
Qed.

End Properties.

(** *** A library the laws hold for

    Padding alone for the cipher and zeros for the HMAC: enough to show that
    the laws, and the theorems above, can be met. *)

Definition toy_pad (p : list Z) : list Z :=
  let n := 16 - len p mod 16 in map u8 p ++ replicate (Z.to_nat n) n.
Definition toy_unpad (c : list Z) : option (list Z) :=
  match last c with
  | Some n => Some (take (length c - Z.to_nat n) c)
  | None => None
  end.
Definition toy_mac (m : list Z) : list Z :=
  le_bytes 20 (foldr (fun b acc => u8 b + 7 * acc) 0 m).

#[export] Instance toy_crypto : CryptoLib := {
  aes_enc k iv p := Some (toy_pad p);
  aes_dec k iv c := toy_unpad c;
  hmac_sha1 k m := toy_mac m
}.

#[export] Instance toy_laws : CryptoLaws.
Proof.
  split; cbn [aes_enc aes_dec hmac_sha1 toy_crypto].
  - intros _ _ p. by eexists.
  - intros _ _ p c [= <-]. unfold toy_pad, len. rewrite length_app, length_map, length_replicate.
    pose proof (Z.mod_pos_bound (Z.of_nat (length p)) 16 ltac:(lia)).
    pose proof (Z.div_mod (Z.of_nat (length p)) 16 ltac:(lia)). lia.
  - intros _ _ p c Hp [= <-]. unfold toy_unpad, toy_pad.
    assert (map u8 p = p) as ->.
    { induction Hp as [|b p Hb _ IH]; [done|]. cbn [map]. rewrite IH. f_equal.
      by apply u8_id. }
    pose proof (Z.mod_pos_bound (len p) 16 ltac:(lia)).
    destruct (Z.to_nat (16 - len p mod 16)) as [|n] eqn:En; [lia|].
    rewrite replicate_S_end, app_assoc, last_snoc. f_equal.
    rewrite !length_app, length_replicate. cbn [length].
    rewrite <- app_assoc, take_app_le by lia. apply take_ge. lia.
  - intros _ _ p c [= <-]. unfold toy_pad. apply bytes_app. split.
    + apply Forall_forall. intros x (y & -> & _)%list_elem_of_fmap. apply u8_range.
    + apply Forall_replicate. pose proof (Z.mod_pos_bound (len p) 16 ltac:(lia)).
      unfold is_byte. lia.
  - intros _ _ c p. unfold toy_unpad. destruct (last c); [|done]. intros [= <-]. unfold len. rewrite length_take. lia.
  - intros _ _ c p Hc. unfold toy_unpad. destruct (last c); [|done]. intros [= <-]. by apply Forall_take.
  - intros _ m. unfold toy_mac. apply len_le_bytes.
  - intros _ m. apply bytes_le_bytes.
Qed.

(** *** Witnesses *)

Lemma nas_protection_roundtrip_witness :
  exists p, (p ← Crypt.enc (rd zero_hdrs [1; 2; 3] []) 5;
             p ← Integrity.add_hmac p 6;
             Packet.prepend_s1ap_hdr p 3 3 17 42) = Ret p /\
    exists q, Packet.extract_s1ap_hdr (rd zero_hdrs [] (payload p)) = Ret q /\
      S1ap.msg_type (Packet.s1ap_hdr q) = u8 3 /\
      S1ap.enodeb_s1ap_ue_id (Packet.s1ap_hdr q) = u32 17 /\
      S1ap.mme_s1ap_ue_id (Packet.s1ap_hdr q) = u32 42 /\
      (r ← Integrity.hmac_check q 7;
       p ← Crypt.dec r.2 8; mret (r.1, p)) = Ret (true, rd (hdrs_of q) [] [1; 2; 3]).
Proof.
  apply (nas_protection_roundtrip zero_hdrs zero_hdrs [1; 2; 3] 3 3 17 42 5 6 8 7).
  - repeat split.
  - repeat constructor; discriminate.
  - vm_compute. discriminate.
Defined.

Lemma hmac_check_exact_witness :
  (20 <= len (replicate 20 1 ++ [5]) ->
   Integrity.hmac_check (rd zero_hdrs [9] (replicate 20 1 ++ [5])) 3 =
   Ret (bool_decide (take 20 (replicate 20 1 ++ [5]) = mac (drop 20 (replicate 20 1 ++ [5]))),
        rd zero_hdrs [] (drop 20 (replicate 20 1 ++ [5])))) /\
  (len (replicate 20 1 ++ [5]) < 20 ->
   exists why, Integrity.hmac_check (rd zero_hdrs [9] (replicate 20 1 ++ [5])) 3 = Fault (UB why)).
Proof.
  apply (hmac_check_exact zero_hdrs [9] (replicate 20 1 ++ [5]) 3);
    vm_compute; discriminate.
Defined.
