(* ===== verification/Sink.v ===== *)
(** * Sink: the data network behind the UPF (src/sink.h, src/sink.cpp,
    src/sink_server.cpp)

    The traffic monitor of the sink moves IP packets between its tun device
    and the UPF.  The state is what it wrote to the device and sent to the
    UPF, with the [errno] of its thread; what the kernel answers during one
    turn of the loop is a record. *)

From Stdlib Require Import ZArith Lia String.
From S2P Require Import Prelude Utils Headers Packet Network Transport.

Module Sink.

Definition g_pgw_sgi_ip_addr : string := "172.18.0.6".
Definition g_sink_ip_addr : string := "172.18.0.7".
Definition g_pgw_sgi_port : Z := 8100.
Definition g_sink_port : Z := 8500.

(** What left the process: packets written to the tun device, datagrams sent
    to the UPF with their destination. *)
Record proc := mk_proc {
  to_tun : list (list Z);
  to_pgw : list (sockaddr_in * list Z);
  errno : Z
}.

(** One turn's answers of the kernel: [select]; which descriptors are set;
    the [recvfrom] and the [write] of an uplink packet; the [read] of a
    downlink packet, the new socket, its system calls and its [sendto]s. *)
Record os := mk_os {
  select_status : Z;
  server_ready : bool;
  tun_ready : bool;
  arrived : UdpClient.datagram;
  tun_write : outcome;
  tun_read : option (list Z);
  sock : Z;
  udp : UdpClient.os;
  sendto : list outcome
}.

Section Monitor.
Context (inet_aton : string -> option Z) (h0 : hdrs) (m : UdpClient.t) (src_sock_addr : sockaddr_in).

(** A local [Packet]. *)
Definition new_packet : result Packet.t :=
  Packet.construct (h_gtp h0) (h_s1ap h0) (h_dia h0).

(** [TrafficMonitor::handle_uplink_udata] *)
Definition handle_uplink_udata (d : UdpClient.datagram) (o : outcome) : prog proc unit :=
  pkt ← lift new_packet;
  '(_, pkt) ← lift (UdpServer.rcv src_sock_addr pkt d);
  bs ← lift (Tun.snd pkt o);
  modify (fun s => s <| to_tun := to_tun s ++ [bs] |>).

(** [TrafficMonitor::handle_downlink_udata]: a socket of its own for every
    packet; [None] is a [sendto] that does not return. *)
Definition handle_downlink_udata (k : os) : prog proc (option unit) :=
  pgw_sgi_client ← lift (UdpClient.construct m (sock k));
  pkt ← lift new_packet;
  pkt ← lift (Tun.rcv pkt (tun_read k));
  pgw_sgi_client ← lift (UdpClient.conn inet_aton (udp k) pgw_sgi_client
    g_sink_ip_addr g_pgw_sgi_ip_addr g_pgw_sgi_port);
  e ← gets errno;
  r ← lift (UdpClient.snd pkt e (sendto k));
  match r with
  | None => mret None
  | Some (sent, _, e) =>
      _ ← modify (fun s =>
        s <| to_pgw := to_pgw s ++ map (pair (UdpClient.server_sock_addr pgw_sgi_client)) sent |>
          <| errno := e |>);
      mret (Some tt)
  end.

(** One turn of the loop of [traffic_monitor]. *)
Definition turn (k : os) : prog proc (option unit) :=
  _ ← lift (Utils.handle_type1_error (select_status k) "select error: sinkserver_trafficmonitor");
  if server_ready k then
    _ ← handle_uplink_udata (arrived k) (tun_write k); mret (Some tt)
  else if tun_ready k then handle_downlink_udata k
  else mret (Some tt).

(** [traffic_monitor], for as long as the kernel answers. *)
Fixpoint traffic_monitor (ks : list os) : prog proc (option unit) :=
  match ks with
  | [] => mret (Some tt)
  | k :: ks =>
      r ← turn k;
      match r with None => mret None | Some _ => traffic_monitor ks end
  end.

End Monitor.
End Sink.

Section Monitor.
Context (inet_aton : string -> option Z) (h0 : hdrs) (m : UdpClient.t) (src : sockaddr_in).

Lemma uplink_to_tun from bs n s :
  len bs <= BUF_SIZE -> 0 <= n ->
  Sink.handle_uplink_udata h0 src (UdpClient.Got from bs) (Done n) s =
  (Ret tt, s <| Sink.to_tun := Sink.to_tun s ++ [bs] |>).
Proof.
  intros Hb Hn. unfold Sink.handle_uplink_udata, Sink.new_packet.
  run with (apply construct_rd). run with (by apply udp_server_rcv).
  run with (by apply tun_snd_rd). done.
Qed.

(** A kernel that refuses nothing. *)
Definition willing (k : Sink.os) : Prop :=
  0 <= Sink.sock k /\ 0 <= UdpClient.bind_status (Sink.udp k) /\
  0 <= UdpClient.getsockname_status (Sink.udp k) /\
  0 <= UdpClient.setsockopt_status (Sink.udp k) /\
  exists n rest, Sink.sendto k = Done n :: rest.

(** A socket that is bound; the address the datagrams go to. *)
Lemma udp_conn_ok k c ip server_ip port a b :
  0 <= UdpClient.bind_status k -> 0 <= UdpClient.getsockname_status k ->
  0 <= UdpClient.setsockopt_status k -> inet_aton ip = Some a -> inet_aton server_ip = Some b ->
  exists c', UdpClient.conn inet_aton k c ip server_ip port = Ret c' /\
    UdpClient.server_sock_addr c' = mk_sockaddr (u16 port) b.
Proof.
  intros H1 H2 H3 Ha Hb.
  unfold UdpClient.conn, UdpClient.init, UdpClient.set_port, Network.set_inet_sock_addr,
    Network.set_rcv_timeout, Network.bind_sock, Network.get_sock_addr. res.
  cbn [UdpClient.ip_addr UdpClient.server_ip_addr].
  rewrite Ha. res. cbn [UdpClient.server_ip_addr]. rewrite Hb. res.
  rewrite !Utils.handle_type1_error_ok by done. res. eexists. split; reflexivity.
Qed.

Lemma udp_snd_rd h bs e n rest :
  fits [] bs -> e <> EPERM ->
  UdpClient.snd (rd h [] bs) e (Done n :: rest) =
  Ret (Some ([bs], Utils.handle_type2_error n "Sendto error: udpclient_snd", e)).
Proof.
  intros Hf He. pose proof (bytes_rd h [] bs Hf) as E. unfold bytes_of in E.
  unfold UdpClient.snd. rewrite copy_rd in * by done. res. cbn [app] in E. rewrite E. res.
  cbn [UdpClient.snd_loop errno_after status_of app]. by rewrite (proj2 (Z.eqb_neq _ _)).
Qed.

Lemma downlink_to_upf k bs u w o sink_a pgw_a :
  willing k -> u <> EPERM -> Sink.tun_read k = Some bs -> len bs <= BUF_SIZE ->
  inet_aton Sink.g_sink_ip_addr = Some sink_a -> inet_aton Sink.g_pgw_sgi_ip_addr = Some pgw_a ->
  Sink.handle_downlink_udata inet_aton h0 m k (Sink.mk_proc w o u) =
  (Ret (Some tt), Sink.mk_proc w (o ++ [(mk_sockaddr 8100 pgw_a, bs)]) u).
Proof.
  intros (H1 & H2 & H3 & H4 & n & rest & Hs) Hu Hr Hb Ha Hp.
  unfold Sink.handle_downlink_udata, Sink.new_packet.
  run with (unfold UdpClient.construct; cbv zeta; rewrite Utils.handle_type1_error_ok by done; reflexivity).
  run with (apply construct_rd). rewrite Hr. run with (by apply tun_rcv_rd).
  match goal with |- context [UdpClient.conn _ _ ?c] =>
    destruct (udp_conn_ok (Sink.udp k) c _ _ Sink.g_pgw_sgi_port _ _ H2 H3 H4 Ha Hp) as (c' & E & Hd) end.
  run with (exact E). cbn [Sink.errno]. rewrite Hs.
  run with (apply udp_snd_rd; [unfold fits; rewrite len_nil; lia | done]).
  by rewrite Hd.
Qed.

(** What one turn's answers move in each direction: an uplink packet is
    served first. *)
Definition served_up (k : Sink.os) : list (list Z) :=
  if Sink.server_ready k then
    match Sink.arrived k with UdpClient.Got _ bs => [bs] | UdpClient.Timeout => [] end
  else [].
Definition served_down (k : Sink.os) : list (list Z) :=
  if Sink.server_ready k then []
  else if Sink.tun_ready k then
    match Sink.tun_read k with Some bs => [bs] | None => [] end
  else [].

(** A turn in which no call of the kernel fails, and the packet is not longer
    than the buffer. *)
Definition fine (k : Sink.os) : Prop :=
  0 <= Sink.select_status k /\
  (Sink.server_ready k = true ->
   exists from bs n, Sink.arrived k = UdpClient.Got from bs /\ len bs <= BUF_SIZE /\
     Sink.tun_write k = Done n /\ 0 <= n) /\
  (Sink.server_ready k = false -> Sink.tun_ready k = true ->
   willing k /\ exists bs, Sink.tun_read k = Some bs /\ len bs <= BUF_SIZE).

(** C39: the sink's traffic monitor forwards in order.  Over any number of turns
    in which no call of the kernel fails and no packet is longer than the
    1,024 bytes of the buffer, and with an [errno] that is not [EPERM]: the
    packets of the UPF go to the tun device and the packets of the tun device
    to the UPF's N6 port, each whole, once and in order; in a turn in which
    both are pending only the uplink packet is served, so a steady uplink
    holds the downlink back altogether. *)
Theorem sink_forwards_in_order ks w o u sink_a pgw_a :
  Forall fine ks -> u <> EPERM ->
  inet_aton Sink.g_sink_ip_addr = Some sink_a -> inet_aton Sink.g_pgw_sgi_ip_addr = Some pgw_a ->
  Sink.traffic_monitor inet_aton h0 m src ks (Sink.mk_proc w o u) =
    (Ret (Some tt), Sink.mk_proc (w ++ concat (map served_up ks))
       (o ++ map (pair (mk_sockaddr 8100 pgw_a)) (concat (map served_down ks))) u) /\
  (Forall (fun k => Sink.server_ready k = true) ks -> concat (map served_down ks) = []).
Proof.
  intros Hf Hu Ha Hp. split.
  2: { induction 1 as [|k ks Hk _ IH]; [done|]. inversion Hf. cbn [map concat]. unfold served_down at 1.
    rewrite Hk. by apply IH. }
  revert w o. induction Hf as [|k ks (Hs & Hup & Hdn) _ IH]; intros w o.
  { by rewrite !app_nil_r. }
  cbn [Sink.traffic_monitor map concat]. unfold Sink.turn, served_up at 1, served_down at 1.
  rewrite run_assoc. run with (by apply Utils.handle_type1_error_ok).
  destruct (Sink.server_ready k).
  - destruct Hup as (from & bs & n & Eg & Hl & Ew & Hn); [done|]. rewrite Eg, Ew, !run_assoc.
    rewrite (run_bind _ _ _ _ _ (uplink_to_tun from bs n _ Hl Hn)). run.
    rewrite (app_assoc w [bs]). exact (IH (w ++ [bs]) o).
  - destruct (Sink.tun_ready k); [|run; apply IH].
    destruct Hdn as (Hw & bs & Er & Hl); [done..|].
    rewrite (run_bind _ _ _ _ _ (downlink_to_upf k bs u w o _ _ Hw Hu Er Hl Ha Hp)), IH, Er.
    by rewrite map_app, <- app_assoc.
Qed.

End Monitor.

(** Two turns: both directions pending, then only the tun device. *)
Definition demo_turn (up : bool) (bs : list Z) : Sink.os :=
  Sink.mk_os 1 up true (UdpClient.Got (mk_sockaddr 7100 6) bs) (Done 3) (Some bs) 5
    (UdpClient.mk_os 0 0 (mk_sockaddr 40000 7) 0) [Done 3].

Lemma sink_forwards_in_order_witness :
  Sink.traffic_monitor (fun s => if bool_decide (s = "172.18.0.6") then Some 6 else Some 7)
    zero_hdrs (UdpClient.mk 0 0 "" (mk_sockaddr 0 0) 0 "" (mk_sockaddr 0 0)) (mk_sockaddr 0 0)
    [demo_turn true [1; 2]; demo_turn false [3; 4]] (Sink.mk_proc [] [] 0) =
  (Ret (Some tt), Sink.mk_proc [[1; 2]] [(mk_sockaddr 8100 6, [3; 4])] 0).
Proof.
  refine (proj1 (sink_forwards_in_order _ zero_hdrs _ _ [demo_turn true [1; 2]; demo_turn false [3; 4]]
    [] [] 0 7 6 _ _ _ _)).
  - repeat constructor; try discriminate.
    + intros _. exists (mk_sockaddr 7100 6), [1; 2], 3. repeat split; vm_compute; discriminate.
    + by exists 3, [].
    + exists [3; 4]. split; [reflexivity | vm_compute; discriminate].
  - discriminate.
  - reflexivity.
  - reflexivity.
Defined.
