(* ===== verification/Messages.v ===== *)
(** * Messages: the gRPC messages between the AMF, the AUSF and the SMF, and
    the stubs of the service (protos/ngcode.proto)

    A setter stores into the field's protobuf type ([int64] or [int32]), a
    getter's value is converted by whoever reads it.  proto3: an absent
    field reads as zero or as the empty string. *)

From Stdlib Require Import ZArith Lia.
From S2P Require Import Prelude.

Module AmfAusfRequest.
Record t := mk {
  name : string;
  type : string;
  imsi : Z;
  plmn_id : Z;
  num_autn_vec : Z;
  nw_type : Z;
  msg_type : Z;
  mmei : Z
}.
Definition empty : t := mk "" "" 0 0 0 0 0 0.
End AmfAusfRequest.

Module AmfAusfReply.
Record t := mk {
  message : string;
  autn_num : Z;
  rand_num : Z;
  xres : Z;
  k_asme : Z;
  default_apn : Z;
  msg_type : Z
}.
Definition empty : t := mk "" 0 0 0 0 0 0.
End AmfAusfReply.

Module AmfSmfRequest.
Record t := mk {
  guti : Z;
  imsi : Z;
  s11_cteid_amf : Z;
  eps_bearer_id : Z;
  apn_in_use : Z;
  tai : Z;
  s1_uteid_dl : Z;       (* int32 *)
  g_trafmon_ip_addr : string;
  g_trafmon_port : Z;
  msg_type : Z
}.
Definition empty : t := mk 0 0 0 0 0 0 0 "" 0 0.
End AmfSmfRequest.

Module AmfSmfReply.
Record t := mk {
  guti : Z;
  imsi : Z;
  k_enodeb : Z;
  tau_timer : Z;
  s11_cteid_upf : Z;     (* int32 *)
  s1_uteid_ul : Z;       (* int32 *)
  s1_uteid_dl : Z;       (* int32 *)
  eps_bearer_id : Z;     (* int32 *)
  e_rab_id : Z;          (* int32 *)
  ue_ip_addr : string;
  tai_list_size : Z;
  res : bool;
  g_upf_s1_ip_addr : string;
  g_upf_s1_port : Z;
  g_trafmon_ip_addr : string;
  g_trafmon_port : Z;
  msg_type : Z
}.
Definition empty : t := mk 0 0 0 0 0 0 0 0 0 "" 0 false "" 0 "" 0 0.
End AmfSmfReply.

(** ** The stubs of [service Greeter]

    A call goes to the server a channel address names; [None] is a status
    that is not OK. *)

Class AusfStub (W : Type) := {
  call_AmfAusfInteraction : string -> AmfAusfRequest.t -> prog W (option AmfAusfReply.t)
}.

Class SmfStub (W : Type) := {
  call_AmfSmfInteraction : string -> AmfSmfRequest.t -> prog W (option AmfSmfReply.t)
}.
