(* ===== verification/Ausf.v ===== *)
(** * Ausf: authentication vectors and location (src/ausf.cpp,
    src/ausf_server.cpp, src/mysql.cpp)

    The MySQL client library is the interface [MySqlLib]; [MySqlLaws] says
    what the three statements the AUSF issues do to the two tables it uses.
    The state of the program is the connection. *)

From Stdlib Require Import ZArith Lia Ascii String.
From S2P Require Import Prelude Utils Telecom Headers Packet Messages.

(** [MYSQL_RES]: the number of columns and the rows; a column may be NULL. *)
Record mysql_res := mk_res { num_fields : nat; rows : list (list (option string)) }.

Class MySqlLib := {
  MYSQL : Type;
  mysql_init : MYSQL;
  (** false: NULL was returned *)
  mysql_real_connect : string -> string -> string -> string -> MYSQL -> bool * MYSQL;
  (** true: an error code was returned *)
  mysql_query : string -> MYSQL -> bool * MYSQL;
  mysql_store_result : MYSQL -> option mysql_res * MYSQL;
  mysql_close : MYSQL -> MYSQL
}.

(** The statements the AUSF issues. *)
Definition select_autn (imsi : Z) : string :=
  "select key_id, rand_num from autn_info where imsi = " +:+ to_string imsi.
Definition delete_loc (imsi : Z) : string :=
  "delete from loc_info where imsi = " +:+ to_string imsi.
Definition insert_loc (imsi mmei : Z) : string :=
  "insert into loc_info values(" +:+ to_string imsi +:+ ", " +:+ to_string mmei +:+ ")".

(** A reachable server with the two tables: the rows of [autn_info]
    (imsi, key, random number) and of [loc_info] (imsi, mmei). *)
Class MySqlLaws `{MySqlLib} := {
  autn_info : MYSQL -> list (Z * Z * Z);
  loc_info : MYSQL -> list (Z * Z);
  select_law c imsi : 0 <= imsi ->
    exists c1 c2, mysql_query (select_autn imsi) c = (false, c1) /\
      mysql_store_result c1 =
        (Some (mk_res 2 (map (fun '(_, k, r) => [Some (to_string k); Some (to_string r)])
                 (filter (fun '(i, _, _) => i = imsi) (autn_info c)))), c2) /\
      autn_info c2 = autn_info c /\ loc_info c2 = loc_info c;
  delete_law c imsi : 0 <= imsi ->
    exists c1 c2, mysql_query (delete_loc imsi) c = (false, c1) /\
      mysql_store_result c1 = (None, c2) /\ autn_info c2 = autn_info c /\
      loc_info c2 = filter (fun p => p.1 <> imsi) (loc_info c);
  insert_law c imsi mmei : 0 <= imsi -> 0 <= mmei ->
    exists c1 c2, mysql_query (insert_loc imsi mmei) c = (false, c1) /\
      mysql_store_result c1 = (None, c2) /\ autn_info c2 = autn_info c /\
      loc_info c2 = loc_info c ++ [(imsi, mmei)]
}.

Module MySql.
Section MySql.
Context `{DB : MySqlLib}.

(** [class ConnInfo] *)
Record conn_info := mk_conn_info { server : string; user : string; passwd : string; db : string }.
Definition ConnInfo : conn_info := mk_conn_info "localhost" "root" "qwertyuiop" "ausf".

(** [MySql::MySql], [MySql::~MySql] *)
Definition construct : MYSQL := mysql_init.
Definition destruct : prog MYSQL unit := modify mysql_close.

(** [MySql::handle_db_error] *)
Definition handle_db_error {A} : prog MYSQL A :=
  _ ← lift (Utils.handle_type1_error (-1) "mysql error: mysql_handledberror");
  fail (UB "unreachable").

(** [MySql::conn] *)
Definition conn : prog MYSQL unit := fun c =>
  let '(ok, c) := mysql_real_connect (server ConnInfo) (user ConnInfo) (passwd ConnInfo)
                    (db ConnInfo) c in
  if ok then (Ret tt, c) else handle_db_error c.

(** [MySql::handle_query] *)
Definition handle_query (query : string) : prog MYSQL (option mysql_res) := fun c =>
  let '(err, c) := mysql_query query c in
  if err then handle_db_error c
  else let '(r, c) := mysql_store_result c in (Ret r, c).

End MySql.
End MySql.

Module Ausf.
Section Ausf.
Context `{DB : MySqlLib}.

(** [Ausf::handle_mysql_conn] *)
Definition handle_mysql_conn : prog MYSQL unit := MySql.conn.

(** The loop of [Ausf::get_autn_info] over the fields of the row, from
    field [i] on. *)
Fixpoint read_fields (n i : nat) (row : list (option string)) (key rand_num : Z)
  : result (Z * Z) :=
  match n with
  | O => Ret (key, rand_num)
  | S n =>
      match row !! i with
      | None => Fault (UB "read outside the buffer")
      | Some None => Fault (Throw "std::logic_error: basic_string::_M_construct null not valid")
      | Some (Some f) =>
          v ← stoull f;
          if (i =? 0)%nat then read_fields n (S i) row v rand_num
          else read_fields n (S i) row key v
      end
  end.

(** [Ausf::get_autn_info]; [key] and [rand_num] are what the caller's
    variables hold before. *)
Definition get_autn_info (imsi : Z) (key rand_num : Z) : prog MYSQL (Z * Z) :=
  query_res ← MySql.handle_query (select_autn imsi);
  match query_res with
  | None => fail (UB "null result")
  | Some r =>
      match rows r with
      | [] =>
          _ ← lift (Utils.handle_type1_error (-1) "mysql_fetch_row error: ausf_getautninfo");
          fail (UB "null row")
      | row :: _ => lift (read_fields (num_fields r) 0 row key rand_num)
      end
  end.

(** [handle_autninfo_req] and [handle_location_update] are to return a pointer
    and have no [return] statement.  Flowing off the end of such a function is
    undefined: the caller may find the pointer to the reply where it looks for
    the result, or find something else there, or not get control back at all.
    What happens is an argument; [true] if the pointer found is the reply's. *)
Inductive missing_return := Same_pointer | Other_pointer | No_return.
Definition flow_off (off : missing_return) : prog MYSQL bool :=
  match off with
  | Same_pointer => mret true
  | Other_pointer => mret false
  | No_return => fail (UB "end of a function that returns a pointer")
  end.

(** [Ausf::handle_autninfo_req]: the reply object after the call and the
    pointer that is found; [key0] and [rand0] are the uninitialised locals. *)
Definition handle_autninfo_req (off : missing_return) (key0 rand0 : Z) (imsi num_autn_vectors plmn_id nw_type : Z)
    (reply : AmfAusfReply.t) : prog MYSQL (AmfAusfReply.t * bool) :=
  '(key, rand_num) ← get_autn_info imsi key0 rand0;
  let sqn := u64 (rand_num + 1) in
  let xres := u64 (u64 (key + sqn) + rand_num) in
  let autn_num := u64 (xres + 1) in
  let ck := u64 (xres + 2) in
  let ik := u64 (xres + 3) in
  let k_asme := u64 (u64 (u64 (ck + ik) + sqn) + plmn_id) in
  let reply := reply <| AmfAusfReply.msg_type := 1 |> <| AmfAusfReply.autn_num := s64 autn_num |>
    <| AmfAusfReply.rand_num := s64 rand_num |> <| AmfAusfReply.xres := s64 xres |>
    <| AmfAusfReply.k_asme := s64 k_asme |> in
  same ← flow_off off;
  mret (reply, same).

(** [Ausf::set_loc_info] *)
Definition set_loc_info (imsi mmei : Z) : prog MYSQL unit :=
  _ ← MySql.handle_query (delete_loc imsi);
  _ ← MySql.handle_query (insert_loc imsi mmei);
  mret tt.

(** [Ausf::handle_location_update] *)
Definition handle_location_update (off : missing_return) (imsi mmei : Z) (reply : AmfAusfReply.t)
  : prog MYSQL (AmfAusfReply.t * bool) :=
  _ ← set_loc_info imsi mmei;
  let reply := reply <| AmfAusfReply.default_apn := 1 |> in
  same ← flow_off off;
  mret (reply, same).

(** [GreeterServiceImpl::AmfAusfInteraction] of the AUSF: the reply object
    that is sent back.  The pointer found after [handle_autninfo_req] is
    dereferenced, the one after [handle_location_update] is only printed.  The
    arguments are converted as the parameters of [handle_autninfo_req] ask, in
    the order they are passed. *)
Definition AmfAusfInteraction (off_autn off_loc : missing_return) (key0 rand0 : Z) (request : AmfAusfRequest.t)
    (reply : AmfAusfReply.t) : prog MYSQL AmfAusfReply.t :=
  let imsi := u64 (AmfAusfRequest.imsi request) in
  let reply := reply <| AmfAusfReply.message := "Hello " +:+ AmfAusfRequest.name request |> in
  if AmfAusfRequest.msg_type request =? 1 then
    '(reply, same) ← handle_autninfo_req off_autn key0 rand0 imsi
              (u64 (u16 (AmfAusfRequest.plmn_id request)))
              (u16 (u64 (AmfAusfRequest.num_autn_vec request)))
              (u16 (AmfAusfRequest.nw_type request)) reply;
    if (same : bool) then mret reply else fail (UB "the pointer is not the reply's")
  else if AmfAusfRequest.msg_type request =? 2 then
    '(reply, _) ← handle_location_update off_loc imsi (u32 (AmfAusfRequest.mmei request)) reply;
    mret reply
  else mret reply.

(** [handle_mme], the handler of the AUSF's TCP server: the fresh packet
    [pkt] is dispatched on without receiving anything. *)
Definition handle_mme (pkt : Packet.t) : result Z :=
  pkt ← Packet.extract_diameter_hdr pkt;
  match Diameter.msg_type (Packet.diameter_hdr pkt) with
  | 1 => mret 1
  | 2 => mret 1
  | _ => mret 1
  end.

End Ausf.
End Ausf.

(** ** Lemmas *)

(** The authentication vector of a subscriber. *)
Definition xres_of (key rand : Z) : Z := u64 (key + 2 * rand + 1).
Definition k_asme_of (key rand plmn : Z) : Z := u64 (2 * (key + 2 * rand + 1) + rand + 6 + plmn).

Section Lemmas.
Context `{DB : MySqlLib, LAWS : !MySqlLaws}.

Lemma handle_query_ok q c c1 c2 r :
  mysql_query q c = (false, c1) -> mysql_store_result c1 = (r, c2) ->
  MySql.handle_query q c = (Ret r, c2).
Proof. intros E1 E2. unfold MySql.handle_query. by rewrite E1, E2. Qed.

(** A statement the server refuses ends the process. *)
Lemma handle_query_fails q c c1 :
  mysql_query q c = (true, c1) ->
  MySql.handle_query q c = (Fault (Exit "mysql error: mysql_handledberror"), c1).
Proof. intros E1. unfold MySql.handle_query. by rewrite E1. Qed.

Lemma get_autn_info_found imsi key rand k0 r0 rest c :
  0 <= imsi -> 0 <= key <= ULLONG_MAX -> 0 <= rand <= ULLONG_MAX ->
  filter (fun '(i, _, _) => i = imsi) (autn_info c) = (imsi, key, rand) :: rest ->
  exists c', Ausf.get_autn_info imsi k0 r0 c = (Ret (key, rand), c') /\
    autn_info c' = autn_info c /\ loc_info c' = loc_info c.
Proof.
  intros Hi Hk Hr Hf. destruct (select_law c imsi Hi) as (c1 & c2 & E1 & E2 & E3 & E4).
  exists c2. split; [|done]. unfold Ausf.get_autn_info.
  rewrite (run_bind _ _ _ _ _ (handle_query_ok _ _ _ _ _ E1 E2)).
  rewrite Hf. cbn [rows num_fields map Ausf.read_fields lookup list_lookup].
  rewrite stoull_to_string by lia. res. cbn [Nat.eqb].
  by rewrite stoull_to_string by lia.
Qed.

Lemma get_autn_info_unknown imsi k0 r0 c :
  0 <= imsi -> filter (fun '(i, _, _) => i = imsi) (autn_info c) = [] ->
  exists c', Ausf.get_autn_info imsi k0 r0 c =
    (Fault (Exit "mysql_fetch_row error: ausf_getautninfo"), c').
Proof.
  intros Hi Hf. destruct (select_law c imsi Hi) as (c1 & c2 & E1 & E2 & _).
  exists c2. unfold Ausf.get_autn_info.
  rewrite (run_bind _ _ _ _ _ (handle_query_ok _ _ _ _ _ E1 E2)). by rewrite Hf.
Qed.

(** The vector the AUSF computes, without the intermediate wrap-arounds. *)
Lemma handle_autninfo_req_spec off k0 r0 imsi key rand n plmn nw rest reply c :
  0 <= imsi -> 0 <= key <= ULLONG_MAX -> 0 <= rand <= ULLONG_MAX ->
  filter (fun '(i, _, _) => i = imsi) (autn_info c) = (imsi, key, rand) :: rest ->
  exists c', Ausf.handle_autninfo_req off k0 r0 imsi n plmn nw reply c =
    (same ← Ausf.flow_off off;
     mret (reply <| AmfAusfReply.msg_type := 1 |>
                 <| AmfAusfReply.autn_num := s64 (u64 (xres_of key rand + 1)) |>
                 <| AmfAusfReply.rand_num := s64 rand |>
                 <| AmfAusfReply.xres := s64 (xres_of key rand) |>
                 <| AmfAusfReply.k_asme := s64 (k_asme_of key rand plmn) |>, same)) c' /\
    autn_info c' = autn_info c /\ loc_info c' = loc_info c.
Proof.
  intros Hi Hk Hr Hf.
  destruct (get_autn_info_found imsi key rand k0 r0 rest c Hi Hk Hr Hf) as (c' & E & E').
  exists c'. split; [|done]. unfold Ausf.handle_autninfo_req.
  rewrite (run_bind _ _ _ _ _ E). cbv zeta.
  assert (u64 (u64 (key + u64 (rand + 1)) + rand) = xres_of key rand) as ->
    by (unfold xres_of; wrap).
  assert (u64 (u64 (u64 (u64 (xres_of key rand + 2) + u64 (xres_of key rand + 3)) + u64 (rand + 1)) + plmn)
          = k_asme_of key rand plmn) as -> by (unfold xres_of, k_asme_of; wrap).
  done.
Qed.

Lemma set_loc_info_spec imsi mmei c :
  0 <= imsi -> 0 <= mmei ->
  exists c', Ausf.set_loc_info imsi mmei c = (Ret tt, c') /\ autn_info c' = autn_info c /\
    loc_info c' = filter (fun p => p.1 <> imsi) (loc_info c) ++ [(imsi, mmei)].
Proof.
  intros Hi Hm. destruct (delete_law c imsi Hi) as (c1 & c2 & E1 & E2 & E3 & E4).
  destruct (insert_law c2 imsi mmei Hi Hm) as (c3 & c4 & E5 & E6 & E7 & E8).
  exists c4. unfold Ausf.set_loc_info.
  rewrite (run_bind _ _ _ _ _ (handle_query_ok _ _ _ _ _ E1 E2)).
  rewrite (run_bind _ _ _ _ _ (handle_query_ok _ _ _ _ _ E5 E6)).
  split; [done|]. split; congruence.
Qed.

End Lemmas.

(** ** A database the laws hold for

    Two tables and an interpreter of the three statements. *)

Module ToyDb.

Record t := mk {
  t_autn : list (Z * Z * Z);
  t_loc : list (Z * Z);
  t_result : option mysql_res
}.

Fixpoint strip_prefix (p s : string) : option string :=
  match p, s with
  | EmptyString, _ => Some s
  | String a p, String b s => if Ascii.eqb a b then strip_prefix p s else None
  | _, _ => None
  end.

Fixpoint skip_digits (s : string) : string :=
  match s with
  | String c s' => if is_digit c then skip_digits s' else s
  | EmptyString => ""
  end.

Definition select_prefix : string := "select key_id, rand_num from autn_info where imsi = ".
Definition delete_prefix : string := "delete from loc_info where imsi = ".
Definition insert_prefix : string := "insert into loc_info values(".

Definition query (q : string) (c : t) : bool * t :=
  match strip_prefix select_prefix q with
  | Some s =>
      let imsi := digits_val 0 s in
      (false, c <| t_result := Some (mk_res 2
         (map (fun '(_, k, r) => [Some (to_string k); Some (to_string r)])
            (filter (fun '(i, _, _) => i = imsi) (t_autn c)))) |>)
  | None =>
      match strip_prefix delete_prefix q with
      | Some s =>
          let imsi := digits_val 0 s in
          (false, c <| t_loc := filter (fun p => p.1 <> imsi) (t_loc c) |> <| t_result := None |>)
      | None =>
          match strip_prefix insert_prefix q with
          | Some s =>
              match strip_prefix ", " (skip_digits s) with
              | Some s' =>
                  (false, c <| t_loc := t_loc c ++ [(digits_val 0 s, digits_val 0 s')] |>
                            <| t_result := None |>)
              | None => (true, c)
              end
          | None => (true, c)
          end
      end
  end.

Lemma strip_prefix_app p s : strip_prefix p (p +:+ s) = Some s.
Proof.
  induction p as [|a p IH]; [by destruct s|]. rewrite string_app_cons. simpl.
  by rewrite Ascii.eqb_refl.
Qed.

(** No statement starts like another. *)
Lemma select_delete x : strip_prefix select_prefix (delete_prefix +:+ x) = None.
Proof. reflexivity. Qed.
Lemma select_insert x : strip_prefix select_prefix (insert_prefix +:+ x) = None.
Proof. reflexivity. Qed.
Lemma delete_insert x : strip_prefix delete_prefix (insert_prefix +:+ x) = None.
Proof. reflexivity. Qed.

Lemma skip_digits_app p s : all_digits p = true -> skip_digits (p +:+ s) = skip_digits s.
Proof.
  induction p as [|c p IH]; [done|]. simpl. intros [Hc Hp]%andb_true_iff.
  simpl. rewrite Hc. by apply IH.
Qed.

Lemma digits_val_number z s :
  0 <= z -> digits_val 0 (to_string z +:+ s) = digits_val z s.
Proof. intros Hz. rewrite digits_val_to_string by done. f_equal. Qed.

End ToyDb.

#[export] Instance toy_mysql : MySqlLib := {
  MYSQL := ToyDb.t;
  mysql_real_connect _ _ _ _ c := (true, c);
  mysql_query := ToyDb.query;
  mysql_init := ToyDb.mk [] [] None;
  mysql_store_result c := (ToyDb.t_result c, c);
  mysql_close c := c
}.

#[export] Instance toy_mysql_laws : MySqlLaws.
Proof.
  refine {| autn_info := (ToyDb.t_autn : MYSQL -> _); loc_info := (ToyDb.t_loc : MYSQL -> _) |}.
  - intros c imsi Hi. eexists _, _. cbn [mysql_query toy_mysql].
    change (select_autn imsi) with (ToyDb.select_prefix +:+ to_string imsi).
    unfold ToyDb.query. rewrite ToyDb.strip_prefix_app. cbv zeta.
    rewrite digits_val_to_string_nil by done. by split.
  - intros c imsi Hi. eexists _, _. cbn [mysql_query toy_mysql].
    change (delete_loc imsi) with (ToyDb.delete_prefix +:+ to_string imsi).
    unfold ToyDb.query. rewrite ToyDb.select_delete, ToyDb.strip_prefix_app. cbv zeta.
    rewrite digits_val_to_string_nil by done. by split.
  - intros c imsi mmei Hi Hm. eexists _, _. cbn [mysql_query toy_mysql].
    change (insert_loc imsi mmei) with
      (ToyDb.insert_prefix +:+ (to_string imsi +:+ (", " +:+ (to_string mmei +:+ ")")))).
    unfold ToyDb.query.
    rewrite ToyDb.select_insert, ToyDb.delete_insert, ToyDb.strip_prefix_app. cbv zeta.
    rewrite ToyDb.skip_digits_app by by apply all_digits_to_string.
    change (ToyDb.skip_digits (", " +:+ (to_string mmei +:+ ")")))
      with (", " +:+ (to_string mmei +:+ ")")).
    rewrite ToyDb.strip_prefix_app, !ToyDb.digits_val_number by done.
    by split.
Defined.

(** ** Properties *)

Section Properties.
Context `{DB : MySqlLib, LAWS : !MySqlLaws}.

(** What the AUSF answers about a known subscriber. *)
Definition vector_for (key rand : Z) (req : AmfAusfRequest.t) (reply : AmfAusfReply.t) : Prop :=
  u64 (AmfAusfReply.rand_num reply) = rand /\
  u64 (AmfAusfReply.autn_num reply) = u64 (xres_of key rand + 1) /\
  u64 (AmfAusfReply.xres reply) = xres_of key rand /\
  u64 (AmfAusfReply.k_asme reply) = k_asme_of key rand (u16 (AmfAusfRequest.num_autn_vec req)).

(** A known subscriber. *)
Lemma autn_reply off off' k0 r0 (req : AmfAusfRequest.t) reply c key rand rest :
  let imsi := u64 (AmfAusfRequest.imsi req) in
  AmfAusfRequest.msg_type req = 1 ->
  0 <= key <= ULLONG_MAX -> 0 <= rand <= ULLONG_MAX ->
  filter (fun '(i, _, _) => i = imsi) (autn_info c) = (imsi, key, rand) :: rest ->
  exists c', autn_info c' = autn_info c /\ loc_info c' = loc_info c /\
    match off with
    | Ausf.Same_pointer => exists reply', vector_for key rand req reply' /\
        Ausf.AmfAusfInteraction off off' k0 r0 req reply c = (Ret reply', c')
    | _ => exists why, Ausf.AmfAusfInteraction off off' k0 r0 req reply c = (Fault (UB why), c')
    end.
Proof.
  intros imsi Hty Hk Hr Hf. pose proof (u64_range (AmfAusfRequest.imsi req)) as [Hi _].
  unfold Ausf.AmfAusfInteraction. rewrite Hty. cbn [Z.eqb Pos.eqb]. fold imsi in Hi |- *.
  destruct (handle_autninfo_req_spec off k0 r0 imsi key rand (u64 (u16 (AmfAusfRequest.plmn_id req)))
    (u16 (u64 (AmfAusfRequest.num_autn_vec req))) (u16 (AmfAusfRequest.nw_type req)) rest
    (reply <| AmfAusfReply.message := "Hello " +:+ AmfAusfRequest.name req |>) c Hi Hk Hr Hf)
    as (c' & E & E1 & E2).
  exists c'. do 2 (split; [done|]). destruct off; unfold Ausf.flow_off in E.
  - eexists. rewrite (run_bind _ _ _ _ _ E). split; [|reflexivity].
    unfold vector_for. cbn. rewrite !u64_s64. unfold ULLONG_MAX in *. repeat split; try done.
    + apply u64_id. lia.
    + unfold xres_of. wrap.
    + unfold xres_of. wrap.
    + rewrite u16_u64. unfold k_asme_of. wrap.
  - eexists. by rewrite (run_bind _ _ _ _ _ E).
  - eexists. by rewrite (run_bind_fault _ _ _ _ _ E).
Qed.

(** C36: the authentication request: for a known subscriber the AUSF answers
    with the random number of the database, [xres = key + 2 rand + 1],
    [autn = xres + 1] and a [k_asme] in which the number of requested vectors
    stands where the PLMN identity is meant (the server passes these two
    arguments in the wrong order); the database is unchanged.  This needs that
    [handle_autninfo_req], which ends without a [return] statement, happens to
    leave the pointer to the reply where the caller looks for its result;
    otherwise the request is undefined behaviour, whatever the caller finds.
    For an unknown subscriber the whole process exits. *)
Theorem autn_vector_correct off off' k0 r0 (req : AmfAusfRequest.t) reply c key rand rest :
  let imsi := u64 (AmfAusfRequest.imsi req) in
  AmfAusfRequest.msg_type req = 1 ->
  0 <= key <= ULLONG_MAX -> 0 <= rand <= ULLONG_MAX ->
  (filter (fun '(i, _, _) => i = imsi) (autn_info c) = (imsi, key, rand) :: rest ->
   exists c', autn_info c' = autn_info c /\ loc_info c' = loc_info c /\
     match off with
     | Ausf.Same_pointer => exists reply',
         Ausf.AmfAusfInteraction off off' k0 r0 req reply c = (Ret reply', c') /\
         u64 (AmfAusfReply.rand_num reply') = rand /\
         u64 (AmfAusfReply.autn_num reply') = u64 (xres_of key rand + 1) /\
         u64 (AmfAusfReply.xres reply') = xres_of key rand /\
         u64 (AmfAusfReply.k_asme reply') = k_asme_of key rand (u16 (AmfAusfRequest.num_autn_vec req))
     | Ausf.Other_pointer | Ausf.No_return =>
         exists why, Ausf.AmfAusfInteraction off off' k0 r0 req reply c = (Fault (UB why), c')
     end) /\
  (filter (fun '(i, _, _) => i = imsi) (autn_info c) = [] ->
   exists c', Ausf.AmfAusfInteraction off off' k0 r0 req reply c =
     (Fault (Exit "mysql_fetch_row error: ausf_getautninfo"), c')).
Proof.
  intros imsi Hty Hk Hr. pose proof (u64_range (AmfAusfRequest.imsi req)) as [Hi _].
  split; intros Hf.
  - destruct (autn_reply off off' k0 r0 req reply c key rand rest Hty Hk Hr Hf) as (c' & E1 & E2 & E).
    exists c'. do 2 (split; [done|]). destruct off; [|exact E | exact E].
    destruct E as (reply' & V & E). exists reply'. by split.
  - unfold Ausf.AmfAusfInteraction. rewrite Hty. cbn [Z.eqb Pos.eqb].
    destruct (get_autn_info_unknown imsi k0 r0 c Hi Hf) as (c' & E). exists c'.
    erewrite run_bind_fault; [done|]. unfold Ausf.handle_autninfo_req.
    by erewrite run_bind_fault.
Qed.

(** A location update. *)
Lemma location_reply off off' k0 r0 (req : AmfAusfRequest.t) reply c :
  let imsi := u64 (AmfAusfRequest.imsi req) in
  AmfAusfRequest.msg_type req = 2 -> NoDup (map fst (loc_info c)) ->
  exists c', autn_info c' = autn_info c /\ NoDup (map fst (loc_info c')) /\
    (forall i m, (i, m) ∈ loc_info c' <->
       (i = imsi /\ m = u32 (AmfAusfRequest.mmei req)) \/ (i <> imsi /\ (i, m) ∈ loc_info c)) /\
    match off' with
    | Ausf.No_return => exists why, Ausf.AmfAusfInteraction off off' k0 r0 req reply c = (Fault (UB why), c')
    | _ => exists reply', Ausf.AmfAusfInteraction off off' k0 r0 req reply c = (Ret reply', c') /\
        AmfAusfReply.default_apn reply' = 1
    end.
Proof.
  intros imsi Hty Hnd. pose proof (u64_range (AmfAusfRequest.imsi req)) as [Hi _].
  pose proof (u32_range (AmfAusfRequest.mmei req)) as [Hm _].
  destruct (set_loc_info_spec imsi _ c Hi Hm) as (c' & E & E1 & E2).
  exists c'. split; [done|]. rewrite E2. split; [|split].
  - rewrite map_app. apply NoDup_app. repeat split.
    + clear - Hnd. induction (loc_info c) as [|[i m] l IH]; [constructor|].
      cbn [map fst] in Hnd. apply NoDup_cons in Hnd as [Hn Hnd].
      rewrite filter_cons. destruct (decide _); [|by apply IH].
      cbn [map fst]. apply NoDup_cons. split; [|by apply IH].
      intros (p & Ep & Hp)%list_elem_of_fmap. apply list_elem_of_filter in Hp as [_ Hp].
      apply Hn, list_elem_of_fmap. by exists p.
    + intros x (p & -> & Hp)%list_elem_of_fmap. apply list_elem_of_filter in Hp as [Hp _].
      cbn. intros Hx%list_elem_of_singleton. congruence.
    + constructor; [apply not_elem_of_nil | constructor].
  - intros i m. rewrite elem_of_app, list_elem_of_filter, list_elem_of_singleton. cbn [fst].
    split; [intros [H|[= -> ->]]; tauto | intros [[-> ->]|H]; tauto].
  - unfold Ausf.AmfAusfInteraction. rewrite Hty. cbn [Z.eqb Pos.eqb]. cbv zeta. unfold Ausf.handle_location_update.
    destruct off'; (eexists; erewrite run_bind by (rewrite (run_bind _ _ _ _ _ E); reflexivity); by split) ||
      (eexists; by erewrite run_bind_fault by (rewrite (run_bind _ _ _ _ _ E); reflexivity)).
Qed.

(** C37: a location update leaves exactly one row for the subscriber, with the
    AMF that asked, and no other row changes; so the table keeps at most one
    row per subscriber.  The AMF is answered, whatever pointer the caller finds
    after [handle_location_update], which ends without a [return] statement, as
    long as it gets control back. *)
Theorem location_update_correct off off' k0 r0 (req : AmfAusfRequest.t) reply c :
  let imsi := u64 (AmfAusfRequest.imsi req) in
  AmfAusfRequest.msg_type req = 2 -> NoDup (map fst (loc_info c)) ->
  exists c', autn_info c' = autn_info c /\ NoDup (map fst (loc_info c')) /\
    (forall i m, (i, m) ∈ loc_info c' <->
       (i = imsi /\ m = u32 (AmfAusfRequest.mmei req)) \/ (i <> imsi /\ (i, m) ∈ loc_info c)) /\
    match off' with
    | Ausf.Same_pointer | Ausf.Other_pointer => exists reply',
        Ausf.AmfAusfInteraction off off' k0 r0 req reply c = (Ret reply', c') /\
        AmfAusfReply.default_apn reply' = 1
    | Ausf.No_return => exists why, Ausf.AmfAusfInteraction off off' k0 r0 req reply c = (Fault (UB why), c')
    end.
Proof.
  intros imsi Hty Hnd. destruct (location_reply off off' k0 r0 req reply c Hty Hnd) as (c' & E1 & E2 & E3 & E).
  exists c'. do 3 (split; [done|]). by destruct off'.
Qed.

End Properties.

(** ** The service as the AMF calls it *)

(** An AUSF with a subscriber base: it answers a request for the vector of
    a subscriber it knows, and any location update; calls do not change what
    it knows. *)
Class AusfContract (W : Type) `{AusfStub W} := {
  ausf_channel : string -> bool;
  ausf_knows : Z -> Z -> Z -> W -> Prop;
  ausf_ready : W -> Prop;
  ausf_autn_law ch w m key rand :
    ausf_channel ch = true -> ausf_ready w -> AmfAusfRequest.msg_type m = 1 ->
    ausf_knows (u64 (AmfAusfRequest.imsi m)) key rand w ->
    exists w' reply,
      call_AmfAusfInteraction ch m w = (Ret (Some reply), w') /\
      u64 (AmfAusfReply.rand_num reply) = rand /\
      u64 (AmfAusfReply.autn_num reply) = u64 (xres_of key rand + 1) /\
      u64 (AmfAusfReply.xres reply) = xres_of key rand /\
      ausf_ready w' /\ (forall i k r, ausf_knows i k r w' <-> ausf_knows i k r w);
  ausf_location_law ch w m :
    ausf_channel ch = true -> ausf_ready w -> AmfAusfRequest.msg_type m = 2 ->
    exists w' reply,
      call_AmfAusfInteraction ch m w = (Ret (Some reply), w') /\
      ausf_ready w' /\ (forall i k r, ausf_knows i k r w' <-> ausf_knows i k r w)
}.

(** The AUSF of this file behind its address, where the missing [return]s do no
    harm: the callers find the pointer to the reply. *)
#[export] Instance ausf_stub `{MySqlLib} : AusfStub MYSQL := {
  call_AmfAusfInteraction ch m :=
    if String.prefix "172.18.0.3:5005" ch then
      reply ← Ausf.AmfAusfInteraction Ausf.Same_pointer Ausf.Same_pointer 0 0 m AmfAusfReply.empty; mret (Some reply)
    else mret None
}.

(** The first row of the subscriber. *)
Definition subscriber `{DB : MySqlLib, LAWS : !MySqlLaws} (i key rand : Z) (c : MYSQL) : Prop :=
  (0 <= key <= ULLONG_MAX /\ 0 <= rand <= ULLONG_MAX) /\
  exists rest, filter (fun '(j, _, _) => j = i) (autn_info c) = (i, key, rand) :: rest.

#[export] Program Instance ausf_contract `{DB : MySqlLib, LAWS : !MySqlLaws} : AusfContract MYSQL := {
  ausf_channel := String.prefix "172.18.0.3:5005";
  ausf_knows := subscriber;
  ausf_ready c := NoDup (map fst (loc_info c))
}.
Next Obligation.
  intros DB LAWS ch c m key rand Hch Hr Hty ([Hk Hrd] & rest & Hf).
  destruct (autn_reply Ausf.Same_pointer Ausf.Same_pointer 0 0 m AmfAusfReply.empty c key rand rest Hty Hk Hrd Hf)
    as (c' & E5 & E6 & rep & (E1 & E2 & E3 & _) & E).
  exists c', rep. unfold call_AmfAusfInteraction, ausf_stub. rewrite Hch.
  rewrite (run_bind _ _ _ _ _ E). split; [done|]. do 3 (split; [done|]).
  split; [by rewrite E6|]. intros i k r. unfold subscriber. by rewrite E5.
Qed.
Next Obligation.
  intros DB LAWS ch c m Hch Hr Hty.
  destruct (location_reply Ausf.Same_pointer Ausf.Same_pointer 0 0 m AmfAusfReply.empty c Hty Hr)
    as (c' & E2 & E3 & _ & rep & E & _).
  exists c', rep. unfold call_AmfAusfInteraction, ausf_stub. rewrite Hch.
  rewrite (run_bind _ _ _ _ _ E). split; [done|]. split; [done|].
  intros i k r. unfold subscriber. by rewrite E2.
Qed.

(** *** Witnesses *)

(** A subscriber base of three. *)
Definition demo_db : MYSQL :=
  ToyDb.mk [(119000000000, 0, 10); (119000000001, 1, 20); (119000000002, 2, 30)]
    [(119000000000, 5); (119000000002, 6)] None.

Definition demo_request (ty imsi : Z) : AmfAusfRequest.t :=
  AmfAusfRequest.mk "AMF" "typ1" imsi 11 1 0 ty 11.

Lemma autn_vector_correct_witness :
  (exists c', autn_info c' = autn_info demo_db /\ loc_info c' = loc_info demo_db /\ exists reply',
     Ausf.AmfAusfInteraction Ausf.Same_pointer Ausf.No_return 0 0 (demo_request 1 119000000001)
       AmfAusfReply.empty demo_db = (Ret reply', c') /\
     u64 (AmfAusfReply.rand_num reply') = 20 /\
     u64 (AmfAusfReply.autn_num reply') = u64 (xres_of 1 20 + 1) /\
     u64 (AmfAusfReply.xres reply') = xres_of 1 20 /\
     u64 (AmfAusfReply.k_asme reply') = k_asme_of 1 20 (u16 1)) /\
  k_asme_of 1 20 (u16 1) <> k_asme_of 1 20 11.
Proof.
  split; [|vm_compute; discriminate].
  apply (autn_vector_correct Ausf.Same_pointer Ausf.No_return 0 0 (demo_request 1 119000000001) AmfAusfReply.empty
    demo_db 1 20 []);
    [reflexivity | split; vm_compute; discriminate | split; vm_compute; discriminate | reflexivity].
Defined.

Lemma location_update_correct_witness :
  exists c', autn_info c' = autn_info demo_db /\ NoDup (map fst (loc_info c')) /\
    (forall i m, (i, m) ∈ loc_info c' <->
       (i = 119000000002 /\ m = 11) \/ (i <> 119000000002 /\ (i, m) ∈ loc_info demo_db)) /\
    exists reply', Ausf.AmfAusfInteraction Ausf.Other_pointer Ausf.Other_pointer 0 0 (demo_request 2 119000000002)
      AmfAusfReply.empty demo_db = (Ret reply', c') /\
    AmfAusfReply.default_apn reply' = 1.
Proof.
  apply (location_update_correct Ausf.Other_pointer Ausf.Other_pointer 0 0 (demo_request 2 119000000002)
    AmfAusfReply.empty demo_db).
  - reflexivity.
  - vm_compute. repeat constructor; set_solver.
Defined.
