(* ===== verification/Upf.v ===== *)
(** * Upf: the user plane function (src/upf.h, src/upf.cpp,
    src/upf_server.cpp)

    The state is the five tables and the address pool, with what the process
    sent.  One definition per method; the two overloads of [update_itfid],
    [get_imsi] and [rem_itfid] are numbered by their arity.  Members a
    constructor leaves unset take the values [garbage] gives for the key.
    The dispatchers run one turn of the servers' receive loops. *)

From Stdlib Require Import ZArith Lia Ascii String.
From S2P Require Import Prelude Utils Telecom Headers Packet Network Transport.

Module Upf.

Definition g_upf_s11_ip_addr : string := "172.18.0.6".
Definition g_upf_s1_ip_addr : string := "172.18.0.6".
Definition g_upf_s11_port : Z := 7000.
Definition g_upf_s1_port : Z := 7100.
Definition g_sink_ip_addr : string := "172.18.0.7".
Definition g_sink_port : Z := 8500.
Definition MAX_UE_COUNT : nat := 10000.

(** [class UeContext] *)
Record UeContext := mk_ctx {
  ip_addr : string;
  tai : Z;
  apn_in_use : Z;
  eps_bearer_id : Z;
  s1_uteid_ul : Z;
  s1_uteid_dl : Z;
  s11_cteid_smf : Z;
  s11_cteid_upf : Z;
  s1_cteid_ul : Z;
  s1_cteid_dl : Z;
  enodeb_ip_addr : string;
  enodeb_port : Z;
  sgi_cteid_ul : Z
}.

(** [UeContext::UeContext]; [s1_uteid_ul] and [s1_uteid_dl] are not set. *)
Definition construct_ctx (garbage_ul garbage_dl : Z) : UeContext :=
  mk_ctx "" 0 0 0 garbage_ul garbage_dl 0 0 0 0 "" 0 0.

(** [UeContext::init] *)
Definition init_ctx (arg_ip_addr : string) (arg_tai arg_apn_in_use arg_eps_bearer_id
    arg_s11_cteid_smf arg_s11_cteid_upf arg_s1_uteid_ul : Z) (c : UeContext) : UeContext :=
  c <| ip_addr := arg_ip_addr |> <| tai := arg_tai |> <| apn_in_use := arg_apn_in_use |>
    <| eps_bearer_id := arg_eps_bearer_id |> <| s1_uteid_ul := arg_s1_uteid_ul |>
    <| s11_cteid_smf := arg_s11_cteid_smf |> <| s11_cteid_upf := arg_s11_cteid_upf |>.

(** [class Upf], the sockets apart. *)
Record t := mk {
  s11_id : gmap Z Z;
  s1_id : gmap Z Z;
  sgi_id : gmap string Z;
  ue_ctx : gmap Z UeContext;
  ho_ue_ctx : gmap Z UeContext;
  ip_addrs : gmap Z string
}.

(** The process: the tables and the datagrams sent so far. *)
Record proc := mk_proc { upf : t; out : list (sockaddr_in * list Z) }.

Definition on_upf (f : t -> t) (s : proc) : proc := s <| upf := f (upf s) |>.

(** *** The address pool *)

Definition prefix : string := "172.16.".

(** The loop of [Upf::set_ip_addrs], [n] turns from number [i] on. *)
Fixpoint set_ip_loop (n : nat) (i subnet host : Z) (pool : gmap Z string) : gmap Z string :=
  match n with
  | O => pool
  | S n =>
      let imsi := u64 (119000000000 + i) in
      let addr := prefix +:+ to_string subnet +:+ "." +:+ to_string host in
      let pool := <[imsi := addr]> pool in
      if host =? 254 then set_ip_loop n (i + 1) (subnet + 1) 3 pool
      else set_ip_loop n (i + 1) subnet (host + 1) pool
  end.

(** [Upf::set_ip_addrs] *)
Definition set_ip_addrs (u : t) : t :=
  u <| ip_addrs := set_ip_loop MAX_UE_COUNT 0 1 3 (ip_addrs u) |>.

(** [Upf::clrstl] *)
Definition clrstl (u : t) : t :=
  u <| s11_id := ∅ |> <| s1_id := ∅ |> <| ue_ctx := ∅ |> <| sgi_id := ∅ |> <| ip_addrs := ∅ |>.

(** [Upf::Upf] *)
Definition construct : t := set_ip_addrs (clrstl (mk ∅ ∅ ∅ ∅ ∅ ∅)).

(** *** The identification tables *)

(** [update_itfid(int, uint32_t, uint64_t)] *)
Definition update_itfid3 (itf_id_no teid imsi : Z) : prog proc unit :=
  match itf_id_no with
  | 11 => modify (on_upf (fun u => u <| s11_id := <[teid := imsi]> (s11_id u) |>))
  | 1 => modify (on_upf (fun u => u <| s1_id := <[teid := imsi]> (s1_id u) |>))
  | _ => lift (Utils.handle_type1_error (-1) "incorrect itf_id_no: upf_updateitfid")
  end.

(** [update_itfid(int, uint32_t, string, uint64_t)] *)
Definition update_itfid4 (itf_id_no teid : Z) (ue_ip_addr : string) (imsi : Z) : prog proc unit :=
  match itf_id_no with
  | 11 => modify (on_upf (fun u => u <| s11_id := <[teid := imsi]> (s11_id u) |>))
  | 1 => modify (on_upf (fun u => u <| s1_id := <[teid := imsi]> (s1_id u) |>))
  | 0 => modify (on_upf (fun u => u <| sgi_id := <[ue_ip_addr := imsi]> (sgi_id u) |>))
  | _ => lift (Utils.handle_type1_error (-1) "incorrect itf_id_no: upf_updateitfid")
  end.

(** [get_imsi(int, uint32_t)]: zero when there is no entry. *)
Definition get_imsi2 (itf_id_no teid : Z) : prog proc Z :=
  match itf_id_no with
  | 11 => gets (fun s => default 0 (s11_id (upf s) !! teid))
  | 1 => gets (fun s => default 0 (s1_id (upf s) !! teid))
  | _ => _ ← lift (Utils.handle_type1_error (-1) "incorrect itf_id_no: upf_getimsi"); mret 0
  end.

(** [get_imsi(int, uint32_t, string)] *)
Definition get_imsi3 (itf_id_no teid : Z) (ue_ip_addr : string) : prog proc Z :=
  match itf_id_no with
  | 11 => gets (fun s => default 0 (s11_id (upf s) !! teid))
  | 1 => gets (fun s => default 0 (s1_id (upf s) !! teid))
  | 0 => gets (fun s => default 0 (sgi_id (upf s) !! ue_ip_addr))
  | _ => _ ← lift (Utils.handle_type1_error (-1) "incorrect itf_id_no: upf_getimsi"); mret 0
  end.

(** [rem_itfid(int, uint32_t)] *)
Definition rem_itfid2 (itf_id_no teid : Z) : prog proc unit :=
  match itf_id_no with
  | 11 => modify (on_upf (fun u => u <| s11_id := delete teid (s11_id u) |>))
  | 1 => modify (on_upf (fun u => u <| s1_id := delete teid (s1_id u) |>))
  | _ => lift (Utils.handle_type1_error (-1) "incorrect itf_id_no: upf_remitfid")
  end.

(** [rem_itfid(int, uint32_t, string)] *)
Definition rem_itfid3 (itf_id_no teid : Z) (ue_ip_addr : string) : prog proc unit :=
  match itf_id_no with
  | 11 => modify (on_upf (fun u => u <| s11_id := delete teid (s11_id u) |>))
  | 1 => modify (on_upf (fun u => u <| s1_id := delete teid (s1_id u) |>))
  | 0 => modify (on_upf (fun u => u <| sgi_id := delete ue_ip_addr (sgi_id u) |>))
  | _ => lift (Utils.handle_type1_error (-1) "incorrect itf_id_no: upf_remitfid")
  end.

(** [Upf::rem_uectx] *)
Definition rem_uectx (imsi : Z) : prog proc unit :=
  modify (on_upf (fun u => u <| ue_ctx := delete imsi (ue_ctx u) |>)).

(** *** Sending *)

(** A datagram leaves: [UdpServer::snd] and [UdpClient::snd] towards an
    address (Transport.v has their loops). *)
Definition snd (dst : sockaddr_in) (pkt : Packet.t) : prog proc unit :=
  pkt ← lift (Packet.copy pkt);
  dgram ← lift (mem_read (Packet.data pkt) 0 (Packet.plen pkt));
  modify (fun s => s <| out := out s ++ [(dst, dgram)] |>).

Section Handlers.
Context (inet_aton : string -> option Z).
Context (garbage_ul garbage_dl : Z -> Z).

(** The element [ue_ctx[imsi]] creates. *)
Definition new_ctx (imsi : Z) : UeContext := construct_ctx (garbage_ul imsi) (garbage_dl imsi).

(** A read of a member of [ue_ctx[imsi]]. *)
Definition ctx_get {A} (imsi : Z) (f : UeContext -> A) : prog proc A :=
  _ ← modify (on_upf (fun u => u <| ue_ctx := touch (new_ctx imsi) imsi (ue_ctx u) |>));
  gets (fun s => f (at_or (new_ctx imsi) (ue_ctx (upf s)) imsi)).

(** An assignment to members of [ue_ctx[imsi]]. *)
Definition ctx_set (imsi : Z) (f : UeContext -> UeContext) : prog proc unit :=
  modify (on_upf (fun u => u <| ue_ctx := upd (new_ctx imsi) f imsi (ue_ctx u) |>)).

(** The key of [ho_ue_ctx] is 32 bits wide. *)
Definition ho_get {A} (imsi : Z) (f : UeContext -> A) : prog proc A :=
  let k := u32 imsi in
  _ ← modify (on_upf (fun u => u <| ho_ue_ctx := touch (new_ctx imsi) k (ho_ue_ctx u) |>));
  gets (fun s => f (at_or (new_ctx imsi) (ho_ue_ctx (upf s)) k)).

Definition ho_set (imsi : Z) (f : UeContext -> UeContext) : prog proc unit :=
  modify (on_upf (fun u => u <| ho_ue_ctx := upd (new_ctx imsi) f (u32 imsi) (ho_ue_ctx u) |>)).

(** [ip_addrs[imsi]] *)
Definition ip_get (imsi : Z) : prog proc string :=
  _ ← modify (on_upf (fun u => u <| ip_addrs := touch "" imsi (ip_addrs u) |>));
  gets (fun s => at_or "" (ip_addrs (upf s)) imsi).

(** The packet [pkt.clear_pkt(); pkt.append_item(..)...;
    pkt.prepend_gtp_hdr(2, ty, pkt.len, teid)]. *)
Definition n4_reply (pkt : Packet.t) (its : list item) (ty teid : Z) : result Packet.t :=
  pkt ← Packet.clear_pkt pkt;
  pkt ← Packet.append_items pkt its;
  Packet.prepend_gtp_hdr pkt 2 ty (Packet.plen pkt) teid.

(** [Upf::handle_create_session] *)
Definition handle_create_session (src_sock_addr : sockaddr_in) (pkt : Packet.t) : prog proc unit :=
  pkt ← lift (Packet.copy pkt);
  '(s11_cteid_smf, pkt) ← lift (Packet.extract_item_uint32 pkt);
  '(imsi, pkt) ← lift (Packet.extract_item_uint64 pkt);
  '(eps_bearer_id, pkt) ← lift (Packet.extract_item_uint8 pkt);
  '(apn_in_use, pkt) ← lift (Packet.extract_item_uint64 pkt);
  '(arg_tai, pkt) ← lift (Packet.extract_item_uint64 pkt);
  let s1_uteid_ul := s11_cteid_smf in
  let s11_cteid_upf := s11_cteid_smf in
  ue_ip_addr ← ip_get imsi;
  _ ← update_itfid3 11 s11_cteid_upf imsi;
  _ ← update_itfid3 1 s1_uteid_ul imsi;
  _ ← update_itfid4 0 0 ue_ip_addr imsi;
  _ ← ctx_set imsi (init_ctx ue_ip_addr arg_tai apn_in_use eps_bearer_id
                      s1_uteid_ul s11_cteid_smf s11_cteid_upf);
  _ ← ctx_set imsi (fun c => c <| tai := arg_tai |>);
  pkt ← lift (n4_reply pkt [IU32 s11_cteid_upf; IStr ue_ip_addr; IU32 s1_uteid_ul] 1 s11_cteid_smf);
  snd src_sock_addr pkt.

(** [Upf::handle_modify_bearer] *)
Definition handle_modify_bearer (src_sock_addr : sockaddr_in) (pkt : Packet.t) : prog proc unit :=
  pkt ← lift (Packet.copy pkt);
  imsi ← get_imsi2 11 (Gtp.teid (Packet.gtp_hdr pkt));
  _ ← (if imsi =? 0
       then lift (Utils.handle_type1_error (-1) "Zero imsi: upf_handlemodifybearer")
       else mret tt);
  '(eps_bearer_id, pkt) ← lift (Packet.extract_item_uint8 pkt);
  '(dl, pkt) ← lift (Packet.extract_item_uint32 pkt);
  '(enb_ip, pkt) ← lift (Packet.extract_item_string pkt);
  '(enb_port, pkt) ← lift (Packet.extract_item_int pkt);
  _ ← ctx_set imsi (fun c => c <| s1_uteid_dl := dl |> <| enodeb_ip_addr := enb_ip |>
                               <| enodeb_port := enb_port |>);
  s11_cteid_smf ← ctx_get imsi s11_cteid_smf;
  pkt ← lift (n4_reply pkt [IBool true] 2 s11_cteid_smf);
  snd src_sock_addr pkt.

(** [UdpClient::set_server]: where the client sends from now on. *)
Definition set_server (ip : string) (port : Z) : prog proc sockaddr_in :=
  lift (Network.set_inet_sock_addr inet_aton ip port).

(** [Upf::handle_uplink_udata] *)
Definition handle_uplink_udata (pkt : Packet.t) : prog proc unit :=
  pkt ← lift (Packet.copy pkt);
  pkt ← lift (Packet.truncate pkt);
  dst ← set_server g_sink_ip_addr g_sink_port;
  snd dst pkt.

(** [Upf::get_downlink_info]: [None] is the result [false]. *)
Definition get_downlink_info (imsi : Z) : prog proc (option (Z * string * Z)) :=
  gets (fun s =>
    match ue_ctx (upf s) !! imsi with
    | Some c =>
        if enodeb_port c =? 0 then None
        else Some (s1_uteid_dl c, enodeb_ip_addr c, enodeb_port c)
    | None => None
    end).

(** [Upf::get_uplink_info] *)
Definition get_uplink_info (imsi : Z) : prog proc (option (Z * string * Z)) :=
  gets (fun s =>
    match ue_ctx (upf s) !! imsi with
    | Some c => Some (sgi_cteid_ul c, "10.0.3.129", 8500)
    | None => None
    end).

(** [Upf::handle_downlink_udata] *)
Definition handle_downlink_udata (pkt : Packet.t) : prog proc unit :=
  pkt ← lift (Packet.copy pkt);
  ue_ip_addr ← lift (Network.get_dst_ip_addr pkt);
  imsi ← get_imsi3 0 0 ue_ip_addr;
  if imsi =? 0 then mret tt
  else
    res ← get_downlink_info imsi;
    match res with
    | None => mret tt
    | Some (dl, enb_ip, enb_port) =>
        pkt ← lift (Packet.truncate pkt);
        pkt ← lift (Packet.prepend_gtp_hdr pkt 1 2 (Packet.plen pkt) dl);
        dst ← set_server enb_ip enb_port;
        snd dst pkt
    end.

(** [Upf::handle_indirect_tunnel_setup] *)
Definition handle_indirect_tunnel_setup (src_sock_addr : sockaddr_in) (pkt : Packet.t)
  : prog proc unit :=
  pkt ← lift (Packet.copy pkt);
  imsi ← get_imsi2 11 (Gtp.teid (Packet.gtp_hdr pkt));
  '(dl, pkt) ← lift (Packet.extract_item_uint32 pkt);
  _ ← ho_set imsi (fun c => c <| s1_uteid_dl := dl |>);
  s11_cteid_smf ← ctx_get imsi s11_cteid_smf;
  let s1_uteid_ul := u32 (s11_cteid_smf + 1) in
  _ ← update_itfid3 1 s1_uteid_ul imsi;
  pkt ← lift (n4_reply pkt [IBool true; IU32 s1_uteid_ul] 4 s11_cteid_smf);
  snd src_sock_addr pkt.

(** [Upf::handle_handover_completion] *)
Definition handle_handover_completion (src_sock_addr : sockaddr_in) (pkt : Packet.t)
  : prog proc unit :=
  pkt ← lift (Packet.copy pkt);
  imsi ← get_imsi2 11 (Gtp.teid (Packet.gtp_hdr pkt));
  dl ← ho_get imsi s1_uteid_dl;
  _ ← ctx_set imsi (fun c => c <| s1_uteid_dl := dl |>);
  s11_cteid_smf ← ctx_get imsi s11_cteid_smf;
  _ ← modify (on_upf (fun u => u <| ho_ue_ctx := delete (u32 imsi) (ho_ue_ctx u) |>));
  pkt ← lift (n4_reply pkt [IBool true] 5 s11_cteid_smf);
  snd src_sock_addr pkt.

(** [Upf::handle_indirect_tunnel_teardown_] *)
Definition handle_indirect_tunnel_teardown_ (src_sock_addr : sockaddr_in) (pkt : Packet.t)
  : prog proc unit :=
  pkt ← lift (Packet.copy pkt);
  imsi ← get_imsi2 11 (Gtp.teid (Packet.gtp_hdr pkt));
  s11_cteid_smf ← ctx_get imsi s11_cteid_smf;
  '(s1_uteid_ul_indirect, pkt) ← lift (Packet.extract_item_uint32 pkt);
  _ ← rem_itfid2 1 s1_uteid_ul_indirect;
  pkt ← lift (n4_reply pkt [IBool true] 6 s11_cteid_smf);
  snd src_sock_addr pkt.

(** [Upf::handle_detach] *)
Definition handle_detach (src_sock_addr : sockaddr_in) (pkt : Packet.t) : prog proc unit :=
  pkt ← lift (Packet.copy pkt);
  imsi ← get_imsi2 11 (Gtp.teid (Packet.gtp_hdr pkt));
  _ ← (if imsi =? 0
       then lift (Utils.handle_type1_error (-1) "Zero imsi: upf_handledetach")
       else mret tt);
  '(eps_bearer_id, pkt) ← lift (Packet.extract_item_uint8 pkt);
  '(arg_tai, pkt) ← lift (Packet.extract_item_uint64 pkt);
  found ← gets (fun s => bool_decide (is_Some (ue_ctx (upf s) !! imsi)));
  _ ← (if found : bool then mret tt
       else lift (Utils.handle_type1_error (-1) "No uectx: upf_handledetach"));
  s11_cteid_mme ← ctx_get imsi s11_cteid_smf;
  s11_cteid_sgw ← ctx_get imsi s11_cteid_upf;
  s1_uteid_ul ← ctx_get imsi s1_uteid_ul;
  ue_ip_addr ← ctx_get imsi ip_addr;
  pkt ← lift (n4_reply pkt [IBool true] 3 s11_cteid_mme);
  _ ← snd src_sock_addr pkt;
  _ ← rem_itfid2 11 s11_cteid_sgw;
  _ ← rem_itfid2 1 s1_uteid_ul;
  _ ← rem_itfid3 0 0 ue_ip_addr;
  rem_uectx imsi.

(** One turn of [handle_s11_traffic]; [pkt] is the thread's packet. *)
Definition handle_s11_traffic (src_sock_addr : sockaddr_in) (pkt : Packet.t)
    (d : UdpClient.datagram) : prog proc (sockaddr_in * Packet.t) :=
  '(src_sock_addr, pkt) ← lift (UdpServer.rcv src_sock_addr pkt d);
  pkt ← lift (Packet.extract_gtp_hdr pkt);
  _ ← match Gtp.msg_type (Packet.gtp_hdr pkt) with
      | 1 => handle_create_session src_sock_addr pkt
      | 2 => handle_modify_bearer src_sock_addr pkt
      | 3 => handle_detach src_sock_addr pkt
      | 4 => handle_indirect_tunnel_setup src_sock_addr pkt
      | 5 => handle_handover_completion src_sock_addr pkt
      | 6 => handle_indirect_tunnel_teardown_ src_sock_addr pkt
      | _ => mret tt
      end;
  mret (src_sock_addr, pkt).

(** One turn of [handle_s1_traffic] *)
Definition handle_s1_traffic (src_sock_addr : sockaddr_in) (pkt : Packet.t)
    (d : UdpClient.datagram) : prog proc (sockaddr_in * Packet.t) :=
  '(src_sock_addr, pkt) ← lift (UdpServer.rcv src_sock_addr pkt d);
  pkt ← lift (Packet.extract_gtp_hdr pkt);
  _ ← match Gtp.msg_type (Packet.gtp_hdr pkt) with
      | 1 => handle_uplink_udata pkt
      | _ => mret tt
      end;
  mret (src_sock_addr, pkt).

(** One turn of [handle_sgi_traffic] *)
Definition handle_sgi_traffic (src_sock_addr : sockaddr_in) (pkt : Packet.t)
    (d : UdpClient.datagram) : prog proc (sockaddr_in * Packet.t) :=
  '(src_sock_addr, pkt) ← lift (UdpServer.rcv src_sock_addr pkt d);
  _ ← handle_downlink_udata pkt;
  mret (src_sock_addr, pkt).

End Handlers.
End Upf.

(** ** Running a handler on a packet *)

(** The header [prepend_gtp_hdr(2, ..)] puts in front. *)
Definition gtp_v2 (g : Gtp.t) (ty ml te : Z) : Gtp.t :=
  g <| Gtp.msg_type := u8 ty |> <| Gtp.msg_len := u16 ml |> <| Gtp.teid := u32 te |>
    <| Gtp.flags := if 0 <? u32 te then 72 else 64 |>.

Lemma gtp_init_v2 g ty ml te : Gtp.init g 2 ty ml te = Ret (gtp_v2 g ty ml te).
Proof. reflexivity. Qed.

Lemma gtp_v2_wf g ty ml te : Gtp.wf g -> Gtp.wf (gtp_v2 g ty ml te).
Proof.
  intros (H1 & H2 & H3 & H4 & H5 & H6 & H7 & H8 & H9). unfold Gtp.wf, gtp_v2. cbn.
  rewrite u8_idem, u16_idem, u32_idem. by destruct (0 <? u32 te).
Qed.

Lemma gtp_init_v1 g ty ml te :
  Gtp.wf g ->
  exists g', Gtp.init g 1 ty ml te = Ret g' /\ Gtp.wf g' /\ Gtp.msg_type g' = u8 ty /\
    Gtp.teid g' = u32 te.
Proof.
  intros (H1 & H2 & H3 & H4 & H5 & H6 & H7 & H8 & H9). eexists. split; [reflexivity|].
  unfold Gtp.wf. cbn. by rewrite u8_idem, u16_idem, u32_idem.
Qed.

Lemma n4_reply_rd p its ty te :
  length (Packet.data p) = Z.to_nat BUF_SIZE -> 16 + len (enc_items its) <= BUF_SIZE ->
  Upf.n4_reply p its ty te =
  (let g := gtp_v2 (Packet.gtp_hdr p) ty (len (enc_items its)) te in
   Ret (rd (set_gtp (hdrs_of p) g) (Gtp.to_bytes g ++ enc_items its) [])).
Proof.
  intros Hp Hl. unfold Upf.n4_reply. rewrite clear_pkt_rd by done. res.
  rewrite append_items_rd by (unfold fits; len_lia). res. cbn [app].
  rewrite prepend_gtp_hdr_rd with (g := gtp_v2 (Packet.gtp_hdr p) ty (len (enc_items its)) te).
  - done.
  - cbn [Packet.plen rd rdl]. by rewrite app_nil_r.
  - len_lia.
Qed.

Lemma snd_rd dst h pre post s :
  fits pre post ->
  Upf.snd dst (rd h pre post) s = (Ret tt, s <| Upf.out := Upf.out s ++ [(dst, pre ++ post)] |>).
Proof.
  intros H. unfold Upf.snd. rewrite (run_lift _ _ _ _ (copy_rd h pre post H)).
  rewrite (run_lift _ _ _ (pre ++ post)); [done|].
  unfold rd, rdl. pk. by apply mem_read_pad_all.
Qed.

Ltac upf_st :=
  unfold Upf.on_upf; cbn [Upf.upf Upf.out Upf.s11_id Upf.s1_id Upf.sgi_id Upf.ue_ctx
    Upf.ho_ue_ctx Upf.ip_addrs apply_update constant].

(** A packet whose whole content was consumed is a valid scratch packet. *)
Ltac lensolve := unfold fits, BUF_SIZE in *; cbn [enc_items enc_item app] in *; len_lia.

Section Runs.
Context (inet_aton : string -> option Z).
Context (garbage_ul garbage_dl : Z -> Z).
Let new_ctx := Upf.new_ctx garbage_ul garbage_dl.

(** What [handle_create_session] does, request by request. *)
Lemma create_run src h pre teid imsi ebi apn ta s11 s1 sgi ctx ho ips o :
  let its := [IU32 teid; IU64 imsi; IU8 ebi; IU64 apn; IU64 ta] in
  let i := u64 imsi in
  let te := u32 teid in
  let ip := at_or "" ips i in
  let reply := [IU32 te; IStr ip; IU32 te] in
  fits pre (enc_items its) -> len (enc_items reply) <= 1000 ->
  Upf.handle_create_session garbage_ul garbage_dl src (rd h pre (enc_items its))
    (Upf.mk_proc (Upf.mk s11 s1 sgi ctx ho ips) o) =
  (Ret tt, Upf.mk_proc
    (Upf.mk (<[te := i]> s11) (<[te := i]> s1) (<[ip := i]> sgi)
       (<[i := Upf.init_ctx ip (u64 ta) (u64 apn) (u8 ebi) te te te (at_or (new_ctx i) ctx i)]> ctx)
       ho (touch "" i ips))
    (o ++ [(src, Gtp.to_bytes (gtp_v2 (h_gtp h) 1 (len (enc_items reply)) te) ++
                 enc_items reply)])).
Proof.
  intros its i te ip reply Hf Hl. subst its. unfold Upf.handle_create_session.
  run with (by apply copy_rd).
  parse. unfold Upf.ip_get, Upf.update_itfid3, Upf.update_itfid4, Upf.ctx_set. run. upf_st.
  rewrite at_or_touch. fold i te ip. fold reply.
  run with (apply n4_reply_rd; [apply rd_length; lensolve | unfold BUF_SIZE; lia]).
  rewrite snd_rd by (unfold fits, BUF_SIZE; len_lia). upf_st.
  rewrite app_nil_r, upd_upd. done.
Qed.

Lemma small_reply h pre ty te its :
  fits pre [] -> len (enc_items its) <= 1000 ->
  Upf.n4_reply (rd h pre []) its ty te =
  (let g := gtp_v2 (h_gtp h) ty (len (enc_items its)) te in
   Ret (rd (set_gtp h g) (Gtp.to_bytes g ++ enc_items its) [])).
Proof.
  intros H1 H2. rewrite n4_reply_rd; [done | by apply rd_length | unfold BUF_SIZE; lia].
Qed.

(** The datagram of a reply without text. *)
Definition reply_bytes (h : hdrs) (its : list item) (ty te : Z) : list Z :=
  Gtp.to_bytes (gtp_v2 (h_gtp h) ty (len (enc_items its)) te) ++ enc_items its.

Lemma modify_run src h pre ebi dl ip port s11 s1 sgi ctx ho ips o i :
  let its := [IU8 ebi; IU32 dl; IStr ip; IInt port] in
  let c := (at_or (new_ctx i) ctx i) <| Upf.s1_uteid_dl := u32 dl |>
             <| Upf.enodeb_ip_addr := ip |> <| Upf.enodeb_port := s32 port |> in
  fits pre (enc_items its) -> nul_free ip ->
  s11 !! Gtp.teid (h_gtp h) = Some i -> i <> 0 ->
  Upf.handle_modify_bearer garbage_ul garbage_dl src (rd h pre (enc_items its))
    (Upf.mk_proc (Upf.mk s11 s1 sgi ctx ho ips) o) =
  (Ret tt, Upf.mk_proc (Upf.mk s11 s1 sgi (<[i := c]> ctx) ho ips)
     (o ++ [(src, reply_bytes h [IBool true] 2 (Upf.s11_cteid_smf c))])).
Proof.
  intros its c Hf Hn Hi Hnz. subst its. unfold Upf.handle_modify_bearer.
  run with (by apply copy_rd). unfold Upf.get_imsi2. run. upf_st.
  change (Gtp.teid (Packet.gtp_hdr (rd h pre _))) with (Gtp.teid (h_gtp h)).
  rewrite Hi. cbn [from_option id]. rewrite (proj2 (Z.eqb_neq i 0)) by done. run. parse.
  run with (apply (extract_string_rd _ _ _ ip); [|done]; lensolve). parse.
  unfold Upf.ctx_set, Upf.ctx_get. run. upf_st.
  rewrite touch_upd, at_or_upd. fold c.
  run with (apply small_reply; [lensolve | vm_compute; discriminate]).
  rewrite snd_rd by (unfold fits, BUF_SIZE; cbn [enc_items enc_item]; len_lia).
  upf_st. by rewrite app_nil_r.
Qed.

Lemma detach_run src h pre ebi ta s11 s1 sgi ctx ho ips o i c :
  let its := [IU8 ebi; IU64 ta] in
  fits pre (enc_items its) ->
  s11 !! Gtp.teid (h_gtp h) = Some i -> i <> 0 -> ctx !! i = Some c ->
  Upf.handle_detach garbage_ul garbage_dl src (rd h pre (enc_items its))
    (Upf.mk_proc (Upf.mk s11 s1 sgi ctx ho ips) o) =
  (Ret tt, Upf.mk_proc
     (Upf.mk (delete (Upf.s11_cteid_upf c) s11) (delete (Upf.s1_uteid_ul c) s1)
        (delete (Upf.ip_addr c) sgi) (delete i ctx) ho ips)
     (o ++ [(src, reply_bytes h [IBool true] 3 (Upf.s11_cteid_smf c))])).
Proof.
  intros its Hf Hi Hnz Hc. subst its. unfold Upf.handle_detach.
  run with (by apply copy_rd). unfold Upf.get_imsi2. run. upf_st.
  change (Gtp.teid (Packet.gtp_hdr (rd h pre _))) with (Gtp.teid (h_gtp h)).
  rewrite Hi. cbn [from_option id]. rewrite (proj2 (Z.eqb_neq i 0)) by done. run. parse.
  upf_st. rewrite Hc, bool_decide_eq_true_2 by done. run.
  unfold Upf.ctx_get. run. upf_st.
  rewrite !(touch_id _ _ _ _ Hc), (at_or_Some _ _ _ _ Hc).
  run with (apply small_reply; [lensolve | vm_compute; discriminate]).
  erewrite run_bind; [|apply snd_rd; unfold fits, BUF_SIZE; cbn [enc_items enc_item]; len_lia].
  unfold Upf.rem_itfid2, Upf.rem_itfid3, Upf.rem_uectx, modify. run. upf_st.
  by rewrite app_nil_r.
Qed.

(** No session behind the TEID: the whole process exits. *)
Lemma modify_unknown src h pre post s :
  fits pre post -> Upf.s11_id (Upf.upf s) !! Gtp.teid (h_gtp h) = None ->
  Upf.handle_modify_bearer garbage_ul garbage_dl src (rd h pre post) s =
  (Fault (Exit "Zero imsi: upf_handlemodifybearer"), s).
Proof.
  intros Hf Hi. unfold Upf.handle_modify_bearer. run with (by apply copy_rd).
  unfold Upf.get_imsi2. run.
  change (Gtp.teid (Packet.gtp_hdr (rd h pre _))) with (Gtp.teid (h_gtp h)). by rewrite Hi.
Qed.

Lemma detach_unknown src h pre post s :
  fits pre post -> Upf.s11_id (Upf.upf s) !! Gtp.teid (h_gtp h) = None ->
  Upf.handle_detach garbage_ul garbage_dl src (rd h pre post) s =
  (Fault (Exit "Zero imsi: upf_handledetach"), s).
Proof.
  intros Hf Hi. unfold Upf.handle_detach. run with (by apply copy_rd).
  unfold Upf.get_imsi2. run.
  change (Gtp.teid (Packet.gtp_hdr (rd h pre _))) with (Gtp.teid (h_gtp h)). by rewrite Hi.
Qed.

Lemma tunnel_setup_run src h pre dl s11 s1 sgi ctx ho ips o i c :
  let k := u32 (Upf.s11_cteid_smf c + 1) in
  fits pre (enc_items [IU32 dl]) ->
  s11 !! Gtp.teid (h_gtp h) = Some i -> ctx !! i = Some c ->
  Upf.handle_indirect_tunnel_setup garbage_ul garbage_dl src (rd h pre (enc_items [IU32 dl]))
    (Upf.mk_proc (Upf.mk s11 s1 sgi ctx ho ips) o) =
  (Ret tt, Upf.mk_proc
     (Upf.mk s11 (<[k := i]> s1) sgi ctx
        (upd (new_ctx i) (fun c => c <| Upf.s1_uteid_dl := u32 dl |>) (u32 i) ho) ips)
     (o ++ [(src, reply_bytes h [IBool true; IU32 k] 4 (Upf.s11_cteid_smf c))])).
Proof.
  intros k Hf Hi Hc. unfold Upf.handle_indirect_tunnel_setup.
  run with (by apply copy_rd). unfold Upf.get_imsi2. run. upf_st.
  change (Gtp.teid (Packet.gtp_hdr (rd h pre _))) with (Gtp.teid (h_gtp h)).
  rewrite Hi. cbn [from_option id]. parse.
  unfold Upf.ho_set, Upf.ctx_get, Upf.update_itfid3. run. upf_st.
  rewrite (touch_id _ _ _ _ Hc), (at_or_Some _ _ _ _ Hc). fold k.
  run with (apply small_reply; [lensolve | vm_compute; discriminate]).
  rewrite snd_rd by (unfold fits, BUF_SIZE; cbn [enc_items enc_item]; len_lia).
  upf_st. by rewrite app_nil_r.
Qed.

Lemma tunnel_teardown_run src h pre ul s11 s1 sgi ctx ho ips o i c :
  fits pre (enc_items [IU32 ul]) ->
  s11 !! Gtp.teid (h_gtp h) = Some i -> ctx !! i = Some c ->
  Upf.handle_indirect_tunnel_teardown_ garbage_ul garbage_dl src (rd h pre (enc_items [IU32 ul]))
    (Upf.mk_proc (Upf.mk s11 s1 sgi ctx ho ips) o) =
  (Ret tt, Upf.mk_proc (Upf.mk s11 (delete (u32 ul) s1) sgi ctx ho ips)
     (o ++ [(src, reply_bytes h [IBool true] 6 (Upf.s11_cteid_smf c))])).
Proof.
  intros Hf Hi Hc. unfold Upf.handle_indirect_tunnel_teardown_.
  run with (by apply copy_rd). unfold Upf.get_imsi2. run. upf_st.
  change (Gtp.teid (Packet.gtp_hdr (rd h pre _))) with (Gtp.teid (h_gtp h)).
  rewrite Hi. cbn [from_option id]. unfold Upf.ctx_get. run. upf_st. parse.
  rewrite (touch_id _ _ _ _ Hc), (at_or_Some _ _ _ _ Hc).
  unfold Upf.rem_itfid2. run. upf_st.
  run with (apply small_reply; [lensolve | vm_compute; discriminate]).
  rewrite snd_rd by (unfold fits, BUF_SIZE; cbn [enc_items enc_item]; len_lia).
  upf_st. by rewrite app_nil_r.
Qed.

Lemma completion_run src h pre post s11 s1 sgi ctx ho ips o i c :
  let dl := Upf.s1_uteid_dl (at_or (new_ctx i) ho (u32 i)) in
  fits pre post ->
  s11 !! Gtp.teid (h_gtp h) = Some i -> ctx !! i = Some c ->
  Upf.handle_handover_completion garbage_ul garbage_dl src (rd h pre post)
    (Upf.mk_proc (Upf.mk s11 s1 sgi ctx ho ips) o) =
  (Ret tt, Upf.mk_proc
     (Upf.mk s11 s1 sgi (<[i := c <| Upf.s1_uteid_dl := dl |>]> ctx) (delete (u32 i) ho) ips)
     (o ++ [(src, reply_bytes h [IBool true] 5 (Upf.s11_cteid_smf c))])).
Proof.
  intros dl Hf Hi Hc. unfold Upf.handle_handover_completion.
  run with (by apply copy_rd). unfold Upf.get_imsi2. run. upf_st.
  change (Gtp.teid (Packet.gtp_hdr (rd h pre _))) with (Gtp.teid (h_gtp h)).
  rewrite Hi. cbn [from_option id]. unfold Upf.ho_get, Upf.ctx_get, Upf.ctx_set. run. upf_st.
  rewrite !at_or_touch. fold (new_ctx i). fold dl.
  rewrite touch_upd, at_or_upd, (at_or_Some _ _ _ _ Hc). upf_st.
  run with (rewrite n4_reply_rd; [done | by apply rd_length | vm_compute; discriminate]).
  rewrite snd_rd by (unfold fits, BUF_SIZE; cbn [enc_items enc_item]; len_lia).
  upf_st. unfold upd, touch. rewrite (at_or_Some _ _ _ _ Hc), delete_insert_eq, app_nil_r. done.
Qed.

Lemma uplink_run h pre post s a :
  fits pre post -> inet_aton Upf.g_sink_ip_addr = Some a ->
  Upf.handle_uplink_udata inet_aton (rd h pre post) s =
  (Ret tt, s <| Upf.out := Upf.out s ++ [(mk_sockaddr 8500 a, post)] |>).
Proof.
  intros Hf Ha. unfold Upf.handle_uplink_udata. run with (by apply copy_rd).
  run with (by apply truncate_rd). unfold Upf.set_server.
  run with (unfold Network.set_inet_sock_addr; by rewrite Ha).
  rewrite snd_rd by lensolve. done.
Qed.

End Runs.

(** ** The address pool *)

(** The address of subscriber [n] of the deployment. *)
Definition pool_ip (n : Z) : string :=
  Upf.prefix +:+ to_string (1 + n / 252) +:+ "." +:+ to_string (3 + n mod 252).

Lemma to_string_inj a b : 0 <= a -> 0 <= b -> to_string a = to_string b -> a = b.
Proof.
  intros Ha Hb E. pose proof (digits_val_to_string_nil a 0 Ha) as H1.
  pose proof (digits_val_to_string_nil b 0 Hb) as H2. rewrite E in H1. lia.
Qed.

Lemma dot_split p p' q q' :
  all_digits p = true -> all_digits p' = true ->
  p +:+ String "." q = p' +:+ String "." q' -> p = p' /\ q = q'.
Proof.
  revert p'. induction p as [|c p IH]; intros [|c' p'] Hp Hp' E.
  - by injection E as ->.
  - injection E as <- _. done.
  - injection E as -> _. done.
  - cbn [all_digits] in *. apply andb_true_iff in Hp as [_ Hp].
    apply andb_true_iff in Hp' as [_ Hp']. rewrite !string_app_cons in E.
    injection E as -> E. by destruct (IH p' Hp Hp' E) as [-> ->].
Qed.

Lemma pool_ip_inj n m : 0 <= n -> 0 <= m -> pool_ip n = pool_ip m -> n = m.
Proof.
  intros Hn Hm E. unfold pool_ip in E.
  pose proof (Z.mod_pos_bound n 252 ltac:(lia)). pose proof (Z.mod_pos_bound m 252 ltac:(lia)).
  pose proof (Z.div_pos n 252 Hn ltac:(lia)). pose proof (Z.div_pos m 252 Hm ltac:(lia)).
  assert (to_string (1 + n / 252) +:+ String "." (to_string (3 + n mod 252)) =
          to_string (1 + m / 252) +:+ String "." (to_string (3 + m mod 252))) as E'.
  { by injection E. }
  apply dot_split in E' as [E1 E2]; try (apply all_digits_to_string; lia).
  apply to_string_inj in E1; [|lia | lia]. apply to_string_inj in E2; [|lia | lia].
  pose proof (Z.div_mod n 252 ltac:(lia)). pose proof (Z.div_mod m 252 ltac:(lia)). lia.
Qed.

(** The loop fills in the addresses of the numbers it runs over. *)
Lemma set_ip_loop_spec k i pool :
  0 <= i -> i + Z.of_nat k <= 10 ^ 9 ->
  let r := Upf.set_ip_loop k i (1 + i / 252) (3 + i mod 252) pool in
  (forall j, i <= j < i + Z.of_nat k -> r !! deployed_imsi j = Some (pool_ip j)) /\
  (forall x, (forall j, i <= j < i + Z.of_nat k -> x <> deployed_imsi j) -> r !! x = pool !! x).
Proof.
  revert i pool. induction k as [|k IH]; intros i pool Hi Hk; cbv zeta.
  { split; [intros j Hj; lia | done]. }
  cbn [Upf.set_ip_loop]. rewrite (u64_id (119000000000 + i)) by lia.
  fold (deployed_imsi i). fold (pool_ip i).
  pose proof (Z.mod_pos_bound i 252 ltac:(lia)). pose proof (Z.div_mod i 252 ltac:(lia)).
  set (pool' := <[deployed_imsi i := pool_ip i]> pool).
  assert ((if 3 + i mod 252 =? 254
           then Upf.set_ip_loop k (i + 1) (1 + i / 252 + 1) 3 pool'
           else Upf.set_ip_loop k (i + 1) (1 + i / 252) (3 + i mod 252 + 1) pool') =
          Upf.set_ip_loop k (i + 1) (1 + (i + 1) / 252) (3 + (i + 1) mod 252) pool') as ->.
  { destruct (Z.eqb_spec (3 + i mod 252) 254) as [E|E].
    - assert ((i + 1) / 252 = i / 252 + 1 /\ (i + 1) mod 252 = 0) as [-> ->]; [|f_equal; lia].
      apply (Z.div_mod_unique 252); [left; apply Z.mod_pos_bound; lia | lia |].
      rewrite <- Z.div_mod by lia. lia.
    - assert ((i + 1) / 252 = i / 252 /\ (i + 1) mod 252 = i mod 252 + 1) as [-> ->];
        [|f_equal; lia].
      apply (Z.div_mod_unique 252); [left; apply Z.mod_pos_bound; lia | lia |].
      rewrite <- Z.div_mod by lia. lia. }
  destruct (IH (i + 1) pool') as [I1 I2]; [lia | lia |]. split.
  - intros j Hj. destruct (decide (j = i)) as [->|Hne]; [|apply I1; lia].
    rewrite I2; [apply lookup_insert_eq|]. intros j' Hj'. unfold deployed_imsi. lia.
  - intros x Hx. rewrite I2 by (intros j Hj; apply Hx; lia).
    apply lookup_insert_ne. intros <-. by apply (Hx i); lia.
Qed.

Definition pool : gmap Z string := Upf.set_ip_loop Upf.MAX_UE_COUNT 0 1 3 ∅.

#[global] Arguments Upf.set_ip_loop : simpl never.

Lemma construct_eq : Upf.construct = Upf.mk ∅ ∅ ∅ ∅ ∅ pool.
Proof.
  unfold pool, Upf.construct, Upf.set_ip_addrs, Upf.clrstl.
  cbn [Upf.s11_id Upf.s1_id Upf.sgi_id Upf.ue_ctx Upf.ho_ue_ctx Upf.ip_addrs apply_update constant].
  f_equal.
Qed.

Lemma pool_construct : Upf.ip_addrs Upf.construct = pool.
Proof. by rewrite construct_eq. Qed.

Lemma MAX_UE_COUNT_Z : Z.of_nat Upf.MAX_UE_COUNT = 10000.
Proof. reflexivity. Qed.

Lemma pool_spec n : 0 <= n < 10000 -> pool !! deployed_imsi n = Some (pool_ip n).
Proof.
  intros Hn. destruct (set_ip_loop_spec Upf.MAX_UE_COUNT 0 ∅) as [H1 _];
    [lia | rewrite MAX_UE_COUNT_Z; lia |].
  apply H1. rewrite MAX_UE_COUNT_Z. lia.
Qed.

Lemma pool_outside x : (forall n, 0 <= n < 10000 -> x <> deployed_imsi n) -> pool !! x = None.
Proof.
  intros Hx. destruct (set_ip_loop_spec Upf.MAX_UE_COUNT 0 ∅) as [_ H2];
    [lia | rewrite MAX_UE_COUNT_Z; lia |].
  unfold pool. etrans; [apply H2 | apply lookup_empty].
  intros j Hj. apply Hx. rewrite MAX_UE_COUNT_Z in Hj. lia.
Qed.

Lemma pool_only i a :
  pool !! i = Some a -> exists n, 0 <= n < 10000 /\ i = deployed_imsi n /\ a = pool_ip n.
Proof.
  intros Hi. destruct (decide (119000000000 <= i < 119000010000)) as [D|D].
  - exists (i - 119000000000). assert (i = deployed_imsi (i - 119000000000)) as E
      by (unfold deployed_imsi; lia). split; [lia|]. split; [done|].
    rewrite E in Hi. pose proof (pool_spec (i - 119000000000) ltac:(lia)). congruence.
  - rewrite pool_outside in Hi; [done|]. intros n Hn ->. unfold deployed_imsi in D. lia.
Qed.

#[global] Opaque pool.

(** ** What the N4 interface promises

    The abstract state is one session per subscriber number; the five tables
    are a representation of it. *)

Record session := mk_session {
  s_tai : Z; s_apn : Z; s_ebi : Z; s_dl : Z; s_enb_ip : string; s_enb_port : Z
}.

Inductive n4_request :=
  | Create (n ebi apn ta : Z)
  | Modify (n ebi dl : Z) (ip : string) (port : Z)
  | Detach (n ebi ta : Z).

Definition n4_number (r : n4_request) : Z :=
  match r with Create n _ _ _ | Modify n _ _ _ _ | Detach n _ _ => n end.

(** The message on the wire: type, TEID of the header, body. *)
Definition n4_type (r : n4_request) : Z :=
  match r with Create _ _ _ _ => 1 | Modify _ _ _ _ _ => 2 | Detach _ _ _ => 3 end.
Definition n4_teid (r : n4_request) : Z :=
  match r with Create _ _ _ _ => 0 | Modify n _ _ _ _ => n | Detach n _ _ => n end.
Definition n4_items (r : n4_request) : list item :=
  match r with
  | Create n ebi apn ta => [IU32 n; IU64 (deployed_imsi n); IU8 ebi; IU64 apn; IU64 ta]
  | Modify n ebi dl ip port => [IU8 ebi; IU32 dl; IStr ip; IInt port]
  | Detach n ebi ta => [IU8 ebi; IU64 ta]
  end.
Definition n4_answer (r : n4_request) : list item :=
  match r with
  | Create n _ _ _ => [IU32 n; IStr (pool_ip n); IU32 n]
  | _ => [IBool true]
  end.

Section Refinement.
Context (garbage_dl : Z -> Z).

(** The effect of a request on the sessions; a new one has no eNodeB yet
    and an indeterminate downlink TEID. *)
Definition n4_step (r : n4_request) (S : gmap Z session) : gmap Z session :=
  match r with
  | Create n ebi apn ta =>
      let old := default (mk_session 0 0 0 (garbage_dl (deployed_imsi n)) "" 0) (S !! n) in
      <[n := mk_session (u64 ta) (u64 apn) (u8 ebi) (s_dl old) (s_enb_ip old) (s_enb_port old)]> S
  | Modify n _ dl ip port =>
      alter (fun s => mk_session (s_tai s) (s_apn s) (s_ebi s) (u32 dl) ip (s32 port)) n S
  | Detach n _ _ => delete n S
  end.

End Refinement.

(** A request the SMF makes: a subscriber of the deployment, and a session
    that exists unless it is being created. *)
Definition n4_ok (S : gmap Z session) (r : n4_request) : Prop :=
  0 <= n4_number r < 10000 /\
  match r with
  | Create _ _ _ _ => True
  | Modify n _ _ ip _ => is_Some (S !! n) /\ nul_free ip /\ len (c_str ip) <= 900
  | Detach n _ _ => is_Some (S !! n)
  end.

(** The context the UPF keeps for a session. *)
Definition ctx_repr (n : Z) (s : session) (c : Upf.UeContext) : Prop :=
  Upf.ip_addr c = pool_ip n /\ Upf.tai c = s_tai s /\ Upf.apn_in_use c = s_apn s /\
  Upf.eps_bearer_id c = s_ebi s /\ Upf.s1_uteid_ul c = n /\ Upf.s1_uteid_dl c = s_dl s /\
  Upf.s11_cteid_smf c = n /\ Upf.s11_cteid_upf c = n /\
  Upf.enodeb_ip_addr c = s_enb_ip s /\ Upf.enodeb_port c = s_enb_port s.

(** The representation: the tables hold the sessions' entries and no others. *)
Record upf_repr (S : gmap Z session) (u : Upf.t) : Prop := {
  r_dom : forall n, is_Some (S !! n) -> 0 <= n < 10000;
  r_ctx : forall n s, S !! n = Some s ->
    exists c, Upf.ue_ctx u !! deployed_imsi n = Some c /\ ctx_repr n s c;
  r_ctx_only : forall i c, Upf.ue_ctx u !! i = Some c ->
    exists n, i = deployed_imsi n /\ is_Some (S !! n);
  r_s11 : forall t i, Upf.s11_id u !! t = Some i <-> is_Some (S !! t) /\ i = deployed_imsi t;
  r_s1 : forall t i, Upf.s1_id u !! t = Some i <-> is_Some (S !! t) /\ i = deployed_imsi t;
  r_sgi : forall a i, Upf.sgi_id u !! a = Some i <->
    exists n, is_Some (S !! n) /\ a = pool_ip n /\ i = deployed_imsi n;
  r_pool : Upf.ip_addrs u = pool
}.

Lemma deployed_imsi_inj n m : deployed_imsi n = deployed_imsi m -> n = m.
Proof. unfold deployed_imsi. lia. Qed.

Lemma repr_none S u n :
  upf_repr S u -> S !! n = None -> Upf.ue_ctx u !! deployed_imsi n = None.
Proof.
  intros R Hn. destruct (Upf.ue_ctx u !! deployed_imsi n) as [c|] eqn:E; [|done].
  destruct (r_ctx_only _ _ R _ _ E) as (m & Em%deployed_imsi_inj & Hm). subst m.
  rewrite Hn in Hm. by destruct Hm.
Qed.

(** Installing a context for [n] keeps the representation. *)
Lemma repr_insert S u n s c :
  upf_repr S u -> 0 <= n < 10000 -> ctx_repr n s c ->
  upf_repr (<[n := s]> S)
    (Upf.mk (<[n := deployed_imsi n]> (Upf.s11_id u)) (<[n := deployed_imsi n]> (Upf.s1_id u))
       (<[pool_ip n := deployed_imsi n]> (Upf.sgi_id u))
       (<[deployed_imsi n := c]> (Upf.ue_ctx u)) (Upf.ho_ue_ctx u) (Upf.ip_addrs u)).
Proof.
  intros R Hn Hc. split; cbn [Upf.ue_ctx Upf.s11_id Upf.s1_id Upf.sgi_id Upf.ip_addrs].
  - intros m. destruct (decide (m = n)) as [->|]; [done|].
    rewrite lookup_insert_ne by done. apply (r_dom _ _ R).
  - intros m s'. destruct (decide (m = n)) as [->|Hne].
    + rewrite !lookup_insert_eq. intros [= <-]. by exists c.
    + rewrite lookup_insert_ne by done. intros Hm.
      rewrite lookup_insert_ne by (by intros ?%deployed_imsi_inj). by apply (r_ctx _ _ R).
  - intros i c'. destruct (decide (i = deployed_imsi n)) as [->|Hne].
    + intros _. exists n. by rewrite lookup_insert_eq.
    + rewrite lookup_insert_ne by done. intros (m & -> & Hm)%(r_ctx_only _ _ R).
      exists m. split; [done|]. rewrite lookup_insert_ne; [done | congruence].
  - intros t i. destruct (decide (t = n)) as [->|Hne].
    + rewrite !lookup_insert_eq. split; [intros [= <-]; by split | by intros [_ ->]].
    + rewrite !lookup_insert_ne by done. apply (r_s11 _ _ R).
  - intros t i. destruct (decide (t = n)) as [->|Hne].
    + rewrite !lookup_insert_eq. split; [intros [= <-]; by split | by intros [_ ->]].
    + rewrite !lookup_insert_ne by done. apply (r_s1 _ _ R).
  - intros a i. destruct (decide (a = pool_ip n)) as [->|Hne].
    + rewrite lookup_insert_eq. split.
      * intros [= <-]. exists n. by rewrite lookup_insert_eq.
      * intros (m & Hm & E & ->). destruct (decide (m = n)) as [->|]; [done|].
        rewrite lookup_insert_ne in Hm by done. apply (r_dom _ _ R) in Hm.
        apply pool_ip_inj in E; [congruence | lia | lia].
    + rewrite lookup_insert_ne, (r_sgi _ _ R) by done.
      split; intros (m & Hm & -> & ->); exists m; (split; [|done]).
      * rewrite lookup_insert_ne; [done | congruence].
      * rewrite lookup_insert_ne in Hm; [done | congruence].
  - apply (r_pool _ _ R).
Qed.

Lemma repr_delete S u n :
  upf_repr S u -> 0 <= n < 10000 ->
  upf_repr (delete n S)
    (Upf.mk (delete n (Upf.s11_id u)) (delete n (Upf.s1_id u))
       (delete (pool_ip n) (Upf.sgi_id u)) (delete (deployed_imsi n) (Upf.ue_ctx u))
       (Upf.ho_ue_ctx u) (Upf.ip_addrs u)).
Proof.
  intros R Hn. assert (forall m, is_Some (delete n S !! m) <-> m <> n /\ is_Some (S !! m)) as Hd.
  { intros m. rewrite lookup_delete_is_Some. naive_solver. }
  split; cbn [Upf.ue_ctx Upf.s11_id Upf.s1_id Upf.sgi_id Upf.ip_addrs].
  - intros m [_ Hm]%Hd. by apply (r_dom _ _ R).
  - intros m s [Hne Hm]%lookup_delete_Some.
    rewrite lookup_delete_ne by (intros ?%deployed_imsi_inj; congruence).
    by apply (r_ctx _ _ R).
  - intros i c [Hne Hc]%lookup_delete_Some. apply (r_ctx_only _ _ R) in Hc as (m & -> & Hm).
    exists m. split; [done|]. apply Hd. split; [congruence | done].
  - intros t i. rewrite lookup_delete_Some, (r_s11 _ _ R), Hd. naive_solver.
  - intros t i. rewrite lookup_delete_Some, (r_s1 _ _ R), Hd. naive_solver.
  - intros a i. rewrite lookup_delete_Some, (r_sgi _ _ R). split.
    + intros (Hne & m & Hm & -> & ->). exists m. rewrite Hd. split; [split; congruence | done].
    + intros (m & [Hne Hm]%Hd & -> & ->). split; [|by exists m].
      apply (r_dom _ _ R) in Hm. intros E. apply pool_ip_inj in E; [congruence | lia | lia].
  - apply (r_pool _ _ R).
Qed.

(** ** Sizes of texts *)

Lemma ndigits_le z k : 0 <= z < 10 ^ Z.of_nat k -> (1 <= k)%nat -> (ndigits z <= k)%nat.
Proof.
  intros Hz Hk. unfold ndigits. destruct (decide (z = 0)) as [->|Hz0]; [done|].
  destruct (to_string_go z Hz0) as [->|]; [|lia].
  destruct (go_length_bounds (Z.to_N z)) as [_ H]. destruct (H ltac:(lia)) as [H1 H2].
  rewrite Z2N.id in H2 by lia. set (m := String.length _) in *.
  destruct (decide (m <= k)%nat); [done|].
  assert (10 ^ Z.of_nat k <= 10 ^ (Z.of_nat m - 1)) by (apply Z.pow_le_mono_r; lia). lia.
Qed.

Lemma len_string_bytes s : len (string_bytes s) = Z.of_nat (String.length s).
Proof.
  unfold len, string_bytes. rewrite length_map. f_equal. induction s; simpl; congruence.
Qed.

Lemma len_c_str s : len (c_str s) <= Z.of_nat (String.length s).
Proof. unfold c_str. rewrite <- len_string_bytes. apply len_until_nul. Qed.

Lemma string_bytes_app a b : string_bytes (a +:+ b) = string_bytes a ++ string_bytes b.
Proof. induction a; [done|]. rewrite string_app_cons. cbn. by f_equal. Qed.

Lemma nul_free_app a b : nul_free (a +:+ b) <-> nul_free a /\ nul_free b.
Proof. unfold nul_free. rewrite string_bytes_app. apply Forall_app. Qed.

Lemma nul_free_digits s : all_digits s = true -> nul_free s.
Proof.
  unfold nul_free. induction s as [|c s IH]; [constructor|]. cbn [all_digits].
  intros [Hc Hs]%andb_true_iff. cbn. constructor; [|by apply IH].
  unfold is_digit in Hc. apply andb_true_iff in Hc as [Hc _]. apply N.leb_le in Hc. lia.
Qed.

Lemma pool_ip_text n :
  0 <= n < 10000 -> nul_free (pool_ip n) /\ len (c_str (pool_ip n)) <= 30.
Proof.
  intros Hn. pose proof (Z.mod_pos_bound n 252 ltac:(lia)).
  pose proof (Z.div_pos n 252 ltac:(lia) ltac:(lia)).
  assert (n / 252 < 10000) by (apply Z.div_lt_upper_bound; lia).
  unfold pool_ip. split.
  - rewrite !nul_free_app. repeat split; try (apply nul_free_digits, all_digits_to_string; lia);
      unfold nul_free; repeat constructor; discriminate.
  - pose proof (len_c_str (Upf.prefix +:+ to_string (1 + n / 252) +:+ "." +:+ to_string (3 + n mod 252))).
    rewrite !string_length_app in H2. cbn [Upf.prefix String.length] in H2.
    pose proof (ndigits_le (1 + n / 252) 6 ltac:(simpl; lia) ltac:(lia)).
    pose proof (ndigits_le (3 + n mod 252) 6 ltac:(simpl; lia) ltac:(lia)).
    unfold ndigits in *. lia.
Qed.

(** ** Properties *)

Section Properties.
Context (garbage_ul garbage_dl : Z -> Z).

(** The handler a message type selects. *)
Definition n4_handler (from : sockaddr_in) (g : Gtp.t) (p : Packet.t) : prog Upf.proc unit :=
  match Gtp.msg_type g with
  | 1 => Upf.handle_create_session garbage_ul garbage_dl from p
  | 2 => Upf.handle_modify_bearer garbage_ul garbage_dl from p
  | 3 => Upf.handle_detach garbage_ul garbage_dl from p
  | 4 => Upf.handle_indirect_tunnel_setup garbage_ul garbage_dl from p
  | 5 => Upf.handle_handover_completion garbage_ul garbage_dl from p
  | 6 => Upf.handle_indirect_tunnel_teardown_ garbage_ul garbage_dl from p
  | _ => mret tt
  end.

Lemma receive_n4 src p from g bs s :
  length (Packet.data p) = Z.to_nat BUF_SIZE -> Gtp.wf g -> 16 + len bs <= BUF_SIZE ->
  let q := rd (set_gtp (hdrs_of p) g) (Gtp.to_bytes g) bs in
  Upf.handle_s11_traffic garbage_ul garbage_dl src p (UdpClient.Got from (Gtp.to_bytes g ++ bs)) s =
  (_ ← n4_handler from g q; mret (from, q)) s.
Proof.
  intros Hp Hg Hl q. unfold Upf.handle_s11_traffic.
  run with (apply udp_server_rcv; [done | len_lia]).
  run with (by apply (extract_gtp_hdr_rd _ [])). done.
Qed.

(** The datagram answers the request: type, the session's TEID, body. *)
Definition answers (r : n4_request) (dgram : list Z) : Prop :=
  exists g, Gtp.wf g /\ Gtp.msg_type g = n4_type r /\ Gtp.teid g = n4_number r /\
    dgram = Gtp.to_bytes g ++ enc_items (n4_answer r).

Lemma answers_v2 r g ml :
  Gtp.wf g -> 0 <= n4_number r < 10000 ->
  answers r (Gtp.to_bytes (gtp_v2 g (n4_type r) ml (n4_number r)) ++ enc_items (n4_answer r)).
Proof.
  intros Hg Hn. eexists. split; [by apply gtp_v2_wf|]. unfold gtp_v2. cbn.
  repeat split; [by destruct r | apply u32_id; lia].
Qed.

(** The request on the wire. *)
Definition n4_datagram (g : Gtp.t) (r : n4_request) : list Z :=
  Gtp.to_bytes g ++ enc_items (n4_items r).
Definition n4_header (g : Gtp.t) (r : n4_request) : Prop :=
  Gtp.wf g /\ Gtp.msg_type g = n4_type r /\ Gtp.teid g = n4_teid r.

Lemma n4_items_size S r : n4_ok S r -> len (enc_items (n4_items r)) <= 1000.
Proof. intros [Hn H]. destruct r; cbn [n4_items enc_items enc_item]; len_lia. Qed.

(** A session's context and entries. *)
Lemma repr_session S u n s :
  upf_repr S u -> S !! n = Some s ->
  0 <= n < 10000 /\ Upf.s11_id u !! n = Some (deployed_imsi n) /\
  Upf.s1_id u !! n = Some (deployed_imsi n) /\ Upf.sgi_id u !! pool_ip n = Some (deployed_imsi n) /\
  exists c, Upf.ue_ctx u !! deployed_imsi n = Some c /\ ctx_repr n s c.
Proof.
  intros R Hs. assert (is_Some (S !! n)) as Hi by by exists s.
  split; [by apply (r_dom _ _ R)|]. split; [by apply (r_s11 _ _ R)|].
  split; [by apply (r_s1 _ _ R)|]. split; [apply (r_sgi _ _ R); by exists n|].
  by apply (r_ctx _ _ R).
Qed.

(** What each handler is shown to do for its request. *)
Definition handles (S : gmap Z session) (u : Upf.t) (o : list (sockaddr_in * list Z))
    (from : sockaddr_in) (h : hdrs) (pre : list Z) (r : n4_request)
    (handler : Packet.t -> prog Upf.proc unit) : Prop :=
  exists u' dgram,
    handler (rd h pre (enc_items (n4_items r))) (Upf.mk_proc u o) =
      (Ret tt, Upf.mk_proc u' (o ++ [(from, dgram)])) /\
    upf_repr (n4_step garbage_dl r S) u' /\ answers r dgram.

Section Requests.
Context (S : gmap Z session) (u : Upf.t) (o : list (sockaddr_in * list Z)).
Context (from : sockaddr_in) (h : hdrs) (pre : list Z).
Hypothesis R : upf_repr S u.
Hypothesis Hh : Gtp.wf (h_gtp h).

Lemma create_correct n ebi apn ta :
  0 <= n < 10000 -> fits pre (enc_items (n4_items (Create n ebi apn ta))) ->
  handles S u o from h pre (Create n ebi apn ta) (Upf.handle_create_session garbage_ul garbage_dl from).
Proof.
  intros Hn Hf. destruct (pool_ip_text n Hn) as [_ Hlen].
  assert (u64 (deployed_imsi n) = deployed_imsi n) as Ei by (apply u64_id; unfold deployed_imsi; lia).
  assert (u32 n = n) as En by (apply u32_id; lia).
  assert (at_or "" (Upf.ip_addrs u) (deployed_imsi n) = pool_ip n) as Eip.
  { rewrite (r_pool _ _ R). apply at_or_Some, pool_spec. lia. }
  destruct u as [s11 s1 sgi ctx ho ips]; cbn [Upf.ip_addrs] in *.
  eexists _, _. split; [|split].
  - cbn [n4_items]. rewrite create_run; rewrite ?Ei, ?En, ?Eip; [reflexivity | exact Hf |].
    cbn [enc_items enc_item]. len_lia.
  - rewrite ?Ei, ?En, ?Eip. cbn [n4_step].
    rewrite (touch_id "" (deployed_imsi n) ips (pool_ip n))
      by (pose proof (r_pool _ _ R) as Ep; cbn in Ep; subst ips; apply pool_spec; lia).
    eapply (repr_insert _ _ n _ _ R Hn).
    unfold ctx_repr, Upf.init_ctx. cbn [Upf.ip_addr Upf.tai Upf.apn_in_use Upf.eps_bearer_id
      Upf.s1_uteid_ul Upf.s1_uteid_dl Upf.s11_cteid_smf Upf.s11_cteid_upf Upf.enodeb_ip_addr
      Upf.enodeb_port apply_update constant].
    destruct (S !! n) as [old|] eqn:E; cbn [from_option id].
    + destruct (r_ctx _ _ R _ _ E) as (c & Hc & Hr). cbn in Hc.
      rewrite (at_or_Some _ _ _ _ Hc). unfold ctx_repr in Hr. by intuition idtac.
    + pose proof (repr_none _ _ _ R E) as Hc. cbn in Hc. unfold at_or. rewrite Hc.
      by repeat split.
  - rewrite ?Ei, ?En, ?Eip. by apply (answers_v2 (Create n ebi apn ta)).
Qed.

Lemma modify_correct n ebi dl ip port s :
  S !! n = Some s -> Gtp.teid (h_gtp h) = n -> nul_free ip ->
  fits pre (enc_items (n4_items (Modify n ebi dl ip port))) ->
  handles S u o from h pre (Modify n ebi dl ip port) (Upf.handle_modify_bearer garbage_ul garbage_dl from).
Proof.
  intros Hs Hte Hnul Hf. destruct (repr_session _ _ _ _ R Hs) as (Hn & H11 & H1 & Hg & c & Hc & Hr).
  destruct u as [s11 s1 sgi ctx ho ips];
    cbn [Upf.ue_ctx Upf.s11_id Upf.s1_id Upf.sgi_id] in *.
  eexists _, _. split; [|split].
  - apply modify_run with (i := deployed_imsi n); [exact Hf | done | by rewrite Hte |].
    unfold deployed_imsi. lia.
  - rewrite (at_or_Some _ _ _ _ Hc). cbn [n4_step].
    set (s' := mk_session (s_tai s) (s_apn s) (s_ebi s) (u32 dl) ip (s32 port)).
    replace (alter _ n S) with (<[n := s']> S).
    2: { rewrite <- (insert_id S n s Hs) at 2. by rewrite alter_insert_eq. }
    epose proof (repr_insert _ _ n s' _ R Hn) as R'.
    cbn [Upf.s11_id Upf.s1_id Upf.sgi_id Upf.ue_ctx Upf.ho_ue_ctx Upf.ip_addrs] in R'.
    rewrite (insert_id s11 n _ H11), (insert_id s1 n _ H1), (insert_id sgi _ _ Hg) in R'.
    apply R'. unfold ctx_repr in *. cbn. intuition congruence.
  - rewrite (at_or_Some _ _ _ _ Hc). unfold reply_bytes.
    assert (n = Upf.s11_cteid_smf c) as C7 by (symmetry; apply Hr).
    match goal with |- context [Upf.s11_cteid_smf ?x] =>
      replace (Upf.s11_cteid_smf x) with n by exact C7 end.
    by apply (answers_v2 (Modify n ebi dl ip port)).
Qed.

Lemma detach_correct n ebi ta s :
  S !! n = Some s -> Gtp.teid (h_gtp h) = n ->
  fits pre (enc_items (n4_items (Detach n ebi ta))) ->
  handles S u o from h pre (Detach n ebi ta) (Upf.handle_detach garbage_ul garbage_dl from).
Proof.
  intros Hs Hte Hf. destruct (repr_session _ _ _ _ R Hs) as (Hn & H11 & H1 & Hg & c & Hc & Hr).
  destruct u as [s11 s1 sgi ctx ho ips];
    cbn [Upf.ue_ctx Upf.s11_id Upf.s1_id Upf.sgi_id] in *.
  destruct Hr as (C1 & C2 & C3 & C4 & C5 & C6 & C7 & C8 & C9 & C10).
  eexists _, _. split; [|split].
  - apply detach_run with (i := deployed_imsi n) (c := c); [exact Hf | by rewrite Hte | | exact Hc].
    unfold deployed_imsi. lia.
  - rewrite C8, C5, C1. exact (repr_delete _ _ n R Hn).
  - rewrite C7. by apply (answers_v2 (Detach n ebi ta)).
Qed.
End Requests.

(** One request through the server's loop; the thread's packet can be used
    for the next one. *)
Lemma n4_refinement_step S u o r src p from g :
  upf_repr S u -> n4_ok S r -> n4_header g r ->
  length (Packet.data p) = Z.to_nat BUF_SIZE ->
  exists u' p' dgram,
    Upf.handle_s11_traffic garbage_ul garbage_dl src p
      (UdpClient.Got from (n4_datagram g r)) (Upf.mk_proc u o) =
    (Ret (from, p'), Upf.mk_proc u' (o ++ [(from, dgram)])) /\
    upf_repr (n4_step garbage_dl r S) u' /\ answers r dgram /\
    length (Packet.data p') = Z.to_nat BUF_SIZE.
Proof.
  intros R Hok (Hg & Hty & Hte) Hp. pose proof (n4_items_size S r Hok) as Hsz.
  unfold n4_datagram. rewrite receive_n4 by (done || (unfold BUF_SIZE; lia)).
  cbv zeta. set (h := set_gtp (hdrs_of p) g).
  assert (fits (Gtp.to_bytes g) (enc_items (n4_items r))) as Hf
    by (unfold fits, BUF_SIZE; len_lia).
  assert (handles S u o from h (Gtp.to_bytes g) r (n4_handler from g)) as (u' & dg & E & R' & A).
  { destruct Hok as [Hn Hok]. unfold n4_handler. rewrite Hty.
    destruct r as [n ebi apn ta|n ebi dl ip port|n ebi ta]; cbn [n4_type].
    - apply create_correct; first [exact R | exact Hg | exact Hn | exact Hf].
    - destruct Hok as ([s Hs] & Hnul & _). 
      apply modify_correct with (s := s); first [exact R | exact Hg | exact Hs | exact Hte | exact Hnul | exact Hf].
    - destruct Hok as [s Hs]. 
      apply detach_correct with (s := s); first [exact R | exact Hg | exact Hs | exact Hte | exact Hf]. }
  exists u'. eexists _, dg. rewrite (run_bind _ _ _ _ _ E).
  split; [done|]. split; [done|]. split; [done|]. by apply rd_length.
Qed.

(** C2: refinement of the N4 contract: on the tables that represent a set of
    sessions, a well-formed create, modify or detach request for a subscriber
    of the deployment is executed without fault: exactly one datagram goes
    back to the sender, with the promised content, and the tables represent
    the updated sessions. *)
Theorem n4_refinement S u o r src p from g :
  upf_repr S u -> n4_ok S r -> n4_header g r ->
  length (Packet.data p) = Z.to_nat BUF_SIZE ->
  exists u' p' dgram,
    Upf.handle_s11_traffic garbage_ul garbage_dl src p
      (UdpClient.Got from (n4_datagram g r)) (Upf.mk_proc u o) =
    (Ret (from, p'), Upf.mk_proc u' (o ++ [(from, dgram)])) /\
    upf_repr (n4_step garbage_dl r S) u' /\ answers r dgram.
Proof.
  intros R Hok Hg Hp.
  destruct (n4_refinement_step S u o r src p from g R Hok Hg Hp) as (u' & p' & dg & H).
  exists u', p', dg. tauto.
Qed.

(** A sequence of requests from one peer. *)
Fixpoint n4_run (src : sockaddr_in) (p : Packet.t) (ds : list UdpClient.datagram)
  : prog Upf.proc unit :=
  match ds with
  | [] => mret tt
  | d :: ds =>
      '(src, p) ← Upf.handle_s11_traffic garbage_ul garbage_dl src p d; n4_run src p ds
  end.

(** C4: whatever sequence of N4 requests the SMF makes, each for a session
    that exists at that moment, the UPF answers all of them in order, never
    faults, and its tables always are exactly the sessions that the requests
    add up to: no entry is ever lost, mixed up or left behind. *)
Theorem n4_sequence rs gs src p from S u o :
  upf_repr S u -> length (Packet.data p) = Z.to_nat BUF_SIZE ->
  Forall2 n4_header gs rs ->
  (forall k r, rs !! k = Some r ->
     n4_ok (foldl (fun S r => n4_step garbage_dl r S) S (take k rs)) r) ->
  exists u' replies,
    n4_run src p (zip_with (fun g r => UdpClient.Got from (n4_datagram g r)) gs rs)
      (Upf.mk_proc u o) = (Ret tt, Upf.mk_proc u' (o ++ map (pair from) replies)) /\
    upf_repr (foldl (fun S r => n4_step garbage_dl r S) S rs) u' /\
    Forall2 answers rs replies.
Proof.
  intros R Hp Hgs. revert src p S u o R Hp.
  induction Hgs as [|g r gs rs Hg _ IH]; intros src p S u o R Hp Hok.
  - exists u, []. cbn. rewrite app_nil_r. split; [done|]. split; [exact R | constructor].
  - cbn [zip_with n4_run foldl].
    destruct (n4_refinement_step S u o r src p from g R (Hok 0%nat r eq_refl) Hg Hp)
      as (u' & p' & dg & E & R' & A & Hp').
    destruct (IH from p' _ u' (o ++ [(from, dg)]) R' Hp') as (u'' & reps & E2 & R2 & A2).
    { intros k r' Hk. by apply (Hok (Datatypes.S k)). }
    exists u'', (dg :: reps). rewrite (run_bind _ _ _ _ _ E). cbv beta iota. rewrite E2.
    cbn [map]. rewrite <- app_assoc. split; [done|]. split; [exact R2 | by constructor].
Qed.

(** A modify or detach request whose TEID belongs to no session stops
    the whole UPF process, not just the request: [handle_type1_error] is
    called on the zero identity. *)
Theorem n4_unknown_session_exits S u o src p from g its :
  upf_repr S u -> Gtp.wf g -> length (Packet.data p) = Z.to_nat BUF_SIZE ->
  len (enc_items its) <= 1000 -> S !! Gtp.teid g = None ->
  (Gtp.msg_type g = 2 ->
   Upf.handle_s11_traffic garbage_ul garbage_dl src p
     (UdpClient.Got from (Gtp.to_bytes g ++ enc_items its)) (Upf.mk_proc u o) =
   (Fault (Exit "Zero imsi: upf_handlemodifybearer"), Upf.mk_proc u o)) /\
  (Gtp.msg_type g = 3 ->
   Upf.handle_s11_traffic garbage_ul garbage_dl src p
     (UdpClient.Got from (Gtp.to_bytes g ++ enc_items its)) (Upf.mk_proc u o) =
   (Fault (Exit "Zero imsi: upf_handledetach"), Upf.mk_proc u o)).
Proof.
  intros R Hg Hp Hl Hn.
  assert (Upf.s11_id u !! Gtp.teid g = None) as H11.
  { destruct (Upf.s11_id u !! Gtp.teid g) as [i|] eqn:E; [|done].
    apply (r_s11 _ _ R) in E as [[s Hs] _]. congruence. }
  assert (fits (Gtp.to_bytes g) (enc_items its)) as Hf by (unfold fits, BUF_SIZE; len_lia).
  rewrite receive_n4 by (done || (unfold BUF_SIZE; lia)). cbv zeta. unfold n4_handler.
  split; intros ->.
  - apply run_bind_fault. by apply modify_unknown.
  - apply run_bind_fault. by apply detach_unknown.
Qed.

(** C34: the indirect tunnel of a handover takes the next TEID, which is the
    next subscriber's: setting one up for subscriber [n] makes the uplink TEID
    of a connected subscriber [n + 1] belong to [n], and tearing it down
    removes it altogether while [n + 1] still has its session. *)
Theorem indirect_tunnel_collision S u o from h pre n s s' dl :
  upf_repr S u -> S !! n = Some s -> S !! (n + 1) = Some s' ->
  Gtp.teid (h_gtp h) = n ->
  fits pre (enc_items [IU32 dl]) ->
  exists u1 dg1,
    Upf.handle_indirect_tunnel_setup garbage_ul garbage_dl from
      (rd h pre (enc_items [IU32 dl])) (Upf.mk_proc u o) =
      (Ret tt, Upf.mk_proc u1 (o ++ [(from, dg1)])) /\
    Upf.s1_id u !! (n + 1) = Some (deployed_imsi (n + 1)) /\
    Upf.s1_id u1 !! (n + 1) = Some (deployed_imsi n) /\
    exists u2 dg2,
      Upf.handle_indirect_tunnel_teardown_ garbage_ul garbage_dl from
        (rd h pre (enc_items [IU32 (n + 1)])) (Upf.mk_proc u1 (o ++ [(from, dg1)])) =
        (Ret tt, Upf.mk_proc u2 ((o ++ [(from, dg1)]) ++ [(from, dg2)])) /\
      Upf.s1_id u2 !! (n + 1) = None /\
      is_Some (Upf.ue_ctx u2 !! deployed_imsi (n + 1)).
Proof.
  intros R Hs Hs' Hte Hf.
  destruct (repr_session _ _ _ _ R Hs) as (Hn & H11 & _ & _ & c & Hc & Hr).
  destruct (repr_session _ _ _ _ R Hs') as (Hn' & _ & H1' & _ & c' & Hc' & _).
  assert (Upf.s11_cteid_smf c = n) as Hcs by apply Hr.
  assert (u32 (n + 1) = n + 1) as En by (apply u32_id; lia).
  destruct u as [s11 s1 sgi ctx ho ips]; cbn [Upf.ue_ctx Upf.s11_id Upf.s1_id] in *.
  eexists _, _. split.
  { apply tunnel_setup_run with (i := deployed_imsi n) (c := c); [done | by rewrite Hte | done]. }
  rewrite Hcs, En. split; [done|]. cbn [Upf.s1_id]. split; [apply lookup_insert_eq|].
  eexists _, _. split.
  { apply tunnel_teardown_run with (i := deployed_imsi n) (c := c);
      [lensolve | by rewrite Hte | done]. }
  cbn [Upf.s1_id Upf.ue_ctx]. rewrite En, lookup_delete_eq, Hc'. by split.
Qed.

(** C33: the address pool: the constructor gives each of the 10000 IMSIs of
    the deployment an address of its own, within 172.16.0.0/16 and with a
    host byte between 3 and 254, and has an address for no other IMSI. *)
Theorem address_pool_correct :
  (forall n, 0 <= n < 10000 ->
     Upf.ip_addrs Upf.construct !! deployed_imsi n =
       Some (Network.inet_ntop [172; 16; 1 + n / 252; 3 + n mod 252]) /\
     1 <= 1 + n / 252 <= 254 /\ 3 <= 3 + n mod 252 <= 254) /\
  (forall i, is_Some (Upf.ip_addrs Upf.construct !! i) <-> exists n, 0 <= n < 10000 /\ i = deployed_imsi n) /\
  (forall i j a, Upf.ip_addrs Upf.construct !! i = Some a ->
     Upf.ip_addrs Upf.construct !! j = Some a -> i = j).
Proof.
  rewrite pool_construct. split; [|split].
  - intros n Hn. split; [by apply pool_spec|].
    pose proof (Z.mod_pos_bound n 252 ltac:(lia)). pose proof (Z.div_pos n 252 ltac:(lia) ltac:(lia)).
    assert (n / 252 < 40) by (apply Z.div_lt_upper_bound; lia). lia.
  - intros i. split.
    + intros [a (n & Hn & -> & _)%pool_only]. by exists n.
    + intros (n & Hn & ->). rewrite pool_spec by done. by eexists.
  - intros i j a (n & Hn & -> & ->)%pool_only (m & Hm & -> & E)%pool_only.
    apply pool_ip_inj in E; [by subst | lia | lia].
Qed.

End Properties.

Section Downlink.
Context (inet_aton : string -> option Z).

(** An IPv4 packet: the first twelve bytes of the header, the addresses, the
    rest. *)
Definition ip_packet (hd src dst rest : list Z) : list Z := hd ++ src ++ dst ++ rest.

Lemma ip_field_rd h hd src dst rest off :
  length hd = 12%nat -> length src = 4%nat -> length dst = 4%nat ->
  len (ip_packet hd src dst rest) <= BUF_SIZE ->
  Network.ip_field (rd h [] (ip_packet hd src dst rest)) off =
  Ret (Network.inet_ntop (take 4 (drop off (hd ++ src ++ dst)))).
Proof.
  intros H1 H2 H3 Hl. unfold Network.ip_field.
  rewrite copy_rd by (unfold fits; len_lia). res.
  change (Packet.allocate_ip_hdr_mem true IP_HDR_LEN) with (Ret (replicate 20 0)). res.
  unfold memmove, rd, rdl. pk. cbn [app].
  replace (ip_packet hd src dst rest) with ([] ++ (hd ++ src ++ dst) ++ rest)
    by (unfold ip_packet; by rewrite <- !app_assoc).
  rewrite (mem_read_pad [] (hd ++ src ++ dst) rest).
  2: { done. }
  2: { unfold len. rewrite !length_app, H1, H2, H3. done. }
  res. pose proof (mem_write_mid [] (replicate 20 0) [] 0 (hd ++ src ++ dst) eq_refl) as E.
  rewrite !app_nil_r in E. cbn [app] in E.
  by rewrite E by (rewrite !length_app, length_replicate; lia).
Qed.

Lemma get_dst_ip_addr_rd h hd src dst rest :
  length hd = 12%nat -> length src = 4%nat -> length dst = 4%nat ->
  len (ip_packet hd src dst rest) <= BUF_SIZE ->
  Network.get_dst_ip_addr (rd h [] (ip_packet hd src dst rest)) = Ret (Network.inet_ntop dst).
Proof.
  intros H1 H2 H3 Hl. unfold Network.get_dst_ip_addr. rewrite ip_field_rd by done.
  rewrite (app_assoc hd src dst), drop_app_ge by (rewrite length_app; lia).
  rewrite length_app, H1, H2. cbn [Nat.add Nat.sub drop]. by rewrite <- H3, firstn_all.
Qed.

Lemma get_src_ip_addr_rd h hd src dst rest :
  length hd = 12%nat -> length src = 4%nat -> length dst = 4%nat ->
  len (ip_packet hd src dst rest) <= BUF_SIZE ->
  Network.get_src_ip_addr (rd h [] (ip_packet hd src dst rest)) = Ret (Network.inet_ntop src).
Proof.
  intros H1 H2 H3 Hl. unfold Network.get_src_ip_addr. rewrite ip_field_rd by done.
  rewrite drop_app_ge by lia. rewrite H1. change (12 - 12)%nat with 0%nat.
  by rewrite drop_0, take_app_length'.
Qed.

Lemma downlink_hit h bs ip u o i c a :
  fits [] bs -> 16 + len bs <= BUF_SIZE -> Gtp.wf (h_gtp h) ->
  Network.get_dst_ip_addr (rd h [] bs) = Ret ip ->
  Upf.sgi_id u !! ip = Some i -> i <> 0 -> Upf.ue_ctx u !! i = Some c ->
  Upf.enodeb_port c <> 0 -> inet_aton (Upf.enodeb_ip_addr c) = Some a ->
  exists g, Upf.handle_downlink_udata inet_aton (rd h [] bs) (Upf.mk_proc u o) =
    (Ret tt, Upf.mk_proc u
       (o ++ [(mk_sockaddr (u16 (Upf.enodeb_port c)) a, Gtp.to_bytes g ++ bs)])) /\
    Gtp.wf g /\ Gtp.msg_type g = 2 /\ Gtp.teid g = u32 (Upf.s1_uteid_dl c).
Proof.
  intros Hf Hl Hg Hip Hi Hnz Hc Hport Ha. unfold Upf.handle_downlink_udata.
  destruct (gtp_init_v1 (h_gtp h) 2 (len bs) (Upf.s1_uteid_dl c)) as (g & Eg & Wg & Tg & Dg); [done|].
  exists g. split; [|done].
  run with (by apply copy_rd). run with (exact Hip).
  unfold Upf.get_imsi3. run. upf_st. rewrite Hi. cbn [from_option id].
  rewrite (proj2 (Z.eqb_neq i 0)) by done.
  unfold Upf.get_downlink_info. run. upf_st. rewrite Hc, (proj2 (Z.eqb_neq _ _)) by done.
  run with (by apply truncate_rd).
  run with (apply prepend_gtp_hdr_rd with (g := g); [exact Eg | rewrite len_nil; lia]).
  unfold Upf.set_server.
  run with (unfold Network.set_inet_sock_addr; rewrite Ha; reflexivity).
  rewrite snd_rd by (unfold fits; len_lia). by rewrite app_nil_r.
Qed.

Lemma downlink_miss h bs ip s :
  fits [] bs -> Network.get_dst_ip_addr (rd h [] bs) = Ret ip ->
  Upf.sgi_id (Upf.upf s) !! ip = None ->
  Upf.handle_downlink_udata inet_aton (rd h [] bs) s = (Ret tt, s).
Proof.
  intros Hf Hip Hi. unfold Upf.handle_downlink_udata.
  run with (by apply copy_rd). run with (exact Hip).
  unfold Upf.get_imsi3. run. by rewrite Hi.
Qed.

Lemma downlink_idle h bs ip s i c :
  fits [] bs -> Network.get_dst_ip_addr (rd h [] bs) = Ret ip ->
  Upf.sgi_id (Upf.upf s) !! ip = Some i -> Upf.ue_ctx (Upf.upf s) !! i = Some c -> Upf.enodeb_port c = 0 ->
  Upf.handle_downlink_udata inet_aton (rd h [] bs) s = (Ret tt, s).
Proof.
  intros Hf Hip Hi Hc H0. unfold Upf.handle_downlink_udata.
  run with (by apply copy_rd). run with (exact Hip).
  unfold Upf.get_imsi3. run. rewrite Hi. cbn [from_option id]. destruct (i =? 0); [done|].
  unfold Upf.get_downlink_info. run. by rewrite Hc, H0.
Qed.

(** A packet that leaves no room for the GTP header. *)
Lemma downlink_overflow h bs ip u o i c :
  fits [] bs -> BUF_SIZE < 16 + len bs -> Gtp.wf (h_gtp h) ->
  Network.get_dst_ip_addr (rd h [] bs) = Ret ip ->
  Upf.sgi_id u !! ip = Some i -> i <> 0 -> Upf.ue_ctx u !! i = Some c ->
  Upf.enodeb_port c <> 0 ->
  Upf.handle_downlink_udata inet_aton (rd h [] bs) (Upf.mk_proc u o) =
  (Fault (UB "write outside the buffer"), Upf.mk_proc u o).
Proof.
  intros Hf Hl Hg Hip Hi Hnz Hc Hport. unfold Upf.handle_downlink_udata.
  destruct (gtp_init_v1 (h_gtp h) 2 (len bs) (Upf.s1_uteid_dl c)) as (g & Eg & _); [done|].
  run with (by apply copy_rd). run with (exact Hip).
  unfold Upf.get_imsi3. run. upf_st. rewrite Hi. cbn [from_option id].
  rewrite (proj2 (Z.eqb_neq i 0)) by done.
  unfold Upf.get_downlink_info. run. upf_st. rewrite Hc, (proj2 (Z.eqb_neq _ _)) by done.
  run with (by apply truncate_rd). apply run_lift_fault.
  apply prepend_gtp_hdr_overflow with (g := g); [exact Eg | done | rewrite len_nil; lia].
Qed.

(** Downlink: an IP packet for the address of a subscriber with a session
    and an eNodeB is forwarded, whole, to that eNodeB behind a GTP header with
    the session's downlink TEID; for any other address of the pool nothing is
    sent. *)
Theorem downlink_forwarding S u o src p from n hd saddr rest :
  upf_repr S u -> 0 <= n < 10000 -> Gtp.wf (Packet.gtp_hdr p) ->
  length (Packet.data p) = Z.to_nat BUF_SIZE ->
  length hd = 12%nat -> length saddr = 4%nat ->
  let bs := ip_packet hd saddr [172; 16; 1 + n / 252; 3 + n mod 252] rest in
  16 + len bs <= BUF_SIZE ->
  (forall s a, S !! n = Some s -> s_enb_port s <> 0 -> inet_aton (s_enb_ip s) = Some a ->
   exists p' g, Upf.handle_sgi_traffic inet_aton src p (UdpClient.Got from bs) (Upf.mk_proc u o) =
     (Ret (from, p'), Upf.mk_proc u
        (o ++ [(mk_sockaddr (u16 (s_enb_port s)) a, Gtp.to_bytes g ++ bs)])) /\
     Gtp.wf g /\ Gtp.msg_type g = 2 /\ Gtp.teid g = u32 (s_dl s)) /\
  (S !! n = None ->
   exists p', Upf.handle_sgi_traffic inet_aton src p (UdpClient.Got from bs) (Upf.mk_proc u o) =
     (Ret (from, p'), Upf.mk_proc u o)).
Proof.
  intros R Hn Hg Hp H1 H2 bs Hl. unfold Upf.handle_sgi_traffic.
  assert (fits [] bs) as Hf by (unfold fits; rewrite len_nil; lia).
  assert (Network.get_dst_ip_addr (rd (hdrs_of p) [] bs) = Ret (pool_ip n)) as Hip.
  { change (pool_ip n) with (Network.inet_ntop [172; 16; 1 + n / 252; 3 + n mod 252]).
    apply get_dst_ip_addr_rd; [done | done | done |]. fold bs. lia. }
  split.
  - intros s a Hs Hport Ha.
    destruct (repr_session _ _ _ _ R Hs) as (_ & _ & _ & Hsgi & c & Hc & Hr).
    destruct Hr as (C1 & C2 & C3 & C4 & C5 & C6 & C7 & C8 & C9 & C10).
    destruct (downlink_hit (hdrs_of p) bs _ u o _ c a Hf Hl Hg Hip Hsgi) as (g & E & W); try congruence.
    { unfold deployed_imsi. lia. }
    rewrite C10 in E. rewrite C6 in W. eexists _, g. split; [|done].
    run with (by apply udp_server_rcv; [|lia]). by rewrite (run_bind _ _ _ _ _ E).
  - intros Hs. eexists. run with (by apply udp_server_rcv; [|lia]).
    erewrite run_bind; [reflexivity|]. apply downlink_miss with (ip := pool_ip n); [done | done |].
    cbn [Upf.upf]. destruct (Upf.sgi_id u !! pool_ip n) as [i|] eqn:E; [|done].
    apply (r_sgi _ _ R) in E as (m & Hm & Em & _). pose proof (r_dom _ _ R _ Hm).
    apply pool_ip_inj in Em; [subst m; rewrite Hs in Hm; by destruct Hm | lia | lia].
Qed.

End Downlink.

(** *** The initial state, and witnesses *)

(** A fresh UPF represents no session. *)
Lemma upf_repr_init : upf_repr ∅ Upf.construct.
Proof.
  rewrite construct_eq. split.
  - intros n. rewrite lookup_empty. by intros [].
  - intros n s. by rewrite lookup_empty.
  - intros i c. cbn. by rewrite lookup_empty.
  - intros t i. cbn. rewrite !lookup_empty. split; [done | by intros [[] ?]].
  - intros t i. cbn. rewrite !lookup_empty. split; [done | by intros [[] ?]].
  - intros a i. cbn. rewrite lookup_empty. split; [done|].
    intros (n & [s Hs] & _). by rewrite lookup_empty in Hs.
  - done.
Qed.

Definition demo_ctx (n : Z) (s : session) : Upf.UeContext :=
  Upf.mk_ctx (pool_ip n) (s_tai s) (s_apn s) (s_ebi s) n (s_dl s) n n 0 0
    (s_enb_ip s) (s_enb_port s) 0.

Definition add_session (n : Z) (s : session) (u : Upf.t) : Upf.t :=
  Upf.mk (<[n := deployed_imsi n]> (Upf.s11_id u)) (<[n := deployed_imsi n]> (Upf.s1_id u))
    (<[pool_ip n := deployed_imsi n]> (Upf.sgi_id u))
    (<[deployed_imsi n := demo_ctx n s]> (Upf.ue_ctx u)) (Upf.ho_ue_ctx u) (Upf.ip_addrs u).

Lemma add_session_repr S u n s :
  upf_repr S u -> 0 <= n < 10000 -> upf_repr (<[n := s]> S) (add_session n s u).
Proof. intros R Hn. apply repr_insert; [done | done |]. by repeat split. Qed.

(** Subscribers 5 and 6, connected behind an eNodeB at 172.18.0.2:4000. *)
Definition demo_session : session := mk_session 1 1 5 7 "172.18.0.2" 4000.
Definition demo_sessions : gmap Z session := <[6 := demo_session]> (<[5 := demo_session]> ∅).
Definition demo_upf : Upf.t :=
  add_session 6 demo_session (add_session 5 demo_session Upf.construct).

Lemma demo_repr : upf_repr demo_sessions demo_upf.
Proof. apply add_session_repr; [|lia]. apply add_session_repr; [|lia]. apply upf_repr_init. Qed.

Definition demo_gtp (ty te : Z) : Gtp.t := Gtp.mk 0 0 0 0 0 0 ty 0 te.
Definition demo_smf : sockaddr_in := mk_sockaddr 40000 1.
Definition demo_aton (s : string) : option Z := if bool_decide (s = "172.18.0.2") then Some 2 else None.
Definition zeros (_ : Z) : Z := 0.

Lemma n4_refinement_witness :
  n4_ok ∅ (Create 5 5 1 1) /\
  exists u' p' dgram,
    Upf.handle_s11_traffic zeros zeros demo_smf (rd zero_hdrs [] [])
      (UdpClient.Got demo_smf (n4_datagram (demo_gtp 1 0) (Create 5 5 1 1)))
      (Upf.mk_proc Upf.construct []) =
    (Ret (demo_smf, p'), Upf.mk_proc u' ([] ++ [(demo_smf, dgram)])) /\
    upf_repr (n4_step zeros (Create 5 5 1 1) ∅) u' /\ answers (Create 5 5 1 1) dgram.
Proof.
  assert (n4_ok ∅ (Create 5 5 1 1)) as Hok by (split; [split; vm_compute; done | exact I]).
  split; [exact Hok|].
  apply (n4_refinement zeros zeros ∅ Upf.construct [] (Create 5 5 1 1) demo_smf
           (rd zero_hdrs [] []) demo_smf (demo_gtp 1 0)).
  - apply upf_repr_init.
  - exact Hok.
  - by repeat split.
  - reflexivity.
Defined.

Lemma n4_sequence_witness :
  exists u' replies,
    n4_run zeros zeros demo_smf (rd zero_hdrs [] [])
      (zip_with (fun g r => UdpClient.Got demo_smf (n4_datagram g r))
         [demo_gtp 1 0; demo_gtp 3 5] [Create 5 5 1 1; Detach 5 5 1])
      (Upf.mk_proc Upf.construct []) =
      (Ret tt, Upf.mk_proc u' ([] ++ map (pair demo_smf) replies)) /\
    upf_repr (foldl (fun S r => n4_step zeros r S) ∅ [Create 5 5 1 1; Detach 5 5 1]) u' /\
    Forall2 answers [Create 5 5 1 1; Detach 5 5 1] replies.
Proof.
  apply (n4_sequence zeros zeros [Create 5 5 1 1; Detach 5 5 1] [demo_gtp 1 0; demo_gtp 3 5]).
  - apply upf_repr_init.
  - reflexivity.
  - repeat constructor.
  - intros [|[|k]] r Hr; [injection Hr as <- | injection Hr as <- | discriminate Hr].
    + split; [cbn; lia | exact I].
    + split; [cbn; lia | vm_compute; by eexists].
Defined.

Lemma n4_unknown_session_exits_witness :
  Upf.handle_s11_traffic zeros zeros demo_smf (rd zero_hdrs [] [])
    (UdpClient.Got demo_smf (Gtp.to_bytes (demo_gtp 3 9) ++ enc_items [IU8 5; IU64 1]))
    (Upf.mk_proc demo_upf []) =
  (Fault (Exit "Zero imsi: upf_handledetach"), Upf.mk_proc demo_upf []).
Proof.
  apply (n4_unknown_session_exits zeros zeros demo_sessions demo_upf [] demo_smf
           (rd zero_hdrs [] []) demo_smf (demo_gtp 3 9) [IU8 5; IU64 1]).
  - apply demo_repr.
  - by repeat split.
  - reflexivity.
  - vm_compute. discriminate.
  - reflexivity.
  - reflexivity.
Defined.

Lemma downlink_forwarding_witness :
  exists p' g, Upf.handle_sgi_traffic demo_aton demo_smf (rd zero_hdrs [] [])
      (UdpClient.Got demo_smf
         (ip_packet (replicate 12 69) [8; 8; 8; 8] [172; 16; 1 + 5 / 252; 3 + 5 mod 252] [1; 2]))
      (Upf.mk_proc demo_upf []) =
    (Ret (demo_smf, p'), Upf.mk_proc demo_upf
       ([] ++ [(mk_sockaddr (u16 4000) 2, Gtp.to_bytes g ++
          ip_packet (replicate 12 69) [8; 8; 8; 8] [172; 16; 1 + 5 / 252; 3 + 5 mod 252] [1; 2])])) /\
    Gtp.wf g /\ Gtp.msg_type g = 2 /\ Gtp.teid g = u32 7.
Proof.
  refine (proj1 (downlink_forwarding demo_aton demo_sessions demo_upf [] demo_smf
    (rd zero_hdrs [] []) demo_smf 5 (replicate 12 69) [8; 8; 8; 8] [1; 2] demo_repr _ _ _ _ _ _)
    demo_session 2 _ _ _).
  - lia.
  - by repeat split.
  - reflexivity.
  - reflexivity.
  - reflexivity.
  - vm_compute. discriminate.
  - reflexivity.
  - discriminate.
  - reflexivity.
Defined.

Definition demo_hdrs (ty te : Z) : hdrs := mk_hdrs (demo_gtp ty te) (h_s1ap zero_hdrs) (h_dia zero_hdrs).

Lemma indirect_tunnel_collision_witness :
  exists u1 dg1,
    Upf.handle_indirect_tunnel_setup zeros zeros demo_smf
      (rd (demo_hdrs 4 5) [] (enc_items [IU32 77])) (Upf.mk_proc demo_upf []) =
      (Ret tt, Upf.mk_proc u1 ([] ++ [(demo_smf, dg1)])) /\
    Upf.s1_id demo_upf !! (5 + 1) = Some (deployed_imsi (5 + 1)) /\
    Upf.s1_id u1 !! (5 + 1) = Some (deployed_imsi 5) /\
    exists u2 dg2,
      Upf.handle_indirect_tunnel_teardown_ zeros zeros demo_smf
        (rd (demo_hdrs 4 5) [] (enc_items [IU32 (5 + 1)])) (Upf.mk_proc u1 ([] ++ [(demo_smf, dg1)])) =
        (Ret tt, Upf.mk_proc u2 (([] ++ [(demo_smf, dg1)]) ++ [(demo_smf, dg2)])) /\
      Upf.s1_id u2 !! (5 + 1) = None /\
      is_Some (Upf.ue_ctx u2 !! deployed_imsi (5 + 1)).
Proof.
  apply (indirect_tunnel_collision zeros zeros demo_sessions demo_upf [] demo_smf
           (demo_hdrs 4 5) [] 5 demo_session demo_session 77 demo_repr);
    try reflexivity. vm_compute. discriminate.
Defined.

Lemma address_pool_correct_witness :
  Upf.ip_addrs Upf.construct !! deployed_imsi 252 = Some "172.16.2.3".
Proof. exact (proj1 (proj1 address_pool_correct 252 ltac:(lia))). Defined.
