(* ===== verification/UpfTypes.v ===== *)
(** * The UPF against any datagram (src/upf.cpp, src/upf_server.cpp)

    Upf.v says what the UPF answers to the requests of a well-behaved SMF.
    Here the datagrams are arbitrary bytes: the tables keep to the types of
    their C++ declarations, whatever comes in at the three interfaces and in
    whatever order, and the N4 handlers stay inside their buffers except for
    one message. *)

From Stdlib Require Import ZArith Lia.
From S2P Require Import Prelude Utils Telecom Headers Packet Network Transport PacketTypes Upf.

(** The members of a context have the types of [class UeContext]. *)
Definition wf_ctx (c : Upf.UeContext) : Prop :=
  is_u64 (Upf.tai c) /\ is_u64 (Upf.apn_in_use c) /\ is_u8 (Upf.eps_bearer_id c) /\
  is_u32 (Upf.s1_uteid_ul c) /\ is_u32 (Upf.s1_uteid_dl c) /\ is_u32 (Upf.s11_cteid_smf c) /\
  is_u32 (Upf.s11_cteid_upf c) /\ is_u32 (Upf.s1_cteid_ul c) /\ is_u32 (Upf.s1_cteid_dl c) /\
  is_s32 (Upf.enodeb_port c) /\ is_u32 (Upf.sgi_cteid_ul c).

(** The keys and values of the tables; an address is short. *)
Record wf_upf (u : Upf.t) : Prop := mk_wf_upf {
  wf_s11 : map_Forall (fun k i => is_u32 k /\ is_u64 i) (Upf.s11_id u);
  wf_s1 : map_Forall (fun k i => is_u32 k /\ is_u64 i) (Upf.s1_id u);
  wf_sgi : map_Forall (fun _ i => is_u64 i) (Upf.sgi_id u);
  wf_ue : map_Forall (fun k c => is_u64 k /\ wf_ctx c) (Upf.ue_ctx u);
  wf_ho : map_Forall (fun k c => is_u32 k /\ wf_ctx c) (Upf.ho_ue_ctx u);
  wf_pool : map_Forall (fun k a => is_u64 k /\ len (c_str a) <= 32) (Upf.ip_addrs u)
}.

(** What was sent so far are byte strings that fit a packet. *)
Record typed (s : Upf.proc) : Prop := mk_typed {
  ty_upf : wf_upf (Upf.upf s);
  ty_out : Forall (fun d => bytes d.2 /\ len d.2 <= BUF_SIZE) (Upf.out s)
}.

Section Typing.
Context (F : fault -> Prop) (garbage_ul garbage_dl : Z -> Z).
Context (Hul : forall k, is_u32 (garbage_ul k)) (Hdl : forall k, is_u32 (garbage_dl k)).

Let new_ctx := Upf.new_ctx garbage_ul garbage_dl.

Lemma new_ctx_wf i : wf_ctx (new_ctx i).
Proof. unfold wf_ctx, is_u64, is_u8, is_s32. cbn. repeat (split; [try done; apply Hul || apply Hdl|]). done. Qed.

Section Maps.
Context {K : Type} `{Countable K}.

Lemma at_or_wf (P : K -> Upf.UeContext -> Prop) m k i :
  map_Forall (fun k c => P k c /\ wf_ctx c) m -> wf_ctx (at_or (new_ctx i) m k).
Proof.
  intros Hm. unfold at_or. destruct (m !! k) as [c|] eqn:E; [|apply new_ctx_wf].
  by destruct (Hm k c E).
Qed.
Lemma touch_wf (P : K -> Prop) m k i :
  map_Forall (fun k c => P k /\ wf_ctx c) m -> P k ->
  map_Forall (fun k c => P k /\ wf_ctx c) (touch (new_ctx i) k m).
Proof. intros Hm Hk. apply map_Forall_insert_2; [split; [done | exact (at_or_wf (fun k _ => P k) m k i Hm)] | done]. Qed.
Lemma upd_wf (P : K -> Prop) m k i f :
  map_Forall (fun k c => P k /\ wf_ctx c) m -> P k -> (forall c, wf_ctx c -> wf_ctx (f c)) ->
  map_Forall (fun k c => P k /\ wf_ctx c) (upd (new_ctx i) f k m).
Proof.
  intros Hm Hk Hf. apply map_Forall_insert_2; [split; [done|] | done].
  apply Hf, (at_or_wf (fun k _ => P k) m k i Hm).
Qed.
End Maps.

(** *** The operations of the tables *)

Lemma on_upf_typed f :
  (forall u, wf_upf u -> wf_upf (f u)) -> triple typed F (modify (Upf.on_upf f)) (fun _ => True).
Proof. intros Hf. apply triple_modify. intros [u o] [H1 H2]. split; [by apply Hf | done]. Qed.

Lemma ctx_get_typed {A} (Q : A -> Prop) i (f : Upf.UeContext -> A) :
  is_u64 i -> (forall c, wf_ctx c -> Q (f c)) -> triple typed F (Upf.ctx_get garbage_ul garbage_dl i f) Q.
Proof.
  intros Hi Hf. eapply triple_bind.
  - apply on_upf_typed. intros u [? ? ? Hu ? ?]. split; try done. by apply (touch_wf is_u64).
  - intros _ _. apply triple_gets. intros s [Hu _]. apply Hf.
    exact (at_or_wf (fun k _ => is_u64 k) _ _ _ (wf_ue _ Hu)).
Qed.

Lemma ctx_set_typed i f :
  is_u64 i -> (forall c, wf_ctx c -> wf_ctx (f c)) ->
  triple typed F (Upf.ctx_set garbage_ul garbage_dl i f) (fun _ => True).
Proof. intros Hi Hf. apply on_upf_typed. intros u [? ? ? Hu ? ?]. split; try done. by apply (upd_wf is_u64). Qed.

Lemma ho_get_typed {A} (Q : A -> Prop) i (f : Upf.UeContext -> A) :
  (forall c, wf_ctx c -> Q (f c)) -> triple typed F (Upf.ho_get garbage_ul garbage_dl i f) Q.
Proof.
  intros Hf. eapply triple_bind.
  - apply on_upf_typed. intros u [? ? ? ? Hu ?]. split; try done. apply (touch_wf is_u32); [done | apply u32_range].
  - intros _ _. apply triple_gets. intros s [Hu _]. apply Hf.
    exact (at_or_wf (fun k _ => is_u32 k) _ _ _ (wf_ho _ Hu)).
Qed.

Lemma ho_set_typed i f :
  (forall c, wf_ctx c -> wf_ctx (f c)) ->
  triple typed F (Upf.ho_set garbage_ul garbage_dl i f) (fun _ => True).
Proof.
  intros Hf. apply on_upf_typed. intros u [? ? ? ? Hu ?]. split; try done.
  apply (upd_wf is_u32); [done | apply u32_range | done].
Qed.

Lemma ip_get_typed i : is_u64 i -> triple typed F (Upf.ip_get i) (fun a => len (c_str a) <= 32).
Proof.
  intros Hi.
  assert (forall m : gmap Z string, map_Forall (fun k a => is_u64 k /\ len (c_str a) <= 32) m ->
    len (c_str (at_or "" m i)) <= 32) as Hat.
  { intros m Hm. unfold at_or. destruct (m !! i) as [a|] eqn:E; [|done]. by destruct (Hm i a E). }
  eapply triple_bind.
  - apply on_upf_typed. intros u [? ? ? ? ? Hu]. split; try done.
    apply map_Forall_insert_2; [by split; [|apply Hat] | done].
  - intros _ _. apply triple_gets. intros s [Hu _]. apply Hat, Hu.
Qed.

Lemma update3_typed itf k i :
  (itf = 11 \/ itf = 1) -> is_u32 k -> is_u64 i -> triple typed F (Upf.update_itfid3 itf k i) (fun _ => True).
Proof.
  intros [-> | ->] Hk Hi; apply on_upf_typed; intros u [? ? ? ? ? ?]; split; try done;
    by apply map_Forall_insert_2.
Qed.

Lemma update4_typed k a i : is_u64 i -> triple typed F (Upf.update_itfid4 0 k a i) (fun _ => True).
Proof. intros Hi. apply on_upf_typed. intros u [? ? ? ? ? ?]. split; try done. by apply map_Forall_insert_2. Qed.

Lemma get_imsi_typed k : triple typed F (Upf.get_imsi2 11 k) is_u64.
Proof.
  apply triple_gets. intros s [Hu _]. destruct (Upf.s11_id (Upf.upf s) !! k) as [i|] eqn:E; [|done].
  by destruct (wf_s11 _ Hu k i E).
Qed.

Lemma rem2_typed itf k : (itf = 11 \/ itf = 1) -> triple typed F (Upf.rem_itfid2 itf k) (fun _ => True).
Proof.
  intros [-> | ->]; apply on_upf_typed; intros u [? ? ? ? ? ?]; split; try done; by apply map_Forall_delete.
Qed.

Lemma rem3_typed k a : triple typed F (Upf.rem_itfid3 0 k a) (fun _ => True).
Proof. apply on_upf_typed. intros u [? ? ? ? ? ?]. split; try done. by apply map_Forall_delete. Qed.

Lemma rem_uectx_typed i : triple typed F (Upf.rem_uectx i) (fun _ => True).
Proof. apply on_upf_typed. intros u [? ? ? ? ? ?]. split; try done. by apply map_Forall_delete. Qed.

Lemma ho_delete_typed k :
  triple typed F (modify (Upf.on_upf (fun u => u <| Upf.ho_ue_ctx := delete k (Upf.ho_ue_ctx u) |>))) (fun _ => True).
Proof. apply on_upf_typed. intros u [? ? ? ? ? ?]. split; try done. by apply map_Forall_delete. Qed.

(** *** Answers *)

Lemma n4_reply_typed c p its ty te :
  at_cursor c p -> 16 + len (enc_items its) <= BUF_SIZE ->
  satisfies F (at_cursor (16 + len (enc_items its))) (Upf.n4_reply p its ty te).
Proof.
  intros Hp Hl. rewrite n4_reply_rd by (apply Hp || done). cbv zeta. cbn [satisfies].
  match goal with |- at_cursor _ (rd ?h ?pre ?post) =>
    replace (16 + len (enc_items its)) with (len pre) by (rewrite len_app, len_gtp; done) end.
  apply at_cursor_rd; [unfold fits; len_lia | | constructor].
  apply bytes_app. split; [apply bytes_gtp | apply bytes_enc_items].
Qed.

Lemma snd_typed dst c p : at_cursor c p -> triple typed F (Upf.snd dst p) (fun _ => True).
Proof.
  intros Hp. eapply triple_bind; [apply triple_lift; by eapply copy_typed|]. cbv beta.
  intros q [Hl Hb Hc Hn].
  eapply (triple_bind _ _ (fun bs => bytes bs /\ len bs <= BUF_SIZE)).
  - apply triple_lift. unfold mem_read. rewrite (proj2 (in_bounds_spec _ _ _)) by (unfold len, in_block, BUF_SIZE in *; lia).
    cbn. split; [by apply Forall_take|]. unfold len. rewrite length_take. unfold in_block, BUF_SIZE in *. lia.
  - cbv beta. intros bs Hbs. apply triple_modify. intros [u o] [H1 H2]. split; [done|].
    apply Forall_app. split; [done | by constructor; [|constructor]].
Qed.

(** ** The N4 handlers: every way to stop is an [exit], but for the string
    of the modify bearer request *)

Definition exits (f : fault) : Prop := exists msg, f = Exit msg.
Definition any (_ : fault) : Prop := True.
End Typing.

Section Handlers.
Context (garbage_ul garbage_dl : Z -> Z).
Context (Hul : forall k, is_u32 (garbage_ul k)) (Hdl : forall k, is_u32 (garbage_dl k)).

Lemma guard_typed F (b : bool) msg :
  (forall m, F (Exit m)) ->
  triple typed F (if b then lift (Utils.handle_type1_error (-1) msg) else mret tt) (fun _ => True) /\
  triple typed F (if b then mret tt else lift (Utils.handle_type1_error (-1) msg)) (fun _ => True).
Proof. intros HF. destruct b; split; (by apply triple_ret) || apply triple_lift, HF. Qed.
Lemma found_typed F i :
  triple typed F (gets (fun s => bool_decide (is_Some (Upf.ue_ctx (Upf.upf s) !! i)))) (fun _ => True).
Proof. by apply triple_gets. Qed.

#[local] Hint Extern 6 (_ <= _) => (unfold BUF_SIZE; lia) : triple.
#[local] Hint Extern 5 (16 + len _ <= _) => (cbn [enc_items enc_item]; unfold BUF_SIZE; len_lia) : triple.
#[local] Hint Extern 1 (is_u64 _) => assumption : triple.
#[local] Hint Extern 1 (is_u32 _) => (assumption || apply u32_range) : triple.
#[local] Hint Extern 1 (_ = _ \/ _ = _) => (by (left + right)) : triple.
#[local] Hint Resolve copy_typed extract_uint8_typed extract_uint32_typed extract_uint64_typed
  n4_reply_typed snd_typed get_imsi_typed rem2_typed rem3_typed rem_uectx_typed ho_delete_typed
  update3_typed update4_typed ip_get_typed found_typed
  extract_string_typed extract_int_anywhere : triple.
#[local] Hint Extern 2 (triple _ _ (lift _) _) => apply triple_lift : triple.
#[local] Hint Extern 1 (triple _ _ (if _ then _ else _) _) =>
  (apply guard_typed; intros; (done || by eexists)) : triple.
#[local] Hint Extern 1 (triple _ _ (Upf.ctx_set _ _ _ _) _) =>
  (apply ctx_set_typed; [exact Hul | exact Hdl | assumption | unfold wf_ctx; intros; cbn; tauto]) : triple.
#[local] Hint Extern 1 (triple _ _ (Upf.ho_set _ _ _ _) _) =>
  (apply ho_set_typed; [exact Hul | exact Hdl | unfold wf_ctx; intros; cbn; tauto]) : triple.
#[local] Hint Extern 1 (triple _ _ (Upf.ctx_get _ _ _ Upf.ip_addr) _) =>
  (by apply (ctx_get_typed _ _ _ Hul Hdl (fun _ => True))) : triple.
#[local] Hint Extern 2 (triple _ _ (Upf.ctx_get _ _ _ _) _) =>
  (apply (ctx_get_typed _ _ _ Hul Hdl is_u32); [assumption | unfold wf_ctx; intros; tauto]) : triple.
#[local] Hint Extern 2 (triple _ _ (Upf.ho_get _ _ _ _) _) =>
  (apply (ho_get_typed _ _ _ Hul Hdl is_u32); unfold wf_ctx; intros; tauto) : triple.

Lemma create_typed src p :
  at_cursor 16 p -> triple typed exits (Upf.handle_create_session garbage_ul garbage_dl src p) (fun _ => True).
Proof. intros Hp. unfold Upf.handle_create_session. triple_tac.
Qed.

Lemma detach_typed src p :
  at_cursor 16 p -> triple typed exits (Upf.handle_detach garbage_ul garbage_dl src p) (fun _ => True).
Proof. intros Hp. unfold Upf.handle_detach. triple_tac. Qed.

Lemma tunnel_setup_typed src p :
  at_cursor 16 p ->
  triple typed exits (Upf.handle_indirect_tunnel_setup garbage_ul garbage_dl src p) (fun _ => True).
Proof.
  intros Hp. unfold Upf.handle_indirect_tunnel_setup. triple_tac.
Qed.

Lemma completion_typed src p :
  at_cursor 16 p ->
  triple typed exits (Upf.handle_handover_completion garbage_ul garbage_dl src p) (fun _ => True).
Proof. intros Hp. unfold Upf.handle_handover_completion. triple_tac. Qed.

Lemma teardown_typed src p :
  at_cursor 16 p ->
  triple typed exits (Upf.handle_indirect_tunnel_teardown_ garbage_ul garbage_dl src p) (fun _ => True).
Proof. intros Hp. unfold Upf.handle_indirect_tunnel_teardown_. triple_tac. Qed.

Lemma modify_typed src p :
  at_cursor 16 p ->
  triple typed (fun _ => True) (Upf.handle_modify_bearer garbage_ul garbage_dl src p) (fun _ => True).
Proof.
  intros Hp. unfold Upf.handle_modify_bearer. triple_tac.
Qed.
End Handlers.

(** ** The receive loops *)

(** The packet of a loop keeps its block. *)
Definition block (p : Packet.t) : Prop := length (Packet.data p) = Z.to_nat BUF_SIZE.

Lemma received_typed F src p d :
  (forall m, F (Exit m)) -> block p -> bytes_in d ->
  satisfies F (fun x => at_cursor 0 x.2) (UdpServer.rcv src p d).
Proof.
  intros HF Hp Hd. destruct d as [from bs|].
  - rewrite udp_server_rcv_cut by done. cbn [satisfies snd].
    apply (at_cursor_rd _ []); [apply fits_cut | constructor | by apply Forall_take].
  - unfold UdpServer.rcv. rewrite clear_pkt_rd by done. apply HF.
Qed.

(** The type of a message that was received. *)
Lemma field_byte l off : field l off 1 = default 0 (l !! off).
Proof.
  unfold field. destruct (l !! off) as [x|] eqn:E.
  - rewrite (drop_S _ _ _ E). cbn. rewrite take_0. cbn. lia.
  - by rewrite drop_ge by by apply lookup_ge_None.
Qed.

Lemma received_type h bs p :
  Packet.extract_gtp_hdr (rd h [] (take (Z.to_nat BUF_SIZE) bs)) = Ret p ->
  Gtp.msg_type (Packet.gtp_hdr p) <> 0 -> bs !! 9%nat = Some (Gtp.msg_type (Packet.gtp_hdr p)).
Proof.
  unfold Packet.extract_gtp_hdr, Packet.extract_raw, rd, rdl, mem_read. pk.
  destruct (in_bounds _ _ _); [|done]. pk. intros [= <-]. pk. cbn [app].
  set (cut := take (Z.to_nat BUF_SIZE) bs). set (l := take _ _).
  change (Gtp.msg_type (Gtp.of_bytes l)) with (field l 9 1). rewrite field_byte.
  assert (l !! 9%nat = pad cut !! 9%nat) as ->.
  { unfold l. rewrite lookup_take_lt by (vm_compute; lia). by rewrite lookup_drop. }
  unfold pad. intros H. destruct (cut !! 9%nat) as [x|] eqn:E.
  - rewrite (lookup_app_l_Some _ _ _ _ E). cbn. rewrite <- E. unfold cut.
    by rewrite lookup_take_lt by (vm_compute; lia).
  - exfalso. apply H. rewrite lookup_app_r by by apply lookup_ge_None.
    destruct (replicate _ 0 !! _) as [y|] eqn:Ey; [|done]. by apply lookup_replicate_1 in Ey as [-> _].
Qed.

(** The user plane's handlers. *)
Lemma set_server_typed inet_aton ip port :
  triple typed (fun _ => True) (Upf.set_server inet_aton ip port) (fun _ => True).
Proof. apply triple_lift. by destruct (Network.set_inet_sock_addr inet_aton ip port). Qed.

Lemma uplink_typed inet_aton p c :
  at_cursor c p -> 0 <= c ->
  triple typed (fun _ => True) (Upf.handle_uplink_udata inet_aton p) (fun _ => True).
Proof.
  intros Hp Hc. unfold Upf.handle_uplink_udata.
  eapply triple_bind; [by eapply triple_lift, copy_typed|]. intros q Hq.
  eapply triple_bind; [by eapply triple_lift, truncate_anywhere|]. intros q' Hq'.
  eapply triple_bind; [apply set_server_typed|]. intros dst _. by eapply snd_typed.
Qed.

Lemma downlink_typed inet_aton p c :
  at_cursor c p -> 0 <= c ->
  triple typed (fun _ => True) (Upf.handle_downlink_udata inet_aton p) (fun _ => True).
Proof.
  intros Hp Hc. unfold Upf.handle_downlink_udata.
  eapply triple_bind; [by eapply triple_lift, copy_typed|]. intros q Hq.
  eapply (triple_bind _ _ (fun _ => True)).
  { apply triple_lift. by destruct (Network.get_dst_ip_addr q). }
  intros ip _. eapply (triple_bind _ _ (fun _ => True)); [by apply triple_gets|]. intros i _.
  destruct (i =? 0); [by apply triple_ret|].
  eapply (triple_bind _ _ (fun _ => True)); [by apply triple_gets|]. intros [[[dl enb_ip] enb_port]|] _;
    [|by apply triple_ret].
  eapply triple_bind; [by eapply triple_lift, truncate_anywhere|]. intros q1 Hq1.
  eapply triple_bind; [by apply triple_lift, (prepend_gtp_anywhere 0)|]. intros q2 Hq2.
  eapply triple_bind; [apply set_server_typed|]. intros dst _. by eapply snd_typed.
Qed.

Lemma triple_stops {S A} (I : S -> Prop) (F F' : fault -> Prop) (c : prog S A) Q :
  triple I F c Q -> (forall f, F f -> F' f) -> triple I F' c Q.
Proof. intros H HF s Hs. destruct (H s Hs) as [H1 H2]. split; [by eapply satisfies_mono | done]. Qed.

Section Turns.
Context (inet_aton : string -> option Z) (garbage_ul garbage_dl : Z -> Z).
Context (Hul : forall k, is_u32 (garbage_ul k)) (Hdl : forall k, is_u32 (garbage_dl k)).

(** The ways a turn of the N4 loop can stop. *)
Definition n4_stops (d : UdpClient.datagram) (f : fault) : Prop :=
  exits f \/ exists from bs, d = UdpClient.Got from bs /\ bs !! 9%nat = Some 2.

Lemma n4_dispatch_typed src p d :
  at_cursor 16 p ->
  (Gtp.msg_type (Packet.gtp_hdr p) = 2 -> exists from bs, d = UdpClient.Got from bs /\ bs !! 9%nat = Some 2) ->
  triple typed (n4_stops d)
    match Gtp.msg_type (Packet.gtp_hdr p) with
    | 1 => Upf.handle_create_session garbage_ul garbage_dl src p
    | 2 => Upf.handle_modify_bearer garbage_ul garbage_dl src p
    | 3 => Upf.handle_detach garbage_ul garbage_dl src p
    | 4 => Upf.handle_indirect_tunnel_setup garbage_ul garbage_dl src p
    | 5 => Upf.handle_handover_completion garbage_ul garbage_dl src p
    | 6 => Upf.handle_indirect_tunnel_teardown_ garbage_ul garbage_dl src p
    | _ => mret tt
    end (fun _ => True).
Proof.
  intros Hp H2.
  destruct (Gtp.msg_type (Packet.gtp_hdr p)) as [|[[[?|?|]|[?|?|]|]|[[?|?|]|[?|?|]|]|]|?];
    lazymatch goal with
    | |- triple _ _ (mret _) _ => by apply triple_ret
    | |- triple _ _ (Upf.handle_modify_bearer _ _ _ _) _ =>
        eapply triple_stops; [by apply modify_typed | intros f _; right; by apply H2]
    | |- _ => eapply triple_stops; [|intros f Hf; left; exact Hf]
    end.
  - by apply completion_typed.
  - by apply detach_typed.
  - by apply teardown_typed.
  - by apply tunnel_setup_typed.
  - by apply create_typed.
Qed.

Lemma n4_turn_typed src p d :
  block p -> bytes_in d ->
  triple typed (n4_stops d) (Upf.handle_s11_traffic garbage_ul garbage_dl src p d) (fun r => block r.2).
Proof.
  intros Hp Hd. unfold Upf.handle_s11_traffic. destruct d as [from bs|].
  2: { eapply (triple_bind _ _ (fun _ => False)); [|by intros _ []]. apply triple_lift.
       unfold UdpServer.rcv. rewrite clear_pkt_rd by done. left. by eexists. }
  rewrite udp_server_rcv_cut by done. set (q0 := rd _ _ _).
  assert (at_cursor 0 q0) as H0 by (apply (at_cursor_rd _ []); [apply fits_cut | constructor | by apply Forall_take]).
  eapply (triple_bind _ _ (fun x => x = (from, q0))); [by apply triple_lift|]. intros _ ->.
  eapply (triple_bind _ _ (fun q => Packet.extract_gtp_hdr q0 = Ret q /\ at_cursor 16 q)).
  { apply triple_lift. pose proof (extract_gtp_typed (n4_stops (UdpClient.Got from bs)) in_block 0 q0 H0 ltac:(lia) ltac:(done)) as H.
    destruct (Packet.extract_gtp_hdr q0); [by split | exact H]. }
  intros q [Eq Hq]. eapply triple_bind; [apply n4_dispatch_typed; [exact Hq|]|].
  - intros Et. exists from, bs. split; [done|]. rewrite <- Et. apply (received_type (hdrs_of p)); [exact Eq | lia].
  - intros _ _. apply triple_ret. apply Hq.
Qed.

(** The three loops: one turn of each. *)
Inductive interface := N4 | N3 | N6.

Definition turn (i : interface) (th : sockaddr_in * Packet.t) (d : UdpClient.datagram)
  : prog Upf.proc (sockaddr_in * Packet.t) :=
  match i with
  | N4 => Upf.handle_s11_traffic garbage_ul garbage_dl th.1 th.2 d
  | N3 => Upf.handle_s1_traffic inet_aton th.1 th.2 d
  | N6 => Upf.handle_sgi_traffic inet_aton th.1 th.2 d
  end.

(** The datagrams in the order in which the loops get to serve them; each
    loop has its own address and packet. *)
Fixpoint serve (ds : list (interface * UdpClient.datagram)) (th : interface -> sockaddr_in * Packet.t)
  : prog Upf.proc unit :=
  match ds with
  | [] => mret tt
  | (i, d) :: ds =>
      t ← turn i (th i) d;
      serve ds (fun j => match i, j with N4, N4 | N3, N3 | N6, N6 => t | _, _ => th j end)
  end.

Lemma turn_typed i th d :
  block th.2 -> bytes_in d -> triple typed (fun _ => True) (turn i th d) (fun r => block r.2).
Proof.
  destruct th as [src p]. intros Hp Hd. destruct i; cbn [turn fst snd].
  - eapply triple_stops; [by apply n4_turn_typed | done].
  - unfold Upf.handle_s1_traffic.
    eapply triple_bind; [by apply triple_lift, received_typed|]. intros [from q0] Hq0. cbn [snd] in Hq0.
    eapply triple_bind; [by apply triple_lift, (extract_gtp_typed _ in_block 0)|]. intros q Hq.
    eapply (triple_bind _ _ (fun _ => True)); [|intros _ _; apply triple_ret, Hq].
    destruct (Gtp.msg_type _) as [|[?|?|]|?]; try (by apply triple_ret). by eapply uplink_typed.
  - unfold Upf.handle_sgi_traffic.
    eapply triple_bind; [by apply triple_lift, received_typed|]. intros [from q0] Hq0. cbn [snd] in Hq0.
    eapply triple_bind; [by eapply downlink_typed|]. intros _ _. apply triple_ret, Hq0.
Qed.

(** Whatever bytes arrive at the three interfaces, in whatever order the loops
    get to serve them, and whether or not a datagram ends the process. *)
Lemma serve_typed ds th :
  Forall (fun x => bytes_in x.2) ds -> (forall i, block (th i).2) ->
  triple typed (fun _ => True) (serve ds th) (fun _ => True).
Proof.
  intros Hds. revert th. induction Hds as [|[i d] ds Hd _ IH]; intros th Hth; cbn [serve]; [by apply triple_ret|].
  eapply triple_bind; [by apply turn_typed|]. intros t Ht. apply IH. intros j. by destruct i, j.
Qed.

(** *** The start *)

Lemma pool_ip_short n : 0 <= n < 10000 -> len (c_str (pool_ip n)) <= 32.
Proof.
  assert (forallb (fun k => len (c_str (pool_ip (Z.of_nat k))) <=? 32) (seq 0 (Z.to_nat 10000)) = true) as H
    by (vm_compute; reflexivity).
  intros Hn. rewrite forallb_forall in H. apply Z.leb_le. rewrite <- (Z2Nat.id n) by lia.
  apply H, in_seq. lia.
Qed.

Lemma construct_typed : typed (Upf.mk_proc Upf.construct []).
Proof.
  split; [|constructor]. cbn [Upf.upf]. rewrite construct_eq.
  split; [apply map_Forall_empty | apply map_Forall_empty | apply map_Forall_empty | apply map_Forall_empty
    | apply map_Forall_empty |].
  intros k a E. cbn [Upf.ip_addrs] in E.
  assert (exists n, k = deployed_imsi n) as [n ->] by (exists (k - 119000000000); unfold deployed_imsi; lia).
  destruct (decide (0 <= n < 10000)) as [Hn|Hn].
  - rewrite pool_spec in E by done. injection E as <-. split; [unfold deployed_imsi, is_u64; lia | by apply pool_ip_short].
  - rewrite pool_outside in E; [done|]. unfold deployed_imsi. intros n' Hn' E'. apply Hn. lia.
Qed.

(** ** Properties *)

(** C18: memory safety of the N4 interface: a datagram with arbitrary content
    makes a turn of the loop either return or stop the process by [exit]; no
    handler reads or writes outside its buffers, except that of the modify
    bearer request (message type 2), whose string has a length the sender
    chooses. *)
Theorem n4_memory_safe src p d s :
  typed s -> block p -> bytes_in d ->
  match (Upf.handle_s11_traffic garbage_ul garbage_dl src p d s).1 with
  | Ret r => block r.2
  | Fault (Exit _) => True
  | Fault _ => exists from bs, d = UdpClient.Got from bs /\ bs !! 9%nat = Some 2
  end.
Proof.
  intros Hs Hp Hd. destruct (n4_turn_typed src p d Hp Hd s Hs) as [H _].
  destruct (Upf.handle_s11_traffic garbage_ul garbage_dl src p d s).1 as [r|[m|w|w|w]]; [exact H | done | | |];
    (destruct H as [[m' Hm]|H]; [discriminate Hm | exact H]).
Qed.
End Turns.

(** The exception is one: a modify bearer request for session 5 whose string
    claims 5000 bytes. *)
Definition long_string : list Z :=
  Gtp.to_bytes (demo_gtp 2 5) ++ enc_items [IU8 5; IU32 77] ++ le_bytes 4 5000.

Lemma modify_bearer_reads_outside :
  (Upf.handle_s11_traffic zeros zeros demo_smf (rd zero_hdrs [] []) (UdpClient.Got demo_smf long_string)
    (Upf.mk_proc demo_upf [])).1 = Fault (UB "read outside the buffer").
Proof. vm_compute. reflexivity. Qed.

(** *** Witnesses *)

Lemma zeros_u32 k : is_u32 (zeros k).
Proof. done. Qed.

Lemma n4_memory_safe_witness :
  let r := (Upf.handle_s11_traffic zeros zeros demo_smf (rd zero_hdrs [] [])
             (UdpClient.Got demo_smf (Gtp.to_bytes (demo_gtp 3 5) ++ [255])) (Upf.mk_proc Upf.construct [])).1 in
  r = Fault (Exit "Zero imsi: upf_handledetach") /\
  match r with
  | Ret r => block r.2
  | Fault (Exit _) => True
  | Fault _ => exists from bs,
      UdpClient.Got demo_smf (Gtp.to_bytes (demo_gtp 3 5) ++ [255]) = UdpClient.Got from bs /\ bs !! 9%nat = Some 2
  end.
Proof.
  split; [vm_compute; reflexivity|].
  apply (n4_memory_safe zeros zeros zeros_u32 zeros_u32).
  - apply construct_typed.
  - reflexivity.
  - repeat constructor; discriminate.
Defined.
