(* ===== verification/Datagrams.v ===== *)
(** * Datagrams: what a thread puts on the wire

    [UdpServer::snd] and [UdpClient::snd] (src/udp_server.cpp,
    src/udp_client.cpp) inside code that other threads interrupt: an event
    that carries the address and the bytes.  UpfThreads and SmfThreads share
    it. *)

From Stdlib Require Import ZArith Lia.
From S2P Require Import Prelude Threads Utils Headers Packet Network.

(** The packet is passed by value; the datagram is [pkt.data] up to
    [pkt.len]. *)
Definition send {T} `{ST : Store T} (dst : sockaddr_in) (pkt : Packet.t)
  : code (sockaddr_in * list Z) unit :=
  pkt ← Finish (Packet.copy pkt);
  dgram ← Finish (mem_read (Packet.data pkt) 0 (Packet.plen pkt));
  Emit (dst, dgram) (mret tt).

Section Send.
Context {T : Type} `{ST : Store T}.

(** It touches no shared cell and takes one turn. *)
Lemma send_within ft dst q v : within ft (send dst q) v.
Proof. unfold send. by do 2 (apply within_finish; intros ? _). Qed.

Lemma send_budget dst q : budget (send dst q) 1.
Proof. unfold send. by do 2 (apply budget_finish; intros ?). Qed.

(** A packet that holds what was written and not yet read. *)
Lemma send_code dst h pre post : fits pre post -> send dst (rd h pre post) = Emit (dst, pre ++ post) (mret tt).
Proof.
  intros Hf. unfold send. erewrite finish_bind by (by apply copy_rd).
  erewrite finish_bind; [reflexivity|]. unfold rd, rdl. pk. by apply mem_read_pad_all.
Qed.
End Send.
