(* ===== verification/UpfThreads.v ===== *)
(** * UpfThreads: the threads of the UPF (src/upf.cpp, src/upf_server.cpp)

    The UPF runs any number of threads for each of its three interfaces; they
    share the tables.  Each table has a mutex but for the pool of addresses, and
    all accesses are made under the mutex but for three: the read of the pool,
    the read of [ue_ctx] at the end of a handover and the removal from
    [ho_ue_ctx].  Here are the handlers of Upf.v again, cut where the code takes
    and releases its mutexes, and the proof that, alone, they are the handlers
    of Upf.v.  [m[k]] for a key that is there reads the table, as in the C++
    libraries at hand; for another key it inserts one.

    Two accesses under one mutex are one section when they concern one entry.
    The handover handlers hold the mutex over an entry of each of two tables;
    those are two sections here, so their threads are interleaved more finely
    than the code allows. *)

From Stdlib Require Import ZArith Lia Ascii String.
From S2P Require Import Prelude Utils Threads Telecom Headers Packet Network Transport Datagrams Upf.

Module Shared.
Import Upf.

(** The entries of the tables. *)
Inductive cell :=
  | S11 (teid : Z) | S1 (teid : Z) | Sgi (ue_ip_addr : string)
  | Ctx (imsi : Z) | Ho (key : Z) | Ip (imsi : Z).
#[global] Instance cell_eq_dec : EqDecision cell.
Proof. solve_decision. Defined.

Definition elt (c : cell) : Type :=
  match c with
  | S11 _ | S1 _ | Sgi _ => Z
  | Ctx _ | Ho _ => UeContext
  | Ip _ => string
  end.
Definition val (c : cell) : Type := option (elt c).

Definition get (c : cell) (u : Upf.t) : val c :=
  match c with
  | S11 k => s11_id u !! k
  | S1 k => s1_id u !! k
  | Sgi k => sgi_id u !! k
  | Ctx k => ue_ctx u !! k
  | Ho k => ho_ue_ctx u !! k
  | Ip k => ip_addrs u !! k
  end.

Definition put (c : cell) : val c -> Upf.t -> Upf.t :=
  match c return val c -> Upf.t -> Upf.t with
  | S11 k => fun v u => u <| s11_id := partial_alter (fun _ => v) k (s11_id u) |>
  | S1 k => fun v u => u <| s1_id := partial_alter (fun _ => v) k (s1_id u) |>
  | Sgi k => fun v u => u <| sgi_id := partial_alter (fun _ => v) k (sgi_id u) |>
  | Ctx k => fun v u => u <| ue_ctx := partial_alter (fun _ => v) k (ue_ctx u) |>
  | Ho k => fun v u => u <| ho_ue_ctx := partial_alter (fun _ => v) k (ho_ue_ctx u) |>
  | Ip k => fun v u => u <| ip_addrs := partial_alter (fun _ => v) k (ip_addrs u) |>
  end.

(** The tables by number. *)
Definition table (c : cell) : nat :=
  match c with S11 _ => 0 | S1 _ => 1 | Sgi _ => 2 | Ctx _ => 3 | Ho _ => 4 | Ip _ => 5 end.

#[global] Instance upf_store : Store Upf.t := {
  Threads.cell := cell; Threads.val := val; Threads.get := get; Threads.put := put;
  Threads.object := table; Threads.reshapes c := comes_or_goes
}.

#[global] Instance upf_store_laws : StoreLaws Upf.t.
Proof.
  split.
  - intros [k|k|k|k|k|k] v s; cbn; by rewrite lookup_partial_alter_eq.
  - intros [k|k|k|k|k|k] [k'|k'|k'|k'|k'|k'] v s N; cbn; try done;
      rewrite lookup_partial_alter_ne by congruence; done.
  - intros [a1 a2 a3 a4 a5 a6] [b1 b2 b3 b4 b5 b6] H.
    pose proof (fun k => H (S11 k)) as H1. pose proof (fun k => H (S1 k)) as H2.
    pose proof (fun k => H (Sgi k)) as H3. pose proof (fun k => H (Ctx k)) as H4.
    pose proof (fun k => H (Ho k)) as H5. pose proof (fun k => H (Ip k)) as H6. cbn in *.
    f_equal; by apply map_eq.
  - intros c v. apply comes_or_goes_id.
Qed.

(** A thread sends datagrams. *)
Abbreviation ucode := (code (T := Upf.t) (sockaddr_in * list Z)).

Definition set_cell (c : cell) (v : elt c) : ucode unit := section (T := Upf.t) c (fun _ => (Ret tt, Some v)).
Definition erase_cell (c : cell) : ucode unit := section (T := Upf.t) c (fun _ => (Ret tt, None)).
Definition bare_erase_cell (c : cell) : ucode unit := bare_write (T := Upf.t) c (fun _ => (Ret tt, None)).
(** The value of [m[k]], which inserts [d]. *)
Definition index_cell (m : mode) (c : cell) (d : elt c) : ucode (elt c) :=
  access (T := Upf.t) m c (fun v : val c => (Ret (default d v), Some (default d v))).

(** [Upf::update_itfid], of three and of four arguments *)
Definition update_itfid3 (itf_id_no teid imsi : Z) : ucode unit :=
  match itf_id_no with
  | 11 => set_cell (S11 teid) imsi
  | 1 => set_cell (S1 teid) imsi
  | _ => Finish (Utils.handle_type1_error (-1) "incorrect itf_id_no: upf_updateitfid")
  end.
Definition update_itfid4 (itf_id_no teid : Z) (ue_ip_addr : string) (imsi : Z) : ucode unit :=
  match itf_id_no with
  | 11 => set_cell (S11 teid) imsi
  | 1 => set_cell (S1 teid) imsi
  | 0 => set_cell (Sgi ue_ip_addr) imsi
  | _ => Finish (Utils.handle_type1_error (-1) "incorrect itf_id_no: upf_updateitfid")
  end.

(** [Upf::get_imsi] *)
Definition look (c : cell) (d : elt c) : ucode (elt c) :=
  reading (T := Upf.t) c (fun v : val c => (Ret (default d v), v)).
Definition get_imsi2 (itf_id_no teid : Z) : ucode Z :=
  match itf_id_no with
  | 11 => look (S11 teid) 0
  | 1 => look (S1 teid) 0
  | _ => _ ← Finish (Utils.handle_type1_error (-1) "incorrect itf_id_no: upf_getimsi"); mret 0
  end.
Definition get_imsi3 (itf_id_no teid : Z) (ue_ip_addr : string) : ucode Z :=
  match itf_id_no with
  | 11 => look (S11 teid) 0
  | 1 => look (S1 teid) 0
  | 0 => look (Sgi ue_ip_addr) 0
  | _ => _ ← Finish (Utils.handle_type1_error (-1) "incorrect itf_id_no: upf_getimsi"); mret 0
  end.

(** [Upf::rem_itfid], [Upf::rem_uectx] *)
Definition rem_itfid2 (itf_id_no teid : Z) : ucode unit :=
  match itf_id_no with
  | 11 => erase_cell (S11 teid)
  | 1 => erase_cell (S1 teid)
  | _ => Finish (Utils.handle_type1_error (-1) "incorrect itf_id_no: upf_remitfid")
  end.
Definition rem_itfid3 (itf_id_no teid : Z) (ue_ip_addr : string) : ucode unit :=
  match itf_id_no with
  | 11 => erase_cell (S11 teid)
  | 1 => erase_cell (S1 teid)
  | 0 => erase_cell (Sgi ue_ip_addr)
  | _ => Finish (Utils.handle_type1_error (-1) "incorrect itf_id_no: upf_remitfid")
  end.
Definition rem_uectx (imsi : Z) : ucode unit := erase_cell (Ctx imsi).

Definition snd (dst : sockaddr_in) (pkt : Packet.t) : ucode unit := send dst pkt.

Section Handlers.
Context (inet_aton : string -> option Z).
Context (garbage_ul garbage_dl : Z -> Z).
Let new_ctx (imsi : Z) : UeContext := Upf.new_ctx garbage_ul garbage_dl imsi.

(** [Upf::handle_create_session]; [ip_addrs] has no mutex. *)
Definition handle_create_session (src_sock_addr : sockaddr_in) (pkt : Packet.t) : ucode unit :=
  pkt ← Finish (Packet.copy pkt);
  '(s11_cteid_smf, pkt) ← Finish (Packet.extract_item_uint32 pkt);
  '(imsi, pkt) ← Finish (Packet.extract_item_uint64 pkt);
  '(eps_bearer_id, pkt) ← Finish (Packet.extract_item_uint8 pkt);
  '(apn_in_use, pkt) ← Finish (Packet.extract_item_uint64 pkt);
  '(arg_tai, pkt) ← Finish (Packet.extract_item_uint64 pkt);
  let s1_uteid_ul := s11_cteid_smf in
  let s11_cteid_upf := s11_cteid_smf in
  ue_ip_addr ← index_cell (Bare false false) (Ip imsi) "";
  _ ← update_itfid3 11 s11_cteid_upf imsi;
  _ ← update_itfid3 1 s1_uteid_ul imsi;
  _ ← update_itfid4 0 0 ue_ip_addr imsi;
  _ ← section (T := Upf.t) (Ctx imsi) (fun v =>
        let c := init_ctx ue_ip_addr arg_tai apn_in_use eps_bearer_id
                   s1_uteid_ul s11_cteid_smf s11_cteid_upf (default (new_ctx imsi) v) in
        (Ret tt, Some (c <| tai := arg_tai |>)));
  pkt ← Finish (n4_reply pkt [IU32 s11_cteid_upf; IStr ue_ip_addr; IU32 s1_uteid_ul] 1 s11_cteid_smf);
  snd src_sock_addr pkt.

(** [Upf::handle_modify_bearer] *)
Definition handle_modify_bearer (src_sock_addr : sockaddr_in) (pkt : Packet.t) : ucode unit :=
  pkt ← Finish (Packet.copy pkt);
  imsi ← get_imsi2 11 (Gtp.teid (Packet.gtp_hdr pkt));
  _ ← Finish (if imsi =? 0
              then Utils.handle_type1_error (-1) "Zero imsi: upf_handlemodifybearer"
              else mret tt);
  '(eps_bearer_id, pkt) ← Finish (Packet.extract_item_uint8 pkt);
  '(dl, pkt) ← Finish (Packet.extract_item_uint32 pkt);
  '(enb_ip, pkt) ← Finish (Packet.extract_item_string pkt);
  '(enb_port, pkt) ← Finish (Packet.extract_item_int pkt);
  s11_cteid_smf ← section (T := Upf.t) (Ctx imsi) (fun v =>
        let c := (default (new_ctx imsi) v) <| s1_uteid_dl := dl |> <| enodeb_ip_addr := enb_ip |>
                   <| enodeb_port := enb_port |> in
        (Ret (s11_cteid_smf c), Some c));
  pkt ← Finish (n4_reply pkt [IBool true] 2 s11_cteid_smf);
  snd src_sock_addr pkt.

(** [Upf::handle_uplink_udata] *)
Definition handle_uplink_udata (pkt : Packet.t) : ucode unit :=
  pkt ← Finish (Packet.copy pkt);
  pkt ← Finish (Packet.truncate pkt);
  dst ← Finish (Network.set_inet_sock_addr inet_aton g_sink_ip_addr g_sink_port);
  snd dst pkt.

(** [Upf::get_downlink_info] *)
Definition get_downlink_info (imsi : Z) : ucode (option (Z * string * Z)) :=
  reading (T := Upf.t) (Ctx imsi) (fun v =>
    (Ret match v with
         | Some c => if enodeb_port c =? 0 then None else Some (s1_uteid_dl c, enodeb_ip_addr c, enodeb_port c)
         | None => None
         end, v)).

(** [Upf::handle_downlink_udata] *)
Definition handle_downlink_udata (pkt : Packet.t) : ucode unit :=
  pkt ← Finish (Packet.copy pkt);
  ue_ip_addr ← Finish (Network.get_dst_ip_addr pkt);
  imsi ← get_imsi3 0 0 ue_ip_addr;
  if imsi =? 0 then mret tt
  else
    res ← get_downlink_info imsi;
    match res with
    | None => mret tt
    | Some (dl, enb_ip, enb_port) =>
        pkt ← Finish (Packet.truncate pkt);
        pkt ← Finish (Packet.prepend_gtp_hdr pkt 1 2 (Packet.plen pkt) dl);
        dst ← Finish (Network.set_inet_sock_addr inet_aton enb_ip enb_port);
        snd dst pkt
    end.

(** [Upf::handle_indirect_tunnel_setup] *)
Definition handle_indirect_tunnel_setup (src_sock_addr : sockaddr_in) (pkt : Packet.t) : ucode unit :=
  pkt ← Finish (Packet.copy pkt);
  imsi ← get_imsi2 11 (Gtp.teid (Packet.gtp_hdr pkt));
  '(dl, pkt) ← Finish (Packet.extract_item_uint32 pkt);
  _ ← section (T := Upf.t) (Ho (u32 imsi)) (fun v =>
        (Ret tt, Some ((default (new_ctx imsi) v) <| s1_uteid_dl := dl |>)));
  c ← index_cell (Locked false) (Ctx imsi) (new_ctx imsi);
  let s1_uteid_ul := u32 (s11_cteid_smf c + 1) in
  _ ← update_itfid3 1 s1_uteid_ul imsi;
  pkt ← Finish (n4_reply pkt [IBool true; IU32 s1_uteid_ul] 4 (s11_cteid_smf c));
  snd src_sock_addr pkt.

(** [Upf::handle_handover_completion]; [ho_ue_ctx.erase] is outside the
    mutex. *)
Definition handle_handover_completion (src_sock_addr : sockaddr_in) (pkt : Packet.t) : ucode unit :=
  pkt ← Finish (Packet.copy pkt);
  imsi ← get_imsi2 11 (Gtp.teid (Packet.gtp_hdr pkt));
  h ← index_cell (Locked false) (Ho (u32 imsi)) (new_ctx imsi);
  s11_cteid_smf ← section (T := Upf.t) (Ctx imsi) (fun v =>
        let c := (default (new_ctx imsi) v) <| s1_uteid_dl := s1_uteid_dl h |> in
        (Ret (s11_cteid_smf c), Some c));
  _ ← bare_erase_cell (Ho (u32 imsi));
  pkt ← Finish (n4_reply pkt [IBool true] 5 s11_cteid_smf);
  snd src_sock_addr pkt.

(** [Upf::handle_indirect_tunnel_teardown_], which reads [ue_ctx] without the
    mutex *)
Definition handle_indirect_tunnel_teardown_ (src_sock_addr : sockaddr_in) (pkt : Packet.t) : ucode unit :=
  pkt ← Finish (Packet.copy pkt);
  imsi ← get_imsi2 11 (Gtp.teid (Packet.gtp_hdr pkt));
  c ← index_cell (Bare false false) (Ctx imsi) (new_ctx imsi);
  '(s1_uteid_ul_indirect, pkt) ← Finish (Packet.extract_item_uint32 pkt);
  _ ← rem_itfid2 1 s1_uteid_ul_indirect;
  pkt ← Finish (n4_reply pkt [IBool true] 6 (s11_cteid_smf c));
  snd src_sock_addr pkt.

(** [Upf::handle_detach]: the answer leaves before the entries are removed. *)
Definition handle_detach (src_sock_addr : sockaddr_in) (pkt : Packet.t) : ucode unit :=
  pkt ← Finish (Packet.copy pkt);
  imsi ← get_imsi2 11 (Gtp.teid (Packet.gtp_hdr pkt));
  _ ← Finish (if imsi =? 0
              then Utils.handle_type1_error (-1) "Zero imsi: upf_handledetach"
              else mret tt);
  '(eps_bearer_id, pkt) ← Finish (Packet.extract_item_uint8 pkt);
  '(arg_tai, pkt) ← Finish (Packet.extract_item_uint64 pkt);
  c ← reading (T := Upf.t) (Ctx imsi) (fun v =>
        match v with
        | Some c => (Ret c, Some c)
        | None => (_ ← Utils.handle_type1_error (-1) "No uectx: upf_handledetach"; mret (new_ctx imsi), None)
        end);
  pkt ← Finish (n4_reply pkt [IBool true] 3 (s11_cteid_smf c));
  _ ← snd src_sock_addr pkt;
  _ ← rem_itfid2 11 (s11_cteid_upf c);
  _ ← rem_itfid2 1 (s1_uteid_ul c);
  _ ← rem_itfid3 0 0 (ip_addr c);
  rem_uectx imsi.

(** One turn of each of the three loops *)
Definition handle_s11_traffic (src_sock_addr : sockaddr_in) (pkt : Packet.t) (d : UdpClient.datagram)
  : ucode (sockaddr_in * Packet.t) :=
  '(src_sock_addr, pkt) ← Finish (UdpServer.rcv src_sock_addr pkt d);
  pkt ← Finish (Packet.extract_gtp_hdr pkt);
  _ ← match Gtp.msg_type (Packet.gtp_hdr pkt) with
      | 1 => handle_create_session src_sock_addr pkt
      | 2 => handle_modify_bearer src_sock_addr pkt
      | 3 => handle_detach src_sock_addr pkt
      | 4 => handle_indirect_tunnel_setup src_sock_addr pkt
      | 5 => handle_handover_completion src_sock_addr pkt
      | 6 => handle_indirect_tunnel_teardown_ src_sock_addr pkt
      | _ => mret tt
      end;
  mret (src_sock_addr, pkt).

Definition handle_s1_traffic (src_sock_addr : sockaddr_in) (pkt : Packet.t) (d : UdpClient.datagram)
  : ucode (sockaddr_in * Packet.t) :=
  '(src_sock_addr, pkt) ← Finish (UdpServer.rcv src_sock_addr pkt d);
  pkt ← Finish (Packet.extract_gtp_hdr pkt);
  _ ← match Gtp.msg_type (Packet.gtp_hdr pkt) with
      | 1 => handle_uplink_udata pkt
      | _ => mret tt
      end;
  mret (src_sock_addr, pkt).

Definition handle_sgi_traffic (src_sock_addr : sockaddr_in) (pkt : Packet.t) (d : UdpClient.datagram)
  : ucode (sockaddr_in * Packet.t) :=
  '(src_sock_addr, pkt) ← Finish (UdpServer.rcv src_sock_addr pkt d);
  _ ← handle_downlink_udata pkt;
  mret (src_sock_addr, pkt).
End Handlers.
End Shared.

(** ** Alone, they are the handlers of Upf.v *)

#[export] Instance upf_process : Process Upf.t (sockaddr_in * list Z) Upf.proc := {
  view := Upf.upf;
  advance u es s := Upf.mk_proc u (Upf.out s ++ es)
}.
#[export] Instance upf_process_laws : ProcessLaws Upf.t (sockaddr_in * list Z) Upf.proc.
Proof.
  split; [done | |].
  - intros t t' es es' p. cbn. by rewrite app_assoc.
  - intros [u o]. cbn. by rewrite app_nil_r.
Qed.

Lemma upf_access {B} m (c : Shared.cell) (f : Shared.val c -> result B * Shared.val c) (p : prog Upf.proc B) :
  (forall u o, p (Upf.mk_proc u o) =
     ((f (Shared.get c u)).1, Upf.mk_proc (Shared.put c (f (Shared.get c u)).2 u) o)) ->
  alike (access (T := Upf.t) m c f) p.
Proof. intros H. apply alike_access. intros [u o]. rewrite H. cbn. by rewrite app_nil_r. Qed.

(** The statements of the handlers. *)
Ltac by_section := apply upf_access; intros [s11 s1 sgi ctx ho ips] o; reflexivity.

Section Alike.
Context (inet_aton : string -> option Z).
Context (garbage_ul garbage_dl : Z -> Z).
Let new_ctx := Upf.new_ctx garbage_ul garbage_dl.

(** By the number of the interface. *)
Ltac by_interface :=
  repeat match goal with |- alike (match ?z with _ => _ end) _ => destruct z end;
  first [ by_section | apply alike_look; intros []; reflexivity | apply alike_finish
        | apply alike_bind; [apply alike_finish | intros; apply alike_ret] ].

Lemma alike_update3 i te im : alike (Shared.update_itfid3 i te im) (Upf.update_itfid3 i te im).
Proof. unfold Shared.update_itfid3, Upf.update_itfid3. by_interface. Qed.
Lemma alike_update4 i te a im : alike (Shared.update_itfid4 i te a im) (Upf.update_itfid4 i te a im).
Proof. unfold Shared.update_itfid4, Upf.update_itfid4. by_interface. Qed.
Lemma alike_get_imsi2 i te : alike (Shared.get_imsi2 i te) (Upf.get_imsi2 i te).
Proof. unfold Shared.get_imsi2, Upf.get_imsi2. by_interface. Qed.
Lemma alike_get_imsi3 i te a : alike (Shared.get_imsi3 i te a) (Upf.get_imsi3 i te a).
Proof. unfold Shared.get_imsi3, Upf.get_imsi3. by_interface. Qed.
Lemma alike_rem2 i te : alike (Shared.rem_itfid2 i te) (Upf.rem_itfid2 i te).
Proof. unfold Shared.rem_itfid2, Upf.rem_itfid2. by_interface. Qed.
Lemma alike_rem3 i te a : alike (Shared.rem_itfid3 i te a) (Upf.rem_itfid3 i te a).
Proof. unfold Shared.rem_itfid3, Upf.rem_itfid3. by_interface. Qed.
Lemma alike_rem_uectx im : alike (Shared.rem_uectx im) (Upf.rem_uectx im).
Proof. by_section. Qed.
Lemma alike_ip_get im : alike (Shared.index_cell (Bare false false) (Shared.Ip im) "") (Upf.ip_get im).
Proof. apply upf_access. intros u o. unfold Upf.ip_get, gets. run. upf_st. by rewrite at_or_touch. Qed.
Lemma alike_snd dst p : alike (Shared.snd dst p) (Upf.snd dst p).
Proof.
  apply alike_bind; [apply alike_finish | intros q]. apply alike_bind; [apply alike_finish | intros bs].
  by intros [u o].
Qed.
Lemma alike_downlink_info im : alike (Shared.get_downlink_info im) (Upf.get_downlink_info im).
Proof. by apply alike_look. Qed.
#[local] Hint Resolve alike_update3 alike_update4 alike_get_imsi2 alike_get_imsi3 alike_rem2 alike_rem3
  alike_rem_uectx alike_ip_get alike_snd alike_downlink_info : alike.

Lemma alike_uplink p :
  alike (Shared.handle_uplink_udata inet_aton p) (Upf.handle_uplink_udata inet_aton p).
Proof. unfold Shared.handle_uplink_udata, Upf.handle_uplink_udata, Upf.set_server. alike_tac. Qed.
Lemma alike_downlink p :
  alike (Shared.handle_downlink_udata inet_aton p) (Upf.handle_downlink_udata inet_aton p).
Proof. unfold Shared.handle_downlink_udata, Upf.handle_downlink_udata, Upf.set_server. alike_tac. Qed.

(** The sections over one context. *)
Lemma alike_ctx_set_set im f g :
  alike (section (T := Upf.t) (Shared.Ctx im) (fun v => (Ret tt, Some (g (f (default (new_ctx im) v))))))
        (_ ← Upf.ctx_set garbage_ul garbage_dl im f; Upf.ctx_set garbage_ul garbage_dl im g).
Proof.
  apply upf_access. intros u o. unfold Upf.ctx_set. run. unfold modify. upf_st. by rewrite upd_upd.
Qed.
Lemma alike_ctx_set_get {A} im f (g : Upf.UeContext -> A) :
  alike (section (T := Upf.t) (Shared.Ctx im) (fun v => let c := f (default (new_ctx im) v) in (Ret (g c), Some c)))
        (_ ← Upf.ctx_set garbage_ul garbage_dl im f; Upf.ctx_get garbage_ul garbage_dl im g).
Proof.
  apply upf_access. intros u o. unfold Upf.ctx_set, Upf.ctx_get, gets. run. upf_st.
  by rewrite at_or_touch, touch_upd, at_or_upd.
Qed.
Lemma alike_ctx_get {A} m im (g : Upf.UeContext -> A) :
  alike (c ← Shared.index_cell m (Shared.Ctx im) (new_ctx im); mret (g c)) (Upf.ctx_get garbage_ul garbage_dl im g).
Proof.
  intros [u o]. unfold Upf.ctx_get, gets. run. upf_st. rewrite at_or_touch. unfold as_prog. cbn. by rewrite app_nil_r.
Qed.
Lemma alike_ho_get {A} m im (g : Upf.UeContext -> A) :
  alike (c ← Shared.index_cell m (Shared.Ho (u32 im)) (new_ctx im); mret (g c)) (Upf.ho_get garbage_ul garbage_dl im g).
Proof.
  intros [u o]. unfold Upf.ho_get, gets. run. upf_st. rewrite at_or_touch. unfold as_prog. cbn. by rewrite app_nil_r.
Qed.
Lemma alike_ho_set im f :
  alike (section (T := Upf.t) (Shared.Ho (u32 im)) (fun v => (Ret tt, Some (f (default (new_ctx im) v)))))
        (Upf.ho_set garbage_ul garbage_dl im f).
Proof. by apply upf_access. Qed.
Lemma alike_ho_erase im :
  alike (Shared.bare_erase_cell (Shared.Ho (u32 im)))
        (modify (Upf.on_upf (fun u => u <| Upf.ho_ue_ctx := delete (u32 im) (Upf.ho_ue_ctx u) |>))).
Proof. by apply upf_access. Qed.

#[local] Hint Resolve alike_ctx_set_set alike_ctx_set_get alike_ctx_get alike_ho_get alike_ho_set alike_ho_erase : alike.

Ltac by_set_get :=
  match goal with |- alike _ (_ ← Upf.ctx_set _ _ ?im ?f; Upf.ctx_get _ _ _ ?g) => exact (alike_ctx_set_get im f g) end.

Lemma alike_create src p :
  alike (Shared.handle_create_session garbage_ul garbage_dl src p)
        (Upf.handle_create_session garbage_ul garbage_dl src p).
Proof.
  unfold Shared.handle_create_session, Upf.handle_create_session. alike_tac.
  apply alike_bind2; [apply alike_ctx_set_set | intros _]. alike_tac.
Qed.

Lemma alike_modify src p :
  alike (Shared.handle_modify_bearer garbage_ul garbage_dl src p)
        (Upf.handle_modify_bearer garbage_ul garbage_dl src p).
Proof.
  unfold Shared.handle_modify_bearer, Upf.handle_modify_bearer. alike_tac.
  apply alike_bind2; [by_set_get | intros]. alike_tac.
Qed.

Lemma alike_setup src p :
  alike (Shared.handle_indirect_tunnel_setup garbage_ul garbage_dl src p)
        (Upf.handle_indirect_tunnel_setup garbage_ul garbage_dl src p).
Proof.
  unfold Shared.handle_indirect_tunnel_setup, Upf.handle_indirect_tunnel_setup. alike_tac.
  apply (alike_member _ Upf.s11_cteid_smf); [apply alike_ctx_get | intros c]. alike_tac.
Qed.

Lemma alike_completion src p :
  alike (Shared.handle_handover_completion garbage_ul garbage_dl src p)
        (Upf.handle_handover_completion garbage_ul garbage_dl src p).
Proof.
  unfold Shared.handle_handover_completion, Upf.handle_handover_completion. alike_tac.
  apply (alike_member _ Upf.s1_uteid_dl); [apply alike_ho_get | intros c].
  apply alike_bind2; [by_set_get | intros]. alike_tac.
Qed.

Lemma alike_teardown src p :
  alike (Shared.handle_indirect_tunnel_teardown_ garbage_ul garbage_dl src p)
        (Upf.handle_indirect_tunnel_teardown_ garbage_ul garbage_dl src p).
Proof.
  unfold Shared.handle_indirect_tunnel_teardown_, Upf.handle_indirect_tunnel_teardown_. alike_tac.
  apply (alike_member _ Upf.s11_cteid_smf); [apply alike_ctx_get | intros c]. alike_tac.
Qed.

(** The detach handler's section: the test and four members. *)
Lemma alike_detach_section {B} im (k : Upf.UeContext -> code (T := Upf.t) _ B) k' :
  (forall c, alike (k c) (k' (Upf.s11_cteid_smf c) (Upf.s11_cteid_upf c) (Upf.s1_uteid_ul c) (Upf.ip_addr c))) ->
  alike
    (c ← reading (T := Upf.t) (Shared.Ctx im) (fun v =>
       match v with
       | Some c => (Ret c, Some c)
       | None => (_ ← Utils.handle_type1_error (-1) "No uectx: upf_handledetach"; mret (new_ctx im), None)
       end); k c)
    (found ← gets (fun s => bool_decide (is_Some (Upf.ue_ctx (Upf.upf s) !! im)));
     _ ← (if found : bool then mret tt
          else lift (Utils.handle_type1_error (-1) "No uectx: upf_handledetach"));
     a ← Upf.ctx_get garbage_ul garbage_dl im Upf.s11_cteid_smf;
     b ← Upf.ctx_get garbage_ul garbage_dl im Upf.s11_cteid_upf;
     c ← Upf.ctx_get garbage_ul garbage_dl im Upf.s1_uteid_ul;
     d ← Upf.ctx_get garbage_ul garbage_dl im Upf.ip_addr;
     k' a b c d).
Proof.
  intros Hk s.
  etransitivity.
  { apply (alike_bind _ (fun s => match Upf.ue_ctx (Upf.upf s) !! im with
      | Some c => (Ret c, s)
      | None => (Fault (Exit "No uectx: upf_handledetach"), s)
      end) k (fun c => k' (Upf.s11_cteid_smf c) (Upf.s11_cteid_upf c) (Upf.s1_uteid_ul c) (Upf.ip_addr c)));
      [|exact Hk].
    intros [u o]. cbn [Upf.upf]. destruct (Upf.ue_ctx u !! im) as [c|] eqn:Ec;
      unfold as_prog; cbn; rewrite Ec; cbn; rewrite app_nil_r; f_equal; f_equal; destruct u; cbn in *; f_equal.
    all: by apply partial_alter_id. }
  unfold mbind at 1, prog_bind at 1. run. destruct (Upf.ue_ctx (Upf.upf s) !! im) as [c|] eqn:Ec.
  - rewrite bool_decide_eq_true_2 by done. unfold Upf.ctx_get. run. destruct s as [[s11 s1 sgi ctx ho ips] o]. upf_st.
    by rewrite !(touch_id _ _ _ _ Ec), !(at_or_Some _ _ _ _ Ec).
  - by rewrite bool_decide_eq_false_2 by (intros [? ?]; congruence).
Qed.

Lemma alike_detach src p :
  alike (Shared.handle_detach garbage_ul garbage_dl src p) (Upf.handle_detach garbage_ul garbage_dl src p).
Proof.
  unfold Shared.handle_detach, Upf.handle_detach. alike_tac.
  apply (alike_detach_section _ _ (fun a b c d => _)). intros c. alike_tac.
Qed.
#[local] Hint Resolve alike_create alike_modify alike_detach alike_setup alike_completion alike_teardown
  alike_uplink alike_downlink : alike.

(** The dispatchers. *)
Lemma alike_s11 src p d :
  alike (Shared.handle_s11_traffic garbage_ul garbage_dl src p d)
        (Upf.handle_s11_traffic garbage_ul garbage_dl src p d).
Proof.
  unfold Shared.handle_s11_traffic, Upf.handle_s11_traffic. alike_tac.
  apply alike_bind; [|intros; apply alike_ret].
  repeat match goal with |- alike (match ?z with _ => _ end) _ => destruct z end; eauto with alike nocore.
Qed.
Lemma alike_s1 src p d :
  alike (Shared.handle_s1_traffic inet_aton src p d) (Upf.handle_s1_traffic inet_aton src p d).
Proof.
  unfold Shared.handle_s1_traffic, Upf.handle_s1_traffic. alike_tac.
  apply alike_bind; [|intros; apply alike_ret].
  repeat match goal with |- alike (match ?z with _ => _ end) _ => destruct z end; eauto with alike nocore.
Qed.
Lemma alike_sgi src p d :
  alike (Shared.handle_sgi_traffic inet_aton src p d) (Upf.handle_sgi_traffic inet_aton src p d).
Proof. unfold Shared.handle_sgi_traffic, Upf.handle_sgi_traffic. alike_tac. Qed.
End Alike.

(** ** Footprints of the requests *)

(** The entries of subscriber [n]; the pool of addresses is the table 5. *)
Definition n4_writes (n : Z) : list Shared.cell :=
  [Shared.S11 n; Shared.S1 n; Shared.Sgi (pool_ip n); Shared.Ctx (deployed_imsi n)].
Definition n4_foot (n : Z) : footprint Upf.t :=
  mk_footprint [Shared.Ip (deployed_imsi n)] (n4_writes n) [5%nat] [].
Definition n6_foot (n : Z) : footprint Upf.t :=
  mk_footprint [Shared.Sgi (pool_ip n); Shared.Ctx (deployed_imsi n)] [] [] [].

Ltac parse_code :=
  cbn [enc_items enc_item app] in *; rewrite <- ?app_assoc; cbn [app];
  repeat known ltac:(first [ apply extract_uint32_rd | apply extract_uint64_rd | apply extract_uint8_rd | apply extract_int_rd ]).

Section Footprints.
Context (garbage_ul garbage_dl : Z -> Z).
Context (S : gmap Z session) (u : Upf.t) (from : sockaddr_in) (h : hdrs) (pre : list Z).
Hypothesis R : upf_repr S u.

Lemma create_within n ebi apn ta :
  0 <= n < 10000 -> fits pre (enc_items (n4_items (Create n ebi apn ta))) ->
  within (T := Upf.t) (n4_foot n)
    (Shared.handle_create_session garbage_ul garbage_dl from (rd h pre (enc_items (n4_items (Create n ebi apn ta))))) u.
Proof.
  intros Hn Hf. cbn [n4_items] in *. unfold Shared.handle_create_session.
  known ltac:(by apply copy_rd). parse_code.
  rewrite (u32_id n) by lia. rewrite (u64_id (deployed_imsi n)) by (unfold deployed_imsi; lia).
  assert (Threads.get (T := Upf.t) (Shared.Ip (deployed_imsi n)) u = Some (pool_ip n)) as Hip
    by (cbn; rewrite (r_pool _ _ R); by apply pool_spec).
  apply within_access; [rewrite Hip; apply allowed_bare_read; cbn; set_solver|].
  intros ip Eip. rewrite Hip in Eip. injection Eip as <-.
  do 4 (apply within_access; [apply allowed_writes; unfold n4_foot, n4_writes; cbn; set_solver | intros ? _]).
  apply within_finish. intros p _. apply send_within.
Qed.

Lemma modify_within n ebi dl ip port :
  is_Some (S !! n) -> Gtp.teid (h_gtp h) = n -> nul_free ip ->
  fits pre (enc_items (n4_items (Modify n ebi dl ip port))) ->
  within (T := Upf.t) (n4_foot n)
    (Shared.handle_modify_bearer garbage_ul garbage_dl from
       (rd h pre (enc_items (n4_items (Modify n ebi dl ip port))))) u.
Proof.
  intros [x Hx] Hte Hnul Hf. destruct (repr_session _ _ _ _ R Hx) as (Hn & H11 & _).
  cbn [n4_items] in *. unfold Shared.handle_modify_bearer. known ltac:(by apply copy_rd).
  change (Gtp.teid (Packet.gtp_hdr (rd h pre _))) with (Gtp.teid (h_gtp h)). rewrite Hte.
  change (Threads.get (T := Upf.t) (Shared.S11 n) u = Some (deployed_imsi n)) in H11.
  apply within_access; [apply allowed_writes; unfold n4_foot, n4_writes; cbn; set_solver|]. intros i Ei. rewrite H11 in Ei. injection Ei as <-.
  apply within_finish. intros ? _. parse_code.
  known ltac:(apply (extract_string_rd _ _ _ ip); [|done]; lensolve). parse_code.
  apply within_access; [apply allowed_writes; unfold n4_foot, n4_writes; cbn; set_solver | intros ? _].
  apply within_finish. intros p _. apply send_within.
Qed.

Lemma detach_within n ebi ta :
  is_Some (S !! n) -> Gtp.teid (h_gtp h) = n -> fits pre (enc_items (n4_items (Detach n ebi ta))) ->
  within (T := Upf.t) (n4_foot n)
    (Shared.handle_detach garbage_ul garbage_dl from (rd h pre (enc_items (n4_items (Detach n ebi ta))))) u.
Proof.
  intros [x Hx] Hte Hf. destruct (repr_session _ _ _ _ R Hx) as (Hn & H11 & _ & _ & c & Hc & Hr).
  cbn [n4_items] in *. unfold Shared.handle_detach. known ltac:(by apply copy_rd).
  change (Gtp.teid (Packet.gtp_hdr (rd h pre _))) with (Gtp.teid (h_gtp h)). rewrite Hte.
  change (Threads.get (T := Upf.t) (Shared.S11 n) u = Some (deployed_imsi n)) in H11.
  apply within_access; [apply allowed_writes; unfold n4_foot, n4_writes; cbn; set_solver|]. intros i Ei. rewrite H11 in Ei. injection Ei as <-.
  apply within_finish. intros ? _. parse_code.
  apply within_access; [apply allowed_writes; unfold n4_foot, n4_writes; cbn; set_solver|].
  change (Threads.get (T := Upf.t) (Shared.Ctx (deployed_imsi n)) u = Some c) in Hc.
  rewrite get_put_ne, Hc by done. intros ? [= <-]. apply within_finish. intros p _. 
  destruct Hr as (C1 & _ & _ & _ & C5 & _ & _ & C8 & _). rewrite C1, C5, C8.
  apply within_bind; [apply send_within | intros ? _].
  do 3 (apply within_access; [apply allowed_writes; unfold n4_foot, n4_writes; cbn; set_solver | intros ? _]).
  split; [apply allowed_writes; unfold n4_foot, n4_writes; cbn; set_solver | done].
Qed.

End Footprints.

Section Jobs.
Context (inet_aton : string -> option Z).
Context (garbage_ul garbage_dl : Z -> Z).

(** A request through the server's loop. *)
Lemma n4_within S u r src p from g :
  upf_repr S u -> n4_ok S r -> n4_header g r -> length (Packet.data p) = Z.to_nat BUF_SIZE ->
  within (T := Upf.t) (n4_foot (n4_number r))
    (Shared.handle_s11_traffic garbage_ul garbage_dl src p (UdpClient.Got from (n4_datagram g r))) u.
Proof.
  intros R [Hn Hok] (Hg & Hty & Hte) Hp. pose proof (n4_items_size S r (conj Hn Hok)) as Hsz.
  assert (16 + len (enc_items (n4_items r)) <= BUF_SIZE) as Hb by (unfold BUF_SIZE; lia).
  unfold Shared.handle_s11_traffic, n4_datagram.
  known ltac:(apply udp_server_rcv; [done | len_lia]). known ltac:(by apply (extract_gtp_hdr_rd _ [])).
  change (Gtp.msg_type (Packet.gtp_hdr _)) with (Gtp.msg_type g). rewrite Hty.
  assert (fits ([] ++ Gtp.to_bytes g) (enc_items (n4_items r))) as Hf by (unfold fits, BUF_SIZE; len_lia).
  apply within_bind; [|done].
  destruct r as [n ebi apn ta|n ebi dl ip port|n ebi ta]; cbn [n4_type n4_number].
  - by apply create_within with (S := S).
  - destruct Hok as (? & ? & _). by apply modify_within with (S := S).
  - by apply detach_within with (S := S).
Qed.

(** The address of subscriber [n] as bytes. *)
Definition ue_addr (n : Z) : list Z := [172; 16; 1 + n / 252; 3 + n mod 252].

Lemma downlink_within S u n src p from hd saddr rest :
  upf_repr S u -> 0 <= n < 10000 -> length (Packet.data p) = Z.to_nat BUF_SIZE ->
  length hd = 12%nat -> length saddr = 4%nat ->
  len (ip_packet hd saddr (ue_addr n) rest) <= BUF_SIZE ->
  within (T := Upf.t) (n6_foot n)
    (Shared.handle_sgi_traffic inet_aton src p (UdpClient.Got from (ip_packet hd saddr (ue_addr n) rest))) u.
Proof.
  intros R Hn Hp H1 H2 Hl. unfold Shared.handle_sgi_traffic.
  known ltac:(apply udp_server_rcv; [done | len_lia]). apply within_bind; [|done].
  unfold Shared.handle_downlink_udata.
  known ltac:(apply copy_rd; unfold fits; rewrite len_nil; lia).
  known ltac:(by apply get_dst_ip_addr_rd).
  change (Network.inet_ntop (ue_addr n)) with (pool_ip n).
  apply within_access; [apply allowed_reads; unfold n6_foot; cbn; set_solver|].
  cbn [fst snd]. intros i [= <-].
  rewrite (@put_get Upf.t Shared.upf_store _).
  assert (default 0 (Upf.sgi_id u !! pool_ip n) = 0 \/ default 0 (Upf.sgi_id u !! pool_ip n) = deployed_imsi n) as Hi.
  { destruct (Upf.sgi_id u !! pool_ip n) as [i|] eqn:E; [right | by left].
    apply (r_sgi _ _ R) in E as (m & Hm & Em & ->). pose proof (r_dom _ _ R _ Hm).
    apply pool_ip_inj in Em; [by subst m | lia | lia]. }
  change (@Threads.get Upf.t Shared.upf_store (Shared.Sgi (pool_ip n)) u) with (Upf.sgi_id u !! pool_ip n).
  destruct Hi as [-> | ->]; [done|].
  rewrite (proj2 (Z.eqb_neq _ _)) by (unfold deployed_imsi; lia).
  apply within_access; [apply allowed_reads; unfold n6_foot; cbn; set_solver|]. intros o _.
  destruct o as [[[dl ip] port]|]; [|done].
  do 3 (apply within_finish; intros ? _). apply send_within.
Qed.

(** *** How long a turn of the loop takes *)

Ltac budget_tac :=
  repeat match goal with
  | |- budget (let _ := _ in _) _ => cbv zeta
  | |- budget (match ?x with (_, _) => _ end) _ => destruct x
  | |- budget (if ?b then _ else _) _ => destruct b
  | |- budget (match ?o with Some _ => _ | None => _ end) _ => destruct o as [[[? ?] ?]|]
  | |- budget (mbind _ (Finish _)) _ => apply budget_finish; intros ?
  | |- budget (mbind _ (Shared.snd _ _)) _ => apply (budget_bind _ _ 1); [apply send_budget | intros ?]
  | |- budget (Shared.snd _ _) _ => eapply budget_mono; [apply send_budget | cbn; lia]
  | |- budget (mbind _ _) _ => apply budget_access; [cbn; lia | intros ?]; cbn [cost Nat.sub]
  end; try done.

Lemma s11_budget src p d : budget (Shared.handle_s11_traffic garbage_ul garbage_dl src p d) 7.
Proof.
  unfold Shared.handle_s11_traffic. budget_tac. apply (budget_bind _ _ 7 0); [|done].
  repeat match goal with |- budget (match ?z with _ => _ end) _ => destruct z end; try done.
  - unfold Shared.handle_handover_completion. budget_tac.
  - unfold Shared.handle_detach. budget_tac.
  - unfold Shared.handle_indirect_tunnel_teardown_. budget_tac.
  - unfold Shared.handle_indirect_tunnel_setup. budget_tac.
  - unfold Shared.handle_modify_bearer. budget_tac.
  - unfold Shared.handle_create_session. budget_tac.
Qed.

Lemma sgi_budget src p d : budget (Shared.handle_sgi_traffic inet_aton src p d) 7.
Proof.
  unfold Shared.handle_sgi_traffic. budget_tac. apply (budget_bind _ _ 7 0); [|done].
  unfold Shared.handle_downlink_udata. budget_tac.
Qed.

(** *** Jobs: what the threads are given *)

Inductive work :=
  | Request (r : n4_request) (g : Gtp.t)
  | Downlink (n : Z) (hd saddr rest : list Z).

(** A thread's packet and address, whom the datagram is from, and what it is. *)
Record job := mk_job { j_src : sockaddr_in; j_pkt : Packet.t; j_from : sockaddr_in; j_work : work }.

Definition subscriber (w : work) : Z := match w with Request r _ => n4_number r | Downlink n _ _ _ => n end.

Definition job_code (j : job) : code (T := Upf.t) (sockaddr_in * list Z) (sockaddr_in * Packet.t) :=
  match j_work j with
  | Request r g =>
      Shared.handle_s11_traffic garbage_ul garbage_dl (j_src j) (j_pkt j) (UdpClient.Got (j_from j) (n4_datagram g r))
  | Downlink n hd saddr rest =>
      Shared.handle_sgi_traffic inet_aton (j_src j) (j_pkt j)
        (UdpClient.Got (j_from j) (ip_packet hd saddr (ue_addr n) rest))
  end.

Definition job_ok (S : gmap Z session) (j : job) : Prop :=
  length (Packet.data (j_pkt j)) = Z.to_nat BUF_SIZE /\ Gtp.wf (Packet.gtp_hdr (j_pkt j)) /\
  match j_work j with
  | Request r g => n4_ok S r /\ n4_header g r
  | Downlink n hd saddr rest =>
      0 <= n < 10000 /\ length hd = 12%nat /\ length saddr = 4%nat /\
      16 + len (ip_packet hd saddr (ue_addr n) rest) <= BUF_SIZE /\
      forall s, S !! n = Some s -> s_enb_port s <> 0 -> is_Some (inet_aton (s_enb_ip s))
  end.

(** What it makes of the sessions, and what it sends. *)
Definition job_step (S : gmap Z session) (j : job) : gmap Z session :=
  match j_work j with Request r _ => n4_step garbage_dl r S | Downlink _ _ _ _ => S end.

Definition job_sent (S : gmap Z session) (j : job) (es : list (sockaddr_in * list Z)) : Prop :=
  match j_work j with
  | Request r _ => exists dgram, es = [(j_from j, dgram)] /\ answers r dgram
  | Downlink n hd saddr rest =>
      match S !! n with
      | Some s =>
          if s_enb_port s =? 0 then es = []
          else exists a g, inet_aton (s_enb_ip s) = Some a /\ Gtp.msg_type g = 2 /\ Gtp.teid g = u32 (s_dl s) /\
            es = [(mk_sockaddr (u16 (s_enb_port s)) a, Gtp.to_bytes g ++ ip_packet hd saddr (ue_addr n) rest)]
      | None => es = []
      end
  end.

(** No two requests for one subscriber, and no packet for the subscriber of a
    request; packets for one subscriber may be many. *)
Definition apart (js : list job) : Prop :=
  forall i k j j', js !! i = Some j -> js !! k = Some j' -> i <> k ->
  match j_work j with Request r _ => n4_number r <> subscriber (j_work j') | Downlink _ _ _ _ => True end.

Definition job_foot (j : job) : tagged (T := Upf.t) (sockaddr_in * list Z) (sockaddr_in * Packet.t) :=
  match j_work j with
  | Request r _ => mk_tagged (n4_foot (n4_number r)) (job_code j)
  | Downlink n _ _ _ => mk_tagged (n6_foot n) (job_code j)
  end.

Lemma job_foot_code js : map code_of (map job_foot js) = map job_code js.
Proof. rewrite map_map. apply map_ext. intros j. unfold job_foot. by destruct (j_work j). Qed.

Lemma job_budget j : budget (job_code j) 7.
Proof. unfold job_code. destruct (j_work j); [apply s11_budget | apply sgi_budget]. Qed.

(** Nothing that a job does without a mutex goes against another one: the pool
    of addresses is only read. *)
Lemma jobs_no_race js : ~ may_race (map job_foot js).
Proof.
  intros (i & k & t & t' & Ht & Ht' & _ & o & Ho). rewrite list_lookup_fmap in Ht, Ht'.
  destruct (js !! i) as [j|]; [|done]. destruct (js !! k) as [j'|]; [|done]. injection Ht as <-. injection Ht' as <-.
  unfold job_foot in Ho. destruct (j_work j), (j_work j');
    cbn [foot reads writes bare_reads bare_writes n4_foot n6_foot n4_writes map] in Ho;
    cbn in Ho; set_solver.
Qed.

(** Jobs apart have footprints that do not meet. *)
Lemma apart_independent S js : Forall (job_ok S) js -> apart js -> independent (map job_foot js).
Proof.
  intros Hok Ha i k t t' Ht Ht' N c Hc.
  rewrite list_lookup_fmap in Ht, Ht'. destruct (js !! i) as [j|] eqn:Ej; [|done]. destruct (js !! k) as [j'|] eqn:Ek; [|done].
  injection Ht as <-. injection Ht' as <-. specialize (Ha i k j j' Ej Ek N).
  assert (forall i j, js !! i = Some j -> 0 <= subscriber (j_work j) < 10000) as Hn.
  { intros i' j'' E. rewrite Forall_forall in Hok. destruct (Hok j'' (list_elem_of_lookup_2 _ _ _ E)) as (_ & _ & H).
    destruct (j_work j'') as [r g|n hd sa rest]; [apply H | apply H]. }
  pose proof (Hn _ _ Ej) as Hi. pose proof (Hn _ _ Ek) as Hk.
  unfold job_foot in *. destruct (j_work j) as [r g|n hd sa rest]; cbn [foot reads writes n4_foot n6_foot subscriber] in *; [|set_solver].
  assert (pool_ip (n4_number r) <> pool_ip (subscriber (j_work j'))) by (intros E%pool_ip_inj; lia).
  assert (deployed_imsi (n4_number r) <> deployed_imsi (subscriber (j_work j'))) by (intros E%deployed_imsi_inj; lia).
  unfold n4_foot, n6_foot, n4_writes in *.
  destruct (j_work j') as [r' g'|n' hd' sa' rest']; cbn [foot reads writes n4_foot n6_foot subscriber] in *; split;
    rewrite list_elem_of_In in *; cbn in *; intuition congruence.
Qed.

(** *** Each job alone *)

Lemma upf_alone {A} (c : code (T := Upf.t) (sockaddr_in * list Z) A) (p : prog Upf.proc A) u r u' es :
  alike c p -> p (Upf.mk_proc u []) = (r, Upf.mk_proc u' es) -> exec c u = (r, u', es).
Proof. intros H E. destruct (exec_of_prog _ _ _ _ _ H E) as (t & es' & X & Es). by injection Es as -> ->. Qed.

Lemma job_alone S u j :
  upf_repr S u -> job_ok S j ->
  exists p' u' es,
    exec (job_code j) u = (Ret (j_from j, p'), u', es) /\ job_sent S j es /\ upf_repr (job_step S j) u' /\
    uses (foot (job_foot j)) (job_code j) u.
Proof.
  intros R (Hp & Hg & Hw). destruct j as [src p from w]; cbn [j_src j_pkt j_from j_work] in *.
  unfold job_code, job_sent, job_step, job_foot; cbn [j_src j_pkt j_from j_work]. destruct w as [r g|n hd saddr rest].
  - destruct Hw as [Hok Hh].
    destruct (n4_refinement_step garbage_ul garbage_dl S u [] r src p from g R Hok Hh Hp) as (u' & p' & dg & E & R' & A & _).
    pose proof (upf_alone _ _ _ _ _ _ (alike_s11 garbage_ul garbage_dl src p _) E) as X.
    exists p', u', [(from, dg)]. split; [exact X|]. split; [by exists dg|]. split; [exact R'|].
    cbn [foot]. eapply within_uses; [by apply n4_within with (S := S)|]. unfold result_of. by rewrite X.
  - destruct Hw as (Hn & H1 & H2 & Hl & Ha).
    assert (exists p' es, Upf.handle_sgi_traffic inet_aton src p (UdpClient.Got from (ip_packet hd saddr (ue_addr n) rest))
      (Upf.mk_proc u []) = (Ret (from, p'), Upf.mk_proc u es) /\
      match S !! n with
      | Some s =>
          if s_enb_port s =? 0 then es = []
          else exists a g, inet_aton (s_enb_ip s) = Some a /\ Gtp.msg_type g = 2 /\ Gtp.teid g = u32 (s_dl s) /\
            es = [(mk_sockaddr (u16 (s_enb_port s)) a, Gtp.to_bytes g ++ ip_packet hd saddr (ue_addr n) rest)]
      | None => es = []
      end) as (p' & es & E & Hes).
    { destruct (downlink_forwarding inet_aton S u [] src p from n hd saddr rest R Hn Hg Hp H1 H2 Hl) as [F1 F2].
      destruct (S !! n) as [s|] eqn:Es.
      - destruct (Z.eqb_spec (s_enb_port s) 0) as [E0|E0].
        + destruct (repr_session _ _ _ _ R Es) as (_ & _ & _ & Hsgi & c & Hc & Hr).
          exists (rd (hdrs_of p) [] (ip_packet hd saddr (ue_addr n) rest)), []. split; [|done].
          unfold Upf.handle_sgi_traffic. run with (by apply udp_server_rcv; [|lia]).
          erewrite run_bind; [reflexivity|].
          apply (downlink_idle inet_aton _ _ (pool_ip n) _ (deployed_imsi n) c); try done.
          * unfold fits. rewrite len_nil. lia.
          * apply get_dst_ip_addr_rd; try done. lia.
          * rewrite <- E0. apply Hr.
        + destruct (Ha s eq_refl E0) as [a Ea]. destruct (F1 s a eq_refl E0 Ea) as (p' & g & E & _ & G1 & G2).
          exists p'. eexists. split; [exact E|]. by exists a, g.
      - destruct (F2 eq_refl) as [p' E]. by exists p', []. }
    pose proof (upf_alone _ _ _ _ _ _ (alike_sgi inet_aton src p _) E) as X.
    exists p', u, es. split; [exact X|]. split; [exact Hes|]. split; [exact R|].
    cbn [foot]. eapply within_uses; [apply downlink_within with (S := S); try done; lia|]. unfold result_of. by rewrite X.
Qed.

(** Another job changes nothing for [j]. *)
Lemma job_ok_frame S j j' :
  match j_work j' with Request r _ => n4_number r <> subscriber (j_work j) | Downlink _ _ _ _ => True end ->
  job_ok S j -> job_ok (job_step S j') j.
Proof.
  intros N (H1 & H2 & H3). split; [done|]. split; [done|].
  assert (job_step S j' !! subscriber (j_work j) = S !! subscriber (j_work j)) as E.
  { unfold job_step. destruct (j_work j') as [r g|n hd sa rest]; [|done].
    destruct r as [n ebi apn ta|n ebi dl ip port|n ebi ta]; cbn [n4_step n4_number] in *;
      [by rewrite lookup_insert_ne | by rewrite lookup_alter_ne | by rewrite lookup_delete_ne]. }
  destruct (j_work j) as [r g|n hd sa rest]; cbn [subscriber] in E.
  - destruct H3 as [[Hn Hok] Hh]. split; [|done]. split; [done|].
    destruct r as [n ebi apn ta|n ebi dl ip port|n ebi ta]; cbn [n4_number] in *; by rewrite ?E.
  - by rewrite E.
Qed.

(** One after the other, the jobs make of the tables what they make of the
    sessions. *)
Lemma serial_repr js : forall S u,
  upf_repr S u -> Forall (job_ok S) js -> apart js -> upf_repr (foldl job_step S js) (serial (map job_code js) u).
Proof.
  induction js as [|j js IH]; intros S u R Hok Ha; [exact R|]. inversion Hok as [|? ? H1 H2]; subst. cbn [foldl map serial].
  destruct (job_alone S u j R H1) as (p' & u' & es & E & _ & R' & _).
  unfold final at 1. rewrite E. apply IH; [exact R' | |].
  - apply Forall_lookup. intros i j' Hj'. apply job_ok_frame; [|by eapply Forall_lookup_1].
    by apply (Ha 0%nat (Datatypes.S i) j j').
  - intros i k a b Hi Hk N. apply (Ha (Datatypes.S i) (Datatypes.S k)); auto.
Qed.

(** C19: the threads of the UPF do not disturb each other: let the tables
    represent a set of sessions, let any number of N4 threads have a valid create, modify or detach request each, for
    different subscribers among the 10,000 (a create for a subscriber of the
    pool, a modify or detach for one that has a session), while any number of
    N6 threads have IP packets of at most 1,008 bytes, so that the GTP header
    fits in front, for subscribers without a request, whose base stations have
    addresses that can be read.  Whatever the order in which the threads take
    the mutexes, none faults, none races, and what a thread sends is what it
    sends when it runs alone.  Seven turns each, and all are done: every request
    is answered once, every packet has gone to the subscriber's base station or
    nowhere, and the tables represent the sessions with all the requests carried
    out, in any order. *)
Theorem threads_do_not_interfere S u js sched :
  upf_repr S u -> Forall (job_ok S) js -> apart js ->
  exists p,
    run_pool sched (start_pool u (map job_code js)) = Ret p /\
    (forall i j, js !! i = Some j -> exists es, sent i p `prefix_of` es /\ job_sent S j es) /\
    ((forall i j, js !! i = Some j -> (7 <= given i sched)%nat) ->
     (forall i j, js !! i = Some j ->
        (exists q, threads p !! i = Some (Finish (Ret (j_from j, q)))) /\ job_sent S j (sent i p)) /\
     upf_repr (foldl job_step S js) (shared p)).
Proof.
  intros R Hok Ha.
  assert (forall i t, map job_foot js !! i = Some t -> exists j, js !! i = Some j /\ t = job_foot j /\ job_ok S j) as Hj.
  { intros i t Ht. rewrite list_lookup_fmap in Ht. destruct (js !! i) as [j|] eqn:E; [|done]. injection Ht as <-.
    exists j. split; [done|]. split; [done|]. by eapply Forall_lookup_1. }
  assert (forall j, code_of (job_foot j) = job_code j) as Hc by (intros j; unfold job_foot; by destruct (j_work j)).
  destruct (independent_threads (map job_foot js) u) with (sched := sched) as [[M _]|(p & Ep & Hpre & Hfin)].
  { intros i t Ht. destruct (Hj i t Ht) as (j & _ & -> & Hjok). rewrite Hc.
    by destruct (job_alone S u j R Hjok) as (? & ? & ? & _ & _ & _ & U). }
  { by apply (apart_independent S). }
  { by destruct (jobs_no_race js). }
  assert (forall i j, js !! i = Some j -> map job_foot js !! i = Some (job_foot j)) as Hf
    by (intros i j E; by rewrite list_lookup_fmap, E).
  rewrite job_foot_code in Ep. exists p. split; [exact Ep|]. split.
  - intros i j E. destruct (job_alone S u j R (Forall_lookup_1 _ _ _ _ Hok E)) as (q & u' & es & X & A & _).
    exists es. split; [|exact A]. specialize (Hpre i _ (Hf i j E)). unfold events in Hpre. by rewrite Hc, X in Hpre.
  - intros Hn. destruct Hfin as [F1 F2].
    { intros i t Ht. destruct (Hj i t Ht) as (j & E & -> & _). rewrite Hc.
      etransitivity; [apply turns_budget, job_budget | by eapply Hn]. }
    split.
    + intros i j E. destruct (job_alone S u j R (Forall_lookup_1 _ _ _ _ Hok E)) as (q & u' & es & X & A & _).
      destruct (F1 i _ (Hf i j E)) as [G1 G2]. unfold result_of, events in *. rewrite Hc, X in G1, G2.
      split; [by exists q|]. by rewrite G2.
    + rewrite F2, job_foot_code. by apply serial_repr.
Qed.
End Jobs.

(** ** The answer to a detach request leaves too early *)

Section Race.
Context (garbage_ul garbage_dl : Z -> Z).

Lemma s11_code src p from g r :
  length (Packet.data p) = Z.to_nat BUF_SIZE -> Gtp.wf g -> 16 + len (enc_items (n4_items r)) <= BUF_SIZE ->
  let q := rd (set_gtp (hdrs_of p) g) (Gtp.to_bytes g) (enc_items (n4_items r)) in
  Shared.handle_s11_traffic garbage_ul garbage_dl src p (UdpClient.Got from (n4_datagram g r)) =
  (_ ← match Gtp.msg_type g with
       | 1 => Shared.handle_create_session garbage_ul garbage_dl from q
       | 2 => Shared.handle_modify_bearer garbage_ul garbage_dl from q
       | 3 => Shared.handle_detach garbage_ul garbage_dl from q
       | 4 => Shared.handle_indirect_tunnel_setup garbage_ul garbage_dl from q
       | 5 => Shared.handle_handover_completion garbage_ul garbage_dl from q
       | 6 => Shared.handle_indirect_tunnel_teardown_ garbage_ul garbage_dl from q
       | _ => mret tt
       end; mret (from, q)).
Proof.
  intros Hp Hg Hb q. unfold Shared.handle_s11_traffic, n4_datagram.
  known ltac:(apply udp_server_rcv; [done | len_lia]). by known ltac:(by apply (extract_gtp_hdr_rd _ [])).
Qed.

(** A modify request for a subscriber whose TEID is not in the table. *)
Lemma modify_without_teid u o n src p from g ebi dl ip port :
  n4_header g (Modify n ebi dl ip port) -> len (c_str ip) <= 900 ->
  length (Packet.data p) = Z.to_nat BUF_SIZE -> Upf.s11_id u !! n = None ->
  (Upf.handle_s11_traffic garbage_ul garbage_dl src p
     (UdpClient.Got from (n4_datagram g (Modify n ebi dl ip port))) (Upf.mk_proc u o)).1 =
  Fault (Exit "Zero imsi: upf_handlemodifybearer").
Proof.
  intros (Hg & Hty & Hte) Hip Hp Gone. unfold n4_datagram.
  rewrite receive_n4 by (done || (unfold BUF_SIZE; cbn [n4_items enc_items enc_item]; len_lia)). cbv zeta.
  unfold n4_handler. rewrite Hty. cbn [n4_type].
  erewrite run_bind_fault; [reflexivity|]. apply modify_unknown.
  { unfold fits, BUF_SIZE. cbn [n4_items enc_items enc_item]. len_lia. }
  change (Upf.s11_id u !! Gtp.teid g = None). rewrite Hte. exact Gone.
Qed.

(** C20: the UPF answers a detach request before it removes the entries.  If the
    subscriber attaches again at once and another thread gets the create
    request, the first thread removes the entries of the new session, except for
    the context: both requests have been answered with success, one after the
    other; the context is there and its TEID is not; and the modify request
    that follows stops the UPF. *)
Theorem detach_answers_too_early S u n s ebi ta ebi' apn ta' src p from g src' p' from' g' :
  let d := Detach n ebi ta in
  let c := Create n ebi' apn ta' in
  let start := start_pool u
    [Shared.handle_s11_traffic garbage_ul garbage_dl src p (UdpClient.Got from (n4_datagram g d));
     Shared.handle_s11_traffic garbage_ul garbage_dl src' p' (UdpClient.Got from' (n4_datagram g' c))] in
  upf_repr S u -> S !! n = Some s -> n4_header g d -> n4_header g' c ->
  length (Packet.data p) = Z.to_nat BUF_SIZE -> length (Packet.data p') = Z.to_nat BUF_SIZE ->
  exists p1 p2 q q' dg dg',
    run_pool [0; 0; 0]%nat start = Ret p1 /\
    sent_log p1 = [(0%nat, (from, dg))] /\ answers d dg /\
    run_pool [1; 1; 1; 1; 1; 0; 0; 0; 0; 1; 1]%nat p1 = Ret p2 /\
    threads p2 = [Finish (Ret (from, q)); Finish (Ret (from', q'))] /\
    sent_log p2 = [(0%nat, (from, dg)); (1%nat, (from', dg'))] /\ answers c dg' /\
    Upf.s11_id (shared p2) !! n = None /\ is_Some (Upf.ue_ctx (shared p2) !! deployed_imsi n) /\
    forall src p from g ebi dl ip port o,
      n4_header g (Modify n ebi dl ip port) -> len (c_str ip) <= 900 ->
      length (Packet.data p) = Z.to_nat BUF_SIZE ->
      (Upf.handle_s11_traffic garbage_ul garbage_dl src p
         (UdpClient.Got from (n4_datagram g (Modify n ebi dl ip port))) (Upf.mk_proc (shared p2) o)).1 =
      Fault (Exit "Zero imsi: upf_handlemodifybearer").
Proof.
  cbv zeta. intros R Hs (Hg & Hty & Hte) (Hg' & Hty' & Hte') Hp Hp'.
  destruct (repr_session _ _ _ _ R Hs) as (Hn & H11 & _ & _ & x & Hx & Hr).
  destruct Hr as (C1 & _ & _ & _ & C5 & _ & C7 & C8 & _).
  assert (fits (Gtp.to_bytes g) (enc_items (n4_items (Detach n ebi ta)))) as Hf by (unfold fits, BUF_SIZE; cbn; len_lia).
  assert (fits (Gtp.to_bytes g') (enc_items (n4_items (Create n ebi' apn ta')))) as Hf' by (unfold fits, BUF_SIZE; cbn; len_lia).
  rewrite !s11_code by (done || (unfold BUF_SIZE; cbn; len_lia)). rewrite Hty, Hty'. cbn [n4_type].
  unfold Shared.handle_detach, Shared.handle_create_session. 
  known ltac:(by apply copy_rd). known ltac:(by apply copy_rd).
  change (Gtp.teid (Packet.gtp_hdr (rd (set_gtp (hdrs_of p) g) _ _))) with (Gtp.teid g). rewrite Hte.
  cbn [n4_items n4_teid] in *. parse_code.
  rewrite (u32_id n) by lia. rewrite (u64_id (deployed_imsi n)) by (unfold deployed_imsi; lia).
  assert (Threads.get (T := Upf.t) (Shared.S11 n) u = Some (deployed_imsi n)) as G1 by exact H11.
  assert (Threads.get (T := Upf.t) (Shared.Ctx (deployed_imsi n)) u = Some x) as G2 by exact Hx.
  assert (Threads.get (T := Upf.t) (Shared.Ip (deployed_imsi n)) u = Some (pool_ip n)) as G3
    by (cbn; rewrite (r_pool _ _ R); by apply pool_spec).
  destruct (pool_ip_text n Hn) as [_ Hlen].
  assert ((deployed_imsi n =? 0) = false) as Hz by (apply Z.eqb_neq; unfold deployed_imsi; lia).
  unfold start_pool. do 6 eexists. split; [|split; [|split; [|split; [|split; [|split; [|split; [|split; [|split]]]]]]]].
  { take_turn. rewrite Hz. known ltac:(idtac; reflexivity). parse_code. take_turn. rewrite C7.
    known ltac:(apply small_reply; [lensolve | vm_compute; discriminate]).
    unfold Shared.snd; rewrite send_code by (unfold fits, BUF_SIZE; cbn [enc_items enc_item]; len_lia).
    erewrite turn_emit by reflexivity. reflexivity. }
  { reflexivity. }
  { rewrite app_nil_r. apply (answers_v2 (Detach n ebi ta)); [done | done]. }
  { do 4 take_turn. rewrite C1, C5, C8. do 3 take_turn.
    erewrite turn_last; [|reflexivity|reflexivity|reflexivity]. cbn [insert list_insert].
    take_turn.
    known ltac:(apply small_reply; [lensolve | cbn [enc_items enc_item]; len_lia]).
    unfold Shared.snd; rewrite send_code by (unfold fits, BUF_SIZE; cbn [enc_items enc_item]; len_lia).
    erewrite turn_emit_last by reflexivity. cbn [insert list_insert app]. reflexivity. }
  { reflexivity. }
  { reflexivity. }
  { rewrite app_nil_r. apply (answers_v2 (Create n ebi' apn ta')); [done | done]. }
  all: match goal with |- context [shared ?p2] => set (u2 := shared p2) end; cbn [shared] in u2;
    assert (Upf.s11_id u2 !! n = None) as Gone
      by (change (@Threads.get Upf.t Shared.upf_store (Shared.S11 n) u2 = None); subst u2;
          rewrite !get_put_ne by discriminate; apply get_put).
  { exact Gone. }
  { change (is_Some (@Threads.get Upf.t Shared.upf_store (Shared.Ctx (deployed_imsi n)) u2)).
    subst u2. by rewrite get_put. }
  intros. by apply modify_without_teid.
Qed.
End Race.

(** ** Witnesses *)

(** A request for subscriber 5, one for 7, and two packets for 6. *)
Definition demo_jobs : list job :=
  [mk_job demo_smf (rd zero_hdrs [] []) demo_smf (Request (Detach 5 5 1) (demo_gtp 3 5));
   mk_job demo_smf (rd zero_hdrs [] []) demo_smf (Request (Create 7 5 1 1) (demo_gtp 1 0));
   mk_job demo_smf (rd zero_hdrs [] []) demo_smf (Downlink 6 (replicate 12 0) [10; 0; 0; 1] [1; 2; 3]);
   mk_job demo_smf (rd zero_hdrs [] []) demo_smf (Downlink 6 (replicate 12 0) [10; 0; 0; 1] [4])].

Lemma threads_do_not_interfere_witness :
  exists p,
    run_pool (concat (replicate 7 [0; 1; 2; 3]%nat)) (start_pool demo_upf (map (job_code demo_aton zeros zeros) demo_jobs)) = Ret p /\
    (exists q, threads p !! 1%nat = Some (Finish (Ret (demo_smf, q)))) /\
    upf_repr (foldl (job_step zeros) demo_sessions demo_jobs) (shared p).
Proof.
  destruct (threads_do_not_interfere demo_aton zeros zeros demo_sessions demo_upf demo_jobs
    (concat (replicate 7 [0; 1; 2; 3]%nat)) demo_repr) as (p & E & _ & F).
  - repeat apply Forall_cons_2; [| | | |apply Forall_nil_2]; (split; [reflexivity|]; split; [by repeat split|]).
    + split; [|by repeat split]. split; [cbn; lia | vm_compute; by eexists].
    + split; [|by repeat split]. split; [cbn; lia | exact I].
    + split; [lia|]. do 2 (split; [reflexivity|]). split; [vm_compute; discriminate|].
      intros s Hs _. vm_compute in Hs. injection Hs as <-. vm_compute. by eexists.
    + split; [lia|]. do 2 (split; [reflexivity|]). split; [vm_compute; discriminate|].
      intros s Hs _. vm_compute in Hs. injection Hs as <-. vm_compute. by eexists.
  - intros [|[|[|[|i]]]] [|[|[|[|k]]]] j j' Hi Hk N; try discriminate Hi; try discriminate Hk; try (by destruct N);
      injection Hi as <-; injection Hk as <-; cbn; try exact I; discriminate.
  - exists p. split; [exact E|]. destruct F as [F1 F2].
    { intros [|[|[|[|i]]]] j Hj; [vm_compute; lia | vm_compute; lia | vm_compute; lia | vm_compute; lia | discriminate Hj]. }
    split; [|exact F2]. exact (proj1 (F1 1%nat _ eq_refl)).
Defined.

Lemma detach_answers_too_early_witness :
  let q0 := rd zero_hdrs [] [] in
  let start := start_pool demo_upf
    [Shared.handle_s11_traffic zeros zeros demo_smf q0 (UdpClient.Got demo_smf (n4_datagram (demo_gtp 3 5) (Detach 5 5 1)));
     Shared.handle_s11_traffic zeros zeros demo_smf q0 (UdpClient.Got demo_smf (n4_datagram (demo_gtp 1 0) (Create 5 5 1 1)))] in
  exists p1 p2 dg,
    run_pool [0; 0; 0]%nat start = Ret p1 /\ sent_log p1 = [(0%nat, (demo_smf, dg))] /\
    run_pool [1; 1; 1; 1; 1; 0; 0; 0; 0; 1; 1]%nat p1 = Ret p2 /\
    Upf.s11_id (shared p2) !! 5 = None /\ is_Some (Upf.ue_ctx (shared p2) !! deployed_imsi 5).
Proof.
  intros q0 start.
  destruct (detach_answers_too_early zeros zeros demo_sessions demo_upf 5 demo_session 5 1 5 1 1
    demo_smf q0 demo_smf (demo_gtp 3 5) demo_smf q0 demo_smf (demo_gtp 1 0) demo_repr
    ltac:(vm_compute; reflexivity) ltac:(by repeat split) ltac:(by repeat split) eq_refl eq_refl)
    as (p1 & p2 & q & q' & dg & dg' & E1 & E2 & _ & E3 & _ & _ & _ & E4 & E5 & _).
  exists p1, p2, dg. exact (conj E1 (conj E2 (conj E3 (conj E4 E5)))).
Defined.
