(* ===== verification/Smf.v ===== *)
(** * Smf: the session management function (src/smf.h, src/smf.cpp,
    src/smf_server.cpp)

    The state is the table of UE contexts and the two globals the handlers
    assign to.  The UPF is reached through the interface [N4] (a datagram
    out, the next datagram in); [N4Contract] is what the SMF's theorems
    assume of it, and [N4Silent] a UPF that does not answer.  Memory a
    constructor leaves unset is [garbage], and [h0] the headers of a fresh
    packet. *)

From Stdlib Require Import ZArith Lia Ascii String.
From S2P Require Import Prelude Utils Telecom Headers Packet Network Transport Messages Upf.

(** The UPF as the SMF's [UdpClient] sees it. *)
Class N4 (W : Type) := {
  n4_snd : sockaddr_in -> list Z -> prog W unit;
  n4_rcv : prog W UdpClient.datagram
}.

(** A UPF that keeps its sessions and answers every request for them. *)
Class N4Contract (W : Type) `{N4 W} := {
  n4_addr : sockaddr_in;
  n4_garbage_dl : Z -> Z;
  n4_sessions : gmap Z session -> W -> Prop;
  n4_law S w r g : n4_sessions S w -> n4_ok S r -> n4_header g r ->
    exists w1 w2 from dgram,
      n4_snd n4_addr (n4_datagram g r) w = (Ret tt, w1) /\
      n4_rcv w1 = (Ret (UdpClient.Got from dgram), w2) /\
      answers r dgram /\ n4_sessions (n4_step n4_garbage_dl r S) w2
}.

(** A UPF that is gone: the receive timeout expires. *)
Class N4Silent (W : Type) `{N4 W} := {
  silent_snd a d w : exists w', n4_snd a d w = (Ret tt, w');
  silent_rcv w : exists w', n4_rcv w = (Ret UdpClient.Timeout, w')
}.

Module Smf.

Definition g_upf_smf_ip_addr : string := "172.18.0.6".
Definition upf_s1_ip_addr : string := "172.18.0.6".
Definition smf_upf_ip_addr : string := "172.18.0.5".
Definition g_upf_smf_port : Z := 7000.
Definition upf_s1_port : Z := 7100.
Definition g_timer : Z := 100.

(** [class UeContext] of smf.h *)
Record UeContext := mk_ctx {
  emm_state : Z;
  ecm_state : Z;
  imsi : Z;
  ip_addr : string;
  enodeb_s1ap_ue_id : Z;
  mme_s1ap_ue_id : Z;
  tai : Z;
  tai_list : list Z;
  tau_timer : Z;
  ksi_asme : Z;
  k_asme : Z;
  k_enodeb : Z;
  k_nas_enc : Z;
  k_nas_int : Z;
  nas_enc_algo : Z;
  nas_int_algo : Z;
  count : Z;
  bearer : Z;
  dir : Z;
  default_apn : Z;
  apn_in_use : Z;
  eps_bearer_id : Z;
  e_rab_id : Z;
  s1_uteid_ul : Z;
  s1_uteid_dl : Z;
  s5_uteid_ul : Z;
  s5_uteid_dl : Z;
  xres : Z;
  nw_type : Z;
  nw_capability : Z;
  c_upf_smf_ip_addr : string;
  c_upf_smf_port : Z;
  enodeb_ip_addr : string;
  enodeb_port : Z;
  s11_cteid_mme : Z;
  s11_cteid_sgw : Z
}.

(** [UeContext::UeContext] over the memory [m]: [k_asme], [k_enodeb],
    [s5_uteid_ul], [s5_uteid_dl] and [enodeb_port] are not set. *)
Definition construct_ctx (m : UeContext) : UeContext :=
  mk_ctx 0 0 0 "" 0 0 0 [] 0 0 (k_asme m) (k_enodeb m) 0 0 0 0 1 0 1 0 0 0 0 0 0
    (s5_uteid_ul m) (s5_uteid_dl m) 0 0 0 "" 0 "" (enodeb_port m) 0 0.

(** [UeContext::init] *)
Definition init_ctx (arg_imsi arg_enb arg_mme arg_tai arg_cap : Z) (c : UeContext) : UeContext :=
  c <| imsi := arg_imsi |> <| enodeb_s1ap_ue_id := arg_enb |> <| mme_s1ap_ue_id := arg_mme |>
    <| tai := arg_tai |> <| nw_capability := arg_cap |>.

(** [class Smf] and the globals it writes. *)
Record t := mk {
  ue_ctx : gmap Z UeContext;
  g_trafmon_ip_addr : string;
  g_trafmon_port : Z
}.

(** [Smf::Smf], [Smf::clrstl] *)
Definition clrstl (s : t) : t := s <| ue_ctx := ∅ |>.
Definition construct : t := clrstl (mk ∅ "172.18.0.2" 4000).

Section Handlers.
Context {W : Type} `{NET : N4 W}.
Context (inet_aton : string -> option Z) (garbage : Z -> UeContext) (h0 : hdrs).

Record proc := mk_proc { smf : t; net : W }.

Definition on_smf (f : t -> t) (s : proc) : proc := s <| smf := f (smf s) |>.

Definition new_ctx (guti : Z) : UeContext := construct_ctx (garbage guti).

Definition ctx_get {A} (guti : Z) (f : UeContext -> A) : prog proc A :=
  _ ← modify (on_smf (fun s => s <| ue_ctx := touch (new_ctx guti) guti (ue_ctx s) |>));
  gets (fun s => f (at_or (new_ctx guti) (ue_ctx (smf s)) guti)).

Definition ctx_set (guti : Z) (f : UeContext -> UeContext) : prog proc unit :=
  modify (on_smf (fun s => s <| ue_ctx := upd (new_ctx guti) f guti (ue_ctx s) |>)).

(** Running the network. *)
Definition on_net {A} (c : prog W A) : prog proc A :=
  fun s => let '(r, w) := c (net s) in (r, s <| net := w |>).

(** [upf_client.set_server] *)
Definition set_server : prog proc sockaddr_in :=
  lift (Network.set_inet_sock_addr inet_aton g_upf_smf_ip_addr g_upf_smf_port).

(** [upf_client.snd(pkt)] *)
Definition snd (dst : sockaddr_in) (pkt : Packet.t) : prog proc unit :=
  pkt ← lift (Packet.copy pkt);
  dgram ← lift (mem_read (Packet.data pkt) 0 (Packet.plen pkt));
  on_net (n4_snd dst dgram).

(** [upf_client.rcv(pkt)]: a failure is only printed. *)
Definition rcv (dst : sockaddr_in) (pkt : Packet.t) : prog proc Packet.t :=
  pkt ← lift (Packet.clear_pkt pkt);
  d ← on_net n4_rcv;
  '(status, buf, _) ← lift (UdpClient.recvfrom (Packet.data pkt) dst d);
  mret (pkt <| Packet.data := buf |> <| Packet.data_ptr := 0 |> <| Packet.plen := status |>).

(** The request packet: [Packet pkt; pkt.clear_pkt(); pkt.append_item(..)...;
    pkt.prepend_gtp_hdr(2, ty, pkt.len, teid)]. *)
Definition n4_packet (its : list item) (ty teid : Z) : result Packet.t :=
  pkt ← Packet.construct (h_gtp h0) (h_s1ap h0) (h_dia h0);
  pkt ← Packet.clear_pkt pkt;
  pkt ← Packet.append_items pkt its;
  Packet.prepend_gtp_hdr pkt 2 ty (Packet.plen pkt) teid.

(** [Smf::handle_create_session]: the reply object after the call. *)
Definition handle_create_session (request : AmfSmfRequest.t) (reply : AmfSmfReply.t)
  : prog proc AmfSmfReply.t :=
  let guti := u64 (AmfSmfRequest.guti request) in
  _ ← (if guti =? 0
       then lift (Utils.handle_type1_error (-1) "Zero guti: smf_handlecreatesession")
       else mret tt);
  let r_imsi := u64 (AmfSmfRequest.imsi request) in
  let r_mme := u32 (AmfSmfRequest.s11_cteid_amf request) in
  let r_ebi := u8 (AmfSmfRequest.eps_bearer_id request) in
  let r_apn := u64 (AmfSmfRequest.apn_in_use request) in
  let r_tai := u64 (AmfSmfRequest.tai request) in
  _ ← ctx_set guti (fun c => c <| s11_cteid_mme := r_mme |> <| eps_bearer_id := r_ebi |>
                               <| imsi := r_imsi |> <| apn_in_use := r_apn |> <| tai := r_tai |>);
  r_mme ← ctx_get guti s11_cteid_mme;
  r_ebi ← ctx_get guti eps_bearer_id;
  r_imsi ← ctx_get guti imsi;
  r_apn ← ctx_get guti apn_in_use;
  r_tai ← ctx_get guti tai;
  dst ← set_server;
  pkt ← lift (n4_packet [IU32 r_mme; IU64 r_imsi; IU8 r_ebi; IU64 r_apn; IU64 r_tai] 1 0);
  _ ← snd dst pkt;
  pkt ← rcv dst pkt;
  pkt ← lift (Packet.extract_gtp_hdr pkt);
  '(sgw, pkt) ← lift (Packet.extract_item_uint32 pkt);
  '(ue_ip, pkt) ← lift (Packet.extract_item_string pkt);
  '(ul, pkt) ← lift (Packet.extract_item_uint32 pkt);
  _ ← ctx_set guti (fun c => c <| ip_addr := ue_ip |> <| s11_cteid_sgw := sgw |>
                               <| s1_uteid_ul := ul |> <| tai_list := [tai c] |>
                               <| tau_timer := g_timer |> <| e_rab_id := eps_bearer_id c |>);
  r_rab ← ctx_get guti e_rab_id;
  r_ken ← ctx_get guti k_enodeb;
  r_tau ← ctx_get guti tau_timer;
  _ ← lift (Packet.clear_pkt pkt);
  mret (reply <| AmfSmfReply.guti := s64 guti |>
              <| AmfSmfReply.eps_bearer_id := s32 r_ebi |>
              <| AmfSmfReply.e_rab_id := s32 r_rab |>
              <| AmfSmfReply.s1_uteid_ul := s32 ul |>
              <| AmfSmfReply.s11_cteid_upf := s32 sgw |>
              <| AmfSmfReply.k_enodeb := s64 r_ken |>
              <| AmfSmfReply.tai_list_size := 1 |>
              <| AmfSmfReply.tau_timer := s64 r_tau |>
              <| AmfSmfReply.ue_ip_addr := ue_ip |>
              <| AmfSmfReply.g_upf_s1_ip_addr := upf_s1_ip_addr |>
              <| AmfSmfReply.g_upf_s1_port := upf_s1_port |>
              <| AmfSmfReply.res := true |>).

(** [Smf::handle_modify_bearer]: what the request says of the bearer and of
    the downlink TEID is overwritten by the context's. *)
Definition handle_modify_bearer (request : AmfSmfRequest.t) (reply : AmfSmfReply.t)
  : prog proc AmfSmfReply.t :=
  let guti := u64 (AmfSmfRequest.guti request) in
  _ ← (if guti =? 0
       then lift (Utils.handle_type1_error (-1) "Zero guti: smf_handlemodifybearer")
       else mret tt);
  _ ← modify (on_smf (fun s =>
        s <| g_trafmon_ip_addr := AmfSmfRequest.g_trafmon_ip_addr request |>
          <| g_trafmon_port := s32 (AmfSmfRequest.g_trafmon_port request) |>));
  dst ← set_server;
  r_ebi ← ctx_get guti eps_bearer_id;
  r_dl ← ctx_get guti s1_uteid_dl;
  r_sgw ← ctx_get guti s11_cteid_sgw;
  ip ← gets (fun s => g_trafmon_ip_addr (smf s));
  port ← gets (fun s => g_trafmon_port (smf s));
  pkt ← lift (n4_packet [IU8 r_ebi; IU32 r_dl; IStr ip; IInt port] 2 r_sgw);
  _ ← snd dst pkt;
  pkt ← rcv dst pkt;
  pkt ← lift (Packet.extract_gtp_hdr pkt);
  '(res, pkt) ← lift (Packet.extract_item_bool pkt);
  if (res : bool) then mret (reply <| AmfSmfReply.res := true |>) else mret reply.

(** [Smf::handle_detach] *)
Definition handle_detach (request : AmfSmfRequest.t) (reply : AmfSmfReply.t)
  : prog proc AmfSmfReply.t :=
  let guti := u64 (AmfSmfRequest.guti request) in
  _ ← (if guti =? 0
       then lift (Utils.handle_type1_error (-1) "Zero guti: smf_handledetach")
       else mret tt);
  let r_ebi := u8 (AmfSmfRequest.eps_bearer_id request) in
  let r_tai := u64 (AmfSmfRequest.tai request) in
  dst ← set_server;
  r_sgw ← ctx_get guti s11_cteid_sgw;
  pkt ← lift (n4_packet [IU8 r_ebi; IU64 r_tai] 3 r_sgw);
  _ ← snd dst pkt;
  pkt ← rcv dst pkt;
  pkt ← lift (Packet.extract_gtp_hdr pkt);
  '(res, pkt) ← lift (Packet.extract_item_bool pkt);
  if (res : bool) then
    _ ← lift (Packet.clear_pkt pkt);
    mret (reply <| AmfSmfReply.res := true |>)
  else mret reply.

(** [GreeterServiceImpl::AmfSmfInteraction]: [bind] says how binding the
    fresh client socket goes. *)
Definition AmfSmfInteraction (bind : result unit) (request : AmfSmfRequest.t)
    (reply : AmfSmfReply.t) : prog proc AmfSmfReply.t :=
  _ ← lift bind;
  match AmfSmfRequest.msg_type request with
  | 1 => handle_create_session request reply
  | 2 => handle_modify_bearer request reply
  | 3 => handle_detach request reply
  | _ => mret reply
  end.

End Handlers.

Arguments proc : clear implicits.
End Smf.

(** ** One exchange with the UPF *)

Ltac smf_st :=
  unfold Smf.on_smf; cbn [Smf.smf Smf.net Smf.ue_ctx Smf.g_trafmon_ip_addr Smf.g_trafmon_port
    apply_update constant].

Lemma gtp_construct_wf g : Gtp.wf g -> Gtp.wf (Gtp.construct g).
Proof. intros (H1 & H2 & H3 & H4 & H5 & H6 & H7 & H8 & H9). by repeat split. Qed.

Section Exchange.
Context {W : Type} `{NET : N4 W}.
Context (h0 : hdrs).

(** The request as the SMF builds it. *)
Lemma n4_packet_rd its ty te :
  16 + len (enc_items its) <= BUF_SIZE ->
  Smf.n4_packet h0 its ty te =
  (let g := gtp_v2 (Gtp.construct (h_gtp h0)) ty (len (enc_items its)) te in
   Ret (rd (mk_hdrs g (h_s1ap h0) (h_dia h0)) (Gtp.to_bytes g ++ enc_items its) [])).
Proof.
  intros Hl. unfold Smf.n4_packet. rewrite construct_rd. res.
  rewrite clear_pkt_rd by (apply rd_length; unfold fits; len_lia). res.
  rewrite append_items_rd by (unfold fits; len_lia). res.
  rewrite prepend_gtp_hdr_rd with
    (g := gtp_v2 (Gtp.construct (h_gtp h0)) ty (len (enc_items its)) te).
  - done.
  - cbn [Packet.plen rd rdl]. by rewrite !app_nil_r.
  - len_lia.
Qed.

(** Sending hands the network the packet's bytes. *)
Lemma smf_snd_rd dst h pre s w w' :
  fits pre [] -> n4_snd dst pre w = (Ret tt, w') ->
  Smf.snd dst (rd h pre []) (Smf.mk_proc s w) = (Ret tt, Smf.mk_proc s w').
Proof.
  intros H E. unfold Smf.snd. rewrite (run_lift _ _ _ _ (copy_rd h pre [] H)).
  rewrite (run_lift _ _ _ pre).
  - unfold Smf.on_net. cbn [Smf.net]. by rewrite E.
  - unfold rd, rdl. pk. rewrite app_nil_r. by apply mem_read_pad_all.
Qed.

(** Receiving a datagram that fits, and receiving none. *)
Lemma smf_rcv_got dst p from bs s w w' :
  length (Packet.data p) = Z.to_nat BUF_SIZE -> len bs <= BUF_SIZE ->
  n4_rcv w = (Ret (UdpClient.Got from bs), w') ->
  Smf.rcv dst p (Smf.mk_proc s w) = (Ret (rd (hdrs_of p) [] bs), Smf.mk_proc s w').
Proof.
  intros Hp Hb E. unfold Smf.rcv. run with (by apply clear_pkt_rd).
  erewrite run_bind; [|unfold Smf.on_net; cbn [Smf.net]; rewrite E; reflexivity].
  rewrite data_rd_nil. run with (by apply recvfrom_zbuf). done.
Qed.

Lemma smf_rcv_timeout dst p s w w' :
  length (Packet.data p) = Z.to_nat BUF_SIZE ->
  n4_rcv w = (Ret UdpClient.Timeout, w') ->
  Smf.rcv dst p (Smf.mk_proc s w) =
  (Ret (rdl (hdrs_of p) [] [] (-1)), Smf.mk_proc s w').
Proof.
  intros Hp E. unfold Smf.rcv. run with (by apply clear_pkt_rd).
  erewrite run_bind; [|unfold Smf.on_net; cbn [Smf.net]; rewrite E; reflexivity].
  run with (reflexivity). done.
Qed.

(** The peer at [dst] serves a request from [w] on, and [Q] holds of the world
    then. *)
Definition n4_served (dst : sockaddr_in) (r : n4_request) (w : W) (Q : W -> Prop) : Prop :=
  forall g, n4_header g r ->
  exists w1 w2 from dgram,
    n4_snd dst (n4_datagram g r) w = (Ret tt, w1) /\
    n4_rcv w1 = (Ret (UdpClient.Got from dgram), w2) /\
    answers r dgram /\ Q w2.

Lemma n4_served_contract `{C : !N4Contract W} S w r :
  n4_sessions S w -> n4_ok S r -> n4_served n4_addr r w (n4_sessions (n4_step n4_garbage_dl r S)).
Proof. intros Hw Hok g Hg. by apply n4_law. Qed.

(** Statement by statement, the four of an exchange. *)
Lemma exchange dst Q S s w r ty te :
  Gtp.wf (h_gtp h0) -> n4_served dst r w Q -> n4_ok S r ->
  ty = n4_type r -> te = n4_teid r ->
  exists w' h g, Q w' /\
    forall B (k : Packet.t -> prog (Smf.proc W) B),
    (pkt ← lift (Smf.n4_packet h0 (n4_items r) ty te);
     _ ← Smf.snd dst pkt;
     pkt ← Smf.rcv dst pkt;
     pkt ← lift (Packet.extract_gtp_hdr pkt);
     k pkt) (Smf.mk_proc s w) =
    k (rd h (Gtp.to_bytes g) (enc_items (n4_answer r))) (Smf.mk_proc s w').
Proof.
  intros Hh Hw Hok -> ->. pose proof (n4_items_size S r Hok) as Hsz.
  set (g := gtp_v2 (Gtp.construct (h_gtp h0)) (n4_type r) (len (enc_items (n4_items r))) (n4_teid r)).
  assert (n4_header g r) as Hg.
  { split; [by apply gtp_v2_wf, gtp_construct_wf|]. unfold g, gtp_v2. cbn.
    destruct Hok as [Hn Hok]. split; [by destruct r|]. apply u32_id. destruct r; cbn in *; lia. }
  destruct (Hw g Hg) as (w1 & w2 & from & dg & E1 & E2 & (g' & Wg & _ & _ & ->) & Hw').
  exists w2. eexists _, g'. split; [exact Hw'|]. intros B k.
  run with (apply n4_packet_rd; unfold BUF_SIZE; lia). fold g.
  erewrite run_bind; [|apply smf_snd_rd; [unfold fits, BUF_SIZE; len_lia | exact E1]].
  assert (len (enc_items (n4_answer r)) <= 1000) as Ha.
  { destruct Hok as [Hn Hok]. destruct (pool_ip_text _ Hn). destruct r; cbn in *; len_lia. }
  erewrite run_bind; [|eapply smf_rcv_got; [ | | exact E2]].
  - run with (by apply (extract_gtp_hdr_rd _ [])). reflexivity.
  - apply rd_length. unfold fits, BUF_SIZE. len_lia.
  - unfold BUF_SIZE. len_lia.
Qed.
End Exchange.

(** ** What the SMF promises to the AMF

    The requests are those of N4, and so are the sessions; the table of
    contexts only remembers the TEID to use for each. *)

(** The gRPC request, whatever conversions its fields went through. *)
Definition smf_request (r : n4_request) (m : AmfSmfRequest.t) : Prop :=
  AmfSmfRequest.msg_type m = n4_type r /\
  u64 (AmfSmfRequest.guti m) = deployed_guti (n4_number r) /\
  match r with
  | Create n ebi apn ta =>
      u64 (AmfSmfRequest.imsi m) = deployed_imsi n /\ u32 (AmfSmfRequest.s11_cteid_amf m) = n /\
      AmfSmfRequest.eps_bearer_id m = ebi /\ AmfSmfRequest.apn_in_use m = apn /\
      AmfSmfRequest.tai m = ta
  | Modify _ ebi dl ip port =>
      AmfSmfRequest.eps_bearer_id m = ebi /\ AmfSmfRequest.s1_uteid_dl m = dl /\
      AmfSmfRequest.g_trafmon_ip_addr m = ip /\ AmfSmfRequest.g_trafmon_port m = port
  | Detach _ ebi ta => AmfSmfRequest.eps_bearer_id m = ebi /\ AmfSmfRequest.tai m = ta
  end.

(** The gRPC reply. *)
Definition smf_reply (r : n4_request) (m : AmfSmfReply.t) : Prop :=
  AmfSmfReply.res m = true /\
  match r with
  | Create n ebi _ _ =>
      u64 (AmfSmfReply.guti m) = deployed_guti n /\
      u32 (AmfSmfReply.s11_cteid_upf m) = n /\ u32 (AmfSmfReply.s1_uteid_ul m) = n /\
      u8 (AmfSmfReply.eps_bearer_id m) = u8 ebi /\ u8 (AmfSmfReply.e_rab_id m) = u8 ebi /\
      AmfSmfReply.tau_timer m = Smf.g_timer /\ AmfSmfReply.tai_list_size m = 1 /\
      AmfSmfReply.ue_ip_addr m = pool_ip n /\
      AmfSmfReply.g_upf_s1_ip_addr m = Upf.g_upf_s1_ip_addr /\
      AmfSmfReply.g_upf_s1_port m = Upf.g_upf_s1_port
  | _ => True
  end.

(** What a request comes to at the UPF: the downlink TEID of a modify
    request is lost on the way. *)
Definition smf_effect (r : n4_request) : n4_request :=
  match r with Modify n ebi _ ip port => Modify n ebi 0 ip port | _ => r end.

Definition smf_step (g : Z -> Z) (r : n4_request) (S : gmap Z session) : gmap Z session :=
  n4_step g (smf_effect r) S.

(** The request on the wire, as the fields are narrowed on the way; the bearer
    of a modify request is the context's. *)
Definition smf_asks (s : Smf.t) (r : n4_request) : n4_request :=
  match r with
  | Create n ebi apn ta => Create n (u8 ebi) (u64 apn) (u64 ta)
  | Modify n _ _ ip port =>
      Modify n (from_option Smf.eps_bearer_id 0 (Smf.ue_ctx s !! deployed_guti n)) 0 ip (s32 port)
  | Detach n ebi ta => Detach n (u8 ebi) (u64 ta)
  end.

Lemma smf_asks_step g s r S : n4_step g (smf_asks s r) S = smf_step g r S.
Proof.
  unfold smf_step. destruct r; cbn [smf_asks smf_effect n4_step]; by rewrite ?u64_idem, ?u8_idem, ?s32_idem.
Qed.

Lemma smf_asks_ok s r S : n4_ok S r -> n4_ok S (smf_asks s r).
Proof. by destruct r. Qed.

(** The contexts of the subscribers with a session know its TEID, and no
    context has a downlink TEID. *)
Record smf_repr (S : gmap Z session) (s : Smf.t) : Prop := {
  smf_ctx : forall n, is_Some (S !! n) ->
    exists c, Smf.ue_ctx s !! deployed_guti n = Some c /\ Smf.s11_cteid_sgw c = n;
  smf_dl : forall g c, Smf.ue_ctx s !! g = Some c -> Smf.s1_uteid_dl c = 0
}.

Lemma smf_repr_weaken S S' s :
  smf_repr S s -> (forall n, is_Some (S' !! n) -> is_Some (S !! n)) -> smf_repr S' s.
Proof. intros [H1 H2] H. split; [intros n Hn; by apply H1, H | exact H2]. Qed.

Lemma smf_repr_insert S s n v c :
  smf_repr S s -> Smf.s11_cteid_sgw c = n -> Smf.s1_uteid_dl c = 0 ->
  smf_repr (<[n := v]> S) (s <| Smf.ue_ctx := <[deployed_guti n := c]> (Smf.ue_ctx s) |>).
Proof.
  intros [H1 H2] Hc Hd. split; smf_st.
  - intros m Hm. destruct (decide (m = n)) as [->|Hne].
    + exists c. by rewrite lookup_insert_eq.
    + rewrite lookup_insert_ne in Hm by done. apply H1 in Hm as (c' & ? & ?).
      exists c'. rewrite lookup_insert_ne; [done | unfold deployed_guti; lia].
  - intros g c'. destruct (decide (g = deployed_guti n)) as [->|Hne].
    + rewrite lookup_insert_eq. by intros [= <-].
    + rewrite lookup_insert_ne by done. apply H2.
Qed.

Section Properties.
Context {W : Type} `{NET : N4 W}.
Context (inet_aton : string -> option Z) (garbage : Z -> Smf.UeContext) (h0 : hdrs).

(** The context [handle_create_session] leaves. *)
Definition created_ctx (c : Smf.UeContext) (n ebi apn ta : Z) (ip : string) : Smf.UeContext :=
  c <| Smf.s11_cteid_mme := u32 n |> <| Smf.eps_bearer_id := u8 ebi |>
    <| Smf.imsi := deployed_imsi n |> <| Smf.apn_in_use := u64 apn |> <| Smf.tai := u64 ta |>
    <| Smf.ip_addr := ip |> <| Smf.s11_cteid_sgw := u32 n |> <| Smf.s1_uteid_ul := u32 n |>
    <| Smf.tai_list := [u64 ta] |> <| Smf.tau_timer := Smf.g_timer |>
    <| Smf.e_rab_id := u8 ebi |>.

Ltac nonzero_guti :=
  rewrite (proj2 (Z.eqb_neq (deployed_guti _) 0)) by (unfold deployed_guti; lia); run.

Lemma ctx_set_run {A} guti f (k : unit -> prog (Smf.proc W) A) ctx ip port w :
  (x ← Smf.ctx_set garbage guti f; k x) (Smf.mk_proc (Smf.mk ctx ip port) w) =
  k tt (Smf.mk_proc (Smf.mk (upd (Smf.new_ctx garbage guti) f guti ctx) ip port) w).
Proof. reflexivity. Qed.

Lemma ctx_get_run {A B} guti (f : Smf.UeContext -> B) (k : B -> prog (Smf.proc W) A) ctx ip port w :
  (x ← Smf.ctx_get garbage guti f; k x) (Smf.mk_proc (Smf.mk ctx ip port) w) =
  k (f (at_or (Smf.new_ctx garbage guti) ctx guti))
    (Smf.mk_proc (Smf.mk (touch (Smf.new_ctx garbage guti) guti ctx) ip port) w).
Proof. unfold Smf.ctx_get. run. smf_st. by rewrite at_or_touch. Qed.

Ltac ctx_run := repeat (rewrite ctx_set_run || rewrite ctx_get_run; autorewrite with omap).

Section Served.
Context (dst : sockaddr_in) (Q : W -> Prop).
Hypothesis Haddr : Network.set_inet_sock_addr inet_aton Smf.g_upf_smf_ip_addr Smf.g_upf_smf_port
  = Ret dst.
Hypothesis Hh : Gtp.wf (h_gtp h0).

Lemma set_server_run {A} (k : sockaddr_in -> prog (Smf.proc W) A) s :
  (x ← Smf.set_server inet_aton; k x) s = k dst s.
Proof. unfold Smf.set_server. by rewrite (run_lift _ _ _ _ Haddr). Qed.

Lemma smf_create_run (S : gmap Z session) s w m reply n ebi apn ta :
  n4_served dst (smf_asks s (Create n ebi apn ta)) w Q -> 0 <= n < 10000 -> smf_request (Create n ebi apn ta) m ->
  let c := at_or (Smf.new_ctx garbage (deployed_guti n)) (Smf.ue_ctx s) (deployed_guti n) in
  exists w' reply',
    Smf.handle_create_session inet_aton garbage h0 m reply (Smf.mk_proc s w) =
      (Ret reply', Smf.mk_proc
         (s <| Smf.ue_ctx := <[deployed_guti n := created_ctx c n ebi apn ta (pool_ip n)]>
                               (Smf.ue_ctx s) |>) w') /\
    Q w' /\
    smf_reply (Create n ebi apn ta) reply'.
Proof.
  intros Hw Hn (_ & Hguti & Himsi & Hmme & Hebi & Hapn & Hta) c. cbn [n4_number] in Hguti.
  unfold Smf.handle_create_session. rewrite Hguti, Himsi, Hmme, Hebi, Hapn, Hta. nonzero_guti.
  assert (u32 n = n) as Hu by (apply u32_id; lia).
  destruct s as [ctx ip port]; cbn [Smf.ue_ctx] in *. rewrite ctx_set_run.
  match goal with |- context [upd _ ?f _ _] => set (f0 := f) end.
  ctx_run. rewrite set_server_run. fold c.
  change (Smf.s11_cteid_mme (f0 c)) with n. change (Smf.eps_bearer_id (f0 c)) with (u8 ebi).
  change (Smf.imsi (f0 c)) with (deployed_imsi n). change (Smf.apn_in_use (f0 c)) with (u64 apn).
  change (Smf.tai (f0 c)) with (u64 ta).
  edestruct (exchange h0 dst Q S (Smf.mk (upd (Smf.new_ctx garbage (deployed_guti n)) f0 (deployed_guti n) ctx) ip port)
    w (Create n (u8 ebi) (u64 apn) (u64 ta)) 1 0) as (w' & h & g & Hw' & E);
    [exact Hh | exact Hw | by split | reflexivity | reflexivity |].
  cbn [n4_items] in E. rewrite E. clear E. cbn [n4_answer enc_items enc_item app].
  destruct (pool_ip_text n Hn) as [Hnf Hnl].
  run with (apply extract_uint32_rd).
  run with (apply (extract_string_rd _ _ _ (pool_ip n)); [lia | done]).
  run with (apply extract_uint32_rd). fold c.
  ctx_run.
  run with (apply clear_pkt_rd, rd_length; unfold fits, BUF_SIZE; cbn [enc_item]; len_lia).
  eexists w', _. split; [|split].
  - unfold upd. fold c. unfold created_ctx. rewrite Hu. reflexivity.
  - exact Hw'.
  - split; [reflexivity|]. cbn. autorewrite with word.
    rewrite Hu, ?u8_idem. repeat split. apply u64_id. unfold deployed_guti. lia.
Qed.

Lemma smf_modify_run S s w m reply n ebi dl eip eport :
  n4_served dst (smf_asks s (Modify n ebi dl eip eport)) w Q -> smf_repr S s -> n4_ok S (Modify n ebi dl eip eport) ->
  smf_request (Modify n ebi dl eip eport) m ->
  exists w' reply',
    Smf.handle_modify_bearer inet_aton garbage h0 m reply (Smf.mk_proc s w) =
      (Ret reply', Smf.mk_proc (Smf.mk (Smf.ue_ctx s) eip (s32 eport)) w') /\
    Q w' /\
    AmfSmfReply.res reply' = true.
Proof.
  intros Hw R (Hn & HS & Htext) (_ & Hguti & _ & _ & Hip & Hport). cbn [n4_number] in *.
  destruct (smf_ctx _ _ R n HS) as (c & Hc & Hsgw). pose proof (smf_dl _ _ R _ _ Hc) as Hdl.
  destruct s as [ctx ip port]; cbn [Smf.ue_ctx smf_asks] in *. rewrite Hc in Hw. cbn [from_option] in Hw.
  unfold Smf.handle_modify_bearer. rewrite Hguti. nonzero_guti. smf_st. rewrite Hip, Hport.
  rewrite set_server_run. ctx_run. rewrite !(touch_id _ _ _ _ Hc), (at_or_Some _ _ _ _ Hc).
  rewrite Hdl, Hsgw. run. smf_st.
  edestruct (exchange h0 dst Q S (Smf.mk ctx eip (s32 eport)) w
    (Modify n (Smf.eps_bearer_id c) 0 eip (s32 eport)) 2 n) as (w' & h & g & Hw' & E);
    [exact Hh | exact Hw | by split | reflexivity | reflexivity |].
  cbn [n4_items] in E. rewrite E. clear E. cbn [n4_answer enc_items enc_item app].
  run with (apply extract_bool_rd).
  eexists w', _. split; [reflexivity|]. by split.
Qed.

Lemma smf_detach_run S s w m reply n ebi ta :
  n4_served dst (smf_asks s (Detach n ebi ta)) w Q -> smf_repr S s -> n4_ok S (Detach n ebi ta) ->
  smf_request (Detach n ebi ta) m ->
  exists w' reply',
    Smf.handle_detach inet_aton garbage h0 m reply (Smf.mk_proc s w) =
      (Ret reply', Smf.mk_proc s w') /\
    Q w' /\
    AmfSmfReply.res reply' = true.
Proof.
  intros Hw R (Hn & HS) (_ & Hguti & Hebi & Hta). cbn [n4_number] in *.
  destruct (smf_ctx _ _ R n HS) as (c & Hc & Hsgw).
  destruct s as [ctx ip port]; cbn [Smf.ue_ctx] in *.
  unfold Smf.handle_detach. rewrite Hguti. nonzero_guti. rewrite Hebi, Hta.
  rewrite set_server_run. ctx_run. rewrite !(touch_id _ _ _ _ Hc), (at_or_Some _ _ _ _ Hc), Hsgw.
  edestruct (exchange h0 dst Q S (Smf.mk ctx ip port) w (Detach n (u8 ebi) (u64 ta)) 3 n)
    as (w' & h & g & Hw' & E);
    [exact Hh | exact Hw | by split | reflexivity | reflexivity |].
  cbn [n4_items] in E. rewrite E. clear E. cbn [n4_answer enc_items enc_item app].
  run with (apply extract_bool_rd).
  run with (apply clear_pkt_rd, rd_length; unfold fits, BUF_SIZE; len_lia).
  eexists w', _. split; [reflexivity|]. split; [exact Hw' | done].
Qed.

(** Any request of the AMF. *)
Lemma smf_request_run S g s w r m reply :
  n4_served dst (smf_asks s r) w Q -> smf_repr S s -> n4_ok S r -> smf_request r m ->
  exists s' w' reply',
    Smf.AmfSmfInteraction inet_aton garbage h0 (Ret tt) m reply (Smf.mk_proc s w) =
      (Ret reply', Smf.mk_proc s' w') /\
    smf_reply r reply' /\ Q w' /\ smf_repr (smf_step g r S) s'.
Proof.
  intros Hw R Hok Hm. pose proof Hm as [Hty _]. unfold Smf.AmfSmfInteraction.
  run with (reflexivity). rewrite Hty. destruct r as [n ebi apn ta|n ebi dl eip eport|n ebi ta];
    cbn [n4_type].
  - destruct Hok as [Hn _]. cbn [n4_number] in Hn.
    destruct (smf_create_run S s w m reply n ebi apn ta Hw Hn Hm) as (w' & rep & E & Hw' & Hr).
    eexists _, w', rep. split; [exact E|]. split; [exact Hr|]. split; [exact Hw'|].
    apply smf_repr_insert; [done | by apply u32_id; lia |].
    change (Smf.s1_uteid_dl (at_or (Smf.new_ctx garbage (deployed_guti n)) (Smf.ue_ctx s)
      (deployed_guti n)) = 0).
    unfold at_or. destruct (Smf.ue_ctx s !! deployed_guti n) as [c|] eqn:Ec; [|done].
    by apply (smf_dl _ _ R _ _ Ec).
  - destruct (smf_modify_run S s w m reply n ebi dl eip eport Hw R Hok Hm) as (w' & rep & E & Hw' & Hr).
    eexists _, w', rep. split; [exact E|]. split; [by split|]. split; [exact Hw'|].
    apply smf_repr_weaken with S; [by destruct R|]. intros k. cbn [smf_step smf_effect n4_step].
    destruct (decide (k = n)) as [->|]; [by destruct Hok as (_ & ? & _)|].
    by rewrite lookup_alter_ne.
  - destruct (smf_detach_run S s w m reply n ebi ta Hw R Hok Hm) as (w' & rep & E & Hw' & Hr).
    eexists _, w', rep. split; [exact E|]. split; [by split|]. split; [exact Hw'|].
    apply smf_repr_weaken with S; [done|]. intros k. cbn [smf_step smf_effect n4_step].
    rewrite lookup_delete_is_Some. by intros [_ ?].
Qed.
End Served.

Section WithUpf.
Context `{C : !N4Contract W}.
Hypothesis Haddr : Network.set_inet_sock_addr inet_aton Smf.g_upf_smf_ip_addr Smf.g_upf_smf_port
  = Ret n4_addr.
Hypothesis Hh : Gtp.wf (h_gtp h0).

Lemma smf_step_run S s w r m reply :
  n4_sessions S w -> smf_repr S s -> n4_ok S r -> smf_request r m ->
  exists s' w' reply',
    Smf.AmfSmfInteraction inet_aton garbage h0 (Ret tt) m reply (Smf.mk_proc s w) =
      (Ret reply', Smf.mk_proc s' w') /\
    smf_reply r reply' /\
    n4_sessions (smf_step n4_garbage_dl r S) w' /\ smf_repr (smf_step n4_garbage_dl r S) s'.
Proof.
  intros Hw R Hok Hm.
  destruct (smf_request_run n4_addr (n4_sessions (n4_step n4_garbage_dl (smf_asks s r) S)) Haddr Hh
    S n4_garbage_dl s w r m reply) as (s' & w' & rep & E & Hr & Hw' & R'); try done.
  { apply n4_served_contract; [done | by apply smf_asks_ok]. }
  rewrite smf_asks_step in Hw'. by exists s', w', rep.
Qed.

(** C3: refinement of the session service.  Let the table of contexts
    represent the sessions: every session has its context, and no context has
    a downlink TEID other than zero.  Then a gRPC request of the AMF for a
    subscriber of the deployment, who for a modify or detach request has a
    session, is carried out at the UPF and answered with the session's TEIDs
    and address, and afterwards the table represents the sessions again (the
    address in a modify request has at most 900 characters, none of them NUL); a modify request, however, sets the session's downlink
    TEID to zero instead of the one the AMF sent.  The empty table, with which
    the SMF starts, represents no sessions. *)
Theorem smf_refinement S s w r m reply :
  n4_sessions S w -> smf_repr S s -> n4_ok S r -> smf_request r m ->
  exists s' w' reply',
    Smf.AmfSmfInteraction inet_aton garbage h0 (Ret tt) m reply (Smf.mk_proc s w) =
      (Ret reply', Smf.mk_proc s' w') /\
    smf_reply r reply' /\
    n4_sessions (smf_step n4_garbage_dl r S) w' /\ smf_repr (smf_step n4_garbage_dl r S) s'.
Proof. apply smf_step_run. Qed.

End WithUpf.

(** ** Whatever the network does *)

(** No context is ever removed, and none ever gets a downlink TEID. *)
Definition only_grows (p p' : Smf.proc W) : Prop :=
  dom (Smf.ue_ctx (Smf.smf p)) ⊆ dom (Smf.ue_ctx (Smf.smf p')) /\
  ((forall g c, Smf.ue_ctx (Smf.smf p) !! g = Some c -> Smf.s1_uteid_dl c = 0) ->
   forall g c, Smf.ue_ctx (Smf.smf p') !! g = Some c -> Smf.s1_uteid_dl c = 0).

#[local] Instance only_grows_preorder : PreOrder only_grows.
Proof.
  split; [by split|]. intros x y z [H1 H2] [H3 H4].
  split; [by etrans | intros H; by apply H4, H2].
Qed.

Lemma only_grows_insert s w g c :
  (Smf.s1_uteid_dl (at_or (Smf.new_ctx garbage g) (Smf.ue_ctx s) g) = 0 -> Smf.s1_uteid_dl c = 0) ->
  only_grows (Smf.mk_proc s w)
    (Smf.mk_proc (s <| Smf.ue_ctx := <[g := c]> (Smf.ue_ctx s) |>) w).
Proof.
  intros Hc. split; smf_st; [set_solver|]. intros H g' c'.
  destruct (decide (g' = g)) as [->|Hne]; [|rewrite lookup_insert_ne by done; apply H].
  rewrite lookup_insert_eq. intros [= <-]. apply Hc. unfold at_or.
  destruct (Smf.ue_ctx s !! g) eqn:E; [by eapply H | done].
Qed.

Lemma ctx_get_grows {A} g (f : Smf.UeContext -> A) : always only_grows (Smf.ctx_get garbage g f).
Proof.
  apply always_bind; [apply _ | | intros; apply always_gets; apply _].
  apply always_modify. intros [s w]. by apply (only_grows_insert s w).
Qed.

Lemma ctx_set_grows g f :
  (forall c, Smf.s1_uteid_dl c = 0 -> Smf.s1_uteid_dl (f c) = 0) ->
  always only_grows (Smf.ctx_set garbage g f).
Proof. intros Hf. apply always_modify. intros [s w]. apply (only_grows_insert s w). auto. Qed.

Lemma on_net_grows {A} (c : prog W A) : always only_grows (Smf.on_net c).
Proof. intros [s w]. unfold Smf.on_net. cbn [Smf.net]. by destruct (c w). Qed.

Lemma globals_grow (f : Smf.t -> Smf.t) :
  (forall s, Smf.ue_ctx (f s) = Smf.ue_ctx s) -> always only_grows (modify (Smf.on_smf f)).
Proof. intros H. apply always_modify. intros [s w]. split; smf_st; by rewrite H. Qed.

#[local] Hint Resolve ctx_get_grows on_net_grows : always.
#[local] Hint Extern 1 (always _ (Smf.ctx_set _ _ _)) => apply ctx_set_grows; intros ? ?; done : always.
#[local] Hint Extern 1 (always _ (modify (Smf.on_smf _))) => apply globals_grow; done : always.

Lemma smf_snd_grows dst pkt : always only_grows (Smf.snd dst pkt).
Proof. unfold Smf.snd. always_tac. Qed.

Lemma smf_rcv_grows dst pkt : always only_grows (Smf.rcv dst pkt).
Proof. unfold Smf.rcv. always_tac. Qed.

#[local] Hint Resolve smf_snd_grows smf_rcv_grows : always.

(** The SMF never forgets a subscriber: no request removes a context,
    not even the detach request whose trace says so, and none stores a
    downlink TEID, whatever the requests and whatever the network answers,
    up to the very fault that stops the process. *)
Theorem smf_contexts_only_grow bind m reply p :
  only_grows p (Smf.AmfSmfInteraction inet_aton garbage h0 bind m reply p).2.
Proof.
  revert p. change (always only_grows (Smf.AmfSmfInteraction inet_aton garbage h0 bind m reply)).
  unfold Smf.AmfSmfInteraction, Smf.handle_create_session, Smf.handle_modify_bearer,
    Smf.handle_detach, Smf.set_server.
  always_tac.
Qed.

(** ** No answer from the UPF *)

Section Silent.
Context `{C : !N4Silent W}.
Context (dst : sockaddr_in).
Hypothesis Hdst : Network.set_inet_sock_addr inet_aton Smf.g_upf_smf_ip_addr Smf.g_upf_smf_port
  = Ret dst.

(** The packet after the timeout: [len] is -1, and every byte reads zero. *)
Lemma silent_exchange its ty te s w :
  16 + len (enc_items its) <= BUF_SIZE ->
  exists w' h, forall B (k : Packet.t -> prog (Smf.proc W) B),
    (pkt ← lift (Smf.n4_packet h0 its ty te);
     _ ← Smf.snd dst pkt;
     pkt ← Smf.rcv dst pkt;
     k pkt) (Smf.mk_proc s w) = k (rdl h [] [] (-1)) (Smf.mk_proc s w').
Proof.
  intros Hl. set (g := gtp_v2 (Gtp.construct (h_gtp h0)) ty (len (enc_items its)) te).
  destruct (silent_snd dst (Gtp.to_bytes g ++ enc_items its) w) as [w1 E1].
  destruct (silent_rcv w1) as [w2 E2]. exists w2. eexists. intros B k.
  run with (by apply n4_packet_rd). fold g.
  erewrite run_bind; [|apply smf_snd_rd; [unfold fits; len_lia | exact E1]].
  erewrite run_bind; [|eapply smf_rcv_timeout; [|exact E2]]; [reflexivity|].
  apply rd_length. unfold fits. len_lia.
Qed.

(** C35: a UPF that does not answer goes unnoticed: the create request is
    answered with success all the same, with TEID 0 and an empty address,
    and the context now says so; the detach request leaves the reply as it
    was. *)
Theorem smf_timeout_is_success s w m reply :
  u64 (AmfSmfRequest.guti m) <> 0 ->
  (AmfSmfRequest.msg_type m = 1 ->
   exists w' reply' c,
     Smf.AmfSmfInteraction inet_aton garbage h0 (Ret tt) m reply (Smf.mk_proc s w) =
       (Ret reply', Smf.mk_proc
          (s <| Smf.ue_ctx := <[u64 (AmfSmfRequest.guti m) := c]> (Smf.ue_ctx s) |>) w') /\
     AmfSmfReply.res reply' = true /\ AmfSmfReply.s11_cteid_upf reply' = 0 /\
     AmfSmfReply.s1_uteid_ul reply' = 0 /\ AmfSmfReply.ue_ip_addr reply' = "" /\
     Smf.s11_cteid_sgw c = 0 /\ Smf.ip_addr c = "") /\
  (AmfSmfRequest.msg_type m = 3 ->
   exists s' w',
     Smf.AmfSmfInteraction inet_aton garbage h0 (Ret tt) m reply (Smf.mk_proc s w) =
       (Ret reply, Smf.mk_proc s' w')).
Proof.
  intros Hg%Z.eqb_neq. unfold Smf.AmfSmfInteraction. destruct s as [ctx ip port].
  split; intros Hty; run with (reflexivity); rewrite Hty.
  - unfold Smf.handle_create_session. rewrite Hg. run. rewrite ctx_set_run.
    match goal with |- context [upd _ ?f _ _] => set (f0 := f) end. ctx_run.
    unfold Smf.set_server. run with (exact Hdst).
    match goal with |- context [Smf.n4_packet _ ?its 1 0] =>
      destruct (silent_exchange its 1 0 (Smf.mk (upd (Smf.new_ctx garbage (u64 (AmfSmfRequest.guti m)))
        f0 (u64 (AmfSmfRequest.guti m)) ctx) ip port) w) as (w' & h & E);
        [vm_compute; discriminate|]; rewrite E; clear E end.
    run with (reflexivity). run with (reflexivity). run with (reflexivity). run with (reflexivity).
    ctx_run. run with (reflexivity). eexists w', _, _.
    split; [reflexivity|]. by repeat split.
  - unfold Smf.handle_detach. rewrite Hg. run. unfold Smf.set_server. run with (exact Hdst). ctx_run.
    match goal with |- context [Smf.n4_packet _ ?its 3 ?te] =>
      destruct (silent_exchange its 3 te (Smf.mk (touch (Smf.new_ctx garbage (u64 (AmfSmfRequest.guti m)))
        (u64 (AmfSmfRequest.guti m)) ctx) ip port) w) as (w' & h & E);
        [vm_compute; discriminate|]; rewrite E; clear E end.
    run with (reflexivity). run with (reflexivity). by eexists _, w'.
Qed.

End Silent.

End Properties.

(** ** The UPF implements the interface

    The peer behind the socket is the UPF's own S11 thread, over a network
    that loses nothing: a datagram is handled at once, and the answer is the
    last one sent. *)

Definition smf_addr : sockaddr_in := mk_sockaddr 40000 5.
Definition upf_addr : sockaddr_in := mk_sockaddr 7000 6.

#[export] Instance upf_n4 : N4 Upf.proc := {
  n4_snd _ d :=
    _ ← Upf.handle_s11_traffic zeros zeros smf_addr (rd zero_hdrs [] []) (UdpClient.Got smf_addr d);
    mret tt;
  n4_rcv := gets (fun w =>
    match last (Upf.out w) with
    | Some (_, d) => UdpClient.Got upf_addr d
    | None => UdpClient.Timeout
    end)
}.

#[export] Program Instance upf_n4_contract : N4Contract Upf.proc := {
  n4_addr := upf_addr;
  n4_garbage_dl := zeros;
  n4_sessions S w := upf_repr S (Upf.upf w)
}.
Next Obligation.
  intros S [u o] r g R Hok Hg. cbn [Upf.upf] in R.
  destruct (n4_refinement_step zeros zeros S u o r smf_addr (rd zero_hdrs [] []) smf_addr g
    R Hok Hg eq_refl) as (u' & p' & dg & E & R' & A & _).
  eexists _, _, upf_addr, dg. split; [|split; [|split; [exact A|]]].
  - unfold n4_snd, upf_n4. rewrite (run_bind _ _ _ _ _ E). reflexivity.
  - unfold n4_rcv, upf_n4, gets. cbn [Upf.out]. by rewrite last_snoc.
  - exact R'.
Qed.

(** A network that drops everything. *)
Definition dropped : Type := list (list Z).
#[export] Instance dropped_n4 : N4 dropped := {
  n4_snd _ d := modify (fun l => d :: l);
  n4_rcv := mret UdpClient.Timeout
}.
#[export] Instance dropped_silent : N4Silent dropped.
Proof. split; [intros a d w; by exists (d :: w) | intros w; by exists w]. Qed.

(** ** The service as the AMF calls it *)

(** The address an SMF gRPC server of the deployment listens on: a port for
    each kind of request, with the worker's number appended. *)
Definition smf_channel (ch : string) : bool := String.prefix "172.18.0.5:500" ch.

(** The promise of [smf_refinement], as a client uses it. *)
Class SmfContract (W : Type) `{SmfStub W} := {
  smf_garbage_dl : Z -> Z;
  smf_sessions : gmap Z session -> W -> Prop;
  smf_law ch S w r m : smf_channel ch = true ->
    smf_sessions S w -> n4_ok S r -> smf_request r m ->
    exists w' reply,
      call_AmfSmfInteraction ch m w = (Ret (Some reply), w') /\ smf_reply r reply /\
      smf_sessions (smf_step smf_garbage_dl r S) w'
}.

Definition demo_smf_ctx : Smf.UeContext :=
  Smf.mk_ctx 0 0 0 "" 0 0 0 [] 0 0 0 0 0 0 0 0 0 0 0 0 0 0 0 0 0 0 0 0 0 0 "" 0 "" 0 0 0.
Definition smf_garbage (_ : Z) : Smf.UeContext := demo_smf_ctx.
Definition core_aton (s : string) : option Z :=
  if bool_decide (s = "172.18.0.6") then Some 6 else None.

Lemma core_reaches_upf :
  Network.set_inet_sock_addr core_aton Smf.g_upf_smf_ip_addr Smf.g_upf_smf_port = Ret n4_addr.
Proof. reflexivity. Qed.

(** The SMF itself, over any network with the N4 contract, with a context
    memory and an address conversion for the deployment. *)
#[export] Instance smf_service {W} `{N4 W} : SmfStub (Smf.proc W) := {
  call_AmfSmfInteraction ch m :=
    if smf_channel ch then
      reply ← Smf.AmfSmfInteraction core_aton smf_garbage zero_hdrs (Ret tt) m AmfSmfReply.empty;
      mret (Some reply)
    else mret None
}.

#[export] Program Instance smf_service_contract : SmfContract (Smf.proc Upf.proc) := {
  smf_garbage_dl := zeros;
  smf_sessions S p := n4_sessions S (Smf.net p) /\ smf_repr S (Smf.smf p)
}.
Next Obligation.
  intros ch S [s w] r m Hch [Hw R] Hok Hm. cbn [Smf.net Smf.smf] in *.
  destruct (smf_step_run core_aton smf_garbage zero_hdrs core_reaches_upf ltac:(by repeat split)
    S s w r m AmfSmfReply.empty Hw R Hok Hm) as (s' & w' & reply & E & Hr & Hw' & R').
  exists (Smf.mk_proc s' w'), reply. split; [|split; [exact Hr | split; [exact Hw' | exact R']]].
  unfold call_AmfSmfInteraction, smf_service. rewrite Hch. by rewrite (run_bind _ _ _ _ _ E).
Qed.

(** *** Witnesses *)

Definition demo_create : AmfSmfRequest.t :=
  AmfSmfRequest.mk (deployed_guti 5) (deployed_imsi 5) 5 5 1 1 0 "" 0 1.

Lemma smf_refinement_witness :
  exists s' w' reply',
    Smf.AmfSmfInteraction core_aton smf_garbage zero_hdrs (Ret tt) demo_create AmfSmfReply.empty
      (Smf.mk_proc Smf.construct (Upf.mk_proc Upf.construct [])) =
      (Ret reply', Smf.mk_proc s' w') /\
    smf_reply (Create 5 5 1 1) reply' /\
    n4_sessions (smf_step n4_garbage_dl (Create 5 5 1 1) ∅) w' /\
    smf_repr (smf_step n4_garbage_dl (Create 5 5 1 1) ∅) s'.
Proof.
  apply (smf_refinement core_aton smf_garbage zero_hdrs core_reaches_upf ltac:(by repeat split) ∅
    Smf.construct (Upf.mk_proc Upf.construct []) (Create 5 5 1 1) demo_create AmfSmfReply.empty).
  - exact upf_repr_init.
  - split; [intros n [v Hv]; discriminate Hv | intros g c Hc; discriminate Hc].
  - split; [split; vm_compute; done | exact I].
  - by repeat split.
Defined.

Lemma smf_timeout_is_success_witness :
  exists w' reply' c,
    Smf.AmfSmfInteraction core_aton smf_garbage zero_hdrs (Ret tt) demo_create AmfSmfReply.empty
      (Smf.mk_proc Smf.construct ([] : dropped)) =
      (Ret reply', Smf.mk_proc
         (Smf.construct <| Smf.ue_ctx := <[deployed_guti 5 := c]> (Smf.ue_ctx Smf.construct) |>) w') /\
    AmfSmfReply.res reply' = true /\ AmfSmfReply.s11_cteid_upf reply' = 0 /\
    AmfSmfReply.s1_uteid_ul reply' = 0 /\ AmfSmfReply.ue_ip_addr reply' = "" /\
    Smf.s11_cteid_sgw c = 0 /\ Smf.ip_addr c = "".
Proof.
  refine (proj1 (smf_timeout_is_success core_aton smf_garbage zero_hdrs (mk_sockaddr 7000 6) eq_refl
    Smf.construct ([] : dropped) demo_create AmfSmfReply.empty _) _).
  - vm_compute. discriminate.
  - reflexivity.
Defined.
