(* ===== verification/SmfTypes.v ===== *)
(** * SmfTypes: the SMF against any UPF (src/smf.cpp, src/smf_server.cpp)

    Smf.v proves the SMF against a UPF that keeps its contract.  Here the UPF
    answers with any datagram or none, and the gRPC request is any message:
    the contexts keep to the types of their C++ declarations, what is sent is
    a packet, and the handlers stay inside their buffers unless the UPF
    announces an address that cannot be in its datagram. *)

From Stdlib Require Import ZArith Lia Ascii String.
From S2P Require Import Prelude Utils Headers Packet Network Transport PacketTypes Messages Smf.

(** ** The types *)

Record wf_ctx (c : Smf.UeContext) : Prop := mk_wf_ctx {
  wc_states : is_s32 (Smf.emm_state c) /\ is_s32 (Smf.ecm_state c);
  wc_imsi : is_u64 (Smf.imsi c);
  wc_ids : is_u32 (Smf.enodeb_s1ap_ue_id c) /\ is_u32 (Smf.mme_s1ap_ue_id c);
  wc_tai : is_u64 (Smf.tai c);
  wc_tais : Forall is_u64 (Smf.tai_list c);
  wc_tau : is_u64 (Smf.tau_timer c);
  wc_keys : is_u64 (Smf.ksi_asme c) /\ is_u64 (Smf.k_asme c) /\ is_u64 (Smf.k_nas_enc c) /\ is_u64 (Smf.k_nas_int c);
  wc_kenb : is_u64 (Smf.k_enodeb c);
  wc_algos : is_u64 (Smf.nas_enc_algo c) /\ is_u64 (Smf.nas_int_algo c);
  wc_nas : is_u64 (Smf.count c) /\ is_u64 (Smf.bearer c) /\ is_u64 (Smf.dir c);
  wc_apn : is_u64 (Smf.default_apn c);
  wc_apn_in_use : is_u64 (Smf.apn_in_use c);
  wc_bearer : is_u8 (Smf.eps_bearer_id c);
  wc_rab : is_u8 (Smf.e_rab_id c);
  wc_ul : is_u32 (Smf.s1_uteid_ul c);
  wc_dl : is_u32 (Smf.s1_uteid_dl c);
  wc_s5 : is_u32 (Smf.s5_uteid_ul c) /\ is_u32 (Smf.s5_uteid_dl c);
  wc_xres : is_u64 (Smf.xres c);
  wc_nw : is_u16 (Smf.nw_type c) /\ is_u16 (Smf.nw_capability c);
  wc_ports : is_s32 (Smf.c_upf_smf_port c) /\ is_s32 (Smf.enodeb_port c);
  wc_mme : is_u32 (Smf.s11_cteid_mme c);
  wc_sgw : is_u32 (Smf.s11_cteid_sgw c)
}.

(** What a constructor leaves unset. *)
Definition wf_garbage (garbage : Z -> Smf.UeContext) : Prop :=
  forall g, is_u64 (Smf.k_asme (garbage g)) /\ is_u64 (Smf.k_enodeb (garbage g)) /\
    is_u32 (Smf.s5_uteid_ul (garbage g)) /\ is_u32 (Smf.s5_uteid_dl (garbage g)) /\ is_s32 (Smf.enodeb_port (garbage g)).

(** The network: what was sent, and the datagram [d] that the UPF answers. *)
Definition sent : Type := list (sockaddr_in * list Z).
Definition upf_answers (d : UdpClient.datagram) : N4 sent :=
  {| n4_snd dst bs := modify (fun l => l ++ [(dst, bs)]); n4_rcv := mret d |}.

(** The contexts, the globals, and what was sent so far. *)
Record typed (p : Smf.proc sent) : Prop := mk_typed {
  ts_ctx : map_Forall (fun k c => is_u64 k /\ wf_ctx c) (Smf.ue_ctx (Smf.smf p));
  ts_ip : len (c_str (Smf.g_trafmon_ip_addr (Smf.smf p))) <= 900;
  ts_port : is_s32 (Smf.g_trafmon_port (Smf.smf p));
  ts_sent : Forall (fun x => bytes x.2 /\ len x.2 <= BUF_SIZE) (Smf.net p)
}.

(** The length of the UE's address as a create session response announces it,
    four bytes behind the GTP header and the TEID. *)
Definition announced (d : UdpClient.datagram) : Z := s32 (le_val (take 4 (drop 20 (block_of d)))).
(** The byte that says whether a modify or detach request succeeded. *)
Definition answered (d : UdpClient.datagram) : Z := le_val (take 1 (drop 16 (block_of d))).

Ltac ctx_ok :=
  intros ? []; split; cbn;
  repeat match goal with |- _ /\ _ => split end;
  first [assumption | tauto | done | apply u8_range | apply u32_range | apply u64_range | by constructor].

Section Tables.
Context (F : fault -> Prop) (HF : forall f, stops f -> F f).
Context (inet_aton : string -> option Z) (garbage : Z -> Smf.UeContext) (Hg : wf_garbage garbage) (h0 : hdrs).
Context (d : UdpClient.datagram) (Hd : bytes_in d).
#[local] Instance upf_peer : N4 sent := upf_answers d.

Lemma smf_new_ctx_wf g : wf_ctx (Smf.new_ctx garbage g).
Proof.
  destruct (Hg g) as (H1 & H2 & H3 & H4 & H5).
  split; cbn; repeat match goal with |- _ /\ _ => split end; first [done | constructor].
Qed.

Lemma smf_at_or_wf m k g :
  map_Forall (fun k c => is_u64 k /\ wf_ctx c) m -> wf_ctx (at_or (Smf.new_ctx garbage g) m k).
Proof.
  intros Hm. unfold at_or. destruct (m !! k) as [c|] eqn:E; [|apply smf_new_ctx_wf]. by destruct (Hm k c E).
Qed.

Lemma smf_get_typed {A} (Q : A -> Prop) g (f : Smf.UeContext -> A) :
  is_u64 g -> (forall c, wf_ctx c -> Q (f c)) -> triple typed F (Smf.ctx_get garbage g f) Q.
Proof.
  intros Hk Hf. eapply (triple_bind _ _ (fun _ => True)).
  - apply triple_modify. intros p [H1 H2 H3 H4]. split; try done.
    apply map_Forall_insert_2; [split; [done | by apply smf_at_or_wf] | done].
  - intros _ _. apply triple_gets. intros p Hp. by apply Hf, smf_at_or_wf, Hp.
Qed.

Lemma smf_set_typed g f :
  is_u64 g -> (forall c, wf_ctx c -> wf_ctx (f c)) -> triple typed F (Smf.ctx_set garbage g f) (fun _ => True).
Proof.
  intros Hk Hf. apply triple_modify. intros p [H1 H2 H3 H4]. split; try done.
  apply map_Forall_insert_2; [split; [done | by apply Hf, smf_at_or_wf] | done].
Qed.

Lemma trafmon_typed ip port :
  len (c_str ip) <= 900 ->
  triple typed F (modify (Smf.on_smf (W := sent) (fun s => s <| Smf.g_trafmon_ip_addr := ip |> <| Smf.g_trafmon_port := s32 port |>)))
    (fun _ => True).
Proof. intros Hs. apply triple_modify. intros p []. split; try done. apply s32_range. Qed.
Lemma trafmon_ip_read :
  triple typed F (gets (fun p : Smf.proc sent => Smf.g_trafmon_ip_addr (Smf.smf p))) (fun ip => len (c_str ip) <= 900).
Proof. apply triple_gets. intros p Hp. apply Hp. Qed.
Lemma trafmon_port_read :
  triple typed F (gets (fun p : Smf.proc sent => Smf.g_trafmon_port (Smf.smf p))) (fun _ => True).
Proof. by apply triple_gets. Qed.

(** *** The exchange *)

Lemma upf_address_typed : triple typed F (Smf.set_server (W := sent) inet_aton) (fun _ => True).
Proof.
  apply triple_lift. unfold Network.set_inet_sock_addr. destruct (inet_aton _); [done | by apply HF].
Qed.

(** A request: bytes that fit. *)
Definition request (p : Packet.t) : Prop := exists h pre, p = rd h pre [] /\ bytes pre /\ len pre <= BUF_SIZE.

Lemma n4_packet_typed its ty te :
  16 + len (enc_items its) <= BUF_SIZE -> satisfies F request (Smf.n4_packet h0 its ty te).
Proof.
  intros Hl. rewrite n4_packet_rd by done. cbv zeta. cbn [satisfies]. eexists _, _. split; [reflexivity|].
  split; [|len_lia]. apply bytes_app. split; [apply bytes_gtp | apply bytes_enc_items].
Qed.

Lemma smf_snd_typed dst p : request p -> triple typed F (Smf.snd dst p) (fun _ => True).
Proof.
  intros (h & pre & -> & Hb & Hl) [s l] [H1 H2 H3 H4].
  rewrite (smf_snd_rd dst h pre s l (l ++ [(dst, pre)])); [|unfold fits; rewrite len_nil; lia | done].
  split; [done|]. split; try done. cbn. apply Forall_app. split; [done | by constructor].
Qed.

(** What was received: the block is known, the cursor stands at [c]. *)
Definition reading (c : Z) (p : Packet.t) : Prop := held (fun _ _ => True) c p /\ Packet.data p = block_of d.

Lemma smf_rcv_typed dst p : request p -> triple typed F (Smf.rcv dst p) (reading 0).
Proof.
  intros (h & pre & -> & Hb & Hl). unfold Smf.rcv.
  eapply (triple_bind _ _ (fun q => Packet.data q = zbuf)).
  { apply triple_lift. rewrite clear_pkt_rd; [done|]. apply length_pad. rewrite app_nil_r. lia. }
  intros q Hq. eapply (triple_bind _ _ (fun x => x = d)); [by intros [s l] Hs|]. intros _ ->.
  eapply triple_bind; [apply triple_lift; rewrite Hq; apply recvfrom_typed|].
  intros [[status buf] from] E. cbn [fst snd] in E. subst buf. apply triple_ret.
  destruct (block_of_ok d Hd) as [H1 H2]. by split; [split|].
Qed.

Lemma reading_raw c n p :
  reading c p -> 0 <= c -> 0 <= n -> c + n <= BUF_SIZE ->
  satisfies F (fun x => (bytes x.1 /\ length x.1 = Z.to_nat n) /\ reading (c + n) x.2) (Packet.extract_raw p n).
Proof.
  intros [Hp E] H1 H2 H3. pose proof (extract_raw_typed F _ c n p Hp H1 H2 H3) as H.
  unfold Packet.extract_raw in *. destruct (mem_read _ _ _) as [bs|]; [|exact H]. res.
  destruct H as [Ha Hb]. split; [exact Ha|]. by split.
Qed.
Lemma reading_gtp p : reading 0 p -> satisfies F (reading 16) (Packet.extract_gtp_hdr p).
Proof.
  intros Hp. eapply satisfies_bind; [by apply (reading_raw 0 16)|]. intros [bs q] [_ [[H1 H2 H3 H4] E]]. by split; [split|].
Qed.
Lemma reading_uint32 c p :
  reading c p -> 0 <= c -> c + 4 <= BUF_SIZE ->
  satisfies F (fun x => is_u32 x.1 /\ reading (c + 4) x.2) (Packet.extract_item_uint32 p).
Proof.
  intros. eapply satisfies_bind; [by apply (reading_raw c 4)|]. intros [bs q] [[Hb Hl] Hq]. cbn [fst snd] in *.
  split; [|done]. pose proof (le_val_range bs Hb) as H'. by rewrite Hl in H'.
Qed.
Lemma reading_bool p :
  (answered d <> 0 -> answered d <> 1 -> F Packet.bad_bool) -> reading 16 p ->
  satisfies F (fun x => True /\ reading 17 x.2) (Packet.extract_item_bool p).
Proof.
  intros HB Hp. pose proof (reading_raw 16 1 p Hp ltac:(lia) ltac:(lia) ltac:(unfold BUF_SIZE; lia)) as H.
  unfold Packet.extract_item_bool, Packet.extract_raw in *. destruct Hp as [[_ _ Hc _] E]. rewrite Hc, E in *.
  unfold mem_read in *. destruct (in_bounds _ _ _); [|exact H]. res. destruct H as [_ H].
  change (take (Z.to_nat 1) (drop (Z.to_nat 16) (block_of d))) with (take 1 (drop 16 (block_of d))). fold (answered d).
  destruct (bool_of_cases (answered d)) as [[-> _]|[[-> _]|[-> [? ?]]]]; [by split | by split | by apply HB].
Qed.

(** The address in a create session response, and the TEID behind it. *)
Lemma answer_address_typed p :
  announced d <= 996 -> reading 20 p ->
  satisfies F (fun x => 0 <= announced d /\ held (fun _ _ => True) (24 + announced d) x.2) (Packet.extract_item_string p).
Proof.
  intros Ha [Hp E]. apply (extract_string_bounded F _ 20 p); try done.
  - intros msg. by apply HF.
  - by rewrite E.
  - unfold BUF_SIZE. lia.
Qed.
End Tables.

(** ** The handlers *)

Section Handlers.
Context (inet_aton : string -> option Z) (garbage : Z -> Smf.UeContext) (Hg : wf_garbage garbage) (h0 : hdrs).
Context (d : UdpClient.datagram) (Hd : bytes_in d).
#[local] Instance upf_server : N4 sent := upf_answers d.

(** How a request of type [ty] can stop. *)
Definition smf_stops (ty : Z) (f : fault) : Prop :=
  stops f \/ (ty = 1 /\ 996 < announced d) \/
  (f = Packet.bad_bool /\ (ty = 2 \/ ty = 3) /\ answered d <> 0 /\ answered d <> 1).

Lemma smf_stops_ok ty f : stops f -> smf_stops ty f.
Proof. by left. Qed.

Lemma response_string p :
  reading d 20 p ->
  satisfies (smf_stops 1)
    (fun x => exists c, 0 <= c /\ held (fun _ _ => True) c x.2 /\ (c + 4 <= BUF_SIZE \/ 996 < announced d))
    (Packet.extract_item_string p).
Proof.
  intros Hp. destruct (decide (announced d <= 996)) as [Ha|Ha].
  - eapply satisfies_mono; [apply (answer_address_typed (smf_stops 1) (smf_stops_ok 1) d); done | done |].
    intros x [H1 H2]. exists (24 + announced d). split; [lia|]. split; [done|]. left. unfold BUF_SIZE. lia.
  - eapply satisfies_mono; [apply (extract_string_typed (fun _ _ => True) 20 p); [apply Hp | lia] | |].
    + intros f _. right. left. split; [done | lia].
    + intros x (c & H1 & H2). exists c. split; [done|]. split; [done|]. right. lia.
Qed.

Lemma response_teid c p :
  0 <= c -> held (fun _ _ => True) c p -> c + 4 <= BUF_SIZE \/ 996 < announced d ->
  satisfies (smf_stops 1) (fun x => is_u32 x.1 /\ held (fun _ _ => True) (c + 4) x.2) (Packet.extract_item_uint32 p).
Proof.
  intros H1 Hp [Hc|Ha]; [by apply extract_uint32_typed|].
  eapply satisfies_mono; [by apply (extract_uint32_anywhere (fun _ _ => True) c p) | | done].
  intros f _. right. by left.
Qed.

Lemma guard_zero F (b : bool) msg :
  (forall f, stops f -> F f) ->
  triple typed F (if b then lift (Utils.handle_type1_error (-1) msg) else mret tt) (fun _ => True).
Proof. intros HF. destruct b; [by apply triple_lift, HF | by apply triple_ret]. Qed.

(** A member of a context, by its type. *)
Ltac ctx_read HF :=
  let by_type Q := (apply (smf_get_typed _ garbage Hg Q); [apply u64_range | intros ? []; tauto]) in
  first [by_type is_u64 | by_type is_u32 | by_type is_u8].

#[local] Hint Resolve smf_stops_ok : triple.
#[local] Hint Extern 1 (_ <= _) =>
  (cbn [enc_items enc_item]; rewrite ?len_app; unfold len in *; rewrite ?length_le_bytes; unfold BUF_SIZE in *;
   cbn [length] in *; lia) : triple.
#[local] Hint Extern 1 (triple _ _ (if _ then lift _ else _) _) => (apply guard_zero, smf_stops_ok) : triple.
#[local] Hint Extern 1 (triple _ _ (Smf.ctx_get _ _ _) _) => ctx_read tt : triple.
#[local] Hint Extern 1 (triple _ _ (Smf.ctx_set _ _ _) _) =>
  (apply smf_set_typed; [exact Hg | apply u64_range | ctx_ok]) : triple.
#[local] Hint Extern 1 (triple _ _ (Smf.set_server _) _) => (apply upf_address_typed, smf_stops_ok) : triple.
#[local] Hint Extern 1 (triple _ _ (Smf.snd _ _) _) => (apply smf_snd_typed; assumption) : triple.
#[local] Hint Extern 1 (triple _ _ (Smf.rcv _ _) _) => (apply smf_rcv_typed; assumption) : triple.
#[local] Hint Extern 1 (triple _ _ (modify _) _) => (apply trafmon_typed; assumption) : triple.
#[local] Hint Extern 1 (triple _ _ (gets (fun p => Smf.g_trafmon_ip_addr _)) _) => apply trafmon_ip_read : triple.
#[local] Hint Extern 1 (triple _ _ (gets (fun p => Smf.g_trafmon_port _)) _) => apply trafmon_port_read : triple.
#[local] Hint Extern 2 (triple _ _ (lift _) _) => apply triple_lift : triple.
#[local] Hint Resolve n4_packet_typed reading_gtp response_string response_teid : triple.
#[local] Hint Extern 1 (satisfies _ _ (Packet.extract_item_bool _)) =>
  (eapply reading_bool; [intros ? ?; right; right; split; [done | split; [auto | by split]] | eassumption]) : triple.
#[local] Hint Extern 2 (satisfies _ _ (Packet.extract_item_uint32 _)) =>
  (eapply reading_uint32; [eassumption | lia | unfold BUF_SIZE; lia]) : triple.
#[local] Hint Extern 1 (satisfies _ _ (Packet.clear_pkt _)) =>
  (eapply clear_typed, ac_data; first [eassumption | match goal with H : reading _ _ _ |- _ => exact (proj1 H) end]) : triple.

Lemma create_session_typed m reply :
  triple typed (smf_stops 1) (Smf.handle_create_session inet_aton garbage h0 m reply) (fun _ => True).
Proof. unfold Smf.handle_create_session. triple_tac; done. Qed.

Lemma modify_request_typed m reply :
  len (c_str (AmfSmfRequest.g_trafmon_ip_addr m)) <= 900 ->
  triple typed (smf_stops 2) (Smf.handle_modify_bearer inet_aton garbage h0 m reply) (fun _ => True).
Proof. intros Hs. unfold Smf.handle_modify_bearer. triple_tac; done. Qed.

Lemma detach_request_typed m reply :
  triple typed (smf_stops 3) (Smf.handle_detach inet_aton garbage h0 m reply) (fun _ => True).
Proof. unfold Smf.handle_detach. triple_tac; done. Qed.

(** C17: the SMF is type and memory safe against any UPF: whatever the fields
    of a request of the AMF (with an address of at most 900 bytes), and
    whatever datagram the UPF answers, if any, the contexts keep to the types
    of their C++ members and what was sent is bytes that fit a packet.  The
    handler returns, or the process stops by an exit or a C++ exception;
    undefined behaviour needs a create session response that announces an
    address of more than 996 bytes, or a response to a modify or detach request
    whose byte for the result is neither 0 nor 1 and so no value of a [bool]. *)
Theorem smf_memory_safe bind m reply p :
  satisfies stops (fun _ => True) bind -> len (c_str (AmfSmfRequest.g_trafmon_ip_addr m)) <= 900 -> typed p ->
  let '(r, p') := Smf.AmfSmfInteraction inet_aton garbage h0 bind m reply p in
  typed p' /\
  match r with
  | Ret _ => True
  | Fault f =>
      stops f \/ (AmfSmfRequest.msg_type m = 1 /\ 996 < announced d) \/
      (f = Packet.bad_bool /\ (AmfSmfRequest.msg_type m = 2 \/ AmfSmfRequest.msg_type m = 3) /\
       answered d <> 0 /\ answered d <> 1)
  end.
Proof.
  intros Hb Hs Hp.
  assert (triple typed (smf_stops (AmfSmfRequest.msg_type m))
    (Smf.AmfSmfInteraction inet_aton garbage h0 bind m reply) (fun _ => True)) as HT.
  { unfold Smf.AmfSmfInteraction. eapply (triple_bind _ _ (fun _ => True)).
    - apply triple_lift. eapply satisfies_mono; [exact Hb | apply smf_stops_ok | done].
    - intros _ _. destruct (AmfSmfRequest.msg_type m) as [|[[?|?|]|[?|?|]|]|?]; try (by apply triple_ret).
      + apply detach_request_typed.
      + by apply modify_request_typed.
      + apply create_session_typed. }
  destruct (HT p Hp) as [H1 H2]. by destruct (Smf.AmfSmfInteraction _ _ _ _ _ _ _) as [[r|f] p'].
Qed.
End Handlers.

(** ** Witnesses *)

(** The longest address an answer may announce. *)
Definition demo_answer : UdpClient.datagram := UdpClient.Got (mk_sockaddr 7000 6) (replicate 20 0 ++ le_bytes 4 996).
Definition demo_create : AmfSmfRequest.t :=
  AmfSmfRequest.empty <| AmfSmfRequest.guti := 1111119000000001 |> <| AmfSmfRequest.msg_type := 1 |>.

Lemma demo_answer_ok : bytes_in demo_answer.
Proof. apply bytes_app. split; [apply Forall_replicate; by split | apply bytes_le_bytes]. Qed.
Lemma smf_construct_typed : typed (Smf.mk_proc Smf.construct []).
Proof. split; cbn; [apply map_Forall_empty | done | by split | constructor]. Qed.
Lemma smf_garbage_wf : wf_garbage smf_garbage.
Proof. intros g. repeat split; done. Qed.

Lemma smf_memory_safe_witness :
  let '(r, p') := Smf.AmfSmfInteraction (NET := upf_answers demo_answer) core_aton smf_garbage zero_hdrs (Ret tt)
    demo_create AmfSmfReply.empty (Smf.mk_proc Smf.construct []) in
  typed p' /\ match r with Fault f => stops f | Ret reply => AmfSmfReply.res reply = true end.
Proof.
  pose proof (smf_memory_safe core_aton smf_garbage smf_garbage_wf zero_hdrs demo_answer demo_answer_ok (Ret tt)
    demo_create AmfSmfReply.empty (Smf.mk_proc Smf.construct []) I ltac:(done) smf_construct_typed) as H.
  assert (AmfSmfReply.res match (Smf.AmfSmfInteraction (NET := upf_answers demo_answer) core_aton smf_garbage zero_hdrs
    (Ret tt) demo_create AmfSmfReply.empty (Smf.mk_proc Smf.construct [])).1 with Ret x => x | Fault _ => AmfSmfReply.empty end = true)
    as E by (vm_compute; reflexivity).
  destruct (Smf.AmfSmfInteraction _ _ _ _ _ _ _) as [[reply|f] p']; destruct H as [H1 H2]; (split; [exact H1|]).
  - exact E.
  - discriminate E.
Defined.
