(* ===== verification/SmfThreads.v ===== *)
(** * SmfThreads: the threads of the SMF (src/smf.cpp, src/smf_server.cpp)

    The gRPC servers of the SMF run a handler in a thread for each request;
    the threads share the table of contexts, which a mutex protects, and the
    globals [g_trafmon_ip_addr] and [g_trafmon_port], which nothing protects.
    Here are the handlers of Smf.v again, cut where the code takes and releases
    the mutex and where it accesses shared state without it: the globals, and
    the table itself, which a create request reads five times after it has
    given the mutex back.  Such an access takes two turns and may race.  Each
    thread has its own socket: the datagram that arrives on it is an argument. *)

From Stdlib Require Import ZArith Lia Ascii String.
From S2P Require Import Prelude Utils Threads Telecom Headers Packet Network Transport Datagrams Messages Upf Smf.

Module SmfShared.
Import Smf.

(** An entry of the table, and the two globals. *)
Inductive cell := Ctx (guti : Z) | TrafIp | TrafPort.
#[global] Instance cell_eq_dec : EqDecision cell.
Proof. solve_decision. Defined.

Definition val (c : cell) : Type :=
  match c with Ctx _ => option UeContext | TrafIp => string | TrafPort => Z end.

Definition get (c : cell) (s : Smf.t) : val c :=
  match c with
  | Ctx k => ue_ctx s !! k
  | TrafIp => g_trafmon_ip_addr s
  | TrafPort => g_trafmon_port s
  end.

Definition put (c : cell) : val c -> Smf.t -> Smf.t :=
  match c return val c -> Smf.t -> Smf.t with
  | Ctx k => fun v s => s <| ue_ctx := partial_alter (fun _ => v) k (ue_ctx s) |>
  | TrafIp => fun v s => s <| g_trafmon_ip_addr := v |>
  | TrafPort => fun v s => s <| g_trafmon_port := v |>
  end.

(** The table, and the two variables; an entry of the table comes or goes. *)
Definition place (c : cell) : nat := match c with Ctx _ => 0 | TrafIp => 1 | TrafPort => 2 end.
Definition changes_shape (c : cell) : val c -> val c -> bool :=
  match c with Ctx _ => comes_or_goes | TrafIp | TrafPort => fun _ _ => false end.

#[global] Instance smf_store : Store Smf.t := {
  Threads.cell := cell; Threads.val := val; Threads.get := get; Threads.put := put;
  Threads.object := place; Threads.reshapes := changes_shape
}.

#[global] Instance smf_store_laws : StoreLaws Smf.t.
Proof.
  split.
  - intros [k| |] v s; cbn; [by rewrite lookup_partial_alter_eq | done | done].
  - intros [k| |] [k'| |] v s N; cbn; try done. rewrite lookup_partial_alter_ne by congruence. done.
  - intros [c ip port] [c' ip' port'] H. pose proof (fun k => H (Ctx k)) as H1.
    pose proof (H TrafIp) as H2. pose proof (H TrafPort) as H3. cbn in *. f_equal; [by apply map_eq | done | done].
  - intros [k| |] v; [apply comes_or_goes_id | done | done].
Qed.

Abbreviation scode := (code (T := Smf.t) (sockaddr_in * list Z)).

Section Handlers.
Context (inet_aton : string -> option Z) (garbage : Z -> UeContext) (h0 : hdrs).
Context (d : UdpClient.datagram).

(** An access that reads [g] of the context after [f]; [operator[]] inserts a
    missing one.  A critical section that writes, one that only reads, and a
    read of the table without the mutex. *)
Definition ctx_access {A} (m : mode) (guti : Z) (f : UeContext -> UeContext) (g : UeContext -> A) : scode A :=
  access (T := Smf.t) m (Ctx guti) (fun v : val (Ctx guti) =>
    let c := f (default (new_ctx garbage guti) v) in (Ret (g c), Some c)).
Definition on_ctx {A} (guti : Z) (f : UeContext -> UeContext) (g : UeContext -> A) : scode A :=
  ctx_access (Locked true) guti f g.
Definition read_ctx {A} (guti : Z) (g : UeContext -> A) : scode A := ctx_access (Locked false) guti (fun c => c) g.
Definition bare_read_ctx {A} (guti : Z) (g : UeContext -> A) : scode A :=
  ctx_access (Bare false false) guti (fun c => c) g.

(** An assignment to a global, and a look at it; there is no mutex. *)
Definition assign (c : cell) (v : val c) : scode unit := bare_write (T := Smf.t) c (fun _ => (Ret tt, v)).
Definition look (c : cell) : scode (val c) := bare_read (T := Smf.t) c (fun v : val c => (Ret v, v)).

Definition set_server : result sockaddr_in :=
  Network.set_inet_sock_addr inet_aton g_upf_smf_ip_addr g_upf_smf_port.
Definition snd (dst : sockaddr_in) (pkt : Packet.t) : scode unit := send dst pkt.
Definition rcv (dst : sockaddr_in) (pkt : Packet.t) : result Packet.t :=
  pkt ← Packet.clear_pkt pkt;
  '(status, buf, _) ← UdpClient.recvfrom (Packet.data pkt) dst d;
  mret (pkt <| Packet.data := buf |> <| Packet.data_ptr := 0 |> <| Packet.plen := status |>).

(** [Smf::handle_create_session]: the five reads between the sections are made
    without the mutex. *)
Definition handle_create_session (request : AmfSmfRequest.t) (reply : AmfSmfReply.t) : scode AmfSmfReply.t :=
  let guti := u64 (AmfSmfRequest.guti request) in
  _ ← Finish (if guti =? 0 then Utils.handle_type1_error (-1) "Zero guti: smf_handlecreatesession" else mret tt);
  let r_imsi := u64 (AmfSmfRequest.imsi request) in
  let r_mme := u32 (AmfSmfRequest.s11_cteid_amf request) in
  let r_ebi := u8 (AmfSmfRequest.eps_bearer_id request) in
  let r_apn := u64 (AmfSmfRequest.apn_in_use request) in
  let r_tai := u64 (AmfSmfRequest.tai request) in
  _ ← on_ctx guti (fun c => c <| s11_cteid_mme := r_mme |> <| eps_bearer_id := r_ebi |>
                              <| imsi := r_imsi |> <| apn_in_use := r_apn |> <| tai := r_tai |>) (fun _ => tt);
  r_mme ← bare_read_ctx guti s11_cteid_mme;
  r_ebi ← bare_read_ctx guti eps_bearer_id;
  r_imsi ← bare_read_ctx guti imsi;
  r_apn ← bare_read_ctx guti apn_in_use;
  r_tai ← bare_read_ctx guti tai;
  dst ← Finish set_server;
  pkt ← Finish (n4_packet h0 [IU32 r_mme; IU64 r_imsi; IU8 r_ebi; IU64 r_apn; IU64 r_tai] 1 0);
  _ ← snd dst pkt;
  pkt ← Finish (rcv dst pkt);
  pkt ← Finish (Packet.extract_gtp_hdr pkt);
  '(sgw, pkt) ← Finish (Packet.extract_item_uint32 pkt);
  '(ue_ip, pkt) ← Finish (Packet.extract_item_string pkt);
  '(ul, pkt) ← Finish (Packet.extract_item_uint32 pkt);
  c ← on_ctx guti (fun c => c <| ip_addr := ue_ip |> <| s11_cteid_sgw := sgw |>
                              <| s1_uteid_ul := ul |> <| tai_list := [tai c] |>
                              <| tau_timer := g_timer |> <| e_rab_id := eps_bearer_id c |>) (fun c => c);
  _ ← Finish (Packet.clear_pkt pkt);
  mret (reply <| AmfSmfReply.guti := s64 guti |>
              <| AmfSmfReply.eps_bearer_id := s32 r_ebi |>
              <| AmfSmfReply.e_rab_id := s32 (e_rab_id c) |>
              <| AmfSmfReply.s1_uteid_ul := s32 ul |>
              <| AmfSmfReply.s11_cteid_upf := s32 sgw |>
              <| AmfSmfReply.k_enodeb := s64 (k_enodeb c) |>
              <| AmfSmfReply.tai_list_size := 1 |>
              <| AmfSmfReply.tau_timer := s64 (tau_timer c) |>
              <| AmfSmfReply.ue_ip_addr := ue_ip |>
              <| AmfSmfReply.g_upf_s1_ip_addr := upf_s1_ip_addr |>
              <| AmfSmfReply.g_upf_s1_port := upf_s1_port |>
              <| AmfSmfReply.res := true |>).

(** [Smf::handle_modify_bearer]: the globals are assigned before and read
    after the critical section, without the mutex. *)
Definition handle_modify_bearer (request : AmfSmfRequest.t) (reply : AmfSmfReply.t) : scode AmfSmfReply.t :=
  let guti := u64 (AmfSmfRequest.guti request) in
  _ ← Finish (if guti =? 0 then Utils.handle_type1_error (-1) "Zero guti: smf_handlemodifybearer" else mret tt);
  _ ← assign TrafIp (AmfSmfRequest.g_trafmon_ip_addr request);
  _ ← assign TrafPort (s32 (AmfSmfRequest.g_trafmon_port request));
  dst ← Finish set_server;
  '(r_ebi, r_dl, r_sgw) ← read_ctx guti (fun c => (eps_bearer_id c, s1_uteid_dl c, s11_cteid_sgw c));
  ip ← look TrafIp;
  port ← look TrafPort;
  pkt ← Finish (n4_packet h0 [IU8 r_ebi; IU32 r_dl; IStr ip; IInt port] 2 r_sgw);
  _ ← snd dst pkt;
  pkt ← Finish (rcv dst pkt);
  pkt ← Finish (Packet.extract_gtp_hdr pkt);
  '(res, pkt) ← Finish (Packet.extract_item_bool pkt);
  if (res : bool) then mret (reply <| AmfSmfReply.res := true |>) else mret reply.

(** [Smf::handle_detach] *)
Definition handle_detach (request : AmfSmfRequest.t) (reply : AmfSmfReply.t) : scode AmfSmfReply.t :=
  let guti := u64 (AmfSmfRequest.guti request) in
  _ ← Finish (if guti =? 0 then Utils.handle_type1_error (-1) "Zero guti: smf_handledetach" else mret tt);
  let r_ebi := u8 (AmfSmfRequest.eps_bearer_id request) in
  let r_tai := u64 (AmfSmfRequest.tai request) in
  dst ← Finish set_server;
  r_sgw ← read_ctx guti s11_cteid_sgw;
  pkt ← Finish (n4_packet h0 [IU8 r_ebi; IU64 r_tai] 3 r_sgw);
  _ ← snd dst pkt;
  pkt ← Finish (rcv dst pkt);
  pkt ← Finish (Packet.extract_gtp_hdr pkt);
  '(res, pkt) ← Finish (Packet.extract_item_bool pkt);
  if (res : bool) then
    _ ← Finish (Packet.clear_pkt pkt);
    mret (reply <| AmfSmfReply.res := true |>)
  else mret reply.

(** [GreeterServiceImpl::AmfSmfInteraction] *)
Definition AmfSmfInteraction (bind : result unit) (request : AmfSmfRequest.t) (reply : AmfSmfReply.t)
  : scode AmfSmfReply.t :=
  _ ← Finish bind;
  match AmfSmfRequest.msg_type request with
  | 1 => handle_create_session request reply
  | 2 => handle_modify_bearer request reply
  | 3 => handle_detach request reply
  | _ => mret reply
  end.
End Handlers.
End SmfShared.

(** ** Alone, they are the handlers of Smf.v *)

(** The wire of one thread: what was sent is kept, and [d] arrives. *)
Definition wire : Type := list (sockaddr_in * list Z).
Definition once (d : UdpClient.datagram) : N4 wire := {|
  n4_snd a bs := modify (fun w => w ++ [(a, bs)]);
  n4_rcv := mret d
|}.

#[export] Instance smf_process : Process Smf.t (sockaddr_in * list Z) (Smf.proc wire) := {
  view := Smf.smf;
  advance s es p := Smf.mk_proc s (Smf.net p ++ es)
}.
#[export] Instance smf_process_laws : ProcessLaws Smf.t (sockaddr_in * list Z) (Smf.proc wire).
Proof.
  split; [done | |].
  - intros t t' es es' p. cbn. by rewrite app_assoc.
  - intros [s w]. cbn. by rewrite app_nil_r.
Qed.

Lemma smf_access {B} m (c : SmfShared.cell) (f : SmfShared.val c -> result B * SmfShared.val c)
    (p : prog (Smf.proc wire) B) :
  (forall s w, p (Smf.mk_proc s w) =
     ((f (SmfShared.get c s)).1, Smf.mk_proc (SmfShared.put c (f (SmfShared.get c s)).2 s) w)) ->
  alike (access (T := Smf.t) m c f) p.
Proof. intros H. apply alike_access. intros [s w]. rewrite H. cbn. by rewrite app_nil_r. Qed.

Section Alike.
Context (inet_aton : string -> option Z) (garbage : Z -> Smf.UeContext) (h0 : hdrs).
Context (d : UdpClient.datagram).
#[local] Instance wire_n4 : N4 wire := once d.

Lemma alike_assign guti f :
  alike (SmfShared.on_ctx garbage guti f (fun _ => tt)) (Smf.ctx_set garbage guti f : prog (Smf.proc wire) unit).
Proof. apply smf_access. by intros [ctx ip port] w. Qed.
Lemma alike_read {A} m guti (g : Smf.UeContext -> A) :
  alike (SmfShared.ctx_access garbage m guti (fun c => c) g) (Smf.ctx_get garbage guti g : prog (Smf.proc wire) A).
Proof.
  apply smf_access. intros [ctx ip port] w. unfold Smf.ctx_get, gets. run. smf_st. by rewrite at_or_touch.
Qed.
Lemma alike_server : alike (Finish (SmfShared.set_server inet_aton)) (Smf.set_server inet_aton : prog (Smf.proc wire) _).
Proof. apply alike_finish. Qed.
Lemma alike_smf_snd dst p : alike (SmfShared.snd dst p) (Smf.snd dst p : prog (Smf.proc wire) _).
Proof.
  apply alike_bind; [apply alike_finish | intros q]. apply alike_bind; [apply alike_finish | intros bs].
  by intros [s w].
Qed.
Lemma alike_rcv dst p : alike (Finish (SmfShared.rcv d dst p)) (Smf.rcv dst p : prog (Smf.proc wire) _).
Proof.
  intros [s w]. unfold as_prog, SmfShared.rcv, Smf.rcv, Smf.on_net.
  destruct (Packet.clear_pkt p) as [q|f]; [|by cbn; rewrite app_nil_r]. res.
  erewrite run_lift, run_bind by reflexivity. cbn [exec view smf_process Smf.smf advance Smf.net]. rewrite app_nil_r.
  by destruct (UdpClient.recvfrom (Packet.data q) dst d) as [[[st buf] a]|f].
Qed.

(** By the statement of the sequential handler. *)
Ltac alike_stmt :=
  lazymatch goal with
  | |- alike _ (lift _) => apply alike_finish
  | |- alike _ (mret _) => apply alike_ret
  | |- alike _ (if _ then lift _ else mret tt) => apply alike_check
  | |- alike _ (Smf.ctx_set _ _ _) => apply alike_assign
  | |- alike _ (Smf.ctx_get _ _ _) => apply alike_read
  | |- alike _ (Smf.set_server _) => apply alike_server
  | |- alike _ (Smf.snd _ _) => apply alike_smf_snd
  | |- alike _ (Smf.rcv _ _) => apply alike_rcv
  end.
Ltac alike_smf :=
  repeat first
    [ progress cbv zeta
    | alike_stmt
    | lazymatch goal with
      | |- alike (match ?x with (_, _) => _ end) _ => destruct x
      | |- alike (if ?b then _ else _) _ => destruct b
      end
    | apply alike_bind; [solve [alike_stmt] | intros ?] ].

(** A section that changes the context and reads it; a section that reads
    three members. *)
Lemma alike_update {A} guti f (g : Smf.UeContext -> A) :
  alike (SmfShared.on_ctx garbage guti f g)
        (_ ← Smf.ctx_set garbage guti f; Smf.ctx_get garbage guti g : prog (Smf.proc wire) A).
Proof.
  apply smf_access. intros [ctx ip port] w. unfold Smf.ctx_get, gets. rewrite ctx_set_run. run. smf_st.
  by autorewrite with omap.
Qed.

Lemma alike_update_reads {A X Y Z} guti f (g1 : Smf.UeContext -> X) (g2 : Smf.UeContext -> Y) (g3 : Smf.UeContext -> Z)
    (k : Smf.UeContext -> SmfShared.scode A) (k' : X -> Y -> Z -> prog (Smf.proc wire) A) :
  (forall c, alike (k c) (k' (g1 c) (g2 c) (g3 c))) ->
  alike (c ← SmfShared.on_ctx garbage guti f (fun c => c); k c)
        (_ ← Smf.ctx_set garbage guti f; x ← Smf.ctx_get garbage guti g1; y ← Smf.ctx_get garbage guti g2;
         z ← Smf.ctx_get garbage guti g3; k' x y z).
Proof.
  intros H. eapply (alike_regroup _ _ _ (fun c => k' (g1 c) (g2 c) (g3 c))); [apply alike_update | exact H |].
  intros [[ctx ip port] w]. rewrite run_assoc, !ctx_set_run, !ctx_get_run. by autorewrite with omap.
Qed.
Lemma alike_read3 {A X Y Z} guti (g1 : Smf.UeContext -> X) (g2 : Smf.UeContext -> Y) (g3 : Smf.UeContext -> Z)
    (k : X * Y * Z -> SmfShared.scode A) (k' : X -> Y -> Z -> prog (Smf.proc wire) A) :
  (forall x y z, alike (k (x, y, z)) (k' x y z)) ->
  alike (x ← SmfShared.read_ctx garbage guti (fun c => (g1 c, g2 c, g3 c)); k x)
        (x ← Smf.ctx_get garbage guti g1; y ← Smf.ctx_get garbage guti g2; z ← Smf.ctx_get garbage guti g3; k' x y z).
Proof.
  intros H. eapply (alike_regroup _ _ _ (fun '(x, y, z) => k' x y z)); [apply alike_read | by intros [[x y] z] |].
  intros [[ctx ip port] w]. rewrite !ctx_get_run. by autorewrite with omap.
Qed.

(** The globals. *)
Lemma alike_globals {A} ip port (k : unit -> SmfShared.scode A) (k' : unit -> prog (Smf.proc wire) A) :
  (forall u, alike (k u) (k' u)) ->
  alike (_ ← SmfShared.assign SmfShared.TrafIp ip; x ← SmfShared.assign SmfShared.TrafPort port; k x)
        (x ← modify (Smf.on_smf (fun s => s <| Smf.g_trafmon_ip_addr := ip |> <| Smf.g_trafmon_port := port |>)); k' x).
Proof. apply alike_split. intros [s w]. unfold as_prog. cbn. by rewrite app_nil_r. Qed.
Lemma alike_look_ip : alike (SmfShared.look SmfShared.TrafIp)
  (gets (fun s : Smf.proc wire => Smf.g_trafmon_ip_addr (Smf.smf s))).
Proof. by apply alike_look. Qed.
Lemma alike_look_port : alike (SmfShared.look SmfShared.TrafPort)
  (gets (fun s : Smf.proc wire => Smf.g_trafmon_port (Smf.smf s))).
Proof. by apply alike_look. Qed.

Lemma smf_alike_create m reply :
  alike (SmfShared.handle_create_session inet_aton garbage h0 d m reply)
        (Smf.handle_create_session inet_aton garbage h0 m reply).
Proof.
  unfold SmfShared.handle_create_session, Smf.handle_create_session. alike_smf.
  apply (alike_update_reads _ _ Smf.e_rab_id Smf.k_enodeb Smf.tau_timer). intros c. alike_smf.
Qed.

Lemma smf_alike_modify m reply :
  alike (SmfShared.handle_modify_bearer inet_aton garbage h0 d m reply)
        (Smf.handle_modify_bearer inet_aton garbage h0 m reply).
Proof.
  unfold SmfShared.handle_modify_bearer, Smf.handle_modify_bearer. alike_smf.
  apply alike_globals. intros ?. alike_smf. apply alike_read3. intros x y z.
  apply alike_bind; [apply alike_look_ip | intros ip]. apply alike_bind; [apply alike_look_port | intros port].
  alike_smf.
Qed.

Lemma smf_alike_detach m reply :
  alike (SmfShared.handle_detach inet_aton garbage h0 d m reply)
        (Smf.handle_detach inet_aton garbage h0 m reply).
Proof. unfold SmfShared.handle_detach, Smf.handle_detach. alike_smf. Qed.

Lemma alike_interaction bind m reply :
  alike (SmfShared.AmfSmfInteraction inet_aton garbage h0 d bind m reply)
        (Smf.AmfSmfInteraction inet_aton garbage h0 bind m reply).
Proof.
  apply alike_bind; [apply alike_finish | intros ?].
  repeat match goal with |- alike (match ?z with _ => _ end) _ => destruct z end;
    first [apply smf_alike_create | apply smf_alike_modify | apply smf_alike_detach | apply alike_ret].
Qed.
End Alike.

(** ** What a request touches *)

(** By the type of the request: a create request makes the context of the
    subscriber and reads the table without the mutex; a modify request reads it
    and uses the globals; a detach request reads it. *)
Definition smf_foot (m : AmfSmfRequest.t) : footprint Smf.t :=
  let c := SmfShared.Ctx (u64 (AmfSmfRequest.guti m)) in
  match AmfSmfRequest.msg_type m with
  | 1 => mk_footprint [] [c] [0%nat] []
  | 2 => mk_footprint [c] [SmfShared.TrafIp; SmfShared.TrafPort] [1; 2]%nat [1; 2]%nat
  | _ => mk_footprint [c] [] [] []
  end.

Section Footprints.
Context (inet_aton : string -> option Z) (garbage : Z -> Smf.UeContext) (h0 : hdrs).
Context (d : UdpClient.datagram) (bind : result unit) (m : AmfSmfRequest.t) (reply : AmfSmfReply.t).

Let c : SmfShared.cell := SmfShared.Ctx (u64 (AmfSmfRequest.guti m)).

(** The accesses to the context. *)
Lemma smf_on_ctx ft s f {X A} (g : Smf.UeContext -> X) (k : X -> SmfShared.scode A) :
  c ∈ writes ft -> (forall x s', is_Some (SmfShared.get c s') -> within (T := Smf.t) ft (k x) s') ->
  within (T := Smf.t) ft (x ← SmfShared.on_ctx garbage (u64 (AmfSmfRequest.guti m)) f g; k x) s.
Proof.
  intros Hc Hk. apply within_access; [by apply allowed_writes|]. intros x _. apply Hk.
  rewrite (@get_put Smf.t _ SmfShared.smf_store_laws). by eexists.
Qed.
Lemma smf_read_ctx ft s md {X A} (g : Smf.UeContext -> X) (k : X -> SmfShared.scode A) :
  (forall v, allowed ft md c v v) -> is_Some (SmfShared.get c s) -> (forall x, within (T := Smf.t) ft (k x) s) ->
  within (T := Smf.t) ft (x ← SmfShared.ctx_access garbage md (u64 (AmfSmfRequest.guti m)) (fun c => c) g; k x) s.
Proof.
  intros Hm [v Hv] Hk. change (@Threads.get Smf.t SmfShared.smf_store c s = Some v) in Hv. unfold c in *.
  apply within_access; rewrite Hv; [apply Hm|]. intros x _. cbn [fst snd default from_option id].
  rewrite <- Hv, put_get. apply Hk.
Qed.
Lemma smf_assign ft s x v {A} (k : unit -> SmfShared.scode A) :
  x ∈ writes ft -> SmfShared.place x ∈ bare_writes ft ->
  x <> c -> is_Some (SmfShared.get c s) ->
  (forall s', is_Some (SmfShared.get c s') -> within (T := Smf.t) ft (k tt) s') ->
  within (T := Smf.t) ft (x ← SmfShared.assign x v; k x) s.
Proof.
  intros H1 H2 N Hs Hk. apply within_access; [by apply allowed_bare_write|]. intros [] _. apply Hk.
  by rewrite (@get_put_ne Smf.t _ SmfShared.smf_store_laws).
Qed.
Lemma smf_look ft s x {A} (k : SmfShared.val x -> SmfShared.scode A) :
  x ∈ writes ft -> SmfShared.place x ∈ bare_reads ft ->
  (forall v, within (T := Smf.t) ft (k v) s) -> within (T := Smf.t) ft (y ← SmfShared.look x; k y) s.
Proof.
  intros H1 H2 Hk. apply within_access; cbn [fst snd].
  - split; [by left|]. by rewrite (@reshapes_id Smf.t _ SmfShared.smf_store_laws).
  - intros v _. rewrite put_get. apply Hk.
Qed.

Ltac smf_mode :=
  cbn [reads writes bare_reads bare_writes]; first
    [ apply allowed_reads; cbn; set_solver
    | split; [left; cbn; set_solver | rewrite (@reshapes_id Smf.t _ SmfShared.smf_store_laws); cbn; set_solver] ].
Ltac smf_within :=
  repeat lazymatch goal with
  | |- within _ (Finish _) _ => exact I
  | |- within _ (mret _) _ => exact I
  | |- within _ (mbind _ (Finish _)) _ => apply within_finish; intros ? _
  | |- within _ (mbind _ (SmfShared.snd _ _)) _ => apply within_bind; [apply send_within | intros ? _]
  | |- within _ (mbind _ (SmfShared.on_ctx _ _ _ _)) _ => apply smf_on_ctx; [cbn; set_solver | intros ? ? ?]
  | |- within _ (mbind _ (SmfShared.read_ctx _ _ _)) _ => apply smf_read_ctx; [intros ?; smf_mode | eassumption | intros ?]
  | |- within _ (mbind _ (SmfShared.bare_read_ctx _ _ _)) _ =>
      apply smf_read_ctx; [intros ?; smf_mode | eassumption | intros ?]
  | |- within _ (mbind _ (SmfShared.assign _ _)) _ =>
      apply smf_assign; [cbn; set_solver | cbn; set_solver | discriminate | eassumption | intros ? ?]
  | |- within _ (mbind _ (SmfShared.look _)) _ => apply smf_look; [cbn; set_solver | cbn; set_solver | intros ?]
  | |- within _ (match ?x with (_, _) => _ end) _ => destruct x
  | |- within _ (if ?b then _ else _) _ => destruct b
  | _ => progress cbv zeta
  end.

(** A request for a context that is there, unless it is a create request. *)
Lemma smf_within s :
  (AmfSmfRequest.msg_type m <> 1 -> is_Some (SmfShared.get c s)) ->
  within (T := Smf.t) (smf_foot m) (SmfShared.AmfSmfInteraction inet_aton garbage h0 d bind m reply) s.
Proof.
  intros Hs. unfold SmfShared.AmfSmfInteraction. apply within_finish. intros _ _. unfold smf_foot. fold c. 
  set (ty := AmfSmfRequest.msg_type m) in *.
  destruct (Z.eqb_spec ty 1) as [->|H1]; [unfold SmfShared.handle_create_session; fold c; smf_within|].
  specialize (Hs H1).
  destruct (Z.eqb_spec ty 2) as [->|H2]; [unfold SmfShared.handle_modify_bearer; smf_within|].
  destruct (Z.eqb_spec ty 3) as [->|H3]; [unfold SmfShared.handle_detach; smf_within|].
  clearbody ty. repeat match goal with |- within _ (match ?z with _ => _ end) _ => destruct z end;
    first [exact I | by destruct H1 | by destruct H2 | by destruct H3].
Qed.

Ltac smf_budget :=
  repeat lazymatch goal with
  | |- budget (Finish _) _ => exact I
  | |- budget (mret _) _ => exact I
  | |- budget (mbind _ (Finish _)) _ => apply budget_finish; intros ?
  | |- budget (mbind _ (SmfShared.snd _ _)) _ => apply (budget_bind _ _ 1); [apply send_budget | intros ?]
  | |- budget (match ?x with (_, _) => _ end) _ => destruct x
  | |- budget (mbind _ _) _ => apply budget_access; [cbn; lia | intros ?]; cbn [cost Nat.sub]
  | |- budget (if ?b then _ else _) _ => destruct b
  | _ => progress cbv zeta
  end.

(** At most thirteen turns. *)
Lemma smf_budget : budget (SmfShared.AmfSmfInteraction inet_aton garbage h0 d bind m reply) 13.
Proof.
  unfold SmfShared.AmfSmfInteraction. apply budget_finish. intros _.
  repeat match goal with |- budget (match ?z with _ => _ end) _ => destruct z end; try exact I.
  - unfold SmfShared.handle_detach. smf_budget.
  - unfold SmfShared.handle_modify_bearer. smf_budget.
  - unfold SmfShared.handle_create_session. smf_budget.
Qed.
End Footprints.

(** ** Any number of requests at once *)

Lemma smf_asks_answers s r dgram : answers r dgram -> answers (smf_asks s r) dgram.
Proof. by destruct r. Qed.

(** A request of the AMF, and what the UPF answers to it. *)
Record smf_job := mk_smf_job {
  sj_request : n4_request;
  sj_message : AmfSmfRequest.t;
  sj_from : sockaddr_in;
  sj_answer : list Z
}.

Section Jobs.
Context (inet_aton : string -> option Z) (garbage : Z -> Smf.UeContext) (h0 : hdrs).
Context (g : Z -> Z) (dst : sockaddr_in).
Hypothesis Hdst : Network.set_inet_sock_addr inet_aton Smf.g_upf_smf_ip_addr Smf.g_upf_smf_port = Ret dst.
Hypothesis Hh : Gtp.wf (h_gtp h0).

Definition smf_job_code (j : smf_job) : SmfShared.scode AmfSmfReply.t :=
  SmfShared.AmfSmfInteraction inet_aton garbage h0 (UdpClient.Got (sj_from j) (sj_answer j)) (Ret tt)
    (sj_message j) AmfSmfReply.empty.

Definition smf_job_ok (S : gmap Z session) (j : smf_job) : Prop :=
  n4_ok S (sj_request j) /\ smf_request (sj_request j) (sj_message j) /\ answers (sj_request j) (sj_answer j).

Definition is_modify (r : n4_request) : bool := match r with Modify _ _ _ _ _ => true | _ => false end.
Definition is_create (r : n4_request) : bool := match r with Create _ _ _ _ => true | _ => false end.

(** No two for one subscriber, and no two modify requests. *)
Definition smf_apart (js : list smf_job) : Prop :=
  forall i k j j', js !! i = Some j -> js !! k = Some j' -> i <> k ->
  n4_number (sj_request j) <> n4_number (sj_request j') /\
  is_modify (sj_request j) && is_modify (sj_request j') = false.

Definition smf_tagged (j : smf_job) : tagged (T := Smf.t) (sockaddr_in * list Z) AmfSmfReply.t :=
  mk_tagged (smf_foot (sj_message j)) (smf_job_code j).

(** What it sends: the request as the context completes it. *)
Definition smf_sent (s : Smf.t) (j : smf_job) (es : list (sockaddr_in * list Z)) : Prop :=
  exists gh, n4_header gh (smf_asks s (sj_request j)) /\ es = [(dst, n4_datagram gh (smf_asks s (sj_request j)))].

Lemma smf_job_alone S s j :
  smf_repr S s -> smf_job_ok S j ->
  exists reply s' es,
    exec (smf_job_code j) s = (Ret reply, s', es) /\ smf_reply (sj_request j) reply /\ smf_sent s j es /\
    smf_repr (smf_step g (sj_request j) S) s' /\
    uses (smf_foot (sj_message j)) (smf_job_code j) s.
Proof.
  intros R (Hok & Hm & Ha). set (d := UdpClient.Got (sj_from j) (sj_answer j)).
  destruct (@smf_request_run wire (once d) inet_aton garbage h0 dst (smf_sent s j) Hdst Hh
    S g s [] (sj_request j) (sj_message j) AmfSmfReply.empty) as (s' & w' & reply & E & Hr & Hw & R'); try done.
  { intros gh Hg. eexists _, _, _, _. split; [reflexivity|]. split; [reflexivity|].
    split; [by apply smf_asks_answers | by exists gh]. }
  destruct (exec_of_prog _ _ _ _ _ (alike_interaction inet_aton garbage h0 d (Ret tt) (sj_message j) AmfSmfReply.empty) E)
    as (t & es & X & Es). injection Es as -> ->.
  change (exec (smf_job_code j) s = (Ret reply, t, es)) in X.
  exists reply, t, es. split; [exact X|]. repeat (split; [done|]).
  eapply within_uses; [apply smf_within | unfold result_of; by rewrite X]. intros Hty.
  destruct Hok as [_ Hok], Hm as (Ty & -> & _).
  assert (is_Some (S !! n4_number (sj_request j))) as HS
    by (destruct (sj_request j); [by destruct Hty | apply Hok | apply Hok]).
  destruct (smf_ctx _ _ R _ HS) as (c & Hc & _). by exists c.
Qed.

(** The footprint of a job, by its request. *)
Lemma smf_job_foot S j :
  smf_job_ok S j ->
  smf_foot (sj_message j) =
    let c := SmfShared.Ctx (deployed_guti (n4_number (sj_request j))) in
    match sj_request j with
    | Create _ _ _ _ => mk_footprint [] [c] [0%nat] []
    | Modify _ _ _ _ _ => mk_footprint [c] [SmfShared.TrafIp; SmfShared.TrafPort] [1; 2]%nat [1; 2]%nat
    | Detach _ _ _ => mk_footprint [c] [] [] []
    end.
Proof. intros (_ & (Ty & Hg & _) & _). unfold smf_foot. rewrite Ty, Hg. by destruct (sj_request j). Qed.

Lemma smf_apart_independent S js :
  Forall (smf_job_ok S) js -> smf_apart js -> independent (map smf_tagged js).
Proof.
  intros Hok Ha i k t t' Ht Ht' N c Hc.
  rewrite list_lookup_fmap in Ht, Ht'. destruct (js !! i) as [j|] eqn:Ej; [|done]. destruct (js !! k) as [j'|] eqn:Ek; [|done].
  injection Ht as <-. injection Ht' as <-. destruct (Ha i k j j' Ej Ek N) as [Hn Hmod].
  assert (deployed_guti (n4_number (sj_request j)) <> deployed_guti (n4_number (sj_request j'))) by (unfold deployed_guti; lia).
  cbn [foot smf_tagged] in *.
  rewrite (smf_job_foot S) in Hc by (by eapply Forall_lookup_1). rewrite (smf_job_foot S) by (by eapply Forall_lookup_1).
  destruct (sj_request j), (sj_request j'); try discriminate Hmod; cbn in *; set_solver.
Qed.

(** Only create requests race. *)
Lemma smf_may_race S js :
  Forall (smf_job_ok S) js -> smf_apart js -> may_race (map smf_tagged js) ->
  exists i k j j', js !! i = Some j /\ js !! k = Some j' /\ i <> k /\
    is_create (sj_request j) = true /\ is_create (sj_request j') = true.
Proof.
  intros Hok Ha (i & k & t & t' & Ht & Ht' & N & o & Ho).
  rewrite list_lookup_fmap in Ht, Ht'. destruct (js !! i) as [j|] eqn:Ej; [|done]. destruct (js !! k) as [j'|] eqn:Ek; [|done].
  injection Ht as <-. injection Ht' as <-. destruct (Ha i k j j' Ej Ek N) as [Hn Hmod].
  exists i, k, j, j'. do 3 (split; [done|]). cbn [foot smf_tagged] in Ho.
  rewrite !(smf_job_foot S) in Ho by (by eapply Forall_lookup_1).
  destruct (sj_request j), (sj_request j'); try done; cbn in Ho; set_solver.
Qed.

(** Another request leaves a request valid. *)
Lemma smf_job_ok_frame S j j' :
  n4_number (sj_request j') <> n4_number (sj_request j) -> smf_job_ok S j -> smf_job_ok (smf_step g (sj_request j') S) j.
Proof.
  intros N ((Hn & H1) & H2 & H3). split; [|done]. split; [done|].
  assert (smf_step g (sj_request j') S !! n4_number (sj_request j) = S !! n4_number (sj_request j)) as E.
  { unfold smf_step. destruct (sj_request j'); cbn [smf_effect n4_step n4_number] in *;
      [by rewrite lookup_insert_ne | by rewrite lookup_alter_ne | by rewrite lookup_delete_ne]. }
  destruct (sj_request j); cbn [n4_number] in *; by rewrite ?E.
Qed.

Lemma smf_serial_repr js : forall S s,
  smf_repr S s -> Forall (smf_job_ok S) js -> smf_apart js ->
  smf_repr (foldl (fun S j => smf_step g (sj_request j) S) S js) (serial (map smf_job_code js) s).
Proof.
  induction js as [|j js IH]; intros S s R Hok Ha; [exact R|]. inversion Hok as [|? ? H1 H2]; subst. cbn [foldl map serial].
  destruct (smf_job_alone S s j R H1) as (p' & u' & es & E & _ & _ & R' & _).
  unfold final at 1. rewrite E. apply IH; [exact R' | |].
  - apply Forall_lookup. intros i j' Hj'. apply smf_job_ok_frame; [|by eapply Forall_lookup_1].
    by apply (Ha 0%nat (Datatypes.S i) j j').
  - intros i k a b Hi Hk N. apply (Ha (Datatypes.S i) (Datatypes.S k)); auto.
Qed.

(** C21: requests that the SMF serves at the same time, its contexts
    representing the sessions, each valid, for different subscribers, and at most one of them a modify request, do not
    disturb each other, except that create requests may race: whatever the order
    in which the threads take the mutex and begin and end the accesses without
    it, either there are two create requests and the process has a data race,
    or none faults and none sends anything but its own request; after thirteen
    turns each, every request has been put to the UPF once, is answered with
    success, and the contexts represent the sessions with all the requests
    carried out, in any order. *)
Theorem smf_requests_do_not_interfere S s js sched :
  smf_repr S s -> Forall (smf_job_ok S) js -> smf_apart js ->
  (exists i k j j', js !! i = Some j /\ js !! k = Some j' /\ i <> k /\
     is_create (sj_request j) = true /\ is_create (sj_request j') = true /\
     run_pool sched (start_pool s (map smf_job_code js)) = Fault data_race) \/
  exists p,
    run_pool sched (start_pool s (map smf_job_code js)) = Ret p /\
    (forall i j, js !! i = Some j -> exists es, sent i p `prefix_of` es /\ smf_sent s j es) /\
    ((forall i j, js !! i = Some j -> (13 <= given i sched)%nat) ->
     (forall i j, js !! i = Some j ->
        (exists reply, threads p !! i = Some (Finish (Ret reply)) /\ smf_reply (sj_request j) reply) /\
        smf_sent s j (sent i p)) /\
     smf_repr (foldl (fun S j => smf_step g (sj_request j) S) S js) (shared p)).
Proof.
  intros R Hok Ha.
  assert (forall i t, map smf_tagged js !! i = Some t -> exists j, js !! i = Some j /\ t = smf_tagged j /\ smf_job_ok S j) as Hj.
  { intros i t Ht. rewrite list_lookup_fmap in Ht. destruct (js !! i) as [j|] eqn:E; [|done]. injection Ht as <-.
    exists j. split; [done|]. split; [done|]. by eapply Forall_lookup_1. }
  assert (forall i j, js !! i = Some j -> map smf_tagged js !! i = Some (smf_tagged j)) as Hf
    by (intros i j E; by rewrite list_lookup_fmap, E).
  assert (map code_of (map smf_tagged js) = map smf_job_code js) as Hc by by rewrite map_map.
  destruct (independent_threads (map smf_tagged js) s) with (sched := sched) as [[M E]|(p & Ep & Hpre & Hfin)].
  { intros i t Ht. destruct (Hj i t Ht) as (j & _ & -> & Hjok).
    by destruct (smf_job_alone S s j R Hjok) as (? & ? & ? & _ & _ & _ & _ & U). }
  { by apply (smf_apart_independent S). }
  { left. destruct (smf_may_race S js Hok Ha M) as (i & k & j & j' & ? & ? & ? & ? & ?). rewrite Hc in E.
    by exists i, k, j, j'. }
  right. rewrite Hc in Ep. exists p. split; [exact Ep|].
  assert (forall i j, js !! i = Some j -> exists reply es, result_of (smf_job_code j) s = Ret reply /\
    events (smf_job_code j) s = es /\ smf_reply (sj_request j) reply /\ smf_sent s j es) as Hal.
  { intros i j E. destruct (smf_job_alone S s j R (Forall_lookup_1 _ _ _ _ Hok E)) as (q & u' & es & X & A & B & _).
    exists q, es. unfold result_of, events. by rewrite X. }
  split.
  - intros i j E. destruct (Hal i j E) as (q & es & _ & X & _ & A). exists es. split; [|exact A].
    rewrite <- X. apply (Hpre i _ (Hf i j E)).
  - intros Hn. destruct Hfin as [F1 F2].
    { intros i t Ht. destruct (Hj i t Ht) as (j & E & -> & _).
      etransitivity; [apply turns_budget, smf_budget | by eapply Hn]. }
    split; [|rewrite F2, Hc; by apply smf_serial_repr].
    intros i j E. destruct (Hal i j E) as (q & es & X1 & X2 & A & B). destruct (F1 i _ (Hf i j E)) as [G1 G2].
    cbn [code_of smf_tagged] in G1, G2. rewrite X1 in G1. rewrite X2 in G2. rewrite G2. split; [by exists q | done].
Qed.
End Jobs.

(** ** Two create requests at once *)

(** C22: create requests race in the SMF: the handler gives the mutex back and
    then reads the table of contexts five more times.  If another create
    request, for a subscriber that the SMF does not know yet or for the same
    one, takes the mutex and enters its context while such a read is under way,
    the two accesses to the [unordered_map] are a data race, which is undefined
    behaviour: three turns are enough, whatever the requests hold beside a
    GUTI that is not zero, whatever the UPF answers and whatever the SMF knows. *)
Theorem create_requests_race inet_aton garbage h0 d d' m m' reply reply' s sched :
  AmfSmfRequest.msg_type m = 1 -> AmfSmfRequest.msg_type m' = 1 ->
  u64 (AmfSmfRequest.guti m) <> 0 -> u64 (AmfSmfRequest.guti m') <> 0 ->
  u64 (AmfSmfRequest.guti m') = u64 (AmfSmfRequest.guti m) \/
    Smf.ue_ctx s !! u64 (AmfSmfRequest.guti m') = None ->
  run_pool ([0; 0; 1]%nat ++ sched) (start_pool s
    [SmfShared.AmfSmfInteraction inet_aton garbage h0 d (Ret tt) m reply;
     SmfShared.AmfSmfInteraction inet_aton garbage h0 d' (Ret tt) m' reply']) = Fault data_race.
Proof.
  intros T1 T2 N1 N2 Hs.
  assert (forall d m reply, AmfSmfRequest.msg_type m = 1 -> u64 (AmfSmfRequest.guti m) <> 0 -> exists f k,
    SmfShared.AmfSmfInteraction inet_aton garbage h0 d (Ret tt) m reply =
    (_ ← SmfShared.on_ctx garbage (u64 (AmfSmfRequest.guti m)) f (fun _ => tt);
     x ← SmfShared.bare_read_ctx garbage (u64 (AmfSmfRequest.guti m)) Smf.s11_cteid_mme; k x)) as Hcode.
  { intros d0 m0 rep0 T N. unfold SmfShared.AmfSmfInteraction. known ltac:(reflexivity). rewrite T.
    unfold SmfShared.handle_create_session. rewrite (proj2 (Z.eqb_neq _ 0) N). known ltac:(reflexivity). by do 2 eexists. }
  destruct (Hcode d m reply T1 N1) as (f & k & ->). destruct (Hcode d' m' reply' T2 N2) as (f' & k' & ->).
  set (g := u64 (AmfSmfRequest.guti m)) in *. set (g' := u64 (AmfSmfRequest.guti m')) in *.
  unfold start_pool. cbn [app]. last_turn.
  erewrite turn_begin; [|reflexivity|reflexivity]. cbn [insert list_insert].
  set (u := put _ _ _). eapply turn_race; [reflexivity|].
  cbn [delete list_delete existsb clashes writing SmfShared.bare_read_ctx SmfShared.ctx_access access]. rewrite orb_false_r.
  destruct (decide (g' = g)) as [->|N]; [by rewrite bool_decide_eq_true_2|].
  destruct Hs as [?|Hs]; [done|]. apply orb_true_iff. right.
  rewrite bool_decide_eq_true_2 by done. cbn [andb]. apply orb_true_iff. left. unfold reshaping.
  change (SmfShared.changes_shape (SmfShared.Ctx g') (SmfShared.get (SmfShared.Ctx g') u)
    (Some (f' (default (Smf.new_ctx garbage g') (SmfShared.get (SmfShared.Ctx g') u)))) = true).
  assert (SmfShared.get (SmfShared.Ctx g') u = None) as ->; [|done].
  transitivity (SmfShared.get (SmfShared.Ctx g') s); [|exact Hs].
  apply (@get_put_ne Smf.t _ SmfShared.smf_store_laws). congruence.
Qed.

(** ** Two modify requests at once *)

Section Mix.
Context (inet_aton : string -> option Z) (garbage : Z -> Smf.UeContext) (h0 : hdrs).
Context (dst : sockaddr_in).
Hypothesis Hdst : Network.set_inet_sock_addr inet_aton Smf.g_upf_smf_ip_addr Smf.g_upf_smf_port = Ret dst.
Hypothesis Hh : Gtp.wf (h_gtp h0).

Lemma rcv_code from bs q :
  length (Packet.data q) = Z.to_nat BUF_SIZE -> len bs <= BUF_SIZE ->
  SmfShared.rcv (UdpClient.Got from bs) dst q = Ret (rd (hdrs_of q) [] bs).
Proof.
  intros Hq Hb. unfold SmfShared.rcv. rewrite clear_pkt_rd by done. res. rewrite data_rd_nil.
  rewrite recvfrom_zbuf by done. reflexivity.
Qed.

(** What is left of a modify request once it has read the globals. *)
Lemma modify_rest S from dgram n e ip port reply :
  let r := Modify n e 0 ip port in
  n4_ok S r -> answers r dgram ->
  exists gh, n4_header gh r /\
  (pkt ← Finish (Smf.n4_packet h0 [IU8 e; IU32 0; IStr ip; IInt port] 2 n);
   _ ← SmfShared.snd dst pkt;
   pkt ← Finish (SmfShared.rcv (UdpClient.Got from dgram) dst pkt);
   pkt ← Finish (Packet.extract_gtp_hdr pkt);
   '(res, pkt) ← Finish (Packet.extract_item_bool pkt);
   if (res : bool) then mret (reply <| AmfSmfReply.res := true |>) else mret reply) =
  (Emit (dst, n4_datagram gh r) (mret (reply <| AmfSmfReply.res := true |>)) : SmfShared.scode AmfSmfReply.t).
Proof.
  intros r Hok (ga & Wa & _ & _ & ->). pose proof (n4_items_size S r Hok) as Hsz. destruct Hok as [Hn _].
  set (gh := gtp_v2 (Gtp.construct (h_gtp h0)) 2 (len (enc_items (n4_items r))) n). exists gh. split.
  { split; [by apply gtp_v2_wf, gtp_construct_wf|]. split; [done|]. cbn in *. apply u32_id. lia. }
  known ltac:(apply n4_packet_rd; unfold BUF_SIZE; cbn [n4_items r] in Hsz; lia).
  unfold SmfShared.snd. rewrite send_code by (unfold fits, BUF_SIZE; cbn [n4_items r] in Hsz; len_lia).
  change (mbind ?k (Emit ?e ?c)) with (Emit e (mbind k c)). rewrite app_nil_r.
  match goal with |- Emit ?e ?c = Emit ?e' ?c' => change (Emit e c = Emit e c'); f_equal end.
  change (mbind ?k (mret tt)) with (k tt). cbv beta.
  known ltac:(apply rcv_code; [apply rd_length; unfold fits, BUF_SIZE; cbn [n4_items r] in Hsz; len_lia | unfold BUF_SIZE; cbn [n4_answer r enc_items enc_item]; len_lia]).
  known ltac:(by apply (extract_gtp_hdr_rd _ [])). cbn [n4_answer r enc_items enc_item app]. by known ltac:(apply extract_bool_rd).
Qed.

(** A modify request from the start. *)
Lemma modify_code d n ebi dl ip port m reply :
  0 <= n -> smf_request (Modify n ebi dl ip port) m ->
  SmfShared.AmfSmfInteraction inet_aton garbage h0 d (Ret tt) m reply =
  (_ ← SmfShared.assign SmfShared.TrafIp ip;
   _ ← SmfShared.assign SmfShared.TrafPort (s32 port);
   '(r_ebi, r_dl, r_sgw) ← SmfShared.read_ctx garbage (deployed_guti n)
         (fun c => (Smf.eps_bearer_id c, Smf.s1_uteid_dl c, Smf.s11_cteid_sgw c));
   ip ← SmfShared.look SmfShared.TrafIp;
   port ← SmfShared.look SmfShared.TrafPort;
   pkt ← Finish (Smf.n4_packet h0 [IU8 r_ebi; IU32 r_dl; IStr ip; IInt port] 2 r_sgw);
   _ ← SmfShared.snd dst pkt;
   pkt ← Finish (SmfShared.rcv d dst pkt);
   pkt ← Finish (Packet.extract_gtp_hdr pkt);
   '(res, pkt) ← Finish (Packet.extract_item_bool pkt);
   if (res : bool) then mret (reply <| AmfSmfReply.res := true |>) else mret reply).
Proof.
  intros Hn (Hty & Hg & _ & _ & Hip & Hport). unfold SmfShared.AmfSmfInteraction. known ltac:(reflexivity).
  rewrite Hty. cbn [n4_type n4_number] in *. unfold SmfShared.handle_modify_bearer. rewrite Hg, Hip, Hport.
  rewrite (proj2 (Z.eqb_neq (deployed_guti _) 0)) by (unfold deployed_guti; lia).
  known ltac:(reflexivity). unfold SmfShared.set_server. by rewrite Hdst.
Qed.

(** C23: two modify requests that the SMF serves at the same time mix: the
    handler leaves the base station's address and port in globals without the
    mutex, and reads them again later.  If the second request assigns them in
    between, the first subscriber's session is given the second one's base
    station.  Both requests are answered with success, and the UPF that gets
    the first datagram sends that subscriber's packets to the wrong base
    station from then on. *)
Theorem modify_requests_mix garbage_ul garbage_dl S s j j' n n' ebi ebi' dl dl' ip ip' port port' :
  smf_repr S s -> smf_job_ok S j -> smf_job_ok S j' -> n <> n' ->
  sj_request j = Modify n ebi dl ip port -> sj_request j' = Modify n' ebi' dl' ip' port' ->
  exists p bs bs' rep rep',
    run_pool ([0; 0; 0; 0] ++ [1; 1; 1; 1] ++ replicate 6 0 ++ replicate 6 1)%nat
      (start_pool s [smf_job_code inet_aton garbage h0 j; smf_job_code inet_aton garbage h0 j']) = Ret p /\
    threads p = [Finish (Ret rep); Finish (Ret rep')] /\
    AmfSmfReply.res rep = true /\ AmfSmfReply.res rep' = true /\
    sent_log p = [(0%nat, (dst, bs)); (1%nat, (dst, bs'))] /\
    forall u o src q from, upf_repr S u -> length (Packet.data q) = Z.to_nat BUF_SIZE ->
    exists S' u' q' dgram ses,
      Upf.handle_s11_traffic garbage_ul garbage_dl src q (UdpClient.Got from bs) (Upf.mk_proc u o) =
        (Ret (from, q'), Upf.mk_proc u' (o ++ [(from, dgram)])) /\
      answers (sj_request j) dgram /\ upf_repr S' u' /\
      S' !! n = Some ses /\ s_enb_ip ses = ip' /\ s_enb_port ses = s32 port'.
Proof.
  intros R (Hok & Hm & Ha) (Hok' & Hm' & Ha') N Er Er'.
  rewrite Er in Hok, Hm, Ha. rewrite Er' in Hok', Hm', Ha'. rewrite Er.
  destruct Hok as (Hn & HS & Ht & Hl), Hok' as (Hn' & HS' & Ht' & Hl'). cbn [n4_number] in Hn, Hn'.
  destruct (smf_ctx _ _ R n HS) as (c & Hc & Hsgw). pose proof (smf_dl _ _ R _ _ Hc) as Hdl.
  destruct (smf_ctx _ _ R n' HS') as (c' & Hc' & Hsgw'). pose proof (smf_dl _ _ R _ _ Hc') as Hdl'.
  set (r := Modify n (Smf.eps_bearer_id c) 0 ip' (s32 port')).
  assert (n4_ok S r) as Hok by (split; [done | by split]).
  destruct (modify_rest S (sj_from j) (sj_answer j) n (Smf.eps_bearer_id c) ip' (s32 port') AmfSmfReply.empty)
    as (gh & Hgh & E); [exact Hok | exact Ha |].
  destruct (modify_rest S (sj_from j') (sj_answer j') n' (Smf.eps_bearer_id c') ip' (s32 port') AmfSmfReply.empty)
    as (gh' & _ & E'); [by split; [|split] | exact Ha' |].
  unfold smf_job_code. rewrite (modify_code _ _ _ _ _ _ _ _ (proj1 Hn) Hm), (modify_code _ _ _ _ _ _ _ _ (proj1 Hn') Hm').
  unfold start_pool.
  assert (Threads.get (T := Smf.t) (SmfShared.Ctx (deployed_guti n)) s = Some c) as G1 by exact Hc.
  assert (Threads.get (T := Smf.t) (SmfShared.Ctx (deployed_guti n')) s = Some c') as G2 by exact Hc'.
  assert (SmfShared.Ctx (deployed_guti n) <> SmfShared.Ctx (deployed_guti n')) as NC
    by (unfold deployed_guti; intros [= X]; lia).
  cbn [replicate app]. do 4 last_turn. do 3 look_turn. rewrite Hdl, Hsgw, E. erewrite turn_event by reflexivity. cbn [insert list_insert app].
  do 3 look_turn. rewrite Hdl', Hsgw', E'. erewrite turn_event by reflexivity. cbn [insert list_insert app].
  do 5 eexists. do 5 (split; [reflexivity|]).
  intros u o src q from Ru Hq.
  destruct (n4_refinement_step garbage_ul garbage_dl S u o r src q from gh Ru Hok Hgh Hq) as (u' & q' & dgram & X & R' & A & _).
  destruct HS as [ses HS]. eexists _, u', q', dgram, _. split; [exact X|]. split; [exact A|]. split; [exact R'|].
  cbn [n4_step r]. rewrite lookup_alter_eq, HS. cbn. split; [reflexivity|]. split; [reflexivity|]. apply s32_idem.
Qed.
End Mix.

(** ** Witnesses *)

(** An SMF that knows subscribers 5 and 6. *)
Definition demo_smf_state : Smf.t :=
  let add n s := s <| Smf.ue_ctx := <[deployed_guti n := demo_smf_ctx <| Smf.s11_cteid_sgw := n |>]> (Smf.ue_ctx s) |> in
  add 6 (add 5 Smf.construct).

Lemma demo_smf_repr : smf_repr demo_sessions demo_smf_state.
Proof.
  apply smf_repr_insert; [|done|done]. apply smf_repr_insert; [|done|done].
  split; [intros n [v Hv]; discriminate Hv | intros g c Hc; discriminate Hc].
Qed.

Definition demo_modify (n : Z) (ip : string) (port : Z) : smf_job :=
  mk_smf_job (Modify n 5 7 ip port) (AmfSmfRequest.mk (deployed_guti n) 0 0 5 0 0 7 ip port 2) upf_addr
    (Gtp.to_bytes (demo_gtp 2 n) ++ enc_items [IBool true]).
Definition demo_others : list smf_job :=
  [demo_modify 5 "172.18.0.2" 4000;
   mk_smf_job (Detach 6 5 1) (AmfSmfRequest.mk (deployed_guti 6) 0 0 5 0 1 0 "" 0 3) upf_addr
     (Gtp.to_bytes (demo_gtp 3 6) ++ enc_items [IBool true]);
   mk_smf_job (Create 7 5 1 1) (AmfSmfRequest.mk (deployed_guti 7) (deployed_imsi 7) 7 5 1 1 0 "" 0 1) upf_addr
     (Gtp.to_bytes (demo_gtp 1 7) ++ enc_items [IU32 7; IStr (pool_ip 7); IU32 7])].

Lemma smf_requests_do_not_interfere_witness :
  exists p reply,
    run_pool (concat (replicate 13 [2; 0; 1]%nat))
      (start_pool demo_smf_state (map (smf_job_code core_aton smf_garbage zero_hdrs) demo_others)) = Ret p /\
    threads p !! 2%nat = Some (Finish (Ret reply)) /\ smf_reply (Create 7 5 1 1) reply.
Proof.
  destruct (smf_requests_do_not_interfere core_aton smf_garbage zero_hdrs zeros upf_addr core_reaches_upf
    ltac:(by repeat split) demo_sessions demo_smf_state demo_others (concat (replicate 13 [2; 0; 1]%nat)) demo_smf_repr)
    as [(i & k & j & j' & Hi & Hk & N & C & C' & _)|(p & E & _ & F)].
  - repeat apply Forall_cons_2; [| | |apply Forall_nil_2]; (split; [split; [cbn; lia|] | split; [by repeat split|]]).
    + split; [by eexists | split; [unfold nul_free; repeat constructor; discriminate | vm_compute; discriminate]].
    + exists (demo_gtp 2 5). by repeat split.
    + by eexists.
    + exists (demo_gtp 3 6). by repeat split.
    + exact I.
    + exists (demo_gtp 1 7). by repeat split.
  - intros [|[|[|i]]] [|[|[|k]]] j j' Hi Hk N; try discriminate Hi; try discriminate Hk; try (by destruct N);
      injection Hi as <-; injection Hk as <-; split; (discriminate || reflexivity).
  - exfalso. destruct i as [|[|[|i]]], k as [|[|[|k]]]; try discriminate Hi; try discriminate Hk;
      injection Hi as <-; injection Hk as <-; try discriminate C; try discriminate C'. by apply N.
  - destruct F as [F1 _].
    { intros [|[|[|i]]] j Hj; [vm_compute; lia | vm_compute; lia | vm_compute; lia | discriminate Hj]. }
    destruct (F1 2%nat _ eq_refl) as [(reply & X & Y) _]. exists p, reply. exact (conj E (conj X Y)).
Defined.

(** Subscribers 7 and 8 are new. *)
Lemma create_requests_race_witness :
  let create n := AmfSmfRequest.mk (deployed_guti n) (deployed_imsi n) n 5 1 1 0 "" 0 1 in
  run_pool ([0; 0; 1] ++ [1; 0])%nat (start_pool demo_smf_state
    [SmfShared.AmfSmfInteraction core_aton smf_garbage zero_hdrs UdpClient.Timeout (Ret tt) (create 7) AmfSmfReply.empty;
     SmfShared.AmfSmfInteraction core_aton smf_garbage zero_hdrs UdpClient.Timeout (Ret tt) (create 8) AmfSmfReply.empty])
  = Fault data_race.
Proof.
  intros create. apply create_requests_race; [reflexivity | reflexivity | by vm_compute | by vm_compute | right; by vm_compute].
Defined.

Lemma modify_requests_mix_witness :
  exists p bs bs' S' u' q' dgram ses,
    run_pool ([0; 0; 0; 0] ++ [1; 1; 1; 1] ++ replicate 6 0 ++ replicate 6 1)%nat
      (start_pool demo_smf_state
        [smf_job_code core_aton smf_garbage zero_hdrs (demo_modify 5 "172.18.0.2" 4000);
         smf_job_code core_aton smf_garbage zero_hdrs (demo_modify 6 "172.18.0.3" 4001)]) = Ret p /\
    sent_log p = [(0%nat, (upf_addr, bs)); (1%nat, (upf_addr, bs'))] /\
    Upf.handle_s11_traffic zeros zeros demo_smf (rd zero_hdrs [] []) (UdpClient.Got demo_smf bs)
      (Upf.mk_proc demo_upf []) = (Ret (demo_smf, q'), Upf.mk_proc u' [(demo_smf, dgram)]) /\
    upf_repr S' u' /\ S' !! 5 = Some ses /\ s_enb_ip ses = "172.18.0.3" /\ s_enb_port ses = 4001.
Proof.
  destruct (modify_requests_mix core_aton smf_garbage zero_hdrs upf_addr core_reaches_upf ltac:(by repeat split)
    zeros zeros demo_sessions demo_smf_state (demo_modify 5 "172.18.0.2" 4000) (demo_modify 6 "172.18.0.3" 4001)
    5 6 5 5 7 7 "172.18.0.2" "172.18.0.3" 4000 4001 demo_smf_repr) as (p & bs & bs' & rep & rep' & E1 & _ & _ & _ & E2 & F).
  - split; [|split; [by repeat split | exists (demo_gtp 2 5); by repeat split]].
    split; [cbn; lia|]. split; [by eexists | split; [unfold nul_free; repeat constructor; discriminate | vm_compute; discriminate]].
  - split; [|split; [by repeat split | exists (demo_gtp 2 6); by repeat split]].
    split; [cbn; lia|]. split; [by eexists | split; [unfold nul_free; repeat constructor; discriminate | vm_compute; discriminate]].
  - discriminate.
  - reflexivity.
  - reflexivity.
  - destruct (F demo_upf [] demo_smf (rd zero_hdrs [] []) demo_smf demo_repr eq_refl)
      as (S' & u' & q' & dgram & ses & X & _ & R' & Y & Z1 & Z2).
    exists p, bs, bs', S', u', q', dgram, ses.
    exact (conj E1 (conj E2 (conj X (conj R' (conj Y (conj Z1 Z2)))))).
Defined.
