(* ===== verification/Amf.v ===== *)
(** * Amf: the access and mobility management function (src/amf.h,
    src/amf.cpp, src/amf_server.cpp)

    The state is the identifiers, the counter, the two tables and the four
    globals the code assigns to.  The AUSF and the SMF are the stubs of
    Messages.v; the handover code also talks to the UPF and to the base
    stations directly, through [Handover].  What goes to the base stations
    on the accepted connections is logged in [out], frame by frame.

    Memory that is not initialised is a parameter: [garbage] for the context
    a table access creates, [m] for a local [GrpcPacket], [xres0] and
    [k_asme0] for two locals of [handle_initial_attach]. *)

From Stdlib Require Import ZArith Lia Ascii String.
From S2P Require Import Prelude Utils Telecom Headers Packet Network Transport Security Messages.
From S2P Require Import Ausf Upf Smf.

(** [s.at(pos)] of a string. *)
Definition string_at (pos : nat) (s : string) : result ascii :=
  match String.get pos s with
  | Some c => Ret c
  | None => Fault (Throw "std::out_of_range: basic_string::at")
  end.

(** *** The gRPC client *)

Module GrpcPacket.

(** [class GrpcPacket] (no constructor: every scalar is indeterminate) *)
Record t := mk {
  msg_type : Z;
  imsi : Z;
  plmn_id : Z;
  num_autn_vectors : Z;
  nw_type : Z;
  amfi : Z;
  guti : Z;
  s11_cteid_amf : Z;
  eps_bearer_id : Z;
  apn_in_use : Z;
  tai : Z;
  s1_uteid_dl : Z;
  s1_uteid_ul : Z;
  g_trafmon_ip_addr : string;
  g_trafmon_port : Z;
  autn_num : Z;
  rand_num : Z;
  xres : Z;
  k_asme : Z;
  mmei : Z;
  s11_cteid_upf : Z;
  k_enodeb : Z;
  tai_list_size : Z;
  tai_list : list Z;
  tau_timer : Z;
  packet_type : Z;
  ue_ip_addr : string;
  g_upf_s1_ip_addr : string;
  g_upf_s1_port : Z;
  res : bool;
  e_rab_id : Z
}.

(** [GrpcPacket pkt;] over the memory [m]: the strings and the vector are
    empty. *)
Definition construct (m : t) : t :=
  m <| g_trafmon_ip_addr := "" |> <| tai_list := [] |> <| ue_ip_addr := "" |>
    <| g_upf_s1_ip_addr := "" |>.
End GrpcPacket.

Module GreeterClient.
Section Client.
Context {W : Type} `{AS : AusfStub W} `{SS : SmfStub W}.

(** [GreeterClient::AmfAusfInteraction]: the message, and the packet the
    reply was copied into. *)
Definition AmfAusfInteraction (channel user : string) (pkt : GrpcPacket.t)
  : prog W (string * GrpcPacket.t) :=
  let request := AmfAusfRequest.mk user "typ1" (s64 (GrpcPacket.imsi pkt))
    (GrpcPacket.plmn_id pkt) (s64 (GrpcPacket.num_autn_vectors pkt)) (GrpcPacket.nw_type pkt)
    (GrpcPacket.msg_type pkt) (GrpcPacket.mmei pkt) in
  r ← call_AmfAusfInteraction channel request;
  match r with
  | Some reply =>
      mret (AmfAusfReply.message reply,
            pkt <| GrpcPacket.autn_num := u64 (AmfAusfReply.autn_num reply) |>
                <| GrpcPacket.rand_num := u64 (AmfAusfReply.rand_num reply) |>
                <| GrpcPacket.xres := u64 (AmfAusfReply.xres reply) |>
                <| GrpcPacket.k_asme := u64 (AmfAusfReply.k_asme reply) |>)
  | None => mret ("RPC failed", pkt)
  end.

(** [GreeterClient::SessionCreationFC] *)
Definition SessionCreationFC (channel : string) (pkt : GrpcPacket.t) : prog W GrpcPacket.t :=
  let request := AmfSmfRequest.empty
    <| AmfSmfRequest.guti := s64 (GrpcPacket.guti pkt) |>
    <| AmfSmfRequest.msg_type := GrpcPacket.msg_type pkt |>
    <| AmfSmfRequest.imsi := s64 (GrpcPacket.imsi pkt) |>
    <| AmfSmfRequest.s11_cteid_amf := s64 (GrpcPacket.s11_cteid_amf pkt) |>
    <| AmfSmfRequest.eps_bearer_id := s64 (GrpcPacket.eps_bearer_id pkt) |>
    <| AmfSmfRequest.apn_in_use := s64 (GrpcPacket.apn_in_use pkt) |>
    <| AmfSmfRequest.tai := s64 (GrpcPacket.tai pkt) |> in
  r ← call_AmfSmfInteraction channel request;
  match r with
  | Some reply =>
      mret (pkt <| GrpcPacket.guti := u64 (AmfSmfReply.guti reply) |>
                <| GrpcPacket.eps_bearer_id := u64 (AmfSmfReply.eps_bearer_id reply) |>
                <| GrpcPacket.e_rab_id := u64 (AmfSmfReply.e_rab_id reply) |>
                <| GrpcPacket.s1_uteid_ul := u32 (AmfSmfReply.s1_uteid_ul reply) |>
                <| GrpcPacket.s11_cteid_upf := u32 (AmfSmfReply.s11_cteid_upf reply) |>
                <| GrpcPacket.k_enodeb := u64 (AmfSmfReply.k_enodeb reply) |>
                <| GrpcPacket.tai_list_size := s32 (AmfSmfReply.tai_list_size reply) |>
                <| GrpcPacket.tau_timer := u64 (AmfSmfReply.tau_timer reply) |>
                <| GrpcPacket.ue_ip_addr := AmfSmfReply.ue_ip_addr reply |>
                <| GrpcPacket.g_upf_s1_ip_addr := AmfSmfReply.g_upf_s1_ip_addr reply |>
                <| GrpcPacket.g_upf_s1_port := s32 (AmfSmfReply.g_upf_s1_port reply) |>
                <| GrpcPacket.res := AmfSmfReply.res reply |>)
  | None => mret pkt
  end.

(** [GreeterClient::ModifyBearerFC] *)
Definition ModifyBearerFC (channel : string) (pkt : GrpcPacket.t) : prog W GrpcPacket.t :=
  let request := AmfSmfRequest.empty
    <| AmfSmfRequest.guti := s64 (GrpcPacket.guti pkt) |>
    <| AmfSmfRequest.msg_type := GrpcPacket.msg_type pkt |>
    <| AmfSmfRequest.eps_bearer_id := s64 (GrpcPacket.eps_bearer_id pkt) |>
    <| AmfSmfRequest.s1_uteid_dl := s32 (GrpcPacket.s1_uteid_dl pkt) |>
    <| AmfSmfRequest.g_trafmon_ip_addr := GrpcPacket.g_trafmon_ip_addr pkt |>
    <| AmfSmfRequest.g_trafmon_port := GrpcPacket.g_trafmon_port pkt |> in
  r ← call_AmfSmfInteraction channel request;
  match r with
  | Some reply => mret (pkt <| GrpcPacket.res := AmfSmfReply.res reply |>)
  | None => mret pkt
  end.

(** [GreeterClient::DetachFC] *)
Definition DetachFC (channel : string) (pkt : GrpcPacket.t) : prog W GrpcPacket.t :=
  let request := AmfSmfRequest.empty
    <| AmfSmfRequest.guti := s64 (GrpcPacket.guti pkt) |>
    <| AmfSmfRequest.msg_type := GrpcPacket.msg_type pkt |>
    <| AmfSmfRequest.eps_bearer_id := s64 (GrpcPacket.eps_bearer_id pkt) |>
    <| AmfSmfRequest.tai := s64 (GrpcPacket.tai pkt) |> in
  r ← call_AmfSmfInteraction channel request;
  match r with
  | Some reply => mret (pkt <| GrpcPacket.res := AmfSmfReply.res reply |>)
  | None => mret pkt
  end.

End Client.
End GreeterClient.

(** A base station that does not accept keeps
    [SctpClient::connect_with_server] in its loop for ever. *)
Definition never_connects : fault := Waits "sctpclient_connectwithserver".

(** The peers of the handover code: a UPF reached over UDP, and base
    stations reached over connections of their own. *)
Class Handover (W : Type) := {
  ho_n4 :: N4 W;
  (** socket, bind, getsockname and setsockopt of [UdpClient::conn] *)
  ho_udp_open : string -> prog W unit;
  (** socket and connect: the descriptor *)
  ho_ran_connect : string -> Z -> prog W Z;
  ho_ran_snd : Z -> list Z -> prog W unit
}.

Module Amf.

(** Globals that are never assigned to. *)
Definition g_trafmon_ip_addr : string := "172.18.0.2".
Definition g_amf_ip_addr : string := "172.18.0.4".
Definition g_upf_smf_ip_addr : string := "172.18.0.6".
Definition g_upf_s11_ip_addr : string := "172.18.0.6".
Definition g_trafmon_port : Z := 4000.
Definition g_upf_smf_port : Z := 8000.
Definition g_upf_s11_port : Z := 7300.
Definition g_timer : Z := 100.
Definition t_ran_ip_addr : string := "10.129.26.169".
Definition t_ran_port : Z := 4905.
Definition s_ran_ip_addr : string := "10.129.26.169".
Definition s_ran_port : Z := 4905.

(** [class UeContext] of amf.h *)
Record UeContext := mk_ctx {
  emm_state : Z;
  ecm_state : Z;
  imsi : Z;
  ip_addr : string;
  enodeb_s1ap_ue_id : Z;
  mme_s1ap_ue_id : Z;
  tai : Z;
  tai_list : list Z;
  tau_timer : Z;
  ksi_asme : Z;
  k_asme : Z;
  k_enodeb : Z;
  k_nas_enc : Z;
  k_nas_int : Z;
  nas_enc_algo : Z;
  nas_int_algo : Z;
  count : Z;
  bearer : Z;
  dir : Z;
  default_apn : Z;
  apn_in_use : Z;
  eps_bearer_id : Z;
  e_rab_id : Z;
  s1_uteid_ul : Z;
  s1_uteid_dl : Z;
  s5_uteid_ul : Z;
  s5_uteid_dl : Z;
  xres : Z;
  nw_type : Z;
  nw_capability : Z;
  upf_smf_ip_addr : string;
  upf_smf_port : Z;
  s11_cteid_amf : Z;
  s11_cteid_upf : Z
}.

(** [UeContext::UeContext] over the memory [m]: [k_enodeb], [s5_uteid_ul]
    and [s5_uteid_dl] are not set. *)
Definition construct_ctx (m : UeContext) : UeContext :=
  mk_ctx 0 0 0 "" 0 0 0 [] 0 0 0 (k_enodeb m) 0 0 0 0 1 0 1 0 0 0 0 0 0
    (s5_uteid_ul m) (s5_uteid_dl m) 0 0 0 "" 0 0 0.

(** [UeContext::init] *)
Definition init_ctx (arg_imsi arg_enb arg_mme arg_tai arg_cap : Z) (c : UeContext) : UeContext :=
  c <| imsi := arg_imsi |> <| enodeb_s1ap_ue_id := arg_enb |> <| mme_s1ap_ue_id := arg_mme |>
    <| tai := arg_tai |> <| nw_capability := arg_cap |>.

(** [class AmfIds] *)
Record AmfIds := mk_ids {
  mcc : Z; mnc : Z; plmn_id : Z; amfgi : Z; amfc : Z; amfi : Z; guamfi : Z
}.

(** [AmfIds::AmfIds] *)
Definition construct_ids : result AmfIds :=
  plmn_id ← Telecom.get_plmn_id 1 1;
  amfi ← Telecom.get_mmei 1 1;
  guamfi ← Telecom.get_gummei plmn_id amfi;
  mret (mk_ids 1 1 plmn_id 1 1 amfi guamfi).

(** [class Amf] and the globals it writes. *)
Record t := mk {
  amf_ids : AmfIds;
  ue_count : Z;
  s1amf_id : gmap Z Z;
  ue_ctx : gmap Z UeContext;
  g_ausf_ip_addr : string;
  smf_amf_ip_addr : string;
  g_upf_s1_ip_addr : string;
  g_upf_s1_port : Z
}.

(** [Amf::clrstl] *)
Definition clrstl (a : t) : t := a <| s1amf_id := ∅ |> <| ue_ctx := ∅ |>.

(** [Amf::Amf]: [registry] is what the service registry answered for the
    addresses of the AUSF and the SMF ([None]: curl could not start). *)
Definition construct (registry : option (string * string)) : result t :=
  ids ← construct_ids;
  let a := clrstl (mk ids 0 ∅ ∅ "" "" "172.18.0.6" 7100) in
  mret match registry with
       | Some (ausf, smf) => a <| g_ausf_ip_addr := ausf |> <| smf_amf_ip_addr := smf |>
       | None => a
       end.

Section Handlers.
Context {W : Type} `{AS : AusfStub W} `{SS : SmfStub W} `{HO : Handover W} `{CL : CryptoLib}.
Context (inet_aton : string -> option Z) (garbage : Z -> UeContext) (h0 : hdrs).

Record proc := mk_proc { amf : t; net : W; out : list (Z * list Z) }.

Definition on_amf (f : t -> t) (s : proc) : proc := s <| amf := f (amf s) |>.
Definition on_net {A} (c : prog W A) : prog proc A :=
  fun s => let '(r, w) := c (net s) in (r, s <| net := w |>).

Definition new_ctx (guti : Z) : UeContext := construct_ctx (garbage guti).

Definition ctx_get {A} (guti : Z) (f : UeContext -> A) : prog proc A :=
  _ ← modify (on_amf (fun a => a <| ue_ctx := touch (new_ctx guti) guti (ue_ctx a) |>));
  gets (fun s => f (at_or (new_ctx guti) (ue_ctx (amf s)) guti)).

Definition ctx_set (guti : Z) (f : UeContext -> UeContext) : prog proc unit :=
  modify (on_amf (fun a => a <| ue_ctx := upd (new_ctx guti) f guti (ue_ctx a) |>)).

(** [server.snd(conn_fd, pkt)]: the packet is copied twice and framed
    (Network.v and Transport.v have the writing itself). *)
Definition server_snd (conn_fd : Z) (pkt : Packet.t) : prog proc unit :=
  frame ← lift (framed_bytes_of pkt);
  modify (fun s => s <| out := out s ++ [(conn_fd, frame)] |>).

(** *** The private helpers *)

(** [Amf::get_guti]: zero when there is no entry. *)
Definition get_guti (pkt : Packet.t) : prog proc Z :=
  pkt ← lift (Packet.copy pkt);
  gets (fun s => default 0 (s1amf_id (amf s) !! S1ap.mme_s1ap_ue_id (Packet.s1ap_hdr pkt))).

(** [Amf::rem_itfid], [Amf::rem_uectx] *)
Definition rem_itfid (mme_s1ap_ue_id : Z) : prog proc unit :=
  modify (on_amf (fun a => a <| s1amf_id := delete mme_s1ap_ue_id (s1amf_id a) |>)).
Definition rem_uectx (guti : Z) : prog proc unit :=
  modify (on_amf (fun a => a <| ue_ctx := delete guti (ue_ctx a) |>)).

(** The sum both key derivations use. *)
Definition nas_key (k algo : Z) (c : UeContext) : Z :=
  u64 (u64 (u64 (u64 (k + algo) + count c) + bearer c) + dir c).

(** [Amf::set_crypt_context], [Amf::set_integrity_context] *)
Definition set_crypt_context (guti : Z) : prog proc unit :=
  ctx_set guti (fun c => c <| nas_enc_algo := 1 |> <| k_nas_enc := nas_key (k_asme c) 1 c |>).
Definition set_integrity_context (guti : Z) : prog proc unit :=
  ctx_set guti (fun c => c <| nas_int_algo := 1 |> <| k_nas_int := nas_key (k_asme c) 1 c |>).

(** [Amf::set_upf_info] *)
Definition set_upf_info (guti : Z) : prog proc unit :=
  ctx_set guti (fun c => c <| upf_smf_port := g_upf_smf_port |>
                           <| upf_smf_ip_addr := g_upf_smf_ip_addr |>).

(** The check every handler starts with. *)
Definition guti_of (pkt : Packet.t) (msg : string) : prog proc Z :=
  guti ← get_guti pkt;
  _ ← (if guti =? 0 then lift (Utils.handle_type1_error (-1) msg) else mret tt);
  mret guti.

(** [pkt.prepend_s1ap_hdr(ty, pkt.len, pkt.s1ap_hdr.enodeb_s1ap_ue_id,
    pkt.s1ap_hdr.mme_s1ap_ue_id)] *)
Definition s1ap_reply (pkt : Packet.t) (ty : Z) : result Packet.t :=
  Packet.prepend_s1ap_hdr pkt ty (Packet.plen pkt)
    (S1ap.enodeb_s1ap_ue_id (Packet.s1ap_hdr pkt)) (S1ap.mme_s1ap_ue_id (Packet.s1ap_hdr pkt)).

(** The AUSF's channel: the tenth character of its address. *)
Definition ausf_channel_of (ip : string) (worker_id : Z) : result string :=
  ch ← string_at 9 ip;
  mret ("172.18.0." +:+ String ch "" +:+ ":5005" +:+ to_string worker_id).

(** *** The attach procedure *)

(** The critical section of [handle_initial_attach] under [s1amfid_mux]. *)
Definition new_identity (guti : Z) : prog proc Z :=
  _ ← modify (on_amf (fun a => a <| ue_count := u64 (ue_count a + 1) |>));
  mme ← gets (fun s => u32 (ue_count (amf s)));
  _ ← modify (on_amf (fun a => a <| s1amf_id := <[mme := guti]> (s1amf_id a) |>));
  mret mme.

(** [Amf::handle_initial_attach] *)
Definition handle_initial_attach (m : GrpcPacket.t) (xres0 k_asme0 : Z)
    (conn_fd : Z) (pkt : Packet.t) (worker_id : Z) : prog proc unit :=
  pkt ← lift (Packet.copy pkt);
  '(r_imsi, pkt) ← lift (Packet.extract_item_uint64 pkt);
  '(r_tai, pkt) ← lift (Packet.extract_item_uint64 pkt);
  '(r_ksi, pkt) ← lift (Packet.extract_item_uint64 pkt);
  '(r_cap, pkt) ← lift (Packet.extract_item_uint16 pkt);
  let enb := S1ap.enodeb_s1ap_ue_id (Packet.s1ap_hdr pkt) in
  ids ← gets (fun s => amf_ids (amf s));
  guti ← lift (Telecom.get_guti (guamfi ids) r_imsi);
  mme ← new_identity guti;
  _ ← ctx_set guti (init_ctx r_imsi enb mme r_tai r_cap);
  r_nw ← ctx_get guti nw_type;
  let gpkt := (GrpcPacket.construct m) <| GrpcPacket.msg_type := 1 |>
    <| GrpcPacket.imsi := r_imsi |> <| GrpcPacket.plmn_id := plmn_id ids |>
    <| GrpcPacket.num_autn_vectors := 1 |> <| GrpcPacket.nw_type := r_nw |> in
  ip ← gets (fun s => g_ausf_ip_addr (amf s));
  channel ← lift (ausf_channel_of ip worker_id);
  '(message, gpkt) ← on_net (GreeterClient.AmfAusfInteraction channel "AMF" gpkt);
  _ ← ctx_set guti (fun c => c <| xres := xres0 |> <| k_asme := k_asme0 |> <| ksi_asme := 1 |>);
  r_ksi ← ctx_get guti ksi_asme;
  pkt ← lift (Packet.clear_pkt pkt);
  pkt ← lift (Packet.append_items pkt
    [IU64 (GrpcPacket.autn_num gpkt); IU64 (GrpcPacket.rand_num gpkt); IU64 r_ksi]);
  pkt ← lift (Packet.prepend_s1ap_hdr pkt 1 (Packet.plen pkt) enb mme);
  server_snd conn_fd pkt.

(** [Amf::handle_autn]: both branches of the comparison return true; what
    follows the second [return] is never reached. *)
Definition handle_autn (conn_fd : Z) (pkt : Packet.t) : prog proc bool :=
  pkt ← lift (Packet.copy pkt);
  guti ← guti_of pkt "Zero guti: amf_handleautn";
  '(res, pkt) ← lift (Packet.extract_item_uint64 pkt);
  xres ← ctx_get guti xres;
  if res =? xres then mret true else mret true.

(** [Amf::handle_security_mode_cmd] *)
Definition handle_security_mode_cmd (conn_fd : Z) (pkt : Packet.t) : prog proc unit :=
  pkt ← lift (Packet.copy pkt);
  guti ← guti_of pkt "Zero guti: amf_handlesecuritymodecmd";
  _ ← set_crypt_context guti;
  _ ← set_integrity_context guti;
  r_ksi ← ctx_get guti ksi_asme;
  r_cap ← ctx_get guti nw_capability;
  r_enc ← ctx_get guti nas_enc_algo;
  r_int ← ctx_get guti nas_int_algo;
  k_enc ← ctx_get guti k_nas_enc;
  k_int ← ctx_get guti k_nas_int;
  pkt ← lift (Packet.clear_pkt pkt);
  pkt ← lift (Packet.append_items pkt [IU64 r_ksi; IU16 r_cap; IU64 r_enc; IU64 r_int]);
  pkt ← lift (if HMAC_ON then Integrity.add_hmac pkt k_int else mret pkt);
  pkt ← lift (s1ap_reply pkt 2);
  server_snd conn_fd pkt.

(** [Amf::handle_security_mode_complete] *)
Definition handle_security_mode_complete (conn_fd : Z) (pkt : Packet.t) : prog proc bool :=
  pkt ← lift (Packet.copy pkt);
  guti ← guti_of pkt "Zero guti: amf_handlesecuritymodecomplete";
  k_enc ← ctx_get guti k_nas_enc;
  k_int ← ctx_get guti k_nas_int;
  pkt ← lift (unprotect pkt k_enc k_int "hmac failure: amf_handlesecuritymodecomplete");
  '(res, pkt) ← lift (Packet.extract_item_bool pkt);
  if (res : bool) then mret true else mret false.

(** [Amf::handle_location_update]: the AUSF's reply is not looked at; what
    is read is the packet of the caller. *)
Definition handle_location_update (m : GrpcPacket.t) (pkt : Packet.t) (worker_id : Z)
  : prog proc unit :=
  pkt ← lift (Packet.copy pkt);
  guti ← guti_of pkt "Zero guti: amf_handlelocationupdate";
  r_imsi ← ctx_get guti imsi;
  ids ← gets (fun s => amf_ids (amf s));
  let gpkt := (GrpcPacket.construct m) <| GrpcPacket.mmei := amfi ids |>
    <| GrpcPacket.imsi := r_imsi |> <| GrpcPacket.msg_type := 2 |> in
  ip ← gets (fun s => g_ausf_ip_addr (amf s));
  channel ← lift (ausf_channel_of ip worker_id);
  '(message, gpkt) ← on_net (GreeterClient.AmfAusfInteraction channel "AMF" gpkt);
  pkt ← lift (Packet.extract_diameter_hdr pkt);
  '(apn, pkt) ← lift (Packet.extract_item_uint64 pkt);
  ctx_set guti (fun c => c <| default_apn := apn |> <| apn_in_use := apn |>).

(** [Amf::handle_create_session] *)
Definition handle_create_session (m : GrpcPacket.t) (conn_fd : Z) (pkt : Packet.t)
    (worker_id : Z) : prog proc unit :=
  pkt ← lift (Packet.copy pkt);
  guti ← guti_of pkt "Zero guti: amf_handlecreatesession";
  _ ← set_upf_info guti;
  cteid ← lift (get_s11cteid guti);
  _ ← ctx_set guti (fun c => c <| s11_cteid_amf := cteid |> <| eps_bearer_id := 5 |>);
  cteid ← ctx_get guti s11_cteid_amf;
  r_imsi ← ctx_get guti imsi;
  r_ebi ← ctx_get guti eps_bearer_id;
  r_apn ← ctx_get guti apn_in_use;
  r_tai ← ctx_get guti tai;
  pkt ← lift (Packet.clear_pkt pkt);
  let gpkt := (GrpcPacket.construct m) <| GrpcPacket.msg_type := 1 |>
    <| GrpcPacket.guti := guti |> <| GrpcPacket.imsi := r_imsi |>
    <| GrpcPacket.s11_cteid_amf := cteid |> <| GrpcPacket.eps_bearer_id := r_ebi |>
    <| GrpcPacket.apn_in_use := r_apn |> <| GrpcPacket.tai := r_tai |> in
  ip ← gets (fun s => smf_amf_ip_addr (amf s));
  gpkt ← on_net (GreeterClient.SessionCreationFC (ip +:+ ":5005" +:+ to_string worker_id) gpkt);
  let guti := GrpcPacket.guti gpkt in
  let r_ebi := u8 (GrpcPacket.eps_bearer_id gpkt) in
  let ul := GrpcPacket.s1_uteid_ul gpkt in
  let cteid_upf := GrpcPacket.s11_cteid_upf gpkt in
  let ue_ip := GrpcPacket.ue_ip_addr gpkt in
  _ ← modify (on_amf (fun a => a <| g_upf_s1_ip_addr := GrpcPacket.g_upf_s1_ip_addr gpkt |>));
  _ ← modify (on_amf (fun a => a <| g_upf_s1_port := g_upf_s1_port a |>));
  _ ← ctx_set guti (fun c => c <| ip_addr := ue_ip |> <| s11_cteid_upf := cteid_upf |>
        <| s1_uteid_ul := ul |> <| tai_list := [tai c] |> <| tau_timer := g_timer |>
        <| e_rab_id := eps_bearer_id c |> <| k_enodeb := k_asme c |>);
  r_rab ← ctx_get guti e_rab_id;
  r_ken ← ctx_get guti k_enodeb;
  r_cap ← ctx_get guti nw_capability;
  r_tais ← ctx_get guti tai_list;
  r_tau ← ctx_get guti tau_timer;
  k_enc ← ctx_get guti k_nas_enc;
  k_int ← ctx_get guti k_nas_int;
  s1_ip ← gets (fun s => g_upf_s1_ip_addr (amf s));
  s1_port ← gets (fun s => g_upf_s1_port (amf s));
  pkt ← lift (Packet.clear_pkt pkt);
  pkt ← lift (Packet.append_items pkt
    [IU64 guti; IU8 r_ebi; IU8 r_rab; IU32 ul; IU64 r_ken; IU16 r_cap; IInt 1; IVec r_tais;
     IU64 r_tau; IStr ue_ip; IStr s1_ip; IInt s1_port; IBool true]);
  pkt ← lift (protect pkt k_enc k_int);
  pkt ← lift (s1ap_reply pkt 3);
  server_snd conn_fd pkt.

(** [Amf::handle_attach_complete] *)
Definition handle_attach_complete (pkt : Packet.t) : prog proc unit :=
  pkt ← lift (Packet.copy pkt);
  guti ← guti_of pkt "Zero guti: amf_handleattachcomplete";
  k_enc ← ctx_get guti k_nas_enc;
  k_int ← ctx_get guti k_nas_int;
  pkt ← lift (unprotect pkt k_enc k_int "hmac failure: amf_handleattachcomplete");
  '(r_ebi, pkt) ← lift (Packet.extract_item_uint8 pkt);
  '(dl, pkt) ← lift (Packet.extract_item_uint32 pkt);
  ctx_set guti (fun c => c <| s1_uteid_dl := dl |> <| emm_state := 1 |>).

(** [Amf::handle_modify_bearer] *)
Definition handle_modify_bearer (m : GrpcPacket.t) (pkt : Packet.t) (worker_id : Z)
  : prog proc unit :=
  pkt ← lift (Packet.copy pkt);
  guti ← guti_of pkt "Zero guti: amf_handlemodifybearer";
  r_ebi ← ctx_get guti eps_bearer_id;
  dl ← ctx_get guti s1_uteid_dl;
  cteid_upf ← ctx_get guti s11_cteid_upf;
  let gpkt := (GrpcPacket.construct m) <| GrpcPacket.guti := guti |>
    <| GrpcPacket.eps_bearer_id := r_ebi |> <| GrpcPacket.s1_uteid_dl := dl |>
    <| GrpcPacket.g_trafmon_ip_addr := g_trafmon_ip_addr |>
    <| GrpcPacket.g_trafmon_port := g_trafmon_port |> <| GrpcPacket.msg_type := 2 |> in
  ip ← gets (fun s => smf_amf_ip_addr (amf s));
  gpkt ← on_net (GreeterClient.ModifyBearerFC (ip +:+ ":5006" +:+ to_string worker_id) gpkt);
  if GrpcPacket.res gpkt then ctx_set guti (fun c => c <| ecm_state := 1 |>) else mret tt.

(** [Amf::handle_detach] *)
Definition handle_detach (m : GrpcPacket.t) (conn_fd : Z) (pkt : Packet.t) (worker_id : Z)
  : prog proc unit :=
  pkt ← lift (Packet.copy pkt);
  guti ← guti_of pkt "Zero guti: amf_handledetach";
  k_enc ← ctx_get guti k_nas_enc;
  k_int ← ctx_get guti k_nas_int;
  r_ebi ← ctx_get guti eps_bearer_id;
  r_tai ← ctx_get guti tai;
  cteid_upf ← ctx_get guti s11_cteid_upf;
  pkt ← lift (unprotect pkt k_enc k_int "hmac failure: amf_handledetach");
  '(guti, pkt) ← lift (Packet.extract_item_uint64 pkt);
  '(r_ksi, pkt) ← lift (Packet.extract_item_uint64 pkt);
  '(detach_type, pkt) ← lift (Packet.extract_item_uint64 pkt);
  let gpkt := (GrpcPacket.construct m) <| GrpcPacket.guti := guti |>
    <| GrpcPacket.eps_bearer_id := r_ebi |> <| GrpcPacket.tai := r_tai |>
    <| GrpcPacket.msg_type := 3 |> in
  ip ← gets (fun s => smf_amf_ip_addr (amf s));
  gpkt ← on_net (GreeterClient.DetachFC (ip +:+ ":5007" +:+ to_string worker_id) gpkt);
  if GrpcPacket.res gpkt then
    pkt ← lift (Packet.clear_pkt pkt);
    pkt ← lift (Packet.append_items pkt [IBool true]);
    pkt ← lift (protect pkt k_enc k_int);
    pkt ← lift (s1ap_reply pkt 5);
    _ ← server_snd conn_fd pkt;
    _ ← rem_itfid (S1ap.mme_s1ap_ue_id (Packet.s1ap_hdr pkt));
    rem_uectx guti
  else mret tt.

(** *** Handover *)

(** [upf_client.conn(g_amf_ip_addr, g_upf_s11_ip_addr, g_upf_s11_port)] *)
Definition upf_client_conn : prog proc sockaddr_in :=
  _ ← lift (Network.set_inet_sock_addr inet_aton g_amf_ip_addr 0);
  dst ← lift (Network.set_inet_sock_addr inet_aton g_upf_s11_ip_addr g_upf_s11_port);
  _ ← on_net (ho_udp_open g_amf_ip_addr);
  mret dst.

(** [upf_client.snd(pkt); upf_client.rcv(pkt)] *)
Definition upf_client_exchange (dst : sockaddr_in) (pkt : Packet.t) : prog proc Packet.t :=
  dgram ← lift (bytes_of pkt);
  _ ← on_net (n4_snd dst dgram);
  pkt ← lift (Packet.clear_pkt pkt);
  d ← on_net n4_rcv;
  '(status, buf, _) ← lift (UdpClient.recvfrom (Packet.data pkt) dst d);
  mret (pkt <| Packet.data := buf |> <| Packet.data_ptr := 0 |> <| Packet.plen := status |>).

(** [Amf::setup_indirect_tunnel] *)
Definition setup_indirect_tunnel (pkt : Packet.t) : prog proc unit :=
  pkt ← lift (Packet.copy pkt);
  '(dl_ho, pkt) ← lift (Packet.extract_item_uint32 pkt);
  dst ← upf_client_conn;
  guti ← get_guti pkt;
  cteid_upf ← ctx_get guti s11_cteid_upf;
  pkt ← lift (Packet.clear_pkt pkt);
  pkt ← lift (Packet.append_items pkt [IU32 dl_ho]);
  pkt ← lift (Packet.prepend_gtp_hdr pkt 2 4 (Packet.plen pkt) cteid_upf);
  pkt ← upf_client_exchange dst pkt;
  pkt ← lift (Packet.extract_gtp_hdr pkt);
  '(res, pkt) ← lift (Packet.extract_item_bool pkt);
  '(ul, pkt) ← lift (Packet.extract_item_uint32 pkt);
  fd ← on_net (ho_ran_connect s_ran_ip_addr s_ran_port);
  if (res : bool) then
    pkt ← lift (Packet.clear_pkt pkt);
    pkt ← lift (Packet.append_items pkt [IU32 ul]);
    pkt ← lift (s1ap_reply pkt 8);
    frame ← lift (framed_bytes_of pkt);
    on_net (ho_ran_snd fd frame)
  else mret tt.

(** [Amf::request_target_RAN] *)
Definition request_target_RAN (pkt : Packet.t) : prog proc unit :=
  pkt ← lift (Packet.copy pkt);
  '(handover_type, pkt) ← lift (Packet.extract_item_int pkt);
  '(s_enb, pkt) ← lift (Packet.extract_item_uint16 pkt);
  '(t_enb, pkt) ← lift (Packet.extract_item_uint16 pkt);
  '(enb, pkt) ← lift (Packet.extract_item_uint32 pkt);
  '(mme, pkt) ← lift (Packet.extract_item_uint32 pkt);
  guti ← get_guti pkt;
  pkt ← lift (Packet.clear_pkt pkt);
  pkt ← lift (Packet.append_items pkt [IU16 t_enb; IU32 enb; IU32 mme]);
  ul ← ctx_get guti s1_uteid_ul;
  pkt ← lift (Packet.append_items pkt [IU32 ul]);
  pkt ← lift (s1ap_reply pkt 7);
  fd ← on_net (ho_ran_connect t_ran_ip_addr t_ran_port);
  frame ← lift (framed_bytes_of pkt);
  on_net (ho_ran_snd fd frame).

(** [Amf::handle_handover] *)
Definition handle_handover (pkt : Packet.t) : prog proc unit :=
  pkt ← lift (Packet.copy pkt);
  request_target_RAN pkt.

(** [Amf::handle_handover_completion] *)
Definition handle_handover_completion (pkt : Packet.t) : prog proc unit :=
  pkt ← lift (Packet.copy pkt);
  dst ← upf_client_conn;
  guti ← get_guti pkt;
  cteid_upf ← ctx_get guti s11_cteid_upf;
  pkt ← lift (Packet.clear_pkt pkt);
  pkt ← lift (Packet.append_items pkt [IInt 1]);
  pkt ← lift (Packet.prepend_gtp_hdr pkt 2 5 (Packet.plen pkt) cteid_upf);
  pkt ← upf_client_exchange dst pkt;
  pkt ← lift (Packet.extract_gtp_hdr pkt);
  '(res, pkt) ← lift (Packet.extract_item_bool pkt);
  fd ← on_net (ho_ran_connect s_ran_ip_addr s_ran_port);
  if (res : bool) then
    pkt ← lift (Packet.clear_pkt pkt);
    pkt ← lift (Packet.append_items pkt [IBool res]);
    pkt ← lift (s1ap_reply pkt 9);
    frame ← lift (framed_bytes_of pkt);
    on_net (ho_ran_snd fd frame)
  else mret tt.

(** [Amf::teardown_indirect_tunnel] *)
Definition teardown_indirect_tunnel (pkt : Packet.t) : prog proc unit :=
  pkt ← lift (Packet.copy pkt);
  '(ul_ho, pkt) ← lift (Packet.extract_item_uint32 pkt);
  dst ← upf_client_conn;
  guti ← get_guti pkt;
  cteid_upf ← ctx_get guti s11_cteid_upf;
  pkt ← lift (Packet.clear_pkt pkt);
  pkt ← lift (Packet.append_items pkt [IU32 ul_ho]);
  pkt ← lift (Packet.prepend_gtp_hdr pkt 2 6 (Packet.plen pkt) cteid_upf);
  pkt ← upf_client_exchange dst pkt;
  pkt ← lift (Packet.extract_gtp_hdr pkt);
  '(res, pkt) ← lift (Packet.extract_item_bool pkt);
  mret tt.

(** *** The server *)

(** The two switches of [handle_ue] on a packet whose S1AP header was
    extracted.  Case 10 falls through to the default, which does nothing. *)
Definition dispatch (m : GrpcPacket.t) (xres0 k_asme0 : Z) (conn_fd worker_id : Z)
    (pkt : Packet.t) : prog proc unit :=
  if S1ap.mme_s1ap_ue_id (Packet.s1ap_hdr pkt) =? 0 then
    match S1ap.msg_type (Packet.s1ap_hdr pkt) with
    | 1 => handle_initial_attach m xres0 k_asme0 conn_fd pkt worker_id
    | _ => mret tt
    end
  else if 0 <? S1ap.mme_s1ap_ue_id (Packet.s1ap_hdr pkt) then
    match S1ap.msg_type (Packet.s1ap_hdr pkt) with
    | 2 =>
        res ← handle_autn conn_fd pkt;
        if (res : bool) then handle_security_mode_cmd conn_fd pkt else mret tt
    | 3 =>
        res ← handle_security_mode_complete conn_fd pkt;
        if (res : bool) then
          _ ← handle_location_update m pkt worker_id;
          handle_create_session m conn_fd pkt worker_id
        else mret tt
    | 4 =>
        _ ← handle_attach_complete pkt;
        handle_modify_bearer m pkt worker_id
    | 5 => handle_detach m conn_fd pkt worker_id
    | 7 => handle_handover pkt
    | 8 => setup_indirect_tunnel pkt
    | 9 => handle_handover_completion pkt
    | 10 => teardown_indirect_tunnel pkt
    | _ => mret tt
    end
  else mret tt.

(** [handle_ue]: the status tells the worker to keep or close the
    connection; [None] is a read that does not return. *)
Definition handle_ue (m : GrpcPacket.t) (xres0 k_asme0 : Z) (conn_fd worker_id : Z)
    (evs : list Network.event) : prog proc (option (Z * list Network.event)) :=
  pkt ← lift (Packet.construct (h_gtp h0) (h_s1ap h0) (h_dia h0));
  r ← lift (SctpServer.rcv conn_fd pkt evs);
  match r with
  | None => mret None
  | Some (pkt, _, evs) =>
      if Packet.plen pkt <=? 0 then mret (Some (0, evs))
      else
        pkt ← lift (Packet.extract_s1ap_hdr pkt);
        _ ← dispatch m xres0 k_asme0 conn_fd worker_id pkt;
        mret (Some (1, evs))
  end.

End Handlers.

Arguments proc : clear implicits.
End Amf.

(** ** Running the handlers *)

Ltac amf_st :=
  unfold Amf.on_amf; cbn [Amf.amf Amf.net Amf.out Amf.amf_ids Amf.ue_count Amf.s1amf_id Amf.ue_ctx
    Amf.g_ausf_ip_addr Amf.smf_amf_ip_addr Amf.g_upf_s1_ip_addr Amf.g_upf_s1_port
    apply_update constant].

Section Runs.
Context {W : Type} `{AS : AusfStub W} `{SS : SmfStub W} `{HO : Handover W}.
Context `{CL : CryptoLib, LAWS : !CryptoLaws}.
Context (inet_aton : string -> option Z) (garbage : Z -> Amf.UeContext).

(** A state, member by member. *)
Context (ids : Amf.AmfIds) (ausf_ip smf_ip : string).

Definition st (cnt : Z) (s1 : gmap Z Z) (ctx : gmap Z Amf.UeContext) (s1ip : string) (s1port : Z)
    (w : W) (o : list (Z * list Z)) : Amf.proc W :=
  Amf.mk_proc (Amf.mk ids cnt s1 ctx ausf_ip smf_ip s1ip s1port) w o.

Let new := Amf.new_ctx garbage.

Lemma amf_set_run {A} guti f (k : unit -> prog (Amf.proc W) A) cnt s1 ctx ip port w o :
  (x ← Amf.ctx_set garbage guti f; k x) (st cnt s1 ctx ip port w o) =
  k tt (st cnt s1 (upd (new guti) f guti ctx) ip port w o).
Proof. reflexivity. Qed.

Lemma amf_set_end guti f cnt s1 ctx ip port w o :
  Amf.ctx_set garbage guti f (st cnt s1 ctx ip port w o) =
  (Ret tt, st cnt s1 (upd (new guti) f guti ctx) ip port w o).
Proof. reflexivity. Qed.

Lemma amf_get_run {A B} guti (f : Amf.UeContext -> B) (k : B -> prog (Amf.proc W) A)
    cnt s1 ctx ip port w o :
  (x ← Amf.ctx_get garbage guti f; k x) (st cnt s1 ctx ip port w o) =
  k (f (at_or (new guti) ctx guti)) (st cnt s1 (touch (new guti) guti ctx) ip port w o).
Proof. unfold Amf.ctx_get, st. run. amf_st. by rewrite at_or_touch. Qed.

Lemma on_net_run {A B} (c : prog W A) (k : A -> prog (Amf.proc W) B) cnt s1 ctx ip port w o a w' :
  c w = (Ret a, w') ->
  (x ← Amf.on_net c; k x) (st cnt s1 ctx ip port w o) = k a (st cnt s1 ctx ip port w' o).
Proof. intros E. eapply run_bind. unfold Amf.on_net, st. cbn [Amf.net]. by rewrite E. Qed.

(** The guard every handler starts with. *)
Lemma guti_of_run {A} h pre post msg guti (k : Z -> prog (Amf.proc W) A) cnt s1 ctx ip port w o :
  fits pre post -> s1 !! h_mme h = Some guti -> guti <> 0 ->
  (x ← Amf.guti_of (rd h pre post) msg; k x) (st cnt s1 ctx ip port w o) =
  k guti (st cnt s1 ctx ip port w o).
Proof.
  intros Hf Hg Hnz. unfold Amf.guti_of, Amf.get_guti. run. run with (by apply copy_rd).
  unfold st. amf_st. change (S1ap.mme_s1ap_ue_id (Packet.s1ap_hdr (rd h pre post))) with (h_mme h).
  rewrite Hg. cbn [from_option id]. by rewrite (proj2 (Z.eqb_neq guti 0)).
Qed.

Lemma guti_of_unknown {A} h pre post msg (k : Z -> prog (Amf.proc W) A) s :
  fits pre post -> Amf.s1amf_id (Amf.amf s) !! h_mme h = None ->
  (x ← Amf.guti_of (rd h pre post) msg; k x) s = (Fault (Exit msg), s).
Proof.
  intros Hf Hg. unfold Amf.guti_of, Amf.get_guti. run. run with (by apply copy_rd).
  change (S1ap.mme_s1ap_ue_id (Packet.s1ap_hdr (rd h pre post))) with (h_mme h). by rewrite Hg.
Qed.

(** Sending. *)
Lemma server_snd_rd fd h pre post cnt s1 ctx ip port w o :
  4 + len pre + len post <= BUF_SIZE ->
  Amf.server_snd fd (rd h pre post) (st cnt s1 ctx ip port w o) =
  (Ret tt, st cnt s1 ctx ip port w (o ++ [(fd, frame (pre ++ post))])).
Proof.
  intros H. unfold Amf.server_snd. erewrite run_lift; [reflexivity | by apply framed_bytes_rd].
Qed.

(** A plain answer. *)
Lemma plain_answer fd p its ty enb mme cnt s1 ctx ip port w o :
  length (Packet.data p) = Z.to_nat BUF_SIZE -> len (enc_items its) <= 900 ->
  (pkt ← lift (Packet.clear_pkt p);
   pkt ← lift (Packet.append_items pkt its);
   pkt ← lift (Packet.prepend_s1ap_hdr pkt ty (Packet.plen pkt) enb mme);
   Amf.server_snd fd pkt) (st cnt s1 ctx ip port w o) =
  (Ret tt, st cnt s1 ctx ip port w
     (o ++ [(fd, frame (S1ap.to_bytes (answer_hdr (hdrs_of p) ty (len (enc_items its)) enb mme) ++
                        enc_items its))])).
Proof.
  intros Hp Hl. run with (by apply clear_pkt_rd).
  run with (apply append_items_rd; unfold fits, BUF_SIZE; len_lia). cbn [app].
  run with (apply prepend_s1ap_hdr_rd; unfold BUF_SIZE; len_lia).
  rewrite server_snd_rd by (unfold BUF_SIZE; len_lia).
  cbn [Packet.plen rd rdl]. by rewrite !app_nil_r.
Qed.

(** A protected one. *)
Lemma protected_answer fd p its ty k k' wire cnt s1 ctx ip port w o :
  length (Packet.data p) = Z.to_nat BUF_SIZE -> len (enc_items its) <= 900 ->
  sealed (enc_items its) wire ->
  (pkt ← lift (Packet.clear_pkt p);
   pkt ← lift (Packet.append_items pkt its);
   pkt ← lift (protect pkt k k');
   pkt ← lift (Amf.s1ap_reply pkt ty);
   Amf.server_snd fd pkt) (st cnt s1 ctx ip port w o) =
  (Ret tt, st cnt s1 ctx ip port w
     (o ++ [(fd, frame (S1ap.to_bytes (answer_hdr (hdrs_of p) ty (len wire)
                          (h_enb (hdrs_of p)) (h_mme (hdrs_of p))) ++ wire))])).
Proof.
  intros Hp Hl Hs. run with (by apply clear_pkt_rd).
  run with (apply append_items_rd; unfold fits, BUF_SIZE; len_lia). cbn [app].
  pose proof (enc_size_bounds (len (enc_items its))). pose proof (len_sealed _ _ Hs) as Hw.
  destruct (protect_rd (hdrs_of p) (enc_items its) wire k k' Hs) as (m & c & -> & Hm & E);
    [unfold BUF_SIZE; lia|].
  run with (exact E). unfold Amf.s1ap_reply. rewrite len_app in Hw.
  run with (apply prepend_s1ap_hdr_rd; unfold BUF_SIZE; lia).
  rewrite server_snd_rd by (unfold BUF_SIZE; len_lia). by rewrite <- app_assoc.
Qed.

(** The state as it stands, written out. *)
Ltac at_state s := match goal with |- _ ?x = _ => change x with s end.

Ltac amf_run := repeat (rewrite amf_set_run || rewrite amf_get_run; autorewrite with omap; cbv beta).

(** What [handle_initial_attach] leaves in the context: the two locals, not
    the vector. *)
Definition attached_ctx (c : Amf.UeContext) (i enb mme ta cap xres0 k_asme0 : Z) : Amf.UeContext :=
  (Amf.init_ctx i enb mme ta cap c) <| Amf.xres := xres0 |> <| Amf.k_asme := k_asme0 |>
    <| Amf.ksi_asme := 1 |>.

(** The packet given to the stub. *)
Definition attach_gpkt (m : GrpcPacket.t) (i nw : Z) : GrpcPacket.t :=
  (GrpcPacket.construct m) <| GrpcPacket.msg_type := 1 |> <| GrpcPacket.imsi := i |>
    <| GrpcPacket.plmn_id := Amf.plmn_id ids |> <| GrpcPacket.num_autn_vectors := 1 |>
    <| GrpcPacket.nw_type := nw |>.

Lemma initial_attach_run m xres0 k_asme0 fd h pre wid i ta ksi cap guti ch msg gpkt w' cnt s1 ctx ip port w o :
  let its := [IU64 i; IU64 ta; IU64 ksi; IU16 cap] in
  let mme := u32 (u64 (cnt + 1)) in
  let c := at_or (new guti) ctx guti in
  let body := [IU64 (GrpcPacket.autn_num gpkt); IU64 (GrpcPacket.rand_num gpkt); IU64 1] in
  fits pre (enc_items its) -> 0 <= i < 2 ^ 64 ->
  Telecom.get_guti (Amf.guamfi ids) i = Ret guti ->
  Amf.ausf_channel_of ausf_ip wid = Ret ch ->
  GreeterClient.AmfAusfInteraction ch "AMF" (attach_gpkt m i (Amf.nw_type c)) w =
    (Ret (msg, gpkt), w') ->
  Amf.handle_initial_attach garbage m xres0 k_asme0 fd (rd h pre (enc_items its)) wid
    (st cnt s1 ctx ip port w o) =
  (Ret tt, st (u64 (cnt + 1)) (<[mme := guti]> s1)
     (<[guti := attached_ctx c i (h_enb h) mme (u64 ta) (u16 cap) xres0 k_asme0]> ctx) ip port w'
     (o ++ [(fd, frame (S1ap.to_bytes (answer_hdr h 1 24 (h_enb h) mme) ++ enc_items body))])).
Proof.
  intros its mme c body Hf Hi Hg Hch Hnet. subst its. unfold Amf.handle_initial_attach.
  run with (by apply copy_rd). cbn [enc_items enc_item app] in *. rewrite <- ?app_assoc. cbn [app].
  run with (apply extract_uint64_rd). run with (apply extract_uint64_rd).
  run with (apply extract_uint64_rd). run with (apply extract_uint16_rd).
  change (Amf.amf_ids (Amf.amf (st cnt s1 ctx ip port w o))) with ids.
  rewrite (u64_id i) by done. run with (exact Hg). unfold Amf.new_identity. run.
  repeat match goal with |- context [u32 (Amf.ue_count ?x)] => change (u32 (Amf.ue_count x)) with mme end.
  at_state (st (u64 (cnt + 1)) (<[mme:=guti]> s1) ctx ip port w o).
  rewrite amf_set_run. match goal with |- context [upd _ ?f _ _] => set (f0 := f) end. amf_run.
  fold c. change (Amf.nw_type (f0 c)) with (Amf.nw_type c).
  run. run with (exact Hch).
  erewrite on_net_run by exact Hnet. cbv beta iota. amf_run.
  unfold upd. fold c. cbn [apply_update constant Amf.ksi_asme].
  rewrite plain_answer; [reflexivity | apply rd_length | cbn [enc_items enc_item]; len_lia].
  unfold fits, BUF_SIZE in *. len_lia.
Qed.

Lemma autn_run fd h pre res guti c cnt s1 ctx ip port w o :
  fits pre (enc_items [IU64 res]) -> s1 !! h_mme h = Some guti -> guti <> 0 ->
  ctx !! guti = Some c ->
  Amf.handle_autn garbage fd (rd h pre (enc_items [IU64 res])) (st cnt s1 ctx ip port w o) =
  (Ret true, st cnt s1 ctx ip port w o).
Proof.
  intros Hf Hg Hnz Hc. unfold Amf.handle_autn. run with (by apply copy_rd).
  rewrite (guti_of_run _ _ _ _ guti) by done.
  cbn [enc_items enc_item]. run with (apply extract_uint64_rd). amf_run.
  rewrite (touch_id _ _ _ _ Hc). by case_match.
Qed.

(** The context after the two key derivations. *)
Definition secured_ctx (c : Amf.UeContext) : Amf.UeContext :=
  let k := Amf.nas_key (Amf.k_asme c) 1 c in
  c <| Amf.nas_enc_algo := 1 |> <| Amf.k_nas_enc := k |>
    <| Amf.nas_int_algo := 1 |> <| Amf.k_nas_int := k |>.

Definition security_items (c : Amf.UeContext) : list item :=
  [IU64 (Amf.ksi_asme c); IU16 (Amf.nw_capability c); IU64 1; IU64 1].

Lemma security_mode_cmd_run fd h pre post guti c cnt s1 ctx ip port w o :
  let body := enc_items (security_items c) in
  fits pre post -> s1 !! h_mme h = Some guti -> guti <> 0 -> ctx !! guti = Some c ->
  Amf.handle_security_mode_cmd garbage fd (rd h pre post) (st cnt s1 ctx ip port w o) =
  (Ret tt, st cnt s1 (<[guti := secured_ctx c]> ctx) ip port w
     (o ++ [(fd, frame (S1ap.to_bytes (answer_hdr h 2 46 (h_enb h) (h_mme h)) ++
                        mac body ++ body))])).
Proof.
  intros body Hf Hg Hnz Hc. unfold Amf.handle_security_mode_cmd.
  run with (by apply copy_rd). rewrite (guti_of_run _ _ _ _ guti) by done.
  unfold Amf.set_crypt_context, Amf.set_integrity_context. amf_run.
  match goal with |- context [upd _ ?f _ _] => set (f0 := f) end. unfold upd.
  rewrite !(at_or_Some _ _ _ _ Hc). change (f0 c) with (secured_ctx c). clear f0.
  match goal with |- context [IU64 ?a :: IU16 ?b :: ?l] =>
    change (IU64 a :: IU16 b :: l) with (security_items c) end.
  run with (apply clear_pkt_rd, rd_length; unfold fits in *; len_lia).
  run with (apply append_items_rd; vm_compute; discriminate). cbn [app]. fold body.
  assert (len body = 26) as Lb by reflexivity. change HMAC_ON with true. cbv iota.
  run with (apply add_hmac_rd; rewrite len_nil, Lb; vm_compute; discriminate). rewrite !app_nil_r.
  unfold Amf.s1ap_reply.
  run with (apply prepend_s1ap_hdr_rd; rewrite len_app, len_mac, len_nil, Lb; vm_compute; discriminate).
  rewrite server_snd_rd by (rewrite !len_app, len_s1ap, len_mac, len_nil, Lb; vm_compute; discriminate).
  cbn [Packet.plen rd rdl]. rewrite !app_nil_r, len_app, len_mac, Lb. done.
Qed.

(** A protected message from the base station, unpacked by every handler
    that expects one. *)
Lemma security_mode_complete_run fd h pre b wire guti c cnt s1 ctx ip port w o :
  sealed (enc_items [IBool b]) wire -> fits pre wire ->
  s1 !! h_mme h = Some guti -> guti <> 0 -> ctx !! guti = Some c ->
  Amf.handle_security_mode_complete garbage fd (rd h pre wire) (st cnt s1 ctx ip port w o) =
  (Ret b, st cnt s1 ctx ip port w o).
Proof.
  intros Hs Hf Hg Hnz Hc. unfold Amf.handle_security_mode_complete.
  run with (by apply copy_rd). rewrite (guti_of_run _ _ _ _ guti) by done. amf_run.
  rewrite !(touch_id _ _ _ _ Hc).
  run with (apply unprotect_rd; [exact Hs | apply bytes_enc_items | exact Hf]).
  cbn [enc_items enc_item]. run with (apply extract_bool_rd). by destruct b.
Qed.

Lemma security_mode_complete_bad fd h pre mac0 cipher guti c cnt s1 ctx ip port w o :
  len mac0 = 20 -> fits pre (mac0 ++ cipher) -> mac0 <> mac cipher ->
  s1 !! h_mme h = Some guti -> guti <> 0 -> ctx !! guti = Some c ->
  Amf.handle_security_mode_complete garbage fd (rd h pre (mac0 ++ cipher)) (st cnt s1 ctx ip port w o) =
  (Fault (Exit "hmac failure: amf_handlesecuritymodecomplete"), st cnt s1 ctx ip port w o).
Proof.
  intros Hm Hf Hne Hg Hnz Hc. unfold Amf.handle_security_mode_complete.
  run with (by apply copy_rd). rewrite (guti_of_run _ _ _ _ guti) by done. amf_run.
  rewrite !(touch_id _ _ _ _ Hc). apply run_lift_fault. by apply unprotect_bad.
Qed.

(** The location update reads twelve bytes where the caller's cursor is. *)
Definition location_gpkt (m : GrpcPacket.t) (i : Z) : GrpcPacket.t :=
  (GrpcPacket.construct m) <| GrpcPacket.mmei := Amf.amfi ids |> <| GrpcPacket.imsi := i |>
    <| GrpcPacket.msg_type := 2 |>.

Lemma location_update_run m h pre b4 b8 post wid guti c ch msg gpkt w' cnt s1 ctx ip port w o :
  len b4 = 4 -> len b8 = 8 -> fits pre (b4 ++ b8 ++ post) ->
  s1 !! h_mme h = Some guti -> guti <> 0 -> ctx !! guti = Some c ->
  Amf.ausf_channel_of ausf_ip wid = Ret ch ->
  GreeterClient.AmfAusfInteraction ch "AMF" (location_gpkt m (Amf.imsi c)) w = (Ret (msg, gpkt), w') ->
  Amf.handle_location_update garbage m (rd h pre (b4 ++ b8 ++ post)) wid (st cnt s1 ctx ip port w o) =
  (Ret tt, st cnt s1
     (<[guti := c <| Amf.default_apn := le_val b8 |> <| Amf.apn_in_use := le_val b8 |>]> ctx)
     ip port w' o).
Proof.
  intros H4 H8 Hf Hg Hnz Hc Hch Hnet. unfold Amf.handle_location_update.
  run with (by apply copy_rd). rewrite (guti_of_run _ _ _ _ guti) by done. amf_run.
  rewrite !(touch_id _ _ _ _ Hc), (at_or_Some _ _ _ _ Hc). run. run with (exact Hch).
  erewrite on_net_run by exact Hnet. cbv beta iota.
  run with (unfold Packet.extract_diameter_hdr; rewrite extract_raw_rd by done; reflexivity).
  run with (unfold Packet.extract_item_uint64;
    match goal with |- context [Packet.extract_raw ?q 8] =>
      change q with (rd (set_dia h (Diameter.of_bytes b4)) (pre ++ b4) (b8 ++ post)) end;
    rewrite extract_raw_rd by done; reflexivity).
  rewrite amf_set_end. unfold upd. by rewrite (at_or_Some _ _ _ _ Hc).
Qed.

Lemma attach_complete_run h pre ebi dl wire guti c cnt s1 ctx ip port w o :
  sealed (enc_items [IU8 ebi; IU32 dl]) wire -> fits pre wire ->
  s1 !! h_mme h = Some guti -> guti <> 0 -> ctx !! guti = Some c ->
  Amf.handle_attach_complete garbage (rd h pre wire) (st cnt s1 ctx ip port w o) =
  (Ret tt, st cnt s1
     (<[guti := c <| Amf.s1_uteid_dl := u32 dl |> <| Amf.emm_state := 1 |>]> ctx) ip port w o).
Proof.
  intros Hs Hf Hg Hnz Hc. unfold Amf.handle_attach_complete.
  run with (by apply copy_rd). rewrite (guti_of_run _ _ _ _ guti) by done. amf_run.
  rewrite !(touch_id _ _ _ _ Hc).
  run with (apply unprotect_rd; [exact Hs | apply bytes_enc_items | exact Hf]).
  cbn [enc_items enc_item]. run with (apply extract_uint8_rd). run with (apply extract_uint32_rd).
  rewrite amf_set_end. unfold upd. by rewrite (at_or_Some _ _ _ _ Hc).
Qed.

Definition modify_gpkt (m : GrpcPacket.t) (guti : Z) (c : Amf.UeContext) : GrpcPacket.t :=
  (GrpcPacket.construct m) <| GrpcPacket.guti := guti |>
    <| GrpcPacket.eps_bearer_id := Amf.eps_bearer_id c |>
    <| GrpcPacket.s1_uteid_dl := Amf.s1_uteid_dl c |>
    <| GrpcPacket.g_trafmon_ip_addr := Amf.g_trafmon_ip_addr |>
    <| GrpcPacket.g_trafmon_port := Amf.g_trafmon_port |> <| GrpcPacket.msg_type := 2 |>.

Lemma amf_modify_bearer_run m h pre post wid guti c gpkt w' cnt s1 ctx ip port w o :
  fits pre post -> s1 !! h_mme h = Some guti -> guti <> 0 -> ctx !! guti = Some c ->
  GreeterClient.ModifyBearerFC (smf_ip +:+ ":5006" +:+ to_string wid) (modify_gpkt m guti c) w =
    (Ret gpkt, w') ->
  Amf.handle_modify_bearer garbage m (rd h pre post) wid (st cnt s1 ctx ip port w o) =
  (Ret tt, st cnt s1
     (if GrpcPacket.res gpkt then <[guti := c <| Amf.ecm_state := 1 |>]> ctx else ctx)
     ip port w' o).
Proof.
  intros Hf Hg Hnz Hc Hnet. unfold Amf.handle_modify_bearer.
  run with (by apply copy_rd). rewrite (guti_of_run _ _ _ _ guti) by done. amf_run.
  rewrite !(touch_id _ _ _ _ Hc), (at_or_Some _ _ _ _ Hc). run.
  erewrite on_net_run by exact Hnet. destruct (GrpcPacket.res gpkt); [|done].
  rewrite amf_set_end. unfold upd. by rewrite (at_or_Some _ _ _ _ Hc).
Qed.

Definition detach_gpkt (m : GrpcPacket.t) (guti : Z) (c : Amf.UeContext) : GrpcPacket.t :=
  (GrpcPacket.construct m) <| GrpcPacket.guti := guti |>
    <| GrpcPacket.eps_bearer_id := Amf.eps_bearer_id c |> <| GrpcPacket.tai := Amf.tai c |>
    <| GrpcPacket.msg_type := 3 |>.

Definition detach_items (guti ksi ty : Z) : list item := [IU64 guti; IU64 ksi; IU64 ty].

Lemma amf_detach_run m fd h pre guti' ksi ty wire wire' wid guti c gpkt w' cnt s1 ctx ip port w o :
  sealed (enc_items (detach_items guti' ksi ty)) wire -> fits pre wire -> 0 <= guti' < 2 ^ 64 ->
  s1 !! h_mme h = Some guti -> guti <> 0 -> ctx !! guti = Some c ->
  sealed (enc_items [IBool true]) wire' ->
  GreeterClient.DetachFC (smf_ip +:+ ":5007" +:+ to_string wid) (detach_gpkt m guti' c) w =
    (Ret gpkt, w') ->
  Amf.handle_detach garbage m fd (rd h pre wire) wid (st cnt s1 ctx ip port w o) =
  (Ret tt,
   if GrpcPacket.res gpkt
   then st cnt (delete (u32 (h_mme h)) s1) (delete guti' ctx) ip port w'
          (o ++ [(fd, frame (S1ap.to_bytes (answer_hdr h 5 (len wire') (h_enb h) (h_mme h)) ++ wire'))])
   else st cnt s1 ctx ip port w' o).
Proof.
  intros Hs Hf Hr Hg Hnz Hc Hs' Hnet. unfold Amf.handle_detach.
  run with (by apply copy_rd). rewrite (guti_of_run _ _ _ _ guti) by done. amf_run.
  rewrite !(touch_id _ _ _ _ Hc), !(at_or_Some _ _ _ _ Hc).
  run with (apply unprotect_rd; [exact Hs | apply bytes_enc_items | exact Hf]).
  cbn [detach_items enc_items enc_item].
  do 3 (run with (apply extract_uint64_rd)). rewrite (u64_id guti') by done.
  erewrite on_net_run by exact Hnet. destruct (GrpcPacket.res gpkt); [|done].
  run with (apply clear_pkt_rd, rd_length; unfold fits, BUF_SIZE; len_lia).
  run with (apply append_items_rd; vm_compute; discriminate). cbn [app].
  pose proof (len_sealed _ _ Hs') as Hw. change (enc_size (len (enc_items [IBool true]))) with 16 in Hw.
  destruct (protect_rd h (enc_items [IBool true]) wire' (Amf.k_nas_enc c) (Amf.k_nas_int c) Hs')
    as (x & y & -> & Hx & E); [vm_compute; discriminate|]. rewrite len_app in Hw.
  run with (exact E). unfold Amf.s1ap_reply.
  run with (apply prepend_s1ap_hdr_rd; unfold BUF_SIZE; lia).
  erewrite run_bind; [|apply server_snd_rd; unfold BUF_SIZE; len_lia].
  unfold Amf.rem_itfid, Amf.rem_uectx, modify. run. unfold st. amf_st.
  cbn [Packet.plen rd rdl]. by rewrite <- app_assoc.
Qed.

(** The context the session request is made from, and what it becomes. *)
Definition session_ctx (c : Amf.UeContext) (n : Z) : Amf.UeContext :=
  c <| Amf.upf_smf_port := Amf.g_upf_smf_port |> <| Amf.upf_smf_ip_addr := Amf.g_upf_smf_ip_addr |>
    <| Amf.s11_cteid_amf := n |> <| Amf.eps_bearer_id := 5 |>.

Definition create_gpkt (m : GrpcPacket.t) (guti n : Z) (c : Amf.UeContext) : GrpcPacket.t :=
  (GrpcPacket.construct m) <| GrpcPacket.msg_type := 1 |> <| GrpcPacket.guti := guti |>
    <| GrpcPacket.imsi := Amf.imsi c |> <| GrpcPacket.s11_cteid_amf := n |>
    <| GrpcPacket.eps_bearer_id := 5 |> <| GrpcPacket.apn_in_use := Amf.apn_in_use c |>
    <| GrpcPacket.tai := Amf.tai c |>.

Definition accepted_ctx (c : Amf.UeContext) (n : Z) (g : GrpcPacket.t) : Amf.UeContext :=
  (session_ctx c n) <| Amf.ip_addr := GrpcPacket.ue_ip_addr g |>
    <| Amf.s11_cteid_upf := GrpcPacket.s11_cteid_upf g |>
    <| Amf.s1_uteid_ul := GrpcPacket.s1_uteid_ul g |> <| Amf.tai_list := [Amf.tai c] |>
    <| Amf.tau_timer := Amf.g_timer |> <| Amf.e_rab_id := 5 |> <| Amf.k_enodeb := Amf.k_asme c |>.

(** The attach accept message. *)
Definition accept_items (guti : Z) (c : Amf.UeContext) (g : GrpcPacket.t) (s1port : Z) : list item :=
  [IU64 guti; IU8 (u8 (GrpcPacket.eps_bearer_id g)); IU8 5; IU32 (GrpcPacket.s1_uteid_ul g);
   IU64 (Amf.k_asme c); IU16 (Amf.nw_capability c); IInt 1; IVec [Amf.tai c]; IU64 Amf.g_timer;
   IStr (GrpcPacket.ue_ip_addr g); IStr (GrpcPacket.g_upf_s1_ip_addr g); IInt s1port; IBool true].

Lemma create_session_run m fd h pre post wid guti n c g wire w' cnt s1 ctx ip port w o :
  let body := enc_items (accept_items guti c g port) in
  fits pre post -> s1 !! h_mme h = Some guti -> guti <> 0 -> ctx !! guti = Some c ->
  get_s11cteid guti = Ret n ->
  GreeterClient.SessionCreationFC (smf_ip +:+ ":5005" +:+ to_string wid) (create_gpkt m guti n c) w =
    (Ret g, w') ->
  GrpcPacket.guti g = guti -> len (c_str (GrpcPacket.ue_ip_addr g)) <= 100 ->
  len (c_str (GrpcPacket.g_upf_s1_ip_addr g)) <= 100 -> sealed body wire ->
  Amf.handle_create_session garbage m fd (rd h pre post) wid (st cnt s1 ctx ip port w o) =
  (Ret tt, st cnt s1 (<[guti := accepted_ctx c n g]> ctx) (GrpcPacket.g_upf_s1_ip_addr g) port w'
     (o ++ [(fd, frame (S1ap.to_bytes (answer_hdr h 3 (len wire) (h_enb h) (h_mme h)) ++ wire))])).
Proof.
  intros body Hf Hg Hnz Hc Hn Hnet Hgg Hl1 Hl2 Hs. unfold Amf.handle_create_session.
  run with (by apply copy_rd). rewrite (guti_of_run _ _ _ _ guti) by done.
  unfold Amf.set_upf_info. rewrite amf_set_run. run with (exact Hn).
  rewrite amf_set_run, upd_upd. cbv beta.
  match goal with |- context [upd _ ?f _ _] => set (f0 := f) end. amf_run.
  rewrite !(at_or_Some _ _ _ _ Hc). change (f0 c) with (session_ctx c n).
  run with (apply clear_pkt_rd, rd_length; unfold fits in *; len_lia).
  erewrite on_net_run by exact Hnet. rewrite Hgg. run.
  at_state (st cnt s1 (upd (new guti) f0 guti ctx) (GrpcPacket.g_upf_s1_ip_addr g) port w' o).
  rewrite amf_set_run, upd_upd.
  match goal with |- context [upd _ ?f _ _] => set (f1 := f) end. amf_run.
  rewrite !(at_or_Some _ _ _ _ Hc). change (f1 c) with (accepted_ctx c n g). run.
  match goal with |- context [IU64 guti :: ?l] =>
    change (IU64 guti :: l) with (accept_items guti c g port) end.
  rewrite protected_answer with (wire := wire).
  - unfold upd. by rewrite !(at_or_Some _ _ _ _ Hc).
  - by apply rd_length.
  - unfold accept_items. cbn [enc_items enc_item map concat]. len_lia.
  - exact Hs.
Qed.

End Runs.

(** ** From the wire to the handlers *)

(** The packet the handlers get. *)
Definition s1ap_pkt (h : hdrs) (body : list Z) : Packet.t := rd h (S1ap.to_bytes (h_s1ap h)) body.

Section HandleUe.
Context {W : Type} `{AS : AusfStub W} `{SS : SmfStub W} `{HO : Handover W} `{CL : CryptoLib}.
Context (inet_aton : string -> option Z) (garbage : Z -> Amf.UeContext) (h0 : hdrs).

Definition received (hd : S1ap.t) : hdrs := mk_hdrs (Gtp.construct (h_gtp h0)) hd (h_dia h0).

Lemma handle_ue_run m xres0 k_asme0 fd wid evs hd body rest (p : Amf.proc W) :
  0 <= fd -> S1ap.wf hd -> len body <= 1000 ->
  delivered evs = s1ap_frame hd body ++ rest ->
  exists evs', delivered evs' = rest /\
    Amf.handle_ue inet_aton garbage h0 m xres0 k_asme0 fd wid evs p =
    (_ ← Amf.dispatch inet_aton garbage m xres0 k_asme0 fd wid (s1ap_pkt (received hd) body);
     mret (Some (1, evs'))) p.
Proof.
  intros Hfd Hw Hl Hd. unfold Amf.handle_ue. run with (apply construct_rd).
  destruct (read_sctp_pkt_spec fd (rd (mk_hdrs (Gtp.construct (h_gtp h0)) (h_s1ap h0) (h_dia h0)) [] [])
    evs (S1ap.to_bytes hd ++ body) rest) as (evs' & E & Hr);
    [done | reflexivity | exact Hd | unfold BUF_SIZE; len_lia |].
  exists evs'. split; [done|]. unfold SctpServer.rcv.
  run with (rewrite E; reflexivity). cbn [option_map]. cbv beta iota.
  change (Packet.plen (rd ?x ?y ?z)) with (len (y ++ z)).
  rewrite (proj2 (Z.leb_gt _ _)) by (cbn [app]; len_lia).
  run with (by apply (extract_s1ap_hdr_rd _ [])). done.
Qed.

(** A connection that is closed, at once or in the middle of a length, is
    reported to the worker, which forgets it; no handler runs. *)
Lemma handle_ue_closed m xres0 k_asme0 fd wid evs (p : Amf.proc W) :
  0 <= fd -> Amf.handle_ue inet_aton garbage h0 m xres0 k_asme0 fd wid (Network.Closed :: evs) p =
  (Ret (Some (0, Network.Closed :: evs)), p).
Proof.
  intros Hfd. unfold Amf.handle_ue. run with (apply construct_rd).
  erewrite run_lift; [|unfold SctpServer.rcv, Network.read_sctp_pkt;
    rewrite clear_pkt_rd by reflexivity; res; unfold Network.read_stream;
    rewrite (proj2 (Z.ltb_ge fd 0)) by lia; reflexivity].
  reflexivity.
Qed.
End HandleUe.

(** ** The core network behind the AMF *)

(** Both services in one world; calls to one leave the other alone. *)
Class CoreContract (W : Type) `{AS : AusfStub W} `{SS : SmfStub W}
    `{!AusfContract W} `{!SmfContract W} := {
  ausf_frame ch m w r w' S :
    call_AmfAusfInteraction ch m w = (r, w') -> smf_sessions S w -> smf_sessions S w';
  smf_frame ch m w r w' :
    call_AmfSmfInteraction ch m w = (r, w') -> ausf_ready w ->
    ausf_ready w' /\ (forall i k x, ausf_knows i k x w' <-> ausf_knows i k x w)
}.

(** An AMF of the deployment that found both services in the registry. *)
Record amf_config `{AusfContract W} (a : Amf.t) : Prop := {
  cfg_ids : Amf.amf_ids a = Amf.mk_ids 1 1 11 1 1 11 1111;
  cfg_ausf wid : 0 <= wid -> exists ch,
    Amf.ausf_channel_of (Amf.g_ausf_ip_addr a) wid = Ret ch /\ ausf_channel ch = true;
  cfg_smf : Amf.smf_amf_ip_addr a = "172.18.0.5";
  cfg_port : Amf.g_upf_s1_port a = 7100
}.

Lemma smf_channel_5005 wid : smf_channel ("172.18.0.5" +:+ ":5005" +:+ to_string wid) = true.
Proof. reflexivity. Qed.
Lemma smf_channel_5006 wid : smf_channel ("172.18.0.5" +:+ ":5006" +:+ to_string wid) = true.
Proof. reflexivity. Qed.
Lemma smf_channel_5007 wid : smf_channel ("172.18.0.5" +:+ ":5007" +:+ to_string wid) = true.
Proof. reflexivity. Qed.

Section Properties.
Context {W : Type} `{AS : AusfStub W} `{SS : SmfStub W} `{HO : Handover W}.
Context `{CL : CryptoLib, LAWS : !CryptoLaws}.
Context `{AC : !AusfContract W} `{SC : !SmfContract W} `{CC : !CoreContract W}.
Context (inet_aton : string -> option Z) (garbage : Z -> Amf.UeContext) (h0 : hdrs).

(** The subscribers the AUSF knows and the sessions the SMF has. *)
Definition core_ok (know : Z -> Z -> Z -> Prop) (S : gmap Z session) (w : W) : Prop :=
  smf_sessions S w /\ ausf_ready w /\ (forall i k r, ausf_knows i k r w <-> know i k r).

Section Calls.
Context (know : Z -> Z -> Z -> Prop) (S : gmap Z session).

(** The three calls of the attach and detach procedures. *)
Lemma call_autn ch m n key rand nw ids w :
  core_ok know S w -> ausf_channel ch = true -> 0 <= n < 10000 ->
  know (deployed_imsi n) key rand ->
  exists w' msg g,
    GreeterClient.AmfAusfInteraction ch "AMF" (attach_gpkt ids m (deployed_imsi n) nw) w =
      (Ret (msg, g), w') /\
    GrpcPacket.autn_num g = u64 (xres_of key rand + 1) /\ GrpcPacket.rand_num g = rand /\
    core_ok know S w'.
Proof.
  intros (H1 & H2 & H3) Hch Hn Hk. unfold GreeterClient.AmfAusfInteraction.
  set (req := AmfAusfRequest.mk _ _ _ _ _ _ _ _).
  assert (u64 (AmfAusfRequest.imsi req) = deployed_imsi n) as Ei.
  { subst req. cbn. rewrite u64_s64. apply u64_id. unfold deployed_imsi. lia. }
  destruct (ausf_autn_law ch w req key rand Hch H2) as (w' & rep & E & E1 & E2 & _ & E4 & E5);
    [reflexivity | rewrite Ei; by apply H3|].
  eexists w', _, _. rewrite (run_bind _ _ _ _ _ E). split; [reflexivity|].
  split; [exact E2|]. split; [exact E1|]. split; [by eapply ausf_frame|]. split; [done|].
  intros i k r. by rewrite E5.
Qed.

Lemma call_location ch m i ids w :
  core_ok know S w -> ausf_channel ch = true ->
  exists w' msg g,
    GreeterClient.AmfAusfInteraction ch "AMF" (location_gpkt ids m i) w = (Ret (msg, g), w') /\
    core_ok know S w'.
Proof.
  intros (H1 & H2 & H3) Hch. unfold GreeterClient.AmfAusfInteraction.
  set (req := AmfAusfRequest.mk _ _ _ _ _ _ _ _).
  destruct (ausf_location_law ch w req Hch H2) as (w' & rep & E & E4 & E5); [reflexivity|].
  eexists w', _, _. rewrite (run_bind _ _ _ _ _ E). split; [reflexivity|].
  split; [by eapply ausf_frame|]. split; [done|]. intros i' k r. by rewrite E5.
Qed.

Lemma call_smf ch r m w :
  core_ok know S w -> smf_channel ch = true -> n4_ok S r -> smf_request r m ->
  exists w' rep, call_AmfSmfInteraction ch m w = (Ret (Some rep), w') /\ smf_reply r rep /\
    core_ok know (smf_step smf_garbage_dl r S) w'.
Proof.
  intros (H1 & H2 & H3) Hch Hok Hm.
  destruct (smf_law ch S w r m Hch H1 Hok Hm) as (w' & rep & E & Hr & Hs).
  exists w', rep. split; [exact E|]. split; [exact Hr|].
  destruct (smf_frame ch m w _ w' E H2) as [H2' H3']. split; [exact Hs|]. split; [exact H2'|].
  intros i k x. rewrite H3'. apply H3.
Qed.

Lemma call_create ch m n c w :
  core_ok know S w -> smf_channel ch = true -> 0 <= n < 10000 -> Amf.imsi c = deployed_imsi n ->
  exists w' g,
    GreeterClient.SessionCreationFC ch (create_gpkt m (deployed_guti n) n c) w = (Ret g, w') /\
    core_ok know (smf_step smf_garbage_dl
      (Create n 5 (s64 (Amf.apn_in_use c)) (s64 (Amf.tai c))) S) w' /\
    GrpcPacket.guti g = deployed_guti n /\ u8 (GrpcPacket.eps_bearer_id g) = 5 /\
    GrpcPacket.s1_uteid_ul g = n /\ GrpcPacket.s11_cteid_upf g = n /\
    GrpcPacket.ue_ip_addr g = pool_ip n /\ GrpcPacket.g_upf_s1_ip_addr g = Upf.g_upf_s1_ip_addr.
Proof.
  intros Hw Hch Hn Hi. unfold GreeterClient.SessionCreationFC.
  match goal with |- context [call_AmfSmfInteraction ch ?r] => set (req := r) end.
  destruct (call_smf ch (Create n 5 (s64 (Amf.apn_in_use c)) (s64 (Amf.tai c))) req w Hw Hch)
    as (w' & rep & E & Hr & Hs); [by split | | ].
  { split; [reflexivity|]. cbn. rewrite Hi. autorewrite with word.
    split; [apply u64_id; unfold deployed_guti; lia|].
    split; [apply u64_id; unfold deployed_imsi; lia|].
    split; [rewrite s64_id by lia; apply u32_id; lia|]. by repeat split. }
  destruct Hr as (_ & G1 & G2 & G3 & G4 & G5 & _ & _ & G8 & G9 & _).
  eexists w', _. rewrite (run_bind _ _ _ _ _ E). split; [reflexivity|]. split; [exact Hs|].
  cbn. rewrite u8_u64. repeat split; done.
Qed.

Lemma call_modify ch m n c w :
  core_ok know S w -> smf_channel ch = true -> 0 <= n < 10000 -> is_Some (S !! n) ->
  exists w' g,
    GreeterClient.ModifyBearerFC ch (modify_gpkt m (deployed_guti n) c) w = (Ret g, w') /\
    core_ok know (smf_step smf_garbage_dl
      (Modify n (s64 (Amf.eps_bearer_id c)) (s32 (Amf.s1_uteid_dl c)) Amf.g_trafmon_ip_addr
         Amf.g_trafmon_port) S) w' /\
    GrpcPacket.res g = true.
Proof.
  intros Hw Hch Hn HS. unfold GreeterClient.ModifyBearerFC.
  match goal with |- context [call_AmfSmfInteraction ch ?r] => set (req := r) end.
  destruct (call_smf ch (Modify n (s64 (Amf.eps_bearer_id c)) (s32 (Amf.s1_uteid_dl c))
    Amf.g_trafmon_ip_addr Amf.g_trafmon_port) req w Hw Hch) as (w' & rep & E & [Hr _] & Hs).
  { split; [done|]. split; [done|]. split; [|vm_compute; discriminate].
    unfold nul_free. repeat constructor; discriminate. }
  { split; [reflexivity|]. cbn. autorewrite with word.
    split; [apply u64_id; unfold deployed_guti; lia|]. by repeat split. }
  eexists w', _. rewrite (run_bind _ _ _ _ _ E). split; [reflexivity|]. split; [exact Hs|]. exact Hr.
Qed.

Lemma call_detach ch m n c w :
  core_ok know S w -> smf_channel ch = true -> 0 <= n < 10000 -> is_Some (S !! n) ->
  exists w' g,
    GreeterClient.DetachFC ch (detach_gpkt m (deployed_guti n) c) w = (Ret g, w') /\
    core_ok know (delete n S) w' /\ GrpcPacket.res g = true.
Proof.
  intros Hw Hch Hn HS. unfold GreeterClient.DetachFC.
  match goal with |- context [call_AmfSmfInteraction ch ?r] => set (req := r) end.
  destruct (call_smf ch (Detach n (s64 (Amf.eps_bearer_id c)) (s64 (Amf.tai c))) req w Hw Hch)
    as (w' & rep & E & [Hr _] & Hs); [by split | |].
  { split; [reflexivity|]. cbn. autorewrite with word.
    split; [apply u64_id; unfold deployed_guti; lia|]. by repeat split. }
  eexists w', _. rewrite (run_bind _ _ _ _ _ E). split; [reflexivity|]. split; [exact Hs|]. exact Hr.
Qed.
End Calls.
End Properties.
