(* ===== verification/Ran.v ===== *)
(** * Ran: the simulated base station with its UE, and the traffic monitor
    (src/ran.h, src/ran.cpp, src/ran_simulator.cpp)

    A [Ran] object is one simulated UE.  Its connection to the AMF is the
    list of events still to be read ([inbox]) and the frames written
    ([out]); the shell commands it gives to [system] are logged in [cmds].
    The traffic monitor is shared by all the UEs of the process: [uplink]
    is its table.  A read that does not return is [None]. *)

From Stdlib Require Import ZArith Lia Ascii String.
From S2P Require Import Prelude Utils Telecom Headers Packet Network Transport Security.

Module TrafficMonitor.

(** [class UplinkInfo], [UplinkInfo::init] *)
Record UplinkInfo := mk_info {
  s1_uteid_ul : Z;
  sgw_s1_ip_addr : string;
  sgw_s1_port : Z
}.

(** The private member [uplink_info]: address of the UE -> UplinkInfo. *)
Definition table : Type := gmap string UplinkInfo.

(** [TrafficMonitor::TrafficMonitor] *)
Definition construct : table := ∅.

(** [TrafficMonitor::update_uplink_info] *)
Definition update_uplink_info (ip : string) (ul : Z) (sgw_ip : string) (sgw_port : Z)
    (t : table) : table :=
  <[ip := mk_info ul sgw_ip sgw_port]> t.

(** [TrafficMonitor::get_uplink_info]: [None] is the result [false]. *)
Definition get_uplink_info (ip : string) (t : table) : option (Z * string * Z) :=
  match t !! ip with
  | Some i => Some (s1_uteid_ul i, sgw_s1_ip_addr i, sgw_s1_port i)
  | None => None
  end.

Section Monitor.
Context (inet_aton : string -> option Z) (h0 : hdrs).

(** [TrafficMonitor::handle_uplink_udata]: [d] is what the tun device had;
    the datagram that is sent, if any. *)
Definition handle_uplink_udata (t : table) (d : option (list Z))
  : result (option (sockaddr_in * list Z)) :=
  pkt ← Packet.construct (h_gtp h0) (h_s1ap h0) (h_dia h0);
  pkt ← Tun.rcv pkt d;
  ip ← Network.get_src_ip_addr pkt;
  match get_uplink_info ip t with
  | None => mret None
  | Some (ul, sgw_ip, sgw_port) =>
      dst ← Network.set_inet_sock_addr inet_aton sgw_ip sgw_port;
      pkt ← Packet.prepend_gtp_hdr pkt 1 1 (Packet.plen pkt) ul;
      dgram ← bytes_of pkt;
      mret (Some (dst, dgram))
  end.

(** [TrafficMonitor::handle_downlink_udata]: what goes to the tun device;
    [o] is how its [write] went. *)
Definition handle_downlink_udata (src : sockaddr_in) (d : UdpClient.datagram) (o : outcome)
  : result (list Z) :=
  pkt ← Packet.construct (h_gtp h0) (h_s1ap h0) (h_dia h0);
  '(src, pkt) ← UdpServer.rcv src pkt d;
  pkt ← Packet.extract_gtp_hdr pkt;
  pkt ← Packet.truncate pkt;
  Tun.snd pkt o.

End Monitor.
End TrafficMonitor.

Module Ran.

Definition g_mme_ip_addr : string := "172.18.0.4".
Definition g_mme_port : Z := 5000.

(** [class RanContext] *)
Record RanContext := mk_ctx {
  emm_state : Z;
  ecm_state : Z;
  imsi : Z;
  guti : Z;
  ip_addr : string;
  enodeb_s1ap_ue_id : Z;
  mme_s1ap_ue_id : Z;
  tai : Z;
  tai_list : list Z;
  tau_timer : Z;
  key : Z;
  k_asme : Z;
  ksi_asme : Z;
  k_nas_enc : Z;
  k_nas_int : Z;
  nas_enc_algo : Z;
  nas_int_algo : Z;
  count : Z;
  bearer : Z;
  dir : Z;
  apn_in_use : Z;
  eps_bearer_id : Z;
  e_rab_id : Z;
  s1_uteid_ul : Z;
  s1_uteid_dl : Z;
  mcc : Z;
  mnc : Z;
  plmn_id : Z;
  msisdn : Z;
  nw_capability : Z;
  eNodeB_id : Z;
  handover_target_eNodeB_id : Z;
  inHandover : bool;
  indirect_s1_uteid_ul : Z
}.

(** [RanContext::RanContext]: the last four members keep what the memory
    [m] held. *)
Definition construct_ctx (m : RanContext) : result RanContext :=
  plmn ← Telecom.get_plmn_id 1 1;
  mret (mk_ctx 0 0 0 0 "" 0 0 1 [] 0 0 0 7 0 0 0 0 1 0 0 0 0 0 0 0 1 1 plmn 0 1
    (eNodeB_id m) (handover_target_eNodeB_id m) (inHandover m) (indirect_s1_uteid_ul m)).

(** [RanContext::init] *)
Definition init_ctx (arg : Z) (c : RanContext) : result RanContext :=
  let c := c <| enodeb_s1ap_ue_id := arg |> <| key := arg |> <| msisdn := 9000000000 + arg |> in
  i ← Telecom.get_imsi (plmn_id c) (msisdn c);
  mret (c <| imsi := i |>).

(** [class EpcAddrs], [EpcAddrs::EpcAddrs] *)
Record EpcAddrs := mk_addrs {
  mme_port : Z;
  sgw_s1_port : Z;
  mme_ip_addr : string;
  sgw_s1_ip_addr : string
}.
Definition construct_addrs : EpcAddrs := mk_addrs g_mme_port 0 g_mme_ip_addr "".

(** [class Ran]: the members that are read; [Ran::inHandover] and
    [Ran::indirect_s1_uteid_ul] never are. *)
Record t := mk {
  epc_addrs : EpcAddrs;
  mme_client : SctpClient.t;
  pkt : Packet.t;
  r_eNodeB_id : Z;
  handover_state : Z;
  ran_ctx : RanContext
}.

(** The object a declaration [Ran ran;] makes on memory [m]; [sock] is what
    [socket] returned. *)
Definition construct (m : t) (sock : Z) : result t :=
  c ← SctpClient.construct (mme_client m) sock;
  p ← Packet.construct (Packet.gtp_hdr (pkt m)) (Packet.s1ap_hdr (pkt m)) (Packet.diameter_hdr (pkt m));
  x ← construct_ctx (ran_ctx m);
  mret (m <| epc_addrs := construct_addrs |> <| mme_client := c |> <| pkt := p |> <| ran_ctx := x |>).

Section Ops.
Context `{CL : CryptoLib}.

(** The process around one UE. *)
Record proc := mk_proc {
  ran : t;
  uplink : TrafficMonitor.table;
  inbox : list Network.event;
  out : list (list Z);
  cmds : list string
}.

Definition on_ran (f : t -> t) (s : proc) : proc := s <| ran := f (ran s) |>.

(** Reading and writing the members [ran_ctx] and [pkt]. *)
Definition ctx {A} (f : RanContext -> A) : prog proc A := gets (fun s => f (ran_ctx (ran s))).
Definition set_ctx (f : RanContext -> RanContext) : prog proc unit :=
  modify (on_ran (fun r => r <| ran_ctx := f (ran_ctx r) |>)).
Definition get_pkt : prog proc Packet.t := gets (fun s => pkt (ran s)).
Definition set_pkt (p : Packet.t) : prog proc unit := modify (on_ran (fun r => r <| pkt := p |>)).

(** [mme_client.snd(pkt)] *)
Definition client_snd (p : Packet.t) : prog proc unit :=
  fr ← lift (framed_bytes_of p);
  modify (fun s => s <| out := out s ++ [fr] |>).

(** [mme_client.rcv(pkt)] into the member [pkt]: false if it blocks. *)
Definition client_rcv : prog proc bool :=
  p ← get_pkt;
  c ← gets (fun s => mme_client (ran s));
  evs ← gets inbox;
  r ← lift (SctpClient.rcv c p evs);
  match r with
  | None => mret false
  | Some (p, _, evs) =>
      _ ← modify (fun s => s <| inbox := evs |>);
      _ ← set_pkt p;
      mret true
  end.

(** [pkt.prepend_s1ap_hdr(ty, pkt.len, ran_ctx.enodeb_s1ap_ue_id,
    ran_ctx.mme_s1ap_ue_id); mme_client.snd(pkt)], and [pkt] is stored. *)
Definition send_s1ap (p : Packet.t) (ty : Z) : prog proc unit :=
  enb ← ctx enodeb_s1ap_ue_id;
  mme ← ctx mme_s1ap_ue_id;
  p ← lift (Packet.prepend_s1ap_hdr p ty (Packet.plen p) enb mme);
  _ ← client_snd p;
  set_pkt p.

(** [Ran::init] *)
Definition init (arg : Z) : prog proc unit :=
  c ← ctx id;
  c ← lift (init_ctx (u32 arg) c);
  set_ctx (fun _ => c).

(** [Ran::conn_mme]: false if [connect] blocks. *)
Definition conn_mme (inet_aton : string -> option Z) (errno : Z) (outs : list outcome)
  : prog proc bool :=
  a ← gets (fun s => epc_addrs (ran s));
  c ← gets (fun s => mme_client (ran s));
  r ← lift (SctpClient.conn inet_aton c (mme_ip_addr a) (mme_port a) errno outs);
  match r with
  | None => mret false
  | Some (c, _) => _ ← modify (on_ran (fun r => r <| mme_client := c |>)); mret true
  end.

(** [Ran::initial_attach] *)
Definition initial_attach : prog proc unit :=
  p ← get_pkt;
  p ← lift (Packet.clear_pkt p);
  r_imsi ← ctx imsi;
  r_tai ← ctx tai;
  r_ksi ← ctx ksi_asme;
  r_cap ← ctx nw_capability;
  p ← lift (Packet.append_items p [IU64 r_imsi; IU64 r_tai; IU64 r_ksi; IU16 r_cap]);
  enb ← ctx enodeb_s1ap_ue_id;
  p ← lift (Packet.prepend_s1ap_hdr p 1 (Packet.plen p) enb 0);
  _ ← client_snd p;
  set_pkt p.

(** [Ran::authenticate]: a wrong AUTN only changes the answer. *)
Definition authenticate : prog proc (option bool) :=
  ok ← client_rcv;
  if negb ok then mret None else
  p ← get_pkt;
  if Packet.plen p <=? 0 then mret (Some false) else
  p ← lift (Packet.extract_s1ap_hdr p);
  _ ← set_ctx (fun c => c <| mme_s1ap_ue_id := S1ap.mme_s1ap_ue_id (Packet.s1ap_hdr p) |>);
  '(xautn_num, p) ← lift (Packet.extract_item_uint64 p);
  '(rand_num, p) ← lift (Packet.extract_item_uint64 p);
  '(r_ksi, p) ← lift (Packet.extract_item_uint64 p);
  _ ← set_ctx (fun c => c <| ksi_asme := r_ksi |>);
  r_key ← ctx key;
  let sqn := u64 (rand_num + 1) in
  let res := u64 (u64 (r_key + sqn) + rand_num) in
  let autn_num := u64 (res + 1) in
  let answer (res : Z) (p : Packet.t) : prog proc (option bool) :=
    let ck := u64 (res + 2) in
    let ik := u64 (res + 3) in
    _ ← set_ctx (fun c => c <| k_asme := u64 (u64 (u64 (ck + ik) + sqn) + plmn_id c) |>);
    p ← lift (Packet.clear_pkt p);
    p ← lift (Packet.append_items p [IU64 res]);
    _ ← send_s1ap p 2;
    mret (Some true) in
  if autn_num =? xautn_num then answer res p else answer (u64 (xautn_num - 1)) p.

(** [Ran::set_crypt_context], [Ran::set_integrity_context] *)
Definition nas_key (algo : Z) (c : RanContext) : Z :=
  u64 (u64 (u64 (u64 (u64 (k_asme c + algo) + count c) + bearer c) + dir c) + 1).
Definition set_crypt_context : prog proc unit :=
  set_ctx (fun c => c <| k_nas_enc := nas_key (nas_enc_algo c) c |>).
Definition set_integrity_context : prog proc unit :=
  set_ctx (fun c => c <| k_nas_int := nas_key (nas_int_algo c) c |>).

(** The encryption and the HMAC of a message that is sent, the check and
    the decryption of a received one. *)
Definition protect_nas (p : Packet.t) : prog proc Packet.t :=
  k_enc ← ctx k_nas_enc;
  k_int ← ctx k_nas_int;
  lift (protect p k_enc k_int).
Definition unprotect_nas (p : Packet.t) (msg : string) : prog proc Packet.t :=
  k_enc ← ctx k_nas_enc;
  k_int ← ctx k_nas_int;
  lift (unprotect p k_enc k_int msg).

(** [Ran::set_security] *)
Definition set_security : prog proc (option bool) :=
  ok ← client_rcv;
  if negb ok then mret None else
  p ← get_pkt;
  if Packet.plen p <=? 0 then mret (Some false) else
  hmac_res ← lift (Utils.allocate_uint8_mem true HMAC_LEN);
  hmac_xres ← lift (Utils.allocate_uint8_mem true HMAC_LEN);
  p ← lift (Packet.extract_s1ap_hdr p);
  '(hmac_xres, p) ← lift (if HMAC_ON then Integrity.rem_hmac p hmac_xres else mret (hmac_xres, p));
  '(r_ksi, p) ← lift (Packet.extract_item_uint64 p);
  '(r_cap, p) ← lift (Packet.extract_item_uint16 p);
  '(r_enc, p) ← lift (Packet.extract_item_uint64 p);
  '(r_int, p) ← lift (Packet.extract_item_uint64 p);
  _ ← set_ctx (fun c => c <| ksi_asme := r_ksi |> <| nw_capability := r_cap |>
                          <| nas_enc_algo := r_enc |> <| nas_int_algo := r_int |>);
  _ ← set_crypt_context;
  _ ← set_integrity_context;
  k_int ← ctx k_nas_int;
  _ ← lift (if HMAC_ON then
              hmac_res ← Integrity.get_hmac (Packet.data p) (Packet.plen p) hmac_res k_int;
              if Integrity.cmp_hmacs hmac_res hmac_xres then mret tt
              else Utils.handle_type1_error (-1) "hmac error: ran_setsecurity"
            else mret tt);
  p ← lift (Packet.clear_pkt p);
  p ← lift (Packet.append_items p [IBool true]);
  p ← protect_nas p;
  _ ← send_s1ap p 3;
  mret (Some true).

(** [Ran::set_eps_session] *)
Definition set_eps_session : prog proc (option bool) :=
  ok ← client_rcv;
  if negb ok then mret None else
  p ← get_pkt;
  if Packet.plen p <=? 0 then mret (Some false) else
  p ← lift (Packet.extract_s1ap_hdr p);
  p ← unprotect_nas p "hmac error: ran_setepssession";
  '(r_guti, p) ← lift (Packet.extract_item_uint64 p);
  '(r_ebi, p) ← lift (Packet.extract_item_uint8 p);
  '(r_rab, p) ← lift (Packet.extract_item_uint8 p);
  '(r_ul, p) ← lift (Packet.extract_item_uint32 p);
  '(k_enodeb, p) ← lift (Packet.extract_item_uint64 p);
  '(r_cap, p) ← lift (Packet.extract_item_uint16 p);
  '(tai_list_size, p) ← lift (Packet.extract_item_int p);
  '(r_tais, p) ← lift (Packet.extract_item_vector p tai_list_size);
  '(r_tau, p) ← lift (Packet.extract_item_uint64 p);
  '(r_ip, p) ← lift (Packet.extract_item_string p);
  '(sgw_ip, p) ← lift (Packet.extract_item_string p);
  '(sgw_port, p) ← lift (Packet.extract_item_int p);
  '(res, p) ← lift (Packet.extract_item_bool p);
  _ ← set_ctx (fun c => c <| guti := r_guti |> <| eps_bearer_id := r_ebi |> <| e_rab_id := r_rab |>
                          <| s1_uteid_ul := r_ul |> <| nw_capability := r_cap |>
                          <| tai_list := r_tais |> <| tau_timer := r_tau |> <| ip_addr := r_ip |>);
  _ ← modify (on_ran (fun r => r <| epc_addrs :=
        (epc_addrs r) <| sgw_s1_ip_addr := sgw_ip |> <| sgw_s1_port := sgw_port |> |>));
  if negb res then _ ← set_pkt p; mret (Some false) else
  _ ← modify (fun s => s <| uplink :=
        TrafficMonitor.update_uplink_info r_ip r_ul sgw_ip sgw_port (uplink s) |>);
  _ ← set_ctx (fun c => c <| s1_uteid_dl := s1_uteid_ul c |>);
  p ← lift (Packet.clear_pkt p);
  p ← lift (Packet.append_items p [IU8 r_ebi; IU32 r_ul]);
  p ← protect_nas p;
  _ ← send_s1ap p 4;
  _ ← set_ctx (fun c => c <| emm_state := 1 |> <| ecm_state := 1 |>);
  mret (Some true).

(** [Ran::transfer_data] *)
Definition transfer_data (run_time : Z) : prog proc unit :=
  r_key ← ctx key;
  r_ip ← ctx ip_addr;
  let server_port := s32 (u64 (r_key + 55000)) in
  let cmd := "iperf3 -B " +:+ r_ip +:+ " -c 172.16.0.2 -p " +:+ pretty server_port +:+
    " -b 30M" +:+ " -M " +:+ pretty DATA_SIZE +:+ " -t " +:+ pretty run_time +:+ " 2>&1" in
  modify (fun s => s <| cmds := cmds s ++ [Network.add_itf (s32 r_key) (r_ip +:+ "/8"); cmd] |>).

(** [Ran::detach] *)
Definition detach : prog proc (option bool) :=
  p ← get_pkt;
  p ← lift (Packet.clear_pkt p);
  r_guti ← ctx guti;
  r_ksi ← ctx ksi_asme;
  p ← lift (Packet.append_items p [IU64 r_guti; IU64 r_ksi; IU64 1]);
  p ← protect_nas p;
  _ ← send_s1ap p 5;
  ok ← client_rcv;
  if negb ok then mret None else
  p ← get_pkt;
  if Packet.plen p <=? 0 then mret (Some false) else
  p ← lift (Packet.extract_s1ap_hdr p);
  p ← unprotect_nas p "hmac error: ran_detach";
  '(res, p) ← lift (Packet.extract_item_bool p);
  _ ← set_pkt p;
  mret (Some res).

(** *** Handover *)

(** [Ran::initiate_handover]: the source identifier sent is the member of
    [Ran], not the one of the context that was just set. *)
Definition initiate_handover : prog proc unit :=
  _ ← modify (on_ran (fun r => r <| handover_state := 1 |>));
  _ ← set_ctx (fun c => c <| eNodeB_id := 1 |> <| handover_target_eNodeB_id := 2 |>);
  p ← get_pkt;
  p ← lift (Packet.clear_pkt p);
  s_enb ← gets (fun s => r_eNodeB_id (ran s));
  t_enb ← ctx handover_target_eNodeB_id;
  enb ← ctx enodeb_s1ap_ue_id;
  mme ← ctx mme_s1ap_ue_id;
  p ← lift (Packet.append_items p [IInt 0; IU16 s_enb; IU16 t_enb; IU32 enb; IU32 mme]);
  send_s1ap p 7.

(** [Ran::handle_handover], at the target: [p] is a copy the caller made. *)
Definition handle_handover (inet_aton : string -> option Z) (errno : Z) (outs : list outcome)
    (p : Packet.t) : prog proc bool :=
  p ← lift (Packet.copy p);
  _ ← modify (on_ran (fun r => r <| handover_state := 2 |>));
  '(t_enb, p) ← lift (Packet.extract_item_uint16 p);
  '(enb, p) ← lift (Packet.extract_item_uint32 p);
  '(mme, p) ← lift (Packet.extract_item_uint32 p);
  '(ul, p) ← lift (Packet.extract_item_uint32 p);
  _ ← set_ctx (fun c => c <| enodeb_s1ap_ue_id := enb |> <| mme_s1ap_ue_id := mme |>
                          <| s1_uteid_ul := ul |>);
  p ← lift (Packet.clear_pkt p);
  p ← lift (Packet.append_items p [IU32 enb]);
  p ← lift (Packet.prepend_s1ap_hdr p 8 (Packet.plen p) enb mme);
  ok ← conn_mme inet_aton errno outs;
  if negb ok then mret false else
  _ ← client_snd p;
  _ ← modify (on_ran (fun r => r <| handover_state := 3 |>));
  mret true.

(** [Ran::indirect_tunnel_complete] *)
Definition indirect_tunnel_complete (p : Packet.t) : prog proc unit :=
  p ← lift (Packet.copy p);
  _ ← modify (on_ran (fun r => r <| handover_state := 4 |>));
  '(ul, p) ← lift (Packet.extract_item_uint32 p);
  set_ctx (fun c => c <| indirect_s1_uteid_ul := ul |>).

(** [Ran::complete_handover] *)
Definition complete_handover : prog proc unit :=
  p ← get_pkt;
  p ← lift (Packet.clear_pkt p);
  send_s1ap p 9.

(** [Ran::request_tear_down]: its packet is a copy, the member stays. *)
Definition request_tear_down (p : Packet.t) : prog proc unit :=
  p ← lift (Packet.copy p);
  _ ← set_ctx (fun c => c <| s1_uteid_ul := 0 |>);
  p ← lift (Packet.clear_pkt p);
  ul ← ctx indirect_s1_uteid_ul;
  p ← lift (Packet.append_items p [IU32 ul]);
  enb ← ctx enodeb_s1ap_ue_id;
  mme ← ctx mme_s1ap_ue_id;
  p ← lift (Packet.prepend_s1ap_hdr p 10 (Packet.plen p) enb mme);
  client_snd p.

(** *** The simulator thread *)

Definition nstars : nat := 100.

(** [TimetoStart]: [schedule] (Startup.v) is never called, so it keeps its
    initial zeros; [is_scheduled] with [elapsed = difftime(time(0), start)]. *)
Definition TimetoStart : list Z := replicate nstars 0.
Definition is_scheduled (ran_num elapsed : Z) : result bool :=
  if (ran_num <? 0) then Fault (UB "read outside the array") else
  match TimetoStart !! Z.to_nat ran_num with
  | Some x => mret (x =? elapsed)
  | None => Fault (UB "read outside the array")
  end.

(** How one turn of the loop of [simulate] ends. *)
Inductive turn :=
  | Again
  | Break
  | Return
  | Blocks.

(** A step of the registration: go on if it answered true. *)
Definition step (c : prog proc (option bool)) (k : prog proc turn) : prog proc turn :=
  r ← c;
  match r with
  | None => mret Blocks
  | Some false => mret Return
  | Some true => k
  end.

(** What the clock says in a turn: to [is_scheduled], to [time_check], and
    the microseconds from the attach request to the end of the detach. *)
Record reading := mk_reading { r_scheduled : Z; r_limit : Z; r_diff_us : Z }.

(** The body of the loop of [simulate]; the last component is what the turn
    adds to the totals, under [g_mux]. *)
Definition simulate_turn (start start_time req_dur ran_num : Z) (t : reading) (exceeded : bool)
  : prog proc (turn * bool * list Z) :=
  now ← lift (is_scheduled ran_num (r_scheduled t - start));
  if (now : bool) then
    let exceeded := Utils.time_check (r_limit t) start_time req_dur exceeded in
    if exceeded then mret (Break, exceeded, [])
    else
      _ ← initial_attach;
      r ← step authenticate (step set_security (step set_eps_session (
          _ ← transfer_data (s32 req_dur);
          step detach (mret Again))));
      mret (r, exceeded, match r with Again => [r_diff_us t] | _ => [] end)
  else mret (Again, exceeded, []).

(** The loop on the readings of the clock, one per turn; [Again] is a
    thread that is still in the loop. *)
Fixpoint simulate_loop (start start_time req_dur ran_num : Z) (clock : list reading)
    (exceeded : bool) : prog proc (turn * list Z) :=
  match clock with
  | [] => mret (Again, [])
  | t :: clock =>
      '(r, exceeded, ds) ← simulate_turn start start_time req_dur ran_num t exceeded;
      match r with
      | Again =>
          '(r, ds') ← simulate_loop start start_time req_dur ran_num clock exceeded;
          mret (r, ds ++ ds')
      | r => mret (r, ds)
      end
  end.

(** [simulate], on the object it declares *)
Definition simulate (inet_aton : string -> option Z) (errno : Z) (outs : list outcome)
    (start start_time req_dur ran_num : Z) (clock : list reading) : prog proc (turn * list Z) :=
  _ ← init ran_num;
  ok ← conn_mme inet_aton errno outs;
  if negb ok then mret (Blocks, [])
  else simulate_loop start start_time req_dur ran_num clock false.

End Ops.
End Ran.

(** ** Running the operations *)

Ltac ran_st :=
  unfold Ran.on_ran; cbn [Ran.ran Ran.uplink Ran.inbox Ran.out Ran.cmds Ran.epc_addrs
    Ran.mme_client Ran.pkt Ran.r_eNodeB_id Ran.handover_state Ran.ran_ctx apply_update constant].

Section Runs.
Context `{CL : CryptoLib, LAWS : !CryptoLaws}.

(** A state, member by member. *)
Definition ran_st (a : Ran.EpcAddrs) (fd : SctpClient.t) (p : Packet.t) (e hs : Z)
    (c : Ran.RanContext) (up : TrafficMonitor.table) (evs : list Network.event)
    (o : list (list Z)) (cm : list string) : Ran.proc :=
  Ran.mk_proc (Ran.mk a fd p e hs c) up evs o cm.

Lemma ctx_run {A B} (f : Ran.RanContext -> A) (k : A -> prog Ran.proc B) a fd p e hs c up evs o cm :
  (x ← Ran.ctx f; k x) (ran_st a fd p e hs c up evs o cm) = k (f c) (ran_st a fd p e hs c up evs o cm).
Proof. reflexivity. Qed.

Lemma set_ctx_run {B} f (k : unit -> prog Ran.proc B) a fd p e hs c up evs o cm :
  (x ← Ran.set_ctx f; k x) (ran_st a fd p e hs c up evs o cm) =
  k tt (ran_st a fd p e hs (f c) up evs o cm).
Proof. reflexivity. Qed.

Lemma get_pkt_run {B} (k : Packet.t -> prog Ran.proc B) a fd p e hs c up evs o cm :
  (x ← Ran.get_pkt; k x) (ran_st a fd p e hs c up evs o cm) = k p (ran_st a fd p e hs c up evs o cm).
Proof. reflexivity. Qed.

Lemma set_pkt_run {B} q (k : unit -> prog Ran.proc B) a fd p e hs c up evs o cm :
  (x ← Ran.set_pkt q; k x) (ran_st a fd p e hs c up evs o cm) =
  k tt (ran_st a fd q e hs c up evs o cm).
Proof. reflexivity. Qed.

Lemma client_snd_run {B} (k : unit -> prog Ran.proc B) h pre post a fd p e hs c up evs o cm :
  4 + len pre + len post <= BUF_SIZE ->
  (x ← Ran.client_snd (rd h pre post); k x) (ran_st a fd p e hs c up evs o cm) =
  k tt (ran_st a fd p e hs c up evs (o ++ [frame (pre ++ post)]) cm).
Proof. intros H. unfold Ran.client_snd. run. run with (by apply framed_bytes_rd). reflexivity. Qed.

(** The connection delivers a message: it ends up in [pkt], its header read
    by the operation that asked for it. *)
Lemma client_rcv_run hd body rest a fd p e hs c up evs o cm :
  0 <= SctpClient.conn_fd fd -> length (Packet.data p) = Z.to_nat BUF_SIZE -> len body <= 1000 ->
  holds evs (s1ap_frame hd body ++ rest) ->
  exists evs', holds evs' rest /\
    Ran.client_rcv (ran_st a fd p e hs c up evs o cm) =
    (Ret true, ran_st a fd (rd (hdrs_of p) [] (S1ap.to_bytes hd ++ body)) e hs c up evs' o cm).
Proof.
  intros Hfd Hp Hl Hd.
  destruct Hd as [Hdata Hd].
  destruct (read_sctp_pkt_spec (SctpClient.conn_fd fd) p evs (S1ap.to_bytes hd ++ body) rest)
    as (evs' & E & Hr); [done | done | exact Hd | unfold BUF_SIZE; len_lia |].
  exists evs'. split; [split; [by eapply read_sctp_pkt_data | done]|]. unfold Ran.client_rcv, Ran.get_pkt, SctpClient.rcv. run.
  change (Ran.mme_client _) with fd. change (Ran.pkt _) with p. change (Ran.inbox _) with evs.
  run with (rewrite E; reflexivity). reflexivity.
Qed.

(** What every operation keeps of the member [pkt]. *)
Definition pkt_ok (p : Packet.t) : Prop :=
  length (Packet.data p) = Z.to_nat BUF_SIZE /\ S1ap.wf (Packet.s1ap_hdr p).

Lemma pkt_ok_rd h pre post : S1ap.wf (h_s1ap h) -> fits pre post -> pkt_ok (rd h pre post).
Proof. intros Hw Hf. split; [by apply rd_length | exact Hw]. Qed.

Lemma send_s1ap_run h pre post ty c :
  S1ap.wf (h_s1ap h) -> u8 ty = ty -> len pre + len post <= 1000 ->
  u32 (Ran.enodeb_s1ap_ue_id c) = Ran.enodeb_s1ap_ue_id c ->
  u32 (Ran.mme_s1ap_ue_id c) = Ran.mme_s1ap_ue_id c ->
  exists p' fr, pkt_ok p' /\
    s1ap_msg ty (Ran.enodeb_s1ap_ue_id c) (Ran.mme_s1ap_ue_id c) (pre ++ post) fr /\
    forall {B} (k : unit -> prog Ran.proc B) a fd p e hs up evs o cm,
    (x ← Ran.send_s1ap (rd h pre post) ty; k x) (ran_st a fd p e hs c up evs o cm) =
    k tt (ran_st a fd p' e hs c up evs (o ++ [fr]) cm).
Proof.
  intros Hw Hty Hl He Hm. eexists _, _. split; [|split; [|intros B k a fd p e hs up evs o cm;
    unfold Ran.send_s1ap; run; rewrite ctx_run; run; rewrite ctx_run; run;
    run with (apply prepend_s1ap_hdr_rd; unfold BUF_SIZE; lia)]].
  3: { rewrite client_snd_run by (unfold BUF_SIZE; len_lia). apply set_pkt_run. }
  - apply pkt_ok_rd; [by apply s1ap_init_wf | unfold fits, BUF_SIZE; len_lia].
  - pose proof (answer_msg h ty (Packet.plen (rd h pre post)) (Ran.enodeb_s1ap_ue_id c)
      (Ran.mme_s1ap_ue_id c) (pre ++ post) Hw) as A.
    rewrite Hty, He, Hm in A. rewrite <- app_assoc. exact A.
Qed.

(** The identifiers a context holds are in range. *)
Definition ids_ok (c : Ran.RanContext) : Prop :=
  u32 (Ran.enodeb_s1ap_ue_id c) = Ran.enodeb_s1ap_ue_id c /\
  u32 (Ran.mme_s1ap_ue_id c) = Ran.mme_s1ap_ue_id c.

Definition request_items (c : Ran.RanContext) : list item :=
  [IU64 (Ran.imsi c); IU64 (Ran.tai c); IU64 (Ran.ksi_asme c); IU16 (Ran.nw_capability c)].

Lemma initial_attach_run_ran a fd p e hs c up evs o cm :
  pkt_ok p -> ids_ok c ->
  exists p' fr, pkt_ok p' /\
    s1ap_msg 1 (Ran.enodeb_s1ap_ue_id c) 0 (enc_items (request_items c)) fr /\
    Ran.initial_attach (ran_st a fd p e hs c up evs o cm) =
    (Ret tt, ran_st a fd p' e hs c up evs (o ++ [fr]) cm).
Proof.
  intros [Hp Hw] [He _]. unfold Ran.initial_attach. rewrite get_pkt_run.
  run with (by apply clear_pkt_rd). rewrite !ctx_run.
  run with (apply append_items_rd; vm_compute; discriminate). rewrite ctx_run.
  eexists _, _. split; [|split; [|run with (apply prepend_s1ap_hdr_rd; vm_compute; discriminate)]].
  3: { rewrite client_snd_run by (vm_compute; discriminate). reflexivity. }
  - apply pkt_ok_rd; [by apply s1ap_init_wf | vm_compute; discriminate].
  - epose proof (answer_msg (hdrs_of p) 1 _ (Ran.enodeb_s1ap_ue_id c) 0 (enc_items (request_items c)) Hw)
      as A. rewrite He, app_nil_l, app_nil_r in *. exact A.
Qed.

(** The two answers [authenticate] can give are one. *)
Lemma answer_from_autn z x : u64 (u64 z + 1) = u64 x -> u64 z = u64 (u64 x - 1).
Proof. intros <-. unfold u64. rewrite Zminus_mod_idemp_l. rewrite Z.add_simpl_r. by rewrite Zmod_mod. Qed.

(** The key the UE computes from a challenge. *)
Definition ran_k_asme (autn rand plmn : Z) : Z :=
  let res := u64 (autn - 1) in
  u64 (u64 (u64 (u64 (res + 2) + u64 (res + 3)) + u64 (rand + 1)) + plmn).

Definition authenticated_ctx (c : Ran.RanContext) (mme autn rand ksi : Z) : Ran.RanContext :=
  c <| Ran.mme_s1ap_ue_id := mme |> <| Ran.ksi_asme := ksi |>
    <| Ran.k_asme := ran_k_asme autn rand (Ran.plmn_id c) |>.

Lemma authenticate_run a fd p e hs c up evs o cm hd x r ks rest :
  pkt_ok p -> ids_ok c -> 0 <= SctpClient.conn_fd fd -> S1ap.wf hd ->
  holds evs (s1ap_frame hd (enc_items [IU64 x; IU64 r; IU64 ks]) ++ rest) ->
  exists p' fr evs', pkt_ok p' /\ holds evs' rest /\
    s1ap_msg 2 (Ran.enodeb_s1ap_ue_id c) (S1ap.mme_s1ap_ue_id hd)
      (enc_items [IU64 (u64 (u64 x - 1))]) fr /\
    Ran.authenticate (ran_st a fd p e hs c up evs o cm) =
    (Ret (Some true), ran_st a fd p' e hs
       (authenticated_ctx c (S1ap.mme_s1ap_ue_id hd) (u64 x) (u64 r) (u64 ks)) up evs' (o ++ [fr]) cm).
Proof.
  intros [Hp Hw] [He _] Hfd Hwd Hd. unfold Ran.authenticate.
  edestruct client_rcv_run as (evs' & Hr & E); [exact Hfd | exact Hp | | exact Hd |];
    [vm_compute; discriminate|]. rewrite (run_bind _ _ _ _ _ E).
  cbn [negb]. rewrite get_pkt_run. set (P := rd _ _ _).
  change (Packet.plen P) with 36. cbv beta iota. change (36 <=? 0) with false. cbv iota. subst P.
  run with (by apply (extract_s1ap_hdr_rd _ [])). rewrite set_ctx_run. parse.
  rewrite set_ctx_run, ctx_run. cbv zeta.
  match goal with |- context [u64 (u64 ?y + 1) =? u64 x] => set (z := y) end.
  destruct (u64 (u64 z + 1) =? u64 x) eqn:Ez.
  1: apply Z.eqb_eq, answer_from_autn in Ez; rewrite Ez.
  all: rewrite set_ctx_run; run with (by apply clear_pkt_rd, rd_length; vm_compute; discriminate);
    run with (apply append_items_rd; vm_compute; discriminate); cbn [app];
    destruct (send_s1ap_run (set_s1ap (hdrs_of p) hd) (enc_items [IU64 (u64 (u64 x - 1))]) [] 2
      (authenticated_ctx c (S1ap.mme_s1ap_ue_id hd) (u64 x) (u64 r) (u64 ks)))
      as (p' & fr & Hok & Hm & Es);
    [exact Hwd | done | vm_compute; discriminate | exact He | apply Hwd |];
    exists p', fr, evs'; split; [exact Hok|]; split; [exact Hr|]; split; [exact Hm | apply Es].
Qed.

(** A protected message leaves. *)
Lemma protected_send q its wire ty c :
  length (Packet.data q) = Z.to_nat BUF_SIZE -> S1ap.wf (Packet.s1ap_hdr q) -> ids_ok c ->
  u8 ty = ty -> len (enc_items its) <= 900 -> sealed (enc_items its) wire ->
  exists p' fr, pkt_ok p' /\
    s1ap_msg ty (Ran.enodeb_s1ap_ue_id c) (Ran.mme_s1ap_ue_id c) wire fr /\
    forall {B} (k : unit -> prog Ran.proc B) a fd p e hs up evs o cm,
    (q ← lift (Packet.clear_pkt q);
     q ← lift (Packet.append_items q its);
     q ← Ran.protect_nas q;
     x ← Ran.send_s1ap q ty; k x) (ran_st a fd p e hs c up evs o cm) =
    k tt (ran_st a fd p' e hs c up evs (o ++ [fr]) cm).
Proof.
  intros Hq Hw [He Hm] Hty Hl Hs. pose proof (enc_size_bounds (len (enc_items its))).
  pose proof (len_sealed _ _ Hs) as Hlen.
  destruct (protect_rd (hdrs_of q) (enc_items its) wire (Ran.k_nas_enc c) (Ran.k_nas_int c) Hs)
    as (m & w & -> & _ & E); [unfold BUF_SIZE; lia|]. rewrite len_app in Hlen.
  destruct (send_s1ap_run (hdrs_of q) m w ty c)
    as (p' & fr & Hok & Hmsg & Es); [done | done | lia | done | done |].
  exists p', fr. split; [done|]. split; [done|]. intros B k a fd p e hs up evs o cm.
  run with (by apply clear_pkt_rd). run with (apply append_items_rd; unfold fits, BUF_SIZE; len_lia).
  unfold Ran.protect_nas. run. rewrite ctx_run. run. rewrite ctx_run. run.
  cbn [app]. run with (exact E). apply Es.
Qed.

(** A protected message is unpacked. *)
Lemma unprotect_nas_run {B} (k : Packet.t -> prog Ran.proc B) msg h pre body w a fd p e hs c up evs o cm :
  sealed body w -> bytes body -> fits pre w ->
  (x ← Ran.unprotect_nas (rd h pre w) msg; k x) (ran_st a fd p e hs c up evs o cm) =
  k (rd h [] body) (ran_st a fd p e hs c up evs o cm).
Proof.
  intros Hs Hb Hf. unfold Ran.unprotect_nas. run. rewrite ctx_run. run. rewrite ctx_run. run.
  run with (by apply unprotect_rd). done.
Qed.

(** The context after a security mode command. *)
Definition command_items (ks cap en it : Z) : list item := [IU64 ks; IU16 cap; IU64 en; IU64 it].

Definition ran_secured_ctx (c : Ran.RanContext) (ks cap en it : Z) : Ran.RanContext :=
  let c := c <| Ran.ksi_asme := ks |> <| Ran.nw_capability := cap |>
             <| Ran.nas_enc_algo := en |> <| Ran.nas_int_algo := it |> in
  let c := c <| Ran.k_nas_enc := Ran.nas_key en c |> in
  c <| Ran.k_nas_int := Ran.nas_key it c |>.

(** What precedes the check of the HMAC. *)
Lemma set_security_run a fd p e hs c up evs o cm hd m ks cap en it rest :
  pkt_ok p -> ids_ok c -> 0 <= SctpClient.conn_fd fd -> S1ap.wf hd -> len m = 20 ->
  holds evs (s1ap_frame hd (m ++ enc_items (command_items ks cap en it)) ++ rest) ->
  exists evs', holds evs' rest /\
    let c' := ran_secured_ctx c (u64 ks) (u16 cap) (u64 en) (u64 it) in
    (m = mac (enc_items (command_items ks cap en it)) -> exists p' fr wire, pkt_ok p' /\
     sealed (enc_items [IBool true]) wire /\
     s1ap_msg 3 (Ran.enodeb_s1ap_ue_id c) (Ran.mme_s1ap_ue_id c) wire fr /\
     Ran.set_security (ran_st a fd p e hs c up evs o cm) =
       (Ret (Some true), ran_st a fd p' e hs c' up evs' (o ++ [fr]) cm)) /\
    (m <> mac (enc_items (command_items ks cap en it)) -> exists s',
     Ran.set_security (ran_st a fd p e hs c up evs o cm) =
       (Fault (Exit "hmac error: ran_setsecurity"), s')).
Proof.
  intros [Hp Hw] Hids Hfd Hwd Hm Hd. set (body := enc_items _) in *.
  assert (len body = 26) as Hlb by reflexivity.
  edestruct client_rcv_run as (evs' & Hr & E); [exact Hfd | exact Hp | | exact Hd |];
    [len_lia|].
  exists evs'. split; [exact Hr|]. cbv zeta. set (c' := ran_secured_ctx _ _ _ _ _).
  set (h := set_s1ap (hdrs_of p) hd).
  assert (Ran.set_security (ran_st a fd p e hs c up evs o cm) = 
    (_ ← lift (if Integrity.cmp_hmacs (mac body) m then mret tt
              else Utils.handle_type1_error (-1) "hmac error: ran_setsecurity");
     q ← lift (Packet.clear_pkt (rd h body []));
     q ← lift (Packet.append_items q [IBool true]);
     q ← Ran.protect_nas q;
     _ ← Ran.send_s1ap q 3; mret (Some true))
    (ran_st a fd (rd (hdrs_of p) [] (S1ap.to_bytes hd ++ m ++ body)) e hs c' up evs' o cm)) as ->.
  { unfold Ran.set_security. rewrite (run_bind _ _ _ _ _ E). cbn [negb]. rewrite get_pkt_run.
    change (Packet.plen (rd ?x ?y ?z)) with (len (y ++ z)).
    rewrite (proj2 (Z.leb_gt _ _)) by (cbn [app]; len_lia).
    run with (reflexivity). run with (reflexivity).
    run with (by apply (extract_s1ap_hdr_rd _ [])).
    change HMAC_ON with true. cbv iota.
    run with (apply rem_hmac_rd; [exact Hm | unfold fits, BUF_SIZE; len_lia]).
    subst body. unfold command_items at 1. parse.
    rewrite set_ctx_run. unfold Ran.set_crypt_context, Ran.set_integrity_context.
    rewrite !set_ctx_run, ctx_run.
    match goal with |- context [rd (set_s1ap (hdrs_of p) hd) ?x []] =>
      change x with (enc_items (command_items ks cap en it)) end.
    match goal with |- _ (ran_st _ _ _ _ _ ?cc _ _ _ _) = _ => change cc with c' end.
    change (replicate (Z.to_nat HMAC_LEN) 0) with (replicate 20 0).
    rewrite get_hmac_spec by (vm_compute; discriminate). rewrite app_nil_r. reflexivity. }
  assert (len (mac body) = HMAC_LEN) as Hmac by apply len_mac.
  assert (ids_ok c') as Hids' by exact Hids.
  split; intros Hcmp.
  - rewrite (proj2 (cmp_hmacs_spec (mac body) m Hmac Hm)) by done.
    destruct (sealed_exists (enc_items [IBool true])) as [wire Hs].
    destruct (protected_send (rd h body []) [IBool true] wire 3 c')
      as (p' & fr & Hok & Hmsg & Es);
      [apply rd_length; vm_compute; discriminate | exact Hwd | exact Hids' | done
      | vm_compute; discriminate | exact Hs |].
    exists p', fr, wire. split; [exact Hok|]. split; [exact Hs|]. split; [exact Hmsg | apply Es].
  - destruct (Integrity.cmp_hmacs (mac body) m) eqn:Eb;
      [by apply cmp_hmacs_spec in Eb|]. by eexists.
Qed.

(** The context after an attach accept. *)
Definition accept_message (g ebi rab ul ken cap : Z) (tais : list Z) (tau : Z) (ip sip : string)
    (sport : Z) (res : bool) : list item :=
  [IU64 g; IU8 ebi; IU8 rab; IU32 ul; IU64 ken; IU16 cap; IInt (Z.of_nat (length tais)); IVec tais;
   IU64 tau; IStr ip; IStr sip; IInt sport; IBool res].

Definition session_ctx_ran (c : Ran.RanContext) (g ebi rab ul cap : Z) (tais : list Z) (tau : Z)
    (ip : string) : Ran.RanContext :=
  let c := c <| Ran.guti := g |> <| Ran.eps_bearer_id := ebi |> <| Ran.e_rab_id := rab |>
             <| Ran.s1_uteid_ul := ul |> <| Ran.nw_capability := cap |>
             <| Ran.tai_list := tais |> <| Ran.tau_timer := tau |> <| Ran.ip_addr := ip |> in
  c <| Ran.s1_uteid_dl := ul |>.

Lemma set_eps_session_run a fd p e hs c up evs o cm hd wire g ebi rab ul ken cap tais tau ip sip sport rest :
  pkt_ok p -> ids_ok c -> 0 <= SctpClient.conn_fd fd -> S1ap.wf hd ->
  sealed (enc_items (accept_message g ebi rab ul ken cap tais tau ip sip sport true)) wire ->
  len wire <= 1000 -> nul_free ip -> nul_free sip -> len (c_str ip) <= 100 -> len (c_str sip) <= 100 ->
  s32 (Z.of_nat (length tais)) = Z.of_nat (length tais) ->
  holds evs (s1ap_frame hd wire ++ rest) ->
  exists p' fr evs' wire', pkt_ok p' /\ holds evs' rest /\
    sealed (enc_items [IU8 (u8 ebi); IU32 (u32 ul)]) wire' /\
    s1ap_msg 4 (Ran.enodeb_s1ap_ue_id c) (Ran.mme_s1ap_ue_id c) wire' fr /\
    Ran.set_eps_session (ran_st a fd p e hs c up evs o cm) =
    (Ret (Some true),
     ran_st (a <| Ran.sgw_s1_ip_addr := sip |> <| Ran.sgw_s1_port := s32 sport |>) fd p' e hs
       ((session_ctx_ran c (u64 g) (u8 ebi) (u8 rab) (u32 ul) (u16 cap) (map u64 tais) (u64 tau) ip)
          <| Ran.emm_state := 1 |> <| Ran.ecm_state := 1 |>)
       (TrafficMonitor.update_uplink_info ip (u32 ul) sip (s32 sport) up) evs' (o ++ [fr]) cm).
Proof.
  intros [Hp Hw] Hids Hfd Hwd Hs Hl Hip Hsip Hli Hls Ht Hd.
  edestruct client_rcv_run as (evs' & Hr & E); [exact Hfd | exact Hp | exact Hl | exact Hd |].
  destruct (sealed_exists (enc_items [IU8 (u8 ebi); IU32 (u32 ul)])) as [wire' Hs'].
  unfold Ran.set_eps_session. rewrite (run_bind _ _ _ _ _ E). cbn [negb]. rewrite get_pkt_run.
  change (Packet.plen (rd ?x ?y ?z)) with (len (y ++ z)).
  rewrite (proj2 (Z.leb_gt _ _)) by (cbn [app]; len_lia).
  run with (by apply (extract_s1ap_hdr_rd _ [])).
  rewrite unprotect_nas_run with (1 := Hs); [| apply bytes_enc_items | unfold fits, BUF_SIZE; len_lia].
  pose proof (len_sealed _ _ Hs) as Hlen.
  pose proof (enc_size_bounds (len (enc_items
    (accept_message g ebi rab ul ken cap tais tau ip sip sport true)))) as Hb.
  unfold accept_message in *. parse. rewrite Ht. run with (by apply extract_vector_rd). parse.
  run with (apply extract_text_rd; [lia | done]). run with (apply extract_text_rd; [lia | done]). parse.
  rewrite set_ctx_run. run. cbn [negb].
  rewrite run_modify. match goal with |- context [Packet.clear_pkt ?q] => set (Q := q) end.
  set (P := rd (hdrs_of p) [] _).
  set (c1 := session_ctx_ran c (u64 g) (u8 ebi) (u8 rab) (u32 ul) (u16 cap) (map u64 tais) (u64 tau) ip).
  destruct (protected_send Q [IU8 (u8 ebi); IU32 (u32 ul)] wire' 4 c1) as (p' & fr & Hok & Hm & Es);
    [apply rd_length; unfold fits, BUF_SIZE; len_lia | exact Hwd | exact Hids | done
    | vm_compute; discriminate | exact Hs' |].
  exists p', fr, evs', wire'. split; [exact Hok|]. split; [exact Hr|]. split; [exact Hs'|].
  split; [exact Hm|]. exact (Es _ (fun _ =>
    Ran.set_ctx (fun c0 => c0 <| Ran.emm_state := 1 |> <| Ran.ecm_state := 1 |>) ≫= fun _ => mret (Some true))
    (a <| Ran.sgw_s1_ip_addr := sip |> <| Ran.sgw_s1_port := s32 sport |>) fd P e hs
    (TrafficMonitor.update_uplink_info ip (u32 ul) sip (s32 sport) up) evs' o cm).
Qed.

(** The request goes out before the answer is read. *)
Lemma ran_detach_run p c :
  pkt_ok p -> ids_ok c ->
  exists wire fr,
    sealed (enc_items [IU64 (Ran.guti c); IU64 (Ran.ksi_asme c); IU64 1]) wire /\
    s1ap_msg 5 (Ran.enodeb_s1ap_ue_id c) (Ran.mme_s1ap_ue_id c) wire fr /\
    forall a fd e hs up evs o cm hd b wire' rest,
      0 <= SctpClient.conn_fd fd -> S1ap.wf hd -> sealed (enc_items [IBool b]) wire' ->
      holds evs (s1ap_frame hd wire' ++ rest) ->
      exists p' evs', pkt_ok p' /\ holds evs' rest /\
        Ran.detach (ran_st a fd p e hs c up evs o cm) =
        (Ret (Some b), ran_st a fd p' e hs c up evs' (o ++ [fr]) cm).
Proof.
  intros [Hp Hw] Hids.
  destruct (sealed_exists (enc_items [IU64 (Ran.guti c); IU64 (Ran.ksi_asme c); IU64 1])) as [wire Hs].
  destruct (protected_send p [IU64 (Ran.guti c); IU64 (Ran.ksi_asme c); IU64 1] wire 5 c)
    as (p1 & fr & [Hok1 Hw1] & Hm & Es); [done | done | done | done | vm_compute; discriminate | done |].
  exists wire, fr. split; [exact Hs|]. split; [exact Hm|].
  intros a fd e hs up evs o cm hd b wire' rest Hfd Hwd Hs' Hd.
  pose proof (len_sealed _ _ Hs') as Hlen.
  replace (enc_size (len (enc_items [IBool b]))) with 16 in Hlen by reflexivity.
  edestruct (client_rcv_run hd wire' rest a fd p1 e hs c up evs (o ++ [fr]) cm)
    as (evs' & Hr & E); [done | done | lia | done |].
  set (P := rd (hdrs_of p1) [] (S1ap.to_bytes hd ++ wire')) in E.
  set (h := set_s1ap (hdrs_of p1) hd).
  exists (rd h (enc_items [IBool b]) []), evs'.
  split; [apply pkt_ok_rd; [exact Hwd | vm_compute; by destruct b]|]. split; [exact Hr|].
  unfold Ran.detach. rewrite get_pkt_run. run with (by apply clear_pkt_rd). rewrite !ctx_run.
  match goal with |- (q ← lift _; q ← Ran.protect_nas q; x ← Ran.send_s1ap q 5; @?k x) ?s = _ =>
    specialize (Es _ k a fd p e hs up evs o cm) end.
  rewrite (run_lift _ _ _ _ (clear_pkt_rd p Hp)) in Es.
  etransitivity; [exact Es|]. cbv beta. rewrite (run_bind _ _ _ _ _ E). cbn [negb]. rewrite get_pkt_run.
  change (Packet.plen P) with (len (S1ap.to_bytes hd ++ wire')).
  rewrite (proj2 (Z.leb_gt _ _)) by len_lia.
  run with (by apply (extract_s1ap_hdr_rd _ [])).
  rewrite unprotect_nas_run with (1 := Hs'); [| apply bytes_enc_items | unfold fits, BUF_SIZE; len_lia].
  parse. by rewrite set_pkt_run.
Qed.
End Runs.

(** ** Properties *)

Section Properties.
Context `{CL : CryptoLib}.

(** C40: a simulator thread that misses its second never ends: [schedule] is
    never called, so every UE is due at second 0 only, and the duration is
    checked behind that test.  Once the clock has moved on, however long the
    thread runs and however far the duration is exceeded, it stays in the
    loop, and does nothing there.  At second 0 a duration that is over does
    end it. *)
Theorem missed_second_never_ends start start_time req_dur ran_num clock exceeded s :
  0 <= ran_num < 100 ->
  (Forall (fun t => Ran.r_scheduled t <> start) clock ->
   Ran.simulate_loop start start_time req_dur ran_num clock exceeded s = (Ret (Ran.Again, []), s)) /\
  (forall t rest, clock = t :: rest -> Ran.r_scheduled t = start -> req_dur < Ran.r_limit t - start_time ->
   Ran.simulate_loop start start_time req_dur ran_num clock exceeded s = (Ret (Ran.Break, []), s)).
Proof.
  intros Hn. assert (forall el, Ran.is_scheduled ran_num el = Ret (0 =? el)) as Hs.
  { intros el. unfold Ran.is_scheduled. rewrite (proj2 (Z.ltb_ge _ _)) by lia.
    unfold Ran.TimetoStart. by rewrite lookup_replicate_2 by (unfold Ran.nstars; lia). }
  split.
  - intros Hc. revert exceeded. induction Hc as [|t clock Ht _ IH]; intros exceeded; [done|].
    cbn [Ran.simulate_loop fst] in *. unfold Ran.simulate_turn. run. run with (apply Hs).
    rewrite (proj2 (Z.eqb_neq _ _)) by lia. run. by rewrite (run_bind _ _ _ _ _ (IH exceeded)).
  - intros t rest -> Et Hd. cbn [Ran.simulate_loop]. unfold Ran.simulate_turn. run. run with (apply Hs).
    rewrite Et, Z.sub_diag. unfold Utils.time_check. rewrite (proj2 (Z.ltb_lt _ _)) by done. by run.
Qed.
End Properties.

(** *** Witnesses *)

Definition blank_ctx : Ran.RanContext :=
  Ran.mk_ctx 0 0 0 0 "" 0 0 0 [] 0 0 0 0 0 0 0 0 0 0 0 0 0 0 0 0 0 0 0 0 0 0 0 false 0.

(** The context of UE [n] that [construct_ctx] and [init_ctx] make. *)
Definition demo_ran_ctx (n : Z) : Ran.RanContext :=
  match (c ← Ran.construct_ctx blank_ctx; Ran.init_ctx n c) with
  | Ret c => c
  | Fault _ => blank_ctx
  end.

Definition demo_client : SctpClient.t := SctpClient.mk 4 5000 "172.18.0.4" (mk_sockaddr 5000 4).
Definition demo_ran (evs : list Network.event) (c : Ran.RanContext) : Ran.proc :=
  ran_st Ran.construct_addrs demo_client (rd zero_hdrs [] []) 0 0 c ∅ evs [] [].

Lemma missed_second_never_ends_witness :
  Ran.simulate_loop (CL := toy_crypto) 100 100 60 7
    [Ran.mk_reading 101 101 0; Ran.mk_reading 130 130 0; Ran.mk_reading 500 500 0] false
    (demo_ran [] (demo_ran_ctx 7)) = (Ret (Ran.Again, []), demo_ran [] (demo_ran_ctx 7)).
Proof.
  apply missed_second_never_ends; [lia|]. repeat constructor; discriminate.
Defined.
