(* ===== verification/Core.v ===== *)
(** * Core: the deployment behind the AMF

    The AUSF (over a MySQL server) and the SMF with its UPF, side by side:
    the world in which the AMF's stubs make their calls.  The contracts of
    the two services and their independence are proved here, so that every
    theorem about the AMF applies to the composed system. *)

From Stdlib Require Import ZArith Lia Ascii String.
From S2P Require Import Prelude Utils Telecom Headers Packet Network Transport Security Messages.
From S2P Require Import Ausf Upf Smf Amf.

(** The three processes. *)
Record core `{MySqlLib} := mk_core { c_ausf : MYSQL; c_smf : Smf.proc Upf.proc }.

Section Core.
Context `{DB : MySqlLib}.

Definition on_ausf {A} (c : prog MYSQL A) : prog core A :=
  fun w => let '(r, a) := c (c_ausf w) in (r, mk_core _ a (c_smf w)).
Definition on_smf {A} (c : prog (Smf.proc Upf.proc) A) : prog core A :=
  fun w => let '(r, s) := c (c_smf w) in (r, mk_core _ (c_ausf w) s).

#[export] Instance core_ausf : AusfStub core := {
  call_AmfAusfInteraction ch m := on_ausf (call_AmfAusfInteraction ch m)
}.
#[export] Instance core_smf : SmfStub core := {
  call_AmfSmfInteraction ch m := on_smf (call_AmfSmfInteraction ch m)
}.

(** The handover code's peers: nothing listens on the UPF port it uses, and no
    program of the source accepts connections for a base station. *)
#[export] Instance core_handover : Handover core := {
  ho_n4 := {| n4_snd _ _ := mret tt; n4_rcv := mret UdpClient.Timeout |};
  ho_udp_open _ := mret tt;
  ho_ran_connect _ _ := fail never_connects;
  ho_ran_snd _ _ := mret tt
}.

Context `{LAWS : !MySqlLaws}.

#[export] Instance core_ausf_contract : AusfContract core.
Proof.
  refine {|
    ausf_channel := ausf_channel (W := MYSQL);
    ausf_knows i k r w := ausf_knows i k r (c_ausf w);
    ausf_ready w := ausf_ready (c_ausf w)
  |}.
  - intros ch [a s] m key rand Hch Hr Hty Hk.
    destruct (ausf_autn_law ch a m key rand Hch Hr Hty Hk) as (a' & rep & E & H).
    exists (mk_core _ a' s), rep. unfold call_AmfAusfInteraction, core_ausf, on_ausf.
    cbn [c_ausf c_smf]. rewrite E. split; [done | exact H].
  - intros ch [a s] m Hch Hr Hty.
    destruct (ausf_location_law ch a m Hch Hr Hty) as (a' & rep & E & H).
    exists (mk_core _ a' s), rep. unfold call_AmfAusfInteraction, core_ausf, on_ausf.
    cbn [c_ausf c_smf]. rewrite E. split; [done | exact H].
Defined.

#[export] Instance core_smf_contract : SmfContract core.
Proof.
  refine {|
    smf_garbage_dl := smf_garbage_dl (W := Smf.proc Upf.proc);
    smf_sessions S w := smf_sessions S (c_smf w)
  |}.
  intros ch S [a s] r m Hch Hw Hok Hm.
  destruct (smf_law ch S s r m Hch Hw Hok Hm) as (s' & rep & E & Hr & Hs).
  exists (mk_core _ a s'), rep. unfold call_AmfSmfInteraction, core_smf, on_smf.
  cbn [c_ausf c_smf]. rewrite E. split; [done|]. by split.
Defined.

#[export] Instance core_contract : CoreContract core.
Proof.
  split.
  - intros ch m [a s] r w' S E Hs. unfold call_AmfAusfInteraction, core_ausf, on_ausf in E.
    cbn [c_ausf c_smf] in E. destruct (call_AmfAusfInteraction ch m a). injection E as _ <-. exact Hs.
  - intros ch m [a s] r w' E Hr. unfold call_AmfSmfInteraction, core_smf, on_smf in E.
    cbn [c_ausf c_smf] in E. destruct (call_AmfSmfInteraction ch m s). injection E as _ <-. by split.
Qed.
End Core.

(** *** The deployment of the witnesses: three subscribers, nobody attached *)

Definition demo_core : core := mk_core _ demo_db (Smf.mk_proc Smf.construct (Upf.mk_proc Upf.construct [])).

Definition demo_know (i k r : Z) : Prop := subscriber i k r demo_db.

Lemma smf_repr_init : smf_repr ∅ Smf.construct.
Proof. split; [intros n [v Hv]; discriminate Hv | intros g c Hc; discriminate Hc]. Qed.

Lemma demo_core_ok : core_ok demo_know ∅ demo_core.
Proof.
  split; [split; [exact upf_repr_init | exact smf_repr_init]|]. split; [|done].
  vm_compute. repeat constructor; set_solver.
Qed.

Definition demo_amf_ids : Amf.AmfIds := Amf.mk_ids 1 1 11 1 1 11 1111.

(** The AMF that [Amf.construct] makes when the registry knows both services. *)
Definition demo_amf : Amf.t :=
  Amf.mk demo_amf_ids 0 ∅ ∅ "172.18.0.3" "172.18.0.5" "172.18.0.6" 7100.

Lemma demo_amf_constructed : Amf.construct (Some ("172.18.0.3", "172.18.0.5")) = Ret demo_amf.
Proof. vm_compute. reflexivity. Qed.

Lemma demo_amf_config cnt s1 ctx ip :
  amf_config (W := core) (Amf.mk demo_amf_ids cnt s1 ctx "172.18.0.3" "172.18.0.5" ip 7100).
Proof.
  split; [done | | done | done]. intros wid Hwid. eexists. split; [reflexivity|].
  change (String.prefix "" (to_string wid) = true). by destruct (to_string wid).
Qed.

(** Subscriber 1 attached, with a session, under identity 7. *)
Definition demo_ue : Amf.UeContext :=
  attached_ctx (Amf.construct_ctx (Amf.mk_ctx 0 0 0 "" 0 0 0 [] 0 0 0 0 0 0 0 0 0 0 0 0 0 0 0 0 0 0 0 0 0
    0 "" 0 0 0)) (deployed_imsi 1) 42 7 1 5 111 222.
Definition amf_garbage (_ : Z) : Amf.UeContext := demo_ue.
Definition no_grpc : GrpcPacket.t :=
  GrpcPacket.mk 0 0 0 0 0 0 0 0 0 0 0 0 0 "" 0 0 0 0 0 0 0 0 0 [] 0 0 "" "" 0 false 0.

Definition demo_attached : Amf.proc core :=
  Amf.mk_proc (Amf.mk demo_amf_ids 7 (<[7 := deployed_guti 1]> ∅) (<[deployed_guti 1 := demo_ue]> ∅)
    "172.18.0.3" "172.18.0.5" "172.18.0.6" 7100) demo_core [].

Definition demo_s : gmap Z session := <[1 := demo_session]> ∅.
Definition demo_smf_state : Smf.t :=
  Smf.construct <| Smf.ue_ctx := <[deployed_guti 1 := demo_smf_ctx <| Smf.s11_cteid_sgw := 1 |>]>
    (Smf.ue_ctx Smf.construct) |>.
Definition demo_core1 : core :=
  mk_core _ demo_db (Smf.mk_proc demo_smf_state
    (Upf.mk_proc (add_session 1 demo_session Upf.construct) [])).

Lemma demo_core1_ok : core_ok demo_know demo_s demo_core1.
Proof.
  split; [split|].
  - apply add_session_repr; [exact upf_repr_init | lia].
  - apply smf_repr_insert; [exact smf_repr_init | done | done].
  - split; [|done]. vm_compute. repeat constructor; set_solver.
Qed.

Definition demo_connected : Amf.proc core :=
  Amf.mk_proc (Amf.amf demo_attached) demo_core1 [].

(** A message in one segment. *)
Definition segment (hd : S1ap.t) (body : list Z) : list Network.event :=
  Network.requeue (s1ap_frame hd body ++ []) [].

(** Every frame in one segment. *)
Definition one_segment (bs : list Z) : list Network.event := Network.requeue bs [].
Lemma one_segment_holds bs : holds (one_segment bs) bs.
Proof. rewrite <- (app_nil_r bs) at 2. apply holds_requeue. by split. Qed.

Definition demo_hd (ty mme : Z) : S1ap.t := S1ap.mk 0 ty 0 42 mme.

(** What the toy cipher makes of a body. *)
Definition toy_wire (body : list Z) : list Z := toy_mac (toy_pad body) ++ toy_pad body.
Lemma toy_sealed body : sealed body (toy_wire body).
Proof. by exists (toy_pad body). Qed.
