(* ===== verification/Startup.v ===== *)
(** * Startup: the programs around the network functions
    (src/amf_server.cpp, src/ausf_server.cpp, src/smf_server.cpp,
    src/upf_server.cpp, src/sink_server.cpp, src/ran_simulator.cpp)

    Each program checks its arguments, sizes its tables of threads, opens its
    servers and starts the loops that the other files model; a module has its
    [check_usage], [init], [run] and [main].  A thread that was started is
    recorded by what it runs.  What the kernel answers is an argument, and so
    are the service registry and the client library of MySQL; a gRPC server
    is known by the address it is given. *)

From Stdlib Require Import ZArith Lia Ascii String Permutation SpecFloat.
From S2P Require Import Prelude Utils Telecom Headers Packet Network Transport Sink Messages.
From S2P Require Import Ausf Upf Smf Amf Ran Core.

(** ** The C and C++ libraries *)

(** [atoi]: a value that is no [int] is undefined. *)
Definition atoi (s : string) : result Z :=
  let '(neg, ds) :=
    match skip_spaces s with
    | String "-" r => (true, r)
    | String "+" r => (false, r)
    | r => (false, r)
    end in
  let v := if neg : bool then - digits_val 0 ds else digits_val 0 ds in
  if s32 v =? v then Ret v else Fault (UB "atoi of a number that is no int").

(** [vector::resize] with an [int], which becomes a [size_t]. *)
Definition resize (n : Z) : result nat :=
  if n <? 0 then Fault (Throw "std::length_error: vector::_M_default_append") else Ret (Z.to_nat n).

(** An array of [n] elements on the stack. *)
Definition stack_array (n : Z) : result nat :=
  if n <? 0 then Fault (UB "array of negative size") else Ret (Z.to_nat n).

(** [argv[i]] *)
Definition arg (argv : list string) (i : nat) : result string :=
  match argv !! i with Some a => Ret a | None => Fault (UB "read outside the array") end.

(** The addresses of [n] gRPC servers, worker by worker. *)
Definition workers_at (address : Z -> string) (n : nat) : list string :=
  map (fun i => address (Z.of_nat i)) (seq 0 n).

Module UpfServer.

Definition g_upf_sgi_ip_addr : string := "172.18.0.6".
Definition g_upf_sgi_port : Z := 8100.

Definition check_usage (argc : Z) : result unit :=
  if argc <? 4 then Utils.handle_type1_error (-1) "Invalid usage error: upfserver_checkusage" else Ret tt.

Record counts := mk_counts {
  g_s11_server_threads_count : Z;
  g_s1_server_threads_count : Z;
  g_sgi_server_threads_count : Z
}.

Definition init (argv : list string) : result counts :=
  a ← arg argv 1; n11 ← atoi a;
  a ← arg argv 2; n1 ← atoi a;
  a ← arg argv 3; ng ← atoi a;
  _ ← resize n11; _ ← resize n1; _ ← resize ng;
  mret (mk_counts n11 n1 ng).

(** What a thread runs. *)
Inductive loop := handle_s11_traffic | handle_s1_traffic | handle_sgi_traffic.
#[export] Instance loop_eq_dec : EqDecision loop.
Proof. solve_decision. Defined.

(** The servers of the object [g_upf], and the threads. *)
Record state := mk_state {
  s11_server : UdpServer.t;
  s1_server : UdpServer.t;
  sgi_server : UdpServer.t;
  threads : list loop
}.

Section Run.
Context (inet_aton : string -> option Z).

(** [k11], [k1], [kg]: [setsockopt] and [bind] for the three servers. *)
Definition run (c : counts) (s : state) (k11 k1 kg : Z * Z) : result state :=
  sv ← UdpServer.run inet_aton (s11_server s) Upf.g_upf_s11_ip_addr Upf.g_upf_s11_port k11.1 k11.2;
  let s := s <| s11_server := sv |>
             <| threads := threads s ++ replicate (Z.to_nat (g_s11_server_threads_count c)) handle_s11_traffic |> in
  sv ← UdpServer.run inet_aton (s1_server s) Upf.g_upf_s1_ip_addr Upf.g_upf_s1_port k1.1 k1.2;
  let s := s <| s1_server := sv |>
             <| threads := threads s ++ replicate (Z.to_nat (g_s1_server_threads_count c)) handle_s1_traffic |> in
  sv ← UdpServer.run inet_aton (sgi_server s) g_upf_sgi_ip_addr g_upf_sgi_port kg.1 kg.2;
  mret (s <| sgi_server := sv |>
          <| threads := threads s ++ replicate (Z.to_nat (g_sgi_server_threads_count c)) handle_sgi_traffic |>).

Definition main (argv : list string) (s : state) (k11 k1 kg : Z * Z) : result state :=
  _ ← check_usage (Z.of_nat (length argv));
  c ← init argv;
  run c s k11 k1 kg.
End Run.
End UpfServer.

Module SmfServer.

Definition smf_amf_ip_addr : string := "172.18.0.5".
Definition smf_upf_ip_addr : string := "172.18.0.5".
Definition smf_amf_port : Z := 8500.

Definition check_usage (argc : Z) : result unit :=
  if argc <? 2 then Utils.handle_type1_error (-1) "Invalid usage error: smfserver_checkusage" else Ret tt.

(** Both counts are the first argument. *)
Definition init (argv : list string) : result (nat * nat) :=
  a ← arg argv 1; grpc ← atoi a;
  a ← arg argv 1; s11 ← atoi a;
  _ ← resize grpc; n11 ← resize s11; _ ← resize grpc; n ← resize grpc;
  mret (n, n11).

(** The addresses given to the gRPC library. *)
Definition RunServer (worker_id : Z) : string := "0.0.0.0:5005" +:+ to_string worker_id.
Definition RunServer1 (worker_id : Z) : string := "0.0.0.0:5006" +:+ to_string worker_id.
Definition RunServer2 (worker_id : Z) : string := "0.0.0.0:5007" +:+ to_string worker_id.

Section Run.
Context (inet_aton : string -> option Z).

(** One turn of the loop of [handle_s11_traffic]: every branch of its switch
    only prints. *)
Definition handle_s11_traffic (src_sock_addr : sockaddr_in) (pkt : Packet.t) (d : UdpClient.datagram)
  : result (sockaddr_in * Packet.t) :=
  '(src_sock_addr, pkt) ← UdpServer.rcv src_sock_addr pkt d;
  pkt ← Packet.extract_gtp_hdr pkt;
  mret (src_sock_addr, pkt).

(** The N11 server, the number of threads, and the gRPC servers. *)
Record state := mk_state { amf_server : UdpServer.t; s11_threads : nat; grpc : list string }.

Definition run (n11 : nat) (s : state) (k : Z * Z) : result state :=
  sv ← UdpServer.run inet_aton (amf_server s) smf_amf_ip_addr smf_amf_port k.1 k.2;
  mret (s <| amf_server := sv |> <| s11_threads := n11 |>).

Definition main (argv : list string) (s : state) (k : Z * Z) : result state :=
  _ ← check_usage (Z.of_nat (length argv));
  '(n, n11) ← init argv;
  s ← run n11 s k;
  mret (s <| grpc := workers_at RunServer n ++ workers_at RunServer1 n ++ workers_at RunServer2 n |>).
End Run.
End SmfServer.

Module AmfServer.

Definition check_usage (argc : Z) : result unit :=
  if argc <? 2 then Utils.handle_type1_error (-1) "Invalid usage error: amfserver_checkusage" else Ret tt.

(** The clients of the workers; [socks] has the sockets of their two
    constructors, [m] and [m'] the memory they are built in. *)
Record clients := mk_clients { ausf_clients : list SctpClient.t; smf_clients : list UdpClient.t }.

Fixpoint make_all {T} (make : Z -> result T) (n : nat) (socks : list Z) : result (list T) :=
  match n, socks with
  | O, _ => Ret []
  | S n, sock :: socks => c ← make sock; cs ← make_all make n socks; mret (c :: cs)
  | S _, [] => Fault (Throw "std::bad_alloc")
  end.

Definition init (argv : list string) (m : SctpClient.t) (m' : UdpClient.t) (socks socks' : list Z)
  : result (Z * clients) :=
  a ← arg argv 1; n ← atoi a;
  k ← resize n; ac ← make_all (SctpClient.construct m) k socks;
  k ← resize n; sc ← make_all (UdpClient.construct m') k socks';
  mret (n, mk_clients ac sc).

(** [GreeterServiceImpl::AmfAusfInteraction] of the AMF: a greeting. *)
Definition AmfAusfInteraction (request : AmfAusfRequest.t) (reply : AmfAusfReply.t) : AmfAusfReply.t :=
  reply <| AmfAusfReply.message := "Hello " +:+ AmfAusfRequest.name request |>.

(** [WriteCallback]: what curl hands over is appended; its size is returned. *)
Definition WriteCallback (contents : string) (userp : string) : Z * string :=
  (Z.of_nat (String.length contents), userp +:+ contents).

Definition RunServer (worker_id : Z) : string := "0.0.0.0:5005" +:+ to_string worker_id.

Section Run.
Context (inet_aton : string -> option Z).

(** The kernel's answers to the clients of one worker. *)
Record dial := mk_dial { d_errno : Z; d_connects : list outcome; d_udp : UdpClient.os }.

(** The loop of [run]: [None] is a [connect] that is tried for ever. *)
Fixpoint conn_all (ausf_ip smf_ip : string) (ds : list dial) (ac : list SctpClient.t) (sc : list UdpClient.t)
  : result (option (list SctpClient.t * list UdpClient.t)) :=
  match ds, ac, sc with
  | d :: ds, a :: ac, u :: sc =>
      r ← SctpClient.conn inet_aton a ausf_ip 6000 (d_errno d) (d_connects d);
      match r with
      | None => Ret None
      | Some (a, _) =>
          u ← UdpClient.conn inet_aton (d_udp d) u Amf.g_amf_ip_addr smf_ip 8500;
          r ← conn_all ausf_ip smf_ip ds ac sc;
          mret (option_map (fun '(ac, sc) => (a :: ac, u :: sc)) r)
      end
  | _, _, _ => Ret (Some ([], []))
  end.

(** The arguments of [SctpServer::run] that are the kernel's. *)
Record serving := mk_serving {
  s_pipes : list (option (Z * Z));
  s_packets : list Packet.t;
  s_reuse : Z;
  s_bind : Z;
  s_packet : Packet.t;
  s_clients : list (Z * list Z)
}.
Definition serve (server : SctpServer.t) (ip : string) (port n : Z) (k : serving) :=
  SctpServer.run inet_aton server ip port n (s_pipes k) (s_packets k) (s_reuse k) (s_bind k) (s_packet k)
    (s_clients k).

(** [run]; it returns only if [accept] stops. *)
Definition run (n : Z) (c : clients) (server : SctpServer.t) (ausf_ip smf_ip : string) (ds : list dial) (k : serving) :=
  r ← conn_all ausf_ip smf_ip (take (Z.to_nat n) ds) (ausf_clients c) (smf_clients c);
  match r with
  | None => Ret None
  | Some _ => serve server Amf.g_amf_ip_addr 5000 n k
  end.

(** [main]: [registry] is the address the registry gives for the AUSF
    ([None]: curl could not start); the gRPC threads start before [run]. *)
Definition main (argv : list string) (m : SctpClient.t) (m' : UdpClient.t) (socks socks' : list Z)
    (ausf_ip smf_ip : string) (registry : option string) (server : SctpServer.t) (ds : list dial) (k : serving) :=
  _ ← check_usage (Z.of_nat (length argv));
  '(g_workers_count, c) ← init argv m m' socks socks';
  a ← arg argv 1; n ← atoi a;
  let ausf_ip := default ausf_ip registry in
  grpc ← stack_array n;
  r ← run g_workers_count c server ausf_ip smf_ip ds k;
  mret (option_map (pair (workers_at RunServer grpc)) r).
End Run.
End AmfServer.

Module AusfServer.

Definition g_ausf_port : Z := 6000.

Definition check_usage (argc : Z) : result unit :=
  if argc <? 2 then Utils.handle_type1_error (-1) "Invalid usage error: ausfserver_checkusage" else Ret tt.

(** [mysql_library_init] returned [status]. *)
Definition init (argv : list string) (status : Z) : result Z :=
  a ← arg argv 1; n ← atoi a;
  _ ← (if status =? 0 then Ret tt
       else Utils.handle_type1_error (-1) "mysql_library_init error: ausfserver_init");
  mret n.

Definition RunServer (worker_id : Z) : string := "0.0.0.0:5005" +:+ to_string worker_id.

Section Run.
Context (inet_aton : string -> option Z) `{DB : MySqlLib}.

(** [run]; [ip] is [g_ausf_ip_addr]. *)
Definition run (n : Z) (server : SctpServer.t) (ip : string) (k : AmfServer.serving) :
    prog MYSQL (option (list SctpServer.worker * list (Z * list Z))) :=
  _ ← Ausf.handle_mysql_conn;
  lift (AmfServer.serve inet_aton server ip g_ausf_port n k).

Definition main (argv : list string) (status : Z) (server : SctpServer.t) (ip : string) (k : AmfServer.serving)
  : prog MYSQL (option (list string * (list SctpServer.worker * list (Z * list Z)))) :=
  _ ← lift (check_usage (Z.of_nat (length argv)));
  g_workers_count ← lift (init argv status);
  n ← lift (a ← arg argv 1; atoi a);
  grpc ← lift (stack_array n);
  r ← run g_workers_count server ip k;
  mret (option_map (pair (workers_at RunServer grpc)) r).
End Run.
End AusfServer.

Module SinkServer.

Definition check_usage (argc : Z) : result unit :=
  if argc <? 2 then Utils.handle_type1_error (-1) "Invalid usage error: sinkserver_checkusage" else Ret tt.

Definition init (argv : list string) : result Z :=
  a ← arg argv 1; n ← atoi a; _ ← resize n; mret n.

(** [sink]: the command given to [system] by thread [sink_num]. *)
Definition sink (sink_num : Z) : string :=
  let port := sink_num + 55000 in
  "iperf3 -s -B 172.16.0.2 -p " +:+ to_string port.

(** The traffic monitor's device and server; the commands of the main thread
    and those of the others. *)
Record state := mk_state { tun : Tun.t; server : UdpServer.t; cmds : list string; sinks : list string }.

Section Run.
Context (inet_aton : string -> option Z).

(** [fd], [ioctl]: what opening the tun device gave; [k]: [setsockopt] and
    [bind]. *)
Definition run (n : Z) (s : state) (fd : Z) (ioctl : list Z -> Z * list Z) (k : Z * Z) : result state :=
  let s := s <| cmds := cmds s ++ [Network.add_itf 0 "172.16.0.2/8"] ++ Tun.set_itf "tun1" "172.16.0.1/16" |> in
  u ← Tun.conn (tun s) "tun1" fd ioctl;
  sv ← UdpServer.run inet_aton (server s) Sink.g_sink_ip_addr Sink.g_sink_port k.1 k.2;
  mret (s <| tun := u |> <| server := sv |> <| sinks := workers_at sink (Z.to_nat n) |>).

Definition main (argv : list string) (s : state) (fd : Z) (ioctl : list Z -> Z * list Z) (k : Z * Z) : result state :=
  _ ← check_usage (Z.of_nat (length argv));
  n ← init argv;
  run n s fd ioctl k.
End Run.
End SinkServer.

Module RanSimulator.

Definition NUM_MONITORS : nat := 50.
Definition g_trafmon_ip_addr : string := "172.18.0.2".
Definition g_trafmon_port : Z := 4000.

Definition check_usage (argc : Z) : result unit :=
  if argc <? 3 then Utils.handle_type1_error (-1) "Invalid usage error: ransimulator_checkusage" else Ret tt.

(** [init]: the number of threads and the requested duration, a [uint64_t]. *)
Definition init (argv : list string) : result (Z * Z) :=
  a ← arg argv 1; g_threads_count ← atoi a;
  a ← arg argv 2; d ← atoi a;
  _ ← resize g_threads_count;
  mret (g_threads_count, u64 d).

(** [ping] *)
Definition quote : string := String (ascii_of_nat 34) "".
Definition ping : string :=
  "ping -I 172.16.1.3 172.16.0.2 -c 60 | grep " +:+ quote +:+ "^rtt" +:+ quote +:+ " >> ping.txt".

(** What a thread runs. *)
Inductive thread := utraffic_monitor | dtraffic_monitor | simulate (ran_num : Z).

Record state := mk_state { tun : Tun.t; server : UdpServer.t; cmds : list string; threads : list thread }.

Section Run.
Context (inet_aton : string -> option Z).

Definition run (n : Z) (s : state) (fd : Z) (ioctl : list Z -> Z * list Z) (k : Z * Z) : result state :=
  let s := s <| cmds := cmds s ++ Tun.set_itf "tun1" "172.16.0.1/16" |> in
  u ← Tun.conn (tun s) "tun1" fd ioctl;
  sv ← UdpServer.run inet_aton (server s) g_trafmon_ip_addr g_trafmon_port k.1 k.2;
  mret (s <| tun := u |> <| server := sv |>
          <| threads := replicate NUM_MONITORS utraffic_monitor ++ replicate NUM_MONITORS dtraffic_monitor ++
                        map (fun i => simulate (Z.of_nat i)) (seq 0 (Z.to_nat n)) |>).

End Run.

(** *** The totals, and what is printed of them *)

(** [g_tot_regs], an [int], and [g_tot_regstime], in microseconds. *)
Record totals := mk_totals { g_tot_regs : Z; g_tot_regstime : Z }.

(** The critical section at the end of a round of [simulate]. *)
Definition count_registration (m : totals) (diff_us : Z) : result totals :=
  if g_tot_regs m + 1 <? 2 ^ 31 then Ret (mk_totals (g_tot_regs m + 1) (u64 (g_tot_regstime m + diff_us)))
  else Fault (UB "integer overflow").
Fixpoint count_all (m : totals) (diffs : list Z) : result totals :=
  match diffs with
  | [] => Ret m
  | d :: diffs => m ← count_registration m d; count_all m diffs
  end.

(** A [double]: IEEE 754 binary64, rounded to nearest. *)
Definition double : Type := spec_float.
Definition to_double (z : Z) : double := binary_normalize 53 1024 z 0 false.
Definition fdiv : double -> double -> double := SFdiv 53 1024.
Definition fmul : double -> double -> double := SFmul 53 1024.

(** 1e-6 *)
Definition micro : double := S754_finite false 4722366482869645 (-72).

(** [print_results]: the five numbers. *)
Record report := mk_report {
  registrations : Z; regs_seconds : double; g_run_dur : Z; latency : double; throughput : double
}.
Definition print_results (now start_time : Z) (m : totals) : result report :=
  if now - start_time <? 0 then Fault (UB "conversion of a negative double") else
  let g_run_dur := now - start_time in
  mret (mk_report (g_tot_regs m) (fmul (to_double (g_tot_regstime m)) micro) g_run_dur
    (fmul (fdiv (to_double (g_tot_regstime m)) (to_double (g_tot_regs m))) micro)
    (fdiv (to_double (g_tot_regs m)) (to_double g_run_dur))).

(** [main]; [diffs] is what the threads counted until they were joined, in
    the order in which they had the mutex. *)
Definition main (inet_aton : string -> option Z) (argv : list string) (s : state) (fd : Z)
    (ioctl : list Z -> Z * list Z) (k : Z * Z) (start_time now : Z) (diffs : list Z)
  : result (state * Z * report) :=
  _ ← check_usage (Z.of_nat (length argv));
  '(n, g_req_dur) ← init argv;
  s ← run inet_aton n s fd ioctl k;
  m ← count_all (mk_totals 0 0) diffs;
  r ← print_results now start_time m;
  mret (s, g_req_dur, r).

(** *** [schedule], the arrival times of the UEs *)

Definition nstars1 : Z := 70.
Definition nrolls : Z := 10000.
Definition TimePeriod : nat := 14000.

(** [TimetoStart[i] = v] *)
Definition store (TimetoStart : list Z) (i : Z) (v : Z) : result (list Z) :=
  if (0 <=? i) && (i <? Z.of_nat (length TimetoStart)) then Ret (<[Z.to_nat i := v]> TimetoStart)
  else Fault (UB "write outside the array").

(** [for (i = first; i < first + n; i++) TimetoStart[i] = v;] *)
Fixpoint fill (n : nat) (first v : Z) (t : list Z) : result (list Z) :=
  match n with
  | O => Ret t
  | S n => t ← store t first v; fill n (first + 1) v t
  end.

(** The loop over the seconds: as many UEs as arrive in second [k] start
    then; [ueNum] is the next one. *)
Fixpoint arrivals (p : list Z) (k ueNum : Z) (t : list Z) : result (Z * list Z) :=
  match p with
  | [] => Ret (ueNum, t)
  | x :: p =>
      let numberUEatI := x * nstars1 ÷ nrolls in
      t ← fill (Z.to_nat numberUEatI) ueNum k t;
      arrivals p (k + 1) (ueNum + Z.max 0 numberUEatI) t
  end.

(** The two loops that overwrite the times in groups: [n] more turns, from
    [i] on; the second counts [k] down. *)
Fixpoint rising (n : nat) (i lowerbound upperbound : Z) (t : list Z) : result (Z * Z * list Z) :=
  match n with
  | O => Ret (lowerbound, upperbound, t)
  | S n =>
      t ← fill (Z.to_nat (upperbound - lowerbound + 1)) lowerbound (3 + 60 * i) t;
      rising n (i + 1) (lowerbound + 2 * (i + 1)) (upperbound + 2 * (i + 2)) t
  end.
Fixpoint falling (n : nat) (i k lowerbound upperbound : Z) (t : list Z) : result (list Z) :=
  match n with
  | O => Ret t
  | S n =>
      t ← fill (Z.to_nat (upperbound - lowerbound + 1)) lowerbound (3 + 60 * i) t;
      falling n (i + 1) (k - 1) (lowerbound + 2 * k) (upperbound + 2 * (k + 1)) t
  end.

(** The counting loop over what the distribution gave, one number per roll. *)
Fixpoint count (numbers : list Z) (p : list Z) : result (list Z) :=
  match numbers with
  | [] => Ret p
  | number :: numbers =>
      if number <? Z.of_nat TimePeriod then
        x ← (match p !! Z.to_nat number with
             | Some x => if number <? 0 then Fault (UB "read outside the array") else Ret x
             | None => Fault (UB "read outside the array")
             end);
        p ← store p number (x + 1);
        count numbers p
      else count numbers p
  end.
(** [schedule]; [numbers] is what the Poisson distribution gave. *)
Definition schedule (numbers : list Z) (t : list Z) : result (list Z) :=
  t ← fill 100 0 1000 t;
  p ← count numbers (replicate TimePeriod 0);
  '(_, t) ← arrivals p 0 0 t;
  '(lowerbound, upperbound, t) ← rising 10 0 0 2 t;
  falling 5 14 3 lowerbound upperbound t.
End RanSimulator.

Module Registration.

(** How a call of the Consul client library ends. *)
Inductive call := Returned | RuntimeError | StdException | OtherException.

(** The registry: the agent's calls, and the address the HTTP interface shows
    for a service (none: [asString] of a missing value is empty). *)
Class Consul (R : Type) := {
  deregister : string -> prog R call;
  register : string -> string -> Z -> prog R call;
  address_of : R -> string -> string
}.

(** A registry that works: who registers is found, nobody else moves. *)
Class ConsulLaws (R : Type) `{!Consul R} := {
  register_law name ip port r : exists r',
    register name ip port r = (Ret Returned, r') /\ address_of r' name = ip /\
    forall other, other <> name -> address_of r' other = address_of r other;
  deregister_law name r : exists c r',
    deregister name r = (Ret c, r') /\
    forall other, other <> name -> address_of r' other = address_of r other
}.

Section Constructors.
Context {R : Type} `{CO : Consul R}.

(** [GetStdoutFromCommand]: the pieces [fgets] reads, if [popen] worked. *)
Definition GetStdoutFromCommand (popen : string -> option (list string)) (cmd : string) : string :=
  match popen (cmd +:+ " 2>&1") with
  | Some pieces => foldl (fun data s => data +:+ s) "" pieces
  | None => ""
  end.

(** [deregisterService]: every exception is only printed. *)
Definition deregisterService (containerName : string) : prog R unit :=
  _ ← deregister containerName; mret tt.

(** [serviceRegister]: every exception ends the process. *)
Definition serviceRegister (containerName nodeIPAddress : string) (grpcPort : Z) : prog R unit :=
  c ← register containerName nodeIPAddress grpcPort;
  match c with
  | Returned => mret tt
  | RuntimeError | StdException | OtherException => fail (Exit "")
  end.

(** [Ausf::Ausf]: what it leaves in [g_ausf_ip_addr]. *)
Definition ifconfig : string :=
  "ifconfig eth0 |grep inet |awk {'print$2'} | cut -f 2 -d:".
Definition new_Ausf (popen : string -> option (list string)) : prog R string :=
  let g_ausf_ip_addr := GetStdoutFromCommand popen ifconfig in
  _ ← deregisterService "ausf";
  _ ← serviceRegister "ausf" g_ausf_ip_addr AusfServer.g_ausf_port;
  mret g_ausf_ip_addr.

(** [Smf::Smf] *)
Definition new_Smf : prog R Smf.t :=
  let s := Smf.construct in
  _ ← deregisterService "smf";
  _ ← serviceRegister "smf" "172.18.0.5" SmfServer.smf_amf_port;
  mret s.

(** [Amf::Amf]; [curl] says whether curl could start. *)
Definition new_Amf (curl : bool) : prog R Amf.t :=
  _ ← deregisterService "amf";
  _ ← serviceRegister "amf" Amf.g_amf_ip_addr 5000;
  services ← gets (fun r => if curl then Some (address_of r "ausf", address_of r "smf") else None);
  lift (Amf.construct services).
End Constructors.
End Registration.

(** A registry that works, as a map from names to addresses. *)
#[local] Instance map_consul : Registration.Consul (gmap string string) := {
  Registration.deregister name r := (Ret Registration.Returned, delete name r);
  Registration.register name ip _ r := (Ret Registration.Returned, <[name := ip]> r);
  Registration.address_of r name := default "" (r !! name)
}.

(** ** Lemmas *)

Lemma arg_some argv i a : argv !! i = Some a -> arg argv i = Ret a.
Proof. unfold arg. by intros ->. Qed.

Lemma resize_ok n : 0 <= n -> resize n = Ret (Z.to_nat n).
Proof. intros H. unfold resize. by rewrite (proj2 (Z.ltb_ge _ _)). Qed.

(** A UDP server that could bind. *)
Lemma udp_run_ok inet_aton s ip p a reuse bind :
  inet_aton ip = Some a -> 0 <= reuse -> 0 <= bind ->
  exists s', UdpServer.run inet_aton s ip p reuse bind = Ret s' /\ UdpServer.sock_addr s' = mk_sockaddr (u16 p) a.
Proof.
  intros Ha Hr Hb. unfold UdpServer.run, UdpServer.init, Network.set_inet_sock_addr. res.
  cbn [UdpServer.ip_addr UdpServer.port]. rewrite Ha. res.
  unfold Network.set_sock_reuse, Network.bind_sock. rewrite !Utils.handle_type1_error_ok by done. res.
  eexists. split; [reflexivity | done].
Qed.

(** Where the UPF receives. *)
Definition bound (s : UpfServer.state) : list sockaddr_in :=
  map UdpServer.sock_addr [UpfServer.s11_server s; UpfServer.s1_server s; UpfServer.sgi_server s].

Lemma fill_ok n : forall first v t,
  0 <= first -> first + Z.of_nat n <= Z.of_nat (length t) ->
  exists t', RanSimulator.fill n first v t = Ret t' /\ length t' = length t.
Proof.
  induction n as [|n IH]; intros first v t H1 H2; [by exists t|]. cbn [RanSimulator.fill].
  unfold RanSimulator.store. rewrite (proj2 (Z.leb_le _ _)), (proj2 (Z.ltb_lt _ _)) by lia. cbn [andb]. res.
  destruct (IH (first + 1) v (<[Z.to_nat first := v]> t)) as (t' & E & L); [lia | rewrite length_insert; lia |].
  exists t'. by rewrite E, L, length_insert.
Qed.

Lemma fill_outside n : forall first v t,
  0 <= first -> Z.of_nat (length t) < first + Z.of_nat n -> (n <> 0)%nat ->
  RanSimulator.fill n first v t = Fault (UB "write outside the array").
Proof.
  induction n as [|n IH]; intros first v t H1 H2 Hn; [done|]. cbn [RanSimulator.fill].
  unfold RanSimulator.store. destruct (Z.ltb_spec first (Z.of_nat (length t))) as [L|L].
  - rewrite (proj2 (Z.leb_le _ _)) by lia. cbn [andb]. res. rewrite IH; [done | lia | rewrite length_insert; lia | lia].
  - by rewrite andb_false_r.
Qed.

Lemma fill_cases n first v t :
  0 <= first ->
  RanSimulator.fill n first v t = Fault (UB "write outside the array") \/
  exists t', RanSimulator.fill n first v t = Ret t' /\ length t' = length t.
Proof.
  intros H. destruct n as [|n]; [right; by exists t|].
  destruct (decide (first + Z.of_nat (S n) <= Z.of_nat (length t))).
  - right. by apply fill_ok.
  - left. apply fill_outside; lia.
Qed.

Lemma arrivals_cases p : forall k ueNum t,
  0 <= ueNum ->
  RanSimulator.arrivals p k ueNum t = Fault (UB "write outside the array") \/
  exists n t', RanSimulator.arrivals p k ueNum t = Ret (n, t') /\ length t' = length t.
Proof.
  induction p as [|x p IH]; intros k u t H; cbn [RanSimulator.arrivals]; [right; by exists u, t|].
  cbv zeta. set (a := _ ÷ _). destruct (fill_cases (Z.to_nat a) u k t H) as [->|(t' & -> & L)]; [by left|]. res.
  destruct (IH (k + 1) (u + Z.max 0 a) t' ltac:(lia)) as [->|(n & t'' & -> & L')]; [by left|].
  right. exists n, t''. split; [done|]. congruence.
Qed.

Lemma count_ok numbers : forall p,
  Forall (fun x => 0 <= x) numbers -> length p = RanSimulator.TimePeriod ->
  exists p', RanSimulator.count numbers p = Ret p'.
Proof.
  induction numbers as [|x numbers IH]; intros p Hx Hp; [by exists p|].
  inversion Hx as [|? ? H1 H2]; subst. cbn [RanSimulator.count].
  destruct (Z.ltb_spec x (Z.of_nat RanSimulator.TimePeriod)) as [L|L]; [|by apply IH].
  destruct (lookup_lt_is_Some_2 p (Z.to_nat x)) as [y ->]; [lia|].
  rewrite (proj2 (Z.ltb_ge _ _)) by lia. res. unfold RanSimulator.store.
  rewrite (proj2 (Z.leb_le _ _)), (proj2 (Z.ltb_lt _ _)) by lia. cbn [andb]. res.
  apply IH; [done | by rewrite length_insert].
Qed.

(** The port of a gRPC server's address. *)
Definition port_of (address : string) : Z :=
  digits_val 0 (String.substring 8 (String.length address - 8) address).

Lemma construct_ids_eq : Amf.construct_ids = Ret demo_amf_ids.
Proof. vm_compute. reflexivity. Qed.

Section Discovery.
Context {R : Type} `{LAWS : Registration.ConsulLaws R}.

(** A service that registers is found under the address it gave. *)
Lemma enrolled {B} name ip port (k : prog R B) r :
  exists r', Registration.address_of r' name = ip /\
    (forall other, other <> name -> Registration.address_of r' other = Registration.address_of r other) /\
    (_ ← Registration.deregisterService name; _ ← Registration.serviceRegister name ip port; k) r = k r'.
Proof.
  destruct (Registration.deregister_law name r) as (c & r1 & E1 & K1).
  destruct (Registration.register_law name ip port r1) as (r2 & E2 & A2 & K2).
  exists r2. split; [done|]. split; [intros o Ho; by rewrite K2, K1|].
  unfold Registration.deregisterService, Registration.serviceRegister.
  rewrite run_assoc, (run_bind _ _ _ _ _ E1), run_ret, run_assoc, (run_bind _ _ _ _ _ E2). reflexivity.
Qed.

(** What the AMF finds in the registry. *)
Lemma new_Amf_finds r :
  exists r', Registration.new_Amf true r =
    (Ret (Amf.mk demo_amf_ids 0 ∅ ∅ (Registration.address_of r "ausf") (Registration.address_of r "smf")
            "172.18.0.6" 7100), r').
Proof.
  destruct (enrolled "amf" Amf.g_amf_ip_addr 5000
    (services ← gets (fun r => if true then Some (Registration.address_of r "ausf", Registration.address_of r "smf") else None);
     lift (Amf.construct services)) r) as (r1 & _ & K & E).
  exists r1. unfold Registration.new_Amf. rewrite E, run_gets, !K by done.
  unfold lift, Amf.construct. by rewrite construct_ids_eq.
Qed.

(** ** Properties *)

(** C38: service discovery: with a registry that works, the AUSF, the SMF and
    the AMF, started in this order, find each other: the AMF has the SMF's
    address, and of the address the AUSF took from [ifconfig] (with the end of
    line that the command printed) it uses the tenth character, the last digit
    of a one-digit host: it is configured as every theorem about the AMF
    supposes it if the AUSF is host 3.  For an AUSF with a longer host number
    it calls another host.  An AMF that is started before the AUSF has no
    address for it, and its first use ends the process. *)
Theorem discovery popen r d rest :
  popen (Registration.ifconfig +:+ " 2>&1") = Some ["172.18.0." +:+ String d rest] ->
  (exists r' amf,
     (_ ← Registration.new_Ausf popen; _ ← Registration.new_Smf; Registration.new_Amf true) r = (Ret amf, r') /\
     Amf.smf_amf_ip_addr amf = "172.18.0.5" /\
     (forall wid, Amf.ausf_channel_of (Amf.g_ausf_ip_addr amf) wid =
        Ret ("172.18.0." +:+ String d "" +:+ ":5005" +:+ to_string wid)) /\
     (d = "3"%char -> amf_config (W := core) amf)) /\
  (Registration.address_of r "ausf" = "" -> exists r' amf,
     Registration.new_Amf true r = (Ret amf, r') /\
     forall wid, Amf.ausf_channel_of (Amf.g_ausf_ip_addr amf) wid =
       Fault (Throw "std::out_of_range: basic_string::at")).
Proof.
  intros Hp. split.
  - unfold Registration.new_Ausf, Registration.new_Smf, Registration.GetStdoutFromCommand. rewrite Hp.
    cbn [foldl]. set (ip := "" +:+ _).
    destruct (enrolled "ausf" ip AusfServer.g_ausf_port (mret ip) r) as (r1 & A1 & K1 & E1).
    destruct (enrolled "smf" "172.18.0.5" SmfServer.smf_amf_port (mret Smf.construct) r1) as (r2 & A2 & K2 & E2).
    destruct (new_Amf_finds r2) as (r3 & E3). rewrite A2, K2, A1 in E3 by done.
    exists r3. eexists. split; [|split; [|split]].
    + cbv zeta. rewrite (run_bind _ _ _ _ _ E1), (run_bind _ _ _ _ _ E2). exact E3.
    + reflexivity.
    + reflexivity.
    + intros ->. split; [reflexivity | | reflexivity | reflexivity].
      intros wid _. eexists. split; [reflexivity|].
      change (String.prefix "" (to_string wid) = true). by destruct (to_string wid).
  - intros H0. destruct (new_Amf_finds r) as (r1 & E1). rewrite H0 in E1. eauto.
Qed.
End Discovery.

Section Wiring.
Context (inet_aton : string -> option Z).

(** The UPF's program, given three counts, has its three servers where
    its peers look for them: the N4 server where the SMF sends, the N3 server
    where the base stations are told to send by every AMF, the N6 server where
    the sink sends; with as many threads for each as asked.  Nothing is at
    the address to which the AMF sends its handover requests. *)
Theorem upf_startup_wiring argv a1 a2 a3 n11 n1 ng (s : UpfServer.state) k11 k1 kg a :
  argv !! 1%nat = Some a1 -> argv !! 2%nat = Some a2 -> argv !! 3%nat = Some a3 ->
  atoi a1 = Ret n11 -> atoi a2 = Ret n1 -> atoi a3 = Ret ng -> 0 <= n11 -> 0 <= n1 -> 0 <= ng ->
  inet_aton "172.18.0.6" = Some a -> UpfServer.threads s = [] ->
  (0 <= k11.1 /\ 0 <= k11.2) -> (0 <= k1.1 /\ 0 <= k1.2) -> (0 <= kg.1 /\ 0 <= kg.2) ->
  exists s',
    UpfServer.main inet_aton argv s k11 k1 kg = Ret s' /\
    UpfServer.threads s' = replicate (Z.to_nat n11) UpfServer.handle_s11_traffic ++
      replicate (Z.to_nat n1) UpfServer.handle_s1_traffic ++
      replicate (Z.to_nat ng) UpfServer.handle_sgi_traffic /\
    (forall x, Network.set_inet_sock_addr inet_aton Smf.g_upf_smf_ip_addr Smf.g_upf_smf_port = Ret x ->
       x = UdpServer.sock_addr (UpfServer.s11_server s')) /\
    (forall registry amf x, Amf.construct registry = Ret amf ->
       Network.set_inet_sock_addr inet_aton (Amf.g_upf_s1_ip_addr amf) (Amf.g_upf_s1_port amf) = Ret x ->
       x = UdpServer.sock_addr (UpfServer.s1_server s')) /\
    (forall x, Network.set_inet_sock_addr inet_aton Sink.g_pgw_sgi_ip_addr Sink.g_pgw_sgi_port = Ret x ->
       x = UdpServer.sock_addr (UpfServer.sgi_server s')) /\
    (forall x, Network.set_inet_sock_addr inet_aton Amf.g_upf_s11_ip_addr Amf.g_upf_s11_port = Ret x ->
       x ∉ bound s').
Proof.
  intros H1 H2 H3 E1 E2 E3 P1 P2 P3 Ha Ht [] [] [].
  assert (UpfServer.check_usage (Z.of_nat (length argv)) = Ret tt) as Hu.
  { unfold UpfServer.check_usage. apply lookup_lt_Some in H3. by rewrite (proj2 (Z.ltb_ge _ _)) by lia. }
  unfold UpfServer.main, UpfServer.init. rewrite Hu. res.
  rewrite (arg_some _ _ _ H1). res. rewrite E1. res. rewrite (arg_some _ _ _ H2). res. rewrite E2. res.
  rewrite (arg_some _ _ _ H3). res. rewrite E3. res. rewrite !resize_ok by done. res.
  unfold UpfServer.run. destruct s as [sv1 sv2 sv3 th]. cbn [UpfServer.threads UpfServer.s11_server] in *. subst th.
  destruct (udp_run_ok inet_aton sv1 Upf.g_upf_s11_ip_addr Upf.g_upf_s11_port a k11.1 k11.2) as (t1 & -> & B1); try done.
  res. cbn [UpfServer.s1_server].
  destruct (udp_run_ok inet_aton sv2 Upf.g_upf_s1_ip_addr Upf.g_upf_s1_port a k1.1 k1.2) as (t2 & -> & B2); try done.
  res. cbn [UpfServer.sgi_server].
  destruct (udp_run_ok inet_aton sv3 UpfServer.g_upf_sgi_ip_addr UpfServer.g_upf_sgi_port a kg.1 kg.2) as (t3 & -> & B3); try done.
  res. eexists. split; [reflexivity|]. split; [cbn [UpfServer.threads app]; by rewrite <- app_assoc|].
  cbn [UpfServer.s11_server UpfServer.s1_server UpfServer.sgi_server].
  unfold Network.set_inet_sock_addr. rewrite B1, B2, B3. split; [|split; [|split]].
  - intros x E. change (inet_aton Smf.g_upf_smf_ip_addr) with (inet_aton "172.18.0.6") in E. rewrite Ha in E.
    by injection E as <-.
  - intros r amf x Er E.
    assert (exists au sm, amf = Amf.mk demo_amf_ids 0 ∅ ∅ au sm "172.18.0.6" 7100) as (au & sm & ->)
      by (unfold Amf.construct in Er; rewrite construct_ids_eq in Er; res; injection Er as <-;
          destruct r as [[]|]; by eexists _, _).
    cbn [Amf.g_upf_s1_ip_addr Amf.g_upf_s1_port] in E. rewrite Ha in E. by injection E as <-.
  - intros x E. change (inet_aton Sink.g_pgw_sgi_ip_addr) with (inet_aton "172.18.0.6") in E. rewrite Ha in E.
    by injection E as <-.
  - intros x E. change (inet_aton Amf.g_upf_s11_ip_addr) with (inet_aton "172.18.0.6") in E. rewrite Ha in E.
    injection E as <-. unfold bound. cbn [map UpfServer.s11_server UpfServer.s1_server UpfServer.sgi_server].
    rewrite B1, B2, B3, list_elem_of_In. cbn. intros [E|[E|[E|[]]]]; discriminate E.
Qed.
End Wiring.

(** The totals do not depend on the order in which the threads had [g_mux]. *)
Theorem totals_any_order diffs diffs' m :
  Permutation diffs diffs' -> RanSimulator.count_all m diffs = RanSimulator.count_all m diffs'.
Proof.
  intros P. revert m. induction P as [|d l l' P IH|d d' l|l l2 l' P1 IH1 P2 IH2]; intros m; cbn [RanSimulator.count_all].
  - done.
  - destruct (RanSimulator.count_registration m d); [apply IH | done].
  - unfold RanSimulator.count_registration. destruct (Z.ltb_spec (RanSimulator.g_tot_regs m + 1) (2 ^ 31)); [|done]. res.
    cbn [RanSimulator.g_tot_regs RanSimulator.g_tot_regstime].
    destruct (Z.ltb_spec (RanSimulator.g_tot_regs m + 1 + 1) (2 ^ 31)); [|done]. res. do 2 f_equal. wrap.
  - by rewrite IH1.
Qed.

(** When no round ended, the latency is not a number, and the program says
    so. *)
Lemma nothing_to_report now start_time :
  start_time <= now -> exists r,
    RanSimulator.print_results now start_time (RanSimulator.mk_totals 0 0) = Ret r /\
    RanSimulator.latency r = S754_nan.
Proof.
  intros H. unfold RanSimulator.print_results. rewrite (proj2 (Z.ltb_ge _ _)) by lia. by eexists.
Qed.
Lemma four_rounds :
  RanSimulator.print_results 110 100 (RanSimulator.mk_totals 4 1000000) =
  Ret (RanSimulator.mk_report 4 (RanSimulator.to_double 1) 10
    (RanSimulator.fdiv (RanSimulator.to_double 1) (RanSimulator.to_double 4))
    (RanSimulator.fdiv (RanSimulator.to_double 2) (RanSimulator.to_double 5))).
Proof. vm_compute. reflexivity. Qed.

(** [schedule], which fills in the arrival times of the UEs, writes past
    the end of the table, whatever the Poisson distribution gave: the groups it
    overwrites reach index 110 and beyond, the table has 100 entries. *)
Theorem schedule_overflows numbers t :
  Forall (fun x => 0 <= x) numbers -> length t = Ran.nstars ->
  RanSimulator.schedule numbers t = Fault (UB "write outside the array").
Proof.
  intros Hn Hl. unfold RanSimulator.schedule.
  destruct (fill_ok 100 0 1000 t ltac:(lia) ltac:(rewrite Hl; done)) as (t0 & -> & L0). res.
  destruct (count_ok numbers (replicate RanSimulator.TimePeriod 0) Hn (length_replicate _ _)) as [p ->]. res.
  destruct (arrivals_cases p 0 0 t0 ltac:(lia)) as [->|(n & t1 & -> & L1)]; [done|]. res.
  assert (Z.of_nat (length t1) = 100) as L by (rewrite L1, L0, Hl; done).
  cbn [RanSimulator.rising].
  do 9 match goal with |- context [RanSimulator.fill ?k ?f ?v ?l] =>
    let t := fresh "t" in let L' := fresh "L" in
    destruct (fill_ok k f v l ltac:(lia) ltac:(lia)) as (t & -> & L'); rewrite <- L' in L; clear L'; res end.
  rewrite fill_outside by lia. done.
Qed.

(** A server with workers does not survive its own start: the pipes are
    written into arrays without elements (Transport.v, [init_pipes_overflow]). *)
Lemma serve_overflows inet_aton server ip port n k fds pipes a :
  0 < n -> inet_aton ip = Some a -> AmfServer.s_pipes k = Some fds :: pipes ->
  AmfServer.serve inet_aton server ip port n k = Fault (UB "write outside the buffer").
Proof.
  intros Hn Ha Hp. unfold AmfServer.serve, SctpServer.run, SctpServer.init, Network.set_inet_sock_addr. res.
  cbn [SctpServer.ip_addr SctpServer.port]. rewrite Ha. res. unfold SctpServer.init_pipe_fds.
  cbn [SctpServer.workers_count]. rewrite Hp. destruct (Z.to_nat n) eqn:E; [lia | done].
Qed.

(** The workers of the AMF and of the AUSF each want a gRPC port of their own:
    worker 0 to 9 get 50050 to 50059, the others a number that is no port. *)
Lemma worker_port i :
  0 <= i -> port_of (AmfServer.RunServer i) = 5005 * 10 ^ Z.of_nat (ndigits i) + i /\
    (port_of (AmfServer.RunServer i) < 2 ^ 16 <-> i < 10).
Proof.
  intros Hi. assert (port_of (AmfServer.RunServer i) = 5005 * 10 ^ Z.of_nat (ndigits i) + i) as E.
  { unfold port_of, AmfServer.RunServer, ndigits. rewrite string_length_app. cbn [String.length Nat.add Nat.sub].
    set (n := S (S (S (S (String.length (to_string i)))))).
    change (String.substring 8 n ("0.0.0.0:5005" +:+ to_string i))
      with (String.substring 0 (String.length ("5005" +:+ to_string i)) ("5005" +:+ to_string i)).
    rewrite substring_all, digits_val_app by done. by rewrite digits_val_to_string_nil. }
  split; [done|]. rewrite E.
  destruct (Z.ltb_spec i 10) as [L|L].
  - assert (0 < i \/ i = 0) as [Hp| ->] by lia; [|by vm_compute].
    rewrite (ndigits_spec i 1) by lia. lia.
  - assert (10 ^ 2 <= 10 ^ Z.of_nat (ndigits i)); [|lia].
    apply Z.pow_le_mono_r; [done|].
    destruct (digits_val_acc (to_string i) 0 (all_digits_to_string i Hi)) as [_ [_ B]].
    rewrite digits_val_to_string_nil in B by done. fold (ndigits i) in B.
    assert (1 < ndigits i)%nat; [|lia]. destruct (Nat.leb_spec (ndigits i) 1) as [G|]; [|done].
    assert (10 ^ Z.of_nat (ndigits i) <= 10 ^ 1) by (apply Z.pow_le_mono_r; lia). lia.
Qed.

(** ** Witnesses *)

#[local] Instance map_consul_laws : Registration.ConsulLaws (gmap string string).
Proof.
  split.
  - intros name ip port r. eexists. split; [reflexivity|]. cbn.
    split; [by rewrite lookup_insert_eq | intros o Ho; by rewrite lookup_insert_ne].
  - intros name r. eexists _, _. split; [reflexivity|]. cbn.
    intros o Ho. by rewrite lookup_delete_ne.
Qed.

(** The AUSF is host 3; [ifconfig] prints its address and an end of line. *)
Lemma discovery_witness :
  exists r' amf,
    (_ ← Registration.new_Ausf (fun _ => Some ["172.18.0.3
"]); _ ← Registration.new_Smf; Registration.new_Amf true) (∅ : gmap string string) = (Ret amf, r') /\
    Amf.smf_amf_ip_addr amf = "172.18.0.5" /\ amf_config (W := core) amf.
Proof.
  destruct (discovery (R := gmap string string) (fun _ => Some ["172.18.0.3
"]) ∅ "3" (String (ascii_of_nat 10) "") eq_refl) as [(r' & amf & E & E5 & _ & C) _].
  exists r', amf. split; [exact E|]. split; [exact E5 | by apply C].
Defined.

Lemma upf_startup_wiring_witness :
  let aton := fun ip => if decide (ip = "172.18.0.6") then Some 101846700 else None in
  let sv := UdpServer.mk 3 0 "" (mk_sockaddr 0 0) in
  exists s',
    UpfServer.main aton ["upf.out"; "2"; "1"; "1"] (UpfServer.mk_state sv sv sv []) (0, 0) (0, 0) (0, 0) = Ret s' /\
    UpfServer.threads s' = [UpfServer.handle_s11_traffic; UpfServer.handle_s11_traffic;
                            UpfServer.handle_s1_traffic; UpfServer.handle_sgi_traffic].
Proof.
  intros aton sv.
  destruct (upf_startup_wiring aton ["upf.out"; "2"; "1"; "1"] "2" "1" "1" 2 1 1
    (UpfServer.mk_state sv sv sv []) (0, 0) (0, 0) (0, 0) 101846700) as (s' & E & T & _);
    try reflexivity; try (split; cbn; lia); try lia.
  exists s'. split; [exact E | exact T].
Defined.

Lemma schedule_overflows_witness :
  RanSimulator.schedule [97; 101; 104] Ran.TimetoStart = Fault (UB "write outside the array").
Proof. apply schedule_overflows; [repeat constructor; lia | reflexivity]. Defined.
