(* ===== verification/Attach.v ===== *)
(** * Attach: the procedures of the AMF, message by message

    Each theorem takes a message off a base station's connection
    ([Amf.handle_ue]) and says what goes back, what the tables and the
    context hold afterwards and what happened to the sessions of the core.
    The services behind the AMF are known by their contracts only; the
    witnesses run them on the development's own AUSF, SMF and UPF. *)

From Stdlib Require Import ZArith Lia Ascii String.
From S2P Require Import Prelude Utils Telecom Headers Packet Network Transport Security Messages.
From S2P Require Import Ausf Upf Smf Amf Core.

(** The IMSI, the tracking area and the rest of an attach request. *)
Definition attach_items (n ta ksi cap : Z) : list item :=
  [IU64 (deployed_imsi n); IU64 ta; IU64 ksi; IU16 cap].

(** What the accept message says. *)
Definition accepted_items (n : Z) (c : Amf.UeContext) : list item :=
  [IU64 (deployed_guti n); IU8 5; IU8 5; IU32 n; IU64 (Amf.k_asme c); IU16 (Amf.nw_capability c);
   IInt 1; IVec [Amf.tai c]; IU64 100; IStr (pool_ip n); IStr "172.18.0.6"; IInt 7100; IBool true].

Section Attach.
Context {W : Type} `{AS : AusfStub W} `{SS : SmfStub W} `{HO : Handover W}.
Context `{CL : CryptoLib, LAWS : !CryptoLaws}.
Context `{AC : !AusfContract W} `{SC : !SmfContract W} `{CC : !CoreContract W}.
Context (inet_aton : string -> option Z) (garbage : Z -> Amf.UeContext) (h0 : hdrs).

Let handle_ue := Amf.handle_ue inet_aton garbage h0.

(** A UE the AMF knows under the identity of a header. *)
Definition registered (a : Amf.t) (hd : S1ap.t) (n : Z) (c : Amf.UeContext) : Prop :=
  0 <= n < 10000 /\ S1ap.mme_s1ap_ue_id hd <> 0 /\
  Amf.s1amf_id a !! S1ap.mme_s1ap_ue_id hd = Some (deployed_guti n) /\
  Amf.ue_ctx a !! deployed_guti n = Some c.

(** The message of a header and a body arrives. *)
Definition arrives (fd wid : Z) (hd : S1ap.t) (body : list Z) (evs : list Network.event)
    (rest : list Z) : Prop :=
  0 <= fd /\ 0 <= wid /\ S1ap.wf hd /\ len body <= 1000 /\
  delivered evs = s1ap_frame hd body ++ rest.

(** A handler ran and the connection is kept; what it sent goes to [fd]. *)
Definition answered (fd : Z) (p p' : Amf.proc W) (frames : list (list Z)) : Prop :=
  Amf.out p' = Amf.out p ++ map (pair fd) frames.

Lemma on_arrival m xres0 k_asme0 fd wid hd body evs rest (p : Amf.proc W) p' :
  arrives fd wid hd body evs rest ->
  Amf.dispatch inet_aton garbage m xres0 k_asme0 fd wid (s1ap_pkt (received h0 hd) body) p = (Ret tt, p') ->
  exists evs', delivered evs' = rest /\
    handle_ue m xres0 k_asme0 fd wid evs p = (Ret (Some (1, evs')), p').
Proof.
  intros (Hfd & Hwid & Hw & Hl & Hd) E.
  destruct (handle_ue_run inet_aton garbage h0 m xres0 k_asme0 fd wid evs hd body rest p Hfd Hw Hl Hd)
    as (evs' & Hr & E'). exists evs'. split; [done|].
  unfold handle_ue. rewrite E'. by rewrite (run_bind _ _ _ _ _ E).
Qed.

Lemma on_arrival_fault m xres0 k_asme0 fd wid hd body evs rest (p : Amf.proc W) f p' :
  arrives fd wid hd body evs rest ->
  Amf.dispatch inet_aton garbage m xres0 k_asme0 fd wid (s1ap_pkt (received h0 hd) body) p =
    (Fault f, p') ->
  handle_ue m xres0 k_asme0 fd wid evs p = (Fault f, p').
Proof.
  intros (Hfd & Hwid & Hw & Hl & Hd) E.
  destruct (handle_ue_run inet_aton garbage h0 m xres0 k_asme0 fd wid evs hd body rest p Hfd Hw Hl Hd)
    as (evs' & Hr & E'). unfold handle_ue. rewrite E'. by apply run_bind_fault.
Qed.

(** The message is one that the handlers can be given. *)
Definition readable (wid : Z) (hd : S1ap.t) (body : list Z) : Prop :=
  0 <= wid /\ S1ap.wf hd /\ fits (S1ap.to_bytes hd) body.

Lemma arrives_readable fd wid hd body evs rest :
  arrives fd wid hd body evs rest -> readable wid hd body.
Proof. intros (_ & Hw & Hh & H & _). split; [done|]. split; [done|]. unfold fits, BUF_SIZE. len_lia. Qed.

(** What the switch does with a message. *)
Let handles m xres0 k_asme0 fd wid hd body (p p' : Amf.proc W) : Prop :=
  Amf.dispatch inet_aton garbage m xres0 k_asme0 fd wid (s1ap_pkt (received h0 hd) body) p = (Ret tt, p').

(** The branch of [dispatch] a new and a known identity take. *)
Lemma dispatch_new m xres0 k_asme0 fd wid hd body (p : Amf.proc W) :
  S1ap.mme_s1ap_ue_id hd = 0 -> S1ap.msg_type hd = 1 ->
  Amf.dispatch inet_aton garbage m xres0 k_asme0 fd wid (s1ap_pkt (received h0 hd) body) p =
  Amf.handle_initial_attach garbage m xres0 k_asme0 fd
    (rd (received h0 hd) (S1ap.to_bytes hd) body) wid p.
Proof.
  intros H1 H2. unfold Amf.dispatch.
  change (Packet.s1ap_hdr (s1ap_pkt (received h0 hd) body)) with hd. by rewrite H1, H2.
Qed.

Lemma known_identity a hd n c :
  registered a hd n c -> S1ap.wf hd ->
  0 < S1ap.mme_s1ap_ue_id hd /\ u32 (S1ap.mme_s1ap_ue_id hd) = S1ap.mme_s1ap_ue_id hd /\
  deployed_guti n <> 0.
Proof.
  intros (Hn & Hm & _) (_ & _ & _ & _ & Hu).
  pose proof (u32_range (S1ap.mme_s1ap_ue_id hd)). unfold deployed_guti. repeat split; lia.
Qed.

Lemma dispatch_known m xres0 k_asme0 fd wid hd body (p : Amf.proc W) :
  0 < S1ap.mme_s1ap_ue_id hd ->
  let pkt := rd (received h0 hd) (S1ap.to_bytes hd) body in
  Amf.dispatch inet_aton garbage m xres0 k_asme0 fd wid (s1ap_pkt (received h0 hd) body) p =
  match S1ap.msg_type hd with
  | 2 => (res ← Amf.handle_autn garbage fd pkt;
          if (res : bool) then Amf.handle_security_mode_cmd garbage fd pkt else mret tt) p
  | 3 => (res ← Amf.handle_security_mode_complete garbage fd pkt;
          if (res : bool) then
            _ ← Amf.handle_location_update garbage m pkt wid;
            Amf.handle_create_session garbage m fd pkt wid
          else mret tt) p
  | 4 => (_ ← Amf.handle_attach_complete garbage pkt; Amf.handle_modify_bearer garbage m pkt wid) p
  | 5 => Amf.handle_detach garbage m fd pkt wid p
  | 7 => Amf.handle_handover garbage pkt p
  | 8 => Amf.setup_indirect_tunnel inet_aton garbage pkt p
  | 9 => Amf.handle_handover_completion inet_aton garbage pkt p
  | 10 => Amf.teardown_indirect_tunnel inet_aton garbage pkt p
  | _ => (Ret tt, p)
  end.
Proof.
  intros H pkt. unfold Amf.dispatch.
  change (Packet.s1ap_hdr (s1ap_pkt (received h0 hd) body)) with hd.
  rewrite (proj2 (Z.eqb_neq _ _)), (proj2 (Z.ltb_lt _ _)) by lia.
  by repeat case_match.
Qed.

(** The attach request. *)
Lemma on_attach_request know S m xres0 k_asme0 fd wid hd n ta ksi cap key rand p :
  readable wid hd (enc_items (attach_items n ta ksi cap)) ->
  amf_config (Amf.amf p) -> core_ok know S (Amf.net p) ->
  0 <= n < 10000 -> know (deployed_imsi n) key rand ->
  S1ap.mme_s1ap_ue_id hd = 0 -> S1ap.msg_type hd = 1 ->
  let mme := u32 (u64 (Amf.ue_count (Amf.amf p) + 1)) in
  exists p' fr c,
    handles m xres0 k_asme0 fd wid hd (enc_items (attach_items n ta ksi cap)) p p' /\
    answered fd p p' [fr] /\
    s1ap_msg 1 (S1ap.enodeb_s1ap_ue_id hd) mme
      (enc_items [IU64 (u64 (xres_of key rand + 1)); IU64 rand; IU64 1]) fr /\
    Amf.s1amf_id (Amf.amf p') = <[mme := deployed_guti n]> (Amf.s1amf_id (Amf.amf p)) /\
    Amf.ue_ctx (Amf.amf p') = <[deployed_guti n := c]> (Amf.ue_ctx (Amf.amf p)) /\
    (Amf.imsi c = deployed_imsi n /\ Amf.tai c = u64 ta /\ Amf.nw_capability c = u16 cap /\
     Amf.mme_s1ap_ue_id c = mme) /\
    (Amf.xres c = xres0 /\ Amf.k_asme c = k_asme0) /\
    Amf.ue_count (Amf.amf p') = u64 (Amf.ue_count (Amf.amf p) + 1) /\
    amf_config (Amf.amf p') /\ core_ok know S (Amf.net p').
Proof.
  intros (Hwid & Hw & Hf) Hcfg Hcore Hn Hk Hmme Hty mme.
  destruct p as [[ids cnt s1 ctx ai si ip port] w o]. cbn [Amf.amf Amf.net Amf.ue_count] in *.
  pose proof Hcfg as [Hids Hausf _ _]. cbn in Hids, Hausf. subst ids.
  destruct (Hausf wid Hwid) as (ch & Hch & Hreach).
  set (ids := Amf.mk_ids 1 1 11 1 1 11 1111) in *.
  set (c0 := at_or (Amf.new_ctx garbage (deployed_guti n)) ctx (deployed_guti n)).
  destruct (call_autn know S ch m n key rand (Amf.nw_type c0) ids w Hcore Hreach Hn Hk)
    as (w' & msg & g & Hnet & G1 & G2 & Hcore').
  pose proof (initial_attach_run garbage ids ai si m xres0 k_asme0 fd (received h0 hd)
    (S1ap.to_bytes hd) wid (deployed_imsi n) ta ksi cap (deployed_guti n) ch msg g w' cnt s1 ctx
    ip port w o Hf ltac:(unfold deployed_imsi; lia) (get_guti_deployed n ltac:(lia)) Hch Hnet) as E.
  eexists _, _, _. split; [unfold handles; rewrite dispatch_new by done; exact E|].
  rewrite G1, G2. split; [reflexivity|]. split.
  { pose proof (answer_msg (received h0 hd) 1 24 (h_enb (received h0 hd)) mme) as A.
    replace (u32 (h_enb (received h0 hd))) with (S1ap.enodeb_s1ap_ue_id hd) in A
      by (symmetry; apply Hw).
    assert (u32 mme = mme) as Em by apply u32_idem. rewrite Em in A. by apply A. }
  split; [reflexivity|]. split; [reflexivity|]. do 3 (split; [by repeat split|]).
  split; [by destruct Hcfg | exact Hcore'].
Qed.

(** The attach request of a subscriber: the AMF gives the UE the next
    identity, enters it in both tables, fetches the authentication vector
    and sends its challenge (AUTN, RAND, key set 1) to the base station.
    The expected response and the key that the context keeps are however
    not the vector's: they are whatever two uninitialised locals held. *)
Theorem attach_request_challenged know S m xres0 k_asme0 fd wid hd n ta ksi cap key rand evs rest p :
  arrives fd wid hd (enc_items (attach_items n ta ksi cap)) evs rest ->
  amf_config (Amf.amf p) -> core_ok know S (Amf.net p) ->
  0 <= n < 10000 -> know (deployed_imsi n) key rand ->
  S1ap.mme_s1ap_ue_id hd = 0 -> S1ap.msg_type hd = 1 ->
  let mme := u32 (u64 (Amf.ue_count (Amf.amf p) + 1)) in
  exists p' evs' fr c,
    delivered evs' = rest /\
    handle_ue m xres0 k_asme0 fd wid evs p = (Ret (Some (1, evs')), p') /\
    answered fd p p' [fr] /\
    s1ap_msg 1 (S1ap.enodeb_s1ap_ue_id hd) mme
      (enc_items [IU64 (u64 (xres_of key rand + 1)); IU64 rand; IU64 1]) fr /\
    Amf.s1amf_id (Amf.amf p') = <[mme := deployed_guti n]> (Amf.s1amf_id (Amf.amf p)) /\
    Amf.ue_ctx (Amf.amf p') = <[deployed_guti n := c]> (Amf.ue_ctx (Amf.amf p)) /\
    (Amf.imsi c = deployed_imsi n /\ Amf.tai c = u64 ta /\ Amf.nw_capability c = u16 cap /\
     Amf.mme_s1ap_ue_id c = mme) /\
    (Amf.xres c = xres0 /\ Amf.k_asme c = k_asme0) /\
    Amf.ue_count (Amf.amf p') = u64 (Amf.ue_count (Amf.amf p) + 1) /\
    amf_config (Amf.amf p') /\ core_ok know S (Amf.net p').
Proof.
  intros Ha Hcfg Hcore Hn Hk Hmme Hty mme.
  destruct (on_attach_request know S m xres0 k_asme0 fd wid hd n ta ksi cap key rand p)
    as (p' & fr & c & E & H); try done; [by eapply arrives_readable|].
  destruct (on_arrival _ _ _ _ _ _ _ _ _ _ _ Ha E) as (evs' & Hr & Eu).
  by exists p', evs', fr, c.
Qed.

(** The frame a handler answers with. *)
Lemma answer_frame hd ty n body :
  S1ap.wf hd -> u8 ty = ty ->
  s1ap_msg ty (S1ap.enodeb_s1ap_ue_id hd) (S1ap.mme_s1ap_ue_id hd) body
    (frame (S1ap.to_bytes (answer_hdr (received h0 hd) ty n (h_enb (received h0 hd))
       (h_mme (received h0 hd))) ++ body)).
Proof.
  intros Hw Ht. pose proof (answer_msg (received h0 hd) ty n (h_enb (received h0 hd))
    (h_mme (received h0 hd)) body Hw) as A.
  replace (u32 (h_enb (received h0 hd))) with (S1ap.enodeb_s1ap_ue_id hd) in A
    by (symmetry; apply Hw).
  replace (u32 (h_mme (received h0 hd))) with (S1ap.mme_s1ap_ue_id hd) in A
    by (symmetry; apply Hw). by rewrite Ht in A.
Qed.

(** The authentication response: the state it leads to does not depend on it. *)
Definition commanded (fd : Z) (hd : S1ap.t) (n : Z) (c : Amf.UeContext) (p : Amf.proc W) : Amf.proc W :=
  let body := mac (enc_items (security_items c)) ++ enc_items (security_items c) in
  Amf.mk_proc ((Amf.amf p) <| Amf.ue_ctx := <[deployed_guti n := secured_ctx c]> (Amf.ue_ctx (Amf.amf p)) |>)
    (Amf.net p)
    (Amf.out p ++ [(fd, frame (S1ap.to_bytes (answer_hdr (received h0 hd) 2 46 (h_enb (received h0 hd))
                                 (h_mme (received h0 hd))) ++ body))]).

Lemma on_authentication_response m xres0 k_asme0 fd wid hd n c res p :
  readable wid hd (enc_items [IU64 res]) -> registered (Amf.amf p) hd n c -> S1ap.msg_type hd = 2 ->
  handles m xres0 k_asme0 fd wid hd (enc_items [IU64 res]) p (commanded fd hd n c p).
Proof.
  intros (_ & Hw & Hf) R Hty. destruct p as [[ids cnt s1 ctx ai si ip port] w o].
  cbn [Amf.amf Amf.net] in *. pose proof R as (Hn & Hm & Hg & Hc). cbn [Amf.s1amf_id Amf.ue_ctx] in Hg, Hc.
  destruct (known_identity _ _ _ _ R Hw) as (Hpos & _ & Hnz).
  unfold handles. rewrite dispatch_known by done. rewrite Hty. cbv zeta.
  pose proof (autn_run garbage ids ai si fd (received h0 hd) (S1ap.to_bytes hd) res
    (deployed_guti n) c cnt s1 ctx ip port w o Hf Hg Hnz Hc) as E.
  rewrite (run_bind _ _ _ _ _ E).
  apply (security_mode_cmd_run garbage ids ai si fd (received h0 hd) (S1ap.to_bytes hd) _
    (deployed_guti n) c cnt s1 ctx ip port w o Hf Hg Hnz Hc).
Qed.

(** C6: the authentication response is not checked: whatever eight bytes a
    registered UE answers the challenge with, the AMF goes on to the security
    mode command and ends in the same state; the command carries the key set,
    the capabilities and the two algorithms behind their HMAC, and both NAS
    keys become [k_asme + 1 + count + bearer + dir]. *)
Theorem any_response_is_accepted m xres0 k_asme0 fd wid hd n c p :
  registered (Amf.amf p) hd n c -> S1ap.msg_type hd = 2 ->
  exists p' fr,
    (forall res evs rest, arrives fd wid hd (enc_items [IU64 res]) evs rest ->
     exists evs', delivered evs' = rest /\
       handle_ue m xres0 k_asme0 fd wid evs p = (Ret (Some (1, evs')), p')) /\
    answered fd p p' [fr] /\ Amf.net p' = Amf.net p /\
    (S1ap.wf hd -> s1ap_msg 2 (S1ap.enodeb_s1ap_ue_id hd) (S1ap.mme_s1ap_ue_id hd)
      (mac (enc_items (security_items c)) ++ enc_items (security_items c)) fr) /\
    Amf.amf p' = (Amf.amf p) <| Amf.ue_ctx :=
      <[deployed_guti n := secured_ctx c]> (Amf.ue_ctx (Amf.amf p)) |>.
Proof.
  intros R Hty. exists (commanded fd hd n c p). eexists. split; [|split; [|split; [|split]]].
  - intros res evs rest Ha. eapply on_arrival; [exact Ha|].
    apply on_authentication_response; [by eapply arrives_readable | exact R | exact Hty].
  - reflexivity.
  - reflexivity.
  - intros Hw. by apply answer_frame.
  - reflexivity.
Qed.

(** Security mode complete. *)
Lemma on_security_mode_complete know S m xres0 k_asme0 fd wid hd n c wire p :
  readable wid hd wire -> sealed (enc_items [IBool true]) wire ->
  registered (Amf.amf p) hd n c -> S1ap.msg_type hd = 3 -> Amf.imsi c = deployed_imsi n ->
  amf_config (Amf.amf p) -> core_ok know S (Amf.net p) ->
  let apn := le_val (take 8 (drop 4 wire)) in
  exists p' fr wire' c',
    handles m xres0 k_asme0 fd wid hd wire p p' /\
    answered fd p p' [fr] /\
    s1ap_msg 3 (S1ap.enodeb_s1ap_ue_id hd) (S1ap.mme_s1ap_ue_id hd) wire' fr /\
    sealed (enc_items (accepted_items n c)) wire' /\
    Amf.s1amf_id (Amf.amf p') = Amf.s1amf_id (Amf.amf p) /\
    Amf.ue_ctx (Amf.amf p') = <[deployed_guti n := c']> (Amf.ue_ctx (Amf.amf p)) /\
    (Amf.apn_in_use c' = apn /\ Amf.ip_addr c' = pool_ip n /\ Amf.s1_uteid_ul c' = n /\
     Amf.s11_cteid_upf c' = n /\ Amf.k_enodeb c' = Amf.k_asme c /\ Amf.eps_bearer_id c' = 5 /\
     Amf.tai c' = Amf.tai c /\ Amf.imsi c' = Amf.imsi c) /\
    core_ok know (smf_step smf_garbage_dl (Create n 5 (s64 apn) (s64 (Amf.tai c))) S) (Amf.net p') /\
    amf_config (Amf.amf p').
Proof.
  intros (Hwid & Hw & Hf) Hs R Hty Hi Hcfg Hcore apn. pose proof (len_sealed _ _ Hs) as Hlen.
  change (enc_size (len (enc_items [IBool true]))) with 16 in Hlen.
  destruct p as [[ids cnt s1 ctx ai si ip port] w o]. cbn [Amf.amf Amf.net] in *.
  pose proof R as (Hn & Hm & Hg & Hc). cbn [Amf.s1amf_id Amf.ue_ctx] in Hg, Hc.
  destruct (known_identity _ _ _ _ R Hw) as (Hpos & _ & Hnz).
  pose proof Hcfg as [Hids Hausf Hsmf Hport]. cbn in Hids, Hausf, Hsmf, Hport. subst ids si port.
  destruct (Hausf wid Hwid) as (ch & Hch & Hreach).
  set (ids := Amf.mk_ids 1 1 11 1 1 11 1111) in *. set (h := received h0 hd). set (pre := S1ap.to_bytes hd).
  (* the location update *)
  destruct (call_location know S ch m (Amf.imsi c) ids w Hcore Hreach) as (w1 & msg & g1 & Hnet1 & Hcore1).
  assert (wire = take 4 wire ++ take 8 (drop 4 wire) ++ drop 8 (drop 4 wire)) as Ew
    by by rewrite !take_drop.
  set (c1 := c <| Amf.default_apn := apn |> <| Amf.apn_in_use := apn |>).
  epose proof (location_update_run garbage ids ai "172.18.0.5" m h pre (take 4 wire)
    (take 8 (drop 4 wire)) (drop 8 (drop 4 wire)) wid (deployed_guti n) c ch msg g1 w1 cnt s1 ctx
    ip 7100 w o) as E1.
  rewrite <- Ew in E1. specialize (E1 ltac:(unfold len in *; rewrite length_take; lia)
    ltac:(unfold len in *; rewrite length_take, length_drop; lia) Hf Hg Hnz Hc Hch Hnet1).
  fold apn c1 in E1.
  (* the session *)
  destruct (call_create know S ("172.18.0.5" +:+ ":5005" +:+ to_string wid) m n c1 w1 Hcore1
    (smf_channel_5005 wid) Hn Hi) as (w2 & g & Hnet2 & Hcore2 & G1 & G2 & G3 & G4 & G5 & G6).
  destruct (sealed_exists (enc_items (accept_items (deployed_guti n) c1 g 7100))) as [wire' Hs'].
  epose proof (create_session_run garbage ids ai "172.18.0.5" m fd h pre wire wid (deployed_guti n) n c1 g
    wire' w2 cnt s1 (<[deployed_guti n := c1]> ctx) ip 7100 w1 o Hf Hg Hnz (lookup_insert_eq _ _ _)
    (get_s11cteid_deployed n ltac:(lia)) Hnet2 G1) as E2.
  rewrite G5, G6 in E2. destruct (pool_ip_text n Hn) as [_ Hpl].
  specialize (E2 ltac:(lia) ltac:(vm_compute; discriminate) Hs'). rewrite insert_insert_eq in E2.
  (* the dispatch *)
  eexists _, _, wire', _. split.
  { unfold handles. rewrite dispatch_known by done. rewrite Hty. cbv zeta.
    rewrite (run_bind _ _ _ _ _ (security_mode_complete_run garbage ids ai "172.18.0.5" fd h pre true
      wire (deployed_guti n) c cnt s1 ctx ip 7100 w o Hs Hf Hg Hnz Hc)). cbv beta iota.
    rewrite (run_bind _ _ _ _ _ E1). exact E2. }
  split; [reflexivity|]. split; [by apply answer_frame|]. split.
  { unfold accept_items in Hs'. rewrite G2, G3, G5, G6 in Hs'. exact Hs'. }
  split; [reflexivity|]. split; [reflexivity|].
  split; [cbn; by rewrite G3, G4, G5|]. split; [exact Hcore2|].
  destruct Hcfg as [F1 F2 F3 F4]. split; assumption.
Qed.

(** C5: security mode complete: a correctly protected message makes the AMF
    create the session and send a protected attach accept with the UE's
    identity, bearer 5, the session's uplink TEID, the address of the pool
    and [k_enodeb = k_asme].  The access point name the session is created
    for is not the AUSF's answer to the location update: it is bytes 4 to 11
    of the HMAC of the message just received. *)
Theorem session_created_for_hmac_bytes know S m xres0 k_asme0 fd wid hd n c wire evs rest p :
  arrives fd wid hd wire evs rest -> sealed (enc_items [IBool true]) wire ->
  registered (Amf.amf p) hd n c -> S1ap.msg_type hd = 3 -> Amf.imsi c = deployed_imsi n ->
  amf_config (Amf.amf p) -> core_ok know S (Amf.net p) ->
  let apn := le_val (take 8 (drop 4 wire)) in
  exists p' evs' fr wire' c',
    delivered evs' = rest /\
    handle_ue m xres0 k_asme0 fd wid evs p = (Ret (Some (1, evs')), p') /\
    answered fd p p' [fr] /\
    s1ap_msg 3 (S1ap.enodeb_s1ap_ue_id hd) (S1ap.mme_s1ap_ue_id hd) wire' fr /\
    sealed (enc_items (accepted_items n c)) wire' /\
    Amf.s1amf_id (Amf.amf p') = Amf.s1amf_id (Amf.amf p) /\
    Amf.ue_ctx (Amf.amf p') = <[deployed_guti n := c']> (Amf.ue_ctx (Amf.amf p)) /\
    (Amf.apn_in_use c' = apn /\ Amf.ip_addr c' = pool_ip n /\ Amf.s1_uteid_ul c' = n /\
     Amf.s11_cteid_upf c' = n /\ Amf.k_enodeb c' = Amf.k_asme c /\ Amf.eps_bearer_id c' = 5 /\
     Amf.tai c' = Amf.tai c /\ Amf.imsi c' = Amf.imsi c) /\
    core_ok know (smf_step smf_garbage_dl (Create n 5 (s64 apn) (s64 (Amf.tai c))) S) (Amf.net p') /\
    amf_config (Amf.amf p').
Proof.
  intros Ha Hs R Hty Hi Hcfg Hcore apn.
  destruct (on_security_mode_complete know S m xres0 k_asme0 fd wid hd n c wire p)
    as (p' & fr & wire' & c' & E & H); try done; [by eapply arrives_readable|].
  destruct (on_arrival _ _ _ _ _ _ _ _ _ _ _ Ha E) as (evs' & Hr & Eu).
  by exists p', evs', fr, wire', c'.
Qed.

(** Attach complete. *)
Lemma on_attach_complete know S m xres0 k_asme0 fd wid hd n c ebi dl wire p :
  readable wid hd wire -> sealed (enc_items [IU8 ebi; IU32 dl]) wire ->
  registered (Amf.amf p) hd n c -> S1ap.msg_type hd = 4 -> is_Some (S !! n) ->
  amf_config (Amf.amf p) -> core_ok know S (Amf.net p) ->
  exists p' c',
    handles m xres0 k_asme0 fd wid hd wire p p' /\
    answered fd p p' [] /\
    Amf.s1amf_id (Amf.amf p') = Amf.s1amf_id (Amf.amf p) /\
    Amf.ue_ctx (Amf.amf p') = <[deployed_guti n := c']> (Amf.ue_ctx (Amf.amf p)) /\
    (Amf.s1_uteid_dl c' = u32 dl /\ Amf.emm_state c' = 1 /\ Amf.ecm_state c' = 1 /\
     Amf.imsi c' = Amf.imsi c /\ Amf.tai c' = Amf.tai c) /\
    core_ok know (alter (fun s => mk_session (s_tai s) (s_apn s) (s_ebi s) 0
      Amf.g_trafmon_ip_addr Amf.g_trafmon_port) n S) (Amf.net p') /\
    amf_config (Amf.amf p').
Proof.
  intros (Hwid & Hw & Hf) Hs R Hty HS Hcfg Hcore.
  destruct p as [[ids cnt s1 ctx ai si ip port] w o]. cbn [Amf.amf Amf.net] in *.
  pose proof R as (Hn & Hm & Hg & Hc). cbn [Amf.s1amf_id Amf.ue_ctx] in Hg, Hc.
  destruct (known_identity _ _ _ _ R Hw) as (Hpos & _ & Hnz).
  pose proof (cfg_smf _ Hcfg) as Hsmf. cbn in Hsmf. subst si.
  set (h := received h0 hd). set (pre := S1ap.to_bytes hd).
  set (c1 := c <| Amf.s1_uteid_dl := u32 dl |> <| Amf.emm_state := 1 |>).
  destruct (call_modify know S ("172.18.0.5" +:+ ":5006" +:+ to_string wid) m n c1 w Hcore
    (smf_channel_5006 wid) Hn HS) as (w1 & g & Hnet & Hcore1 & Hres).
  pose proof (amf_modify_bearer_run garbage ids ai "172.18.0.5" m h pre wire wid (deployed_guti n) c1 g w1
    cnt s1 (<[deployed_guti n := c1]> ctx) ip port w o Hf Hg Hnz (lookup_insert_eq _ _ _) Hnet) as E.
  rewrite Hres, insert_insert_eq in E. eexists _, _. split.
  { unfold handles. rewrite dispatch_known by done. rewrite Hty. cbv zeta.
    rewrite (run_bind _ _ _ _ _ (attach_complete_run garbage ids ai "172.18.0.5" h pre ebi dl wire
      (deployed_guti n) c cnt s1 ctx ip port w o Hs Hf Hg Hnz Hc)). exact E. }
  split; [unfold answered; cbn; by rewrite app_nil_r|]. do 3 (split; [by repeat split|]).
  split; [exact Hcore1 | by destruct Hcfg].
Qed.

(** Attach complete: a correctly protected message records the base
    station's downlink TEID in the AMF's context, registers and connects the
    UE, and makes the SMF modify the session; nothing is answered.  What
    reaches the session is the traffic monitor's address with TEID 0: the
    TEID the AMF recorded and sent is lost in the SMF. *)
Theorem attach_completed_without_downlink know S m xres0 k_asme0 fd wid hd n c ebi dl wire evs rest p :
  arrives fd wid hd wire evs rest -> sealed (enc_items [IU8 ebi; IU32 dl]) wire ->
  registered (Amf.amf p) hd n c -> S1ap.msg_type hd = 4 -> is_Some (S !! n) ->
  amf_config (Amf.amf p) -> core_ok know S (Amf.net p) ->
  exists p' evs' c',
    delivered evs' = rest /\
    handle_ue m xres0 k_asme0 fd wid evs p = (Ret (Some (1, evs')), p') /\
    answered fd p p' [] /\
    Amf.s1amf_id (Amf.amf p') = Amf.s1amf_id (Amf.amf p) /\
    Amf.ue_ctx (Amf.amf p') = <[deployed_guti n := c']> (Amf.ue_ctx (Amf.amf p)) /\
    (Amf.s1_uteid_dl c' = u32 dl /\ Amf.emm_state c' = 1 /\ Amf.ecm_state c' = 1 /\
     Amf.imsi c' = Amf.imsi c /\ Amf.tai c' = Amf.tai c) /\
    core_ok know (alter (fun s => mk_session (s_tai s) (s_apn s) (s_ebi s) 0
      Amf.g_trafmon_ip_addr Amf.g_trafmon_port) n S) (Amf.net p') /\
    amf_config (Amf.amf p').
Proof.
  intros Ha Hs R Hty HS Hcfg Hcore.
  destruct (on_attach_complete know S m xres0 k_asme0 fd wid hd n c ebi dl wire p)
    as (p' & c' & E & H); try done; [by eapply arrives_readable|].
  destruct (on_arrival _ _ _ _ _ _ _ _ _ _ _ Ha E) as (evs' & Hr & Eu).
  by exists p', evs', c'.
Qed.

(** Detach. *)
Lemma on_detach know S m xres0 k_asme0 fd wid hd n c ksi ty wire p :
  readable wid hd wire -> sealed (enc_items (detach_items (deployed_guti n) ksi ty)) wire ->
  registered (Amf.amf p) hd n c -> S1ap.msg_type hd = 5 -> is_Some (S !! n) ->
  amf_config (Amf.amf p) -> core_ok know S (Amf.net p) ->
  exists p' fr wire',
    handles m xres0 k_asme0 fd wid hd wire p p' /\
    answered fd p p' [fr] /\
    s1ap_msg 5 (S1ap.enodeb_s1ap_ue_id hd) (S1ap.mme_s1ap_ue_id hd) wire' fr /\
    sealed (enc_items [IBool true]) wire' /\
    Amf.s1amf_id (Amf.amf p') = delete (S1ap.mme_s1ap_ue_id hd) (Amf.s1amf_id (Amf.amf p)) /\
    Amf.ue_ctx (Amf.amf p') = delete (deployed_guti n) (Amf.ue_ctx (Amf.amf p)) /\
    core_ok know (delete n S) (Amf.net p') /\ amf_config (Amf.amf p').
Proof.
  intros (Hwid & Hw & Hf) Hs R Hty HS Hcfg Hcore.
  destruct p as [[ids cnt s1 ctx ai si ip port] w o]. cbn [Amf.amf Amf.net] in *.
  pose proof R as (Hn & Hm & Hg & Hc). cbn [Amf.s1amf_id Amf.ue_ctx] in Hg, Hc.
  destruct (known_identity _ _ _ _ R Hw) as (Hpos & Hu & Hnz).
  pose proof (cfg_smf _ Hcfg) as Hsmf. cbn in Hsmf. subst si.
  destruct (call_detach know S ("172.18.0.5" +:+ ":5007" +:+ to_string wid) m n c w Hcore
    (smf_channel_5007 wid) Hn HS) as (w1 & g & Hnet & Hcore1 & Hres).
  destruct (sealed_exists (enc_items [IBool true])) as [wire' Hs'].
  pose proof (amf_detach_run garbage ids ai "172.18.0.5" m fd (received h0 hd) (S1ap.to_bytes hd)
    (deployed_guti n) ksi ty wire wire' wid (deployed_guti n) c g w1 cnt s1 ctx ip port w o
    Hs Hf ltac:(unfold deployed_guti; lia) Hg Hnz Hc Hs' Hnet) as E.
  rewrite Hres in E. change (h_mme (received h0 hd)) with (S1ap.mme_s1ap_ue_id hd) in E.
  rewrite Hu in E. eexists _, _, wire'. split.
  { unfold handles. rewrite dispatch_known by done. rewrite Hty. exact E. }
  split; [reflexivity|].
  split; [by apply answer_frame|]. split; [exact Hs'|]. do 2 (split; [reflexivity|]).
  split; [exact Hcore1 | by destruct Hcfg].
Qed.

(** Detach: a correctly protected request ends the session at the SMF,
    removes the UE from both tables of the AMF and is answered with a
    protected detach accept; no other entry of the tables and no other
    session is touched. *)
Theorem detach_removes_everything know S m xres0 k_asme0 fd wid hd n c ksi ty wire evs rest p :
  arrives fd wid hd wire evs rest -> sealed (enc_items (detach_items (deployed_guti n) ksi ty)) wire ->
  registered (Amf.amf p) hd n c -> S1ap.msg_type hd = 5 -> is_Some (S !! n) ->
  amf_config (Amf.amf p) -> core_ok know S (Amf.net p) ->
  exists p' evs' fr wire',
    delivered evs' = rest /\
    handle_ue m xres0 k_asme0 fd wid evs p = (Ret (Some (1, evs')), p') /\
    answered fd p p' [fr] /\
    s1ap_msg 5 (S1ap.enodeb_s1ap_ue_id hd) (S1ap.mme_s1ap_ue_id hd) wire' fr /\
    sealed (enc_items [IBool true]) wire' /\
    Amf.s1amf_id (Amf.amf p') = delete (S1ap.mme_s1ap_ue_id hd) (Amf.s1amf_id (Amf.amf p)) /\
    Amf.ue_ctx (Amf.amf p') = delete (deployed_guti n) (Amf.ue_ctx (Amf.amf p)) /\
    core_ok know (delete n S) (Amf.net p') /\ amf_config (Amf.amf p').
Proof.
  intros Ha Hs R Hty HS Hcfg Hcore.
  destruct (on_detach know S m xres0 k_asme0 fd wid hd n c ksi ty wire p)
    as (p' & fr & wire' & E & H); try done; [by eapply arrives_readable|].
  destruct (on_arrival _ _ _ _ _ _ _ _ _ _ _ Ha E) as (evs' & Hr & Eu).
  by exists p', evs', fr, wire'.
Qed.

(** C10: one bad message stops the AMF: a protected message of a registered UE
    (security mode complete, attach complete or detach) whose HMAC does not
    match, and any such message or authentication response under an identity
    that is not in the table, end the whole process with
    [exit(EXIT_FAILURE)], for all UEs; nothing was sent or changed. *)
Theorem one_bad_message_stops_the_amf m xres0 k_asme0 fd wid hd body evs rest p :
  arrives fd wid hd body evs rest -> S1ap.mme_s1ap_ue_id hd <> 0 ->
  (forall n c, registered (Amf.amf p) hd n c -> 20 <= len body ->
   take 20 body <> mac (drop 20 body) ->
   S1ap.msg_type hd = 3 \/ S1ap.msg_type hd = 4 \/ S1ap.msg_type hd = 5 ->
   exists msg, handle_ue m xres0 k_asme0 fd wid evs p = (Fault (Exit msg), p)) /\
  (Amf.s1amf_id (Amf.amf p) !! S1ap.mme_s1ap_ue_id hd = None ->
   2 <= S1ap.msg_type hd <= 5 ->
   exists msg, handle_ue m xres0 k_asme0 fd wid evs p = (Fault (Exit msg), p)).
Proof.
  intros Ha Hmme. destruct (arrives_readable _ _ _ _ _ _ Ha) as (Hwid & Hw & Hf).
  assert (0 < S1ap.mme_s1ap_ue_id hd) as Hpos.
  { destruct Hw as (_ & _ & _ & _ & Hu). pose proof (u32_range (S1ap.mme_s1ap_ue_id hd)). lia. }
  split.
  - intros n c R Hl Hbad Hty.
    destruct p as [[ids cnt s1 ctx ai si ip port] w o]. cbn [Amf.amf] in *.
    pose proof R as (Hn & Hm & Hg & Hc). cbn [Amf.s1amf_id Amf.ue_ctx] in Hg, Hc.
    destruct (known_identity _ _ _ _ R Hw) as (_ & _ & Hnz).
    rewrite <- (take_drop 20 body) in Hf.
    assert (len (take 20 body) = 20) as L20 by (unfold len in *; rewrite length_take; lia).
    assert (forall k k' msg, unprotect (rd (received h0 hd) (S1ap.to_bytes hd) body) k k' msg =
              Fault (Exit msg)) as Hun.
    { intros k k' msg. rewrite <- (take_drop 20 body). by apply unprotect_bad. }
    rewrite take_drop in Hf.
    destruct Hty as [Hty|[Hty|Hty]]; eexists; (eapply on_arrival_fault; [exact Ha|]);
      rewrite dispatch_known by done; rewrite Hty; cbv zeta; 
      lazymatch goal with |- mbind _ _ _ = _ => apply run_bind_fault | _ => idtac end;
      unfold Amf.handle_security_mode_complete, Amf.handle_attach_complete, Amf.handle_detach;
      run with (by apply copy_rd);
      change (Amf.mk_proc (Amf.mk ids cnt s1 ctx ai si ip port) w o)
        with (st ids ai si cnt s1 ctx ip port w o);
      rewrite guti_of_run with (guti := deployed_guti n) by done;
      repeat (rewrite amf_get_run; autorewrite with omap; cbv beta);
      rewrite !(touch_id _ _ _ _ Hc); apply run_lift_fault, Hun.
  - intros Hnone Hty.
    assert (S1ap.msg_type hd = 2 \/ S1ap.msg_type hd = 3 \/ S1ap.msg_type hd = 4 \/
            S1ap.msg_type hd = 5) as [H|[H|[H|H]]] by lia;
      eexists; (eapply on_arrival_fault; [exact Ha|]);
      rewrite dispatch_known by done; rewrite H; cbv zeta; 
      lazymatch goal with |- mbind _ _ _ = _ => apply run_bind_fault | _ => idtac end;
      unfold Amf.handle_autn, Amf.handle_security_mode_complete, Amf.handle_attach_complete,
        Amf.handle_detach;
      run with (by apply copy_rd); by apply guti_of_unknown.
Qed.

(** *** Identities *)

(** Nothing was allocated: the counter stands, entries may be gone. *)
Definition no_new_identity (p p' : Amf.proc W) : Prop :=
  Amf.ue_count (Amf.amf p') = Amf.ue_count (Amf.amf p) /\
  forall k g, Amf.s1amf_id (Amf.amf p') !! k = Some g -> Amf.s1amf_id (Amf.amf p) !! k = Some g.

(** At most the next identity was allocated. *)
Definition one_identity (p p' : Amf.proc W) : Prop :=
  let next := u64 (Amf.ue_count (Amf.amf p) + 1) in
  no_new_identity p p' \/
  (Amf.ue_count (Amf.amf p') = next /\
   forall k g, Amf.s1amf_id (Amf.amf p') !! k = Some g ->
     Amf.s1amf_id (Amf.amf p) !! k = Some g \/ k = u32 next).

#[local] Instance no_new_identity_preorder : PreOrder no_new_identity.
Proof.
  split; [by split|]. intros x y z [H1 H2] [H3 H4]. split; [congruence | auto].
Qed.

Lemma on_net_keeps {A} (c : prog W A) : always no_new_identity (Amf.on_net c).
Proof. intros [a w o]. unfold Amf.on_net. cbn [Amf.net]. by destruct (c w). Qed.

Lemma modify_keeps (f : Amf.t -> Amf.t) :
  (forall a, Amf.ue_count (f a) = Amf.ue_count a /\
     forall k g, Amf.s1amf_id (f a) !! k = Some g -> Amf.s1amf_id a !! k = Some g) ->
  always no_new_identity (modify (Amf.on_amf f)).
Proof. intros H. apply always_modify. intros [a w o]. apply H. Qed.

Lemma ctx_set_keeps g f : always no_new_identity (Amf.ctx_set garbage g f).
Proof. by apply modify_keeps. Qed.

Lemma ctx_get_keeps {A} g (f : Amf.UeContext -> A) : always no_new_identity (Amf.ctx_get garbage g f).
Proof.
  apply always_bind; [apply _ | by apply modify_keeps | intros; apply always_gets; apply _].
Qed.

Lemma rem_itfid_keeps k : always no_new_identity (Amf.rem_itfid k).
Proof. apply modify_keeps. intros a. split; [done|]. cbn. intros j g. rewrite lookup_delete_Some. tauto. Qed.

Lemma rem_uectx_keeps k : always no_new_identity (Amf.rem_uectx k).
Proof. by apply modify_keeps. Qed.

Lemma log_keeps (f : Amf.proc W -> Amf.proc W) :
  (forall s, Amf.amf (f s) = Amf.amf s) -> always no_new_identity (modify f).
Proof. intros H. apply always_modify. intros s. split; by rewrite H. Qed.

#[local] Hint Resolve on_net_keeps ctx_set_keeps ctx_get_keeps rem_itfid_keeps rem_uectx_keeps : always.
#[local] Hint Extern 1 (always _ (modify (Amf.on_amf _))) => by apply modify_keeps : always.
#[local] Hint Extern 2 (always _ (modify _)) => by apply log_keeps : always.

Lemma server_snd_keeps fd pkt : always no_new_identity (Amf.server_snd (W := W) fd pkt).
Proof. unfold Amf.server_snd. always_tac. Qed.

Lemma guti_of_keeps pkt msg : always no_new_identity (Amf.guti_of (W := W) pkt msg).
Proof. unfold Amf.guti_of, Amf.get_guti. always_tac. Qed.

Lemma get_guti_keeps pkt : always no_new_identity (Amf.get_guti (W := W) pkt).
Proof. unfold Amf.get_guti. always_tac. Qed.

#[local] Hint Resolve server_snd_keeps guti_of_keeps get_guti_keeps : always.

Lemma upf_client_keeps dst pkt :
  always no_new_identity (Amf.upf_client_conn inet_aton) /\
  always no_new_identity (Amf.upf_client_exchange dst pkt).
Proof. unfold Amf.upf_client_conn, Amf.upf_client_exchange. split; always_tac. Qed.

Lemma upf_conn_keeps : always no_new_identity (Amf.upf_client_conn inet_aton).
Proof. apply (upf_client_keeps (mk_sockaddr 0 0) (rd h0 [] [])). Qed.
Lemma upf_exchange_keeps dst pkt : always no_new_identity (Amf.upf_client_exchange dst pkt).
Proof. apply upf_client_keeps. Qed.

#[local] Hint Resolve upf_conn_keeps upf_exchange_keeps : always.

(** Every handler but the first allocates nothing. *)
Lemma handlers_keep m fd wid pkt :
  always no_new_identity (Amf.handle_autn garbage fd pkt) /\
  always no_new_identity (Amf.handle_security_mode_cmd garbage fd pkt) /\
  always no_new_identity (Amf.handle_security_mode_complete garbage fd pkt) /\
  always no_new_identity (Amf.handle_location_update garbage m pkt wid) /\
  always no_new_identity (Amf.handle_create_session garbage m fd pkt wid) /\
  always no_new_identity (Amf.handle_attach_complete garbage pkt) /\
  always no_new_identity (Amf.handle_modify_bearer garbage m pkt wid) /\
  always no_new_identity (Amf.handle_detach garbage m fd pkt wid) /\
  always no_new_identity (Amf.handle_handover garbage pkt) /\
  always no_new_identity (Amf.setup_indirect_tunnel inet_aton garbage pkt) /\
  always no_new_identity (Amf.handle_handover_completion inet_aton garbage pkt) /\
  always no_new_identity (Amf.teardown_indirect_tunnel inet_aton garbage pkt).
Proof.
  unfold Amf.handle_autn, Amf.handle_security_mode_cmd, Amf.handle_security_mode_complete,
    Amf.handle_location_update, Amf.handle_create_session, Amf.handle_attach_complete,
    Amf.handle_modify_bearer, Amf.handle_detach, Amf.handle_handover, Amf.request_target_RAN,
    Amf.setup_indirect_tunnel, Amf.handle_handover_completion, Amf.teardown_indirect_tunnel,
    Amf.set_crypt_context, Amf.set_integrity_context, Amf.set_upf_info.
  do 11 (split; [always_tac|]). always_tac.
Qed.

Lemma initial_attach_allocates m xres0 k_asme0 fd wid pkt :
  always one_identity (Amf.handle_initial_attach garbage m xres0 k_asme0 fd pkt wid).
Proof.
  unfold Amf.handle_initial_attach.
  assert (forall A B (c : prog (Amf.proc W) A) (k : A -> prog (Amf.proc W) B),
    always no_new_identity c -> (forall a, always one_identity (k a)) ->
    always one_identity (x ← c; k x)) as Hseq.
  { intros A B c k Hc Hk. eapply always_seq; [exact Hc | exact Hk | by left |].
    intros x y z Hxy [H|[H3 H4]]; [left; by etrans|]. destruct Hxy as [H1 H2]. right. rewrite <- H1. split; [done|].
    intros j g Hj. destruct (H4 j g Hj); [left; auto | by right]. }
  repeat lazymatch goal with
  | |- always one_identity (mbind _ (Amf.new_identity _)) => fail
  | |- always one_identity (mbind _ _) => apply Hseq; [always_tac | intros ?]
  | |- always one_identity (match ?x with _ => _ end) => destruct x
  end.
  apply (always_seq one_identity no_new_identity one_identity).
  - intros [a' w o]. right. unfold Amf.new_identity. run. cbn [snd mret prog_ret]. amf_st.
    split; [done|].
    intros k g. rewrite lookup_insert_Some. intros [[<- _]|[_ ?]]; [by right | by left].
  - intros mme. always_tac.
  - done.
  - intros p1 p2 p3 [H|[H1 H2]] Hyz; [left; by etrans|]. destruct Hyz as [H3 H4]. right. split; [by rewrite H3|].
    intros k g Hk. by apply H4, H2 in Hk.
Qed.

Lemma dispatch_identities m xres0 k_asme0 fd wid pkt :
  always one_identity (Amf.dispatch inet_aton garbage m xres0 k_asme0 fd wid pkt).
Proof.
  assert (forall A (c : prog (Amf.proc W) A), always no_new_identity c -> always one_identity c) as Hno
    by (intros A c Hc; apply (always_mono _ _ _ Hc); by left).
  destruct (handlers_keep m fd wid pkt) as (K1 & K2 & K3 & K4 & K5 & K6 & K7 & K8 & K9 & K10 & K11 & K12).
  unfold Amf.dispatch. destruct (_ =? 0).
  - repeat (apply initial_attach_allocates || case_match || (apply Hno, always_ret; apply _)).
  - apply Hno. destruct (0 <? _); [|apply always_ret; apply _].
    repeat (case_match; try (apply always_ret; apply _); try assumption);
      (apply always_bind; [apply _ | assumption | intros []]);
      repeat (assumption || (apply always_ret; apply _) || (apply always_bind; [apply _ | | intros []])).
Qed.

Lemma handle_ue_identities m xres0 k_asme0 fd wid evs :
  always one_identity (handle_ue m xres0 k_asme0 fd wid evs).
Proof.
  assert (forall A B (r : result A) (k : A -> prog (Amf.proc W) B),
    (forall a, always one_identity (k a)) -> always one_identity (x ← lift r; k x)) as Hl.
  { intros A B r k Hk s. destruct r as [a|f]; [apply Hk | by left]. }
  assert (forall A (a : A), always one_identity (mret a : prog (Amf.proc W) A)) as Hr by by left.
  unfold handle_ue, Amf.handle_ue.
  apply Hl. intros p0. apply Hl. intros [[[p1 msg] evs']|]; [|apply Hr].
  case_match; [apply Hr|]. apply Hl. intros p2.
  apply (always_seq one_identity no_new_identity one_identity);
    [apply dispatch_identities | intros; apply always_ret; apply _ | done |].
  intros q1 q2 q3 [K|[K1 K2]] Hyz; [left; by etrans|]. destruct Hyz as [K3 K4]. right.
  split; [by rewrite K3|]. intros k g Hk. by apply K4, K2 in Hk.
Qed.

(** A run of the AMF: messages from any connections, in any order. *)
Record input := mk_input {
  in_m : GrpcPacket.t; in_xres : Z; in_k_asme : Z; in_fd : Z; in_wid : Z;
  in_evs : list Network.event
}.

Definition handle_input (i : input) : prog (Amf.proc W) unit :=
  _ ← handle_ue (in_m i) (in_xres i) (in_k_asme i) (in_fd i) (in_wid i) (in_evs i); mret tt.

Fixpoint amf_run (l : list input) : prog (Amf.proc W) unit :=
  match l with
  | [] => mret tt
  | i :: l => _ ← handle_input i; amf_run l
  end.

(** The identities in use are among those given so far. *)
Definition identities_ok (a : Amf.t) : Prop :=
  0 <= Amf.ue_count a /\
  forall k g, Amf.s1amf_id a !! k = Some g -> 1 <= k <= Amf.ue_count a.

Lemma identities_step i p :
  identities_ok (Amf.amf p) -> Amf.ue_count (Amf.amf p) < 2 ^ 32 - 1 ->
  identities_ok (Amf.amf (handle_input i p).2) /\
  Amf.ue_count (Amf.amf (handle_input i p).2) <= Amf.ue_count (Amf.amf p) + 1.
Proof.
  intros [H0 Hk] Hc.
  assert (one_identity p (handle_input i p).2) as [[E1 E2]|[E1 E2]].
  { unfold handle_input, mbind, prog_bind.
    pose proof (handle_ue_identities (in_m i) (in_xres i) (in_k_asme i) (in_fd i) (in_wid i) (in_evs i) p)
      as H. by destruct (handle_ue _ _ _ _ _ _ p) as [[?|?] ?]. }
  - unfold identities_ok. rewrite E1. split; [|lia]. split; [done|]. intros k g Hg. eauto.
  - unfold identities_ok. rewrite E1, u64_id by lia. rewrite u64_id, u32_id in E2 by lia.
    split; [|lia]. split; [lia|]. intros k g [Hg | ->]%E2; [apply Hk in Hg; lia | lia].
Qed.

(** Every UE has an identity of its own: however the messages of any
    number of base stations are ordered, and even when the last one stops the
    process, the identities in the AMF's table are among the numbers given
    so far, so the next one is not in use, for the first 2^32 - 1 attaches. *)
Theorem identities_are_fresh l p :
  Amf.s1amf_id (Amf.amf p) = ∅ -> Amf.ue_count (Amf.amf p) = 0 ->
  Z.of_nat (length l) < 2 ^ 32 - 1 ->
  let a := Amf.amf (amf_run l p).2 in
  identities_ok a /\ Amf.ue_count a <= Z.of_nat (length l) /\
  Amf.s1amf_id a !! u32 (u64 (Amf.ue_count a + 1)) = None.
Proof.
  intros H1 H2 Hl.
  assert (forall l p, identities_ok (Amf.amf p) ->
    Amf.ue_count (Amf.amf p) + Z.of_nat (length l) < 2 ^ 32 - 1 ->
    identities_ok (Amf.amf (amf_run l p).2) /\
    Amf.ue_count (Amf.amf (amf_run l p).2) <= Amf.ue_count (Amf.amf p) + Z.of_nat (length l)) as H.
  { clear. induction l as [|i l IH]; intros p Hp Hl; [cbn; split; [done | lia]|].
    cbn [length] in Hl. destruct (identities_step i p Hp) as [Hq Hc]; [lia|].
    cbn [amf_run length]. destruct (handle_input i p) as [[[]|f] q] eqn:E; cbn [snd] in *.
    - rewrite (run_bind _ _ _ _ _ E). destruct (IH q Hq) as [I1 I2]; [lia|]. split; [done | lia].
    - rewrite (run_bind_fault _ _ _ _ _ E). cbn [snd]. split; [done | lia]. }
  destruct (H l p) as [I1 I2]; [|lia|].
  { split; [lia|]. intros k g. by rewrite H1, lookup_empty. }
  intros a. fold a in I1, I2. split; [done|]. split; [lia|].
  destruct I1 as [J1 J2]. rewrite u64_id, u32_id by lia.
  destruct (Amf.s1amf_id a !! (Amf.ue_count a + 1)) as [g|] eqn:E; [|done].
  apply J2 in E. lia.
Qed.

End Attach.

(** *** Witnesses: on the deployment of Core.v *)

Ltac arrive := split; [lia | split; [lia | split; [by repeat split | split; [vm_compute; discriminate|]]]];
  unfold segment; rewrite delivered_requeue; reflexivity.

Lemma attach_request_challenged_witness :
  exists p' evs' fr c,
    Amf.handle_ue core_aton amf_garbage zero_hdrs no_grpc 111 222 5 0
      (segment (demo_hd 1 0) (enc_items (attach_items 1 1 7 5)))
      (Amf.mk_proc demo_amf demo_core []) = (Ret (Some (1, evs')), p') /\
    Amf.out p' = [(5, fr)] /\
    s1ap_msg 1 42 1 (enc_items [IU64 (u64 (xres_of 1 20 + 1)); IU64 20; IU64 1]) fr /\
    Amf.ue_ctx (Amf.amf p') = <[deployed_guti 1 := c]> ∅ /\ Amf.xres c = 111 /\ Amf.k_asme c = 222 /\
    xres_of 1 20 <> 111.
Proof.
  destruct (attach_request_challenged core_aton amf_garbage zero_hdrs demo_know ∅ no_grpc 111 222 5 0
    (demo_hd 1 0) 1 1 7 5 1 20 (segment (demo_hd 1 0) (enc_items (attach_items 1 1 7 5))) []
    (Amf.mk_proc demo_amf demo_core []))
    as (p' & evs' & fr & c & _ & E & Ho & Hm & _ & Hc & _ & [Hx Hk] & _).
  - arrive.
  - apply demo_amf_config.
  - apply demo_core_ok.
  - lia.
  - split; [split; split; vm_compute; discriminate|]. by eexists.
  - reflexivity.
  - reflexivity.
  - exists p', evs', fr, c. repeat (split; [done|]). vm_compute. discriminate.
Defined.

Lemma any_response_is_accepted_witness :
  exists p' fr,
    (forall res evs rest,
       arrives 5 0 (demo_hd 2 7) (enc_items [IU64 res]) evs rest ->
     exists evs', delivered evs' = rest /\
       Amf.handle_ue core_aton amf_garbage zero_hdrs no_grpc 0 0 5 0 evs demo_attached =
         (Ret (Some (1, evs')), p')) /\
    Amf.out p' = [(5, fr)].
Proof.
  destruct (any_response_is_accepted core_aton amf_garbage zero_hdrs no_grpc 0 0 5 0 (demo_hd 2 7) 1 demo_ue
    demo_attached) as (p' & fr & H & Ho & _).
  - split; [lia|]. split; [discriminate|]. by split.
  - reflexivity.
  - exists p', fr. split; [exact H | exact Ho].
Defined.

Lemma session_created_for_hmac_bytes_witness :
  exists p' evs' c',
    Amf.handle_ue core_aton amf_garbage zero_hdrs no_grpc 0 0 5 0
      (segment (demo_hd 3 7) (toy_wire (enc_items [IBool true]))) demo_attached =
      (Ret (Some (1, evs')), p') /\
    Amf.ue_ctx (Amf.amf p') = <[deployed_guti 1 := c']> (<[deployed_guti 1 := demo_ue]> ∅) /\
    Amf.ip_addr c' = "172.16.1.4" /\
    Amf.apn_in_use c' = le_val (take 8 (drop 4 (toy_wire (enc_items [IBool true])))).
Proof.
  destruct (session_created_for_hmac_bytes core_aton amf_garbage zero_hdrs demo_know ∅ no_grpc 0 0 5 0
    (demo_hd 3 7) 1 demo_ue (toy_wire (enc_items [IBool true]))
    (segment (demo_hd 3 7) (toy_wire (enc_items [IBool true]))) [] demo_attached)
    as (p' & evs' & fr & wire' & c' & _ & E & _ & _ & _ & _ & Hc & (H1 & H2 & _) & _).
  - arrive.
  - apply toy_sealed.
  - split; [lia|]. split; [discriminate|]. by split.
  - reflexivity.
  - reflexivity.
  - apply demo_amf_config.
  - apply demo_core_ok.
  - exists p', evs', c'. split; [exact E|]. split; [exact Hc|]. split; [exact H2 | exact H1].
Defined.

Lemma attach_completed_without_downlink_witness :
  exists p' evs' c',
    Amf.handle_ue core_aton amf_garbage zero_hdrs no_grpc 0 0 5 0
      (segment (demo_hd 4 7) (toy_wire (enc_items [IU8 5; IU32 77]))) demo_connected =
      (Ret (Some (1, evs')), p') /\
    Amf.ue_ctx (Amf.amf p') = <[deployed_guti 1 := c']> (<[deployed_guti 1 := demo_ue]> ∅) /\
    Amf.s1_uteid_dl c' = 77 /\
    smf_sessions (<[1 := mk_session 1 1 5 0 "172.18.0.2" 4000]> ∅) (Amf.net p').
Proof.
  destruct (attach_completed_without_downlink core_aton amf_garbage zero_hdrs demo_know demo_s no_grpc 0 0 5 0
    (demo_hd 4 7) 1 demo_ue 5 77 (toy_wire (enc_items [IU8 5; IU32 77]))
    (segment (demo_hd 4 7) (toy_wire (enc_items [IU8 5; IU32 77]))) [] demo_connected)
    as (p' & evs' & c' & _ & E & _ & _ & Hc & (H1 & _) & (Hs & _) & _).
  - arrive.
  - apply toy_sealed.
  - split; [lia|]. split; [discriminate|]. by split.
  - reflexivity.
  - by eexists.
  - apply demo_amf_config.
  - apply demo_core1_ok.
  - exists p', evs', c'. split; [exact E|]. split; [exact Hc|]. split; [exact H1|].
    unfold demo_s in Hs. rewrite alter_insert_eq in Hs. exact Hs.
Defined.

Lemma detach_removes_everything_witness :
  exists p' evs' fr,
    Amf.handle_ue core_aton amf_garbage zero_hdrs no_grpc 0 0 5 0
      (segment (demo_hd 5 7) (toy_wire (enc_items (detach_items (deployed_guti 1) 1 1)))) demo_connected =
      (Ret (Some (1, evs')), p') /\
    Amf.out p' = [(5, fr)] /\ Amf.ue_ctx (Amf.amf p') !! deployed_guti 1 = None /\
    smf_sessions (delete 1 demo_s) (Amf.net p').
Proof.
  destruct (detach_removes_everything core_aton amf_garbage zero_hdrs demo_know demo_s no_grpc 0 0 5 0
    (demo_hd 5 7) 1 demo_ue 1 1 (toy_wire (enc_items (detach_items (deployed_guti 1) 1 1)))
    (segment (demo_hd 5 7) (toy_wire (enc_items (detach_items (deployed_guti 1) 1 1)))) [] demo_connected)
    as (p' & evs' & fr & wire' & _ & E & Ho & _ & _ & _ & Hc & (Hs & _) & _).
  - arrive.
  - apply toy_sealed.
  - split; [lia|]. split; [discriminate|]. by split.
  - reflexivity.
  - by eexists.
  - apply demo_amf_config.
  - apply demo_core1_ok.
  - exists p', evs', fr. split; [exact E|]. split; [exact Ho|]. split; [|exact Hs].
    rewrite Hc. apply lookup_delete_eq.
Defined.

Lemma one_bad_message_stops_the_amf_witness :
  exists msg,
    Amf.handle_ue core_aton amf_garbage zero_hdrs no_grpc 0 0 5 0
      (segment (demo_hd 4 7) (replicate 36 200)) demo_connected = (Fault (Exit msg), demo_connected).
Proof.
  apply (proj1 (one_bad_message_stops_the_amf core_aton amf_garbage zero_hdrs no_grpc 0 0 5 0 (demo_hd 4 7)
    (replicate 36 200) (segment (demo_hd 4 7) (replicate 36 200)) [] demo_connected
    ltac:(arrive) ltac:(discriminate)) 1 demo_ue).
  - split; [lia|]. split; [discriminate|]. by split.
  - vm_compute. discriminate.
  - vm_compute. discriminate.
  - right. by left.
Defined.

Lemma identities_are_fresh_witness :
  let i := mk_input no_grpc 0 0 5 0 (segment (demo_hd 1 0) (enc_items (attach_items 1 1 7 5))) in
  Amf.s1amf_id (Amf.amf (amf_run core_aton amf_garbage zero_hdrs [i; i]
    (Amf.mk_proc demo_amf demo_core [])).2) !!
    u32 (u64 (Amf.ue_count (Amf.amf (amf_run core_aton amf_garbage zero_hdrs [i; i]
      (Amf.mk_proc demo_amf demo_core [])).2) + 1)) = None.
Proof.
  intros i. apply (identities_are_fresh core_aton amf_garbage zero_hdrs [i; i]
    (Amf.mk_proc demo_amf demo_core [])); [reflexivity | reflexivity | reflexivity].
Defined.
