(* ===== verification/AmfThreads.v ===== *)
(** * AmfThreads: the threads of the AMF (src/amf.cpp, src/amf_server.cpp)

    The worker threads of the AMF's TCP server serve one message each at a
    time; they share the counter and the identifiers, which one mutex
    protects, the contexts, which another one protects, and the globals
    [g_upf_s1_ip_addr] and [g_upf_s1_port], which nothing protects.  Here are
    the handlers of Amf.v again, cut where the code takes and releases the
    mutexes and where it accesses the globals, and the proof that, alone, they
    are the handlers of Amf.v.  An access to the globals takes two turns and
    may race; what is never assigned to after the constructor ([Fixed]) is read
    in one turn.

    The counter and an entry of the identifiers are accessed in one critical
    section in the code and in two turns here: the threads are interleaved
    more finely than the code allows.  What the peers answer to a thread is a
    parameter, [world].

    Two theorems: every UE has a number of its own, whatever the interleaving;
    and the schedule in which a detach request takes the context of the
    registration that follows it. *)

From Stdlib Require Import ZArith Lia Ascii String.
From S2P Require Import Prelude Utils Threads Telecom Headers Packet Network Transport Security Messages.
From S2P Require Import Ausf Upf Smf Amf Core Attach.

(** What a thread asks of the peers, and what they say.  The base stations
    accept the AMF's connections; Handover.v has what happens otherwise: the
    thread stays in [connect] and gets no further turn. *)
Inductive call :=
  | AskAusf (channel : string) (request : AmfAusfRequest.t)
  | AskSmf (channel : string) (request : AmfSmfRequest.t)
  | OpenUdp (ip : string)
  | ToUpf (dst : sockaddr_in) (dgram : list Z)
  | ConnectRan (ip : string) (port : Z)
  | ToRan (fd : Z) (bytes : list Z).

Record world := mk_world {
  ausf_says : string -> AmfAusfRequest.t -> option AmfAusfReply.t;
  smf_says : string -> AmfSmfRequest.t -> option AmfSmfReply.t;
  upf_says : UdpClient.datagram;
  ran_fd : string -> Z -> Z
}.

(** The calls of a thread in their order. *)
Definition calls : Type := list call.
Definition log_call (c : call) : prog calls unit := modify (fun w => w ++ [c]).

Section World.
Context (w : world).
Definition world_ausf : AusfStub calls :=
  {| call_AmfAusfInteraction ch r := _ ← log_call (AskAusf ch r); mret (ausf_says w ch r) |}.
Definition world_smf : SmfStub calls :=
  {| call_AmfSmfInteraction ch r := _ ← log_call (AskSmf ch r); mret (smf_says w ch r) |}.
Definition world_n4 : N4 calls :=
  {| n4_snd dst d := log_call (ToUpf dst d); n4_rcv := mret (upf_says w) |}.
Definition world_handover : Handover calls := {|
  ho_n4 := world_n4;
  ho_udp_open ip := log_call (OpenUdp ip);
  ho_ran_connect ip port := _ ← log_call (ConnectRan ip port); mret (ran_fd w ip port);
  ho_ran_snd fd bs := log_call (ToRan fd bs)
|}.
End World.

Module AmfShared.
Import Amf.

(** What is never assigned to after the constructor; the counter; an entry of
    each table; the two globals. *)
Inductive cell := Fixed | Count | Id (mme_s1ap_ue_id : Z) | Ctx (guti : Z) | S1Ip | S1Port.
#[global] Instance cell_eq_dec : EqDecision cell.
Proof. solve_decision. Defined.

Definition val (c : cell) : Type :=
  match c with
  | Fixed => AmfIds * string * string
  | Count | S1Port => Z
  | Id _ => option Z
  | Ctx _ => option UeContext
  | S1Ip => string
  end.

Definition get (c : cell) (a : Amf.t) : val c :=
  match c with
  | Fixed => (amf_ids a, g_ausf_ip_addr a, smf_amf_ip_addr a)
  | Count => ue_count a
  | Id k => s1amf_id a !! k
  | Ctx k => ue_ctx a !! k
  | S1Ip => g_upf_s1_ip_addr a
  | S1Port => g_upf_s1_port a
  end.

Definition put (c : cell) : val c -> Amf.t -> Amf.t :=
  match c return val c -> Amf.t -> Amf.t with
  | Fixed => fun v a => a <| amf_ids := v.1.1 |> <| g_ausf_ip_addr := v.1.2 |> <| smf_amf_ip_addr := v.2 |>
  | Count => fun v a => a <| ue_count := v |>
  | Id k => fun v a => a <| s1amf_id := partial_alter (fun _ => v) k (s1amf_id a) |>
  | Ctx k => fun v a => a <| ue_ctx := partial_alter (fun _ => v) k (ue_ctx a) |>
  | S1Ip => fun v a => a <| g_upf_s1_ip_addr := v |>
  | S1Port => fun v a => a <| g_upf_s1_port := v |>
  end.

(** The objects by number; an entry of a table comes or goes. *)
Definition place (c : cell) : nat :=
  match c with Fixed => 0 | Count => 1 | Id _ => 2 | Ctx _ => 3 | S1Ip => 4 | S1Port => 5 end.
Definition changes_shape (c : cell) : val c -> val c -> bool :=
  match c with
  | Id _ | Ctx _ => comes_or_goes
  | Fixed | Count | S1Ip | S1Port => fun _ _ => false
  end.

#[global] Instance amf_store : Store Amf.t := {
  Threads.cell := cell; Threads.val := val; Threads.get := get; Threads.put := put;
  Threads.object := place; Threads.reshapes := changes_shape
}.

#[global] Instance amf_store_laws : StoreLaws Amf.t.
Proof.
  split.
  - intros [| |k|k| |] v s; cbn; rewrite ?lookup_partial_alter_eq; try done. by destruct v as [[? ?] ?].
  - intros [| |k|k| |] [| |k'|k'| |] v s N; cbn; try done; rewrite lookup_partial_alter_ne by congruence; done.
  - intros [a1 a2 a3 a4 a5 a6 a7 a8] [b1 b2 b3 b4 b5 b6 b7 b8] H.
    pose proof (H Fixed) as H1. pose proof (H Count) as H2. pose proof (fun k => H (Id k)) as H3.
    pose proof (fun k => H (Ctx k)) as H4. pose proof (H S1Ip) as H5. pose proof (H S1Port) as H6. cbn in *.
    injection H1 as -> -> ->. f_equal; try done; by apply map_eq.
  - intros [| |k|k| |] v; try done; apply comes_or_goes_id.
Qed.

(** A thread asks the peers, and sends frames to the base stations. *)
Abbreviation acode := (code (T := Amf.t) (call + Z * list Z)).

Section Handlers.
Context `{CL : CryptoLib}.
Context (inet_aton : string -> option Z) (garbage : Z -> UeContext) (h0 : hdrs) (w : world).

#[local] Instance ausf_peer : AusfStub calls := world_ausf w.
#[local] Instance smf_peer : SmfStub calls := world_smf w.
#[local] Instance ho_peers : Handover calls := world_handover w.

(** A critical section over a context, which writes or only reads it. *)
Definition ctx_access {A} (m : mode) (guti : Z) (f : UeContext -> UeContext) (g : UeContext -> A) : acode A :=
  access (T := Amf.t) m (Ctx guti) (fun v : val (Ctx guti) =>
    let c := f (default (new_ctx garbage guti) v) in (Ret (g c), Some c)).
Definition on_ctx {A} (guti : Z) (f : UeContext -> UeContext) (g : UeContext -> A) : acode A :=
  ctx_access (Locked true) guti f g.
Definition set_ctx (guti : Z) (f : UeContext -> UeContext) : acode unit := on_ctx guti f (fun _ => tt).
Definition read_ctx (guti : Z) : acode UeContext := ctx_access (Locked false) guti (fun c => c) (fun c => c).

(** A look at a cell and an assignment, with its mutex held; and the same for
    the globals, which have none. *)
Definition look {A} (c : cell) (g : val c -> A) : acode A :=
  reading (T := Amf.t) c (fun v : val c => (Ret (g v), v)).
Definition assign (c : cell) (v : val c) : acode unit := section (T := Amf.t) c (fun _ => (Ret tt, v)).
Definition bare_look (c : cell) : acode (val c) := bare_read (T := Amf.t) c (fun v : val c => (Ret v, v)).
Definition bare_assign (c : cell) (v : val c) : acode unit := bare_write (T := Amf.t) c (fun _ => (Ret tt, v)).

(** A client call: its calls leave in their order. *)
Definition on_net {A} (c : prog calls A) : acode A :=
  foldr (fun e k => Emit (inl e) k) (Finish (c []).1) (c []).2.

Definition server_snd (conn_fd : Z) (pkt : Packet.t) : acode unit :=
  frame ← Finish (framed_bytes_of pkt); Emit (inr (conn_fd, frame)) (mret tt).

(** [Amf::get_guti], [Amf::rem_itfid], [Amf::rem_uectx] *)
Definition get_guti (pkt : Packet.t) : acode Z :=
  pkt ← Finish (Packet.copy pkt);
  look (Id (S1ap.mme_s1ap_ue_id (Packet.s1ap_hdr pkt))) (fun v : option Z => default 0 v).
Definition rem_itfid (mme_s1ap_ue_id : Z) : acode unit := assign (Id mme_s1ap_ue_id) None.
Definition rem_uectx (guti : Z) : acode unit := assign (Ctx guti) None.

(** [Amf::set_crypt_context], [Amf::set_integrity_context],
    [Amf::set_upf_info] *)
Definition set_crypt_context (guti : Z) : acode unit :=
  set_ctx guti (fun c => c <| nas_enc_algo := 1 |> <| k_nas_enc := nas_key (k_asme c) 1 c |>).
Definition set_integrity_context (guti : Z) : acode unit :=
  set_ctx guti (fun c => c <| nas_int_algo := 1 |> <| k_nas_int := nas_key (k_asme c) 1 c |>).
Definition set_upf_info (guti : Z) : acode unit :=
  set_ctx guti (fun c => c <| upf_smf_port := g_upf_smf_port |> <| upf_smf_ip_addr := g_upf_smf_ip_addr |>).

Definition guti_of (pkt : Packet.t) (msg : string) : acode Z :=
  guti ← get_guti pkt;
  _ ← Finish (if guti =? 0 then Utils.handle_type1_error (-1) msg else mret tt);
  mret guti.

(** The critical section under [s1amfid_mux]. *)
Definition new_identity (guti : Z) : acode Z :=
  mme ← section (T := Amf.t) Count (fun v : val Count => (Ret (u32 (u64 (v + 1))), u64 (v + 1)));
  _ ← assign (Id mme) (Some guti);
  mret mme.

(** [Amf::handle_initial_attach] *)
Definition handle_initial_attach (m : GrpcPacket.t) (xres0 k_asme0 : Z)
    (conn_fd : Z) (pkt : Packet.t) (worker_id : Z) : acode unit :=
  pkt ← Finish (Packet.copy pkt);
  '(r_imsi, pkt) ← Finish (Packet.extract_item_uint64 pkt);
  '(r_tai, pkt) ← Finish (Packet.extract_item_uint64 pkt);
  '(r_ksi, pkt) ← Finish (Packet.extract_item_uint64 pkt);
  '(r_cap, pkt) ← Finish (Packet.extract_item_uint16 pkt);
  let enb := S1ap.enodeb_s1ap_ue_id (Packet.s1ap_hdr pkt) in
  ids ← look Fixed (fun v => v.1.1);
  guti ← Finish (Telecom.get_guti (guamfi ids) r_imsi);
  mme ← new_identity guti;
  c ← on_ctx guti (init_ctx r_imsi enb mme r_tai r_cap) (fun c => c);
  let gpkt := (GrpcPacket.construct m) <| GrpcPacket.msg_type := 1 |>
    <| GrpcPacket.imsi := r_imsi |> <| GrpcPacket.plmn_id := plmn_id ids |>
    <| GrpcPacket.num_autn_vectors := 1 |> <| GrpcPacket.nw_type := nw_type c |> in
  ip ← look Fixed (fun v => v.1.2);
  channel ← Finish (ausf_channel_of ip worker_id);
  '(message, gpkt) ← on_net (GreeterClient.AmfAusfInteraction channel "AMF" gpkt);
  c ← on_ctx guti (fun c => c <| xres := xres0 |> <| k_asme := k_asme0 |> <| ksi_asme := 1 |>) (fun c => c);
  pkt ← Finish (Packet.clear_pkt pkt);
  pkt ← Finish (Packet.append_items pkt
    [IU64 (GrpcPacket.autn_num gpkt); IU64 (GrpcPacket.rand_num gpkt); IU64 (ksi_asme c)]);
  pkt ← Finish (Packet.prepend_s1ap_hdr pkt 1 (Packet.plen pkt) enb mme);
  server_snd conn_fd pkt.

(** [Amf::handle_autn] *)
Definition handle_autn (conn_fd : Z) (pkt : Packet.t) : acode bool :=
  pkt ← Finish (Packet.copy pkt);
  guti ← guti_of pkt "Zero guti: amf_handleautn";
  '(res, pkt) ← Finish (Packet.extract_item_uint64 pkt);
  c ← read_ctx guti;
  if res =? xres c then mret true else mret true.

(** [Amf::handle_security_mode_cmd] *)
Definition handle_security_mode_cmd (conn_fd : Z) (pkt : Packet.t) : acode unit :=
  pkt ← Finish (Packet.copy pkt);
  guti ← guti_of pkt "Zero guti: amf_handlesecuritymodecmd";
  _ ← set_crypt_context guti;
  _ ← set_integrity_context guti;
  c ← read_ctx guti;
  pkt ← Finish (Packet.clear_pkt pkt);
  pkt ← Finish (Packet.append_items pkt
    [IU64 (ksi_asme c); IU16 (nw_capability c); IU64 (nas_enc_algo c); IU64 (nas_int_algo c)]);
  pkt ← Finish (if HMAC_ON then Integrity.add_hmac pkt (k_nas_int c) else mret pkt);
  pkt ← Finish (s1ap_reply pkt 2);
  server_snd conn_fd pkt.

(** [Amf::handle_security_mode_complete] *)
Definition handle_security_mode_complete (conn_fd : Z) (pkt : Packet.t) : acode bool :=
  pkt ← Finish (Packet.copy pkt);
  guti ← guti_of pkt "Zero guti: amf_handlesecuritymodecomplete";
  c ← read_ctx guti;
  pkt ← Finish (unprotect pkt (k_nas_enc c) (k_nas_int c) "hmac failure: amf_handlesecuritymodecomplete");
  '(res, pkt) ← Finish (Packet.extract_item_bool pkt);
  if (res : bool) then mret true else mret false.

(** [Amf::handle_location_update] *)
Definition handle_location_update (m : GrpcPacket.t) (pkt : Packet.t) (worker_id : Z) : acode unit :=
  pkt ← Finish (Packet.copy pkt);
  guti ← guti_of pkt "Zero guti: amf_handlelocationupdate";
  c ← read_ctx guti;
  ids ← look Fixed (fun v => v.1.1);
  let gpkt := (GrpcPacket.construct m) <| GrpcPacket.mmei := amfi ids |>
    <| GrpcPacket.imsi := imsi c |> <| GrpcPacket.msg_type := 2 |> in
  ip ← look Fixed (fun v => v.1.2);
  channel ← Finish (ausf_channel_of ip worker_id);
  '(message, gpkt) ← on_net (GreeterClient.AmfAusfInteraction channel "AMF" gpkt);
  pkt ← Finish (Packet.extract_diameter_hdr pkt);
  '(apn, pkt) ← Finish (Packet.extract_item_uint64 pkt);
  set_ctx guti (fun c => c <| default_apn := apn |> <| apn_in_use := apn |>).

(** [Amf::handle_create_session] *)
Definition handle_create_session (m : GrpcPacket.t) (conn_fd : Z) (pkt : Packet.t) (worker_id : Z) : acode unit :=
  pkt ← Finish (Packet.copy pkt);
  guti ← guti_of pkt "Zero guti: amf_handlecreatesession";
  _ ← set_upf_info guti;
  cteid ← Finish (get_s11cteid guti);
  c ← on_ctx guti (fun c => c <| s11_cteid_amf := cteid |> <| eps_bearer_id := 5 |>) (fun c => c);
  pkt ← Finish (Packet.clear_pkt pkt);
  let gpkt := (GrpcPacket.construct m) <| GrpcPacket.msg_type := 1 |>
    <| GrpcPacket.guti := guti |> <| GrpcPacket.imsi := imsi c |>
    <| GrpcPacket.s11_cteid_amf := s11_cteid_amf c |> <| GrpcPacket.eps_bearer_id := eps_bearer_id c |>
    <| GrpcPacket.apn_in_use := apn_in_use c |> <| GrpcPacket.tai := tai c |> in
  ip ← look Fixed (fun v => v.2);
  gpkt ← on_net (GreeterClient.SessionCreationFC (ip +:+ ":5005" +:+ to_string worker_id) gpkt);
  let guti := GrpcPacket.guti gpkt in
  let r_ebi := u8 (GrpcPacket.eps_bearer_id gpkt) in
  let ul := GrpcPacket.s1_uteid_ul gpkt in
  let cteid_upf := GrpcPacket.s11_cteid_upf gpkt in
  let ue_ip := GrpcPacket.ue_ip_addr gpkt in
  _ ← bare_assign S1Ip (GrpcPacket.g_upf_s1_ip_addr gpkt);
  s1_port ← bare_look S1Port;
  _ ← bare_assign S1Port s1_port;
  c ← on_ctx guti (fun c => c <| ip_addr := ue_ip |> <| s11_cteid_upf := cteid_upf |>
        <| s1_uteid_ul := ul |> <| tai_list := [tai c] |> <| tau_timer := g_timer |>
        <| e_rab_id := eps_bearer_id c |> <| k_enodeb := k_asme c |>) (fun c => c);
  s1_ip ← bare_look S1Ip;
  s1_port ← bare_look S1Port;
  pkt ← Finish (Packet.clear_pkt pkt);
  pkt ← Finish (Packet.append_items pkt
    [IU64 guti; IU8 r_ebi; IU8 (e_rab_id c); IU32 ul; IU64 (k_enodeb c); IU16 (nw_capability c); IInt 1;
     IVec (tai_list c); IU64 (tau_timer c); IStr ue_ip; IStr s1_ip; IInt s1_port; IBool true]);
  pkt ← Finish (protect pkt (k_nas_enc c) (k_nas_int c));
  pkt ← Finish (s1ap_reply pkt 3);
  server_snd conn_fd pkt.

(** [Amf::handle_attach_complete] *)
Definition handle_attach_complete (pkt : Packet.t) : acode unit :=
  pkt ← Finish (Packet.copy pkt);
  guti ← guti_of pkt "Zero guti: amf_handleattachcomplete";
  c ← read_ctx guti;
  pkt ← Finish (unprotect pkt (k_nas_enc c) (k_nas_int c) "hmac failure: amf_handleattachcomplete");
  '(r_ebi, pkt) ← Finish (Packet.extract_item_uint8 pkt);
  '(dl, pkt) ← Finish (Packet.extract_item_uint32 pkt);
  set_ctx guti (fun c => c <| s1_uteid_dl := dl |> <| emm_state := 1 |>).

(** [Amf::handle_modify_bearer] *)
Definition handle_modify_bearer (m : GrpcPacket.t) (pkt : Packet.t) (worker_id : Z) : acode unit :=
  pkt ← Finish (Packet.copy pkt);
  guti ← guti_of pkt "Zero guti: amf_handlemodifybearer";
  c ← read_ctx guti;
  let gpkt := (GrpcPacket.construct m) <| GrpcPacket.guti := guti |>
    <| GrpcPacket.eps_bearer_id := eps_bearer_id c |> <| GrpcPacket.s1_uteid_dl := s1_uteid_dl c |>
    <| GrpcPacket.g_trafmon_ip_addr := g_trafmon_ip_addr |>
    <| GrpcPacket.g_trafmon_port := g_trafmon_port |> <| GrpcPacket.msg_type := 2 |> in
  ip ← look Fixed (fun v => v.2);
  gpkt ← on_net (GreeterClient.ModifyBearerFC (ip +:+ ":5006" +:+ to_string worker_id) gpkt);
  if GrpcPacket.res gpkt then set_ctx guti (fun c => c <| ecm_state := 1 |>) else mret tt.

(** [Amf::handle_detach] *)
Definition handle_detach (m : GrpcPacket.t) (conn_fd : Z) (pkt : Packet.t) (worker_id : Z) : acode unit :=
  pkt ← Finish (Packet.copy pkt);
  guti ← guti_of pkt "Zero guti: amf_handledetach";
  c ← read_ctx guti;
  pkt ← Finish (unprotect pkt (k_nas_enc c) (k_nas_int c) "hmac failure: amf_handledetach");
  '(guti, pkt) ← Finish (Packet.extract_item_uint64 pkt);
  '(r_ksi, pkt) ← Finish (Packet.extract_item_uint64 pkt);
  '(detach_type, pkt) ← Finish (Packet.extract_item_uint64 pkt);
  let gpkt := (GrpcPacket.construct m) <| GrpcPacket.guti := guti |>
    <| GrpcPacket.eps_bearer_id := eps_bearer_id c |> <| GrpcPacket.tai := tai c |>
    <| GrpcPacket.msg_type := 3 |> in
  ip ← look Fixed (fun v => v.2);
  gpkt ← on_net (GreeterClient.DetachFC (ip +:+ ":5007" +:+ to_string worker_id) gpkt);
  if GrpcPacket.res gpkt then
    pkt ← Finish (Packet.clear_pkt pkt);
    pkt ← Finish (Packet.append_items pkt [IBool true]);
    pkt ← Finish (protect pkt (k_nas_enc c) (k_nas_int c));
    pkt ← Finish (s1ap_reply pkt 5);
    _ ← server_snd conn_fd pkt;
    _ ← rem_itfid (S1ap.mme_s1ap_ue_id (Packet.s1ap_hdr pkt));
    rem_uectx guti
  else mret tt.

(** *** Handover *)

(** [upf_client.conn(g_amf_ip_addr, g_upf_s11_ip_addr, g_upf_s11_port)] *)
Definition upf_client_conn : acode sockaddr_in :=
  _ ← Finish (Network.set_inet_sock_addr inet_aton g_amf_ip_addr 0);
  dst ← Finish (Network.set_inet_sock_addr inet_aton g_upf_s11_ip_addr g_upf_s11_port);
  _ ← on_net (ho_udp_open g_amf_ip_addr);
  mret dst.

(** [upf_client.snd(pkt); upf_client.rcv(pkt)] *)
Definition upf_client_exchange (dst : sockaddr_in) (pkt : Packet.t) : acode Packet.t :=
  dgram ← Finish (bytes_of pkt);
  _ ← on_net (n4_snd dst dgram);
  pkt ← Finish (Packet.clear_pkt pkt);
  d ← on_net n4_rcv;
  '(status, buf, _) ← Finish (UdpClient.recvfrom (Packet.data pkt) dst d);
  mret (pkt <| Packet.data := buf |> <| Packet.data_ptr := 0 |> <| Packet.plen := status |>).

(** [Amf::setup_indirect_tunnel] *)
Definition setup_indirect_tunnel (pkt : Packet.t) : acode unit :=
  pkt ← Finish (Packet.copy pkt);
  '(dl_ho, pkt) ← Finish (Packet.extract_item_uint32 pkt);
  dst ← upf_client_conn;
  guti ← get_guti pkt;
  c ← read_ctx guti;
  pkt ← Finish (Packet.clear_pkt pkt);
  pkt ← Finish (Packet.append_items pkt [IU32 dl_ho]);
  pkt ← Finish (Packet.prepend_gtp_hdr pkt 2 4 (Packet.plen pkt) (s11_cteid_upf c));
  pkt ← upf_client_exchange dst pkt;
  pkt ← Finish (Packet.extract_gtp_hdr pkt);
  '(res, pkt) ← Finish (Packet.extract_item_bool pkt);
  '(ul, pkt) ← Finish (Packet.extract_item_uint32 pkt);
  fd ← on_net (ho_ran_connect s_ran_ip_addr s_ran_port);
  if (res : bool) then
    pkt ← Finish (Packet.clear_pkt pkt);
    pkt ← Finish (Packet.append_items pkt [IU32 ul]);
    pkt ← Finish (s1ap_reply pkt 8);
    frame ← Finish (framed_bytes_of pkt);
    on_net (ho_ran_snd fd frame)
  else mret tt.

(** [Amf::request_target_RAN] *)
Definition request_target_RAN (pkt : Packet.t) : acode unit :=
  pkt ← Finish (Packet.copy pkt);
  '(handover_type, pkt) ← Finish (Packet.extract_item_int pkt);
  '(s_enb, pkt) ← Finish (Packet.extract_item_uint16 pkt);
  '(t_enb, pkt) ← Finish (Packet.extract_item_uint16 pkt);
  '(enb, pkt) ← Finish (Packet.extract_item_uint32 pkt);
  '(mme, pkt) ← Finish (Packet.extract_item_uint32 pkt);
  guti ← get_guti pkt;
  pkt ← Finish (Packet.clear_pkt pkt);
  pkt ← Finish (Packet.append_items pkt [IU16 t_enb; IU32 enb; IU32 mme]);
  c ← read_ctx guti;
  pkt ← Finish (Packet.append_items pkt [IU32 (s1_uteid_ul c)]);
  pkt ← Finish (s1ap_reply pkt 7);
  fd ← on_net (ho_ran_connect t_ran_ip_addr t_ran_port);
  frame ← Finish (framed_bytes_of pkt);
  on_net (ho_ran_snd fd frame).

(** [Amf::handle_handover] *)
Definition handle_handover (pkt : Packet.t) : acode unit :=
  pkt ← Finish (Packet.copy pkt);
  request_target_RAN pkt.

(** [Amf::handle_handover_completion] *)
Definition handle_handover_completion (pkt : Packet.t) : acode unit :=
  pkt ← Finish (Packet.copy pkt);
  dst ← upf_client_conn;
  guti ← get_guti pkt;
  c ← read_ctx guti;
  pkt ← Finish (Packet.clear_pkt pkt);
  pkt ← Finish (Packet.append_items pkt [IInt 1]);
  pkt ← Finish (Packet.prepend_gtp_hdr pkt 2 5 (Packet.plen pkt) (s11_cteid_upf c));
  pkt ← upf_client_exchange dst pkt;
  pkt ← Finish (Packet.extract_gtp_hdr pkt);
  '(res, pkt) ← Finish (Packet.extract_item_bool pkt);
  fd ← on_net (ho_ran_connect s_ran_ip_addr s_ran_port);
  if (res : bool) then
    pkt ← Finish (Packet.clear_pkt pkt);
    pkt ← Finish (Packet.append_items pkt [IBool res]);
    pkt ← Finish (s1ap_reply pkt 9);
    frame ← Finish (framed_bytes_of pkt);
    on_net (ho_ran_snd fd frame)
  else mret tt.

(** [Amf::teardown_indirect_tunnel] *)
Definition teardown_indirect_tunnel (pkt : Packet.t) : acode unit :=
  pkt ← Finish (Packet.copy pkt);
  '(ul_ho, pkt) ← Finish (Packet.extract_item_uint32 pkt);
  dst ← upf_client_conn;
  guti ← get_guti pkt;
  c ← read_ctx guti;
  pkt ← Finish (Packet.clear_pkt pkt);
  pkt ← Finish (Packet.append_items pkt [IU32 ul_ho]);
  pkt ← Finish (Packet.prepend_gtp_hdr pkt 2 6 (Packet.plen pkt) (s11_cteid_upf c));
  pkt ← upf_client_exchange dst pkt;
  pkt ← Finish (Packet.extract_gtp_hdr pkt);
  '(res, pkt) ← Finish (Packet.extract_item_bool pkt);
  mret tt.

(** *** The server *)

(** The two switches of [handle_ue] on a packet whose S1AP header was
    extracted.  Case 10 falls through to the default, which does nothing. *)
Definition dispatch (m : GrpcPacket.t) (xres0 k_asme0 : Z) (conn_fd worker_id : Z)
    (pkt : Packet.t) : acode unit :=
  if S1ap.mme_s1ap_ue_id (Packet.s1ap_hdr pkt) =? 0 then
    match S1ap.msg_type (Packet.s1ap_hdr pkt) with
    | 1 => handle_initial_attach m xres0 k_asme0 conn_fd pkt worker_id
    | _ => mret tt
    end
  else if 0 <? S1ap.mme_s1ap_ue_id (Packet.s1ap_hdr pkt) then
    match S1ap.msg_type (Packet.s1ap_hdr pkt) with
    | 2 =>
        res ← handle_autn conn_fd pkt;
        if (res : bool) then handle_security_mode_cmd conn_fd pkt else mret tt
    | 3 =>
        res ← handle_security_mode_complete conn_fd pkt;
        if (res : bool) then
          _ ← handle_location_update m pkt worker_id;
          handle_create_session m conn_fd pkt worker_id
        else mret tt
    | 4 =>
        _ ← handle_attach_complete pkt;
        handle_modify_bearer m pkt worker_id
    | 5 => handle_detach m conn_fd pkt worker_id
    | 7 => handle_handover pkt
    | 8 => setup_indirect_tunnel pkt
    | 9 => handle_handover_completion pkt
    | 10 => teardown_indirect_tunnel pkt
    | _ => mret tt
    end
  else mret tt.

(** [handle_ue]: the status tells the worker to keep or close the
    connection; [None] is a read that does not return. *)
Definition handle_ue (m : GrpcPacket.t) (xres0 k_asme0 : Z) (conn_fd worker_id : Z)
    (evs : list Network.event) : acode (option (Z * list Network.event)) :=
  pkt ← Finish (Packet.construct (h_gtp h0) (h_s1ap h0) (h_dia h0));
  r ← Finish (SctpServer.rcv conn_fd pkt evs);
  match r with
  | None => mret None
  | Some (pkt, _, evs) =>
      if Packet.plen pkt <=? 0 then mret (Some (0, evs))
      else
        pkt ← Finish (Packet.extract_s1ap_hdr pkt);
        _ ← dispatch m xres0 k_asme0 conn_fd worker_id pkt;
        mret (Some (1, evs))
  end.

End Handlers.
End AmfShared.

(** ** Alone, they are the handlers of Amf.v *)

Definition calls_of (es : list (call + Z * list Z)) : calls :=
  omap (fun e => match e with inl c => Some c | inr _ => None end) es.
Definition frames_of (es : list (call + Z * list Z)) : list (Z * list Z) :=
  omap (fun e => match e with inl _ => None | inr f => Some f end) es.

#[export] Instance amf_process : Process Amf.t (call + Z * list Z) (Amf.proc calls) := {
  view := Amf.amf;
  advance a es p := Amf.mk_proc a (Amf.net p ++ calls_of es) (Amf.out p ++ frames_of es)
}.
#[export] Instance amf_process_laws : ProcessLaws Amf.t (call + Z * list Z) (Amf.proc calls).
Proof.
  split; [done | |].
  - intros t t' es es' p. cbn. unfold calls_of, frames_of. by rewrite !omap_app, !app_assoc.
  - intros [a n o]. cbn. by rewrite !app_nil_r.
Qed.

Lemma amf_access {B} m (c : AmfShared.cell) (f : AmfShared.val c -> result B * AmfShared.val c)
    (p : prog (Amf.proc calls) B) :
  (forall a n o, p (Amf.mk_proc a n o) =
     ((f (AmfShared.get c a)).1, Amf.mk_proc (AmfShared.put c (f (AmfShared.get c a)).2 a) n o)) ->
  alike (access (T := Amf.t) m c f) p.
Proof. intros H. apply alike_access. intros [a n o]. rewrite H. cbn. by rewrite !app_nil_r. Qed.

Section Alike.
Context `{CL : CryptoLib}.
Context (inet_aton : string -> option Z) (garbage : Z -> Amf.UeContext) (h0 : hdrs) (w : world).
#[local] Instance ausf_peer : AusfStub calls := world_ausf w.
#[local] Instance smf_peer : SmfStub calls := world_smf w.
#[local] Instance ho_peers : Handover calls := world_handover w.

Lemma alike_amf_set guti f :
  alike (AmfShared.set_ctx garbage guti f) (Amf.ctx_set garbage guti f : prog (Amf.proc calls) unit).
Proof. apply amf_access. by intros []. Qed.

(** A client call that logs its calls at the end of the log. *)
Definition logs {A} (c : prog calls A) : Prop := forall n, c n = ((c []).1, n ++ (c []).2).

Lemma logs_bind {A B} (c : prog calls A) (k : A -> prog calls B) :
  logs c -> (forall a, logs (k a)) -> logs (x ← c; k x).
Proof.
  intros Hc Hk n. unfold mbind, prog_bind. rewrite (Hc n). destruct (c []) as [[a|f] es]; cbn [fst snd]; [|done].
  rewrite (Hk a (n ++ es)), (Hk a es). cbn. by rewrite app_assoc.
Qed.
Lemma logs_ret {A} (a : A) : logs (mret a).
Proof. intros n. cbn. by rewrite app_nil_r. Qed.
Lemma logs_call e : logs (log_call e).
Proof. done. Qed.

Lemma alike_net {A} (c : prog calls A) :
  logs c -> alike (AmfShared.on_net c) (Amf.on_net c : prog (Amf.proc calls) A).
Proof.
  intros Hc [a n o]. unfold as_prog, AmfShared.on_net, Amf.on_net. cbn [Amf.net view amf_process Amf.amf]. rewrite (Hc n).
  destruct (c []) as [r es]. cbn [fst snd].
  assert (exec (foldr (fun e k => Emit (inl e) k) (Finish r) es) a = (r, a, map inl es)) as ->
    by (induction es as [|e es IH]; [done | cbn; by rewrite IH]).
  assert (calls_of (map inl es) = es /\ frames_of (map inl es) = []) as [E1 E2]
    by (induction es as [|e es [IH1 IH2]]; [done | split; [exact (f_equal (cons e) IH1) | exact IH2]]).
  cbn [advance amf_process Amf.net Amf.out]. by rewrite E1, E2, app_nil_r.
Qed.

Lemma alike_server_snd fd p :
  alike (AmfShared.server_snd fd p) (Amf.server_snd fd p : prog (Amf.proc calls) unit).
Proof.
  apply alike_bind; [apply alike_finish | intros frame]. intros [a n o]. unfold as_prog. cbn. by rewrite app_nil_r.
Qed.
Lemma alike_get_guti p : alike (AmfShared.get_guti p) (Amf.get_guti p : prog (Amf.proc calls) Z).
Proof. apply alike_bind; [apply alike_finish | intros q]. by apply alike_look. Qed.
Lemma alike_guti_of p msg : alike (AmfShared.guti_of p msg) (Amf.guti_of p msg : prog (Amf.proc calls) Z).
Proof.
  apply alike_bind; [apply alike_get_guti | intros g]. apply alike_bind; [apply alike_check | intros _]. apply alike_ret.
Qed.
Lemma alike_rem_itfid mme : alike (AmfShared.rem_itfid mme) (Amf.rem_itfid mme : prog (Amf.proc calls) unit).
Proof. apply amf_access. by intros []. Qed.
Lemma alike_rem_ctx g : alike (AmfShared.rem_uectx g) (Amf.rem_uectx g : prog (Amf.proc calls) unit).
Proof. apply amf_access. by intros []. Qed.
Lemma alike_identity g : alike (AmfShared.new_identity g) (Amf.new_identity g : prog (Amf.proc calls) Z).
Proof. intros [[] n o]. unfold as_prog. cbn. by rewrite !app_nil_r. Qed.
Lemma alike_fixed {A} (f : Amf.AmfIds * string * string -> A) :
  alike (AmfShared.look AmfShared.Fixed f)
    (gets (fun p : Amf.proc calls => f (Amf.amf_ids (Amf.amf p), Amf.g_ausf_ip_addr (Amf.amf p), Amf.smf_amf_ip_addr (Amf.amf p)))).
Proof. by apply alike_look. Qed.

Lemma alike_s1_ip :
  alike (AmfShared.bare_look AmfShared.S1Ip) (gets (fun p : Amf.proc calls => Amf.g_upf_s1_ip_addr (Amf.amf p))).
Proof. by apply alike_look. Qed.
Lemma alike_s1_port :
  alike (AmfShared.bare_look AmfShared.S1Port) (gets (fun p : Amf.proc calls => Amf.g_upf_s1_port (Amf.amf p))).
Proof. by apply alike_look. Qed.
Lemma alike_set_s1_ip v :
  alike (AmfShared.bare_assign AmfShared.S1Ip v)
    (modify (Amf.on_amf (fun a => a <| Amf.g_upf_s1_ip_addr := v |>)) : prog (Amf.proc calls) unit).
Proof. apply amf_access. by intros []. Qed.
Lemma alike_same_s1_port {A} (k : unit -> AmfShared.acode A) (q : unit -> prog (Amf.proc calls) A) :
  (forall u, alike (k u) (q u)) ->
  alike (x ← AmfShared.bare_look AmfShared.S1Port; y ← AmfShared.bare_assign AmfShared.S1Port x; k y)
    (y ← modify (Amf.on_amf (fun a => a <| Amf.g_upf_s1_port := Amf.g_upf_s1_port a |>)); q y).
Proof. apply alike_split. intros [[] n o]. unfold as_prog. cbn. by rewrite !app_nil_r. Qed.

(** The statements that read again the context [c] a section has read. *)
Definition holds (guti : Z) (c : Amf.UeContext) (p : Amf.proc calls) : Prop :=
  Amf.ue_ctx (Amf.amf p) !! guti = Some c.

Lemma read_again {A B} guti c (k : AmfShared.acode B) (g : Amf.UeContext -> A) (q : A -> prog (Amf.proc calls) B) :
  alike_when (holds guti c) k (q (g c)) -> alike_when (holds guti c) k (x ← Amf.ctx_get garbage guti g; q x).
Proof.
  apply alike_when_known. intros [[? ? ? ctx ? ? ? ?] n o] Hc. unfold holds in Hc. cbn in Hc.
  unfold Amf.ctx_get, gets. run. amf_st. by rewrite (touch_id _ _ _ _ Hc), (at_or_Some _ _ _ _ Hc).
Qed.

Lemma alike_group_set {B} guti f (k : Amf.UeContext -> AmfShared.acode B) (q : unit -> prog (Amf.proc calls) B) :
  (forall c, alike_when (holds guti c) (k c) (q tt)) ->
  alike (c ← AmfShared.on_ctx garbage guti f (fun c => c); k c) (x ← Amf.ctx_set garbage guti f; q x).
Proof.
  intros H. eapply alike_then with (H := holds guti); [|done]. intros [a n o] c t es [= <- <- <-]. exists tt.
  split; [destruct a; cbn; by rewrite !app_nil_r|]. split; [|apply H].
  unfold holds. cbn. apply lookup_partial_alter_eq.
Qed.
Lemma alike_group_get {A B} guti (g : Amf.UeContext -> A) (k : Amf.UeContext -> AmfShared.acode B)
    (q : A -> prog (Amf.proc calls) B) :
  (forall c, alike_when (holds guti c) (k c) (q (g c))) ->
  alike (c ← AmfShared.read_ctx garbage guti; k c) (x ← Amf.ctx_get garbage guti g; q x).
Proof.
  intros H. eapply alike_then with (H := holds guti); [|done]. intros [a n o] c t es [= <- <- <-]. eexists.
  split; [|split; [|apply H]].
  - destruct a. unfold Amf.ctx_get, gets. run. amf_st. rewrite at_or_touch. cbn. by rewrite !app_nil_r.
  - unfold holds. cbn. apply lookup_partial_alter_eq.
Qed.

Lemma logs_ausf ch u p : logs (GreeterClient.AmfAusfInteraction ch u p).
Proof. apply logs_bind; [|intros [r|]; apply logs_ret]. apply logs_bind; [apply logs_call | intros; apply logs_ret]. Qed.
Lemma logs_create ch p : logs (GreeterClient.SessionCreationFC ch p).
Proof. apply logs_bind; [|intros [r|]; apply logs_ret]. apply logs_bind; [apply logs_call | intros; apply logs_ret]. Qed.
Lemma logs_modify ch p : logs (GreeterClient.ModifyBearerFC ch p).
Proof. apply logs_bind; [|intros [r|]; apply logs_ret]. apply logs_bind; [apply logs_call | intros; apply logs_ret]. Qed.
Lemma logs_detach ch p : logs (GreeterClient.DetachFC ch p).
Proof. apply logs_bind; [|intros [r|]; apply logs_ret]. apply logs_bind; [apply logs_call | intros; apply logs_ret]. Qed.
Lemma logs_connect ip port : logs (ho_ran_connect ip port).
Proof. apply logs_bind; [apply logs_call | intros; apply logs_ret]. Qed.
Lemma logs_rcv : logs n4_rcv.
Proof. apply (logs_ret (upf_says w)). Qed.

(** By the statement of the sequential handler. *)
Ltac logs_tac :=
  first [ apply logs_ausf | apply logs_create | apply logs_modify | apply logs_detach | apply logs_connect
        | apply logs_rcv | apply logs_call ].
Ltac amf_stmt :=
  lazymatch goal with
  | |- alike _ (lift _) => apply alike_finish
  | |- alike _ (mret _) => apply alike_ret
  | |- alike _ (if _ then lift _ else mret tt) => apply alike_check
  | |- alike _ (gets _) => first [apply alike_s1_ip | apply alike_s1_port | apply alike_fixed]
  | |- alike _ (Amf.ctx_set _ _ _) => apply alike_amf_set
  | |- alike _ (Amf.set_crypt_context _ _) => apply alike_amf_set
  | |- alike _ (Amf.set_integrity_context _ _) => apply alike_amf_set
  | |- alike _ (Amf.set_upf_info _ _) => apply alike_amf_set
  | |- alike (AmfShared.bare_assign AmfShared.S1Ip _) _ => apply alike_set_s1_ip
  | |- alike _ (Amf.get_guti _) => apply alike_get_guti
  | |- alike _ (Amf.guti_of _ _) => apply alike_guti_of
  | |- alike _ (Amf.new_identity _) => apply alike_identity
  | |- alike _ (Amf.server_snd _ _) => apply alike_server_snd
  | |- alike _ (Amf.rem_itfid _) => apply alike_rem_itfid
  | |- alike _ (Amf.rem_uectx _) => apply alike_rem_ctx
  | |- alike _ (Amf.on_net _) => apply alike_net; logs_tac
  end.
Ltac amf_again := repeat apply read_again; apply alike_when_any.
Ltac alike_amf :=
  repeat first
    [ progress cbv zeta
    | amf_stmt
    | lazymatch goal with
      | |- alike (match ?x with (_, _) => _ end) _ => destruct x
      | |- alike (if ?b then _ else _) _ => destruct b
      | |- alike _ (mbind _ (Amf.ctx_get _ _ _)) => apply alike_group_get; intros ?; amf_again
      | |- alike (mbind _ (AmfShared.on_ctx _ _ _ _)) (mbind _ (Amf.ctx_set _ _ _)) =>
          apply alike_group_set; intros ?; amf_again
      | |- alike (mbind _ (AmfShared.bare_look AmfShared.S1Port)) (mbind _ (modify _)) =>
          apply alike_same_s1_port; intros ?
      end
    | apply alike_bind; [solve [amf_stmt] | intros ?] ].

Lemma amf_alike_attach m x0 k0 fd p wid :
  alike (AmfShared.handle_initial_attach garbage w m x0 k0 fd p wid)
        (Amf.handle_initial_attach garbage m x0 k0 fd p wid).
Proof. unfold AmfShared.handle_initial_attach, Amf.handle_initial_attach. alike_amf. Qed.
Lemma amf_alike_autn fd p : alike (AmfShared.handle_autn garbage fd p) (Amf.handle_autn garbage fd p).
Proof. unfold AmfShared.handle_autn, Amf.handle_autn. alike_amf. Qed.
Lemma amf_alike_command fd p :
  alike (AmfShared.handle_security_mode_cmd garbage fd p) (Amf.handle_security_mode_cmd garbage fd p).
Proof. unfold AmfShared.handle_security_mode_cmd, Amf.handle_security_mode_cmd. alike_amf. Qed.
Lemma amf_alike_complete fd p :
  alike (AmfShared.handle_security_mode_complete garbage fd p) (Amf.handle_security_mode_complete garbage fd p).
Proof. unfold AmfShared.handle_security_mode_complete, Amf.handle_security_mode_complete. alike_amf. Qed.
Lemma amf_alike_location m p wid :
  alike (AmfShared.handle_location_update garbage w m p wid) (Amf.handle_location_update garbage m p wid).
Proof. unfold AmfShared.handle_location_update, Amf.handle_location_update. alike_amf. Qed.
Lemma amf_alike_session m fd p wid :
  alike (AmfShared.handle_create_session garbage w m fd p wid) (Amf.handle_create_session garbage m fd p wid).
Proof. unfold AmfShared.handle_create_session, Amf.handle_create_session. alike_amf. Qed.
Lemma amf_alike_attach_complete p :
  alike (AmfShared.handle_attach_complete garbage p) (Amf.handle_attach_complete garbage p).
Proof. unfold AmfShared.handle_attach_complete, Amf.handle_attach_complete. alike_amf. Qed.
Lemma amf_alike_modify m p wid :
  alike (AmfShared.handle_modify_bearer garbage w m p wid) (Amf.handle_modify_bearer garbage m p wid).
Proof. unfold AmfShared.handle_modify_bearer, Amf.handle_modify_bearer. alike_amf. Qed.
Lemma amf_alike_detach m fd p wid :
  alike (AmfShared.handle_detach garbage w m fd p wid) (Amf.handle_detach garbage m fd p wid).
Proof. unfold AmfShared.handle_detach, Amf.handle_detach. alike_amf. Qed.

Lemma alike_conn : alike (AmfShared.upf_client_conn inet_aton w) (Amf.upf_client_conn inet_aton).
Proof. unfold AmfShared.upf_client_conn, Amf.upf_client_conn. alike_amf. Qed.
Lemma alike_exchange dst p : alike (AmfShared.upf_client_exchange w dst p) (Amf.upf_client_exchange dst p).
Proof. unfold AmfShared.upf_client_exchange, Amf.upf_client_exchange. alike_amf. Qed.

Ltac alike_ho :=
  repeat first
    [ progress alike_amf
    | apply alike_bind; [first [apply alike_conn | apply alike_exchange] | intros ?] ].

Lemma alike_setup_tunnel p : alike (AmfShared.setup_indirect_tunnel inet_aton garbage w p) (Amf.setup_indirect_tunnel inet_aton garbage p).
Proof. unfold AmfShared.setup_indirect_tunnel, Amf.setup_indirect_tunnel. alike_ho. Qed.
Lemma alike_target p : alike (AmfShared.request_target_RAN garbage w p) (Amf.request_target_RAN garbage p).
Proof. unfold AmfShared.request_target_RAN, Amf.request_target_RAN. alike_ho. Qed.
Lemma alike_handover p : alike (AmfShared.handle_handover garbage w p) (Amf.handle_handover garbage p).
Proof. apply alike_bind; [apply alike_finish | intros ?]. apply alike_target. Qed.
Lemma alike_ho_complete p :
  alike (AmfShared.handle_handover_completion inet_aton garbage w p) (Amf.handle_handover_completion inet_aton garbage p).
Proof. unfold AmfShared.handle_handover_completion, Amf.handle_handover_completion. alike_ho. Qed.
Lemma alike_teardown_tunnel p :
  alike (AmfShared.teardown_indirect_tunnel inet_aton garbage w p) (Amf.teardown_indirect_tunnel inet_aton garbage p).
Proof. unfold AmfShared.teardown_indirect_tunnel, Amf.teardown_indirect_tunnel. alike_ho. Qed.

Ltac alike_case :=
  lazymatch goal with
  | |- alike _ (mret _) => apply alike_ret
  | |- alike _ (Amf.handle_initial_attach _ _ _ _ _ _ _) => apply amf_alike_attach
  | |- alike _ (Amf.handle_detach _ _ _ _ _) => apply amf_alike_detach
  | |- alike _ (Amf.handle_handover _ _) => apply alike_handover
  | |- alike _ (Amf.setup_indirect_tunnel _ _ _) => apply alike_setup_tunnel
  | |- alike _ (Amf.handle_handover_completion _ _ _) => apply alike_ho_complete
  | |- alike _ (Amf.teardown_indirect_tunnel _ _ _) => apply alike_teardown_tunnel
  | |- alike _ (mbind _ (Amf.handle_attach_complete _ _)) =>
      apply alike_bind; [apply amf_alike_attach_complete | intros ?; apply amf_alike_modify]
  | |- alike _ (mbind _ (Amf.handle_autn _ _ _)) =>
      apply alike_bind; [apply amf_alike_autn | intros b; destruct b; [apply amf_alike_command | apply alike_ret]]
  | |- alike _ (mbind _ (Amf.handle_security_mode_complete _ _ _)) =>
      apply alike_bind; [apply amf_alike_complete | intros b; destruct b; [|apply alike_ret]];
      apply alike_bind; [apply amf_alike_location | intros ?; apply amf_alike_session]
  end.

Lemma alike_dispatch m x0 k0 fd wid p :
  alike (AmfShared.dispatch inet_aton garbage w m x0 k0 fd wid p) (Amf.dispatch inet_aton garbage m x0 k0 fd wid p).
Proof.
  unfold AmfShared.dispatch, Amf.dispatch. destruct (_ =? 0); [|destruct (0 <? _); [|apply alike_ret]];
    repeat match goal with |- alike (match ?z with _ => _ end) _ => destruct z end; alike_case.
Qed.

Lemma alike_handle_ue m x0 k0 fd wid evs :
  alike (AmfShared.handle_ue inet_aton garbage h0 w m x0 k0 fd wid evs) (Amf.handle_ue inet_aton garbage h0 m x0 k0 fd wid evs).
Proof.
  unfold AmfShared.handle_ue, Amf.handle_ue. do 2 (apply alike_bind; [apply alike_finish | intros ?]).
  match goal with |- alike (match ?r with _ => _ end) _ => destruct r as [[[q ?] e]|] end; [|apply alike_ret].
  destruct (_ <=? 0); [apply alike_ret|]. apply alike_bind; [apply alike_finish | intros ?].
  apply alike_bind; [apply alike_dispatch | intros ?; apply alike_ret].
Qed.
End Alike.

(** ** Identities *)

(** What a thread does to the counter and the identifiers: it counts, and the
    number counted is its own until its next access, which enters it; it
    enters no other, and it may remove any. *)
Definition entry (own : option Z) (x : AmfShared.cell) :
    (AmfShared.val x -> AmfShared.val x) -> (option Z -> AmfShared.val x -> Prop) -> Prop :=
  match x with
  | AmfShared.Count => fun wr next =>
      own = None /\ forall v, wr v = u64 (v + 1) /\ next (Some (u32 (u64 (v + 1)))) v
  | AmfShared.Id i => fun wr next =>
      match own with
      | Some id => i = id /\ forall v, is_Some (wr v) /\ next None v
      | None => forall v, (wr v = v \/ wr v = None) /\ next None v
      end
  | _ => fun _ next => own = None /\ forall v, next None v
  end.

Fixpoint tame {A} (own : option Z) (c : AmfShared.acode A) : Prop :=
  match c with
  | Finish _ => own = None
  | Emit _ k => own = None /\ tame None k
  | At _ x wr k => entry own x wr (fun o v => tame o (k v))
  end.

Lemma entry_mono own x wr (R R' : option Z -> AmfShared.val x -> Prop) :
  entry own x wr R -> (forall o v, R o v -> R' o v) -> entry own x wr R'.
Proof.
  intros H HR. destruct x; cbn in *.
  - destruct H as [? H]. split; [done|]. intros v. by apply HR.
  - destruct H as [? H]. split; [done|]. intros v. destruct (H v). split; [done | by apply HR].
  - destruct own as [id|].
    + destruct H as [? H]. split; [done|]. intros v. destruct (H v). split; [done | by apply HR].
    + intros v. destruct (H v). split; [done | by apply HR].
  - destruct H as [? H]. split; [done|]. intros v. by apply HR.
  - destruct H as [? H]. split; [done|]. intros v. by apply HR.
  - destruct H as [? H]. split; [done|]. intros v. by apply HR.
Qed.

Lemma tame_bind {A B} own (c : AmfShared.acode A) (k : A -> AmfShared.acode B) :
  tame own c -> (forall a, tame None (k a)) -> tame own (x ← c; k x).
Proof.
  intros Hc Hk. revert own Hc. induction c as [[a|f]|m x wr g IH|e g IH]; intros own Hc.
  - cbn in Hc. subst. apply Hk.
  - exact Hc.
  - refine (entry_mono own x wr _ _ Hc _). intros o v H. by apply IH.
  - destruct Hc as [-> Hc]. split; [done|]. by apply IH.
Qed.

Section Tame.
Context `{CL : CryptoLib}.
Context (inet_aton : string -> option Z) (garbage : Z -> Amf.UeContext) (h0 : hdrs) (w : world).

Lemma tame_on_ctx {A} guti f (g : Amf.UeContext -> A) : tame None (AmfShared.on_ctx garbage guti f g).
Proof. done. Qed.
Lemma tame_fixed {A} (g : AmfShared.val AmfShared.Fixed -> A) : tame None (AmfShared.look AmfShared.Fixed g).
Proof. done. Qed.
Lemma tame_identity guti : tame None (AmfShared.new_identity guti).
Proof. split; [done|]. intros v. split; [done|]. split; [done|]. intros v'. by split. Qed.
Lemma tame_get_guti p : tame None (AmfShared.get_guti p).
Proof. unfold AmfShared.get_guti. destruct (Packet.copy p) as [q|f]; [|done]. intros v. split; [by left | done]. Qed.
Lemma tame_rem_itfid mme : tame None (AmfShared.rem_itfid mme).
Proof. intros v. split; [by right | done]. Qed.
Lemma tame_guti_of p msg : tame None (AmfShared.guti_of p msg).
Proof. apply tame_bind; [apply tame_get_guti | intros g]. by apply tame_bind. Qed.
Lemma tame_net {A} (c : prog calls A) : tame None (AmfShared.on_net c).
Proof. unfold AmfShared.on_net. by induction (c []).2 as [|e es IH]. Qed.
Lemma tame_server_snd fd p : tame None (AmfShared.server_snd fd p).
Proof. by apply tame_bind. Qed.

Ltac tame_tac :=
  repeat lazymatch goal with
  | |- tame _ (Finish _) => exact eq_refl
  | |- tame _ (mret _) => exact eq_refl
  | |- tame _ (mbind _ _) => apply tame_bind; [|intros ?]
  | |- tame _ (AmfShared.on_ctx _ _ _ _) => apply tame_on_ctx
  | |- tame _ (AmfShared.read_ctx _ _) => apply tame_on_ctx
  | |- tame _ (AmfShared.set_ctx _ _ _) => apply tame_on_ctx
  | |- tame _ (AmfShared.set_upf_info _ _) => apply tame_on_ctx
  | |- tame _ (AmfShared.set_crypt_context _ _) => apply tame_on_ctx
  | |- tame _ (AmfShared.set_integrity_context _ _) => apply tame_on_ctx
  | |- tame _ (AmfShared.rem_uectx _) => done
  | |- tame _ (AmfShared.look _ _) => done
  | |- tame _ (AmfShared.assign _ _) => done
  | |- tame _ (AmfShared.bare_look _) => done
  | |- tame _ (AmfShared.bare_assign _ _) => done
  | |- tame _ (AmfShared.new_identity _) => apply tame_identity
  | |- tame _ (AmfShared.get_guti _) => apply tame_get_guti
  | |- tame _ (AmfShared.guti_of _ _) => apply tame_guti_of
  | |- tame _ (AmfShared.rem_itfid _) => apply tame_rem_itfid
  | |- tame _ (AmfShared.on_net _) => apply tame_net
  | |- tame _ (AmfShared.server_snd _ _) => apply tame_server_snd
  | |- tame _ (match ?x with (_, _) => _ end) => destruct x
  | |- tame _ (if ?b then _ else _) => destruct b
  | |- tame _ (match ?x with _ => _ end) => destruct x
  | _ => progress cbv zeta
  end.

Lemma tame_dispatch m x0 k0 fd wid p : tame None (AmfShared.dispatch inet_aton garbage w m x0 k0 fd wid p).
Proof.
  unfold AmfShared.dispatch, AmfShared.handle_initial_attach, AmfShared.handle_autn, AmfShared.handle_security_mode_cmd,
    AmfShared.handle_security_mode_complete, AmfShared.handle_location_update, AmfShared.handle_create_session,
    AmfShared.handle_attach_complete, AmfShared.handle_modify_bearer, AmfShared.handle_detach, AmfShared.handle_handover,
    AmfShared.request_target_RAN, AmfShared.setup_indirect_tunnel, AmfShared.handle_handover_completion,
    AmfShared.teardown_indirect_tunnel, AmfShared.upf_client_conn, AmfShared.upf_client_exchange.
  tame_tac.
Qed.

Lemma tame_handle_ue m x0 k0 fd wid evs : tame None (AmfShared.handle_ue inet_aton garbage h0 w m x0 k0 fd wid evs).
Proof.
  unfold AmfShared.handle_ue. do 2 (apply tame_bind; [done | intros ?]).
  match goal with |- tame _ (match ?r with _ => _ end) => destruct r as [[[q ?] e]|] end; [|done].
  destruct (_ <=? 0); [done|]. apply tame_bind; [done | intros ?]. by apply tame_bind; [apply tame_dispatch | intros ?].
Qed.
End Tame.

(** The numbers given so far, those still to be entered, and the entries. *)
Record numbered {A} (owns : list (option Z)) (p : Threads.pool (T := Amf.t) (call + Z * list Z) A) : Prop := {
  nb_tame : Forall2 tame owns (threads p);
  nb_count : 0 <= Amf.ue_count (shared p);
  nb_entries : forall k g, Amf.s1amf_id (shared p) !! k = Some g -> 1 <= k <= Amf.ue_count (shared p);
  nb_owns : forall i k, owns !! i = Some (Some k) ->
    1 <= k <= Amf.ue_count (shared p) /\ Amf.s1amf_id (shared p) !! k = None;
  nb_distinct : forall i j k, owns !! i = Some (Some k) -> owns !! j = Some (Some k) -> i = j
}.

(** A number that was given and that no thread is about to enter. *)
Definition settled {A} (owns : list (option Z)) (p : Threads.pool (T := Amf.t) (call + Z * list Z) A) (k : Z) : Prop :=
  1 <= k <= Amf.ue_count (shared p) /\ forall i, owns !! i <> Some (Some k).

(** The entry of a settled number stays as it is, or is removed for good. *)
Definition keeps {A} (owns owns' : list (option Z)) (p p' : Threads.pool (T := Amf.t) (call + Z * list Z) A) : Prop :=
  forall k, settled owns p k -> settled owns' p' k /\
    (Amf.s1amf_id (shared p') !! k = Amf.s1amf_id (shared p) !! k \/ Amf.s1amf_id (shared p') !! k = None).

Section Numbered.
Context {A : Type}.
Implicit Types (p : Threads.pool (T := Amf.t) (call + Z * list Z) A).

Lemma keeps_refl owns p : keeps owns owns p p.
Proof. intros k Hk. split; [done | by left]. Qed.
Lemma keeps_trans o1 o2 o3 p1 p2 p3 : keeps o1 o2 p1 p2 -> keeps o2 o3 p2 p3 -> keeps o1 o3 p1 p3.
Proof.
  intros H12 H23 k Hk. destruct (H12 k Hk) as [Hk2 E]. destruct (H23 k Hk2) as [Hk3 E']. split; [done|].
  destruct E as [E|E], E' as [E'|E']; rewrite ?E', ?E; auto.
Qed.

(** What a thread owns after its turn. *)
Lemma owned_after (owns : list (option Z)) (i : nat) (o : option Z) (j : nat) k :
  <[i := o]> owns !! j = Some (Some k) -> j = i /\ o = Some k \/ j <> i /\ owns !! j = Some (Some k).
Proof.
  intros Hj. destruct (decide (j = i)) as [->|N]; [|rewrite list_lookup_insert_ne in Hj by done; by right].
  pose proof (lookup_lt_Some _ _ _ Hj) as Hlt. rewrite length_insert in Hlt.
  rewrite list_lookup_insert_eq in Hj by done. injection Hj as ->. by left.
Qed.

(** A turn with which an access begins. *)
Lemma numbered_begins owns p i own c l :
  numbered owns p -> owns !! i = Some own -> tame own c ->
  let p' := mk_pool (shared p) l (<[i := c]> (threads p)) in
  numbered owns p' /\ keeps owns owns p p'.
Proof.
  intros [H1 H2 H3 H4 H5] Hi Hc p'. split; [|intros k Hk; split; [exact Hk | by left]].
  split; try done. cbn [threads p']. rewrite <- (list_insert_id owns i own Hi). by apply Forall2_insert.
Qed.

(** A turn that leaves the counter alone, enters nothing but what the thread
    owns, and ends that. *)
Lemma numbered_quiet owns p i own c a l :
  numbered owns p -> owns !! i = Some own -> tame None c ->
  Amf.ue_count a = Amf.ue_count (shared p) ->
  (forall k, Amf.s1amf_id a !! k = Amf.s1amf_id (shared p) !! k \/ Amf.s1amf_id a !! k = None \/ own = Some k) ->
  let p' := mk_pool a l (<[i := c]> (threads p)) in
  numbered (<[i := None]> owns) p' /\ keeps owns (<[i := None]> owns) p p'.
Proof.
  intros [H1 H2 H3 H4 H5] Hi Hc Ea Hs p'.
  assert (forall j k, <[i := None]> owns !! j = Some (Some k) -> j <> i /\ owns !! j = Some (Some k)) as Ho
    by (intros j k [[_ [=]]|Hj]%owned_after; exact Hj).
  split; [split|]; cbn [shared threads p'].
  - by apply Forall2_insert.
  - by rewrite Ea.
  - intros k g Hk. rewrite Ea. destruct (Hs k) as [E|[E| ->]]; [apply (H3 k g); congruence | congruence | by apply (H4 i k)].
  - intros j k [N Hj]%Ho. rewrite Ea. destruct (H4 j k Hj) as [B F]. split; [done|].
    destruct (Hs k) as [E|[E| ->]]; [congruence | done | by destruct (N (H5 j i k Hj Hi))].
  - intros j j' k [_ Hj]%Ho [_ Hj']%Ho. by apply (H5 j j' k).
  - intros k [B N]. split; [split; [cbn; by rewrite Ea | by intros j [_ Hj%N]%Ho]|].
    destruct (Hs k) as [E|[E| ->]]; [by left | by right | by destruct (N i)].
Qed.

(** A turn that counts. *)
Lemma numbered_counts owns p i c l :
  let n := Amf.ue_count (shared p) + 1 in
  let p' := mk_pool ((shared p) <| Amf.ue_count := n |>) l (<[i := c]> (threads p)) in
  numbered owns p -> owns !! i = Some None -> tame (Some n) c ->
  numbered (<[i := Some n]> owns) p' /\ keeps owns (<[i := Some n]> owns) p p'.
Proof.
  intros n p' [H1 H2 H3 H4 H5] Hi Hc.
  assert (forall j k, <[i := Some n]> owns !! j = Some (Some k) ->
    j = i /\ k = n \/ owns !! j = Some (Some k) /\ k < n) as Ho.
  { intros j k [[-> [= <-]]|[_ Hj]]%owned_after; [by left | right]. split; [done|]. apply H4 in Hj. unfold n. lia. }
  assert (Amf.s1amf_id (shared p) !! n = None) as Hn.
  { destruct (Amf.s1amf_id (shared p) !! n) eqn:E; [|done]. apply H3 in E. unfold n in E. lia. }
  split; [split|]; cbn.
  - by apply Forall2_insert.
  - unfold n. lia.
  - intros k g Hk%H3. unfold n. lia.
  - intros j k [[-> ->]|[Hj Hk]]%Ho; [split; [unfold n; lia | done]|]. destruct (H4 j k Hj). split; [lia | done].
  - intros j j' k [[-> ->]|[Hj Hk]]%Ho [[-> Hk']|[Hj' Hk']]%Ho; [done | lia | lia | by apply (H5 j j' k)].
  - intros k [B N]. split; [split; [cbn; unfold n; lia|] | by left].
    intros j [[-> Hk]|[Hj _]]%Ho; [unfold n in Hk; lia | by apply (N j)].
Qed.

Ltac quiet owns i own :=
  exists (<[i := None]> owns); split; [apply Z.le_succ_diag_r|];
  apply (numbered_quiet owns _ i own); [done | done | done | done |].

Lemma numbered_turn owns p i p' :
  numbered owns p -> Amf.ue_count (shared p) < 2 ^ 32 - 1 -> turn i p = Ret p' ->
  exists owns', Amf.ue_count (shared p') <= Amf.ue_count (shared p) + 1 /\
    numbered owns' p' /\ keeps owns owns' p p'.
Proof.
  intros Hn Hb Ht. unfold turn in Ht.
  assert (p' = p -> exists owns', Amf.ue_count (shared p') <= Amf.ue_count (shared p) + 1 /\
    numbered owns' p' /\ keeps owns owns' p p') as Hid
    by (intros ->; exists owns; split; [lia | split; [done | apply keeps_refl]]).
  destruct (threads p !! i) as [c|] eqn:Hc; [|injection Ht as <-; by apply Hid].
  destruct (Forall2_lookup_r _ _ _ _ _ (nb_tame _ _ Hn) Hc) as (own & Ho & Htame).
  destruct c as [[r|f]|m x wr k|e k]; [injection Ht as <-; by apply Hid | discriminate Ht | |].
  - destruct (existsb _ _); [discriminate Ht|].
    assert (Ret (mk_pool (Threads.put (T := Amf.t) x (wr (Threads.get x (shared p))) (shared p)) (sent_log p)
              (<[i := k (Threads.get x (shared p))]> (threads p))) = Ret p' \/
      exists wr', p' = mk_pool (shared p) (sent_log p) (<[i := At (Bare wr' true) x wr k]> (threads p))) as [Hdo|(wr' & ->)].
    { destruct m as [wr'|wr' [|]]; [by left | by left | right]. exists wr'. by injection Ht as <-. }
    2: { exists owns. split; [cbn; lia|]. by apply (numbered_begins owns p i own). }
    clear Ht. injection Hdo as <-. destruct x as [| |id|g| |]; cbn [tame entry] in Htame.
    all: try (destruct Htame as [-> Htame]; quiet owns i (@None Z); intros k'; by left).
    + destruct Htame as [-> Htame]. destruct (Htame (Amf.ue_count (shared p))) as [Ew Hk].
      pose proof (nb_count _ _ Hn) as H0. rewrite u64_id, u32_id in Hk by lia. rewrite u64_id in Ew by lia.
      exists (<[i := Some (Amf.ue_count (shared p) + 1)]> owns).
      change (AmfShared.put AmfShared.Count ?v (shared p)) with ((shared p) <| Amf.ue_count := v |>).
      change (AmfShared.get AmfShared.Count (shared p)) with (Amf.ue_count (shared p)). rewrite Ew.
      split; [cbn; lia | by apply numbered_counts].
    + destruct own as [own|].
      * destruct Htame as [-> Htame]. destruct (Htame (Amf.s1amf_id (shared p) !! own)) as [_ Hk].
        quiet owns i (Some own). intros k'. cbn.
        destruct (decide (own = k')) as [->|N]; [by right; right | left; by rewrite lookup_partial_alter_ne].
      * destruct (Htame (Amf.s1amf_id (shared p) !! id)) as [Hw Hk]. quiet owns i (@None Z). intros k'. cbn.
        destruct (decide (id = k')) as [<-|N]; [|left; by rewrite lookup_partial_alter_ne].
        rewrite lookup_partial_alter_eq. destruct Hw; auto.
  - injection Ht as <-. destruct Htame as [-> Htame]. quiet owns i (@None Z). intros k'. by left.
Qed.

Lemma numbered_run sched : forall owns p p',
  numbered owns p -> Amf.ue_count (shared p) + Z.of_nat (length sched) < 2 ^ 32 - 1 -> run_pool sched p = Ret p' ->
  exists owns', Amf.ue_count (shared p') <= Amf.ue_count (shared p) + Z.of_nat (length sched) /\
    numbered owns' p' /\ keeps owns owns' p p'.
Proof.
  induction sched as [|i sched IH]; intros owns p p' Hn Hb Hr; cbn [run_pool] in Hr.
  - injection Hr as <-. exists owns. split; [cbn; lia | split; [done | apply keeps_refl]].
  - cbn [length] in *. rewrite Nat2Z.inj_succ in *. destruct (turn i p) as [q|f] eqn:Ht; [|discriminate Hr]. res.
    destruct (numbered_turn owns p i q Hn) as (o2 & C2 & N2 & K2); [lia | done |].
    destruct (IH o2 q p' N2) as (o3 & C3 & N3 & K3); [lia | done |].
    exists o3. split; [lia | split; [done | by eapply keeps_trans]].
Qed.
End Numbered.

(** A message that arrives on a connection of a worker thread; [aj_m],
    [aj_xres] and [aj_k_asme] are the uninitialised locals. *)
Record amf_job := mk_amf_job {
  aj_world : world;
  aj_m : GrpcPacket.t;
  aj_xres : Z;
  aj_k_asme : Z;
  aj_fd : Z;
  aj_wid : Z;
  aj_evs : list Network.event
}.

Section Identities.
Context `{CL : CryptoLib}.
Context (inet_aton : string -> option Z) (garbage : Z -> Amf.UeContext) (h0 : hdrs).

Definition amf_job_code (j : amf_job) : AmfShared.acode (option (Z * list Network.event)) :=
  AmfShared.handle_ue inet_aton garbage h0 (aj_world j) (aj_m j) (aj_xres j) (aj_k_asme j) (aj_fd j) (aj_wid j) (aj_evs j).

Lemma jobs_numbered a js :
  Amf.s1amf_id a = ∅ -> Amf.ue_count a = 0 ->
  numbered (map (fun _ => None) js) (start_pool a (map amf_job_code js)).
Proof.
  intros H1 H2.
  assert (forall i k, map (fun _ : amf_job => None : option Z) js !! i <> Some (Some k)) as Hn.
  { intros i k Hi. rewrite list_lookup_fmap in Hi. by destruct (js !! i). }
  assert (Forall2 tame (map (fun _ => None) js) (map amf_job_code js)) as Ht.
  { clear. induction js as [|j js IH]; [constructor|]. constructor; [|exact IH]. unfold amf_job_code. apply tame_handle_ue. }
  split; cbn [threads shared start_pool]; rewrite ?H2.
  - exact Ht.
  - lia.
  - intros k g. by rewrite H1, lookup_empty.
  - intros i k Hi. by destruct (Hn i k).
  - intros i j k Hi. by destruct (Hn i k).
Qed.

(** C11: every UE has an identity of its own, also among threads: let any number
    of worker threads serve a message each, whatever the messages and whatever
    the peers answer.  However they interleave, for the first 2^32 - 2 turns:
    the identities in the table are among the numbers given so far, the next
    one is not in use, and an entry that is there at one moment is at any later
    one the same or gone, never another subscriber's. *)
Theorem identities_are_fresh_in_threads a js sched sched' p p' :
  Amf.s1amf_id a = ∅ -> Amf.ue_count a = 0 ->
  Z.of_nat (length (sched ++ sched')) < 2 ^ 32 - 1 ->
  run_pool sched (start_pool a (map amf_job_code js)) = Ret p -> run_pool sched' p = Ret p' ->
  (forall k g, Amf.s1amf_id (shared p) !! k = Some g -> 1 <= k <= Amf.ue_count (shared p)) /\
  Amf.s1amf_id (shared p) !! u32 (u64 (Amf.ue_count (shared p) + 1)) = None /\
  (forall k g, Amf.s1amf_id (shared p) !! k = Some g ->
     Amf.s1amf_id (shared p') !! k = Some g \/ Amf.s1amf_id (shared p') !! k = None).
Proof.
  intros H1 H2 Hl E1 E2. rewrite length_app, Nat2Z.inj_add in Hl.
  destruct (numbered_run sched _ _ p (jobs_numbered a js H1 H2)) as (o1 & C1 & N1 & _);
    [cbn [shared start_pool]; lia | exact E1 |]. cbn [shared start_pool] in C1.
  destruct (numbered_run sched' o1 p p' N1) as (o2 & _ & _ & K2); [lia | exact E2 |].
  pose proof (nb_count _ _ N1) as H0. split; [exact (nb_entries _ _ N1)|]. split.
  - rewrite u64_id, u32_id by lia. destruct (Amf.s1amf_id (shared p) !! _) as [g|] eqn:E; [|done].
    apply (nb_entries _ _ N1) in E. lia.
  - intros k g Hk. destruct (K2 k) as [_ [E|E]]; [|left; congruence | by right].
    split; [by eapply nb_entries|]. intros i Hi. destruct (nb_owns _ _ N1 i k Hi). congruence.
Qed.
End Identities.

(** ** The detach accept leaves too early *)

Section Race.
Context `{CL : CryptoLib, LAWS : !CryptoLaws}.
Context (inet_aton : string -> option Z) (garbage : Z -> Amf.UeContext) (h0 : hdrs).

Lemma turn_guti_of {A} i sched (a : Amf.t) l (ts : list (AmfShared.acode A)) h pre post msg (k : Z -> AmfShared.acode A) guti :
  ts !! i = Some (x ← AmfShared.guti_of (rd h pre post) msg; k x) -> quiet i ts = true -> fits pre post ->
  Amf.s1amf_id a !! h_mme h = Some guti -> guti <> 0 ->
  run_pool (i :: sched) (mk_pool a l ts) = run_pool sched (mk_pool a l (<[i := k guti]> ts)).
Proof.
  intros Hi Hq Hf Hg Hz. unfold AmfShared.guti_of, AmfShared.get_guti in Hi. rewrite (copy_rd h pre post Hf) in Hi.
  change (AmfShared.get (AmfShared.Id (h_mme h)) a = Some guti) in Hg.
  change (ts !! i = Some (At (Locked false) (AmfShared.Id (h_mme h) : Threads.cell (T := Amf.t)) (fun v => v)
    (fun v => x ← (_ ← Finish (if default 0 v =? 0 then Utils.handle_type1_error (-1) msg else mret tt);
                   mret (default 0 v)); k x))) in Hi.
  change (i :: sched) with (replicate (cost (Locked false)) i ++ sched).
  rewrite (turn_at i sched a l ts _ _ _ _ Hi Hq). rewrite put_get.
  change (@Threads.get Amf.t AmfShared.amf_store (AmfShared.Id (h_mme h)) a) with (AmfShared.get (AmfShared.Id (h_mme h)) a).
  rewrite Hg. cbn [default from_option id]. by rewrite (proj2 (Z.eqb_neq guti 0) Hz).
Qed.

(** The request of [DetachFC], and its packet after the answer. *)
Lemma net_detach w ch g reply :
  let request := AmfSmfRequest.empty
    <| AmfSmfRequest.guti := s64 (GrpcPacket.guti g) |> <| AmfSmfRequest.msg_type := GrpcPacket.msg_type g |>
    <| AmfSmfRequest.eps_bearer_id := s64 (GrpcPacket.eps_bearer_id g) |>
    <| AmfSmfRequest.tai := s64 (GrpcPacket.tai g) |> in
  smf_says w ch request = Some reply ->
  AmfShared.on_net (GreeterClient.DetachFC (SS := world_smf w) ch g) =
  Emit (inl (AskSmf ch request)) (Finish (Ret (g <| GrpcPacket.res := AmfSmfReply.res reply |>))).
Proof.
  intros request E. unfold AmfShared.on_net, GreeterClient.DetachFC. cbv zeta. fold request.
  unfold call_AmfSmfInteraction, world_smf. by rewrite E.
Qed.

Lemma guti_of_starts {A} h pre post msg (k : Z -> AmfShared.acode A) :
  fits pre post -> in_flight (x ← AmfShared.guti_of (rd h pre post) msg; k x) = false.
Proof. intros Hf. unfold AmfShared.guti_of, AmfShared.get_guti. by rewrite (copy_rd h pre post Hf). Qed.

(** The request of [SessionCreationFC] leaves, and the packet comes back. *)
Lemma net_create w ch g : exists call g',
  AmfShared.on_net (GreeterClient.SessionCreationFC (SS := world_smf w) ch g) = Emit (inl call) (Finish (Ret g')).
Proof.
  unfold AmfShared.on_net, GreeterClient.SessionCreationFC, call_AmfSmfInteraction, world_smf. cbv zeta.
  match goal with |- context [smf_says w ch ?r] => destruct (smf_says w ch r) end; by do 2 eexists.
Qed.

(** C13: create sessions race in the AMF: when the SMF has answered,
    [handle_create_session] writes the address of the UPF into a global
    [std::string] without a mutex.  Let two worker threads create sessions, for
    any two UEs that the AMF knows, whatever the SMF answers: if the first is in
    the middle of that assignment when the second begins it, the process has a
    data race, which is undefined behaviour. *)
Theorem session_requests_race w w' m m' fd fd' wid wid' h h' pre post pre' post' guti guti' cteid cteid' a sched :
  fits pre post -> fits pre' post' ->
  Amf.s1amf_id a !! h_mme h = Some guti -> Amf.s1amf_id a !! h_mme h' = Some guti' ->
  guti <> 0 -> guti' <> 0 -> get_s11cteid guti = Ret cteid -> get_s11cteid guti' = Ret cteid' ->
  run_pool (replicate 5 0 ++ replicate 5 1 ++ [0; 1] ++ sched)%nat (start_pool a
    [AmfShared.handle_create_session garbage w m fd (rd h pre post) wid;
     AmfShared.handle_create_session garbage w' m' fd' (rd h' pre' post') wid']) = Fault data_race.
Proof.
  intros Hf Hf' Hg Hg' Hn Hn' Hc Hc'. unfold start_pool, AmfShared.handle_create_session.
  known ltac:(by apply copy_rd). known ltac:(by apply copy_rd). cbn [replicate app].
  match goal with |- context [[_; mbind ?k _]] =>
    pose proof (guti_of_starts h' pre' post' "Zero guti: amf_handlecreatesession" k Hf') as Hs end.
  erewrite turn_guti_of; [|reflexivity|others|exact Hf|exact Hg|exact Hn]. cbn [insert list_insert].
  last_turn. known ltac:(exact Hc). last_turn. known ltac:(apply clear_pkt_rd, rd_length, Hf).
  last_turn. rewrite put_get.
  lazymatch goal with |- context [AmfShared.on_net ?c] =>
    assert (exists e g, AmfShared.on_net c = Emit (inl e) (Finish (Ret g))) as (r & g' & ->)
      by apply (net_create w) end.
  erewrite turn_event by reflexivity. cbn [insert list_insert].
  erewrite turn_guti_of; [|reflexivity|others|exact Hf'|exact Hg'|exact Hn']. cbn [insert list_insert].
  last_turn. known ltac:(exact Hc'). last_turn. known ltac:(apply clear_pkt_rd, rd_length, Hf').
  last_turn. rewrite put_get.
  lazymatch goal with |- context [AmfShared.on_net ?c] =>
    assert (exists e g, AmfShared.on_net c = Emit (inl e) (Finish (Ret g))) as (r' & g'' & ->)
      by apply (net_create w') end.
  erewrite turn_event by reflexivity. cbn [insert list_insert].
  erewrite turn_begin; [|reflexivity|reflexivity]. cbn [insert list_insert].
  eapply turn_race; [reflexivity|]. cbn [delete list_delete existsb clashes writing].
  by rewrite bool_decide_eq_true_2.
Qed.

(** The detach accept, up to the frame. *)
Lemma accept_code wire' h k k' fd (p : Packet.t) {A} (f : Z -> AmfShared.acode A) :
  sealed (enc_items [IBool true]) wire' -> length (Packet.data p) = Z.to_nat BUF_SIZE -> hdrs_of p = h ->
  (pkt ← Finish (Packet.clear_pkt p);
   pkt ← Finish (Packet.append_items pkt [IBool true]);
   pkt ← Finish (protect pkt k k');
   pkt ← Finish (Amf.s1ap_reply pkt 5);
   _ ← AmfShared.server_snd fd pkt; f (S1ap.mme_s1ap_ue_id (Packet.s1ap_hdr pkt))) =
  Emit (inr (fd, frame (S1ap.to_bytes (answer_hdr h 5 (len wire') (h_enb h) (h_mme h)) ++ wire'))) (f (u32 (h_mme h))).
Proof.
  intros Hs Hp <-. known ltac:(by apply clear_pkt_rd). known ltac:(apply append_items_rd; vm_compute; discriminate). cbn [app].
  pose proof (len_sealed _ _ Hs) as Hw. change (enc_size (len (enc_items [IBool true]))) with 16 in Hw.
  destruct (protect_rd (hdrs_of p) (enc_items [IBool true]) wire' k k' Hs)
    as (x & y & -> & Hx & E); [vm_compute; discriminate|]. rewrite len_app in Hw.
  known ltac:(exact E). unfold Amf.s1ap_reply. known ltac:(apply prepend_s1ap_hdr_rd; unfold BUF_SIZE; lia).
  unfold AmfShared.server_snd. rewrite framed_bytes_rd by (unfold BUF_SIZE; len_lia).
  cbn [Packet.plen rd rdl]. rewrite <- app_assoc. reflexivity.
Qed.

(** The attach request alone. *)
Lemma attach_alone w m x0 k0 fd wid hd n ta ksi cap a ch reply :
  readable wid hd (enc_items (attach_items n ta ksi cap)) -> 0 <= n < 10000 ->
  S1ap.mme_s1ap_ue_id hd = 0 -> S1ap.msg_type hd = 1 ->
  Amf.amf_ids a = Amf.mk_ids 1 1 11 1 1 11 1111 -> Amf.ausf_channel_of (Amf.g_ausf_ip_addr a) wid = Ret ch ->
  (forall r, ausf_says w ch r = Some reply) ->
  let mme := u32 (u64 (Amf.ue_count a + 1)) in
  exists c es fr,
    exec (AmfShared.dispatch inet_aton garbage w m x0 k0 fd wid (s1ap_pkt (received h0 hd) (enc_items (attach_items n ta ksi cap)))) a =
      (Ret tt, a <| Amf.ue_count := u64 (Amf.ue_count a + 1) |>
                 <| Amf.s1amf_id := <[mme := deployed_guti n]> (Amf.s1amf_id a) |>
                 <| Amf.ue_ctx := <[deployed_guti n := c]> (Amf.ue_ctx a) |>,
       es) /\
    frames_of es = [(fd, fr)] /\
    s1ap_msg 1 (S1ap.enodeb_s1ap_ue_id hd) mme
      (enc_items [IU64 (u64 (AmfAusfReply.autn_num reply)); IU64 (u64 (AmfAusfReply.rand_num reply)); IU64 1]) fr.
Proof.
  intros (Hwid & Hw & Hf) Hn Hmme Hty Hids Hch Hrep mme.
  destruct a as [ids cnt s1 ctx ai si ip port]. cbn [Amf.amf_ids Amf.ue_count Amf.g_ausf_ip_addr] in *. subst ids.
  set (ids := Amf.mk_ids 1 1 11 1 1 11 1111) in *.
  set (c0 := at_or (Amf.new_ctx garbage (deployed_guti n)) ctx (deployed_guti n)).
  set (g := attach_gpkt ids m (deployed_imsi n) (Amf.nw_type c0)).
  assert (exists req, @GreeterClient.AmfAusfInteraction calls (world_ausf w) ch "AMF" g [] =
    (Ret (AmfAusfReply.message reply,
       g <| GrpcPacket.autn_num := u64 (AmfAusfReply.autn_num reply) |>
         <| GrpcPacket.rand_num := u64 (AmfAusfReply.rand_num reply) |>
         <| GrpcPacket.xres := u64 (AmfAusfReply.xres reply) |>
         <| GrpcPacket.k_asme := u64 (AmfAusfReply.k_asme reply) |>), [AskAusf ch req])) as [req Hnet].
  { eexists. unfold GreeterClient.AmfAusfInteraction, call_AmfAusfInteraction, world_ausf. cbv zeta.
    match goal with |- context [ausf_says w ch ?r] => rewrite (Hrep r) end. reflexivity. }
  pose proof (@initial_attach_run calls (world_ausf w) garbage ids ai si m x0 k0 fd (received h0 hd)
    (S1ap.to_bytes hd) wid (deployed_imsi n) ta ksi cap (deployed_guti n) ch _ _ _ cnt s1 ctx
    ip port [] [] Hf ltac:(unfold deployed_imsi; lia) (get_guti_deployed n ltac:(lia)) Hch Hnet) as E.
  rewrite <- (@dispatch_new calls (world_ausf w) (world_smf w) (world_handover w) CL inet_aton garbage h0 m x0 k0 fd wid hd
    _ _ Hmme Hty) in E.
  destruct (exec_of_prog _ _ _ _ _ (alike_dispatch inet_aton garbage w m x0 k0 fd wid _) E) as (t & es & X & Es).
  injection Es as <- _ Efr. eexists _, es, _. split; [exact X|]. split; [symmetry; exact Efr|].
  pose proof (answer_msg (received h0 hd) 1 24 (h_enb (received h0 hd)) mme) as A.
  replace (u32 (h_enb (received h0 hd))) with (S1ap.enodeb_s1ap_ue_id hd) in A by (symmetry; apply Hw).
  assert (u32 mme = mme) as Em by apply u32_idem. rewrite Em in A. by apply A.
Qed.

(** It starts with an access that has not begun. *)
Lemma attach_starts w m x0 k0 fd wid hd n ta ksi cap :
  readable wid hd (enc_items (attach_items n ta ksi cap)) -> S1ap.mme_s1ap_ue_id hd = 0 -> S1ap.msg_type hd = 1 ->
  in_flight (AmfShared.dispatch inet_aton garbage w m x0 k0 fd wid
    (s1ap_pkt (received h0 hd) (enc_items (attach_items n ta ksi cap)))) = false.
Proof.
  intros (_ & _ & Hf) Hmme Hty. unfold AmfShared.dispatch.
  change (Packet.s1ap_hdr (s1ap_pkt (received h0 hd) ?x)) with hd. rewrite Hmme, Hty. cbn [Z.eqb].
  unfold AmfShared.handle_initial_attach, s1ap_pkt. known ltac:(by apply copy_rd). unfold attach_items. cbn [enc_items enc_item].
  known ltac:(apply extract_uint64_rd). known ltac:(apply extract_uint64_rd). known ltac:(apply extract_uint64_rd).
  by known ltac:(apply extract_uint16_rd).
Qed.

(** The detach request in its turns: five up to the answer, two after it. *)
Lemma detach_turns w m x0 k0 fd wid hd wire n c ksi ty a reply l (other : AmfShared.acode unit) :
  readable wid hd wire -> sealed (enc_items (detach_items (deployed_guti n) ksi ty)) wire ->
  registered a hd n c -> S1ap.msg_type hd = 5 ->
  (forall ch r, smf_says w ch r = Some reply) -> AmfSmfReply.res reply = true -> in_flight other = false ->
  exists wire' ask fr,
    sealed (enc_items [IBool true]) wire' /\
    s1ap_msg 5 (S1ap.enodeb_s1ap_ue_id hd) (S1ap.mme_s1ap_ue_id hd) wire' fr /\
    forall sched,
    run_pool (replicate 5 0%nat ++ sched) (mk_pool a l
      [AmfShared.dispatch inet_aton garbage w m x0 k0 fd wid (s1ap_pkt (received h0 hd) wire); other]) =
    run_pool sched (mk_pool a (l ++ [(0%nat, inl ask); (0%nat, inr (fd, fr))])
      [(_ ← AmfShared.rem_itfid (S1ap.mme_s1ap_ue_id hd); AmfShared.rem_uectx (deployed_guti n)); other]).
Proof.
  intros (Hwid & Hw & Hf) Hs R Hty Hrep Hres Ho.
  destruct (known_identity a hd n c R Hw) as (Hpos & Hu & Hg). destruct R as (Hn & _ & Hid & Hctx).
  destruct (sealed_exists (enc_items [IBool true])) as [wire' Hs'].
  exists wire'. eexists _, _. split; [exact Hs'|]. split; [by apply (answer_frame h0 hd 5 (len wire') wire')|].
  intros sched.
  assert (AmfShared.dispatch inet_aton garbage w m x0 k0 fd wid (s1ap_pkt (received h0 hd) wire) =
    AmfShared.handle_detach garbage w m fd (rd (received h0 hd) (S1ap.to_bytes hd) wire) wid) as ->.
  { unfold AmfShared.dispatch. change (Packet.s1ap_hdr (s1ap_pkt (received h0 hd) wire)) with hd.
    by rewrite (proj2 (Z.eqb_neq _ _)), (proj2 (Z.ltb_lt _ _)), Hty by lia. }
  unfold AmfShared.handle_detach. known ltac:(by apply copy_rd). cbn [replicate app].
  erewrite turn_guti_of; [|reflexivity|others|exact Hf|exact Hid|exact Hg]. cbn [insert list_insert].
  assert (Threads.get (T := Amf.t) (AmfShared.Ctx (deployed_guti n)) a = Some c) as G1 by exact Hctx.
  unfold AmfShared.read_ctx, AmfShared.ctx_access. do 1 look_turn.
  known ltac:(apply unprotect_rd; [exact Hs | apply bytes_enc_items | exact Hf]).
  assert (bytes (enc_items (detach_items (deployed_guti n) ksi ty))) as _ by apply bytes_enc_items.
  unfold detach_items. cbn [enc_items].
  known ltac:(apply extract_uint64_rd; len_lia). known ltac:(apply extract_uint64_rd; len_lia).
  known ltac:(apply extract_uint64_rd; len_lia).
  look_turn. assert (u64 (deployed_guti n) = deployed_guti n) as -> by (apply u64_id; unfold deployed_guti; lia).
  erewrite (net_detach w); [|apply Hrep]. erewrite turn_event by reflexivity. cbn [insert list_insert].
  lazymatch goal with |- context [if GrpcPacket.res ?g then _ else _] =>
    change (GrpcPacket.res g) with (AmfSmfReply.res reply) end.
  rewrite Hres.
  match goal with |- context [Finish (Packet.clear_pkt ?p)] =>
    pose proof (accept_code wire' (received h0 hd) (Amf.k_nas_enc c) (Amf.k_nas_int c) fd p
      (fun mme => _ ← AmfShared.rem_itfid mme; AmfShared.rem_uectx (deployed_guti n)) Hs'
      ltac:(apply rd_length; unfold fits, BUF_SIZE; len_lia) eq_refl) as Ea end.
  rewrite Ea. erewrite turn_event by reflexivity. cbn [insert list_insert]. rewrite <- app_assoc. cbn [app].
  change (h_mme (received h0 hd)) with (S1ap.mme_s1ap_ue_id hd). by rewrite Hu.
Qed.
(** C14: the detach accept leaves too early: [handle_detach] answers before it
    removes the identity and the context.  Let a registered subscriber detach
    and, as soon as the accept is there, attach again, which another worker
    thread serves before the first one goes on.  Both requests are answered, the
    accept and the challenge are on the wire, and the new identity is in the
    table; but the first thread has then removed the context of the new
    registration, which is filed under the same GUTI: what the AMF reads of the
    subscriber from then on is the context of nobody, with the IMSI 0 and the
    key 0 for its key set. *)
Theorem amf_detach_answers_too_early w w' m m' x0 x0' k0 k0' fd fd' wid wid' hd hd' wire n c ksi ty ta ksi' cap a ch reply reply' :
  readable wid hd wire -> sealed (enc_items (detach_items (deployed_guti n) ksi ty)) wire ->
  registered a hd n c -> S1ap.msg_type hd = 5 -> S1ap.mme_s1ap_ue_id hd <= Amf.ue_count a < 2 ^ 32 - 1 ->
  (forall ch r, smf_says w ch r = Some reply) -> AmfSmfReply.res reply = true ->
  readable wid' hd' (enc_items (attach_items n ta ksi' cap)) ->
  S1ap.mme_s1ap_ue_id hd' = 0 -> S1ap.msg_type hd' = 1 ->
  Amf.amf_ids a = Amf.mk_ids 1 1 11 1 1 11 1111 -> Amf.ausf_channel_of (Amf.g_ausf_ip_addr a) wid' = Ret ch ->
  (forall r, ausf_says w' ch r = Some reply') ->
  let mme := Amf.ue_count a + 1 in
  exists k p wire' accept challenge,
    run_pool (replicate 5 0 ++ replicate k 1 ++ [0; 0])%nat
      (start_pool a
        [AmfShared.dispatch inet_aton garbage w m x0 k0 fd wid (s1ap_pkt (received h0 hd) wire);
         AmfShared.dispatch inet_aton garbage w' m' x0' k0' fd' wid'
           (s1ap_pkt (received h0 hd') (enc_items (attach_items n ta ksi' cap)))]) = Ret p /\
    threads p = [Finish (Ret tt); Finish (Ret tt)] /\
    frames_of (map snd (sent_log p)) = [(fd, accept); (fd', challenge)] /\
    sealed (enc_items [IBool true]) wire' /\
    s1ap_msg 5 (S1ap.enodeb_s1ap_ue_id hd) (S1ap.mme_s1ap_ue_id hd) wire' accept /\
    s1ap_msg 1 (S1ap.enodeb_s1ap_ue_id hd') mme
      (enc_items [IU64 (u64 (AmfAusfReply.autn_num reply')); IU64 (u64 (AmfAusfReply.rand_num reply')); IU64 1]) challenge /\
    Amf.s1amf_id (shared p) !! mme = Some (deployed_guti n) /\
    Amf.ue_ctx (shared p) !! deployed_guti n = None /\
    result_of (AmfShared.read_ctx garbage (deployed_guti n)) (shared p) =
      Ret (Amf.new_ctx garbage (deployed_guti n)) /\
    Amf.imsi (Amf.new_ctx garbage (deployed_guti n)) = 0 /\ Amf.k_asme (Amf.new_ctx garbage (deployed_guti n)) = 0.
Proof.
  intros Hr Hs R Hty Hc Hrep Hres Hr' Hmme Hty' Hids Hch Hrep' mme.
  destruct (known_identity a hd n c R (proj1 (proj2 Hr))) as (Hpos & _ & _).
  destruct (attach_alone w' m' x0' k0' fd' wid' hd' n ta ksi' cap a ch reply' Hr' ltac:(apply R) Hmme Hty' Hids Hch Hrep')
    as (c1 & es & fr & X & Ef & Em).
  assert (u32 (u64 (Amf.ue_count a + 1)) = mme) as Emme by (rewrite u64_id, u32_id; unfold mme; lia).
  assert (u64 (Amf.ue_count a + 1) = mme) as E64 by (apply u64_id; unfold mme; lia).
  rewrite Emme, E64 in *.
  match type of X with exec ?c _ = _ => set (att := c) in * end.
  destruct (detach_turns w m x0 k0 fd wid hd wire n c ksi ty a reply [] att Hr Hs R Hty Hrep Hres
    (attach_starts w' m' x0' k0' fd' wid' hd' n ta ksi' cap Hr' Hmme Hty')) as (wire' & ask & acc & Hw & Ha & E).
  exists (turns att a). unfold start_pool. rewrite E. rewrite run_alone by reflexivity.
  unfold final, events, result_of. rewrite X. cbn [fst snd insert list_insert].
  last_turn. do 4 eexists. split; [reflexivity|]. split; [reflexivity|]. cbn [shared sent_log].
  split; [|do 3 (split; [eassumption|]); split; [|repeat split]].
  - rewrite map_app, map_map, map_id. unfold frames_of in *. rewrite omap_app. cbn. by rewrite Ef.
  - cbn. rewrite lookup_partial_alter_ne, lookup_insert_eq by (unfold mme; lia). done.
  - cbn. by rewrite lookup_partial_alter_eq.
  - unfold result_of. cbn. by rewrite lookup_partial_alter_eq.
Qed.
End Race.

(** ** Witnesses *)

(** The AUSF answers a challenge and the SMF accepts, whatever is asked. *)
Definition demo_world : world := {|
  ausf_says _ _ := Some (AmfAusfReply.mk "" 3 4 5 6 0 0);
  smf_says _ _ := Some (AmfSmfReply.empty <| AmfSmfReply.res := true |>);
  upf_says := UdpClient.Timeout;
  ran_fd _ _ := 9
|}.

Definition demo_attach_job (n fd : Z) : amf_job :=
  mk_amf_job demo_world no_grpc 111 222 fd 0 (segment (demo_hd 1 0) (enc_items (attach_items n 1 7 5))).
Definition demo_attach_jobs : list amf_job := [demo_attach_job 1 5; demo_attach_job 2 6].
Definition demo_attach_pool := start_pool demo_amf (map (amf_job_code core_aton amf_garbage zero_hdrs) demo_attach_jobs).

Lemma identities_are_fresh_in_threads_witness :
  exists p p',
    run_pool (concat (replicate 4 [0; 1]%nat)) demo_attach_pool = Ret p /\
    run_pool (concat (replicate 9 [1; 0]%nat)) p = Ret p' /\
    Amf.s1amf_id (shared p) !! 1 = Some (deployed_guti 1) /\
    Amf.s1amf_id (shared p) !! u32 (u64 (Amf.ue_count (shared p) + 1)) = None /\
    (Amf.s1amf_id (shared p') !! 1 = Some (deployed_guti 1) \/ Amf.s1amf_id (shared p') !! 1 = None).
Proof.
  assert (match run_pool (concat (replicate 4 [0; 1]%nat)) demo_attach_pool with
          | Ret p => (Amf.s1amf_id (shared p) !! 1,
                      match run_pool (concat (replicate 9 [1; 0]%nat)) p with Ret _ => true | Fault _ => false end)
          | Fault _ => (None, false)
          end = (Some (deployed_guti 1), true)) as H by (vm_compute; reflexivity).
  destruct (run_pool (concat (replicate 4 _)) demo_attach_pool) as [p|f] eqn:E1; [|discriminate H].
  destruct (run_pool (concat (replicate 9 _)) p) as [p'|f] eqn:E2; [|discriminate H]. injection H as H.
  destruct (identities_are_fresh_in_threads core_aton amf_garbage zero_hdrs demo_amf demo_attach_jobs
    (concat (replicate 4 [0; 1]%nat)) (concat (replicate 9 [1; 0]%nat)) p p' eq_refl eq_refl eq_refl E1 E2) as (_ & F & K).
  exists p, p'. split; [reflexivity|]. split; [exact E2|]. split; [exact H|]. split; [exact F | exact (K 1 _ H)].
Defined.

Definition demo_two : Amf.t := demo_amf
  <| Amf.s1amf_id := <[1 := deployed_guti 1]> (<[2 := deployed_guti 2]> (Amf.s1amf_id demo_amf)) |>.
Lemma session_requests_race_witness :
  run_pool (replicate 5 0 ++ replicate 5 1 ++ [0; 1] ++ [])%nat (start_pool demo_two
    [AmfShared.handle_create_session amf_garbage demo_world no_grpc 5 (rd (received zero_hdrs (demo_hd 3 1)) [] []) 0;
     AmfShared.handle_create_session amf_garbage demo_world no_grpc 6 (rd (received zero_hdrs (demo_hd 3 2)) [] []) 1]) =
  Fault data_race.
Proof.
  apply (session_requests_race amf_garbage demo_world demo_world no_grpc no_grpc 5 6 0 1 _ _ [] [] [] []
    (deployed_guti 1) (deployed_guti 2) 1 2 demo_two []).
  - by vm_compute.
  - by vm_compute.
  - by vm_compute.
  - by vm_compute.
  - by vm_compute.
  - by vm_compute.
  - by vm_compute.
  - by vm_compute.
Defined.

(** Subscriber 1 detaches and attaches again. *)
Lemma amf_detach_answers_too_early_witness :
  exists k p,
    run_pool (replicate 5 0 ++ replicate k 1 ++ [0; 0])%nat
      (start_pool (Amf.amf demo_attached)
        [AmfShared.dispatch core_aton amf_garbage demo_world no_grpc 111 222 5 0
           (s1ap_pkt (received zero_hdrs (demo_hd 5 7)) (toy_wire (enc_items (detach_items (deployed_guti 1) 1 1))));
         AmfShared.dispatch core_aton amf_garbage demo_world no_grpc 111 222 6 1
           (s1ap_pkt (received zero_hdrs (demo_hd 1 0)) (enc_items (attach_items 1 1 7 5)))]) = Ret p /\
    Amf.s1amf_id (shared p) !! 8 = Some (deployed_guti 1) /\
    Amf.ue_ctx (shared p) !! deployed_guti 1 = None.
Proof.
  destruct (amf_detach_answers_too_early core_aton amf_garbage zero_hdrs demo_world demo_world no_grpc no_grpc
    111 111 222 222 5 6 0 1 (demo_hd 5 7) (demo_hd 1 0) (toy_wire (enc_items (detach_items (deployed_guti 1) 1 1)))
    1 demo_ue 1 1 1 7 5 (Amf.amf demo_attached) "172.18.0.3:50051" (AmfSmfReply.empty <| AmfSmfReply.res := true |>)
    (AmfAusfReply.mk "" 3 4 5 6 0 0)) as (k & p & wire' & acc & ch & E & _ & _ & _ & _ & _ & I & C & _).
  - by repeat split.
  - apply toy_sealed.
  - by repeat split.
  - reflexivity.
  - cbn. lia.
  - reflexivity.
  - reflexivity.
  - by repeat split.
  - reflexivity.
  - reflexivity.
  - reflexivity.
  - reflexivity.
  - reflexivity.
  - exists k, p. split; [exact E|]. split; [exact I | exact C].
Defined.
