(* ===== verification/AmfApart.v ===== *)
(** * AmfApart: the AMF's threads do not disturb each other

    A thread that serves a message of an attached UE touches the UE's context
    and its entry of the identifiers, and leaves the other cells as they are;
    the globals [g_upf_s1_ip_addr] and [g_upf_s1_port], which nothing protects,
    are assigned the values they have when the SMF names the UPF the AMF knows.
    So, however the threads of different UEs interleave, each does what it
    does alone, unless two of them create a session and race for the globals. *)

From Stdlib Require Import ZArith Lia Ascii String.
From S2P Require Import Prelude Utils Threads Telecom Headers Packet Network Transport Security Messages.
From S2P Require Import Ausf Upf Smf Amf Core Attach AmfThreads.

(** ** What a handler touches *)

Section Footprints.
Context `{CL : CryptoLib, LAWS : !CryptoLaws}.
Context (inet_aton : string -> option Z) (garbage : Z -> Amf.UeContext) (w : world).
Context (a : Amf.t) (mme guti : Z) (h : hdrs) (pre post : list Z).
Hypothesis Hid : Amf.s1amf_id a !! mme = Some guti.
Hypothesis Hnz : guti <> 0.
Hypothesis Hmme : h_mme h = mme.
Hypothesis Hu : u32 mme = mme.
Hypothesis Hf : fits pre post.

(** [ss]: the message creates a session, with the globals, which are the
    objects 4 and 5. *)
Definition ue_reads (ss : bool) : list AmfShared.cell :=
  AmfShared.Fixed :: AmfShared.Id mme :: (if ss then [AmfShared.S1Ip; AmfShared.S1Port] else []).
Definition ue_bare (ss : bool) : list nat := if ss then [4; 5]%nat else [].
Context (ss : bool).
Let keeps (wr : list AmfShared.cell) {A} (c : AmfShared.acode A) : Prop :=
  keeps_to (ST := AmfShared.amf_store) (AmfShared.Ctx guti) (ue_reads ss) (ue_bare ss) (ue_bare ss) wr c a.

Lemma keeps_guti wr {A} msg (k : Z -> AmfShared.acode A) :
  keeps wr (k guti) -> keeps wr (x ← AmfShared.guti_of (rd h pre post) msg; k x).
Proof.
  intros Hk. unfold AmfShared.guti_of, AmfShared.get_guti. rewrite (copy_rd h pre post Hf).
  unfold keeps. cbn [keeps_to mbind code_bind AmfShared.look access reading].
  rewrite decide_False by discriminate.
  replace (S1ap.mme_s1ap_ue_id (Packet.s1ap_hdr (rd h pre post))) with mme by (symmetry; exact Hmme).
  cbn [access reading fst snd]. rewrite put_get.
  change (@Threads.get Amf.t AmfShared.amf_store (AmfShared.Id mme) a) with (Amf.s1amf_id a !! mme). rewrite Hid. cbn [default from_option id].
  rewrite (proj2 (Z.eqb_neq guti 0) Hnz). split; [apply allowed_reads; cbn; set_solver | exact Hk].
Qed.

Lemma keeps_finish {A B} wr (r : result B) (k : B -> AmfShared.acode A) :
  (forall b, r = Ret b -> keeps wr (k b)) -> keeps wr (x ← Finish r; k x).
Proof. apply keeps_to_finish. Qed.
Lemma keeps_ctx {A B} wr b f (g : Amf.UeContext -> B) (k : B -> AmfShared.acode A) :
  (forall b, keeps wr (k b)) -> keeps wr (x ← AmfShared.ctx_access garbage (Locked b) guti f g; k x).
Proof. apply (keeps_to_own (ST := AmfShared.amf_store) (AmfShared.Ctx guti)). Qed.

(** A look at what does not change, and what is assigned its own value. *)
Lemma keeps_look {A B} wr c (g : AmfShared.val c -> B) (k : B -> AmfShared.acode A) :
  c ∈ [AmfShared.Fixed; AmfShared.Id mme] -> keeps wr (k (g (AmfShared.get c a))) -> keeps wr (x ← AmfShared.look c g; k x).
Proof.
  intros Hc Hk. apply (keeps_to_same (ST := AmfShared.amf_store) (AmfShared.Ctx guti)); [ | | done | by intros ? [= <-]].
  - intros ->. set_solver.
  - apply allowed_reads. cbn. set_solver.
Qed.
Lemma keeps_bare_look {A} wr c (k : AmfShared.val c -> AmfShared.acode A) :
  ss = true -> c ∈ [AmfShared.S1Ip; AmfShared.S1Port] ->
  keeps wr (k (AmfShared.get c a)) -> keeps wr (x ← AmfShared.bare_look c; k x).
Proof.
  intros Es Hc Hk. apply (keeps_to_same (ST := AmfShared.amf_store) (AmfShared.Ctx guti)); [ | | done | by intros ? [= <-]].
  - intros ->. set_solver.
  - apply (allowed_bare_read (SL := AmfShared.amf_store_laws)); cbn; rewrite Es; cbn; [set_solver|].
    rewrite !elem_of_cons in Hc. destruct Hc as [->|[->|[]%elem_of_nil]]; cbn; set_solver.
Qed.
Lemma keeps_bare_assign {A} wr c v (k : unit -> AmfShared.acode A) :
  ss = true -> c ∈ [AmfShared.S1Ip; AmfShared.S1Port] ->
  v = AmfShared.get c a -> keeps wr (k tt) -> keeps wr (x ← AmfShared.bare_assign c v; k x).
Proof.
  intros Es Hc -> Hk. apply (keeps_to_same (ST := AmfShared.amf_store) (AmfShared.Ctx guti)); [ | | done | by intros []].
  - intros ->. set_solver.
  - split; cbn; rewrite Es; cbn; [right; split; [set_solver | done]|].
    rewrite !elem_of_cons in Hc. destruct Hc as [->|[->|[]%elem_of_nil]]; cbn; set_solver.
Qed.

Lemma keeps_net {A B} wr (c : prog calls B) (k : B -> AmfShared.acode A) :
  (forall b, (c []).1 = Ret b -> keeps wr (k b)) -> keeps wr (x ← AmfShared.on_net c; k x).
Proof.
  intros Hk. unfold AmfShared.on_net. induction (c []).2 as [|e es IH]; [|exact IH].
  by apply keeps_finish.
Qed.
Lemma keeps_server_snd {A} wr fd p (k : unit -> AmfShared.acode A) :
  keeps wr (k tt) -> keeps wr (x ← AmfShared.server_snd fd p; k x).
Proof. intros Hk. unfold AmfShared.server_snd. by destruct (framed_bytes_of p). Qed.

(** The last statement of a handler. *)
Lemma keeps_last {A} wr (c : AmfShared.acode A) : keeps wr (x ← c; mret x) -> keeps wr c.
Proof. apply (keeps_to_ret (ST := AmfShared.amf_store) (AmfShared.Ctx guti) _ _ _ wr c (fun x => x)). Qed.

Ltac keeps_tac :=
  repeat lazymatch goal with
  | |- keeps _ (Finish _) => exact I
  | |- keeps _ (mret _) => exact I
  | |- keeps _ (mbind _ (Finish _)) => apply keeps_finish; intros ? _
  | |- keeps _ (mbind _ (AmfShared.guti_of _ _)) => apply keeps_guti
  | |- keeps _ (mbind _ (AmfShared.on_ctx _ _ _ _)) => apply keeps_ctx; intros ?
  | |- keeps _ (mbind _ (AmfShared.read_ctx _ _)) => apply keeps_ctx; intros ?
  | |- keeps _ (mbind _ (AmfShared.set_ctx _ _ _)) => apply keeps_ctx; intros ?
  | |- keeps _ (mbind _ (AmfShared.set_crypt_context _ _)) => apply keeps_ctx; intros ?
  | |- keeps _ (mbind _ (AmfShared.set_integrity_context _ _)) => apply keeps_ctx; intros ?
  | |- keeps _ (mbind _ (AmfShared.set_upf_info _ _)) => apply keeps_ctx; intros ?
  | |- keeps _ (mbind _ (AmfShared.look _ _)) => apply keeps_look; [set_solver|]
  | |- keeps _ (mbind _ (AmfShared.bare_look _)) => apply keeps_bare_look; [assumption | set_solver|]
  | |- keeps _ (mbind _ (AmfShared.server_snd _ _)) => apply keeps_server_snd
  | |- keeps _ (mbind _ (AmfShared.on_net _)) => apply keeps_net; intros ? ?
  | |- keeps _ (AmfShared.set_ctx _ _ _) => apply keeps_last, keeps_ctx; intros ?
  | |- keeps _ (AmfShared.server_snd _ _) => apply keeps_last, keeps_server_snd
  | |- keeps _ (match ?x with (_, _) => _ end) => destruct x
  | |- keeps _ (if ?b then _ else _) => destruct b
  | _ => progress cbv beta zeta
  end.

Let pkt : Packet.t := rd h pre post.

Lemma keeps_copy wr {A} (k : Packet.t -> AmfShared.acode A) :
  keeps wr (k pkt) -> keeps wr (p ← Finish (Packet.copy pkt); k p).
Proof. intros Hk. unfold pkt. by rewrite (copy_rd h pre post Hf). Qed.

Lemma keeps_autn fd : keeps [] (AmfShared.handle_autn garbage fd pkt).
Proof. unfold AmfShared.handle_autn. apply keeps_copy. keeps_tac. Qed.
Lemma keeps_command fd : keeps [] (AmfShared.handle_security_mode_cmd garbage fd pkt).
Proof. unfold AmfShared.handle_security_mode_cmd. apply keeps_copy. keeps_tac. Qed.
Lemma keeps_complete fd : keeps [] (AmfShared.handle_security_mode_complete garbage fd pkt).
Proof. unfold AmfShared.handle_security_mode_complete. apply keeps_copy. keeps_tac. Qed.
Lemma keeps_location m wid : keeps [] (AmfShared.handle_location_update garbage w m pkt wid).
Proof. unfold AmfShared.handle_location_update. apply keeps_copy. keeps_tac. Qed.
Lemma keeps_attach_complete : keeps [] (AmfShared.handle_attach_complete garbage pkt).
Proof. unfold AmfShared.handle_attach_complete. apply keeps_copy. keeps_tac. Qed.
Lemma keeps_modify m wid : keeps [] (AmfShared.handle_modify_bearer garbage w m pkt wid).
Proof. unfold AmfShared.handle_modify_bearer. apply keeps_copy. keeps_tac. Qed.

(** The SMF answers every create request, repeats the GUTI and names the UPF
    whose address the AMF has. *)
Definition smf_agrees : Prop := forall ch r, exists reply, smf_says w ch r = Some reply /\
  u64 (AmfSmfReply.guti reply) = guti /\ AmfSmfReply.g_upf_s1_ip_addr reply = Amf.g_upf_s1_ip_addr a.

Lemma create_agrees ch g g' :
  smf_agrees -> (GreeterClient.SessionCreationFC (SS := world_smf w) ch g []).1 = Ret g' ->
  GrpcPacket.guti g' = guti /\ GrpcPacket.g_upf_s1_ip_addr g' = Amf.g_upf_s1_ip_addr a.
Proof.
  intros Hs. unfold GreeterClient.SessionCreationFC, call_AmfSmfInteraction, world_smf. cbv zeta.
  match goal with |- context [smf_says w ch ?r] => destruct (Hs ch r) as (reply & E & G & I) end.
  cbn [mbind prog_bind log_call modify mret prog_ret fst snd]. rewrite E. cbn. intros [= <-]. by split.
Qed.

Lemma keeps_session m fd wid : ss = true -> smf_agrees -> keeps [] (AmfShared.handle_create_session garbage w m fd pkt wid).
Proof.
  intros Es Hs. unfold AmfShared.handle_create_session. apply keeps_copy. apply keeps_guti. apply keeps_ctx. intros _.
  apply keeps_finish. intros cteid _. apply keeps_ctx. intros c. apply keeps_finish. intros p _. cbv zeta.
  apply keeps_look; [set_solver|]. apply keeps_net. intros g Hg. destruct (create_agrees _ _ _ Hs Hg) as [-> Ip].
  apply keeps_bare_assign; [done | set_solver | exact Ip |]. apply keeps_bare_look; [done | set_solver|].
  apply keeps_bare_assign; [done | set_solver | done |]. keeps_tac.
Qed.

(** The detach request ends the entry as well. *)
Lemma keeps_detach m fd wid ksi ty :
  0 <= guti < 2 ^ 64 -> sealed (enc_items (detach_items guti ksi ty)) post ->
  keeps [AmfShared.Id mme] (AmfShared.handle_detach garbage w m fd pkt wid).
Proof.
  intros Hr Hs. unfold AmfShared.handle_detach. apply keeps_copy. apply keeps_guti. apply keeps_ctx. intros c.
  cbv beta. unfold pkt. known ltac:(apply unprotect_rd; [exact Hs | apply bytes_enc_items | exact Hf]).
  unfold detach_items. cbn [enc_items].
  do 3 known ltac:(apply extract_uint64_rd; len_lia). rewrite (u64_id guti) by done. cbv zeta.
  apply keeps_look; [set_solver|]. apply keeps_net. intros g _. destruct (GrpcPacket.res g); [|exact I].
  destruct (sealed_exists (enc_items [IBool true])) as [wire' Hs'].
  match goal with |- context [Finish (Packet.clear_pkt ?p)] =>
    pose proof (accept_code wire' h (Amf.k_nas_enc c) (Amf.k_nas_int c) fd p
      (fun mme => _ ← AmfShared.rem_itfid mme; AmfShared.rem_uectx guti) Hs'
      ltac:(apply rd_length; unfold fits, BUF_SIZE; len_lia) ltac:(clear; by destruct h)) as Ea end.
  rewrite Ea. clear Ea.
  rewrite Hmme, Hu. change (keeps [AmfShared.Id mme] (Emit ?e ?k)) with (keeps [AmfShared.Id mme] k).
  unfold keeps. cbn [keeps_to mbind code_bind AmfShared.rem_itfid AmfShared.rem_uectx AmfShared.assign section access].
  rewrite decide_False by discriminate. split; [apply allowed_writes; cbn; set_solver|]. 
  cbn [keeps_to fst snd AmfShared.rem_uectx AmfShared.assign section access]. rewrite decide_True by done.
  split; [by eexists | done].
Qed.

(** The switch. *)
Lemma keeps_dispatch m x0 k0 fd wid :
  0 < mme -> 0 <= guti < 2 ^ 64 -> (exists ty, S1ap.msg_type (h_s1ap h) = ty /\ 2 <= ty <= 5) ->
  ss = (S1ap.msg_type (h_s1ap h) =? 3) -> (S1ap.msg_type (h_s1ap h) = 3 -> smf_agrees) ->
  (S1ap.msg_type (h_s1ap h) = 5 -> exists ksi ty, sealed (enc_items (detach_items guti ksi ty)) post) ->
  keeps (if S1ap.msg_type (h_s1ap h) =? 5 then [AmfShared.Id mme] else [])
    (AmfShared.dispatch inet_aton garbage w m x0 k0 fd wid pkt).
Proof.
  intros Hpos Hr (ty & Ety & Hty) Es H3 H5. unfold AmfShared.dispatch.
  change (Packet.s1ap_hdr pkt) with (h_s1ap h). change (S1ap.mme_s1ap_ue_id (h_s1ap h)) with (h_mme h). rewrite Hmme, Ety.
  rewrite (proj2 (Z.eqb_neq mme 0)), (proj2 (Z.ltb_lt 0 mme)) by lia. rewrite Ety in Es, H3, H5.
  assert (ty = 2 \/ ty = 3 \/ ty = 4 \/ ty = 5) as [-> | [-> | [-> | ->]]] by lia; cbn [Z.eqb Pos.eqb].
  - apply keeps_to_bind; [apply keeps_autn | intros []; [apply keeps_command | exact I]].
  - apply keeps_to_bind; [apply keeps_complete | intros []; [|exact I]].
    apply keeps_to_bind; [apply keeps_location | intros _]. by apply keeps_session; [|apply H3].
  - apply keeps_to_bind; [apply keeps_attach_complete | intros _]. apply keeps_modify.
  - destruct H5 as (ksi & t & Hs); [done|]. by apply (keeps_detach m fd wid ksi t).
Qed.
End Footprints.

(** ** Any number of messages at once *)

(** A message that a worker thread is about to read: its header and body, and
    the subscriber. *)
Record message := mk_message { ms_job : amf_job; ms_hd : S1ap.t; ms_body : list Z; ms_n : Z }.

Section Messages.
Context `{CL : CryptoLib, LAWS : !CryptoLaws}.
Context (inet_aton : string -> option Z) (garbage : Z -> Amf.UeContext) (h0 : hdrs).

(** The sequential [handle_ue], with the same answers of the peers. *)
Definition alone (j : amf_job) (a : Amf.t) : result (option (Z * list Network.event)) * Amf.proc calls :=
  Amf.handle_ue (AS := world_ausf (aj_world j)) (SS := world_smf (aj_world j)) (HO := world_handover (aj_world j))
    inet_aton garbage h0 (aj_m j) (aj_xres j) (aj_k_asme j) (aj_fd j) (aj_wid j) (aj_evs j) (Amf.mk_proc a [] []).

Let ms_code (ms : message) := amf_job_code inet_aton garbage h0 (ms_job ms).

(** A message of an attached UE after the attach request, which the AMF serves
    when it is alone. *)
Record ms_ok (a : Amf.t) (ms : message) : Prop := {
  ms_known : exists c, registered a (ms_hd ms) (ms_n ms) c;
  ms_arrives : exists rest,
    arrives (aj_fd (ms_job ms)) (aj_wid (ms_job ms)) (ms_hd ms) (ms_body ms) (aj_evs (ms_job ms)) rest;
  ms_type : 2 <= S1ap.msg_type (ms_hd ms) <= 5;
  ms_smf : S1ap.msg_type (ms_hd ms) = 3 -> smf_agrees (aj_world (ms_job ms)) a (deployed_guti (ms_n ms));
  ms_own : S1ap.msg_type (ms_hd ms) = 5 -> exists ksi ty,
    sealed (enc_items (detach_items (deployed_guti (ms_n ms)) ksi ty)) (ms_body ms);
  ms_served : exists r, (alone (ms_job ms) a).1 = Ret r
}.

Definition ms_apart (l : list message) : Prop :=
  forall i j m m', l !! i = Some m -> l !! j = Some m' -> i <> j -> ms_n m <> ms_n m'.

Definition ms_tagged (ms : message) : tagged (T := Amf.t) (call + Z * list Z) (option (Z * list Network.event)) :=
  let mme := S1ap.mme_s1ap_ue_id (ms_hd ms) in
  let ss := S1ap.msg_type (ms_hd ms) =? 3 in
  mk_tagged (also_writes (T := Amf.t) (AmfShared.Ctx (deployed_guti (ms_n ms)))
    (mk_footprint (ue_reads mme ss) (if S1ap.msg_type (ms_hd ms) =? 5 then [AmfShared.Id mme] else [])
       (ue_bare ss) (ue_bare ss))) (ms_code ms).

(** The thread and the sequential handler. *)
Lemma exec_alone j a :
  exists es, exec (amf_job_code inet_aton garbage h0 j) a = ((alone j a).1, Amf.amf (alone j a).2, es) /\
    Amf.net (alone j a).2 = calls_of es /\ Amf.out (alone j a).2 = frames_of es.
Proof.
  unfold alone. destruct (Amf.handle_ue _ _ _ _ _ _ _ _ _ _) as [r p] eqn:E.
  destruct (exec_of_prog _ _ _ _ _ (alike_handle_ue inet_aton garbage h0 (aj_world j) (aj_m j) (aj_xres j) (aj_k_asme j)
    (aj_fd j) (aj_wid j) (aj_evs j)) E) as (t & es & X & ->). exists es. split; [exact X | done].
Qed.

(** What arrives is handed to the switch. *)
Lemma handle_ue_code w m x0 k0 fd wid evs hd body rest :
  arrives fd wid hd body evs rest -> exists evs',
    AmfShared.handle_ue inet_aton garbage h0 w m x0 k0 fd wid evs =
    (x ← AmfShared.dispatch inet_aton garbage w m x0 k0 fd wid (s1ap_pkt (received h0 hd) body); mret (Some (1, evs'))).
Proof.
  intros (Hfd & _ & Hw & Hl & Hd). unfold AmfShared.handle_ue. known ltac:(apply construct_rd).
  destruct (read_sctp_pkt_spec fd (rd (mk_hdrs (Gtp.construct (h_gtp h0)) (h_s1ap h0) (h_dia h0)) [] [])
    evs (S1ap.to_bytes hd ++ body) rest) as (evs' & E & Hr);
    [done | reflexivity | exact Hd | unfold BUF_SIZE; len_lia |].
  exists evs'. unfold SctpServer.rcv. known ltac:(rewrite E; reflexivity). cbn [option_map]. cbv beta iota.
  change (Packet.plen (rd ?x ?y ?z)) with (len (y ++ z)).
  rewrite (proj2 (Z.leb_gt _ _)) by (cbn [app]; len_lia). by known ltac:(by apply (extract_s1ap_hdr_rd _ [])).
Qed.

Lemma ms_uses a ms : ms_ok a ms -> uses (foot (ms_tagged ms)) (ms_code ms) a.
Proof.
  intros [(c & R) (rest & Ha) Hty H3 H5 (r & Hr)]. destruct (exec_alone (ms_job ms) a) as (es & X & _).
  eapply within_uses; [|unfold result_of, ms_code; rewrite X; exact Hr].
  destruct (handle_ue_code (aj_world (ms_job ms)) (aj_m (ms_job ms)) (aj_xres (ms_job ms)) (aj_k_asme (ms_job ms))
    _ _ _ _ _ _ Ha) as (evs' & E).
  unfold ms_code, amf_job_code. rewrite E.
  destruct Ha as (_ & _ & Hw & Hl & _). destruct (known_identity _ _ _ _ R Hw) as (Hpos & Hu & Hnz).
  destruct R as (Hn & _ & Hid & _).
  cbn [foot ms_tagged].
  apply (keeps_to_within (ST := AmfShared.amf_store) (AmfShared.Ctx (deployed_guti (ms_n ms))) _ _ _ _ _ a a); [done|].
  apply (keeps_to_ret (ST := AmfShared.amf_store) (AmfShared.Ctx (deployed_guti (ms_n ms))) _ _ _ _ _ (fun _ => Some (1, evs'))).
  apply (keeps_dispatch inet_aton garbage (aj_world (ms_job ms)) a (S1ap.mme_s1ap_ue_id (ms_hd ms)) (deployed_guti (ms_n ms))
    (received h0 (ms_hd ms)) (S1ap.to_bytes (ms_hd ms)) (ms_body ms)); try done.
  - unfold fits, BUF_SIZE. len_lia.
  - unfold deployed_guti. lia.
  - by eexists.
Qed.

Lemma ms_apart_independent a l :
  Forall (ms_ok a) l -> ms_apart l -> independent (map ms_tagged l).
Proof.
  intros Hok Ha i k t t' Ht Ht' N c Hc. rewrite list_lookup_fmap in Ht, Ht'.
  destruct (l !! i) as [m|] eqn:Ei; [|done]. destruct (l !! k) as [m'|] eqn:Ek; [|done].
  injection Ht as <-. injection Ht' as <-. pose proof (Ha i k m m' Ei Ek N) as Hn.
  destruct (ms_known _ _ (Forall_lookup_1 _ _ _ _ Hok Ei)) as (c1 & Hn1 & _ & Hg & _).
  destruct (ms_known _ _ (Forall_lookup_1 _ _ _ _ Hok Ek)) as (c2 & Hn2 & _ & Hg' & _).
  assert (deployed_guti (ms_n m) <> deployed_guti (ms_n m')) as Ng by (unfold deployed_guti; lia).
  assert (S1ap.mme_s1ap_ue_id (ms_hd m) <> S1ap.mme_s1ap_ue_id (ms_hd m')) as Nm by congruence.
  cbn [foot ms_tagged also_writes reads writes] in *. unfold ue_reads.
  destruct (S1ap.msg_type (ms_hd m) =? 5), (S1ap.msg_type (ms_hd m') =? 5), (S1ap.msg_type (ms_hd m') =? 3);
    cbn in *; set_solver.
Qed.

(** Only messages that create a session race. *)
Lemma ms_may_race l :
  may_race (map ms_tagged l) ->
  exists i k m m', l !! i = Some m /\ l !! k = Some m' /\ i <> k /\
    S1ap.msg_type (ms_hd m) = 3 /\ S1ap.msg_type (ms_hd m') = 3.
Proof.
  intros (i & k & t & t' & Ht & Ht' & N & o & Ho). rewrite list_lookup_fmap in Ht, Ht'.
  destruct (l !! i) as [m|] eqn:Ei; [|done]. destruct (l !! k) as [m'|] eqn:Ek; [|done].
  injection Ht as <-. injection Ht' as <-. exists i, k, m, m'. do 3 (split; [done|]).
  cbn [foot ms_tagged also_writes reads writes bare_reads bare_writes] in Ho. unfold ue_reads, ue_bare in Ho.
  destruct (Z.eqb_spec (S1ap.msg_type (ms_hd m)) 3), (Z.eqb_spec (S1ap.msg_type (ms_hd m')) 3);
    [done | | |]; destruct (S1ap.msg_type (ms_hd m) =? 5); cbn in Ho; set_solver.
Qed.

(** One message after the other. *)
Lemma serial_alone l : forall a,
  serial (map ms_code l) a = foldl (fun a m => Amf.amf (alone (ms_job m) a).2) a l.
Proof.
  induction l as [|m l IH]; intros a; [done|]. cbn [map serial foldl]. rewrite IH. unfold final, ms_code.
  by destruct (exec_alone (ms_job m) a) as (es & -> & _).
Qed.

(** C12: messages of different UEs that the AMF's worker threads serve at the
    same time do not disturb each other, except that those which create a
    session may race.  The messages are authentication responses, security mode
    completes, attach completes and detach requests of attached UEs, any number
    and any mixture, each of which the AMF serves when it is alone; a detach
    request must carry the GUTI of the UE that sends it, which the AMF does not
    check; and to a create request for a UE the SMF must answer with that UE's
    GUTI and with the UPF address that the AMF already has.  Whatever the order
    in which the threads take the mutexes and begin and end the accesses to the
    globals, either two of the messages are security mode completes and the
    process has a data race; or none stops the process, and what each has asked
    of its peers and sent to its base station is the beginning of what it asks
    and sends alone; and when each had its turns, it is done with the result it
    has alone and has asked and sent just that, and the AMF is in the state the
    handlers of the sequential model lead to, one after the other. *)
Theorem amf_messages_do_not_interfere a l sched :
  Forall (ms_ok a) l -> ms_apart l ->
  (exists i k m m', l !! i = Some m /\ l !! k = Some m' /\ i <> k /\
     S1ap.msg_type (ms_hd m) = 3 /\ S1ap.msg_type (ms_hd m') = 3 /\
     run_pool sched (start_pool a (map (fun m => amf_job_code inet_aton garbage h0 (ms_job m)) l)) = Fault data_race) \/
  exists p,
    run_pool sched (start_pool a (map (fun m => amf_job_code inet_aton garbage h0 (ms_job m)) l)) = Ret p /\
    (forall i m, l !! i = Some m -> exists es, sent i p `prefix_of` es /\
       calls_of es = Amf.net (alone (ms_job m) a).2 /\ frames_of es = Amf.out (alone (ms_job m) a).2) /\
    ((forall i m, l !! i = Some m -> (turns (amf_job_code inet_aton garbage h0 (ms_job m)) a <= given i sched)%nat) ->
     (forall i m, l !! i = Some m ->
        threads p !! i = Some (Finish (alone (ms_job m) a).1) /\
        calls_of (sent i p) = Amf.net (alone (ms_job m) a).2 /\ frames_of (sent i p) = Amf.out (alone (ms_job m) a).2) /\
     shared p = foldl (fun a m => Amf.amf (alone (ms_job m) a).2) a l).
Proof.
  intros Hok Ha.
  assert (forall i t, map ms_tagged l !! i = Some t -> exists m, l !! i = Some m /\ t = ms_tagged m) as Hm.
  { intros i t Ht. rewrite list_lookup_fmap in Ht. destruct (l !! i) as [m|] eqn:E; [|done]. injection Ht as <-. by exists m. }
  assert (forall i m, l !! i = Some m -> map ms_tagged l !! i = Some (ms_tagged m)) as Hf
    by (intros i m E; by rewrite list_lookup_fmap, E).
  assert (map code_of (map ms_tagged l) = map ms_code l) as Hc by by rewrite map_map.
  destruct (independent_threads (map ms_tagged l) a) with (sched := sched) as [[M E]|(p & Ep & Hpre & Hfin)].
  { intros i t Ht. destruct (Hm i t Ht) as (m & E & ->). apply ms_uses. by eapply Forall_lookup_1. }
  { by apply (ms_apart_independent a). }
  { left. destruct (ms_may_race l M) as (i & k & m & m' & ? & ? & ? & ? & ?). rewrite Hc in E. by exists i, k, m, m'. }
  right. rewrite Hc in Ep, Hfin. exists p. split; [exact Ep|]. split.
  - intros i m E. destruct (exec_alone (ms_job m) a) as (es & X & N & F). exists es. split; [|by split].
    pose proof (Hpre i _ (Hf i m E)) as P. unfold events in P. cbn [code_of ms_tagged] in P. unfold ms_code in P. by rewrite X in P.
  - intros Hn. destruct Hfin as [F1 F2]; [intros i t Ht; destruct (Hm i t Ht) as (m & E & ->); by apply Hn|].
    split; [|by rewrite F2, serial_alone]. intros i m E. destruct (F1 i _ (Hf i m E)) as [G1 G2].
    destruct (exec_alone (ms_job m) a) as (es & X & N & F). unfold result_of, events in G1, G2.
    cbn [code_of ms_tagged] in G1, G2. unfold ms_code in G1, G2. rewrite X in G1, G2. cbn [fst snd] in G1, G2.
    rewrite G2. by split.
Qed.
End Messages.

(** ** Witness *)

(** UE 1 answers the challenge, UE 2 completes the security mode, UE 3 the
    attach, and UE 4 detaches. *)
Definition demo_four : Amf.t :=
  let add mme n a := a
    <| Amf.s1amf_id := <[mme := deployed_guti n]> (Amf.s1amf_id a) |>
    <| Amf.ue_ctx := <[deployed_guti n := demo_ue]> (Amf.ue_ctx a) |> in
  add 4 4 (add 3 3 (add 2 2 (add 1 1 demo_amf))).

(** An SMF that repeats the GUTI [n] and names the UPF. *)
Definition demo_peers (n : Z) : world := {|
  ausf_says _ _ := Some (AmfAusfReply.mk "" 3 4 5 6 0 0);
  smf_says _ _ := Some (AmfSmfReply.empty <| AmfSmfReply.guti := deployed_guti n |>
    <| AmfSmfReply.g_upf_s1_ip_addr := "172.18.0.6" |> <| AmfSmfReply.res := true |>);
  upf_says := UdpClient.Timeout;
  ran_fd _ _ := 9
|}.

Definition demo_message (ty n : Z) (body : list Z) : message :=
  mk_message (mk_amf_job (demo_peers n) no_grpc 111 222 (4 + n) 0 (segment (demo_hd ty n) body)) (demo_hd ty n) body n.
Definition demo_messages : list message :=
  [demo_message 2 1 (enc_items [IU64 99]);
   demo_message 3 2 (toy_wire (enc_items [IBool true]));
   demo_message 4 3 (toy_wire (enc_items [IU8 5; IU32 7]));
   demo_message 5 4 (toy_wire (enc_items (detach_items (deployed_guti 4) 1 1)))].

Lemma demo_messages_ok : Forall (ms_ok core_aton amf_garbage zero_hdrs demo_four) demo_messages.
Proof.
  assert (forall ty n body c, 2 <= ty <= 5 -> registered demo_four (demo_hd ty n) n c ->
    arrives (4 + n) 0 (demo_hd ty n) body (segment (demo_hd ty n) body) [] ->
    (ty = 5 -> exists ksi t, sealed (enc_items (detach_items (deployed_guti n) ksi t)) body) ->
    (exists r, (alone core_aton amf_garbage zero_hdrs (ms_job (demo_message ty n body)) demo_four).1 = Ret r) ->
    ms_ok core_aton amf_garbage zero_hdrs demo_four (demo_message ty n body)) as H.
  { intros ty n body c Hty R Ha Hs Hr. split; [by exists c | by exists [] | done | | done | done].
    intros _ ch r. eexists. split; [reflexivity|]. split; [|reflexivity]. apply u64_id. destruct R as [? _]. cbn. unfold deployed_guti. lia. }
  unfold demo_messages. repeat apply Forall_cons_2; [| | | |apply Forall_nil_2].
  all: apply (H _ _ _ demo_ue);
    [lia | by repeat split; try lia | arrive | | by eexists; vm_compute; reflexivity].
  all: intros E; first [discriminate E | exists 1, 1; apply toy_sealed].
Qed.

Lemma amf_messages_do_not_interfere_witness :
  let sched := concat (replicate 25 [3; 1; 0; 2]%nat) in
  exists p,
    run_pool sched (start_pool demo_four
      (map (fun m => amf_job_code core_aton amf_garbage zero_hdrs (ms_job m)) demo_messages)) = Ret p /\
    shared p = foldl (fun a m => Amf.amf (alone core_aton amf_garbage zero_hdrs (ms_job m) a).2) demo_four demo_messages.
Proof.
  intros sched.
  destruct (amf_messages_do_not_interfere core_aton amf_garbage zero_hdrs demo_four demo_messages sched demo_messages_ok)
    as [(i & k & m & m' & Hi & Hk & N & T & T' & _)|(p & E & _ & F)].
  - intros i j m m' Hi Hj N. destruct i as [|[|[|[|i]]]], j as [|[|[|[|j]]]]; try discriminate; try done;
      injection Hi as <-; injection Hj as <-; discriminate.
  - exfalso. destruct i as [|[|[|[|i]]]], k as [|[|[|[|k]]]]; try discriminate Hi; try discriminate Hk;
      injection Hi as <-; injection Hk as <-; try discriminate T; try discriminate T'. by apply N.
  - destruct F as [_ F]; [|exists p; split; [exact E | exact F]]. intros i m Hi.
    destruct i as [|[|[|[|i]]]]; [| | | |discriminate Hi]; injection Hi as <-; apply Nat.leb_le; vm_compute; reflexivity.
Defined.
