(* ===== verification/AmfTypes.v ===== *)
(** * AmfTypes: the AMF against any base station (src/amf.cpp,
    src/amf_server.cpp)

    Attach.v says what the AMF answers to a well-behaved UE.  Here a message is
    any string of bytes: the tables keep to the types of their C++
    declarations, and the handlers stay inside their buffers, except for a
    protected message that is shorter than its HMAC, and except for a byte
    that is no value of a [bool].  The peers answer with strings of at most 64
    characters and, over UDP, with any bytes. *)

From Stdlib Require Import ZArith Lia Ascii String.
From S2P Require Import Prelude Utils Telecom Headers Packet Network Transport PacketTypes Security Messages.
From S2P Require Import Ausf Upf Smf Amf Core Attach AmfThreads.

(** ** The types *)

Definition short (s : string) : Prop := len (c_str s) <= 64.

(** The members of a context have the types of [class UeContext]; the list of
    tracking areas has at most one. *)
Record wf_uectx (c : Amf.UeContext) : Prop := mk_wf_uectx {
  wu_states : is_s32 (Amf.emm_state c) /\ is_s32 (Amf.ecm_state c);
  wu_imsi : is_u64 (Amf.imsi c);
  wu_ip : short (Amf.ip_addr c);
  wu_ids : is_u32 (Amf.enodeb_s1ap_ue_id c) /\ is_u32 (Amf.mme_s1ap_ue_id c);
  wu_tai : is_u64 (Amf.tai c);
  wu_tais : Forall is_u64 (Amf.tai_list c) /\ (length (Amf.tai_list c) <= 1)%nat;
  wu_tau : is_u64 (Amf.tau_timer c);
  wu_ksi : is_u64 (Amf.ksi_asme c);
  wu_kasme : is_u64 (Amf.k_asme c);
  wu_kenb : is_u64 (Amf.k_enodeb c);
  wu_keys : is_u64 (Amf.k_nas_enc c) /\ is_u64 (Amf.k_nas_int c);
  wu_enc : is_u64 (Amf.nas_enc_algo c);
  wu_int : is_u64 (Amf.nas_int_algo c);
  wu_apn : is_u64 (Amf.default_apn c) /\ is_u64 (Amf.apn_in_use c);
  wu_bearer : is_u8 (Amf.eps_bearer_id c);
  wu_rab : is_u8 (Amf.e_rab_id c);
  wu_ul : is_u32 (Amf.s1_uteid_ul c);
  wu_dl : is_u32 (Amf.s1_uteid_dl c);
  wu_s5 : is_u32 (Amf.s5_uteid_ul c) /\ is_u32 (Amf.s5_uteid_dl c);
  wu_xres : is_u64 (Amf.xres c);
  wu_type : is_u16 (Amf.nw_type c);
  wu_cap : is_u16 (Amf.nw_capability c);
  wu_port : is_s32 (Amf.upf_smf_port c);
  wu_cteids : is_u32 (Amf.s11_cteid_amf c) /\ is_u32 (Amf.s11_cteid_upf c)
}.

(** The keys and values of the tables; the globals. *)
Record wf_amf (a : Amf.t) : Prop := mk_wf_amf {
  wa_count : is_u64 (Amf.ue_count a);
  wa_ids : map_Forall (fun k g => is_u32 k /\ is_u64 g) (Amf.s1amf_id a);
  wa_ctx : map_Forall (fun k c => is_u64 k /\ wf_uectx c) (Amf.ue_ctx a);
  wa_s1 : short (Amf.g_upf_s1_ip_addr a) /\ is_s32 (Amf.g_upf_s1_port a)
}.

Definition typed (p : Amf.proc calls) : Prop := wf_amf (Amf.amf p).

(** What a constructor leaves unset has some value of its type; the peers. *)
Definition wf_garbage (garbage : Z -> Amf.UeContext) : Prop :=
  forall g, is_u64 (Amf.k_enodeb (garbage g)) /\ is_u32 (Amf.s5_uteid_ul (garbage g)) /\
    is_u32 (Amf.s5_uteid_dl (garbage g)).
Definition wf_gpkt (m : GrpcPacket.t) : Prop :=
  is_u32 (GrpcPacket.s1_uteid_ul m) /\ is_u32 (GrpcPacket.s11_cteid_upf m).
Record wf_world (w : world) : Prop := {
  ww_smf : forall ch r reply, smf_says w ch r = Some reply ->
    short (AmfSmfReply.ue_ip_addr reply) /\ short (AmfSmfReply.g_upf_s1_ip_addr reply);
  ww_upf : bytes_in (upf_says w)
}.

(** ** Packets on their way out *)

(** A message that was received: its length and its header are in range. *)
Definition msg_ok (n : Z) (s : S1ap.t) : Prop := 0 <= n <= BUF_SIZE /\ S1ap.wf s.

Section Packets.
Context `{CL : CryptoLib, LAWS : !CryptoLaws}.
Context (F : fault -> Prop).
Hypothesis HF : forall f, stops f -> F f.

Lemma copy_msg c p : held msg_ok c p -> satisfies F (held msg_ok c) (Packet.copy p).
Proof. apply copy_held. by intros n s []. Qed.

Lemma hmac_typed n p k : opened n p -> 20 + n <= BUF_SIZE -> satisfies F (sized (20 + n)) (Integrity.add_hmac p k).
Proof.
  intros (h & pre & -> & Hn) Hl. rewrite add_hmac_rd by (rewrite len_nil; lia).
  eexists _, _, _. split; [reflexivity|]. rewrite len_app, app_nil_r, len_mac, len_nil. lia.
Qed.

Lemma protect_typed n p k k' : opened n p -> 36 + n <= BUF_SIZE -> satisfies F (sized (36 + n)) (protect p k k').
Proof.
  intros (h & pre & -> & Hn) Hl. destruct (sealed_exists pre) as [w Hw].
  pose proof (enc_size_bounds (len pre)). pose proof (len_sealed _ _ Hw) as Lw.
  destruct (protect_rd h pre w k k' Hw) as (m & c & -> & Hm & ->); [lia|]. rewrite len_app in Lw.
  eexists _, _, _. split; [reflexivity|]. lia.
Qed.

Lemma s1ap_typed n p ty ml enb mme :
  sized n p -> 12 + n <= BUF_SIZE -> satisfies F (sized (12 + n)) (Packet.prepend_s1ap_hdr p ty ml enb mme).
Proof.
  intros (h & pre & post & -> & Hn) Hl. rewrite prepend_s1ap_hdr_rd by lia.
  eexists _, _, _. split; [reflexivity|]. rewrite len_app, len_s1ap. lia.
Qed.
Lemma reply_typed n p ty : sized n p -> 12 + n <= BUF_SIZE -> satisfies F (sized (12 + n)) (Amf.s1ap_reply p ty).
Proof. intros. unfold Amf.s1ap_reply. by apply s1ap_typed. Qed.

(** *** A protected message *)

Definition opens (q : Packet.t) : Prop := forall k k' msg,
  satisfies F (at_cursor 0) (unprotect q k k' msg).

Lemma opens_long h pre post :
  fits pre post -> bytes post -> 20 <= len post -> opens (rd h pre post).
Proof.
  intros Hf Hb Hl k k' msg. unfold unprotect. change HMAC_ON with true. change ENC_ON with true. cbv iota.
  rewrite <- (take_drop 20 post) in Hf |- *.
  rewrite hmac_check_rd by (done || (unfold len in *; rewrite length_take; lia)). res.
  destruct (bool_decide _); [|by apply HF]. res. set (c := drop 20 post) in *.
  assert (len c <= BUF_SIZE) as Hc by (unfold fits in Hf; rewrite len_app in Hf; pose proof (len_nonneg (take 20 post)); pose proof (len_nonneg pre); lia).
  assert (fits [] c) as Hfc by (unfold fits; rewrite len_nil; lia).
  destruct (aes_dec Crypt.key Crypt.iv c) as [p|] eqn:E.
  - pose proof (aes_dec_len _ _ _ _ E). erewrite dec_rd; [|done | exact E | lia].
    apply (at_cursor_rd _ []); [unfold fits; rewrite len_nil; lia | constructor |].
    eapply aes_dec_bytes; [|exact E]. by apply Forall_drop.
  - rewrite dec_bad_rd by done. by apply HF.
Qed.
End Packets.

(** With nothing claimed about undefined behaviour. *)
Lemma opens_any `{CL : CryptoLib, LAWS : !CryptoLaws} c q :
  at_cursor c q -> 0 <= c -> c + HMAC_LEN <= BUF_SIZE -> opens (fun _ => True) q.
Proof.
  intros Hq Hc Hl k k' msg. unfold unprotect. change HMAC_ON with true. change ENC_ON with true. cbv iota.
  eapply (satisfies_bind _ (at_cursor 0)).
  - eapply (satisfies_bind _ (fun x => at_cursor 0 x.2)); [|intros [[] q'] Hq'; res; done].
    unfold Integrity.hmac_check, Integrity.rem_hmac. rewrite !Utils.allocate_uint8_mem_ok by done. res.
    eapply (satisfies_bind _ (fun x => at_cursor 0 x.2)).
    + eapply (satisfies_bind _ (fun x => at_cursor (c + HMAC_LEN) x.2)).
      { unfold Packet.extract_item_bytes. eapply satisfies_bind; [by apply (extract_raw_typed _ in_block c HMAC_LEN)|].
        intros [bs q'] [_ Hq']. by destruct (_ <? _). }
      intros [bs q'] Hq'. destruct (mem_write _ 0 bs); [|done]. res.
      eapply satisfies_bind; [eapply truncate_anywhere; [exact Hq' | unfold HMAC_LEN; lia]|]. done.
    + intros [h q'] Hq'. destruct (Integrity.get_hmac _ _ _ _); [exact Hq' | done].
  - intros q' Hq'. unfold Crypt.dec. rewrite allocate_buf. res.
    eapply satisfies_bind; [by apply (truncate_anywhere 0)|]. intros q2 [H1 H2 H3 H4]. unfold Crypt.dec_data, in_block in *.
    destruct (mem_read _ _ _) as [bs|] eqn:E; [|done]. res. apply mem_read_ok in E as (_ & _ & _ & El & Eb).
    destruct (aes_dec _ _ bs) as [p|] eqn:Ed; [|done].
    pose proof (aes_dec_len _ _ _ _ Ed). pose proof (len_nonneg p). rewrite mem_write_zbuf by lia. res.
    split; [cbn; apply length_pad; lia | | done | unfold in_block; cbn; lia].
    cbn. apply bytes_app. split; [eapply aes_dec_bytes; [by apply Eb | exact Ed]|]. apply Forall_replicate. split; lia.
Qed.

(** ** The tables *)

Lemma nas_key_u64 k algo c : is_u64 (Amf.nas_key k algo c).
Proof. apply u64_range. Qed.

#[local] Hint Resolve u8_range u16_range u32_range u64_range nas_key_u64 : core.

(** An update of the members, each with a value of its type. *)
Ltac ctx_ok :=
  let c := fresh "c" in intros c []; split; cbn;
  repeat match goal with
  | |- Forall _ (_ :: _) /\ _ => split; [constructor; [|constructor] | done]
  | |- _ /\ _ => split
  end; first [assumption | tauto | by auto | done].

Lemma stoull_typed F s : (forall f, stops f -> F f) -> satisfies F is_u64 (stoull s).
Proof.
  intros HF. assert (forall b s, satisfies F is_u64 (stoull_digits b s)) as H.
  { intros b [|c t]; cbn [stoull_digits]; [by apply HF|].
    destruct (is_digit c); [|by apply HF]. cbv zeta. destruct (_ <=? _); [apply u64_range | by apply HF]. }
  unfold stoull. destruct (skip_spaces s) as [|c t]; [apply H|].
  destruct c as [[] [] [] [] [] [] [] []]; apply H.
Qed.

Section Tables.
Context (F : fault -> Prop) (HF : forall f, stops f -> F f).
Context (garbage : Z -> Amf.UeContext) (Hg : wf_garbage garbage).

Lemma amf_new_ctx_wf g : wf_uectx (Amf.new_ctx garbage g).
Proof. destruct (Hg g) as (H1 & H2 & H3). split; cbn; repeat match goal with |- _ /\ _ => split end; first [done | lia | constructor]. Qed.

Lemma amf_at_or_wf m k g :
  map_Forall (fun k c => is_u64 k /\ wf_uectx c) m -> wf_uectx (at_or (Amf.new_ctx garbage g) m k).
Proof.
  intros Hm. unfold at_or. destruct (m !! k) as [c|] eqn:E; [|apply amf_new_ctx_wf]. by destruct (Hm k c E).
Qed.

Lemma on_amf_typed f : (forall a, wf_amf a -> wf_amf (f a)) -> triple typed F (modify (Amf.on_amf f)) (fun _ => True).
Proof. intros Hf. apply triple_modify. intros s Hs. by apply Hf. Qed.

Lemma get_typed {A} (Q : A -> Prop) g (f : Amf.UeContext -> A) :
  is_u64 g -> (forall c, wf_uectx c -> Q (f c)) -> triple typed F (Amf.ctx_get garbage g f) Q.
Proof.
  intros Hk Hf. eapply triple_bind.
  - apply on_amf_typed. intros a [? ? Hm ?]. split; try done.
    apply map_Forall_insert_2; [split; [done | by apply amf_at_or_wf] | done].
  - intros _ _. apply triple_gets. intros s [_ _ Hm _]. by apply Hf, amf_at_or_wf.
Qed.

Lemma set_typed g f :
  is_u64 g -> (forall c, wf_uectx c -> wf_uectx (f c)) -> triple typed F (Amf.ctx_set garbage g f) (fun _ => True).
Proof.
  intros Hk Hf. apply on_amf_typed. intros a [? ? Hm ?]. split; try done.
  apply map_Forall_insert_2; [split; [done | by apply Hf, amf_at_or_wf] | done].
Qed.

Lemma crypt_typed g : is_u64 g -> triple typed F (Amf.set_crypt_context garbage g) (fun _ => True).
Proof. intros. apply set_typed; [done|]. ctx_ok. Qed.
Lemma integrity_typed g : is_u64 g -> triple typed F (Amf.set_integrity_context garbage g) (fun _ => True).
Proof. intros. apply set_typed; [done|]. ctx_ok. Qed.
Lemma upf_info_typed g : is_u64 g -> triple typed F (Amf.set_upf_info garbage g) (fun _ => True).
Proof. intros. apply set_typed; [done|]. ctx_ok. Qed.

Lemma identity_typed g : is_u64 g -> triple typed F (Amf.new_identity (W := calls) g) is_u32.
Proof.
  intros Hk. unfold Amf.new_identity.
  eapply triple_bind; [apply on_amf_typed; intros a []; split; try done; apply u64_range|]. intros _ _.
  eapply (triple_bind _ _ is_u32); [apply triple_gets; intros; apply u32_range|]. intros mme Hm.
  eapply triple_bind; [|intros _ _; by apply triple_ret].
  apply on_amf_typed. intros a []. split; try done. by apply map_Forall_insert_2.
Qed.

Lemma rem_itfid_typed k : triple typed F (Amf.rem_itfid (W := calls) k) (fun _ => True).
Proof. apply on_amf_typed. intros a []. split; try done. by apply map_Forall_delete. Qed.
Lemma amf_rem_uectx_typed g : triple typed F (Amf.rem_uectx (W := calls) g) (fun _ => True).
Proof. apply on_amf_typed. intros a []. split; try done. by apply map_Forall_delete. Qed.
Lemma s1_ip_typed ip :
  short ip -> triple typed F (modify (Amf.on_amf (fun a => a <| Amf.g_upf_s1_ip_addr := ip |>))) (fun _ => True).
Proof. intros Hs. apply on_amf_typed. intros a [? ? ? []]. by split. Qed.
Lemma s1_port_typed :
  triple typed F (modify (Amf.on_amf (fun a => a <| Amf.g_upf_s1_port := Amf.g_upf_s1_port a |>))) (fun _ => True).
Proof. apply on_amf_typed. intros a []. by split. Qed.

Lemma get_guti_typed c p : held msg_ok c p -> triple typed F (Amf.get_guti (W := calls) p) is_u64.
Proof.
  intros Hp. eapply triple_bind; [apply triple_lift; by eapply copy_msg|]. intros q _.
  apply triple_gets. intros s [_ Hi _ _]. destruct (_ !! _) as [g|] eqn:E; [|done]. by destruct (Hi _ _ E).
Qed.
Lemma guti_of_typed c p msg : held msg_ok c p -> triple typed F (Amf.guti_of (W := calls) p msg) is_u64.
Proof.
  intros Hp. eapply triple_bind; [by eapply get_guti_typed|]. intros g Hk.
  eapply (triple_bind _ _ (fun _ => True)); [|intros _ _; by apply triple_ret].
  destruct (g =? 0); [by apply triple_lift, HF | by apply triple_ret].
Qed.

Lemma net_typed {A} (Q : A -> Prop) (c : prog calls A) :
  (forall n, satisfies F Q (c n).1) -> triple typed F (Amf.on_net c) Q.
Proof.
  intros Hc s Hs. unfold Amf.on_net. specialize (Hc (Amf.net s)). by destruct (c (Amf.net s)) as [r n].
Qed.

Lemma amf_snd_typed n fd p :
  sized n p -> 4 + n <= BUF_SIZE -> triple typed F (Amf.server_snd (W := calls) fd p) (fun _ => True).
Proof.
  intros Hp Hn. eapply triple_bind; [apply triple_lift; by eapply framed_typed|]. intros bs _.
  by apply triple_modify.
Qed.
End Tables.

(** ** Replies and requests *)

Section Calls.
Context `{CL : CryptoLib, LAWS : !CryptoLaws}.
Context (F : fault -> Prop) (HF : forall f, stops f -> F f).
Context (inet_aton : string -> option Z) (w : world) (Hw : wf_world w).
#[local] Instance ausf_peer : AusfStub calls := world_ausf w.
#[local] Instance smf_peer : SmfStub calls := world_smf w.
#[local] Instance ho_peers : Handover calls := world_handover w.

Lemma ask_ausf_typed ch user g n : satisfies F (fun _ => True) (GreeterClient.AmfAusfInteraction ch user g n).1.
Proof. unfold GreeterClient.AmfAusfInteraction. cbn. by destruct (ausf_says _ _ _). Qed.

(** What the session handler uses of the packet. *)
Definition session_reply (g : GrpcPacket.t) : Prop :=
  is_u64 (GrpcPacket.guti g) /\ wf_gpkt g /\ short (GrpcPacket.ue_ip_addr g) /\ short (GrpcPacket.g_upf_s1_ip_addr g).

Lemma create_call_typed ch g n :
  session_reply g -> satisfies F session_reply (GreeterClient.SessionCreationFC ch g n).1.
Proof.
  intros Hg. unfold GreeterClient.SessionCreationFC. cbn.
  destruct (smf_says w ch _) as [reply|] eqn:E; [|exact Hg]. cbn.
  apply (ww_smf _ Hw) in E as [H1 H2].
  unfold session_reply, wf_gpkt. cbn. repeat split; try done; apply u64_range || apply u32_range.
Qed.
Lemma modify_call_typed ch g n : satisfies F (fun _ => True) (GreeterClient.ModifyBearerFC ch g n).1.
Proof. unfold GreeterClient.ModifyBearerFC. cbn. by destruct (smf_says _ _ _). Qed.
Lemma detach_call_typed ch g n : satisfies F (fun _ => True) (GreeterClient.DetachFC ch g n).1.
Proof. unfold GreeterClient.DetachFC. cbn. by destruct (smf_says _ _ _). Qed.

Lemma channel_typed ip wid : satisfies F (fun _ => True) (Amf.ausf_channel_of ip wid).
Proof. unfold Amf.ausf_channel_of, string_at. destruct (String.get _ _); [done | by apply HF]. Qed.

Lemma guti_typed a b : satisfies F is_u64 (Telecom.get_guti a b).
Proof. by apply stoull_typed. Qed.
Lemma cteid_typed g : satisfies F is_u32 (get_s11cteid g).
Proof.
  unfold get_s11cteid, substr_from. destruct (_ <? _)%nat; [by apply HF|]. res.
  eapply satisfies_bind; [by apply stoull_typed|]. intros x _. apply u32_range.
Qed.

Lemma address_typed ip port : satisfies F (fun _ => True) (Network.set_inet_sock_addr inet_aton ip port).
Proof. unfold Network.set_inet_sock_addr. destruct (inet_aton ip); [done | by apply HF]. Qed.

(** *** The UPF and the base stations of the handover code *)

Lemma upf_conn_typed : triple typed F (Amf.upf_client_conn inet_aton) (fun _ => True).
Proof.
  unfold Amf.upf_client_conn.
  eapply triple_bind; [apply triple_lift, address_typed|]. intros _ _.
  eapply triple_bind; [apply triple_lift, address_typed|]. intros dst _.
  eapply (triple_bind _ _ (fun _ => True)); [by apply net_typed|]. intros _ _. by apply triple_ret.
Qed.

(** The length is -1 when nothing was received. *)
Lemma exchange_typed n dst p :
  sized n p -> n <= BUF_SIZE -> triple typed F (Amf.upf_client_exchange dst p) (held (fun _ _ => True) 0).
Proof.
  intros Hp Hn. unfold Amf.upf_client_exchange.
  eapply triple_bind; [apply triple_lift; by eapply dgram_typed|]. intros bs _.
  eapply (triple_bind _ _ (fun _ => True)); [by apply net_typed|]. intros _ _.
  eapply (triple_bind _ _ (fun q => Packet.data q = zbuf)).
  { apply triple_lift. by rewrite clear_pkt_rd by by eapply sized_block. }
  intros q Hq.
  eapply (triple_bind _ _ (fun d => d = upf_says w)); [by apply net_typed|]. intros _ ->.
  eapply triple_bind; [apply triple_lift; rewrite Hq; apply recvfrom_typed|].
  intros [[status buf] from] E. cbn [fst snd] in E. subst buf. apply triple_ret.
  by destruct (block_of_ok _ (ww_upf _ Hw)).
Qed.

Lemma ran_connect_typed ip port : triple typed F (Amf.on_net (ho_ran_connect ip port)) (fun _ => True).
Proof. by apply net_typed. Qed.
Lemma ran_snd_typed fd bs : triple typed F (Amf.on_net (ho_ran_snd fd bs)) (fun _ => True).
Proof. by apply net_typed. Qed.
End Calls.

(** ** The handlers *)

(** A received packet, at its content: the header is in range, and what the
    NAS protection does with a copy of it is known. *)
Definition ready `{CryptoLib} (F : fault -> Prop) (p : Packet.t) : Prop :=
  held msg_ok 12 p /\ satisfies F (opens F) (Packet.copy p).

(** The messages whose HMAC is checked. *)
Definition nas_protected (s : S1ap.t) : Prop := S1ap.msg_type s ∈ [3; 4; 5].
(** Those with which the AMF extracts a [bool], from the message or from the
    UPF's answer. *)
Definition reads_bool (s : S1ap.t) : Prop := S1ap.msg_type s ∈ [3; 8; 9; 10].

Section Handlers.
Context `{CL : CryptoLib, LAWS : !CryptoLaws}.
Context (F : fault -> Prop) (HF : forall f, stops f -> F f).
Context (inet_aton : string -> option Z) (w : world) (Hw : wf_world w).
Context (garbage : Z -> Amf.UeContext) (Hg : wf_garbage garbage).
Context (m : GrpcPacket.t) (Hm : wf_gpkt m) (xres0 k_asme0 : Z) (Hx : is_u64 xres0) (Hk : is_u64 k_asme0).
#[local] Instance ausf_server : AusfStub calls := world_ausf w.
#[local] Instance smf_server : SmfStub calls := world_smf w.
#[local] Instance ho_servers : Handover calls := world_handover w.

Lemma copy_both c p :
  held msg_ok c p -> satisfies F (opens F) (Packet.copy p) ->
  satisfies F (fun q => held msg_ok c q /\ opens F q) (Packet.copy p).
Proof.
  intros H1 H2. pose proof (copy_msg F c p H1) as H. by destruct (Packet.copy p).
Qed.

Lemma block_held L c p : held L c p -> length (Packet.data p) = Z.to_nat BUF_SIZE.
Proof. apply ac_data. Qed.
Lemma block_opened n p : opened n p -> n <= BUF_SIZE -> length (Packet.data p) = Z.to_nat BUF_SIZE.
Proof. intros (h & pre & -> & Hn) Hl. apply length_pad. rewrite app_nil_r. lia. Qed.
Lemma header_of c p : held msg_ok c p -> S1ap.wf (Packet.s1ap_hdr p).
Proof. intros [_ _ _ [_ H]]. exact H. Qed.
Lemma enb_of c p : held msg_ok c p -> is_u32 (S1ap.enodeb_s1ap_ue_id (Packet.s1ap_hdr p)).
Proof. intros H%header_of. destruct H as (_ & _ & _ & <- & _). apply u32_range. Qed.

Lemma amf_reads {A} (f : Amf.proc calls -> A) : triple typed F (gets f) (fun _ => True).
Proof. by apply triple_gets. Qed.
Lemma s1_ip_read : triple typed F (gets (fun s : Amf.proc calls => Amf.g_upf_s1_ip_addr (Amf.amf s))) short.
Proof. apply triple_gets. intros s Hs. apply Hs. Qed.

(** A member of a context, by its type. *)
Ltac ctx_read :=
  let by_type Q := (apply (get_typed F garbage Hg Q); [assumption | intros ? []; tauto]) in
  first [by_type is_u64 | by_type is_u32 | by_type is_u16 | by_type is_u8
        | by_type (fun v => Forall is_u64 v /\ (length v <= 1)%nat)
        | by_type (fun _ : Z => True)].
Ltac ctx_write :=
  try match goal with |- context [Packet.s1ap_hdr ?q] =>
    match goal with H : held msg_ok _ q |- _ => pose proof (enb_of _ _ H) end end;
  apply set_typed; [exact Hg | assumption | unfold Amf.init_ctx; ctx_ok].
Ltac asked lem := apply net_typed; intros; apply lem; assumption.

(** The size of a message that is built. *)
Ltac size_ok :=
  cbn [enc_items enc_item]; unfold short in *; rewrite ?len_app, ?len_vec; unfold len in *;
  rewrite ?length_le_bytes; unfold BUF_SIZE, HMAC_LEN in *; cbn [length] in *; lia.

#[local] Hint Resolve HF Hg Hw Hm Hx Hk u8_range u32_range u64_range : triple.
#[local] Hint Extern 1 (_ <= _) => size_ok : triple.
#[local] Hint Extern 1 (0 <= _) => size_ok : triple.
#[local] Hint Extern 1 (length (Packet.data _) = _) => 
  (first [eapply block_held; eassumption | eapply block_opened; [eassumption | size_ok]]) : triple.
#[local] Hint Resolve copy_both clear_typed append_typed opened_sized s1ap_typed reply_typed gtp_out_typed
  framed_typed guti_typed cteid_typed channel_typed : triple.
#[local] Hint Extern 1 (satisfies _ _ (Packet.copy _)) => (apply copy_msg; eassumption) : triple.
#[local] Hint Extern 1 (satisfies _ _ (Packet.extract_item_uint64 _)) =>
  (eapply extract_uint64_typed; [eassumption | lia | unfold BUF_SIZE; lia]) : triple.
#[local] Hint Extern 1 (satisfies _ _ (Packet.extract_item_uint32 _)) =>
  (eapply extract_uint32_typed; [eassumption | lia | unfold BUF_SIZE; lia]) : triple.
#[local] Hint Extern 1 (satisfies _ _ (Packet.extract_item_uint16 _)) =>
  (eapply extract_uint16_typed; [eassumption | lia | unfold BUF_SIZE; lia]) : triple.
#[local] Hint Extern 1 (satisfies _ _ (Packet.extract_item_uint8 _)) =>
  (eapply extract_uint8_typed; [eassumption | lia | unfold BUF_SIZE; lia]) : triple.
#[local] Hint Extern 1 (satisfies _ _ (Packet.extract_item_int _)) =>
  (eapply extract_int_typed; [eassumption | lia | unfold BUF_SIZE; lia]) : triple.
#[local] Hint Extern 1 (satisfies _ _ (Packet.extract_item_bool _)) =>
  (eapply extract_bool_typed; [assumption | eassumption | lia | unfold BUF_SIZE; lia]) : triple.
#[local] Hint Extern 1 (satisfies _ _ (Packet.extract_gtp_hdr _)) =>
  (eapply extract_gtp_typed; [eassumption | lia | unfold BUF_SIZE; lia]) : triple.
#[local] Hint Extern 1 (satisfies _ _ (Packet.extract_diameter_hdr _)) =>
  (eapply extract_diameter_typed; [eassumption | lia | unfold BUF_SIZE; lia]) : triple.
#[local] Hint Extern 1 (satisfies _ _ (unprotect _ _ _ _)) => eassumption : triple.
#[local] Hint Extern 2 (triple _ _ (lift _) _) => apply triple_lift : triple.
#[local] Hint Extern 1 (triple _ _ (Amf.ctx_get _ _ _) _) => ctx_read : triple.
#[local] Hint Extern 1 (triple _ _ (Amf.ctx_set _ _ _) _) => ctx_write : triple.
#[local] Hint Extern 1 (triple _ _ (Amf.guti_of _ _) _) => (eapply guti_of_typed; eassumption) : triple.
#[local] Hint Extern 1 (triple _ _ (Amf.get_guti _) _) => (eapply get_guti_typed; eassumption) : triple.
#[local] Hint Extern 1 (triple _ _ (gets (fun s => Amf.g_upf_s1_ip_addr _)) _) => exact s1_ip_read : triple.
#[local] Hint Extern 2 (triple _ _ (gets _) _) => apply amf_reads : triple.
#[local] Hint Extern 1 (triple _ _ (Amf.set_upf_info _ _) _) => (apply upf_info_typed; assumption) : triple.
#[local] Hint Extern 1 (triple _ _ (Amf.set_crypt_context _ _) _) => (apply crypt_typed; assumption) : triple.
#[local] Hint Extern 1 (triple _ _ (Amf.set_integrity_context _ _) _) => (apply integrity_typed; assumption) : triple.
#[local] Hint Extern 1 (triple _ _ (Amf.new_identity _) _) => (apply identity_typed; assumption) : triple.
#[local] Hint Extern 1 (triple _ _ (Amf.server_snd _ _) _) => (eapply amf_snd_typed; [eassumption | size_ok]) : triple.

#[local] Hint Extern 1 (triple _ _ (Amf.on_net (GreeterClient.AmfAusfInteraction _ _ _)) _) => asked ask_ausf_typed : triple.
#[local] Hint Extern 1 (triple _ _ (Amf.on_net (GreeterClient.ModifyBearerFC _ _)) _) => asked modify_call_typed : triple.
#[local] Hint Extern 1 (triple _ _ (Amf.on_net (GreeterClient.DetachFC _ _)) _) => asked detach_call_typed : triple.
#[local] Hint Extern 1 (triple _ _ (Amf.on_net (GreeterClient.SessionCreationFC _ _)) _) =>
  (apply (net_typed F (fun g => is_u64 (GrpcPacket.guti g) /\ (is_u32 (GrpcPacket.s1_uteid_ul g) /\
     is_u32 (GrpcPacket.s11_cteid_upf g)) /\ short (GrpcPacket.ue_ip_addr g) /\
     short (GrpcPacket.g_upf_s1_ip_addr g))); intros; apply create_call_typed; [exact Hw |
     split; [assumption | split; [exact Hm | by split]]]) : triple.
#[local] Hint Extern 1 (triple _ _ (Amf.upf_client_conn _) _) => (by apply upf_conn_typed) : triple.
#[local] Hint Extern 1 (triple _ _ (Amf.upf_client_exchange _ _) _) =>
  (eapply exchange_typed; [exact Hw | eassumption | size_ok]) : triple.
#[local] Hint Extern 1 (triple _ _ (Amf.on_net (ho_ran_connect _ _)) _) => apply ran_connect_typed : triple.
#[local] Hint Extern 1 (triple _ _ (Amf.on_net (ho_ran_snd _ _)) _) => apply ran_snd_typed : triple.
#[local] Hint Extern 1 (triple _ _ (modify (Amf.on_amf (fun a => a <| Amf.g_upf_s1_ip_addr := _ |>))) _) =>
  (apply s1_ip_typed; assumption) : triple.
#[local] Hint Extern 1 (triple _ _ (modify (Amf.on_amf (fun a => a <| Amf.g_upf_s1_port := _ |>))) _) =>
  (apply s1_port_typed) : triple.
#[local] Hint Extern 1 (triple _ _ (Amf.rem_itfid _) _) => apply rem_itfid_typed : triple.
#[local] Hint Extern 1 (triple _ _ (Amf.rem_uectx _) _) => apply amf_rem_uectx_typed : triple.
#[local] Hint Extern 1 (satisfies _ _ (protect _ _ _)) => (apply protect_typed; [eassumption | size_ok]) : triple.
#[local] Hint Extern 1 (satisfies _ _ (if HMAC_ON then _ else _)) =>
  (change HMAC_ON with true; cbv iota; apply hmac_typed; [eassumption | size_ok]) : triple.

Ltac handled := triple_tac; try done.

Lemma autn_typed fd p : held msg_ok 12 p -> triple typed F (Amf.handle_autn garbage fd p) (fun _ => True).
Proof. intros Hp. unfold Amf.handle_autn. handled. Qed.
Lemma initial_attach_typed fd p wid :
  held msg_ok 12 p -> triple typed F (Amf.handle_initial_attach garbage m xres0 k_asme0 fd p wid) (fun _ => True).
Proof. intros Hp. unfold Amf.handle_initial_attach. handled. Qed.
Lemma security_typed fd p :
  held msg_ok 12 p -> triple typed F (Amf.handle_security_mode_cmd garbage fd p) (fun _ => True).
Proof. intros Hp. unfold Amf.handle_security_mode_cmd. handled. Qed.
Lemma location_typed p wid :
  held msg_ok 12 p -> triple typed F (Amf.handle_location_update garbage m p wid) (fun _ => True).
Proof. intros Hp. unfold Amf.handle_location_update. handled. Qed.
Lemma session_typed fd p wid :
  held msg_ok 12 p -> triple typed F (Amf.handle_create_session garbage m fd p wid) (fun _ => True).
Proof. intros Hp. unfold Amf.handle_create_session. handled. Qed.
Lemma modify_bearer_typed p wid :
  held msg_ok 12 p -> triple typed F (Amf.handle_modify_bearer garbage m p wid) (fun _ => True).
Proof. intros Hp. unfold Amf.handle_modify_bearer. handled. Qed.
Lemma setup_typed p :
  F Packet.bad_bool -> held msg_ok 12 p -> triple typed F (Amf.setup_indirect_tunnel inet_aton garbage p) (fun _ => True).
Proof. intros HB Hp. unfold Amf.setup_indirect_tunnel. handled. Qed.
Lemma request_typed p :
  held msg_ok 12 p -> triple typed F (Amf.request_target_RAN garbage p) (fun _ => True).
Proof. intros Hp. unfold Amf.request_target_RAN. handled. Qed.
Lemma amf_handover_typed p :
  held msg_ok 12 p -> triple typed F (Amf.handle_handover garbage p) (fun _ => True).
Proof.
  intros Hp. unfold Amf.handle_handover.
  eapply triple_bind; [by eapply triple_lift, copy_msg | intros q Hq; by apply request_typed].
Qed.
Lemma amf_completion_typed p :
  F Packet.bad_bool -> held msg_ok 12 p ->
  triple typed F (Amf.handle_handover_completion inet_aton garbage p) (fun _ => True).
Proof. intros HB Hp. unfold Amf.handle_handover_completion. handled. Qed.
Lemma amf_teardown_typed p :
  F Packet.bad_bool -> held msg_ok 12 p ->
  triple typed F (Amf.teardown_indirect_tunnel inet_aton garbage p) (fun _ => True).
Proof. intros HB Hp. unfold Amf.teardown_indirect_tunnel. handled. Qed.

(** *** The protected messages *)

Ltac handled_ready :=
  eapply triple_bind; [by eapply triple_lift, copy_both | intros q [Hq Hu]; handled].

Lemma mode_complete_typed fd p :
  F Packet.bad_bool -> ready F p -> triple typed F (Amf.handle_security_mode_complete garbage fd p) (fun _ => True).
Proof. intros HB [Hp Ho]. unfold Amf.handle_security_mode_complete. handled_ready. Qed.
Lemma attach_complete_typed p : ready F p -> triple typed F (Amf.handle_attach_complete garbage p) (fun _ => True).
Proof. intros [Hp Ho]. unfold Amf.handle_attach_complete. handled_ready. Qed.
Lemma amf_detach_typed fd p wid :
  ready F p -> triple typed F (Amf.handle_detach garbage m fd p wid) (fun _ => True).
Proof. intros [Hp Ho]. unfold Amf.handle_detach. handled_ready. Qed.

(** *** The dispatcher *)

Lemma dispatch_typed fd wid p :
  held msg_ok 12 p -> (reads_bool (Packet.s1ap_hdr p) -> F Packet.bad_bool) -> (nas_protected (Packet.s1ap_hdr p) -> ready F p) ->
  triple typed F (Amf.dispatch inet_aton garbage m xres0 k_asme0 fd wid p) (fun _ => True).
Proof.
  intros Hp HB Hr. unfold Amf.dispatch, nas_protected, reads_bool in *.
  destruct (_ =? 0); [|destruct (0 <? _); [|by apply triple_ret]];
  destruct (S1ap.msg_type _) as [|[[[?|?|]|[?|[?|?|]|]|]|[[?|[?|?|]|]|[?|[?|?|]|]|]|]|?];
  try (by apply triple_ret).
  - by apply initial_attach_typed.
  - by apply amf_handover_typed.
  - apply amf_completion_typed; [apply HB; set_solver | done].
  - apply amf_detach_typed, Hr. set_solver.
  - eapply triple_bind; [apply mode_complete_typed; [apply HB; set_solver | apply Hr; set_solver]|]. intros [] _; [|by apply triple_ret].
    eapply triple_bind; [by apply location_typed|]. intros _ _. by apply session_typed.
  - apply amf_teardown_typed; [apply HB; set_solver | done].
  - apply setup_typed; [apply HB; set_solver | done].
  - eapply triple_bind; [apply attach_complete_typed, Hr; set_solver|]. intros _ _. by apply modify_bearer_typed.
  - eapply triple_bind; [by apply autn_typed|]. intros [] _; [by apply security_typed | by apply triple_ret].
Qed.
End Handlers.

(** ** The server *)

(** The S1AP header of the message [bs]: the twelve bytes at the start of the
    cleared buffer. *)
Definition wire_hdr (bs : list Z) : S1ap.t := S1ap.of_bytes (take 12 (pad bs)).

(** How the server can stop at [bs]. *)
Definition amf_stops (bs : list Z) (f : fault) : Prop :=
  stops f \/ (len bs < 32 /\ nas_protected (wire_hdr bs)) \/ (f = Packet.bad_bool /\ reads_bool (wire_hdr bs)).

Lemma wire_hdr_wf bs : bytes bs -> S1ap.wf (wire_hdr bs).
Proof.
  intros Hb. apply s1ap_of_bytes_wf, Forall_take, bytes_app. split; [done|]. apply Forall_replicate. split; lia.
Qed.

Lemma extract_wire h bs :
  len bs <= BUF_SIZE ->
  Packet.extract_s1ap_hdr (rd h [] bs) =
  Ret (Packet.mk (h_gtp h) (wire_hdr bs) (h_dia h) (pad bs) 12 (len bs)).
Proof.
  intros Hl. unfold Packet.extract_s1ap_hdr, Packet.extract_raw, rd, rdl, mem_read. pk. cbn [app].
  rewrite (proj2 (in_bounds_spec _ _ _)) by (rewrite len_pad by done; unfold S1ap.S1AP_HDR_LEN, BUF_SIZE; rewrite ?len_nil; lia). res.
  by rewrite drop_0.
Qed.

(** A whole header: the packet is cut behind it. *)
Lemma wire_cut h bs :
  12 <= len bs <= BUF_SIZE ->
  Packet.mk (h_gtp h) (wire_hdr bs) (h_dia h) (pad bs) 12 (len bs) =
  rd (set_s1ap h (wire_hdr bs)) (take 12 bs) (drop 12 bs).
Proof.
  intros Hl. unfold rd, rdl. rewrite take_drop. f_equal.
  unfold len in *. rewrite length_take. lia.
Qed.

Section Server.
Context `{CL : CryptoLib, LAWS : !CryptoLaws}.
Context (inet_aton : string -> option Z) (w : world) (Hw : wf_world w).
Context (garbage : Z -> Amf.UeContext) (Hg : wf_garbage garbage) (h0 : hdrs).
Context (m : GrpcPacket.t) (Hm : wf_gpkt m) (xres0 k_asme0 : Z) (Hx : is_u64 xres0) (Hk : is_u64 k_asme0).
#[local] Instance ausf_there : AusfStub calls := world_ausf w.
#[local] Instance smf_there : SmfStub calls := world_smf w.
#[local] Instance ho_there : Handover calls := world_handover w.

Lemma wire_held h bs :
  bytes bs -> len bs <= BUF_SIZE ->
  held msg_ok 12 (Packet.mk (h_gtp h) (wire_hdr bs) (h_dia h) (pad bs) 12 (len bs)).
Proof.
  intros Hb Hl. split; cbn; [by apply length_pad | | done |].
  - apply bytes_app. split; [done|]. apply Forall_replicate. split; lia.
  - split; [|by apply wire_hdr_wf]. split; [apply len_nonneg | done].
Qed.

Lemma wire_ready h bs :
  bytes bs -> len bs <= BUF_SIZE -> nas_protected (wire_hdr bs) ->
  ready (amf_stops bs) (Packet.mk (h_gtp h) (wire_hdr bs) (h_dia h) (pad bs) 12 (len bs)).
Proof.
  intros Hb Hl Hp. split; [by apply wire_held|]. destruct (decide (32 <= len bs)) as [H32|H32].
  - rewrite wire_cut by lia. assert (fits (take 12 bs) (drop 12 bs)) as Hf.
    { unfold fits. rewrite <- len_app, take_drop. done. }
    rewrite copy_rd by done. cbn [satisfies]. apply opens_long; [by left | done | by apply Forall_drop |].
    unfold len in *. rewrite length_drop. lia.
  - pose proof (copy_msg (amf_stops bs) 12 _ (wire_held h bs Hb Hl)) as Hc.
    eapply satisfies_mono; [exact Hc | done |]. intros q Hq k k' msg.
    eapply satisfies_mono; [eapply (opens_any 12 q) | | done].
    + eapply held_mono; [|exact Hq]. by intros n s [].
    + lia.
    + unfold HMAC_LEN, BUF_SIZE. lia.
    + intros f _. right. left. split; [lia | done].
Qed.

(** C15: the AMF is type and memory safe against any base station: let a framed
    message of 1 to 1,024 arbitrary bytes arrive, let the AUSF answer anything
    or nothing, the UPF any datagram or none, and the SMF nothing or a message
    whose two addresses have at most 64 characters each (nothing in the code
    bounds them), and let the base stations accept the connections it opens
    to them (a connection that is never accepted is never returned from).
    Members and globals that nothing has set hold values of their types.  Then the tables keep keys and members in the range of their
    C++ types.  The worker either returns with the whole message consumed, or
    the process stops by an exit or a C++ exception; undefined behaviour needs
    a message of type 3, 4 or 5 with less than the 20 bytes of an HMAC behind
    its header, or one of type 3, 8, 9 or 10 with which the AMF reads a byte,
    of the message or of the UPF's answer, that is no value of a [bool]. *)
Theorem amf_memory_safe fd wid evs bs rest p :
  0 <= fd -> bytes bs -> 0 < len bs <= BUF_SIZE -> delivered evs = frame bs ++ rest -> typed p ->
  let '(r, p') := Amf.handle_ue inet_aton garbage h0 m xres0 k_asme0 fd wid evs p in
  typed p' /\
  match r with
  | Ret (Some (status, evs')) => status = 1 /\ delivered evs' = rest
  | Ret None => False
  | Fault f =>
      stops f \/ (len bs < 32 /\ nas_protected (wire_hdr bs)) \/ (f = Packet.bad_bool /\ reads_bool (wire_hdr bs))
  end.
Proof.
  intros Hfd Hb Hl Hd Hp. unfold Amf.handle_ue. run with (apply construct_rd).
  set (h := mk_hdrs (Gtp.construct (h_gtp h0)) (h_s1ap h0) (h_dia h0)).
  destruct (read_sctp_pkt_spec fd (rd h [] []) evs bs rest) as (evs' & E & Hr); [done | done | done | lia |].
  unfold SctpServer.rcv. run with (rewrite E; reflexivity). cbn [option_map]. cbv beta iota.
  change (Packet.plen (rd ?x ?y ?z)) with (len (y ++ z)). rewrite (proj2 (Z.leb_gt _ _)) by (cbn [app]; lia).
  run with (apply extract_wire; lia).
  match goal with |- context [Amf.dispatch _ _ _ _ _ _ _ ?q] => set (q0 := q) end.
  assert (triple typed (amf_stops bs) (Amf.dispatch inet_aton garbage m xres0 k_asme0 fd wid q0) (fun _ => True)) as HT.
  { apply dispatch_typed; try done; [by left | apply wire_held; [done | lia] | right; by right | intros; apply wire_ready; [done | lia | done]]. }
  destruct (HT p Hp) as [H1 H2]. unfold mbind, prog_bind.
  destruct (Amf.dispatch _ _ _ _ _ _ _ _ p) as [[[]|f] p']; done.
Qed.
End Server.

(** ** The message the server cannot take *)

(** Undefined behaviour, wherever it leaves the process. *)
Definition overruns {S A} (c : prog S A) (s : S) : Prop := exists why s', c s = (Fault (UB why), s').

Lemma overruns_bind {S A B} (c : prog S A) (k : A -> prog S B) s : overruns c s -> overruns (x ← c; k x) s.
Proof. intros (why & s' & E). exists why, s'. unfold mbind, prog_bind. by rewrite E. Qed.

Section Short.
Context {W : Type} `{AS : AusfStub W} `{SS : SmfStub W} `{HO : Handover W}.
Context `{CL : CryptoLib, LAWS : !CryptoLaws}.
Context (inet_aton : string -> option Z) (garbage : Z -> Amf.UeContext) (h0 : hdrs).

Lemma unprotect_short h pre post k k' msg {A S} (f : Packet.t -> prog S A) s :
  fits pre post -> len pre + 20 <= BUF_SIZE -> len post < 20 ->
  overruns (pkt ← lift (unprotect (rd h pre post) k k' msg); f pkt) s.
Proof.
  intros H1 H2 H3. apply overruns_bind. unfold unprotect. change HMAC_ON with true. cbv iota.
  destruct (hmac_check_short h pre post k' H1 H2 H3) as [why E]. exists why, s. unfold lift. by rewrite E.
Qed.

(** C16: no handler of a protected message looks at its length: from any base
    station, a message of type 3, 4 or 5 for a registered UE with fewer than
    20 bytes behind the header runs the AMF into undefined behaviour (a
    [memmove] of a negative size), whatever the state of its tables. *)
Theorem short_message_overruns m xres0 k_asme0 fd wid evs hd body rest guti (p : Amf.proc W) :
  0 <= fd -> S1ap.wf hd -> nas_protected hd -> len body < 20 ->
  delivered evs = s1ap_frame hd body ++ rest -> 0 < S1ap.mme_s1ap_ue_id hd ->
  Amf.s1amf_id (Amf.amf p) !! S1ap.mme_s1ap_ue_id hd = Some guti -> guti <> 0 ->
  overruns (Amf.handle_ue inet_aton garbage h0 m xres0 k_asme0 fd wid evs) p.
Proof.
  intros Hfd Hw Hty Hl Hd Hmme Hg Hnz. unfold overruns.
  destruct (handle_ue_run inet_aton garbage h0 m xres0 k_asme0 fd wid evs hd body rest p Hfd Hw ltac:(lia) Hd)
    as (evs' & _ & ->). apply overruns_bind.
  assert (fits (S1ap.to_bytes hd) body) as Hf by (unfold fits, BUF_SIZE; len_lia).
  unfold Amf.dispatch, s1ap_pkt. change (Packet.s1ap_hdr (rd (received h0 hd) _ _)) with hd.
  rewrite (proj2 (Z.eqb_neq _ 0)), (proj2 (Z.ltb_lt 0 _)) by lia.
  destruct p as [[ids cnt s1 ctx ai si ip port] n o]. cbn [Amf.amf Amf.s1amf_id] in Hg.
  change (Amf.mk_proc _ n o) with (st ids ai si cnt s1 ctx ip port n o).
  unfold nas_protected in Hty. rewrite !elem_of_cons in Hty. destruct Hty as [-> | [-> | [-> | []%elem_of_nil]]].
  1, 2: apply overruns_bind.
  all: unfold Amf.handle_security_mode_complete, Amf.handle_attach_complete, Amf.handle_detach; unfold overruns.
  all: run with (by apply copy_rd); rewrite (guti_of_run ids ai si _ _ _ _ guti) by done.
  all: repeat (rewrite amf_get_run; cbv beta).
  all: apply unprotect_short; [done | unfold BUF_SIZE; len_lia | done].
Qed.
End Short.

(** ** Witnesses *)

(** The tables of [demo_attached], and 32 bytes for its UE. *)
Lemma demo_ue_wf : wf_uectx demo_ue.
Proof. split; repeat match goal with |- _ /\ _ => split end; first [done | by vm_compute | by constructor | vm_compute; lia]. Qed.

Definition demo_typed : Amf.proc calls := Amf.mk_proc (Amf.amf demo_attached) [] [].
Lemma demo_typed_ok : typed demo_typed.
Proof.
  split; cbn -[demo_ue deployed_guti]; [done | | | by split].
  - by apply map_Forall_insert_2; [|apply map_Forall_empty].
  - apply map_Forall_insert_2; [split; [done | apply demo_ue_wf] | apply map_Forall_empty].
Qed.
Lemma demo_garbage_wf : wf_garbage amf_garbage.
Proof. intros g. done. Qed.
Lemma demo_world_wf : wf_world demo_world.
Proof. split; [by intros ch r reply [= <-] | done]. Qed.

Definition demo_bytes : list Z := S1ap.to_bytes (demo_hd 5 7) ++ replicate 20 0.
Lemma demo_bytes_ok : bytes demo_bytes.
Proof. apply bytes_app. split; [apply bytes_s1ap | apply Forall_replicate; by split]. Qed.

(** Not one byte of the HMAC is right, yet nothing is overrun. *)
Lemma amf_memory_safe_witness :
  let '(r, p') := Amf.handle_ue (AS := world_ausf demo_world) (SS := world_smf demo_world) (HO := world_handover demo_world)
    core_aton amf_garbage zero_hdrs no_grpc 111 222 5 0 (one_segment (frame demo_bytes)) demo_typed in
  typed p' /\ match r with Fault f => stops f | Ret x => x <> None end.
Proof.
  pose proof (amf_memory_safe core_aton demo_world demo_world_wf amf_garbage demo_garbage_wf zero_hdrs no_grpc
    ltac:(by split) 111 222 ltac:(done) ltac:(done) 5 0 (one_segment (frame demo_bytes)) demo_bytes [] demo_typed
    ltac:(lia) demo_bytes_ok ltac:(by split) ltac:(reflexivity) demo_typed_ok) as H.
  destruct (Amf.handle_ue _ _ _ _ _ _ _ _ _ _) as [r p']. destruct H as [H1 H2]. split; [exact H1|].
  destruct r as [[[? ?]|]|f]; [discriminate | contradiction H2 |]. 
  destruct H2 as [H2|[[H2 _]|[_ H2]]]; [exact H2 | discriminate H2 |].
  unfold reads_bool in H2. rewrite !elem_of_cons in H2. cbn in H2. destruct H2 as [H2|[H2|[H2|[H2|H2]]]]; [discriminate H2 .. |].
  by apply elem_of_nil in H2.
Defined.

Lemma short_message_overruns_witness :
  overruns (Amf.handle_ue core_aton amf_garbage zero_hdrs no_grpc 111 222 5 0 (segment (demo_hd 5 7) [1; 2; 3])) demo_attached.
Proof.
  apply (short_message_overruns core_aton amf_garbage zero_hdrs no_grpc 111 222 5 0 _ (demo_hd 5 7) [1; 2; 3] []
    (deployed_guti 1)).
  - lia.
  - by repeat split.
  - unfold nas_protected. cbn. set_solver.
  - by vm_compute.
  - reflexivity.
  - by vm_compute.
  - reflexivity.
  - done.
Defined.
