(* ===== verification/Handover.v ===== *)
(** * Handover: the AMF's messages, the UPF and the base stations

    The S1AP messages 7 to 10 at the AMF and the N4 messages 4 to 6 they lead
    to (src/amf.cpp, src/upf.cpp).  [hnet] is what the AMF's handover code
    reaches: a UPF, if something listens where the datagrams are sent, and
    the base stations, if they accept its connections; the AMF's other
    services play no part.  Every branch is covered: what is there and what
    is not is a parameter.  The functions of a base station that make and
    take these messages (src/ran.cpp) are run one by one: no program of the
    source calls them. *)

From Stdlib Require Import ZArith Lia Ascii String.
From S2P Require Import Prelude Utils Telecom Headers Packet Network Transport Security Messages.
From S2P Require Import Upf Smf Amf Ran Core Attach.

Section World.
(** Where a UPF listens, and which base stations accept connections. *)
Context (garbage_ul garbage_dl : Z -> Z) (listening : sockaddr_in -> bool).
Context (accepts : string * Z -> bool).

(** The UPF; the datagrams waiting at the AMF's socket; the endpoints of the
    connections the AMF opened; what it sent on them and nobody has read. *)
Record hnet := mk_hnet {
  h_upf : Upf.proc;
  h_box : list UdpClient.datagram;
  h_conns : list (string * Z);
  h_sent : list (string * Z * list Z)
}.

Definition amf_udp : sockaddr_in := mk_sockaddr 40001 4.

(** One turn of the UPF's loop. *)
Definition upf_turn (d : list Z) : prog hnet unit := fun w =>
  let '(_, u) := Upf.handle_s11_traffic garbage_ul garbage_dl amf_udp (rd zero_hdrs [] [])
                   (UdpClient.Got amf_udp d) (h_upf w) in
  (Ret tt, w <| h_upf := u |>
             <| h_box := h_box w ++ map (fun r => UdpClient.Got upf_addr r.2)
                           (drop (length (Upf.out (h_upf w))) (Upf.out u)) |>).

#[local] Instance h_n4 : N4 hnet := {
  n4_snd dst d := if listening dst then upf_turn d else mret tt;
  n4_rcv := fun w =>
    match h_box w with
    | [] => (Ret UdpClient.Timeout, w)
    | d :: ds => (Ret d, w <| h_box := ds |>)
    end
}.

#[local] Instance h_handover : Handover hnet := {
  ho_n4 := h_n4;
  ho_udp_open _ := modify (fun w => w <| h_box := [] |>);
  ho_ran_connect ip port := fun w =>
    if accepts (ip, port) then
      (Ret (Z.of_nat (length (h_conns w))), w <| h_conns := h_conns w ++ [(ip, port)] |>)
    else (Fault never_connects, w);
  ho_ran_snd fd fr := fun w =>
    match h_conns w !! Z.to_nat fd with
    | Some ep => (Ret tt, w <| h_sent := h_sent w ++ [(ep, fr)] |>)
    | None => (Ret tt, w)
    end
}.

#[local] Instance h_ausf : AusfStub hnet := { call_AmfAusfInteraction _ _ := mret None }.
#[local] Instance h_smf : SmfStub hnet := { call_AmfSmfInteraction _ _ := mret None }.

Context `{CL : CryptoLib}.
Context (inet_aton : string -> option Z) (garbage : Z -> Amf.UeContext) (h0 : hdrs).
Context (seg : list Z -> list Network.event) (m : GrpcPacket.t) (fd wid : Z).
Context (xres0 k_asme0 errno : Z) (outs : list outcome).

(** A connection to a base station and what is done with it; a message on
    it; nothing. *)
Definition conn_to (ep : string * Z) (k : hnet -> result unit * hnet) (w : hnet) : result unit * hnet :=
  if accepts ep then k (w <| h_conns := h_conns w ++ [ep] |>) else (Fault never_connects, w).
Definition tell (ep : string * Z) (fr : list Z) : hnet -> result unit * hnet :=
  conn_to ep (fun w => (Ret tt, w <| h_sent := h_sent w ++ [(ep, fr)] |>)).
Definition say_nothing (ep : string * Z) : hnet -> result unit * hnet := conn_to ep (fun w => (Ret tt, w)).

(** ** Running the AMF's side *)

Context (ids : Amf.AmfIds) (ausf_ip smf_ip : string) (cnt : Z) (s1 : gmap Z Z)
  (ctx : gmap Z Amf.UeContext) (s1ip : string) (s1port : Z) (o : list (Z * list Z)).

(** The AMF in front of a state of the network. *)
Let at_net (w : hnet) : Amf.proc hnet := st ids ausf_ip smf_ip cnt s1 ctx s1ip s1port w o.
Let at_res (x : result unit * hnet) : result unit * Amf.proc hnet := (x.1, at_net x.2).

Lemma at_net_run {A B} (c : prog hnet A) (k : A -> prog (Amf.proc hnet) B) w a w' :
  c w = (Ret a, w') -> (x ← Amf.on_net c; k x) (at_net w) = k a (at_net w').
Proof. apply on_net_run. Qed.

Lemma upf_turn_run d u uo x u' a r box conns sent :
  Upf.handle_s11_traffic garbage_ul garbage_dl amf_udp (rd zero_hdrs [] []) (UdpClient.Got amf_udp d)
    (Upf.mk_proc u uo) = (x, Upf.mk_proc u' (uo ++ [(a, r)])) ->
  upf_turn d (mk_hnet (Upf.mk_proc u uo) box conns sent) =
  (Ret tt, mk_hnet (Upf.mk_proc u' (uo ++ [(a, r)])) (box ++ [UdpClient.Got upf_addr r]) conns sent).
Proof.
  intros E. unfold upf_turn. cbn [h_upf Upf.out]. rewrite E.
  cbn [h_box Upf.out apply_update constant]. by rewrite drop_app_length.
Qed.

Context (amf_a upf_a : Z).
Context (Hamf : inet_aton Amf.g_amf_ip_addr = Some amf_a).
Context (Hupf : inet_aton Amf.g_upf_s11_ip_addr = Some upf_a).

(** Where the AMF's handover requests go. *)
Let dst : sockaddr_in := mk_sockaddr 7300 upf_a.

Lemma upf_client_conn_run {B} (k : sockaddr_in -> prog (Amf.proc hnet) B) u box conns sent :
  (x ← Amf.upf_client_conn inet_aton; k x) (at_net (mk_hnet u box conns sent)) =
  k dst (at_net (mk_hnet u [] conns sent)).
Proof.
  unfold Amf.upf_client_conn. rewrite run_assoc.
  run with (unfold Network.set_inet_sock_addr; rewrite Hamf; reflexivity).
  run with (unfold Network.set_inet_sock_addr; rewrite Hupf; reflexivity).
  rewrite (at_net_run _ _ _ tt (mk_hnet u [] conns sent)) by reflexivity. by run.
Qed.

(** A request to the UPF, up to the header of the answer. *)
Definition ask {B} (pkt : Packet.t) (its : list item) (ty : Z)
    (k : Packet.t -> prog (Amf.proc hnet) B) : prog (Amf.proc hnet) B :=
  dst ← Amf.upf_client_conn inet_aton;
  guti ← Amf.get_guti pkt;
  cteid_upf ← Amf.ctx_get garbage guti Amf.s11_cteid_upf;
  pkt ← lift (Packet.clear_pkt pkt);
  pkt ← lift (Packet.append_items pkt its);
  pkt ← lift (Packet.prepend_gtp_hdr pkt 2 ty (Packet.plen pkt) cteid_upf);
  pkt ← Amf.upf_client_exchange dst pkt;
  pkt ← lift (Packet.extract_gtp_hdr pkt);
  k pkt.

(** The request on the wire. *)
Definition ask_bytes (h : hdrs) (its : list item) (ty n : Z) : list Z :=
  Gtp.to_bytes (gtp_v2 (h_gtp h) ty (len (enc_items its)) n) ++ enc_items its.

Lemma get_guti_run {B} h pre post guti (k : Z -> prog (Amf.proc hnet) B) w :
  fits pre post -> s1 !! h_mme h = Some guti ->
  (x ← Amf.get_guti (rd h pre post); k x) (at_net w) = k guti (at_net w).
Proof.
  intros Hf Hg. unfold Amf.get_guti. rewrite run_assoc. run with (by apply copy_rd).
  unfold at_net, st. amf_st. change (S1ap.mme_s1ap_ue_id (Packet.s1ap_hdr (rd h pre post))) with (h_mme h).
  by rewrite Hg.
Qed.

(** Up to the datagram's departure. *)
Lemma ask_sent {B} h pre post its ty guti c (k : Packet.t -> prog (Amf.proc hnet) B) u box conns sent w :
  fits pre post -> 16 + len (enc_items its) <= BUF_SIZE ->
  s1 !! h_mme h = Some guti -> ctx !! guti = Some c ->
  (if listening dst then upf_turn (ask_bytes h its ty (Amf.s11_cteid_upf c)) else mret tt)
    (mk_hnet u [] conns sent) = (Ret tt, w) ->
  ask (rd h pre post) its ty k (at_net (mk_hnet u box conns sent)) =
  (d ← Amf.on_net n4_rcv;
   pkt ← ('(status, buf, _) ← lift (UdpClient.recvfrom zbuf dst d);
          mret ((rd (set_gtp h (gtp_v2 (h_gtp h) ty (len (enc_items its)) (Amf.s11_cteid_upf c))) [] [])
            <| Packet.data := buf |> <| Packet.data_ptr := 0 |> <| Packet.plen := status |>));
   pkt ← lift (Packet.extract_gtp_hdr pkt);
   k pkt) (at_net w).
Proof.
  intros Hf Hl Hg Hc Hs. unfold ask. rewrite upf_client_conn_run.
  rewrite (get_guti_run _ _ _ guti) by done. unfold at_net. rewrite amf_get_run.
  rewrite (at_or_Some _ _ _ _ Hc), (touch_id _ _ _ _ Hc). fold (at_net (mk_hnet u [] conns sent)).
  run with (by apply clear_pkt_rd, rd_length).
  run with (apply append_items_rd; unfold fits; len_lia). cbn [app].
  run with (eapply prepend_gtp_hdr_rd; [apply gtp_init_v2 | len_lia]).
  change (Packet.plen (rd (hdrs_of (rd h pre post)) (enc_items its) []))
    with (len (enc_items its ++ [])). rewrite app_nil_r. 
  rewrite hdrs_of_rd.
  unfold Amf.upf_client_exchange. run. run with (apply bytes_rd; unfold fits; len_lia).
  rewrite app_nil_r. fold (ask_bytes h its ty (Amf.s11_cteid_upf c)).
  rewrite (at_net_run _ _ _ tt w); [|exact Hs]. run.
  run with (apply clear_pkt_rd, rd_length; unfold fits, ask_bytes; len_lia). rewrite data_rd_nil, hdrs_of_rd. reflexivity.
Qed.

Lemma pop_run {B} (k : UdpClient.datagram -> prog (Amf.proc hnet) B) d u ds conns sent :
  (x ← Amf.on_net n4_rcv; k x) (at_net (mk_hnet u (d :: ds) conns sent)) =
  k d (at_net (mk_hnet u ds conns sent)).
Proof. reflexivity. Qed.

Lemma pop_nothing {B} (k : UdpClient.datagram -> prog (Amf.proc hnet) B) u conns sent :
  (x ← Amf.on_net n4_rcv; k x) (at_net (mk_hnet u [] conns sent)) =
  k UdpClient.Timeout (at_net (mk_hnet u [] conns sent)).
Proof. reflexivity. Qed.

(** The UPF answers. *)
Lemma ask_answered {B} h pre post its ty guti c g ans (k : Packet.t -> prog (Amf.proc hnet) B)
    u uo x u' a box conns sent :
  fits pre post -> 16 + len (enc_items its) <= BUF_SIZE -> 16 + len ans <= BUF_SIZE -> Gtp.wf g ->
  s1 !! h_mme h = Some guti -> ctx !! guti = Some c -> listening dst = true ->
  Upf.handle_s11_traffic garbage_ul garbage_dl amf_udp (rd zero_hdrs [] [])
    (UdpClient.Got amf_udp (ask_bytes h its ty (Amf.s11_cteid_upf c))) (Upf.mk_proc u uo) =
    (x, Upf.mk_proc u' (uo ++ [(a, Gtp.to_bytes g ++ ans)])) ->
  ask (rd h pre post) its ty k (at_net (mk_hnet (Upf.mk_proc u uo) box conns sent)) =
  k (rd (set_gtp h g) (Gtp.to_bytes g) ans)
    (at_net (mk_hnet (Upf.mk_proc u' (uo ++ [(a, Gtp.to_bytes g ++ ans)])) [] conns sent)).
Proof.
  intros Hf Hl Hl' Hw Hg Hc Hls E.
  erewrite ask_sent; [|exact Hf | exact Hl | exact Hg | exact Hc | rewrite Hls; by eapply upf_turn_run].
  cbn [app]. rewrite pop_run. cbn [apply_update constant]. run.
  run with (apply recvfrom_zbuf; len_lia).
  match goal with |- context [Packet.extract_gtp_hdr ?p] =>
    change p with (rd (set_gtp h (gtp_v2 (h_gtp h) ty (len (enc_items its)) (Amf.s11_cteid_upf c))) []
      (Gtp.to_bytes g ++ ans)) end.
  run with (by apply (extract_gtp_hdr_rd _ [])). reflexivity.
Qed.

(** Nobody answers: a header of zeros is read from the cleared buffer. *)
Lemma zeros_gtp h :
  Packet.extract_gtp_hdr (rdl h [] [] (-1)) =
  Ret (rdl (set_gtp h (Gtp.of_bytes (replicate 16 0))) (replicate 16 0) [] (-1)).
Proof. reflexivity. Qed.

Lemma ask_unanswered {B} h pre post its ty guti c (k : Packet.t -> prog (Amf.proc hnet) B)
    u box conns sent :
  fits pre post -> 16 + len (enc_items its) <= BUF_SIZE ->
  s1 !! h_mme h = Some guti -> ctx !! guti = Some c -> listening dst = false ->
  exists h', ask (rd h pre post) its ty k (at_net (mk_hnet u box conns sent)) =
    k (rdl h' (replicate 16 0) [] (-1)) (at_net (mk_hnet u [] conns sent)).
Proof.
  intros Hf Hl Hg Hc Hls. exists (set_gtp h (Gtp.of_bytes (replicate 16 0))).
  erewrite ask_sent; [|exact Hf | exact Hl | exact Hg | exact Hc | rewrite Hls; reflexivity].
  rewrite pop_nothing. run. run with (reflexivity).
  run with (apply (zeros_gtp (set_gtp h _))). reflexivity.
Qed.

(** A message to a base station. *)
Definition told (h : hdrs) (its : list item) (ty : Z) : list Z :=
  frame (S1ap.to_bytes (answer_hdr h ty (len (enc_items its)) (h_enb h) (h_mme h)) ++ enc_items its).

Lemma connect_run (k : Z -> prog (Amf.proc hnet) unit) (k' : hnet -> result unit * hnet) ip port u box conns sent :
  (k (Z.of_nat (length conns)) (at_net (mk_hnet u box (conns ++ [(ip, port)]) sent)) =
    at_res (k' (mk_hnet u box (conns ++ [(ip, port)]) sent))) ->
  (x ← Amf.on_net (ho_ran_connect ip port); k x) (at_net (mk_hnet u box conns sent)) =
  at_res (conn_to (ip, port) k' (mk_hnet u box conns sent)).
Proof.
  intros E. unfold conn_to, mbind, prog_bind, Amf.on_net at 1, at_net, st.
  cbn [Amf.net ho_ran_connect h_handover]. destruct (accepts (ip, port)); [exact E | reflexivity].
Qed.

Lemma ran_snd_run ep fr u box conns sent :
  Amf.on_net (ho_ran_snd (Z.of_nat (length conns)) fr) (at_net (mk_hnet u box (conns ++ [ep]) sent)) =
  (Ret tt, at_net (mk_hnet u box (conns ++ [ep]) (sent ++ [(ep, fr)]))).
Proof.
  unfold Amf.on_net, at_net, st. cbn [Amf.net ho_ran_snd h_handover h_conns].
  by rewrite Nat2Z.id, list_lookup_middle.
Qed.

(** The packet of such a message. *)
Lemma told_frame h its ty :
  len (enc_items its) <= 900 ->
  exists pkt, Amf.s1ap_reply (rd h (enc_items its) []) ty = Ret pkt /\
    framed_bytes_of pkt = Ret (told h its ty).
Proof.
  intros Hl. unfold Amf.s1ap_reply.
  change (Packet.plen (rd h (enc_items its) [])) with (len (enc_items its ++ [])). rewrite app_nil_r.
  rewrite prepend_s1ap_hdr_rd by (rewrite len_nil; unfold BUF_SIZE; lia). cbv zeta.
  eexists. split; [reflexivity|].
  rewrite framed_bytes_rd by (rewrite len_app, len_s1ap, len_nil; unfold BUF_SIZE; lia).
  by rewrite app_nil_r.
Qed.

Lemma tell_run h pre post its ty ip port u box conns sent :
  fits pre post -> len (enc_items its) <= 900 ->
  (fd ← Amf.on_net (ho_ran_connect ip port);
   pkt ← lift (Packet.clear_pkt (rd h pre post));
   pkt ← lift (Packet.append_items pkt its);
   pkt ← lift (Amf.s1ap_reply pkt ty);
   frame ← lift (framed_bytes_of pkt);
   Amf.on_net (ho_ran_snd fd frame)) (at_net (mk_hnet u box conns sent)) =
  at_res (tell (ip, port) (told h its ty) (mk_hnet u box conns sent)).
Proof.
  intros Hf Hl. apply connect_run. run with (by apply clear_pkt_rd, rd_length).
  run with (apply append_items_rd; unfold fits, BUF_SIZE; len_lia). rewrite hdrs_of_rd. cbn [app].
  destruct (told_frame h its ty Hl) as (pkt & E1 & E2). run with (exact E1). run with (exact E2).
  apply ran_snd_run.
Qed.

(** *** The four handlers *)

Definition at_source : string * Z := (Amf.s_ran_ip_addr, Amf.s_ran_port).
Definition at_target : string * Z := (Amf.t_ran_ip_addr, Amf.t_ran_port).

Lemma request_target_run h pre ty s t enb mme guti c u box conns sent :
  let its := [IInt ty; IU16 s; IU16 t; IU32 enb; IU32 mme] in
  fits pre (enc_items its) -> s1 !! h_mme h = Some guti -> ctx !! guti = Some c ->
  Amf.handle_handover garbage (rd h pre (enc_items its)) (at_net (mk_hnet u box conns sent)) =
  at_res (tell at_target (told h [IU16 (u16 t); IU32 (u32 enb); IU32 (u32 mme); IU32 (Amf.s1_uteid_ul c)] 7)
    (mk_hnet u box conns sent)).
Proof.
  intros its Hf Hg Hc. unfold Amf.handle_handover, Amf.request_target_RAN. subst its.
  run with (by apply copy_rd). run with (by apply copy_rd). parse.
  rewrite (get_guti_run _ _ _ guti); [|unfold fits in *; len_lia | done].
  run with (apply clear_pkt_rd, rd_length; unfold fits in *; len_lia). rewrite hdrs_of_rd.
  run with (apply append_items_rd; vm_compute; discriminate). unfold at_net.
  rewrite amf_get_run, (at_or_Some _ _ _ _ Hc), (touch_id _ _ _ _ Hc).
  run with (apply append_items_rd; vm_compute; discriminate). cbn [app].
  destruct (told_frame h [IU16 (u16 t); IU32 (u32 enb); IU32 (u32 mme); IU32 (Amf.s1_uteid_ul c)] 7)
    as (pkt & E1 & E2); [vm_compute; discriminate|].
  run with (exact E1). fold (at_net (mk_hnet u box conns sent)). apply connect_run.
  run with (exact E2). apply ran_snd_run.
Qed.

(** What the UPF does with a request of the AMF. *)
Definition upf_does (u u' : Upf.t) (h : hdrs) (its : list item) (ty n : Z) (ans : list item) : Prop :=
  exists g, Gtp.wf g /\ forall uo, exists x a,
    Upf.handle_s11_traffic garbage_ul garbage_dl amf_udp (rd zero_hdrs [] [])
      (UdpClient.Got amf_udp (ask_bytes h its ty n)) (Upf.mk_proc u uo) =
    (x, Upf.mk_proc u' (uo ++ [(a, Gtp.to_bytes g ++ enc_items ans)])).

(** The three requests to the UPF, by what they ask and what they do next. *)
Lemma setup_asks pkt :
  Amf.setup_indirect_tunnel inet_aton garbage pkt =
  (pkt ← lift (Packet.copy pkt);
   '(dl_ho, pkt) ← lift (Packet.extract_item_uint32 pkt);
   ask pkt [IU32 dl_ho] 4 (fun pkt =>
     '(res, pkt) ← lift (Packet.extract_item_bool pkt);
     '(ul, pkt) ← lift (Packet.extract_item_uint32 pkt);
     fd ← Amf.on_net (ho_ran_connect Amf.s_ran_ip_addr Amf.s_ran_port);
     if (res : bool) then
       pkt ← lift (Packet.clear_pkt pkt);
       pkt ← lift (Packet.append_items pkt [IU32 ul]);
       pkt ← lift (Amf.s1ap_reply pkt 8);
       frame ← lift (framed_bytes_of pkt);
       Amf.on_net (ho_ran_snd fd frame)
     else mret tt)).
Proof. reflexivity. Qed.

Lemma completion_asks pkt :
  Amf.handle_handover_completion inet_aton garbage pkt =
  (pkt ← lift (Packet.copy pkt);
   ask pkt [IInt 1] 5 (fun pkt =>
     '(res, pkt) ← lift (Packet.extract_item_bool pkt);
     fd ← Amf.on_net (ho_ran_connect Amf.s_ran_ip_addr Amf.s_ran_port);
     if (res : bool) then
       pkt ← lift (Packet.clear_pkt pkt);
       pkt ← lift (Packet.append_items pkt [IBool res]);
       pkt ← lift (Amf.s1ap_reply pkt 9);
       frame ← lift (framed_bytes_of pkt);
       Amf.on_net (ho_ran_snd fd frame)
     else mret tt)).
Proof. reflexivity. Qed.

Lemma teardown_asks pkt :
  Amf.teardown_indirect_tunnel inet_aton garbage pkt =
  (pkt ← lift (Packet.copy pkt);
   '(ul_ho, pkt) ← lift (Packet.extract_item_uint32 pkt);
   ask pkt [IU32 ul_ho] 6 (fun pkt =>
     '(res, pkt) ← lift (Packet.extract_item_bool pkt);
     mret tt)).
Proof. reflexivity. Qed.

Lemma setup_run h pre dl guti c k u u' uo box conns sent :
  fits pre (enc_items [IU32 dl]) -> s1 !! h_mme h = Some guti -> ctx !! guti = Some c ->
  listening dst = true ->
  upf_does u u' h [IU32 (u32 dl)] 4 (Amf.s11_cteid_upf c) [IBool true; IU32 k] ->
  exists uo', Amf.setup_indirect_tunnel inet_aton garbage (rd h pre (enc_items [IU32 dl]))
      (at_net (mk_hnet (Upf.mk_proc u uo) box conns sent)) =
    at_res (tell at_source (told h [IU32 (u32 k)] 8) (mk_hnet (Upf.mk_proc u' uo') [] conns sent)).
Proof.
  intros Hf Hg Hc Hls (g & Hw & Hu). destruct (Hu uo) as (x & a & E). eexists.
  rewrite setup_asks. run with (by apply copy_rd). parse.
  rewrite (ask_answered h _ _ [IU32 (u32 dl)] 4 guti c g (enc_items [IBool true; IU32 k]) _ u uo x u' a);
    [|unfold fits in *; len_lia | vm_compute; discriminate | vm_compute; discriminate | exact Hw | exact Hg | exact Hc | exact Hls | exact E].
  parse. apply (tell_run (set_gtp h g)); [unfold fits, BUF_SIZE; len_lia | vm_compute; discriminate].
Qed.

Lemma completion_told h pre post guti c u u' uo box conns sent :
  fits pre post -> s1 !! h_mme h = Some guti -> ctx !! guti = Some c ->
  listening dst = true ->
  upf_does u u' h [IInt 1] 5 (Amf.s11_cteid_upf c) [IBool true] ->
  exists uo', Amf.handle_handover_completion inet_aton garbage (rd h pre post)
      (at_net (mk_hnet (Upf.mk_proc u uo) box conns sent)) =
    at_res (tell at_source (told h [IBool true] 9) (mk_hnet (Upf.mk_proc u' uo') [] conns sent)).
Proof.
  intros Hf Hg Hc Hls (g & Hw & Hu). destruct (Hu uo) as (x & a & E). eexists.
  rewrite completion_asks. run with (by apply copy_rd).
  rewrite (ask_answered h _ _ [IInt 1] 5 guti c g (enc_items [IBool true]) _ u uo x u' a);
    [|exact Hf | vm_compute; discriminate | vm_compute; discriminate | exact Hw
    | exact Hg | exact Hc | exact Hls | exact E].
  parse. apply (tell_run (set_gtp h g)); [unfold fits, BUF_SIZE; len_lia | vm_compute; discriminate].
Qed.

Lemma teardown_run h pre ul guti c u u' uo box conns sent :
  fits pre (enc_items [IU32 ul]) -> s1 !! h_mme h = Some guti -> ctx !! guti = Some c ->
  listening dst = true ->
  upf_does u u' h [IU32 (u32 ul)] 6 (Amf.s11_cteid_upf c) [IBool true] ->
  exists uo', Amf.teardown_indirect_tunnel inet_aton garbage (rd h pre (enc_items [IU32 ul]))
      (at_net (mk_hnet (Upf.mk_proc u uo) box conns sent)) =
    (Ret tt, at_net (mk_hnet (Upf.mk_proc u' uo') [] conns sent)).
Proof.
  intros Hf Hg Hc Hls (g & Hw & Hu). destruct (Hu uo) as (x & a & E). eexists.
  rewrite teardown_asks. run with (by apply copy_rd). parse.
  rewrite (ask_answered h _ _ [IU32 (u32 ul)] 6 guti c g (enc_items [IBool true]) _ u uo x u' a);
    [|unfold fits in *; len_lia | vm_compute; discriminate | vm_compute; discriminate | exact Hw
    | exact Hg | exact Hc | exact Hls | exact E].
  parse. reflexivity.
Qed.

(** Nobody listens: the answer is read from an empty buffer and says no. *)
Ltac nobody h := intros Hf Hg Hc Hls;
  rewrite ?setup_asks, ?completion_asks, ?teardown_asks; run with (by apply copy_rd); try parse;
  match goal with
  | _ : ctx !! ?guti = Some ?c |- ask (rd _ ?p ?q) ?its ?ty ?k (at_net (mk_hnet ?u ?box ?conns ?sent)) = _ =>
      let E := fresh in
      destruct (ask_unanswered h p q its ty guti c k u box conns sent) as (? & E);
        [unfold fits in *; len_lia | vm_compute; discriminate | exact Hg | exact Hc | exact Hls
        | rewrite E] end;
  repeat (run with (reflexivity)).

Lemma setup_unanswered h pre dl guti c u box conns sent :
  fits pre (enc_items [IU32 dl]) -> s1 !! h_mme h = Some guti -> ctx !! guti = Some c ->
  listening dst = false ->
  Amf.setup_indirect_tunnel inet_aton garbage (rd h pre (enc_items [IU32 dl]))
    (at_net (mk_hnet u box conns sent)) = at_res (say_nothing at_source (mk_hnet u [] conns sent)).
Proof. nobody h. apply connect_run. reflexivity. Qed.

Lemma completion_unanswered h pre post guti c u box conns sent :
  fits pre post -> s1 !! h_mme h = Some guti -> ctx !! guti = Some c -> listening dst = false ->
  Amf.handle_handover_completion inet_aton garbage (rd h pre post) (at_net (mk_hnet u box conns sent)) =
  at_res (say_nothing at_source (mk_hnet u [] conns sent)).
Proof. nobody h. apply connect_run. reflexivity. Qed.

Lemma teardown_unanswered h pre ul guti c u box conns sent :
  fits pre (enc_items [IU32 ul]) -> s1 !! h_mme h = Some guti -> ctx !! guti = Some c ->
  listening dst = false ->
  Amf.teardown_indirect_tunnel inet_aton garbage (rd h pre (enc_items [IU32 ul]))
    (at_net (mk_hnet u box conns sent)) = (Ret tt, at_net (mk_hnet u [] conns sent)).
Proof. nobody h. reflexivity. Qed.

(** *** The UPF's side *)

(** The headers of a received request. *)
Let asked (h : hdrs) (its : list item) (ty n : Z) : hdrs :=
  set_gtp (hdrs_of (rd zero_hdrs [] [])) (gtp_v2 (h_gtp h) ty (len (enc_items its)) n).

Lemma upf_receives h its ty n u uo f x u' g a ans :
  Gtp.wf (h_gtp h) -> 16 + len (enc_items its) <= BUF_SIZE ->
  (forall pkt, match u8 ty with
    | 1 => Upf.handle_create_session garbage_ul garbage_dl amf_udp pkt
    | 2 => Upf.handle_modify_bearer garbage_ul garbage_dl amf_udp pkt
    | 3 => Upf.handle_detach garbage_ul garbage_dl amf_udp pkt
    | 4 => Upf.handle_indirect_tunnel_setup garbage_ul garbage_dl amf_udp pkt
    | 5 => Upf.handle_handover_completion garbage_ul garbage_dl amf_udp pkt
    | 6 => Upf.handle_indirect_tunnel_teardown_ garbage_ul garbage_dl amf_udp pkt
    | _ => mret tt
    end = f pkt) ->
  f (rd (asked h its ty n) (Gtp.to_bytes (h_gtp (asked h its ty n))) (enc_items its)) (Upf.mk_proc u uo) =
    (Ret x, Upf.mk_proc u' (uo ++ [(a, Gtp.to_bytes g ++ ans)])) ->
  exists x, Upf.handle_s11_traffic garbage_ul garbage_dl amf_udp (rd zero_hdrs [] [])
    (UdpClient.Got amf_udp (ask_bytes h its ty n)) (Upf.mk_proc u uo) =
    (x, Upf.mk_proc u' (uo ++ [(a, Gtp.to_bytes g ++ ans)])).
Proof.
  intros Hw Hl Hf E. eexists. unfold Upf.handle_s11_traffic, ask_bytes.
  run with (apply udp_server_rcv; [reflexivity | len_lia]).
  run with (apply (extract_gtp_hdr_rd _ []); by apply gtp_v2_wf).
  change (Gtp.msg_type (Packet.gtp_hdr (rd (set_gtp ?h ?g) ?p ?q))) with (Gtp.msg_type g).
  change (Gtp.msg_type (gtp_v2 ?g ?t ?l ?n)) with (u8 t). rewrite Hf.
  erewrite run_bind; [reflexivity | exact E].
Qed.

Context (n : Z).

Let new_ctx := Upf.new_ctx garbage_ul garbage_dl.
Let key : Z := u32 (deployed_imsi n).

(** The tables with a tunnel for the subscriber. *)
Definition with_tunnel (dl : Z) (u : Upf.t) : Upf.t :=
  Upf.mk (Upf.s11_id u) (<[n + 1 := deployed_imsi n]> (Upf.s1_id u)) (Upf.sgi_id u) (Upf.ue_ctx u)
    (upd (new_ctx (deployed_imsi n)) (fun c => c <| Upf.s1_uteid_dl := dl |>) key (Upf.ho_ue_ctx u))
    (Upf.ip_addrs u).
(** The downlink switched to [dl]; the pending entry is gone. *)
Definition switched (c : Upf.UeContext) (dl : Z) (u : Upf.t) : Upf.t :=
  Upf.mk (Upf.s11_id u) (Upf.s1_id u) (Upf.sgi_id u)
    (<[deployed_imsi n := c <| Upf.s1_uteid_dl := dl |>]> (Upf.ue_ctx u))
    (delete key (Upf.ho_ue_ctx u)) (Upf.ip_addrs u).
(** The tunnel [ul] removed. *)
Definition without_tunnel (ul : Z) (u : Upf.t) : Upf.t :=
  Upf.mk (Upf.s11_id u) (delete ul (Upf.s1_id u)) (Upf.sgi_id u) (Upf.ue_ctx u)
    (Upf.ho_ue_ctx u) (Upf.ip_addrs u).

(** The tables a handover goes through: a context of the subscriber, reached
    by its TEID. *)
Definition at_upf (c : Upf.UeContext) (u : Upf.t) : Prop :=
  Upf.s11_id u !! n = Some (deployed_imsi n) /\ Upf.ue_ctx u !! deployed_imsi n = Some c /\
  Upf.s11_cteid_smf c = n.

Context (Hn : 0 <= n < 10000).

Lemma asked_teid h its ty : Gtp.teid (h_gtp (asked h its ty n)) = n.
Proof. change (u32 n = n). apply u32_id. lia. Qed.

(** The datagram that answers. *)
Let answer (h : hdrs) (its ans : list item) (ty : Z) : Gtp.t :=
  gtp_v2 (gtp_v2 (h_gtp h) ty (len (enc_items its)) n) ty (len (enc_items ans)) n.

Lemma answer_wf h its ans ty : Gtp.wf (h_gtp h) -> Gtp.wf (answer h its ans ty).
Proof. intros H. by do 2 apply gtp_v2_wf. Qed.

Lemma upf_sets_up h dl c u :
  at_upf c u -> Gtp.wf (h_gtp h) ->
  upf_does u (with_tunnel (u32 dl) u) h [IU32 dl] 4 n [IBool true; IU32 (n + 1)].
Proof.
  intros (H11 & Hc & Hs) Hw. destruct u as [s11 s1' sgi cx ho ips]. cbn [Upf.s11_id Upf.ue_ctx] in *.
  exists (answer h [IU32 dl] [IBool true; IU32 (n + 1)] 4). split; [by apply answer_wf|]. intros uo.
  pose proof (tunnel_setup_run garbage_ul garbage_dl amf_udp (asked h [IU32 dl] 4 n)
    (Gtp.to_bytes (h_gtp (asked h [IU32 dl] 4 n))) dl s11 s1' sgi cx ho ips uo (deployed_imsi n) c) as E.
  cbv zeta in E. rewrite Hs, (u32_id (n + 1)), asked_teid in E by lia.
  destruct (upf_receives h [IU32 dl] 4 n _ uo _ tt _ _ amf_udp _ Hw ltac:(vm_compute; discriminate)
    (fun _ => eq_refl) (E ltac:(vm_compute; discriminate) H11 Hc)) as [x E']. exists x, amf_udp. exact E'.
Qed.

Lemma upf_switches h c u :
  at_upf c u -> Gtp.wf (h_gtp h) ->
  upf_does u (switched c (Upf.s1_uteid_dl (at_or (new_ctx (deployed_imsi n)) (Upf.ho_ue_ctx u) key)) u)
    h [IInt 1] 5 n [IBool true].
Proof.
  intros (H11 & Hc & Hs) Hw. destruct u as [s11 s1' sgi cx ho ips]. cbn [Upf.s11_id Upf.ue_ctx] in *.
  exists (answer h [IInt 1] [IBool true] 5). split; [by apply answer_wf|]. intros uo.
  pose proof (completion_run garbage_ul garbage_dl amf_udp (asked h [IInt 1] 5 n)
    (Gtp.to_bytes (h_gtp (asked h [IInt 1] 5 n))) (enc_items [IInt 1]) s11 s1' sgi cx ho ips uo
    (deployed_imsi n) c) as E.
  cbv zeta in E. rewrite Hs, asked_teid in E.
  destruct (upf_receives h [IInt 1] 5 n _ uo _ tt _ _ amf_udp _ Hw ltac:(vm_compute; discriminate)
    (fun _ => eq_refl) (E ltac:(vm_compute; discriminate) H11 Hc)) as [x E']. exists x, amf_udp. exact E'.
Qed.

Lemma upf_tears_down h ul c u :
  at_upf c u -> Gtp.wf (h_gtp h) ->
  upf_does u (without_tunnel (u32 ul) u) h [IU32 ul] 6 n [IBool true].
Proof.
  intros (H11 & Hc & Hs) Hw. destruct u as [s11 s1' sgi cx ho ips]. cbn [Upf.s11_id Upf.ue_ctx] in *.
  exists (answer h [IU32 ul] [IBool true] 6). split; [by apply answer_wf|]. intros uo.
  pose proof (tunnel_teardown_run garbage_ul garbage_dl amf_udp (asked h [IU32 ul] 6 n)
    (Gtp.to_bytes (h_gtp (asked h [IU32 ul] 6 n))) ul s11 s1' sgi cx ho ips uo
    (deployed_imsi n) c) as E.
  rewrite Hs, asked_teid in E.
  destruct (upf_receives h [IU32 ul] 6 n _ uo _ tt _ _ amf_udp _ Hw ltac:(vm_compute; discriminate)
    (fun _ => eq_refl) (E ltac:(vm_compute; discriminate) H11 Hc)) as [x E']. exists x, amf_udp. exact E'.
Qed.

(** *** The stations' functions, one by one *)

Lemma hs_run {B} v (k : unit -> prog Ran.proc B) a f p e hs c up evs o' cm :
  (x ← modify (Ran.on_ran (fun r => r <| Ran.handover_state := v |>)); k x)
    (ran_st a f p e hs c up evs o' cm) = k tt (ran_st a f p e v c up evs o' cm).
Proof. reflexivity. Qed.

Lemma conn_mme_run {B} (k : bool -> prog Ran.proc B) a f p e hs c up evs o' cm f' er :
  SctpClient.conn inet_aton f (Ran.mme_ip_addr a) (Ran.mme_port a) errno outs = Ret (Some (f', er)) ->
  (x ← Ran.conn_mme inet_aton errno outs; k x) (ran_st a f p e hs c up evs o' cm) =
  k true (ran_st a f' p e hs c up evs o' cm).
Proof. intros E. unfold Ran.conn_mme. run. run with (exact E). reflexivity. Qed.

Lemma initiate_run a f p e hs c up evs o' cm :
  pkt_ok p -> ids_ok c ->
  exists p' fr, pkt_ok p' /\
    s1ap_msg 7 (Ran.enodeb_s1ap_ue_id c) (Ran.mme_s1ap_ue_id c)
      (enc_items [IInt 0; IU16 e; IU16 2; IU32 (Ran.enodeb_s1ap_ue_id c); IU32 (Ran.mme_s1ap_ue_id c)]) fr /\
    Ran.initiate_handover (ran_st a f p e hs c up evs o' cm) =
    (Ret tt, ran_st a f p' e 1 (c <| Ran.eNodeB_id := 1 |> <| Ran.handover_target_eNodeB_id := 2 |>)
       up evs (o' ++ [fr]) cm).
Proof.
  intros [Hp Hw] Hids.
  set (its := [IInt 0; IU16 e; IU16 2; IU32 (Ran.enodeb_s1ap_ue_id c); IU32 (Ran.mme_s1ap_ue_id c)]).
  destruct (send_s1ap_run (hdrs_of p) (enc_items its) [] 7
    (c <| Ran.eNodeB_id := 1 |> <| Ran.handover_target_eNodeB_id := 2 |>)) as (p' & fr & Hok & Hm & E);
    [done | done | vm_compute; discriminate | apply Hids | apply Hids |].
  rewrite app_nil_r in Hm. exists p', fr. split; [done|]. split; [exact Hm|].
  unfold Ran.initiate_handover. rewrite hs_run, set_ctx_run, get_pkt_run.
  run with (by apply clear_pkt_rd). change (Ran.r_eNodeB_id _) with e. rewrite !ctx_run. run with (apply append_items_rd; vm_compute; discriminate).
  rewrite run_end. exact (E _ mret a f _ e 1 up evs o' cm).
Qed.

Lemma target_run h pre t enb mme ul a f p e hs c up evs o' cm f' er :
  let its := [IU16 t; IU32 enb; IU32 mme; IU32 ul] in
  S1ap.wf (h_s1ap h) -> fits pre (enc_items its) ->
  SctpClient.conn inet_aton f (Ran.mme_ip_addr a) (Ran.mme_port a) errno outs = Ret (Some (f', er)) ->
  exists fr, s1ap_msg 8 (u32 enb) (u32 mme) (enc_items [IU32 (u32 enb)]) fr /\
    Ran.handle_handover inet_aton errno outs (rd h pre (enc_items its)) (ran_st a f p e hs c up evs o' cm) =
    (Ret true, ran_st a f' p e 3
       (c <| Ran.enodeb_s1ap_ue_id := u32 enb |> <| Ran.mme_s1ap_ue_id := u32 mme |>
          <| Ran.s1_uteid_ul := u32 ul |>) up evs (o' ++ [fr]) cm).
Proof.
  intros its Hw Hf Hconn.
  exists (frame (S1ap.to_bytes (answer_hdr h 8 4 (u32 enb) (u32 mme)) ++ enc_items [IU32 (u32 enb)])).
  split.
  { pose proof (answer_msg h 8 4 (u32 enb) (u32 mme) (enc_items [IU32 (u32 enb)]) Hw) as A.
    by rewrite !u32_idem in A. }
  unfold Ran.handle_handover. subst its.
  rewrite (run_lift _ _ _ _ (copy_rd _ _ _ Hf)), hs_run. parse. rewrite set_ctx_run.
  run with (apply clear_pkt_rd, rd_length; unfold fits in *; len_lia). rewrite hdrs_of_rd.
  run with (apply append_items_rd; vm_compute; discriminate).
  run with (apply prepend_s1ap_hdr_rd; vm_compute; discriminate).
  rewrite (conn_mme_run _ _ _ _ _ _ _ _ _ _ _ _ _ Hconn). cbn [negb].
  rewrite client_snd_run by (vm_compute; discriminate). reflexivity.
Qed.

Lemma complete_run h pre k a f p e hs c up evs o' cm :
  fits pre (enc_items [IU32 k]) ->
  Ran.indirect_tunnel_complete (rd h pre (enc_items [IU32 k])) (ran_st a f p e hs c up evs o' cm) =
  (Ret tt, ran_st a f p e 4 (c <| Ran.indirect_s1_uteid_ul := u32 k |>) up evs o' cm).
Proof.
  intros Hf. unfold Ran.indirect_tunnel_complete. rewrite (run_lift _ _ _ _ (copy_rd _ _ _ Hf)), hs_run.
  parse. reflexivity.
Qed.

Lemma confirm_run a f p e hs c up evs o' cm :
  pkt_ok p -> ids_ok c ->
  exists p' fr, pkt_ok p' /\
    s1ap_msg 9 (Ran.enodeb_s1ap_ue_id c) (Ran.mme_s1ap_ue_id c) [] fr /\
    Ran.complete_handover (ran_st a f p e hs c up evs o' cm) =
    (Ret tt, ran_st a f p' e hs c up evs (o' ++ [fr]) cm).
Proof.
  intros [Hp Hw] Hids.
  destruct (send_s1ap_run (hdrs_of p) [] [] 9 c) as (p' & fr & Hok & Hm & E);
    [done | done | vm_compute; discriminate | apply Hids | apply Hids |].
  exists p', fr. split; [done|]. split; [exact Hm|]. unfold Ran.complete_handover. rewrite get_pkt_run.
  run with (by apply clear_pkt_rd). rewrite run_end. exact (E _ mret a f p e hs up evs o' cm).
Qed.

Lemma tear_down_run h pre post a f p e hs c up evs o' cm :
  S1ap.wf (h_s1ap h) -> fits pre post -> ids_ok c ->
  exists fr, s1ap_msg 10 (Ran.enodeb_s1ap_ue_id c) (Ran.mme_s1ap_ue_id c)
      (enc_items [IU32 (Ran.indirect_s1_uteid_ul c)]) fr /\
    Ran.request_tear_down (rd h pre post) (ran_st a f p e hs c up evs o' cm) =
    (Ret tt, ran_st a f p e hs (c <| Ran.s1_uteid_ul := 0 |>) up evs (o' ++ [fr]) cm).
Proof.
  intros Hw Hf [He Hm].
  pose proof (answer_msg h 10 4 (Ran.enodeb_s1ap_ue_id c) (Ran.mme_s1ap_ue_id c)
    (enc_items [IU32 (Ran.indirect_s1_uteid_ul c)]) Hw) as A. rewrite He, Hm in A.
  eexists. split; [exact A|]. unfold Ran.request_tear_down. run with (by apply copy_rd).
  rewrite set_ctx_run. run with (by apply clear_pkt_rd, rd_length). rewrite hdrs_of_rd, ctx_run.
  run with (apply append_items_rd; vm_compute; discriminate). rewrite !ctx_run.
  run with (apply prepend_s1ap_hdr_rd; vm_compute; discriminate).
  unfold Ran.client_snd. run with (apply framed_bytes_rd; vm_compute; discriminate). reflexivity.
Qed.

(** *** Carrying the messages *)

Context (Hseg : forall bs, holds (seg bs) bs) (Hfd : 0 <= fd) (Hwid : 0 <= wid).

(** The worker reads the frame [fr] and serves it: it goes on with its loop,
    or it stops where the handler does. *)
Definition handles (fr : list Z) (w : hnet) (x : result unit * hnet) : Prop :=
  exists evs', delivered evs' = [] /\
    Amf.handle_ue inet_aton garbage h0 m xres0 k_asme0 fd wid (seg fr) (at_net w) =
      (match x.1 with Ret _ => Ret (Some (1, evs')) | Fault f => Fault f end, at_net x.2).

Lemma handles_frame hd body w x :
  S1ap.wf hd -> len body <= 1000 ->
  Amf.dispatch inet_aton garbage m xres0 k_asme0 fd wid (s1ap_pkt (received h0 hd) body) (at_net w) =
    at_res x ->
  handles (s1ap_frame hd body) w x.
Proof.
  intros Hw Hl H. destruct (Hseg (s1ap_frame hd body)) as [_ Hd].
  assert (arrives fd wid hd body (seg (s1ap_frame hd body)) []) as Ha.
  { do 4 (split; [done|]). by rewrite Hd, app_nil_r. }
  unfold handles. destruct x as [[[]|f] w']; cbn [fst snd] in *.
  - exact (on_arrival inet_aton garbage h0 m xres0 k_asme0 fd wid hd body _ [] (at_net w) (at_net w') Ha H).
  - exists []. split; [done|].
    exact (on_arrival_fault inet_aton garbage h0 m xres0 k_asme0 fd wid hd body _ [] (at_net w) f _ Ha H).
Qed.
(** *** The AMF, message by message *)

Context (ca : Amf.UeContext) (guti mme enb : Z).
Context (Hmme : 0 < mme) (Hknown : s1 !! mme = Some guti) (Hca : ctx !! guti = Some ca).
Context (Hcteid : Amf.s11_cteid_upf ca = n) (Hgtp : Gtp.wf (h_gtp h0)).

Lemma received_gtp hd : Gtp.wf (h_gtp (received h0 hd)).
Proof. by apply gtp_construct_wf. Qed.

(** The frame that [told] makes is a message for the same UE. *)
Lemma told_msg hd its ty :
  S1ap.wf hd -> S1ap.enodeb_s1ap_ue_id hd = enb -> S1ap.mme_s1ap_ue_id hd = mme ->
  s1ap_msg (u8 ty) enb mme (enc_items its) (told (received h0 hd) its ty).
Proof.
  intros Hw <- <-. pose proof (answer_msg (received h0 hd) ty (len (enc_items its))
    (h_enb (received h0 hd)) (h_mme (received h0 hd)) (enc_items its) Hw) as A.
  replace (u32 (h_enb (received h0 hd))) with (S1ap.enodeb_s1ap_ue_id hd) in A by (symmetry; apply Hw).
  by replace (u32 (h_mme (received h0 hd))) with (S1ap.mme_s1ap_ue_id hd) in A by (symmetry; apply Hw).
Qed.

(** How the branches of the switch are entered. *)
Ltac arrive :=
  intros (hd & Hw & T1 & T2 & T3 & ->);
  assert (s1 !! h_mme (received h0 hd) = Some guti) as Hg
    by (change (h_mme (received h0 hd)) with (S1ap.mme_s1ap_ue_id hd); by rewrite T3).
Ltac served_by :=
  apply handles_frame; [assumption | vm_compute; discriminate |];
  rewrite dispatch_known by lia;
  match goal with H : S1ap.msg_type _ = _ |- _ => rewrite H end; cbv iota zeta.

Lemma serves_handover ty s_enb t enb' mme' fr u conns :
  s1ap_msg 7 enb mme (enc_items [IInt ty; IU16 s_enb; IU16 t; IU32 enb'; IU32 mme']) fr ->
  exists fr',
    s1ap_msg 7 enb mme (enc_items [IU16 (u16 t); IU32 (u32 enb'); IU32 (u32 mme');
      IU32 (Amf.s1_uteid_ul ca)]) fr' /\
    handles fr (mk_hnet u [] conns []) (tell at_target fr' (mk_hnet u [] conns [])).
Proof.
  arrive. eexists. split; [exact (told_msg hd _ 7 Hw T2 T3)|]. served_by.
  exact (request_target_run (received h0 hd) (S1ap.to_bytes hd) ty s_enb t enb' mme' guti ca
    u [] conns [] ltac:(vm_compute; discriminate) Hg Hca).
Qed.

(** A request the UPF answers, and the base station that is told. *)
Let relays ty body fr u uo conns u' its ty' : Prop :=
  s1ap_msg ty enb mme body fr ->
  exists uo' fr', s1ap_msg (u8 ty') enb mme (enc_items its) fr' /\
    handles fr (mk_hnet (Upf.mk_proc u uo) [] conns [])
      (tell at_source fr' (mk_hnet (Upf.mk_proc u' uo') [] conns [])).

Lemma serves_setup dl fr c u uo conns :
  listening dst = true -> at_upf c u ->
  relays 8 (enc_items [IU32 dl]) fr u uo conns (with_tunnel (u32 dl) u) [IU32 (n + 1)] 8.
Proof.
  intros Hls Hat. arrive.
  pose proof (upf_sets_up (received h0 hd) (u32 dl) c u Hat (received_gtp hd)) as Hu.
  rewrite u32_idem in Hu.
  destruct (setup_run (received h0 hd) (S1ap.to_bytes hd) dl guti ca (n + 1) u
    (with_tunnel (u32 dl) u) uo [] conns []) as [uo' E];
    [vm_compute; discriminate | exact Hg | exact Hca | exact Hls | by rewrite Hcteid |].
  rewrite (u32_id (n + 1)) in E by lia.
  eexists uo', _. split; [by apply told_msg|]. served_by. exact E.
Qed.

Lemma serves_completion fr c u uo conns :
  listening dst = true -> at_upf c u ->
  relays 9 [] fr u uo conns
    (switched c (Upf.s1_uteid_dl (at_or (new_ctx (deployed_imsi n)) (Upf.ho_ue_ctx u) key)) u)
    [IBool true] 9.
Proof.
  intros Hls Hat. arrive.
  pose proof (upf_switches (received h0 hd) c u Hat (received_gtp hd)) as Hu.
  set (u' := switched _ _ _) in *.
  destruct (completion_told (received h0 hd) (S1ap.to_bytes hd) [] guti ca u u' uo [] conns [])
    as [uo' E]; [vm_compute; discriminate | exact Hg | exact Hca | exact Hls
    | rewrite Hcteid; exact Hu |].
  eexists uo', _. split; [by apply told_msg|]. served_by. exact E.
Qed.

Lemma serves_teardown ul fr c u uo conns :
  listening dst = true -> at_upf c u -> s1ap_msg 10 enb mme (enc_items [IU32 ul]) fr ->
  exists uo', handles fr (mk_hnet (Upf.mk_proc u uo) [] conns [])
    (Ret tt, mk_hnet (Upf.mk_proc (without_tunnel (u32 ul) u) uo') [] conns []).
Proof.
  intros Hls Hat. arrive.
  pose proof (upf_tears_down (received h0 hd) (u32 ul) c u Hat (received_gtp hd)) as Hu.
  rewrite u32_idem in Hu.
  destruct (teardown_run (received h0 hd) (S1ap.to_bytes hd) ul guti ca u (without_tunnel (u32 ul) u) uo [] conns [])
    as [uo' E]; [vm_compute; discriminate | exact Hg | exact Hca | exact Hls
    | rewrite Hcteid; exact Hu |].
  exists uo'. served_by. exact E.
Qed.

(** Nobody answers: the three requests. *)
Lemma serves_unanswered ty body fr u conns :
  listening dst = false ->
  (ty = 8 \/ ty = 10) /\ (exists v, body = enc_items [IU32 v]) \/ ty = 9 /\ body = [] ->
  s1ap_msg ty enb mme body fr ->
  handles fr (mk_hnet u [] conns [])
    (if ty =? 10 then (Ret tt, mk_hnet u [] conns []) else say_nothing at_source (mk_hnet u [] conns [])).
Proof.
  intros Hls [[[->| ->] [v ->]]|[-> ->]]; arrive; served_by; cbn [Z.eqb Pos.eqb].
  - by eapply setup_unanswered; [vm_compute; discriminate|..].
  - by eapply teardown_unanswered; [vm_compute; discriminate|..].
  - by eapply completion_unanswered; [vm_compute; discriminate|..].
Qed.

(** C9: the AMF's handover messages.  For a registered UE whose session the
    UPF has, in a network in which the UPF may or may not be reached where
    the AMF looks for it (port 7300), and the two base stations may or may
    not accept its connections:
    - message 7 is passed on to the target station with the UE's uplink TEID;
    - message 8 makes the UPF open the indirect tunnel, under the TEID after
      the session's, and the source station is told that TEID;
    - message 9 makes the UPF switch the session's downlink TEID, and nothing
      else of the session, to the one kept with message 8, and the source
      station is told;
    - message 10 makes the UPF remove the TEID that the message names.
    If the UPF is not reached, the AMF reads the answer from its cleared
    buffer and takes it for a refusal: nothing changes and nobody is told
    anything.  If a station does not accept, the worker never leaves the loop
    of [connect] in messages 7, 8 and 9, whatever the UPF answered.  The AMF's
    own tables are the same in every case. *)
Theorem handover_messages u uo c conns :
  at_upf c u ->
  let before := mk_hnet (Upf.mk_proc u uo) [] conns [] in
  (forall ty s_enb t enb' mme' fr,
     s1ap_msg 7 enb mme (enc_items [IInt ty; IU16 s_enb; IU16 t; IU32 enb'; IU32 mme']) fr ->
     exists fr', s1ap_msg 7 enb mme (enc_items [IU16 (u16 t); IU32 (u32 enb'); IU32 (u32 mme');
         IU32 (Amf.s1_uteid_ul ca)]) fr' /\
       handles fr before (tell at_target fr' before)) /\
  (forall dl fr, s1ap_msg 8 enb mme (enc_items [IU32 dl]) fr ->
     if listening dst then exists uo' fr', s1ap_msg 8 enb mme (enc_items [IU32 (n + 1)]) fr' /\
       handles fr before (tell at_source fr' (mk_hnet (Upf.mk_proc (with_tunnel (u32 dl) u) uo') [] conns []))
     else handles fr before (say_nothing at_source before)) /\
  (forall fr, s1ap_msg 9 enb mme [] fr ->
     let dl := Upf.s1_uteid_dl (at_or (new_ctx (deployed_imsi n)) (Upf.ho_ue_ctx u) key) in
     if listening dst then exists uo' fr', s1ap_msg 9 enb mme (enc_items [IBool true]) fr' /\
       handles fr before (tell at_source fr' (mk_hnet (Upf.mk_proc (switched c dl u) uo') [] conns []))
     else handles fr before (say_nothing at_source before)) /\
  (forall ul fr, s1ap_msg 10 enb mme (enc_items [IU32 ul]) fr ->
     if listening dst then exists uo',
       handles fr before (Ret tt, mk_hnet (Upf.mk_proc (without_tunnel (u32 ul) u) uo') [] conns [])
     else handles fr before (Ret tt, before)).
Proof.
  intros Hat before. split; [|split; [|split]].
  - intros. eapply serves_handover. eassumption.
  - intros dl fr M. destruct (listening dst) eqn:Hls; [by eapply serves_setup|].
    eapply (serves_unanswered 8); [done | left; eauto | exact M].
  - intros fr M dl. destruct (listening dst) eqn:Hls; [by eapply serves_completion|].
    eapply (serves_unanswered 9); [done | by right | exact M].
  - intros ul fr M. destruct (listening dst) eqn:Hls; [by eapply serves_teardown|].
    eapply (serves_unanswered 10); [done | left; eauto | exact M].
Qed.

End World.

(** *** Witnesses: subscriber 1, attached under identity 7 *)

Definition handover_aton (s : string) : option Z :=
  if bool_decide (s = "172.18.0.4") then Some 4
  else if bool_decide (s = "172.18.0.6") then Some 6 else None.

(** Where the UPF listens: the port its program binds, and the port at which
    the AMF looks for it. *)
Definition on_port (port : Z) (a : sockaddr_in) : bool := (sin_port a =? port) && (sin_addr a =? 6).

Definition demo_ho_ctx : Amf.UeContext := demo_ue <| Amf.s11_cteid_upf := 1 |>.
Definition demo_ho_amf (w : hnet) : Amf.proc hnet :=
  st demo_amf_ids "172.18.0.3" "172.18.0.5" 7 (<[7 := deployed_guti 1]> ∅)
    (<[deployed_guti 1 := demo_ho_ctx]> ∅) "172.18.0.6" 7100 w [].
Definition demo_ho_net : hnet :=
  mk_hnet (Upf.mk_proc (add_session 1 demo_session Upf.construct) []) [] [] [].

(** A frame of the UE is served. *)
Definition demo_handles (port : Z) (accepts : string * Z -> bool) (fr : list Z) :=
  Amf.handle_ue (HO := h_handover zeros zeros (on_port port) accepts) (AS := h_ausf) (SS := h_smf)
    handover_aton amf_garbage zero_hdrs no_grpc 0 0 5 0 (one_segment fr) (demo_ho_amf demo_ho_net).

(** The deployment: the UPF on port 7000 and no station that accepts; and a
    network in which the AMF finds both. *)
Lemma handover_messages_witness :
  let fr7 := s1ap_frame (demo_hd 7 7) (enc_items [IInt 0; IU16 1; IU16 2; IU32 42; IU32 7]) in
  let fr8 := s1ap_frame (demo_hd 8 7) (enc_items [IU32 42]) in
  demo_handles 7000 (fun _ => false) fr7 = (Fault never_connects, demo_ho_amf demo_ho_net) /\
  demo_handles 7000 (fun _ => false) fr8 = (Fault never_connects, demo_ho_amf demo_ho_net) /\
  exists evs' fr' p', demo_handles 7300 (fun _ => true) fr8 = (Ret (Some (1, evs')), p') /\
    s1ap_msg 8 42 7 (enc_items [IU32 2]) fr' /\ h_sent (Amf.net p') = [(at_source, fr')] /\
    Upf.upf (h_upf (Amf.net p')) =
      with_tunnel zeros zeros 1 42 (add_session 1 demo_session Upf.construct).
Proof.
  intros fr7 fr8.
  assert (s1ap_msg 7 42 7 (enc_items [IInt 0; IU16 1; IU16 2; IU32 42; IU32 7]) fr7) as M7.
  { exists (demo_hd 7 7). by repeat split. }
  assert (s1ap_msg 8 42 7 (enc_items [IU32 42]) fr8) as M8.
  { exists (demo_hd 8 7). by repeat split. }
  assert (exists c, at_upf 1 c (add_session 1 demo_session Upf.construct)) as [c Hat].
  { assert (upf_repr demo_s (add_session 1 demo_session Upf.construct)) as R
      by (apply add_session_repr; [exact upf_repr_init | lia]).
    destruct (repr_session _ _ 1 demo_session R ltac:(reflexivity)) as (_ & H11 & _ & _ & c & Hc & Hr).
    exists c. split; [done|]. split; [done | apply Hr]. }
  pose proof (fun port accepts => handover_messages zeros zeros (on_port port) accepts handover_aton amf_garbage
    zero_hdrs one_segment no_grpc 5 0 0 0 demo_amf_ids "172.18.0.3" "172.18.0.5" 7
    (<[7 := deployed_guti 1]> ∅) (<[deployed_guti 1 := demo_ho_ctx]> ∅) "172.18.0.6" 7100 [] 4 6
    ltac:(reflexivity) ltac:(reflexivity) 1 ltac:(lia) one_segment_holds ltac:(lia) ltac:(lia) demo_ho_ctx
    (deployed_guti 1) 7 42 ltac:(lia) ltac:(reflexivity) ltac:(reflexivity) ltac:(reflexivity)
    ltac:(by repeat split) (add_session 1 demo_session Upf.construct) [] c [] Hat) as H.
  destruct (H 7000 (fun _ => false)) as (H7 & H8 & _). destruct (H 7300 (fun _ => true)) as (_ & H8' & _).
  destruct (H7 0 1 2 42 7 fr7 M7) as (fr7' & _ & evs7 & _ & E7).
  destruct (H8 42 fr8 M8) as (evs8 & _ & E8).
  destruct (H8' 42 fr8 M8) as (uo' & fr' & M' & evs' & _ & E8').
  split; [exact E7|]. split; [exact E8|]. exists evs', fr'. eexists. split; [exact E8'|].
  split; [exact M'|]. by split.
Defined.
