(* ===== verification/UserPlane.v ===== *)
(** * UserPlane: IP packets between a UE of the base station and the sink

    The traffic monitor of the base station (Ran.v), the UPF's N3 and N6
    ports (Upf.v) and the traffic monitor of the sink (Sink.v), one behind
    the other, with the address tables as the attach procedure leaves them. *)

From Stdlib Require Import ZArith Lia Ascii String.
From S2P Require Import Prelude Utils Telecom Headers Packet Network Transport Sink.
From S2P Require Import Upf Smf Amf Ran Core.

(** The subscriber's address, as the bytes of an IP header. *)
Definition ue_bytes (n : Z) : list Z := [172; 16; 1 + n / 252; 3 + n mod 252].

Section Plane.
Context (inet_aton : string -> option Z) (h : hdrs).

(** The packet as the devices and the sockets deliver it: cut at the buffer,
    which is still behind the IP header. *)
Lemma cut_packet hd src dst rest :
  length hd = 12%nat -> length src = 4%nat -> length dst = 4%nat ->
  take (Z.to_nat BUF_SIZE) (ip_packet hd src dst rest) =
  ip_packet hd src dst (take (Z.to_nat (BUF_SIZE - 20)) rest).
Proof.
  intros H1 H2 H3. unfold ip_packet.
  rewrite (app_assoc src), (app_assoc hd), take_app_ge by (rewrite !length_app, H1, H2, H3; vm_compute; lia).
  rewrite !length_app, H1, H2, H3. by rewrite <- !app_assoc.
Qed.

(** Reading the addresses of a packet of subscriber [n]. *)
Lemma src_of_ue h' n hd daddr rest :
  length hd = 12%nat -> length daddr = 4%nat ->
  Network.get_src_ip_addr (rd h' [] (take (Z.to_nat BUF_SIZE) (ip_packet hd (ue_bytes n) daddr rest))) =
  Ret (pool_ip n).
Proof.
  intros H1 H2. rewrite cut_packet by done. change (pool_ip n) with (Network.inet_ntop (ue_bytes n)).
  apply get_src_ip_addr_rd; try done. rewrite <- cut_packet by done. apply len_cut.
Qed.

Lemma dst_of_ue h' n hd saddr rest :
  length hd = 12%nat -> length saddr = 4%nat ->
  Network.get_dst_ip_addr (rd h' [] (take (Z.to_nat BUF_SIZE) (ip_packet hd saddr (ue_bytes n) rest))) =
  Ret (pool_ip n).
Proof.
  intros H1 H2. rewrite cut_packet by done. change (pool_ip n) with (Network.inet_ntop (ue_bytes n)).
  apply get_dst_ip_addr_rd; try done. rewrite <- cut_packet by done. apply len_cut.
Qed.

Lemma cut_id bs : len bs <= BUF_SIZE -> take (Z.to_nat BUF_SIZE) bs = bs.
Proof. intros H. apply take_ge. unfold len in H. lia. Qed.

(** A downlink datagram leaves the station as the packet it carries. *)
Lemma station_delivers src from g bs w :
  Gtp.wf g -> 16 + len bs <= BUF_SIZE -> 0 <= w ->
  TrafficMonitor.handle_downlink_udata h src (UdpClient.Got from (Gtp.to_bytes g ++ bs)) (Done w) =
  Ret bs.
Proof.
  intros Hg Hl Hw. unfold TrafficMonitor.handle_downlink_udata. rewrite construct_rd. res.
  rewrite udp_server_rcv by (reflexivity || len_lia). res.
  rewrite (extract_gtp_hdr_rd _ []) by done. res. cbn [app].
  rewrite truncate_rd by (unfold fits; len_lia). res. rewrite tun_snd_rd; [done | unfold fits; len_lia | done].
Qed.

(** C26: the user plane is transparent: an IP packet of at most 1,008 bytes that
    an attached UE of the station writes to the tun device leaves the sink's
    tun device unchanged, over the tunnel of the traffic monitor and the UPF:
    the monitor's datagram goes to the UPF's N3 port with the UE's TEID, the
    UPF sends the packet itself to the sink, and the sink writes it out.  The
    UPF does so whatever the TEID is and whatever its tables hold.  (A longer
    packet overflows the monitor's buffer.) *)
Theorem user_plane_transparent t n ul hd daddr rest src p o u w upf_a sink_a :
  Gtp.wf (h_gtp h) -> length (Packet.data p) = Z.to_nat BUF_SIZE ->
  t !! pool_ip n = Some (TrafficMonitor.mk_info ul "172.18.0.6" 7100) ->
  inet_aton "172.18.0.6" = Some upf_a -> inet_aton Upf.g_sink_ip_addr = Some sink_a ->
  length hd = 12%nat -> length daddr = 4%nat -> 0 <= w ->
  let bs := ip_packet hd (ue_bytes n) daddr rest in
  16 + len bs <= BUF_SIZE ->
  exists dgram g p',
    TrafficMonitor.handle_uplink_udata inet_aton h t (Some bs) =
      Ret (Some (mk_sockaddr 7100 upf_a, dgram)) /\
    dgram = Gtp.to_bytes g ++ bs /\ Gtp.teid g = u32 ul /\
    (forall from, Upf.handle_s1_traffic inet_aton src p (UdpClient.Got from dgram) (Upf.mk_proc u o) =
      (Ret (from, p' from), Upf.mk_proc u (o ++ [(mk_sockaddr 8500 sink_a, bs)]))) /\
    (forall from s, Sink.handle_uplink_udata h src (UdpClient.Got from bs) (Done w) s =
      (Ret tt, s <| Sink.to_tun := Sink.to_tun s ++ [bs] |>)).
Proof.
  intros Hg Hp Ht Hupf Hsink H1 H2 Hw bs Hl.
  assert (forall h', Network.get_src_ip_addr (rd h' [] (take (Z.to_nat BUF_SIZE) bs)) = Ret (pool_ip n)) as Hip
    by (intros; by apply src_of_ue).
  destruct (gtp_init_v1 (Gtp.construct (h_gtp h)) 1 (len bs) ul) as (g & Eg & Wg & Tg & Dg);
    [by apply gtp_construct_wf|].
  eexists _, g, (fun _ => _). split; [|split; [reflexivity|split; [exact Dg|split]]].
  - unfold TrafficMonitor.handle_uplink_udata. rewrite construct_rd. res.
    rewrite tun_rcv_cut by reflexivity. res. rewrite Hip. res.
    rewrite cut_id by lia. unfold TrafficMonitor.get_uplink_info. rewrite Ht.
    cbn [TrafficMonitor.s1_uteid_ul TrafficMonitor.sgw_s1_ip_addr TrafficMonitor.sgw_s1_port].
    unfold Network.set_inet_sock_addr. rewrite Hupf. res.
    rewrite prepend_gtp_hdr_rd with (g := g); [|exact Eg | rewrite len_nil; lia]. res.
    rewrite bytes_rd by (unfold fits; len_lia). by rewrite app_nil_r.
  - intros from. unfold Upf.handle_s1_traffic. run with (apply udp_server_rcv; [done | len_lia]).
    run with (by apply (extract_gtp_hdr_rd _ [])).
    change (Gtp.msg_type _) with (Gtp.msg_type g). rewrite Tg. cbv iota.
    change (u8 1) with 1. cbv iota.
    erewrite run_bind; [reflexivity|]. apply uplink_run; [unfold fits; len_lia | done].
  - intros from s. apply uplink_to_tun; lia.
Qed.

(** C27: downlink, end to end: a packet of at most 1,008 bytes for the address of
    a subscriber whose session has a base station (a port that is not zero and
    an address that can be read), read from the sink's tun device, leaves the
    tun device of that base station unchanged, if the sink's kernel opens the
    socket and takes the datagram, and [errno] is not [EPERM] when it does.
    The downlink TEID of the session plays no part: the station never looks
    at it, which is why the zero TEID that the SMF stores does no harm.  (A
    longer packet overflows the UPF's buffer.) *)
Theorem downlink_end_to_end S u o src p from n s hd saddr rest m k ks w e x upf_a sink_a enb_a :
  upf_repr S u -> S !! n = Some s -> s_enb_port s <> 0 -> inet_aton (s_enb_ip s) = Some enb_a ->
  Gtp.wf (Packet.gtp_hdr p) -> length (Packet.data p) = Z.to_nat BUF_SIZE ->
  inet_aton Sink.g_sink_ip_addr = Some sink_a -> inet_aton Sink.g_pgw_sgi_ip_addr = Some upf_a ->
  length hd = 12%nat -> length saddr = 4%nat -> willing k -> e <> EPERM -> 0 <= x ->
  let bs := ip_packet hd saddr (ue_bytes n) rest in
  16 + len bs <= BUF_SIZE -> Sink.tun_read k = Some bs ->
  Sink.handle_downlink_udata inet_aton h m k (Sink.mk_proc w ks e) =
    (Ret (Some tt), Sink.mk_proc w (ks ++ [(mk_sockaddr 8100 upf_a, bs)]) e) /\
  exists dgram p',
    Upf.handle_sgi_traffic inet_aton src p (UdpClient.Got from bs) (Upf.mk_proc u o) =
      (Ret (from, p'), Upf.mk_proc u (o ++ [(mk_sockaddr (u16 (s_enb_port s)) enb_a, dgram)])) /\
    forall src' from',
      TrafficMonitor.handle_downlink_udata h src' (UdpClient.Got from' dgram) (Done x) = Ret bs.
Proof.
  intros R Hs Hport Henb Hg Hp Hsink Hupf H1 H2 Hk He Hx bs Hl Hr. split.
  { apply downlink_to_upf with (sink_a := sink_a); try done. lia. }
  destruct (repr_session _ _ _ _ R Hs) as (_ & _ & _ & Hsgi & c & Hc & Hrc).
  destruct Hrc as (_ & _ & _ & _ & _ & _ & _ & _ & C9 & C10).
  destruct (downlink_hit inet_aton (hdrs_of p) bs (pool_ip n) u o (deployed_imsi n) c enb_a)
    as (g & E & W & _); try done; try congruence.
  { unfold fits. rewrite len_nil. lia. }
  { rewrite <- (cut_id bs) by lia. by apply dst_of_ue. }
  { pose proof (r_dom _ _ R n (mk_is_Some _ _ Hs)). unfold deployed_imsi. lia. }
  eexists _, _. split.
  - unfold Upf.handle_sgi_traffic. run with (by apply udp_server_rcv; [|lia]).
    rewrite (run_bind _ _ _ _ _ E), C10. reflexivity.
  - intros src' from'. by apply station_delivers.
Qed.


End Plane.

(** *** Witnesses: subscriber 5 of the UPF with two sessions *)

(** The addresses of the user plane. *)
Definition plane_aton (s : string) : option Z :=
  if bool_decide (s = "172.18.0.7") then Some 7
  else if bool_decide (s = "172.18.0.6") then Some 6
  else if bool_decide (s = "172.18.0.2") then Some 2 else None.

Definition demo_uplink : list Z := ip_packet (replicate 12 69) (ue_bytes 5) [8; 8; 8; 8] [1; 2; 3].
Definition demo_downlink : list Z := ip_packet (replicate 12 69) [8; 8; 8; 8] (ue_bytes 5) [1; 2; 3].
Definition demo_table : TrafficMonitor.table :=
  <[pool_ip 5 := TrafficMonitor.mk_info 5 "172.18.0.6" 7100]> ∅.

Lemma user_plane_transparent_witness :
  exists dgram p',
    TrafficMonitor.handle_uplink_udata plane_aton zero_hdrs demo_table (Some demo_uplink) =
      Ret (Some (mk_sockaddr 7100 6, dgram)) /\
    Upf.handle_s1_traffic plane_aton demo_smf (rd zero_hdrs [] []) (UdpClient.Got demo_smf dgram)
      (Upf.mk_proc Upf.construct []) =
      (Ret (demo_smf, p'), Upf.mk_proc Upf.construct [(mk_sockaddr 8500 7, demo_uplink)]) /\
    Sink.handle_uplink_udata zero_hdrs demo_smf (UdpClient.Got demo_smf demo_uplink) (Done 0)
      (Sink.mk_proc [] [] 0) = (Ret tt, Sink.mk_proc [demo_uplink] [] 0).
Proof.
  destruct (user_plane_transparent plane_aton zero_hdrs demo_table 5 5 (replicate 12 69) [8; 8; 8; 8]
    [1; 2; 3] demo_smf (rd zero_hdrs [] []) [] Upf.construct 0 6 7) as (dgram & g & p' & E & _ & _ & H & Hs).
  - by repeat split.
  - reflexivity.
  - apply lookup_insert_eq.
  - reflexivity.
  - reflexivity.
  - reflexivity.
  - reflexivity.
  - discriminate.
  - vm_compute. discriminate.
  - exists dgram, (p' demo_smf). split; [exact E|]. split; [apply H | apply Hs].
Defined.

Definition demo_kernel : Sink.os :=
  Sink.mk_os 1 false true UdpClient.Timeout (Done 0) (Some demo_downlink) 5
    (UdpClient.mk_os 0 0 (mk_sockaddr 40000 7) 0) [Done 23].
Definition demo_client_memory : UdpClient.t :=
  UdpClient.mk 0 0 "" (mk_sockaddr 0 0) 0 "" (mk_sockaddr 0 0).

Lemma downlink_end_to_end_witness :
  exists s' dgram p',
    Sink.handle_downlink_udata plane_aton zero_hdrs demo_client_memory demo_kernel (Sink.mk_proc [] [] 0) =
      (Ret (Some tt), s') /\ Sink.to_pgw s' = [(mk_sockaddr 8100 6, demo_downlink)] /\
    Upf.handle_sgi_traffic plane_aton demo_smf (rd zero_hdrs [] []) (UdpClient.Got demo_smf demo_downlink)
      (Upf.mk_proc demo_upf []) =
      (Ret (demo_smf, p'), Upf.mk_proc demo_upf [(mk_sockaddr 4000 2, dgram)]) /\
    TrafficMonitor.handle_downlink_udata zero_hdrs demo_smf (UdpClient.Got demo_smf dgram) (Done 23) =
      Ret demo_downlink.
Proof.
  destruct (downlink_end_to_end plane_aton zero_hdrs demo_sessions demo_upf [] demo_smf (rd zero_hdrs [] [])
    demo_smf 5 demo_session (replicate 12 69) [8; 8; 8; 8] [1; 2; 3] demo_client_memory demo_kernel
    [] [] 0 23 6 7 2) as (E & dgram & p' & Eu & Er).
  - apply demo_repr.
  - reflexivity.
  - discriminate.
  - reflexivity.
  - by repeat split.
  - reflexivity.
  - reflexivity.
  - reflexivity.
  - reflexivity.
  - reflexivity.
  - do 4 (split; [vm_compute; discriminate|]). by exists 23, [].
  - discriminate.
  - lia.
  - vm_compute. discriminate.
  - reflexivity.
  - eexists _, dgram, p'. split; [exact E|]. split; [reflexivity|]. split; [exact Eu | apply Er].
Defined.

