(* ===== verification/System.v ===== *)
(** * System: a base station, the AMF and the core, end to end

    [sys] puts one simulated UE (Ran.v) and the AMF (Amf.v) side by side;
    [pump] carries what the UE sent to the AMF, lets the AMF's worker serve
    it, and puts what came back on the UE's connection.  The services behind
    the AMF are known by their contracts, as in Attach.v. *)

From Stdlib Require Import ZArith Lia Ascii String.
From S2P Require Import Prelude Utils Telecom Headers Packet Network Transport Security Messages.
From S2P Require Import Ausf Upf Smf Amf Ran Core Attach.

Section System.
Context {W : Type} `{AS : AusfStub W} `{SS : SmfStub W} `{HO : Handover W} `{CL : CryptoLib}.
Context (inet_aton : string -> option Z) (garbage : Z -> Amf.UeContext) (h0 : hdrs).

(** How the network cuts a frame into segments, the worker's connection, and
    the uninitialised locals of the AMF's handlers. *)
Context (seg : list Z -> list Network.event).
Context (m : GrpcPacket.t) (xres0 k_asme0 fd wid : Z).

Record sys := mk_sys { ue : Ran.proc; amf : Amf.proc W }.

Definition on_ue {A} (c : prog Ran.proc A) : prog sys A :=
  fun s => let '(r, u) := c (ue s) in (r, mk_sys u (amf s)).
Definition on_amf {A} (c : prog (Amf.proc W) A) : prog sys A :=
  fun s => let '(r, a) := c (amf s) in (r, mk_sys (ue s) a).

(** The worker is woken for each frame. *)
Fixpoint serve (frames : list (list Z)) : prog (Amf.proc W) unit :=
  match frames with
  | [] => mret tt
  | fr :: frames =>
      _ ← Amf.handle_ue inet_aton garbage h0 m xres0 k_asme0 fd wid (seg fr);
      serve frames
  end.

Definition to_ue (sent : list (Z * list Z)) : list Network.event :=
  concat (map (fun '(c, fr) => if c =? fd then seg fr else []) sent).

Definition pump : prog sys unit :=
  frames ← gets (fun s => Ran.out (ue s));
  _ ← modify (fun s => mk_sys ((ue s) <| Ran.out := [] |>) (amf s));
  before ← gets (fun s => length (Amf.out (amf s)));
  _ ← on_amf (serve frames);
  modify (fun s => mk_sys ((ue s) <| Ran.inbox :=
    Ran.inbox (ue s) ++ to_ue (drop before (Amf.out (amf s))) |>) (amf s)).

(** One step of the UE, and the network's reaction if it succeeded. *)
Definition sys_step (op : prog Ran.proc (option bool)) (k : prog sys (option bool))
  : prog sys (option bool) :=
  r ← on_ue op;
  match r with
  | Some true => _ ← pump; k
  | r => mret r
  end.

(** The attach procedure of [simulate]. *)
Definition attach : prog sys (option bool) :=
  _ ← on_ue Ran.initial_attach;
  _ ← pump;
  sys_step Ran.authenticate (sys_step Ran.set_security (sys_step Ran.set_eps_session
    (mret (Some true)))).

End System.

Arguments sys : clear implicits.
Arguments mk_sys {W}.
Arguments ue {W}.
Arguments amf {W}.

Section Runs.
Context {W : Type} `{AS : AusfStub W} `{SS : SmfStub W} `{HO : Handover W}.
Context `{CL : CryptoLib, LAWS : !CryptoLaws}.
Context `{AC : !AusfContract W} `{SC : !SmfContract W} `{CC : !CoreContract W}.
Context (inet_aton : string -> option Z) (garbage : Z -> Amf.UeContext) (h0 : hdrs).
Context (seg : list Z -> list Network.event) (Hseg : forall bs, holds (seg bs) bs).
Context (m : GrpcPacket.t) (xres0 k_asme0 fd wid : Z) (Hfd : 0 <= fd) (Hwid : 0 <= wid).

Let carry := pump inet_aton garbage h0 seg m xres0 k_asme0 fd wid.
Let handles hd body (p p' : Amf.proc W) : Prop :=
  Amf.dispatch inet_aton garbage m xres0 k_asme0 fd wid (s1ap_pkt (received h0 hd) body) p = (Ret tt, p').

Lemma to_ue_answered frs : to_ue seg fd (map (pair fd) frs) = concat (map seg frs).
Proof.
  unfold to_ue. induction frs as [|fr frs IH]; [done|]. cbn [map concat].
  by rewrite Z.eqb_refl, IH.
Qed.

(** A frame of the UE is served: whatever the handler does with the message
    is what the pump does to the system. *)
Lemma pump_message (Q : Amf.proc W -> list (list Z) -> Prop) ty enb mme body fr pa
    a fdc p e hs c up cm :
  s1ap_msg ty enb mme body fr -> len body <= 1000 ->
  (forall hd, S1ap.msg_type hd = ty -> S1ap.enodeb_s1ap_ue_id hd = enb ->
     S1ap.mme_s1ap_ue_id hd = mme -> readable wid hd body ->
     exists pa' frs, handles hd body pa pa' /\ answered fd pa pa' frs /\ Q pa' frs) ->
  exists pa' frs, Q pa' frs /\
    carry (mk_sys (ran_st a fdc p e hs c up [] [fr] cm) pa) =
    (Ret tt, mk_sys (ran_st a fdc p e hs c up (concat (map seg frs)) [] cm) pa').
Proof.
  intros (hd & Hw & H1 & H2 & H3 & ->) Hl Hh.
  destruct (Hseg (s1ap_frame hd body)) as [_ Hd].
  assert (arrives fd wid hd body (seg (s1ap_frame hd body)) []) as Ha.
  { split; [done|]. split; [done|]. split; [done|]. split; [done|]. by rewrite Hd, app_nil_r. }
  destruct (Hh hd H1 H2 H3 (arrives_readable _ _ _ _ _ _ Ha)) as (pa' & frs & E & Ho & HQ).
  exists pa', frs. split; [done|].
  destruct (on_arrival inet_aton garbage h0 _ _ _ _ _ _ _ _ _ _ _ Ha E) as (evs' & _ & Eu).
  unfold carry, pump. run. cbn [ue amf].
  change (Ran.out _) with [s1ap_frame hd body].   assert (serve inet_aton garbage h0 seg m xres0 k_asme0 fd wid [s1ap_frame hd body] pa = (Ret tt, pa'))
    as Es by (cbn [serve]; by rewrite (run_bind _ _ _ _ _ Eu)).
  erewrite run_bind; [|unfold on_amf; cbn [ue amf]; rewrite Es; reflexivity].
  unfold modify. cbn [ue amf]. rewrite Ho, drop_app_length, to_ue_answered. reflexivity.
Qed.

(** *** The rounds of the attach procedure *)

Lemma len_accepted n ca wire :
  0 <= n < 10000 -> sealed (enc_items (accepted_items n ca)) wire -> len wire <= 1000.
Proof.
  intros Hn Hs. destruct (pool_ip_text n Hn) as [_ Hl]. rewrite (len_sealed _ _ Hs).
  pose proof (enc_size_bounds (len (enc_items (accepted_items n ca)))) as Hb.
  assert (len (c_str "172.18.0.6") = 10) by reflexivity.
  unfold accepted_items in *. cbn [enc_items enc_item map concat] in *. len_lia.
Qed.

(** An AMF that knows subscriber [n] under [mme] with context [ca], and what
    the core holds. *)
Definition knows (know : Z -> Z -> Z -> Prop) (S : gmap Z session) (n mme : Z) (ca : Amf.UeContext)
    (pa : Amf.proc W) : Prop :=
  Amf.s1amf_id (Amf.amf pa) !! mme = Some (deployed_guti n) /\
  Amf.ue_ctx (Amf.amf pa) !! deployed_guti n = Some ca /\
  Amf.imsi ca = deployed_imsi n /\ amf_config (Amf.amf pa) /\ core_ok know S (Amf.net pa).

Lemma round_attach know S n key rand pa a fdc p e hs c up cm :
  pkt_ok p -> ids_ok c -> Ran.imsi c = deployed_imsi n -> 0 <= n < 10000 ->
  know (deployed_imsi n) key rand -> amf_config (Amf.amf pa) -> core_ok know S (Amf.net pa) ->
  let mme := u32 (u64 (Amf.ue_count (Amf.amf pa) + 1)) in
  exists p' pa' fr ca,
    (_ ← on_ue Ran.initial_attach; carry) (mk_sys (ran_st a fdc p e hs c up [] [] cm) pa) =
    (Ret tt, mk_sys (ran_st a fdc p' e hs c up (seg fr) [] cm) pa') /\ pkt_ok p' /\
    knows know S n mme ca pa' /\
    s1ap_msg 1 (Ran.enodeb_s1ap_ue_id c) mme
      (enc_items [IU64 (u64 (xres_of key rand + 1)); IU64 rand; IU64 1]) fr /\
    Amf.s1amf_id (Amf.amf pa') = <[mme := deployed_guti n]> (Amf.s1amf_id (Amf.amf pa)) /\
    Amf.ue_ctx (Amf.amf pa') = <[deployed_guti n := ca]> (Amf.ue_ctx (Amf.amf pa)).
Proof.
  intros Hp Hids Hi Hn Hk Hcfg Hcore mme.
  destruct (initial_attach_run_ran a fdc p e hs c up [] [] cm Hp Hids) as (p' & f1 & Hp' & Hm & E).
  unfold request_items in Hm. rewrite Hi in Hm.
  destruct (pump_message (fun pa' frs => exists fr ca, frs = [fr] /\
      knows know S n mme ca pa' /\
      s1ap_msg 1 (Ran.enodeb_s1ap_ue_id c) mme
        (enc_items [IU64 (u64 (xres_of key rand + 1)); IU64 rand; IU64 1]) fr /\
      Amf.s1amf_id (Amf.amf pa') = <[mme := deployed_guti n]> (Amf.s1amf_id (Amf.amf pa)) /\
      Amf.ue_ctx (Amf.amf pa') = <[deployed_guti n := ca]> (Amf.ue_ctx (Amf.amf pa)))
    _ _ _ _ _ pa a fdc p' e hs c up cm Hm) as (pa' & frs & (fr & ca & -> & H) & Ec);
    [vm_compute; discriminate | |].
  - intros hd H1 H2 H3 Hr.
    destruct (on_attach_request inet_aton garbage h0 know S m xres0 k_asme0 fd wid hd n (Ran.tai c)
      (Ran.ksi_asme c) (Ran.nw_capability c) key rand pa Hr Hcfg Hcore Hn Hk H3 H1)
      as (pa' & fr & ca & E' & Ho & Hmsg & G1 & G2 & (G3 & _) & _ & _ & G4 & G5).
    exists pa', [fr]. split; [exact E'|]. split; [exact Ho|]. exists fr, ca. split; [done|].
    rewrite H2 in Hmsg. split; [|by split].
    split; [rewrite G1; apply lookup_insert_eq|]. split; [rewrite G2; apply lookup_insert_eq|]. by split.
  - exists p', pa', fr, ca. split; [|by split].
    erewrite run_bind; [|unfold on_ue; cbn [ue amf]; rewrite E; reflexivity].
    cbn [map concat] in Ec. rewrite app_nil_r in Ec. exact Ec.
Qed.


(** The identities stay; the context of [n] is now [ca']. *)
Definition updates (know : Z -> Z -> Z -> Prop) (S : gmap Z session) (n mme : Z) (ca' : Amf.UeContext)
    (pa pa' : Amf.proc W) : Prop :=
  knows know S n mme ca' pa' /\
  Amf.s1amf_id (Amf.amf pa') = Amf.s1amf_id (Amf.amf pa) /\
  Amf.ue_ctx (Amf.amf pa') = <[deployed_guti n := ca']> (Amf.ue_ctx (Amf.amf pa)).

Lemma updates_knows know S n mme ca ca' pa pa' :
  knows know S n mme ca pa -> Amf.imsi ca' = Amf.imsi ca ->
  Amf.s1amf_id (Amf.amf pa') = Amf.s1amf_id (Amf.amf pa) ->
  Amf.ue_ctx (Amf.amf pa') = <[deployed_guti n := ca']> (Amf.ue_ctx (Amf.amf pa)) ->
  forall S', amf_config (Amf.amf pa') -> core_ok know S' (Amf.net pa') ->
  updates know S' n mme ca' pa pa'.
Proof.
  intros (K1 & _ & K3 & _) Hi H1 H2 S' Hcfg Hcore. split; [|by split].
  split; [by rewrite H1|]. split; [rewrite H2; apply lookup_insert_eq|]. split; [congruence|]. by split.
Qed.

Lemma knows_registered know S n mme ca pa hd :
  knows know S n mme ca pa -> 0 <= n < 10000 -> mme <> 0 -> S1ap.mme_s1ap_ue_id hd = mme ->
  registered (Amf.amf pa) hd n ca.
Proof. intros (K1 & K2 & _) Hn Hm <-. split; [done|]. split; [done|]. by split. Qed.

Lemma sys_step_run op k u pa u' :
  op u = (Ret (Some true), u') ->
  sys_step inet_aton garbage h0 seg m xres0 k_asme0 fd wid op k (mk_sys u pa) =
  (_ ← carry; k) (mk_sys u' pa).
Proof.
  intros E. assert (on_ue (W := W) op (mk_sys u pa) = (Ret (Some true), mk_sys u' pa)) as E'
    by (unfold on_ue; cbn [ue amf]; by rewrite E).
  unfold sys_step. by rewrite (run_bind _ _ _ _ _ E').
Qed.

(** The UE's inbox holds one message. *)
Lemma inbox_message ty enb mme body fr :
  s1ap_msg ty enb mme body fr ->
  exists hd, S1ap.wf hd /\ S1ap.mme_s1ap_ue_id hd = mme /\ holds (seg fr) (s1ap_frame hd body ++ []).
Proof.
  intros (hd & Hw & _ & _ & Hm & ->). exists hd. split; [done|]. split; [done|]. rewrite app_nil_r. apply Hseg.
Qed.

Section Rounds.
Context (know : Z -> Z -> Z -> Prop) (S : gmap Z session) (n mme : Z).
Context (Hn : 0 <= n < 10000) (Hmme : mme <> 0) (Hu : u32 mme = mme).
Context (a : Ran.EpcAddrs) (fdc : SctpClient.t) (Hfdc : 0 <= SctpClient.conn_fd fdc) (e hs : Z).

Lemma round_authenticate k x rand ks ca pa p c up cm fr enb :
  pkt_ok p -> ids_ok c -> knows know S n mme ca pa ->
  s1ap_msg 1 enb mme (enc_items [IU64 x; IU64 rand; IU64 ks]) fr ->
  exists p' pa' fr', pkt_ok p' /\
    updates know S n mme (secured_ctx ca) pa pa' /\
    s1ap_msg 2 (Ran.enodeb_s1ap_ue_id c) mme
      (mac (enc_items (security_items ca)) ++ enc_items (security_items ca)) fr' /\
    sys_step inet_aton garbage h0 seg m xres0 k_asme0 fd wid Ran.authenticate k
      (mk_sys (ran_st a fdc p e hs c up (seg fr) [] cm) pa) =
    k (mk_sys (ran_st a fdc p' e hs (authenticated_ctx c mme (u64 x) (u64 rand) (u64 ks)) up
                 (seg fr') [] cm) pa').
Proof.
  intros Hp Hids K Hmsg. destruct (inbox_message _ _ _ _ _ Hmsg) as (hd & Hw & Hm & Hh).
  destruct (authenticate_run a fdc p e hs c up (seg fr) [] cm hd x rand ks [] Hp Hids Hfdc Hw Hh)
    as (p' & f & evs & Hp' & Hr & Hf & E). apply holds_nil in Hr as ->. rewrite Hm in Hf, E.
  destruct (pump_message (fun pa' frs => exists fr', frs = [fr'] /\
      updates know S n mme (secured_ctx ca) pa pa' /\
      s1ap_msg 2 (Ran.enodeb_s1ap_ue_id c) mme
        (mac (enc_items (security_items ca)) ++ enc_items (security_items ca)) fr')
    _ _ _ _ _ pa a fdc p' e hs (authenticated_ctx c mme (u64 x) (u64 rand) (u64 ks)) up cm Hf)
    as (pa' & frs & (fr' & -> & Hup & Hm') & Ec); [vm_compute; discriminate | |].
  - intros hd' H1 H2 H3 Hr. pose proof (knows_registered _ _ _ _ _ _ hd' K Hn Hmme H3) as R.
    eexists (commanded h0 fd hd' n ca pa), [_]. split; [by apply on_authentication_response|].
    split; [reflexivity|]. eexists. split; [reflexivity|]. pose proof K as (_ & _ & _ & K4 & K5).
    split; [eapply updates_knows; [exact K | reflexivity | reflexivity | reflexivity | | exact K5]|].
    + by destruct K4.
    + rewrite <- H2, <- H3. apply answer_frame; [apply Hr | done].
  - exists p', pa', fr'. split; [done|]. split; [done|]. split; [done|].
    rewrite (sys_step_run _ _ _ _ _ E), (run_bind _ _ _ _ _ Ec).
    cbn [map concat]. by rewrite app_nil_r.
Qed.

Lemma round_security k ca pa p c up cm fr enb :
  pkt_ok p -> ids_ok c -> Ran.mme_s1ap_ue_id c = mme -> knows know S n mme ca pa ->
  s1ap_msg 2 enb mme (mac (enc_items (security_items ca)) ++ enc_items (security_items ca)) fr ->
  exists p' pa' fr' wire apn ca', pkt_ok p' /\
    updates know (smf_step smf_garbage_dl (Create n 5 apn (s64 (Amf.tai ca))) S) n mme ca' pa pa' /\
    sealed (enc_items (accepted_items n ca)) wire /\
    s1ap_msg 3 (Ran.enodeb_s1ap_ue_id c) mme wire fr' /\
    (Amf.ip_addr ca' = pool_ip n /\ Amf.s1_uteid_ul ca' = n) /\
    sys_step inet_aton garbage h0 seg m xres0 k_asme0 fd wid Ran.set_security k
      (mk_sys (ran_st a fdc p e hs c up (seg fr) [] cm) pa) =
    k (mk_sys (ran_st a fdc p' e hs
                 (ran_secured_ctx c (u64 (Amf.ksi_asme ca)) (u16 (Amf.nw_capability ca)) (u64 1) (u64 1))
                 up (seg fr') [] cm) pa').
Proof.
  intros Hp Hids Hcm K Hmsg. destruct (inbox_message _ _ _ _ _ Hmsg) as (hd & Hw & Hm & Hh).
  destruct (set_security_run a fdc p e hs c up (seg fr) [] cm hd _ (Amf.ksi_asme ca)
    (Amf.nw_capability ca) 1 1 [] Hp Hids Hfdc Hw (len_mac _) Hh) as (evs & Hr & Hgood & _).
  apply holds_nil in Hr as ->. destruct (Hgood eq_refl) as (p' & f & w0 & Hp' & Hs & Hf & E). clear Hgood.
  rewrite Hcm in Hf. pose proof (len_sealed _ _ Hs) as Hl.
  change (enc_size (len (enc_items [IBool true]))) with 16 in Hl.
  destruct (pump_message (fun pa' frs => exists fr' wire apn ca', frs = [fr'] /\
      updates know (smf_step smf_garbage_dl (Create n 5 apn (s64 (Amf.tai ca))) S) n mme ca' pa pa' /\
      sealed (enc_items (accepted_items n ca)) wire /\
      s1ap_msg 3 (Ran.enodeb_s1ap_ue_id c) mme wire fr' /\
      (Amf.ip_addr ca' = pool_ip n /\ Amf.s1_uteid_ul ca' = n))
    _ _ _ _ _ pa a fdc p' e hs (ran_secured_ctx c (u64 (Amf.ksi_asme ca)) (u16 (Amf.nw_capability ca))
      (u64 1) (u64 1)) up cm Hf)
    as (pa' & frs & (fr' & wire & apn & ca' & -> & H) & Ec); [lia | |].
  - intros hd' H1 H2 H3 Hr. pose proof (knows_registered _ _ _ _ _ _ hd' K Hn Hmme H3) as R.
    pose proof K as (_ & _ & Ki & Kc & Ko).
    destruct (on_security_mode_complete inet_aton garbage h0 know S m xres0 k_asme0 fd wid hd' n ca w0 pa
      Hr Hs R H1 Ki Kc Ko) as (pa' & fr' & wire & ca' & E' & Ho & Hm' & Hs' & G1 & G2 & G3 & G4 & G5).
    destruct G3 as (_ & A1 & A2 & _ & _ & _ & _ & A3).
    exists pa', [fr']. split; [exact E'|]. split; [exact Ho|]. eexists fr', wire, _, ca'.
    split; [done|]. split; [by apply (updates_knows _ _ _ _ _ _ _ _ K)|]. rewrite H2, H3 in Hm'. by split.
  - exists p', pa', fr', wire, apn, ca'. destruct H as (Hup & Hs' & Hm' & Ha).
    split; [done|]. split; [done|]. split; [done|]. split; [done|]. split; [done|].
    rewrite (sys_step_run _ _ _ _ _ E), (run_bind _ _ _ _ _ Ec). cbn [map concat]. by rewrite app_nil_r.
Qed.

Lemma round_session k ca0 ca pa p c up cm fr enb wire :
  pkt_ok p -> ids_ok c -> Ran.mme_s1ap_ue_id c = mme -> knows know S n mme ca pa -> is_Some (S !! n) ->
  sealed (enc_items (accepted_items n ca0)) wire -> s1ap_msg 3 enb mme wire fr ->
  exists p' pa' ca', pkt_ok p' /\
    updates know (alter (fun s => mk_session (s_tai s) (s_apn s) (s_ebi s) 0
      Amf.g_trafmon_ip_addr Amf.g_trafmon_port) n S) n mme ca' pa pa' /\
    (Amf.s1_uteid_dl ca' = n /\ Amf.emm_state ca' = 1 /\ Amf.ecm_state ca' = 1) /\
    sys_step inet_aton garbage h0 seg m xres0 k_asme0 fd wid Ran.set_eps_session k
      (mk_sys (ran_st a fdc p e hs c up (seg fr) [] cm) pa) =
    k (mk_sys (ran_st (a <| Ran.sgw_s1_ip_addr := "172.18.0.6" |> <| Ran.sgw_s1_port := 7100 |>) fdc p' e hs
         ((session_ctx_ran c (deployed_guti n) 5 5 n (u16 (Amf.nw_capability ca0)) [u64 (Amf.tai ca0)] 100
            (pool_ip n)) <| Ran.emm_state := 1 |> <| Ran.ecm_state := 1 |>)
         (TrafficMonitor.update_uplink_info (pool_ip n) n "172.18.0.6" 7100 up) [] [] cm) pa').
Proof.
  intros Hp Hids Hcm K HS Hs Hmsg. destruct (inbox_message _ _ _ _ _ Hmsg) as (hd & Hw & Hm & Hh).
  destruct (pool_ip_text n Hn) as [Hip Hlip].
  destruct (set_eps_session_run a fdc p e hs c up (seg fr) [] cm hd wire (deployed_guti n) 5 5 n
    (Amf.k_asme ca0) (Amf.nw_capability ca0) [Amf.tai ca0] 100 (pool_ip n) "172.18.0.6" 7100 [])
    as (p' & f & evs & w0 & Hp' & Hr & Hs0 & Hf & E); try done; [by eapply len_accepted | | lia |].
  { unfold nul_free. repeat constructor; discriminate. }
  apply holds_nil in Hr as ->. rewrite Hcm in Hf.
  change (u8 5) with 5 in *. change (s32 7100) with 7100 in *. change (u64 100) with 100 in *.
  rewrite (u64_id (deployed_guti n)) in E by (unfold deployed_guti; lia).
  rewrite (u32_id n) in E, Hs0 by lia. pose proof (len_sealed _ _ Hs0) as Hl.
  change (enc_size (len (enc_items [IU8 5; IU32 n]))) with 16 in Hl.
  destruct (pump_message (fun pa' frs => frs = [] /\ exists ca',
      updates know (alter (fun s => mk_session (s_tai s) (s_apn s) (s_ebi s) 0
        Amf.g_trafmon_ip_addr Amf.g_trafmon_port) n S) n mme ca' pa pa' /\
      (Amf.s1_uteid_dl ca' = n /\ Amf.emm_state ca' = 1 /\ Amf.ecm_state ca' = 1))
    _ _ _ _ _ pa (a <| Ran.sgw_s1_ip_addr := "172.18.0.6" |> <| Ran.sgw_s1_port := 7100 |>) fdc p' e hs
      ((session_ctx_ran c (deployed_guti n) 5 5 n (u16 (Amf.nw_capability ca0)) [u64 (Amf.tai ca0)] 100
            (pool_ip n)) <| Ran.emm_state := 1 |> <| Ran.ecm_state := 1 |>)
      (TrafficMonitor.update_uplink_info (pool_ip n) n "172.18.0.6" 7100 up) cm Hf)
    as (pa' & frs & [-> (ca' & Hup & Hca)] & Ec); [lia | |].
  - intros hd' H1 H2 H3 Hr. pose proof (knows_registered _ _ _ _ _ _ hd' K Hn Hmme H3) as R.
    pose proof K as (_ & _ & _ & Kc & Ko).
    destruct (on_attach_complete inet_aton garbage h0 know S m xres0 k_asme0 fd wid hd' n ca 5 n w0 pa
      Hr Hs0 R H1 HS Kc Ko) as (pa' & ca' & E' & Ho & G1 & G2 & (A1 & A2 & A3 & A4 & _) & G3 & G4).
    exists pa', []. split; [exact E'|]. split; [exact Ho|]. split; [done|]. exists ca'.
    split; [by apply (updates_knows _ _ _ _ _ _ _ _ K)|]. rewrite u32_id in A1 by lia. by split.
  - exists p', pa', ca'. split; [done|]. split; [done|]. split; [done|].
    rewrite (sys_step_run _ _ _ _ _ E). by rewrite (run_bind _ _ _ _ _ Ec).
Qed.
End Rounds.

(** ** Properties *)

(** C1: attach, end to end: a UE that claims a subscriber's IMSI, whatever its
    own key, attaches: the four exchanges with the AMF all succeed however
    the frames are segmented, and at the end both sides agree.  The UE has
    its identity, the address of the pool, the session's TEID and an entry in
    the traffic monitor; the AMF has one new entry in each table, registered
    and connected; the core has a session for the traffic monitor's address,
    with downlink TEID 0.  No step depends on [key], [rand] or the keys the
    two sides computed. *)
Theorem attach_end_to_end know S n key rand a fdc p e hs c up cm pa :
  pkt_ok p -> ids_ok c -> Ran.imsi c = deployed_imsi n -> 0 <= SctpClient.conn_fd fdc ->
  0 <= n < 10000 -> know (deployed_imsi n) key rand ->
  amf_config (Amf.amf pa) -> core_ok know S (Amf.net pa) -> 0 <= Amf.ue_count (Amf.amf pa) < 2 ^ 32 - 1 ->
  let mme := Amf.ue_count (Amf.amf pa) + 1 in
  exists a' p' c' pa' ca s,
    attach inet_aton garbage h0 seg m xres0 k_asme0 fd wid
      (mk_sys (ran_st a fdc p e hs c up [] [] cm) pa) =
    (Ret (Some true), mk_sys (ran_st a' fdc p' e hs c'
       (<[pool_ip n := TrafficMonitor.mk_info n "172.18.0.6" 7100]> up) [] [] cm) pa') /\
    pkt_ok p' /\ ids_ok c' /\
    (Ran.guti c' = deployed_guti n /\ Ran.mme_s1ap_ue_id c' = mme /\ Ran.ip_addr c' = pool_ip n /\
     Ran.s1_uteid_ul c' = n /\ Ran.s1_uteid_dl c' = n /\ Ran.emm_state c' = 1 /\ Ran.ecm_state c' = 1) /\
    Amf.s1amf_id (Amf.amf pa') = <[mme := deployed_guti n]> (Amf.s1amf_id (Amf.amf pa)) /\
    Amf.ue_ctx (Amf.amf pa') = <[deployed_guti n := ca]> (Amf.ue_ctx (Amf.amf pa)) /\
    (Amf.s1_uteid_dl ca = n /\ Amf.emm_state ca = 1 /\ Amf.ecm_state ca = 1) /\
    core_ok know (<[n := s]> S) (Amf.net pa') /\
    (s_enb_ip s = Amf.g_trafmon_ip_addr /\ s_enb_port s = Amf.g_trafmon_port /\ s_dl s = 0) /\
    amf_config (Amf.amf pa').
Proof.
  intros Hp Hids Hi Hfdc Hn Hk Hcfg Hcore Hcnt mme.
  destruct (round_attach know S n key rand pa a fdc p e hs c up cm Hp Hids Hi Hn Hk Hcfg Hcore)
    as (p1 & pa1 & f1 & ca1 & E1 & Hp1 & K1 & M1 & T1 & U1).
  replace (u32 (u64 (Amf.ue_count (Amf.amf pa) + 1))) with mme in *
    by (rewrite u64_id, u32_id by lia; done).
  assert (u32 mme = mme) as Hu by (apply u32_id; lia). assert (mme <> 0) as Hnz by lia.
  set (c1 := authenticated_ctx c mme (u64 (u64 (xres_of key rand + 1))) (u64 rand) (u64 1)).
  assert (ids_ok c1) as Hids1 by (split; [apply Hids | exact Hu]).
  edestruct (round_authenticate know S n mme Hn Hnz a fdc Hfdc e hs) as (p2 & pa2 & f2 & Hp2 & (K2 & T2 & U2) & M2 & E2);
    [exact Hp1 | exact Hids | exact K1 | exact M1 |].
  edestruct (round_security know S n mme Hn Hnz a fdc Hfdc e hs) as
    (p3 & pa3 & f3 & w3 & apn & ca3 & Hp3 & (K3 & T3 & U3) & Hs3 & M3 & _ & E3);
    [exact Hp2 | exact Hids1 | reflexivity | exact K2 | exact M2 |].
  set (c3 := ran_secured_ctx c1 (u64 (Amf.ksi_asme (secured_ctx ca1)))
    (u16 (Amf.nw_capability (secured_ctx ca1))) (u64 1) (u64 1)).
  edestruct (round_session know) with (c := c3) as (p4 & pa4 & ca4 & Hp4 & (K4 & T4 & U4) & Ha4 & E4);
    [exact Hn | exact Hnz | exact Hfdc | exact Hp3 | exact Hids1 | reflexivity | exact K3
    | apply lookup_insert_is_Some; by left | exact Hs3 | exact M3 |].
  eexists _, p4, _, pa4, ca4, _. split.
  { unfold attach. rewrite <- run_assoc. rewrite (run_bind _ _ _ _ _ E1). rewrite E2, E3, E4. reflexivity. }
  split; [exact Hp4|]. split; [exact Hids1|]. split; [by repeat split|].
  split; [by rewrite T4, T3, T2, T1|]. split; [by rewrite U4, U3, U2, U1, !insert_insert_eq|].
  split; [exact Ha4|]. destruct K4 as (_ & _ & _ & Kc & Ko). split.
  { unfold smf_step, smf_effect, n4_step in Ko. rewrite alter_insert_eq in Ko. exact Ko. }
  split; [by repeat split | exact Kc].
Qed.

(** C8: detach, end to end: the request of an attached UE and the AMF's answer
    fit together: there is a reply such that the AMF, served the UE's frame,
    sends exactly that reply, and the UE, reading it, reports success.
    Afterwards exactly the UE's entry is gone from each of the AMF's tables
    and exactly its session from the sessions of the SMF and the UPF;
    everything else is as it was when the request came. *)
Theorem detach_end_to_end know S n mme a fdc p e hs c up cm ca pa :
  pkt_ok p -> ids_ok c -> 0 <= SctpClient.conn_fd fdc -> 0 <= n < 10000 ->
  Ran.guti c = deployed_guti n -> Ran.mme_s1ap_ue_id c = mme -> mme <> 0 ->
  Amf.s1amf_id (Amf.amf pa) !! mme = Some (deployed_guti n) ->
  Amf.ue_ctx (Amf.amf pa) !! deployed_guti n = Some ca -> is_Some (S !! n) ->
  amf_config (Amf.amf pa) -> core_ok know S (Amf.net pa) ->
  exists request reply evs' p' pa',
    Ran.detach (ran_st a fdc p e hs c up (seg reply) [] cm) =
      (Ret (Some true), ran_st a fdc p' e hs c up [] [request] cm) /\
    Amf.handle_ue inet_aton garbage h0 m xres0 k_asme0 fd wid (seg request) pa =
      (Ret (Some (1, evs')), pa') /\
    answered fd pa pa' [reply] /\
    Amf.s1amf_id (Amf.amf pa') = delete mme (Amf.s1amf_id (Amf.amf pa)) /\
    Amf.ue_ctx (Amf.amf pa') = delete (deployed_guti n) (Amf.ue_ctx (Amf.amf pa)) /\
    core_ok know (delete n S) (Amf.net pa').
Proof.
  intros Hp Hids Hfdc Hn Hg Hm Hnz H1 H2 HS Hcfg Hcore.
  destruct (ran_detach_run p c Hp Hids) as (wire & request & Hs & Hreq & Hrun).
  rewrite Hg, Hm in *. destruct Hreq as (hd & Hw & T1 & _ & T3 & ->).
  pose proof (len_sealed _ _ Hs) as Hl. change (len (enc_items _)) with 24 in Hl.
  change (enc_size 24) with 32 in Hl. destruct (Hseg (s1ap_frame hd wire)) as [_ Hd].
  assert (arrives fd wid hd wire (seg (s1ap_frame hd wire)) []) as Ha.
  { do 3 (split; [done|]). split; [lia|]. by rewrite Hd, app_nil_r. }
  destruct (on_detach inet_aton garbage h0 know S m xres0 k_asme0 fd wid hd n ca (Ran.ksi_asme c) 1 wire pa)
    as (pa' & reply & wire' & E & Ho & (hd' & Hw' & _ & _ & _ & ->) & Hs' & G1 & G2 & G3 & G4); try done.
  { by eapply arrives_readable. }
  { split; [done|]. split; [congruence|]. by rewrite T3. }
  destruct (on_arrival inet_aton garbage h0 _ _ _ _ _ _ _ _ _ _ _ Ha E) as (evs' & _ & Eu).
  destruct (Hrun a fdc e hs up (seg (s1ap_frame hd' wire')) [] cm hd' true wire' [] Hfdc Hw' Hs')
    as (p' & evs & Hp' & Hr & E'); [rewrite app_nil_r; apply Hseg|]. apply holds_nil in Hr as ->.
  rewrite T3 in G1. exists (s1ap_frame hd wire), (s1ap_frame hd' wire'), evs', p', pa'.
  split; [exact E'|]. by repeat (split; [done|]).
Qed.
End Runs.

(** ** The UE against the AUSF *)

(** C7: the UE's key plays no part in its authentication: to the challenge the
    AUSF makes for a subscriber, any UE answers with the expected response
    XRES, whether its key is the subscriber's or not.  The UE and the AUSF
    never agree on [k_asme] all the same: the UE adds the PLMN identity 11
    where the AUSF, its arguments swapped, adds the number of vectors 1. *)
Theorem any_ue_gives_the_expected_response `{CL : CryptoLib, LAWS : !CryptoLaws}
    a fdc p e hs c up evs o cm hd key rand rest :
  pkt_ok p -> ids_ok c -> 0 <= SctpClient.conn_fd fdc -> S1ap.wf hd -> Ran.plmn_id c = 11 ->
  0 <= rand < 2 ^ 64 ->
  holds evs (s1ap_frame hd (enc_items [IU64 (u64 (xres_of key rand + 1)); IU64 rand; IU64 1]) ++ rest) ->
  exists p' fr evs' c',
    Ran.authenticate (ran_st a fdc p e hs c up evs o cm) =
      (Ret (Some true), ran_st a fdc p' e hs c' up evs' (o ++ [fr]) cm) /\
    s1ap_msg 2 (Ran.enodeb_s1ap_ue_id c) (S1ap.mme_s1ap_ue_id hd) (enc_items [IU64 (xres_of key rand)]) fr /\
    Ran.k_asme c' = u64 (k_asme_of key rand 1 + 10) /\ Ran.k_asme c' <> k_asme_of key rand 1.
Proof.
  intros Hp Hids Hfd Hw Hplmn Hr Hd.
  destruct (authenticate_run a fdc p e hs c up evs o cm hd _ _ _ _ Hp Hids Hfd Hw Hd)
    as (p' & fr & evs' & _ & _ & Hm & E).
  assert (u64 (u64 (u64 (xres_of key rand + 1)) - 1) = xres_of key rand) as Ex.
  { unfold xres_of, u64. rewrite Zmod_mod, Zminus_mod_idemp_l, Z.add_simpl_r. apply Zmod_mod. }
  rewrite Ex in Hm. eexists p', fr, evs', _. split; [exact E|]. split; [exact Hm|].
  assert (Ran.k_asme (authenticated_ctx c (S1ap.mme_s1ap_ue_id hd) (u64 (u64 (xres_of key rand + 1)))
            (u64 rand) (u64 1)) = u64 (k_asme_of key rand 1 + 10)) as Ek.
  { change (ran_k_asme (u64 (u64 (xres_of key rand + 1))) (u64 rand) (Ran.plmn_id c) =
            u64 (k_asme_of key rand 1 + 10)).
    unfold ran_k_asme. rewrite Ex, Hplmn, (u64_id rand) by done.
    unfold k_asme_of, xres_of. wrap. }
  split; [exact Ek|]. rewrite Ek. generalize (k_asme_of key rand 1). intros k H. unfold u64 in H.
  pose proof (Z.div_mod (k + 10) (2 ^ 64) ltac:(lia)). lia.
Qed.

(** *** Witnesses: on the deployment of Core.v *)

(** A UE that claims to be subscriber 1 with a key of its own. *)
Definition impostor : Ran.RanContext := (demo_ran_ctx 1) <| Ran.key := 99 |>.

Lemma attach_end_to_end_witness :
  exists s', attach core_aton amf_garbage zero_hdrs one_segment no_grpc 111 222 5 0
    (mk_sys (demo_ran [] impostor) (Amf.mk_proc demo_amf demo_core [])) = (Ret (Some true), s') /\
    Ran.ip_addr (Ran.ran_ctx (Ran.ran (ue s'))) = "172.16.1.4" /\
    Amf.s1amf_id (Amf.amf (amf s')) = <[1 := deployed_guti 1]> ∅.
Proof.
  destruct (attach_end_to_end core_aton amf_garbage zero_hdrs one_segment one_segment_holds no_grpc 111 222
    5 0 ltac:(lia) ltac:(lia) demo_know ∅ 1 1 20 Ran.construct_addrs demo_client (rd zero_hdrs [] []) 0 0
    impostor ∅ [] (Amf.mk_proc demo_amf demo_core []))
    as (a' & p' & c' & pa' & ca & s & E & _ & _ & (_ & _ & Hip & _) & Ht & _).
  - split; [reflexivity | by repeat split].
  - by split.
  - reflexivity.
  - discriminate.
  - lia.
  - split; [split; split; vm_compute; discriminate|]. by eexists.
  - apply demo_amf_config.
  - apply demo_core_ok.
  - vm_compute. split; [discriminate | reflexivity].
  - eexists. split; [exact E|]. split; [exact Hip | exact Ht].
Defined.

Lemma detach_end_to_end_witness :
  exists request reply p' pa',
    Ran.detach (demo_ran (one_segment reply)
      ((demo_ran_ctx 1) <| Ran.guti := deployed_guti 1 |> <| Ran.mme_s1ap_ue_id := 7 |>)) =
      (Ret (Some true), p') /\ Ran.out p' = [request] /\
    Amf.ue_ctx (Amf.amf pa') !! deployed_guti 1 = None /\
    smf_sessions (delete 1 demo_s) (Amf.net pa').
Proof.
  destruct (detach_end_to_end core_aton amf_garbage zero_hdrs one_segment one_segment_holds no_grpc 0 0
    5 0 ltac:(lia) ltac:(lia) demo_know demo_s 1 7 Ran.construct_addrs demo_client (rd zero_hdrs [] []) 0 0
    ((demo_ran_ctx 1) <| Ran.guti := deployed_guti 1 |> <| Ran.mme_s1ap_ue_id := 7 |>) ∅ [] demo_ue
    demo_connected) as (request & reply & evs' & p' & pa' & E & _ & _ & _ & Hc & (Hs & _)).
  - split; [reflexivity | by repeat split].
  - by split.
  - discriminate.
  - lia.
  - reflexivity.
  - reflexivity.
  - discriminate.
  - reflexivity.
  - reflexivity.
  - by eexists.
  - apply demo_amf_config.
  - apply demo_core1_ok.
  - eexists request, reply, _, pa'. split; [exact E|]. split; [reflexivity|]. split; [|exact Hs].
    rewrite Hc. apply lookup_delete_eq.
Defined.

Lemma any_ue_gives_the_expected_response_witness :
  exists fr s', Ran.authenticate (demo_ran (segment (demo_hd 1 7)
      (enc_items [IU64 (u64 (xres_of 1 20 + 1)); IU64 20; IU64 1])) impostor) = (Ret (Some true), s') /\
    Ran.out s' = [fr] /\ s1ap_msg 2 1 7 (enc_items [IU64 (xres_of 1 20)]) fr.
Proof.
  destruct (any_ue_gives_the_expected_response Ran.construct_addrs demo_client (rd zero_hdrs [] []) 0 0
    impostor ∅ (segment (demo_hd 1 7) (enc_items [IU64 (u64 (xres_of 1 20 + 1)); IU64 20; IU64 1])) [] []
    (demo_hd 1 7) 1 20 []) as (p' & fr & evs' & c' & E & Hm & _).
  - split; [reflexivity | by repeat split].
  - by split.
  - discriminate.
  - by repeat split.
  - reflexivity.
  - lia.
  - apply one_segment_holds.
  - eexists fr, _. split; [exact E|]. split; [reflexivity | exact Hm].
Defined.
